(* ===== verification/_CoqProject ===== *)
-Q . S2P
Prelude.v
Machine.v
State.v
Mmu.v
Window.v
PageSource.v
Vga.v
MemMap.v
MemLib.v
Descriptors.v
Devices.v
Paging.v
Heap.v
UserMap.v
Process.v
Switch.v
Spawn.v
Elf.v
Syscall.v
Fork.v
Exec.v
Launch.v
Kernel.v
Timer.v
Keys.v
Stubs.v
Fault.v
Handover.v
Boot.v
Start.v
UserSpace.v
CommandLine.v
Calls.v
Reachable.v
