(* ===== verification/Prelude.v ===== *)
(** * mini_kernel: a verification of the kernel's C code

    mini_kernel (src/) is a 32-bit x86 kernel: a boot sector, C code for
    memory, processes, drivers and an ELF loader, a few assembly stubs and some
    user programs.  This development models the C code of src/kernel and src/user
    and proves what its parts do, alone and together.

    ** The model

    [Machine] is the hardware: physical memory as bytes, the control registers
    of paging, the page walk of the processor ([translate]), devices that
    answer port reads, and a trace of privileged operations.  [State] is the
    whole state [kst]: the machine and the C globals, a record per C file.  A C
    function is a value of [K A = kst -> outcome A]; an outcome is a result, or
    one of the ways control leaves C: a page fault, [restore_esp] into a
    process ([Switched]), [cli; hlt], an endless loop, undefined behaviour, or
    a loop without fuel.  Every load and store goes byte by byte through
    [translate], so aliasing, unmapped addresses and writes into the page
    tables are what they are on the machine.  Data that the C code reaches
    through pointers (heap blocks, processes, register frames, page tables,
    ELF files, the screen) is in memory and nowhere else; scalars and arrays
    with a name are fields of [kst].  Integers are [Z] with the wrap-around of
    their C type written out ([u8], [u16], [u32], [u64], [s32] below).

    ** Files, in the order of the dependencies

    - Prelude: integers, lists, hints.  Machine, State: above.
    - Mmu, Window: reasoning about memory.  [window s W]: the virtual addresses
      [W] are mapped one to one outside the page tables; [stores A s s']: only
      the bytes [A] differ.  [touches] is [stores] with other globals.
    - PageSource: the interface (a class) between the page allocator and the
      heap.  Paging implements it; Heap is proved against it.
    - Vga: kernel/vga.c.  [Screen] is an abstract console; the drawing
      functions refine it.
    - MemMap: allocate and free of kernel/pmm.c on the BIOS memory map, refined
      to best fit and coalescing on lists ([Spec]); the status of every byte.
    - MemLib: memset, memcpy.  Descriptors: kernel/tss.c, kernel/idt.c.
      Devices: kernel/keyboard.c, kernel/pit.c.
    - Paging: page tables and virtual pages of kernel/pmm.c.  [pages limit s W]
      is the invariant of the allocator, with [W] in use.  UserMap: the same for
      pages a program chooses above 4 MiB ([userland]).
    - Heap: kmalloc and kfree, on the list of blocks in memory ([heap_list]).
    - Process: kernel/process.c (all definitions) and the scheduler on the list
      of processes in memory ([procs_list]).  Switch: context_switch and
      exit_process.  Spawn: create_process, over heap, pages and list.
    - Elf: kernel/elf.c.  Syscall: kernel/syscall.c (all definitions; exit, wait,
      sleep).  Fork: sys_fork.  Exec: sys_exec.  Launch: create_elf_process of
      kernel/elf.c, over create_process, the loader and the mapping of a stack;
      [kernel_up] is what the three need of each other.
    - Kernel: kernel/kernel.c (all definitions).  Timer, Keys: the timer and the
      keyboard interrupt.
    - Stubs: kernel/irqo.asm, keyboard_isr.asm, sycall_handeler.asm,
      exception.asm and restore_esp.asm.  A [context] is the registers of a
      program; a stub pushes it, calls its handler and pops the one that is
      there then.  Fault: exceptions, from the stub to the report.
    - Handover: the first interrupt of user code, which is pushed on the stack
      of the kernel.  Boot, Start: the choice of mode, and the whole of kernel()
      up to the first process and the first interrupt.
    - UserSpace: src/user, against the interface [Trap] of int 0x80, and
      [kernel_trap], the trap the kernel implements (the processor's push,
      kernel/sycall_handeler.asm and syscall_dispatch).  CommandLine: the shell.
      Calls: user_fork through [kernel_trap], on both sides of the fork.
    - Reachable: the invariant of the kernel's tables, and that all functions
      keep it.

    A C function [f] of kernel/x.c is the definition [f] of the module for that
    file; a loop is a definition of its own when a theorem speaks about it
    ([find_best], [wait_loop], ...).

    ** What the theorems show

    - Memory: allocate is best fit and cuts its answer off a free region (at
      4 GiB and above the answer is not the address), free gives the region back
      and coalesces, the map stays well formed under any sequence of calls, and
      freeing undoes allocating.
    - Paging: after the start the first 4 MiB are mapped to themselves; map_page
      changes one translation and the tables only; allocate_page gives a fresh
      page backed by an unused frame while the virtual pages last; get_map is the translation of the
      processor.
    - Heap: kmalloc is best fit with splitting, grows by a page, kfree makes the
      block free again; where no block is lost, the two cancel.
    - Processes: schedule is round robin; context_switch stores the frame and
      goes on in the next process; create_process adds a process that starts as
      its arguments say; exit_process, sys_sleep, sys_wait and their effects;
      what a child exits with is what the parent's sys_wait gives; a tick of the
      timer wakes and preempts; no ready process starves.
    - The stubs: under the timer every process finds its registers as it left
      them, whatever the others do with theirs ([timer_shares_processor]).
      Where that fails, for kernel processes and under keys, is a theorem too.
      An exception prints what the processor has pushed and halts.
    - The start: kernel() maps memory, opens the heap, loads the embedded
      program, makes the second process and enters the first one in user mode
      at its entry point ([kernel_boots]), with only the timer going.  The first
      interrupt leads to the second process and into the state of
      [timer_shares_processor] ([boot_reaches_sharing]).
    - fork and exec: sys_fork gives the child the registers and the stack of its
      parent, with the saved frame pointers moved, if the parent has the stack of
      create_process; seen from the program,
      user_fork returns the pid of the child in the parent and 0 in the child.
      sys_exec puts a program in place and the frame of the caller at its entry.
    - Programs: check_elf_supported accepts exactly the headers it means to and
      says which test has failed for the others; elf_load_file puts every segment in place; create_elf_process makes a
      process of a file, ready for user mode.
    - Console and keys: the drawing functions refine the abstract console; a
      typed line arrives in [command]; the shell compares it, runs hello if it is
      that, and starts the next line.
    - The tables: in every state that can be reached, by any order of start,
      interrupts, calls and tasks, the map and the recycled pages are inside
      their arrays, the live regions are well formed, user code may call vector
      0x80 only, and every gate leads to the kernel's code segment.
    - The limits the code does not check: the video memory, kmalloc near 4096
      bytes, running out of memory, bases above 4 GiB, the 128 bytes of
      [command].  These are theorems too.

    ** Bounds and fuel

    Loops with a counter are folds over [seqZ].  Loops that follow pointers or
    wait take [Fuel]; the theorems assume that it exceeds the length of the list
    (heap, processes, program headers) or 300 for the ticks of switch_mode, and
    conclude that the code returns.  [stocked n] and [frames_below n] say that
    the next [n] calls of allocate find a frame, and one below 4 MiB: the code
    clears a new page table through its physical address.  Theorems about pages
    take the limit of the virtual pages as a parameter below 4 MiB.  In the heap
    and above it is [page_limit], 0x8F000: the kernel starts on the stack below
    0x90000, and the code does not keep allocate_page from handing it out.

    ** What is not modelled

    - The assembly that runs once: the boot sector, kernel_entry, gdt_flush and
      tss_flush; enter_user_mode, which has no caller.  The stack pointer of the
      C code is not part of the state, nor are the segment registers the stubs
      load for it: its local variables are values of the model.
    - Machine code of user programs.  Between two ticks they may do anything that
      leaves the process records alone (Timer); their C code is in UserSpace,
      with the addresses the linker chooses as the class [UserImage].
    - Interrupts inside the C code: they come where the code waits ([hlt]), as
      the parameter [interrupt].  Start asks them to leave alone all but the
      screen, the keys and the ticks ([restful]), and proves that the timer does.
    - Layout of the image: the addresses of objects are the class [Layout] with
      what link.ld guarantees ([LayoutOk]).  Variables with a name are not bytes
      in it: that programs leave them alone is assumed where they run (the
      first 4 MiB are mapped writable for user code).  The BIOS memory map is a list in
      [kst], not bytes at 0x504.
    - The TLB: invlpg is recorded in the trace and translations are never stale.
    - kernel/tests.c and user/user_test.c, which call the components and print.
    - The BIOS mode of kernel() has a definition ([stay_in_bios]) and no theorem
      beyond that it keeps the tables sound: it allocates before the allocator is set up. *)

From stdpp Require Export base tactics option list numbers gmap.
From Stdlib Require Export ZArith Lia ZifyBool.

#[global] Open Scope Z_scope.

#[global] Arguments Z.add : simpl never.
#[global] Arguments Z.sub : simpl never.
#[global] Arguments Z.mul : simpl never.
#[global] Arguments Z.land : simpl never.
#[global] Arguments Z.lor : simpl never.
#[global] Arguments Z.of_nat : simpl never.
#[global] Arguments Z.ltb : simpl never.
#[global] Arguments Z.leb : simpl never.
#[global] Arguments Z.eqb : simpl never.

(** The lemmas that close the common side conditions. *)
Create HintDb kern.
(** The rewriting rules that normalise fixed-width arithmetic. *)
Create Rewrite HintDb width.

(** * Fixed-width integers

    A C value of an unsigned [w]-bit type is a [Z] in [0, 2^w); the wrap-around
    of an operation is written out with these functions. *)

Definition u8 (z : Z) : Z := z mod 2 ^ 8.
Definition u16 (z : Z) : Z := z mod 2 ^ 16.
Definition u32 (z : Z) : Z := z mod 2 ^ 32.
Definition u64 (z : Z) : Z := z mod 2 ^ 64.

(** Conversion of a 32-bit pattern to [int] (two's complement). *)
Definition s32 (z : Z) : Z :=
  if u32 z <? 2 ^ 31 then u32 z else u32 z - 2 ^ 32.

Definition in_u8 (z : Z) : Prop := 0 <= z < 2 ^ 8.
Definition in_u16 (z : Z) : Prop := 0 <= z < 2 ^ 16.
Definition in_u32 (z : Z) : Prop := 0 <= z < 2 ^ 32.
Definition in_u64 (z : Z) : Prop := 0 <= z < 2 ^ 64.

Ltac unfold_width :=
  unfold in_u8, in_u16, in_u32, in_u64, u8, u16, u32, u64 in *.

(** [lia] with division and remainder by constants, everywhere below. *)
Ltac Zify.zify_post_hook ::=
  ZifyBool.elim_bool_cstr; Z.to_euclidean_division_equations.

(** Linear goals that mention the width functions. *)
Ltac width_lia := unfold_width; lia.

Lemma u8_small z : in_u8 z -> u8 z = z.
Proof. intros H. by apply Z.mod_small. Qed.
Lemma u16_small z : in_u16 z -> u16 z = z.
Proof. intros H. by apply Z.mod_small. Qed.
Lemma u32_small z : in_u32 z -> u32 z = z.
Proof. intros H. by apply Z.mod_small. Qed.
Lemma u64_small z : in_u64 z -> u64 z = z.
Proof. intros H. by apply Z.mod_small. Qed.

Lemma u8_range z : in_u8 (u8 z).
Proof. by apply Z.mod_pos_bound. Qed.
Lemma u16_range z : in_u16 (u16 z).
Proof. by apply Z.mod_pos_bound. Qed.
Lemma u32_range z : in_u32 (u32 z).
Proof. by apply Z.mod_pos_bound. Qed.
Lemma u64_range z : in_u64 (u64 z).
Proof. by apply Z.mod_pos_bound. Qed.

Lemma u32_idemp z : u32 (u32 z) = u32 z.
Proof. apply u32_small, u32_range. Qed.
Lemma u8_idemp z : u8 (u8 z) = u8 z.
Proof. apply u8_small, u8_range. Qed.

Lemma u32_add_l a b : u32 (u32 a + b) = u32 (a + b).
Proof. unfold u32. by rewrite Zplus_mod_idemp_l. Qed.
Lemma u32_add_r a b : u32 (a + u32 b) = u32 (a + b).
Proof. unfold u32. by rewrite Zplus_mod_idemp_r. Qed.

Lemma s32_small z : 0 <= z < 2 ^ 31 -> s32 z = z.
Proof.
  intros H. unfold s32. rewrite u32_small by (unfold in_u32; lia).
  by rewrite (proj2 (Z.ltb_lt z (2 ^ 31))) by lia.
Qed.

#[export] Hint Resolve u8_range u16_range u32_range u64_range : kern.
#[export] Hint Rewrite u32_idemp u8_idemp u32_add_l u32_add_r : width.
#[export] Hint Rewrite u8_small u16_small u32_small u64_small
  using (unfold_width; lia) : width.

(** * Bits of page addresses *)

Definition PAGE_SIZE : Z := 4096.

(** [x & 0xFFFFF000] *)
Definition page_base (x : Z) : Z := Z.land x 0xFFFFF000.

Lemma land_ones_mod x n : 0 <= n -> Z.land x (2 ^ n - 1) = x mod 2 ^ n.
Proof.
  intros Hn. rewrite <- Z.land_ones by done. f_equal.
  rewrite Z.ones_equiv. lia.
Qed.

Lemma land_1 x : Z.land x 1 = x mod 2.
Proof. apply (land_ones_mod x 1). lia. Qed.
Lemma land_0xFFF x : Z.land x 0xFFF = x mod 4096.
Proof. apply (land_ones_mod x 12). lia. Qed.
Lemma land_0x3FF x : Z.land x 0x3FF = x mod 1024.
Proof. apply (land_ones_mod x 10). lia. Qed.
Lemma land_0xFF x : Z.land x 0xFF = x mod 256.
Proof. apply (land_ones_mod x 8). lia. Qed.
Lemma land_0xFFFF x : Z.land x 0xFFFF = x mod 65536.
Proof. apply (land_ones_mod x 16). lia. Qed.
Lemma land_0xF x : Z.land x 0xF = x mod 16.
Proof. apply (land_ones_mod x 4). lia. Qed.

Lemma testbit_above x n k : 0 <= x < 2 ^ n -> 0 <= n <= k -> Z.testbit x k = false.
Proof.
  intros Hx Hk. rewrite <- (Z.mod_small x (2 ^ n)) by done.
  apply Z.mod_pow2_bits_high. lia.
Qed.

(** Masking the low [n] bits of a [w]-bit value rounds it down. *)
Lemma land_high_mask x n w :
  0 <= n <= w -> 0 <= x < 2 ^ w ->
  Z.land x (Z.shiftl (Z.ones (w - n)) n) = x - x mod 2 ^ n.
Proof.
  intros Hn Hx.
  assert (Z.land x (Z.shiftl (Z.ones (w - n)) n) = Z.ldiff x (Z.ones n)) as ->.
  { apply Z.bits_inj'. intros k Hk. rewrite Z.land_spec, Z.ldiff_spec.
    destruct (decide (w <= k)).
    { rewrite (testbit_above x w) by lia. done. }
    f_equal. rewrite Z.shiftl_spec by done.
    destruct (decide (k < n)).
    - rewrite Z.testbit_neg_r, Z.ones_spec_low by lia. done.
    - rewrite Z.ones_spec_low, Z.ones_spec_high by lia. done. }
  rewrite Z.ldiff_ones_r by lia.
  rewrite Z.shiftr_div_pow2, Z.shiftl_mul_pow2 by lia.
  rewrite (Z.mod_eq x (2 ^ n)) by (apply Z.pow_nonzero; lia). lia.
Qed.

Lemma page_base_eq x : in_u32 x -> page_base x = x - x mod 4096.
Proof. intros Hx. apply (land_high_mask x 12 32); [lia | done]. Qed.

(** Or-ing flag bits into an aligned address is an addition. *)
Lemma lor_aligned a f n :
  0 <= n -> a mod 2 ^ n = 0 -> 0 <= f < 2 ^ n -> Z.lor a f = a + f.
Proof.
  intros Hn Ha Hf. rewrite <- (Z.add_lor_land a f).
  assert (Z.land a f = 0) as ->; [|lia].
  apply Z.bits_inj'. intros k Hk. rewrite Z.land_spec, Z.bits_0.
  destruct (decide (n <= k)).
  - rewrite (testbit_above f n) by lia. apply andb_false_r.
  - rewrite <- (Z.mod_pow2_bits_low a n k) by lia. by rewrite Ha, Z.bits_0.
Qed.

Lemma lor_u32 a b : in_u32 a -> in_u32 b -> in_u32 (Z.lor a b).
Proof.
  intros Ha Hb. unfold_width. split; [apply Z.lor_nonneg; lia|].
  destruct (decide (Z.lor a b < 2 ^ 32)) as [|Hge]; [done|exfalso].
  assert (0 <= Z.lor a b) by (apply Z.lor_nonneg; lia).
  assert (32 <= Z.log2 (Z.lor a b)) by (apply Z.log2_le_pow2; lia).
  assert (Z.testbit (Z.lor a b) (Z.log2 (Z.lor a b)) = true) as Hb1
    by (apply Z.bit_log2; lia).
  rewrite Z.lor_spec, !(testbit_above _ 32) in Hb1 by lia. done.
Qed.

Lemma page_base_range x : in_u32 x -> in_u32 (page_base x).
Proof. intros Hx. rewrite page_base_eq by done. width_lia. Qed.
Lemma page_base_aligned x : in_u32 x -> page_base x mod 4096 = 0.
Proof. intros Hx. rewrite page_base_eq by done. width_lia. Qed.
Lemma page_base_flags a f :
  in_u32 a -> a mod 4096 = 0 -> 0 <= f < 4096 -> page_base (Z.lor a f) = a.
Proof.
  intros Ha Hal Hf. rewrite (lor_aligned a f 12) by (try done; lia).
  rewrite page_base_eq by width_lia. width_lia.
Qed.
Lemma lor_flags a f :
  a mod 4096 = 0 -> 0 <= f < 4096 -> Z.lor a f = a + f.
Proof. intros. by apply (lor_aligned a f 12). Qed.

#[export] Hint Resolve page_base_range page_base_aligned lor_u32 : kern.

(** * Lists *)

Lemma lookup_seqZ_total m n (k : nat) :
  Z.of_nat k < n -> seqZ m n !! k = Some (m + Z.of_nat k).
Proof. intros. apply lookup_seqZ. lia. Qed.

Lemma lookup_reverse_seqZ m n (k : nat) :
  Z.of_nat k < n -> reverse (seqZ m n) !! k = Some (m + n - 1 - Z.of_nat k).
Proof.
  intros H. rewrite reverse_lookup by (rewrite length_seqZ; lia).
  rewrite length_seqZ. apply lookup_seqZ. lia.
Qed.

(** Replacing one cell by two. *)
Lemma lookup_splice {A} (l : list A) i (x y : A) j :
  (i < length l)%nat ->
  (take i l ++ x :: y :: drop (S i) l) !! j =
  if decide (j < i)%nat then l !! j
  else if decide (j = i) then Some x
  else if decide (j = S i) then Some y
  else l !! (j - 1)%nat.
Proof.
  intros Hi. repeat case_decide; subst.
  - rewrite lookup_app_l by (rewrite length_take; lia). by rewrite lookup_take_lt.
  - rewrite lookup_app_r by (rewrite length_take; lia).
    by rewrite length_take_le, Nat.sub_diag by lia.
  - rewrite lookup_app_r by (rewrite length_take; lia).
    rewrite length_take_le by lia. by replace (S i - i)%nat with 1%nat by lia.
  - rewrite lookup_app_r by (rewrite length_take; lia).
    rewrite length_take_le by lia.
    replace (j - i)%nat with (S (S (j - i - 2)))%nat by lia. simpl.
    rewrite lookup_drop. f_equal. lia.
Qed.

Lemma lookup_delete_list {A} (l : list A) i j :
  delete i l !! j = if decide (j < i)%nat then l !! j else l !! S j.
Proof.
  case_decide; [by apply list_lookup_delete_lt | apply list_lookup_delete_ge; lia].
Qed.

(** Searching a list with a boolean test. *)
Lemma find_app {A} (f : A -> bool) l1 l2 :
  List.find f (l1 ++ l2) =
  match List.find f l1 with Some x => Some x | None => List.find f l2 end.
Proof. induction l1 as [|x l1 IH]; simpl; [done|]. by destruct (f x). Qed.

Lemma find_split {A} (f : A -> bool) l x :
  List.find f l = Some x ->
  exists a b, l = a ++ x :: b /\ f x = true /\ forall y, y ∈ a -> f y = false.
Proof.
  induction l as [|y l IH]; simpl; [done|]. destruct (f y) eqn:Hy.
  - intros [= ->]. exists [], l. split_and!; [done|done|]. by intros z ?%elem_of_nil.
  - intros (a & b & -> & Hx & Ha)%IH. exists (y :: a), b. split_and!; [done|done|].
    intros z [->|Hz]%elem_of_cons; [done|by apply Ha].
Qed.

Lemma find_none_iff {A} (f : A -> bool) l :
  List.find f l = None <-> forall y, y ∈ l -> f y = false.
Proof.
  induction l as [|y l IH]; simpl; [split; [by intros _ y ?%elem_of_nil|done]|].
  destruct (f y) eqn:Hy.
  - split; [done|]. intros H. rewrite H in Hy; [done|apply elem_of_cons; by left].
  - rewrite IH. split; intros H z; [intros [->|Hz]%elem_of_cons; [done|by apply H]|].
    intros Hz. apply H, elem_of_cons. by right.
Qed.

Lemma find_ext {A} (f g : A -> bool) l :
  (forall y, y ∈ l -> f y = g y) -> List.find f l = List.find g l.
Proof.
  induction l as [|y l IH]; simpl; [done|]. intros H.
  rewrite H, IH; [done| |apply elem_of_cons; by left].
  intros z Hz. apply H, elem_of_cons. by right.
Qed.
