(* ===== verification/Machine.v ===== *)
(** The machine under the kernel: byte-addressed physical memory, the port
    space, and the two-level page walk of a 32-bit x86 with 4 KiB pages.

    Only what the C code and its short assembly helpers observe is here: the
    contents of memory, [cr3], the paging bit of [cr0], the answers of the
    devices and the trace of the privileged operations performed. *)

From S2P Require Import Prelude.

(** What the kernel does to the machine besides memory accesses. *)
Inductive event :=
  | Outb (port value : Z)
  | Inb (port : Z)
  | Cli
  | Sti
  | Hlt
  | Invlpg (virtual : Z)
  | LoadPageDirectory (directory : Z)
  | EnablePaging
  | Lidt (ptr : Z)
  | GdtFlush (gp : Z)
  | TssFlush.

Set Primitive Projections.
(** [device port n] is the byte the [n]-th port read of the run returns when it
    addresses [port]; [reads] counts the port reads done. *)
Record machine := Machine {
  ram : gmap Z Z;
  paging : bool;
  cr3 : Z;
  device : Z -> nat -> Z;
  reads : nat;
  trace : list event
}.
Unset Primitive Projections.

Definition set_ram (f : gmap Z Z -> gmap Z Z) (m : machine) : machine :=
  Machine (f (ram m)) (paging m) (cr3 m) (device m) (reads m) (trace m).
Definition emit (e : event) (m : machine) : machine :=
  Machine (ram m) (paging m) (cr3 m) (device m) (reads m) (e :: trace m).

(** * Physical memory *)

Definition phys8 (m : machine) (pa : Z) : Z := u8 (default 0 (ram m !! pa)).
Definition set_phys8 (pa v : Z) (m : machine) : machine :=
  set_ram (fun r => <[pa := u8 v]> r) m.

(** The little-endian word at four given byte addresses. *)
Definition word_of (b0 b1 b2 b3 : Z) : Z :=
  b0 + 2 ^ 8 * b1 + 2 ^ 16 * b2 + 2 ^ 24 * b3.
Definition byte_of (k v : Z) : Z := u8 (Z.shiftr v (8 * k)).

Definition phys32 (m : machine) (pa : Z) : Z :=
  word_of (phys8 m pa) (phys8 m (pa + 1)) (phys8 m (pa + 2)) (phys8 m (pa + 3)).
Definition set_phys32 (pa v : Z) (m : machine) : machine :=
  set_phys8 (pa + 3) (byte_of 3 v)
    (set_phys8 (pa + 2) (byte_of 2 v)
      (set_phys8 (pa + 1) (byte_of 1 v)
        (set_phys8 pa (byte_of 0 v) m))).

Lemma phys8_range m pa : in_u8 (phys8 m pa).
Proof. apply u8_range. Qed.
#[export] Hint Resolve phys8_range : kern.

Lemma phys8_set8 m pa v pb :
  phys8 (set_phys8 pa v m) pb = if decide (pa = pb) then u8 v else phys8 m pb.
Proof.
  unfold phys8, set_phys8; simpl. rewrite lookup_insert.
  case_decide; simpl; [apply u8_idemp | done].
Qed.
Lemma phys8_set8_eq m pa v : phys8 (set_phys8 pa v m) pa = u8 v.
Proof. rewrite phys8_set8. by case_decide. Qed.
Lemma phys8_set8_ne m pa v pb :
  pa <> pb -> phys8 (set_phys8 pa v m) pb = phys8 m pb.
Proof. intros. rewrite phys8_set8. by case_decide. Qed.

Lemma word_of_range b0 b1 b2 b3 :
  in_u8 b0 -> in_u8 b1 -> in_u8 b2 -> in_u8 b3 -> in_u32 (word_of b0 b1 b2 b3).
Proof. unfold_width. unfold word_of. lia. Qed.

Lemma word_of_bytes v :
  word_of (byte_of 0 v) (byte_of 1 v) (byte_of 2 v) (byte_of 3 v) = u32 v.
Proof.
  unfold word_of, byte_of, u8, u32. rewrite !Z.shiftr_div_pow2 by lia.
  change (8 * 0) with 0; change (8 * 1) with 8; change (8 * 2) with 16;
    change (8 * 3) with 24.
  lia.
Qed.

Lemma byte_of_u8 k v : u8 (byte_of k v) = byte_of k v.
Proof. apply u8_idemp. Qed.

Lemma phys32_range m pa : in_u32 (phys32 m pa).
Proof. apply word_of_range; apply phys8_range. Qed.
#[export] Hint Resolve phys32_range : kern.

Lemma phys8_set32_out m pa v pb :
  pb < pa \/ pa + 4 <= pb -> phys8 (set_phys32 pa v m) pb = phys8 m pb.
Proof. intros. unfold set_phys32. rewrite !phys8_set8_ne by lia. done. Qed.

Lemma phys32_set32_eq m pa v : phys32 (set_phys32 pa v m) pa = u32 v.
Proof.
  rewrite <- word_of_bytes. unfold phys32, set_phys32.
  f_equal; repeat first [rewrite phys8_set8_eq | rewrite phys8_set8_ne by lia];
    apply byte_of_u8.
Qed.

Lemma phys32_ext m m' pa :
  (forall k, 0 <= k < 4 -> phys8 m' (pa + k) = phys8 m (pa + k)) ->
  phys32 m' pa = phys32 m pa.
Proof.
  intros H. unfold phys32.
  pose proof (H 0 ltac:(lia)) as H0. rewrite Z.add_0_r in H0.
  rewrite H0, !H by lia. done.
Qed.

Lemma phys32_set32_out m pa v pb :
  pb + 4 <= pa \/ pa + 4 <= pb -> phys32 (set_phys32 pa v m) pb = phys32 m pb.
Proof. intros. apply phys32_ext. intros. apply phys8_set32_out. lia. Qed.

(** * The page walk *)

Definition present (entry : Z) : bool := negb (Z.land entry 1 =? 0).
Definition dir_index (va : Z) : Z := Z.shiftr va 22.
Definition tab_index (va : Z) : Z := Z.land (Z.shiftr va 12) 0x3FF.

(** The page-directory entry [d] and the page-table entry [t] of the table a
    directory entry points at, read the way the processor does. *)
Definition pde (m : machine) (d : Z) : Z := phys32 m (page_base (cr3 m) + 4 * d).
Definition pte_in (m : machine) (e t : Z) : Z := phys32 m (page_base e + 4 * t).

(** The physical address of a supervisor access to [va]; [None] is a page
    fault.  Supervisor writes ignore the write bit ([cr0.WP] is clear) and
    4 MiB pages are disabled ([cr4.PSE] is clear), so only the present bits
    matter. *)
Definition translate (m : machine) (va : Z) : option Z :=
  if paging m then
    let e := pde m (dir_index va) in
    if present e then
      let p := pte_in m e (tab_index va) in
      if present p then Some (page_base p + Z.land va 0xFFF) else None
    else None
  else Some va.

#[global] Arguments phys8 : simpl never.
#[global] Arguments set_phys8 : simpl never.
#[global] Arguments phys32 : simpl never.
#[global] Arguments translate : simpl never.
#[global] Arguments pde : simpl never.
#[global] Arguments pte_in : simpl never.

Lemma dir_index_eq va : dir_index va = va / 2 ^ 22.
Proof. unfold dir_index. by rewrite Z.shiftr_div_pow2. Qed.
Lemma tab_index_eq va : tab_index va = (va / 2 ^ 12) mod 1024.
Proof. unfold tab_index. by rewrite land_0x3FF, Z.shiftr_div_pow2. Qed.
Lemma dir_index_range va : in_u32 va -> 0 <= dir_index va < 1024.
Proof. intros. rewrite dir_index_eq. width_lia. Qed.
Lemma tab_index_range va : 0 <= tab_index va < 1024.
Proof. rewrite tab_index_eq. lia. Qed.

(** Two addresses with the same indices are in the same page. *)
Lemma same_page va vb :
  in_u32 va -> in_u32 vb ->
  page_base va = page_base vb <->
  dir_index va = dir_index vb /\ tab_index va = tab_index vb.
Proof.
  intros Ha Hb. rewrite !page_base_eq, !dir_index_eq, !tab_index_eq by done.
  width_lia.
Qed.

(** The physical bytes the walk may read: the directory and the tables it
    holds as present. *)
Definition walk_byte (m : machine) (pa : Z) : Prop :=
  paging m = true /\
  (page_base (cr3 m) <= pa < page_base (cr3 m) + 4096 \/
   exists d, 0 <= d < 1024 /\ present (pde m d) = true /\
     page_base (pde m d) <= pa < page_base (pde m d) + 4096).

(** Translation depends on these bytes only. *)
Lemma translate_frame m m' va :
  in_u32 va ->
  paging m' = paging m -> cr3 m' = cr3 m ->
  (forall pa, walk_byte m pa -> phys8 m' pa = phys8 m pa) ->
  translate m' va = translate m va.
Proof.
  intros Hva Hp Hc Hw. unfold translate. rewrite Hp.
  destruct (paging m) eqn:Hpg; [|done].
  pose proof (dir_index_range va Hva) as Hd.
  pose proof (tab_index_range va) as Ht.
  assert (pde m' (dir_index va) = pde m (dir_index va)) as ->.
  { unfold pde. rewrite Hc. apply phys32_ext. intros k Hk. apply Hw.
    split; [done|]. left. lia. }
  destruct (present (pde m (dir_index va))) eqn:Hpr; [|done].
  assert (pte_in m' (pde m (dir_index va)) (tab_index va)
          = pte_in m (pde m (dir_index va)) (tab_index va)) as ->; [|done].
  apply phys32_ext. intros k Hk. apply Hw.
  split; [done|]. right. exists (dir_index va). split_and!; auto; lia.
Qed.

Lemma translate_set8 m pa v va :
  in_u32 va -> ~ walk_byte m pa ->
  translate (set_phys8 pa v m) va = translate m va.
Proof.
  intros Hva Hw. apply translate_frame; [done..|].
  intros pb Hpb. apply phys8_set8_ne. by intros ->.
Qed.

Lemma translate_range m va pa :
  in_u32 va -> translate m va = Some pa -> in_u32 pa.
Proof.
  unfold translate. intros Hva. destruct (paging m); [|by intros [= <-]].
  repeat case_match; try done. intros [= <-].
  rewrite land_0xFFF, page_base_eq by apply phys32_range.
  pose proof (phys32_range m (page_base (pde m (dir_index va)) + 4 * tab_index va)).
  unfold pte_in. width_lia.
Qed.
