(* ===== verification/State.v ===== *)
(** The state of the kernel and the monad its functions are written in.

    [kst] holds the machine and the C globals, one record per component.
    A C function is a value of [K A]: it takes the state and returns an
    [outcome], which is either a result or one of the ways control leaves the
    C code without returning. *)

From S2P Require Import Prelude Machine.

(** * Data of the components *)

Set Primitive Projections.

(** kernel/pmm.h [Memory_Map]: one entry of the BIOS memory map. *)
Record Memory_Map := MemoryMap {
  mm_base : Z;     (* unsigned long long *)
  mm_length : Z;   (* unsigned long long *)
  mm_type : Z;     (* unsigned int *)
  mm_acpi : Z      (* unsigned int *)
}.

(** The globals of kernel/pmm.c: [entry] and [map] are the words at 0x500 and
    the array at 0x504 that the boot sector filled, the rest is the
    virtual-page allocator. *)
Record pmm_state := PmmState {
  entry : Z;
  mmap : list Memory_Map;
  next_virtual : Z;
  free_virtual : list Z;
  free_count : Z
}.

(** The heap of kernel/pmm.c: addresses of [Block] headers. *)
Record heap_state := HeapState {
  heap_head : Z;
  current_block : Z
}.

(** The process list of kernel/process.c: addresses of [process_t]. *)
Record proc_state := ProcState {
  process_list : Z;
  current_process : Z;
  process_number : Z
}.

(** The cursor of kernel/kernel.c ([i], [j]). *)
Record console_state := ConsoleState {
  cur_i : Z;
  cur_j : Z
}.

(** The keyboard globals of kernel/kernel.c. *)
Record key_state := KeyState {
  last_key : Z;
  command : list Z;
  command_index : Z;
  command_ready : Z
}.

(** kernel/tss.h *)
Record gdt_entry := GdtEntry {
  limit_low : Z;
  base_low : Z;
  base_middle : Z;
  access : Z;
  granularity : Z;
  base_high : Z
}.

(** The fields of kernel/tss.h [tss_t] the kernel assigns; [memset] clears
    all the others and nothing else writes them. *)
Record tss_t := Tss {
  esp0 : Z;
  ss0 : Z;
  iomap_base : Z
}.

(** kernel/idt.h *)
Record interrupt_des := InterruptDes {
  offset_1 : Z;
  selector : Z;
  zeros : Z;
  des_type : Z;
  offset_2 : Z
}.

(** [struct gdt_ptr] and [struct idt_pointer]. *)
Record table_ptr := TablePtr { limit : Z; base : Z }.

Record desc_state := DescState {
  gdt : list gdt_entry;
  gp : table_ptr;
  tss : tss_t;
  idt : list interrupt_des;
  idt_ptr : table_ptr
}.

Record kst := Kst {
  mach : machine;
  pmm : pmm_state;
  heap : heap_state;
  procs : proc_state;
  console : console_state;
  keys : key_state;
  descs : desc_state;
  ticks : Z
}.
Unset Primitive Projections.

#[export] Instance Memory_Map_inhabited : Inhabited Memory_Map :=
  populate (MemoryMap 0 0 0 0).
#[export] Instance gdt_entry_inhabited : Inhabited gdt_entry :=
  populate (GdtEntry 0 0 0 0 0 0).
#[export] Instance interrupt_des_inhabited : Inhabited interrupt_des :=
  populate (InterruptDes 0 0 0 0 0).
#[export] Instance Memory_Map_eq_dec : EqDecision Memory_Map.
Proof. solve_decision. Defined.
#[export] Instance gdt_entry_eq_dec : EqDecision gdt_entry.
Proof. solve_decision. Defined.
#[export] Instance interrupt_des_eq_dec : EqDecision interrupt_des.
Proof. solve_decision. Defined.

(** ** Updates of one component *)

Definition set_mach (f : machine -> machine) (s : kst) : kst :=
  Kst (f (mach s)) (pmm s) (heap s) (procs s) (console s) (keys s) (descs s) (ticks s).
Definition set_pmm (f : pmm_state -> pmm_state) (s : kst) : kst :=
  Kst (mach s) (f (pmm s)) (heap s) (procs s) (console s) (keys s) (descs s) (ticks s).
Definition set_heap (f : heap_state -> heap_state) (s : kst) : kst :=
  Kst (mach s) (pmm s) (f (heap s)) (procs s) (console s) (keys s) (descs s) (ticks s).
Definition set_procs (f : proc_state -> proc_state) (s : kst) : kst :=
  Kst (mach s) (pmm s) (heap s) (f (procs s)) (console s) (keys s) (descs s) (ticks s).
Definition set_console (f : console_state -> console_state) (s : kst) : kst :=
  Kst (mach s) (pmm s) (heap s) (procs s) (f (console s)) (keys s) (descs s) (ticks s).
Definition set_keys (f : key_state -> key_state) (s : kst) : kst :=
  Kst (mach s) (pmm s) (heap s) (procs s) (console s) (f (keys s)) (descs s) (ticks s).
Definition set_descs (f : desc_state -> desc_state) (s : kst) : kst :=
  Kst (mach s) (pmm s) (heap s) (procs s) (console s) (keys s) (f (descs s)) (ticks s).
Definition set_ticks (f : Z -> Z) (s : kst) : kst :=
  Kst (mach s) (pmm s) (heap s) (procs s) (console s) (keys s) (descs s) (f (ticks s)).

(** The same state with other memory contents. *)
Definition with_ram (r : gmap Z Z) (s : kst) : kst :=
  set_mach (set_ram (fun _ => r)) s.

(** The same state up to memory and the page allocator. *)
Definition same_globals (s s' : kst) : Prop :=
  heap s' = heap s /\ procs s' = procs s /\ console s' = console s /\ keys s' = keys s /\
  descs s' = descs s /\ ticks s' = ticks s.
#[export] Instance same_globals_equiv : Equivalence same_globals.
Proof. unfold same_globals. split; red; intuition congruence. Qed.

(** * Link-time addresses

    The addresses the linker gives to the objects whose address the code
    takes.  [LayoutOk] states what the source fixes about them: the alignment
    attributes of page_table and page_directory (kernel/pmm.c), and link.ld,
    which starts the image at 0x10000 and aligns [_kernel_end]; the boot
    sector runs the kernel with its stack top at 0x90000, above the image. *)
Class Layout := {
  page_table_addr : Z;
  page_directory_addr : Z;
  kernel_end_addr : Z;
  process_entry_addr : Z;
  tss_addr : Z;
  gdt_addr : Z;
  gp_addr : Z;
  idt_addr : Z;
  idt_ptr_addr : Z
}.

Class LayoutOk `{Layout} : Prop := {
  page_table_aligned : page_table_addr mod 4096 = 0;
  page_directory_aligned : page_directory_addr mod 4096 = 0;
  kernel_end_aligned : kernel_end_addr mod 4096 = 0;
  page_table_in_image : 0x10000 <= page_table_addr /\ page_table_addr + 4096 <= kernel_end_addr;
  page_directory_in_image :
    0x10000 <= page_directory_addr /\ page_directory_addr + 4096 <= kernel_end_addr;
  page_tables_distinct : page_table_addr <> page_directory_addr;
  kernel_end_low : kernel_end_addr <= 0x90000
}.

(** The number of iterations given to the loops that follow pointers. *)
Class Fuel := fuel : nat.

(** * The monad *)

Inductive outcome (A : Type) : Type :=
  | Ok (a : A) (s : kst)          (* the function returned *)
  | PageFault (va : Z) (s : kst)  (* an access to [va] raised exception 14 *)
  | Switched (p : Z) (s : kst)    (* [restore_esp(p)]: execution continues in [p] *)
  | Halted (s : kst)              (* [cli; hlt] *)
  | Spinning (s : kst)            (* [while (1);] *)
  | Undefined (s : kst)           (* C gives no meaning to the next step *)
  | OutOfFuel.
Arguments Ok {A} a s.
Arguments PageFault {A} va s.
Arguments Switched {A} p s.
Arguments Halted {A} s.
Arguments Spinning {A} s.
Arguments Undefined {A} s.
Arguments OutOfFuel {A}.

Definition K (A : Type) : Type := kst -> outcome A.

#[export] Instance K_ret : MRet K := fun A a s => Ok a s.
#[export] Instance K_bind : MBind K := fun A B f m s =>
  match m s with
  | Ok a s' => f a s'
  | PageFault va s' => PageFault va s'
  | Switched p s' => Switched p s'
  | Halted s' => Halted s'
  | Spinning s' => Spinning s'
  | Undefined s' => Undefined s'
  | OutOfFuel => OutOfFuel
  end.

Definition gets {A} (f : kst -> A) : K A := fun s => Ok (f s) s.
Definition modify (f : kst -> kst) : K unit := fun s => Ok tt (f s).
Definition undefined {A} : K A := fun s => Undefined s.
Definition spin {A} : K A := fun s => Spinning s.
Definition no_fuel {A} : K A := fun _ => OutOfFuel.

(** The state an outcome leaves behind; none where C leaves the behaviour
    undefined. *)
Definition final_state {A} (o : outcome A) : option kst :=
  match o with
  | Ok _ s | PageFault _ s | Switched _ s | Halted s | Spinning s => Some s
  | Undefined _ | OutOfFuel => None
  end.

Lemma bind_ok {A B} (m : K A) (f : A -> K B) s a s' :
  m s = Ok a s' -> (m ≫= f) s = f a s'.
Proof. unfold mbind, K_bind. by intros ->. Qed.
Lemma bind_ok_inv {A B} (m : K A) (f : A -> K B) s b s' :
  (m ≫= f) s = Ok b s' -> exists a s1, m s = Ok a s1 /\ f a s1 = Ok b s'.
Proof. unfold mbind, K_bind. destruct (m s); try done. eauto. Qed.
Lemma ret_bind {A B} (a : A) (f : A -> K B) s : (mret a ≫= f) s = f a s.
Proof. done. Qed.
Lemma bind_assoc {A B C} (m : K A) (f : A -> K B) (g : B -> K C) s :
  ((m ≫= f) ≫= g) s = (m ≫= (fun a => f a ≫= g)) s.
Proof. unfold mbind, K_bind. by destruct (m s). Qed.

Lemma bind_ext {A B} (m : K A) (f g : A -> K B) s :
  (forall a t, f a t = g a t) -> (m ≫= f) s = (m ≫= g) s.
Proof. intros E. unfold mbind, K_bind. by destruct (m s). Qed.
Lemma bind_unit (m : K unit) s : (m ;; mret tt) s = m s.
Proof. unfold mbind, K_bind. by destruct (m s) as [[]| | | | | |]. Qed.
Lemma gets_bind {A B} (g : kst -> A) (f : A -> K B) s : (gets g ≫= f) s = f (g s) s.
Proof. done. Qed.
Lemma modify_bind {B} (g : kst -> kst) (f : unit -> K B) s :
  (modify g ≫= f) s = f tt (g s).
Proof. done. Qed.

(** Straight-line execution. *)
Create Rewrite HintDb run.
#[export] Hint Rewrite @ret_bind @gets_bind @modify_bind @bind_assoc : run.
Ltac run := autorewrite with run.
(** Execute the first action with a known result. *)
Ltac run_with H := rewrite (bind_ok _ _ _ _ _ H).

(** ** Loops *)

(** [for (k = lo; k < hi; k++) body], the bounds fixed on entry. *)
Fixpoint for_each {A} (l : list A) (f : A -> K unit) : K unit :=
  match l with
  | [] => mret tt
  | x :: l' => f x ;; for_each l' f
  end.
Definition for_range (lo hi : Z) (f : Z -> K unit) : K unit :=
  for_each (seqZ lo (hi - lo)) f.

(** The same with a local variable updated by the body. *)
Fixpoint for_fold {A B} (l : list A) (b : B) (f : A -> B -> K B) : K B :=
  match l with
  | [] => mret b
  | x :: l' => b' ← f x b; for_fold l' b' f
  end.

(** The same with a [return] in the body: [Some r] leaves the function. *)
Fixpoint for_return {A R} (l : list A) (f : A -> K (option R)) : K (option R) :=
  match l with
  | [] => mret None
  | x :: l' => r ← f x; match r with Some _ => mret r | None => for_return l' f end
  end.

Lemma for_each_app {A} (l1 l2 : list A) f s :
  for_each (l1 ++ l2) f s = (for_each l1 f ;; for_each l2 f) s.
Proof.
  revert s. induction l1 as [|x l1 IH]; intros s; [done|]. simpl.
  rewrite bind_assoc. unfold mbind, K_bind. by destruct (f x s).
Qed.

(** Invariant rule: [I n s] holds before the [n]-th iteration. *)
Lemma for_each_inv {A} (I : nat -> kst -> Prop) (l : list A) f s :
  I 0%nat s ->
  (forall n x s, l !! n = Some x -> I n s ->
     exists s', f x s = Ok tt s' /\ I (S n) s') ->
  exists s', for_each l f s = Ok tt s' /\ I (length l) s'.
Proof.
  revert I s. induction l as [|x l IH]; intros I s H0 Hstep; simpl.
  { by exists s. }
  destruct (Hstep 0%nat x s eq_refl H0) as (s1 & Hf & H1).
  destruct (IH (fun n => I (S n)) s1 H1) as (s2 & Hl & H2).
  { intros n y s' Hy HI. by apply (Hstep (S n)). }
  exists s2. split; [|done]. by rewrite (bind_ok _ _ _ _ _ Hf).
Qed.

Lemma for_range_inv (I : Z -> kst -> Prop) lo hi f s :
  lo <= hi -> I lo s ->
  (forall k s, lo <= k < hi -> I k s -> exists s', f k s = Ok tt s' /\ I (k + 1) s') ->
  exists s', for_range lo hi f s = Ok tt s' /\ I hi s'.
Proof.
  intros Hle H0 Hstep. unfold for_range.
  destruct (for_each_inv (fun n => I (lo + Z.of_nat n)) (seqZ lo (hi - lo)) f s)
    as (s' & Hrun & HI).
  - by rewrite Z.add_0_r.
  - intros n x s1 Hx HI. apply lookup_seqZ in Hx as [-> Hn].
    destruct (Hstep (lo + Z.of_nat n) s1) as (s2 & ? & ?); [lia|done|].
    exists s2. split; [done|]. by replace (lo + Z.of_nat (S n)) with (lo + Z.of_nat n + 1) by lia.
  - exists s'. split; [done|]. rewrite length_seqZ in HI.
    by replace hi with (lo + Z.of_nat (Z.to_nat (hi - lo))) by lia.
Qed.

(** A loop whose iterations leave the state alone. *)
Lemma for_fold_inv {A B} (I : nat -> B -> Prop) (l : list A) (b : B) f s :
  I 0%nat b ->
  (forall n x b, l !! n = Some x -> I n b -> exists b', f x b s = Ok b' s /\ I (S n) b') ->
  exists b', for_fold l b f s = Ok b' s /\ I (length l) b'.
Proof.
  revert I b. induction l as [|x l IH]; intros I b H0 Hstep; simpl.
  { by exists b. }
  destruct (Hstep 0%nat x b eq_refl H0) as (b1 & Hf & H1).
  destruct (IH (fun n => I (S n)) b1 H1) as (b2 & Hl & H2).
  { intros n y b' Hy HI. by apply (Hstep (S n)). }
  exists b2. split; [|done]. by rewrite (bind_ok _ _ _ _ _ Hf).
Qed.

(** Searching loops: the first [Some], or [None] after all iterations. *)
Lemma for_return_found {A R} (l : list A) (f : A -> K (option R)) s n x r :
  l !! n = Some x -> f x s = Ok (Some r) s ->
  (forall m y, (m < n)%nat -> l !! m = Some y -> f y s = Ok None s) ->
  for_return l f s = Ok (Some r) s.
Proof.
  revert n. induction l as [|y l IH]; intros n Hn Hx Hbefore; [done|]. simpl.
  destruct n as [|n].
  - injection Hn as ->. by rewrite (bind_ok _ _ _ _ _ Hx).
  - rewrite (bind_ok _ _ _ _ _ (Hbefore 0%nat y ltac:(lia) eq_refl)).
    apply (IH n); [done..|]. intros m z Hm Hz. apply (Hbefore (S m)); [lia|done].
Qed.
Lemma for_return_none {A R} (l : list A) (f : A -> K (option R)) s :
  (forall m y, l !! m = Some y -> f y s = Ok None s) -> for_return l f s = Ok None s.
Proof.
  induction l as [|y l IH]; intros H; [done|]. simpl.
  rewrite (bind_ok _ _ _ _ _ (H 0%nat y eq_refl)). apply IH.
  intros m z Hz. by apply (H (S m)).
Qed.

(** * Memory accesses *)

(** The physical address of one byte, or the page fault. *)
Definition xlate (va : Z) : K Z := fun s =>
  match translate (mach s) (u32 va) with
  | Some pa => Ok pa s
  | None => PageFault (u32 va) s
  end.

Definition load8 (va : Z) : K Z :=
  p ← xlate va; gets (fun s => phys8 (mach s) p).
Definition store8 (va v : Z) : K unit :=
  p ← xlate va; modify (set_mach (set_phys8 p v)).

(** Wider accesses are little-endian.  They translate every byte before the
    first one is accessed, so an access that faults changes nothing. *)
Fixpoint xlate_all (n : nat) (va : Z) : K (list Z) :=
  match n with
  | O => mret []
  | S n' => p ← xlate va; ps ← xlate_all n' (va + 1); mret (p :: ps)
  end.
Fixpoint get_bytes (m : machine) (ps : list Z) : Z :=
  match ps with
  | [] => 0
  | p :: ps' => phys8 m p + 2 ^ 8 * get_bytes m ps'
  end.
Fixpoint set_bytes (ps : list Z) (v : Z) (m : machine) : machine :=
  match ps with
  | [] => m
  | p :: ps' => set_bytes ps' (Z.shiftr v 8) (set_phys8 p v m)
  end.
Definition load (n : nat) (va : Z) : K Z :=
  ps ← xlate_all n va; gets (fun s => get_bytes (mach s) ps).
Definition store (n : nat) (va v : Z) : K unit :=
  ps ← xlate_all n va; modify (set_mach (set_bytes ps v)).
Definition load16 : Z -> K Z := load 2.
Definition store16 : Z -> Z -> K unit := store 2.
Definition load32 : Z -> K Z := load 4.
Definition store32 : Z -> Z -> K unit := store 4.

(** * kernel/asm_operation.h *)

Definition privileged (e : event) : K unit := modify (set_mach (emit e)).
Definition cli : K unit := privileged Cli.
Definition sti : K unit := privileged Sti.
Definition hlt : K unit := privileged Hlt.
Definition invlpg (virtual : Z) : K unit := privileged (Invlpg virtual).
Definition outb (port value : Z) : K unit := privileged (Outb (u16 port) (u8 value)).
Definition inb (port : Z) : K Z := fun s =>
  let m := mach s in
  Ok (u8 (device m (u16 port) (reads m)))
     (set_mach (fun m => Machine (ram m) (paging m) (cr3 m) (device m) (S (reads m))
                                 (Inb (u16 port) :: trace m)) s).

(** * The state the kernel starts in

    The boot sector leaves the memory map in low memory and
    kernel/kernel_entry.asm clears .bss, so every global without an initialiser
    is zero.  1269 map cells fit between 0x504 and the boot sector at 0x7C00. *)
Definition boot_state (m : list Memory_Map) (dev : Z -> nat -> Z) : kst :=
  Kst (Machine ∅ false 0 dev 0 [])
      (PmmState (Z.of_nat (length m))
                (m ++ replicate (1269 - length m) (MemoryMap 0 0 0 0))
                0 (replicate 1024 0) 0)
      (HeapState 0 0)
      (ProcState 0 0 1)
      (ConsoleState 400 0)
      (KeyState 0 (replicate 128 0) 0 0)
      (DescState (replicate 6 (GdtEntry 0 0 0 0 0 0)) (TablePtr 0 0) (Tss 0 0 0)
                 (replicate 256 (InterruptDes 0 0 0 0 0)) (TablePtr 0 0))
      0.

(** The map QEMU reports for a machine with 128 MiB, and a silent device. *)
Definition qemu_map : list Memory_Map :=
  [MemoryMap 0 0x9FC00 1 1; MemoryMap 0x9FC00 0x400 2 1;
   MemoryMap 0xF0000 0x10000 2 1; MemoryMap 0x100000 0x7EE0000 1 1;
   MemoryMap 0x7FE0000 0x20000 2 1; MemoryMap 0xFFFC0000 0x40000 2 1].
Definition no_device : Z -> nat -> Z := fun _ _ => 0.

(** A layout the linker could choose. *)
Definition example_layout : Layout := {|
  page_table_addr := 0x20000;
  page_directory_addr := 0x21000;
  kernel_end_addr := 0x30000;
  process_entry_addr := 0x11000;
  tss_addr := 0x22000;
  gdt_addr := 0x22100;
  gp_addr := 0x22180;
  idt_addr := 0x22200;
  idt_ptr_addr := 0x22A00
|}.
Lemma example_layout_ok : @LayoutOk example_layout.
Proof. by split. Qed.
