(* ===== verification/Mmu.v ===== *)
(** Changing the tables the page walk reads.

    [tables_ok] says that the directory and the tables it points at are
    distinct frames.  Under it, writing a page-table entry changes the
    translation of that page alone, and the three other updates the kernel
    makes (setting flags of a directory entry, installing an empty table)
    change no translation. *)

From S2P Require Import Prelude Machine.

Record tables_ok (m : machine) : Prop := {
  to_paging : paging m = true;
  to_cr3 : in_u32 (cr3 m);
  to_aligned : cr3 m mod 4096 = 0;
  to_directory : forall d, 0 <= d < 1024 -> present (pde m d) = true ->
    page_base (pde m d) <> cr3 m;
  to_nonzero : forall d, 0 <= d < 1024 -> present (pde m d) = true -> page_base (pde m d) <> 0;
  to_inj : forall d e, 0 <= d < 1024 -> 0 <= e < 1024 ->
    present (pde m d) = true -> present (pde m e) = true ->
    page_base (pde m d) = page_base (pde m e) -> d = e
}.

(** The flags the kernel passes: a present entry, nothing above bit 11. *)
Record flags_ok (flags : Z) : Prop := {
  fl_range : 0 <= flags < 4096;
  fl_present : present flags = true
}.

(** What an entry maps an address to. *)
Definition entry_frame (e va : Z) : option Z :=
  if present e then Some (page_base e + Z.land va 0xFFF) else None.

Lemma page_base_cr3 m : tables_ok m -> page_base (cr3 m) = cr3 m.
Proof. intros H. rewrite page_base_eq by apply H. rewrite (to_aligned m H). lia. Qed.

(** Distinct aligned frames do not overlap. *)
Lemma frames_disjoint a b :
  a mod 4096 = 0 -> b mod 4096 = 0 -> a <> b -> a + 4096 <= b \/ b + 4096 <= a.
Proof. lia. Qed.

Lemma table_aligned m d : page_base (pde m d) mod 4096 = 0.
Proof. apply page_base_aligned, phys32_range. Qed.

Lemma translate_entry m va :
  paging m = true -> present (pde m (dir_index va)) = true ->
  translate m va = entry_frame (pte_in m (pde m (dir_index va)) (tab_index va)) va.
Proof. intros Hp Hd. unfold translate. by rewrite Hp, Hd. Qed.

Lemma translate_absent m va :
  paging m = true -> present (pde m (dir_index va)) = false -> translate m va = None.
Proof. intros Hp Hd. unfold translate. by rewrite Hp, Hd. Qed.

Section tables.
Context (m : machine) (HT : tables_ok m).

(** ** A page-table entry *)

Lemma pde_set_pte d t v e :
  0 <= d < 1024 -> 0 <= t < 1024 -> present (pde m d) = true -> 0 <= e < 1024 ->
  pde (set_phys32 (page_base (pde m d) + 4 * t) v m) e = pde m e.
Proof using HT.
  intros Hd Ht Hp He. unfold pde at 1. simpl.
  pose proof (frames_disjoint _ _ (table_aligned m d) (to_aligned m HT)
    (to_directory m HT d Hd Hp)).
  rewrite phys32_set32_out by (simpl; rewrite page_base_cr3 by done; lia). done.
Qed.

Lemma pte_set_pte d t v e u :
  0 <= d < 1024 -> 0 <= t < 1024 -> 0 <= e < 1024 -> 0 <= u < 1024 ->
  present (pde m d) = true -> present (pde m e) = true ->
  pte_in (set_phys32 (page_base (pde m d) + 4 * t) v m) (pde m e) u =
  if decide (e = d /\ u = t) then u32 v else pte_in m (pde m e) u.
Proof using HT.
  intros Hd Ht He Hu Hpd Hpe. unfold pte_in. case_decide as Heq.
  - destruct Heq as [-> ->]. apply phys32_set32_eq.
  - apply phys32_set32_out. destruct (decide (e = d)) as [->|Hne].
    + lia.
    + pose proof (frames_disjoint _ _ (table_aligned m d) (table_aligned m e)) as Hf.
      destruct Hf; [|lia..]. intros Hf. apply Hne. symmetry. by apply (to_inj m HT).
Qed.

Lemma translate_set_pte d t v va :
  0 <= d < 1024 -> 0 <= t < 1024 -> present (pde m d) = true -> in_u32 va ->
  translate (set_phys32 (page_base (pde m d) + 4 * t) v m) va =
  if decide (dir_index va = d /\ tab_index va = t) then entry_frame (u32 v) va
  else translate m va.
Proof using HT.
  intros Hd Ht Hp Hva. pose proof (dir_index_range va Hva) as Hdi.
  pose proof (tab_index_range va) as Hti. pose proof (to_paging m HT) as Hpg.
  destruct (present (pde m (dir_index va))) eqn:Hpv.
  - rewrite translate_entry by (rewrite ?pde_set_pte; done).
    rewrite pde_set_pte, pte_set_pte by done. case_decide; [done|].
    by rewrite translate_entry.
  - rewrite translate_absent by (rewrite ?pde_set_pte; done).
    case_decide as Heq; [destruct Heq as [<- _]; congruence|].
    by rewrite translate_absent.
Qed.

Lemma tables_ok_set_pte d t v :
  0 <= d < 1024 -> 0 <= t < 1024 -> present (pde m d) = true ->
  tables_ok (set_phys32 (page_base (pde m d) + 4 * t) v m).
Proof using HT.
  intros Hd Ht Hp. split; try apply HT.
  - intros e He. rewrite pde_set_pte by done. by apply (to_directory m HT).
  - intros e He. rewrite pde_set_pte by done. by apply (to_nonzero m HT).
  - intros e f He Hf. rewrite !pde_set_pte by done. by apply (to_inj m HT).
Qed.

Lemma walk_byte_set_pte d t v pa :
  0 <= d < 1024 -> 0 <= t < 1024 -> present (pde m d) = true ->
  walk_byte (set_phys32 (page_base (pde m d) + 4 * t) v m) pa <-> walk_byte m pa.
Proof using HT.
  intros Hd Ht Hp. unfold walk_byte. simpl.
  split; (intros [? Hw]; split; [done|]; destruct Hw as [?|(e & He & Hpe & Hb)];
    [by left|right]; exists e); rewrite pde_set_pte in * by done; done.
Qed.

(** ** A directory entry *)

Lemma pde_set_pde d v e :
  0 <= d < 1024 -> 0 <= e < 1024 ->
  pde (set_phys32 (cr3 m + 4 * d) v m) e = if decide (e = d) then u32 v else pde m e.
Proof using HT.
  intros Hd He. unfold pde at 1. simpl.
  replace (cr3 m + 4 * d) with (page_base (cr3 m) + 4 * d) by (by rewrite page_base_cr3).
  case_decide; [subst; apply phys32_set32_eq|].
  by rewrite phys32_set32_out by (simpl; lia).
Qed.

Lemma pte_set_pde d v e u :
  0 <= d < 1024 -> 0 <= u < 1024 -> page_base e mod 4096 = 0 -> page_base e <> cr3 m ->
  pte_in (set_phys32 (cr3 m + 4 * d) v m) e u = pte_in m e u.
Proof using HT.
  intros Hd Hu Ha Hne. apply phys32_set32_out.
  pose proof (frames_disjoint _ _ Ha (to_aligned m HT) Hne). lia.
Qed.

(** Changing the flags of a present entry. *)
Lemma translate_set_flags d v va :
  0 <= d < 1024 -> in_u32 v -> present (pde m d) = true -> present v = true ->
  page_base v = page_base (pde m d) -> in_u32 va ->
  translate (set_phys32 (cr3 m + 4 * d) v m) va = translate m va.
Proof using HT.
  intros Hd Hv Hp Hpv Hb Hva. pose proof (dir_index_range va Hva) as Hdi.
  pose proof (tab_index_range va) as Hti. pose proof (to_paging m HT) as Hpg.
  unfold translate. simpl. rewrite Hpg, pde_set_pde by done.
  case_decide as Hdd.
  - rewrite u32_small, Hpv by done. rewrite Hdd, Hp.
    assert (pte_in (set_phys32 (cr3 m + 4 * d) v m) v (tab_index va)
            = pte_in m (pde m d) (tab_index va)) as ->; [|done].
    rewrite pte_set_pde; [unfold pte_in; by rewrite Hb|done|done| |];
      rewrite Hb; [apply table_aligned|by apply (to_directory m HT)].
  - destruct (present (pde m (dir_index va))) eqn:Hpe; [|done].
    rewrite pte_set_pde; [done|done|done|apply table_aligned|by apply (to_directory m HT)].
Qed.

(** Installing an empty table in a free slot. *)
Lemma translate_set_empty d v va :
  0 <= d < 1024 -> in_u32 v -> present (pde m d) = false -> page_base v <> cr3 m ->
  (forall t, 0 <= t < 1024 -> pte_in m v t = 0) -> in_u32 va ->
  translate (set_phys32 (cr3 m + 4 * d) v m) va = translate m va.
Proof using HT.
  intros Hd Hv Hp Hne Hz Hva. pose proof (dir_index_range va Hva) as Hdi.
  pose proof (tab_index_range va) as Hti. pose proof (to_paging m HT) as Hpg.
  unfold translate. simpl. rewrite Hpg, pde_set_pde by done.
  case_decide as Hdd.
  - rewrite u32_small, Hdd, Hp by done.
    rewrite pte_set_pde, Hz; [by destruct (present v)|done|done|done| |done].
    by apply page_base_aligned.
  - destruct (present (pde m (dir_index va))) eqn:Hpe; [|done].
    rewrite pte_set_pde; [done|done|done|apply table_aligned|by apply (to_directory m HT)].
Qed.

Lemma tables_ok_set_pde d v :
  0 <= d < 1024 -> in_u32 v -> page_base v <> cr3 m -> page_base v <> 0 ->
  (forall e, 0 <= e < 1024 -> e <> d -> present (pde m e) = true ->
     page_base (pde m e) <> page_base v) ->
  tables_ok (set_phys32 (cr3 m + 4 * d) v m).
Proof using HT.
  intros Hd Hv Hne Hnz Hfresh. split; try apply HT.
  - intros e He. rewrite pde_set_pde by done. case_decide.
    + by rewrite u32_small.
    + by apply (to_directory m HT).
  - intros e He. rewrite pde_set_pde by done. case_decide.
    + by rewrite u32_small.
    + by apply (to_nonzero m HT).
  - intros e f He Hf. rewrite !pde_set_pde, u32_small by done.
    repeat case_decide; subst; try done.
    + intros _ Hpf Heq. exfalso. by apply (Hfresh f).
    + intros Hpe _ Heq. exfalso. by apply (Hfresh e).
    + by apply (to_inj m HT).
Qed.

Lemma walk_byte_set_pde d v pa :
  0 <= d < 1024 -> in_u32 v -> present v = true ->
  (present (pde m d) = true -> page_base v = page_base (pde m d)) ->
  walk_byte (set_phys32 (cr3 m + 4 * d) v m) pa <->
  walk_byte m pa \/ page_base v <= pa < page_base v + 4096.
Proof using HT.
  intros Hd Hv Hpv Hsame. pose proof (to_paging m HT) as Hpg. unfold walk_byte. simpl. split.
  - intros [_ [Hc|(e & He & Hpe & Hb)]]; [left; split; [done|by left]|].
    rewrite pde_set_pde, u32_small in * by done. case_decide; [by right|].
    left. split; [done|]. right. by exists e.
  - intros [[_ [Hc|(e & He & Hpe & Hb)]]|Hb]; (split; [done|]); [by left|right|right].
    + exists e. rewrite pde_set_pde, u32_small by done. case_decide; [|done].
      subst. rewrite Hsame by done. done.
    + exists d. rewrite pde_set_pde, decide_True, u32_small by done. done.
Qed.

End tables.
