(* ===== verification/Window.v ===== *)
(** Reasoning about memory through the page walk.

    A [window] is a set of virtual addresses on which the memory behaves as a
    plain array: every address is mapped, no two share a byte, and none lies in
    the tables the walk reads.  [stores A s s'] says that [s'] is [s] after
    stores to the addresses [A]; the trace of the machine may have grown, and
    the globals are unchanged.  The components above are
    verified against these two notions and never look at the walk itself. *)

From S2P Require Import Prelude Machine State.

(** * Reading through the walk *)


Definition rd8 (s : kst) (a : Z) : Z :=
  match translate (mach s) a with Some pa => phys8 (mach s) pa | None => 0 end.
Fixpoint rd (n : nat) (s : kst) (a : Z) : Z :=
  match n with
  | O => 0
  | S n' => rd8 s a + 2 ^ 8 * rd n' s (a + 1)
  end.
Definition rd16 : kst -> Z -> Z := rd 2.
Definition rd32 : kst -> Z -> Z := rd 4.

Lemma rd8_range s a : in_u8 (rd8 s a).
Proof. unfold rd8. case_match; [apply phys8_range | done]. Qed.
Lemma rd_range n s a : 0 <= rd n s a < 2 ^ (8 * Z.of_nat n).
Proof.
  revert a. induction n as [|n IH]; intros a; [done|]. simpl rd.
  replace (8 * Z.of_nat (S n)) with (8 * Z.of_nat n + 8) by lia.
  rewrite Z.pow_add_r by lia.
  pose proof (rd8_range s a). specialize (IH (a + 1)). unfold_width. lia.
Qed.
Lemma rd32_range s a : in_u32 (rd32 s a).
Proof. apply (rd_range 4). Qed.
Lemma rd16_range s a : in_u16 (rd16 s a).
Proof. apply (rd_range 2). Qed.
#[export] Hint Resolve rd8_range rd16_range rd32_range : kern.

(** * Windows *)

Definition span (lo n : Z) : Z -> Prop := fun a => lo <= a < lo + n.
Definition subset (A B : Z -> Prop) : Prop := forall a, A a -> B a.
Definition disjoint_from (A B : Z -> Prop) : Prop := forall a, A a -> B a -> False.

Record window (s : kst) (W : Z -> Prop) : Prop := {
  win_u32 : forall a, W a -> in_u32 a;
  win_mapped : forall a, W a ->
    exists pa, translate (mach s) a = Some pa /\ ~ walk_byte (mach s) pa;
  win_inj : forall a b pa, W a -> W b ->
    translate (mach s) a = Some pa -> translate (mach s) b = Some pa -> a = b
}.

Lemma window_subset s W W' : window s W -> subset W' W -> window s W'.
Proof. intros [H1 H2 H3] Hs. split; eauto. Qed.

(** * Stores *)

Record stores (A : Z -> Prop) (s s' : kst) : Prop := {
  st_machine : exists m, s' = set_mach (fun _ => m) s;
  st_control : paging (mach s') = paging (mach s) /\ cr3 (mach s') = cr3 (mach s);
  st_translate : forall va, in_u32 va -> translate (mach s') va = translate (mach s) va;
  st_walk : forall pa, walk_byte (mach s') pa <-> walk_byte (mach s) pa;
  st_frame : forall pa,
    (forall a, A a -> translate (mach s) a <> Some pa) ->
    phys8 (mach s') pa = phys8 (mach s) pa;
  st_u32 : forall a, A a -> in_u32 a
}.

Lemma stores_refl s : stores (fun _ => False) s s.
Proof. split; try done. exact (ex_intro _ (mach s) eq_refl). Qed.

Lemma stores_weaken A B s s' :
  stores A s s' -> subset A B -> subset B in_u32 -> stores B s s'.
Proof.
  intros [H1 Hc H2 H3 H4 H5] Hsub HB. split; auto.
Qed.

Lemma stores_trans A B s1 s2 s3 :
  stores A s1 s2 -> stores B s2 s3 -> stores (fun a => A a \/ B a) s1 s3.
Proof.
  intros [[m1 Hm1] [Hp1 Hc1] Ht1 Hw1 Hf1 Hu1] [[m2 Hm2] [Hp2 Hc2] Ht2 Hw2 Hf2 Hu2]. split.
  - exists m2. by subst.
  - split; congruence.
  - intros va Hva. by rewrite Ht2, Ht1.
  - intros pa. by rewrite Hw2, Hw1.
  - intros pa Hpa. rewrite Hf2, Hf1; auto.
    intros a Ha. rewrite Ht1 by auto. auto.
  - intros a [?|?]; auto.
Qed.

(** Stores do not disturb any window, whatever addresses they go to. *)
Lemma stores_window A s s' W : stores A s s' -> window s W -> window s' W.
Proof.
  intros HS [H1 H2 H3]. split; [done| |].
  - intros a Ha. destruct (H2 a Ha) as (pa & Hpa & Hn). exists pa.
    rewrite (st_translate _ _ _ HS), (st_walk _ _ _ HS) by auto. done.
  - intros a b pa Ha Hb. rewrite !(st_translate _ _ _ HS) by auto. eauto.
Qed.

Lemma stores_rd8 A s s' W b :
  stores A s s' -> window s W -> subset A W -> W b -> ~ A b ->
  rd8 s' b = rd8 s b.
Proof.
  intros HS HW Hsub Hb Hn. unfold rd8.
  rewrite (st_translate _ _ _ HS) by (by apply (win_u32 _ _ HW)).
  destruct (win_mapped _ _ HW b Hb) as (pa & Hpa & _). rewrite Hpa.
  apply (st_frame _ _ _ HS). intros a Ha Hta.
  apply Hn. by rewrite <- (win_inj _ _ HW a b pa); auto.
Qed.

(** What memory is: everything the walk and the reads depend on. *)
Definition same_memory (s s' : kst) : Prop :=
  ram (mach s) = ram (mach s') /\ paging (mach s) = paging (mach s') /\
  cr3 (mach s) = cr3 (mach s').
#[export] Instance same_memory_equiv : Equivalence same_memory.
Proof. unfold same_memory. split; red; intuition congruence. Qed.

Section same_memory.
Context (s s' : kst) (HM : same_memory s s').

Lemma same_phys8 pa : phys8 (mach s) pa = phys8 (mach s') pa.
Proof using HM. unfold phys8. by destruct HM as (-> & _). Qed.
Lemma same_phys32 pa : phys32 (mach s) pa = phys32 (mach s') pa.
Proof using HM. apply phys32_ext. intros. apply same_phys8. Qed.
Lemma same_translate va : translate (mach s) va = translate (mach s') va.
Proof using HM.
  destruct HM as (_ & Hp & Hc). unfold translate, pte_in, pde.
  by rewrite Hp, Hc, !same_phys32.
Qed.
Lemma same_walk_byte pa : walk_byte (mach s) pa <-> walk_byte (mach s') pa.
Proof using HM.
  destruct HM as (_ & Hp & Hc). unfold walk_byte. rewrite Hp, Hc.
  assert (forall d, pde (mach s) d = pde (mach s') d) as Hpde.
  { intros d. unfold pde. by rewrite Hc, same_phys32. }
  setoid_rewrite Hpde. done.
Qed.
End same_memory.

#[export] Instance rd8_proper : Proper (same_memory ==> eq ==> eq) rd8.
Proof.
  intros s s' HM a ? <-. unfold rd8. rewrite (same_translate s s' HM).
  case_match; [by apply same_phys8 | done].
Qed.
#[export] Instance rd_proper n : Proper (same_memory ==> eq ==> eq) (rd n).
Proof.
  intros s s' HM a ? <-. revert a. induction n as [|n IH]; intros a; [done|].
  simpl. by rewrite IH, HM.
Qed.
#[export] Instance window_proper : Proper (same_memory ==> eq ==> iff) window.
Proof.
  assert (forall s s' W, same_memory s s' -> window s W -> window s' W) as H.
  { intros s s' W HM [H1 H2 H3]. split; [done| |].
    - intros a Ha. rewrite <- (same_translate s s' HM).
      destruct (H2 a Ha) as (pa & ? & ?). exists pa.
      by rewrite <- (same_walk_byte s s' HM).
    - intros a b pa. rewrite <- !(same_translate s s' HM). eauto. }
  intros s s' HM W ? <-. split; apply H; [done | by symmetry].
Qed.

(** In particular, they depend on the machine alone. *)
Lemma window_mach s s' W : mach s' = mach s -> window s W -> window s' W.
Proof.
  intros Hm. apply (window_proper s' s); [|done]. unfold same_memory. by rewrite Hm.
Qed.

Lemma rd_mach n s s' b : mach s' = mach s -> rd n s' b = rd n s b.
Proof. intros Hm. apply rd_proper; [|done]. unfold same_memory. by rewrite Hm. Qed.

Lemma rd_ext n s s' b :
  (forall a, span b (Z.of_nat n) a -> rd8 s' a = rd8 s a) -> rd n s' b = rd n s b.
Proof.
  revert b. induction n as [|n IH]; intros b H; [done|]. simpl.
  rewrite H by (unfold span; lia). f_equal. f_equal. apply IH.
  intros a Ha. apply H. unfold span in *. lia.
Qed.

Lemma stores_rd n A s s' W b :
  stores A s s' -> window s W -> subset A W -> subset (span b (Z.of_nat n)) W ->
  disjoint_from (span b (Z.of_nat n)) A ->
  rd n s' b = rd n s b.
Proof.
  intros HS HW Hsub Hb Hd. apply rd_ext. intros a Ha.
  apply (stores_rd8 A s s' W); auto. intros HA. by apply (Hd a).
Qed.

(** * The accesses of the code, inside a window *)

Section accesses.
Context (s : kst) (W : Z -> Prop) (HW : window s W).

Lemma xlate_ok a pa : W a -> translate (mach s) a = Some pa -> xlate a s = Ok pa s.
Proof using HW.
  intros Ha Hpa. unfold xlate.
  by rewrite u32_small, Hpa by (by apply (win_u32 _ _ HW)).
Qed.

Lemma load8_ok a : W a -> load8 a s = Ok (rd8 s a) s.
Proof using HW.
  intros Ha. destruct (win_mapped _ _ HW a Ha) as (pa & Hpa & _).
  unfold load8, rd8. rewrite (bind_ok _ _ _ _ _ (xlate_ok a pa Ha Hpa)).
  by rewrite Hpa.
Qed.

Lemma xlate_all_ok n a :
  subset (span a (Z.of_nat n)) W ->
  exists ps, xlate_all n a s = Ok ps s /\ get_bytes (mach s) ps = rd n s a.
Proof using HW.
  revert a. induction n as [|n IH]; intros a Ha; [by exists []|].
  assert (W a) as Wa by (apply Ha; unfold span; lia).
  destruct (win_mapped _ _ HW a Wa) as (p & Hp & _).
  destruct (IH (a + 1)) as (ps & Hps & Hget).
  { intros b Hb. apply Ha. unfold span in *. lia. }
  exists (p :: ps). split; simpl.
  - rewrite (bind_ok _ _ _ p s) by (by apply xlate_ok).
    by rewrite (bind_ok _ _ _ _ _ Hps).
  - rewrite Hget. unfold rd8. by rewrite Hp.
Qed.

Lemma load_ok n a : subset (span a (Z.of_nat n)) W -> load n a s = Ok (rd n s a) s.
Proof using HW.
  intros Ha. destruct (xlate_all_ok n a Ha) as (ps & Hps & Hget).
  unfold load. rewrite (bind_ok _ _ _ _ _ Hps). unfold gets. by rewrite Hget.
Qed.

Lemma store8_ok a v : W a ->
  exists s', store8 a v s = Ok tt s' /\ stores (eq a) s s' /\ rd8 s' a = u8 v.
Proof using HW.
  intros Ha. destruct (win_mapped _ _ HW a Ha) as (pa & Hpa & Hnw).
  exists (set_mach (set_phys8 pa v) s).
  assert (Htr : forall va, in_u32 va ->
    translate (set_phys8 pa v (mach s)) va = translate (mach s) va).
  { intros va Hva. by apply translate_set8. }
  split_and!.
  - unfold store8. by rewrite (bind_ok _ _ _ _ _ (xlate_ok a pa Ha Hpa)).
  - split.
    + by exists (set_phys8 pa v (mach s)).
    + done.
    + done.
    + intros pb. simpl. unfold walk_byte.
      assert (forall d, 0 <= d < 1024 -> paging (mach s) = true ->
        pde (set_phys8 pa v (mach s)) d = pde (mach s) d) as Hpde.
      { intros d Hd Hpg. apply phys32_ext. intros k Hk. apply phys8_set8_ne.
        intros ->. apply Hnw. split; [done|]. left. simpl. lia. }
      simpl. split; (intros [Hpg H]; split; [done|];
        destruct H as [?|(d & Hd & Hp & Hb)]; [by left|right]; exists d).
      * rewrite Hpde in Hp, Hb by done. done.
      * rewrite Hpde by done. done.
    + intros pb Hpb. apply phys8_set8_ne. intros ->. by apply (Hpb a).
    + intros ? <-. by apply (win_u32 _ _ HW).
  - unfold rd8. simpl. rewrite Htr, Hpa by (by apply (win_u32 _ _ HW)).
    apply phys8_set8_eq.
Qed.
End accesses.

Lemma store8_eq s W a v pa :
  window s W -> W a -> translate (mach s) a = Some pa ->
  store8 a v s = Ok tt (set_mach (set_phys8 pa v) s).
Proof.
  intros HW Ha Hpa. unfold store8.
  by rewrite (bind_ok _ _ _ pa s) by (by apply (xlate_ok s W)).
Qed.

Lemma xlate_all_stores A s s' W n a ps :
  stores A s s' -> window s W -> subset (span a (Z.of_nat n)) W ->
  xlate_all n a s = Ok ps s -> xlate_all n a s' = Ok ps s'.
Proof.
  intros HS HW. revert a ps. induction n as [|n IH]; intros a ps Ha; simpl.
  { by intros [= <-]. }
  assert (W a) as Wa by (apply Ha; unfold span; lia).
  destruct (win_mapped _ _ HW a Wa) as (p & Hp & _).
  rewrite (bind_ok _ _ _ p s) by (by apply (xlate_ok s W)).
  assert (subset (span (a + 1) (Z.of_nat n)) W) as Ha1.
  { intros b Hb. apply Ha. unfold span in *. lia. }
  destruct (xlate_all_ok s W HW n (a + 1) Ha1) as (ps' & Hps & _).
  rewrite (bind_ok _ _ _ _ _ Hps). intros [= <-].
  rewrite (bind_ok _ _ _ p s').
  2:{ apply (xlate_ok s' W); [by apply (stores_window _ _ _ _ HS) | done |].
      rewrite (st_translate _ _ _ HS) by (by apply (win_u32 _ _ HW)). done. }
  by rewrite (bind_ok _ _ _ _ _ (IH _ _ Ha1 Hps)).
Qed.

(** A wide store is a sequence of byte stores. *)
Lemma store_step s W n a v :
  window s W -> subset (span a (Z.of_nat (S n))) W ->
  store (S n) a v s = (store8 a v ;; store n (a + 1) (Z.shiftr v 8)) s.
Proof.
  intros HW Ha.
  assert (W a) as Wa by (apply Ha; unfold span; lia).
  assert (subset (span (a + 1) (Z.of_nat n)) W) as Ha1.
  { intros b Hb. apply Ha. unfold span in *. lia. }
  destruct (win_mapped _ _ HW a Wa) as (p & Hp & _).
  destruct (xlate_all_ok s W HW n (a + 1) Ha1) as (ps & Hps & _).
  destruct (store8_ok s W HW a v Wa) as (s1 & H1 & S1 & _).
  rewrite (bind_ok _ _ _ _ _ H1).
  unfold store. simpl xlate_all. rewrite bind_assoc.
  rewrite (bind_ok _ _ _ p s) by (by apply (xlate_ok s W)).
  rewrite bind_assoc, (bind_ok _ _ _ _ _ Hps), ret_bind.
  rewrite (bind_ok _ _ _ ps s1) by (by apply (xlate_all_stores _ _ _ W _ _ _ S1 HW Ha1)).
  rewrite (store8_eq _ _ _ v _ HW Wa Hp) in H1. by injection H1 as <-.
Qed.

Lemma store_ok s W n a v :
  window s W -> subset (span a (Z.of_nat n)) W ->
  exists s', store n a v s = Ok tt s' /\ stores (span a (Z.of_nat n)) s s' /\
    rd n s' a = v mod 2 ^ (8 * Z.of_nat n).
Proof.
  revert s a v. induction n as [|n IH]; intros s a v HW Ha.
  { exists s. split_and!; [done| |by rewrite Z.mod_1_r].
    apply (stores_weaken (fun _ => False)); [apply stores_refl|done|].
    intros b Hb. unfold span in Hb. lia. }
  rewrite (store_step s W) by done.
  assert (W a) as Wa by (apply Ha; unfold span; lia).
  destruct (store8_ok s W HW a v Wa) as (s1 & H1 & S1 & R1).
  rewrite (bind_ok _ _ _ _ _ H1).
  pose proof (stores_window _ _ _ _ S1 HW) as HW1.
  destruct (IH s1 (a + 1) (Z.shiftr v 8) HW1) as (s2 & H2 & S2 & R2).
  { intros b Hb. apply Ha. unfold span in *. lia. }
  exists s2. split_and!; [done| |].
  - eapply stores_weaken; [apply (stores_trans _ _ _ _ _ S1 S2)| |].
    + intros b [<-|Hb]; unfold span in *; lia.
    + intros b Hb. apply (win_u32 _ _ HW). by apply Ha.
  - simpl rd. rewrite R2.
    rewrite (stores_rd8 _ _ _ W a S2 HW1), R1;
      [ |intros b Hb; apply Ha; unfold span in *; lia|done|unfold span; lia].
    replace (8 * Z.of_nat (S n)) with (8 + 8 * Z.of_nat n) by lia.
    unfold u8. rewrite Z.shiftr_div_pow2, Z.pow_add_r, <- Z.rem_mul_r by lia. lia.
Qed.

Lemma stores_span_trans s s1 s2 lo n k m :
  stores (span lo n) s s1 -> stores (span k m) s1 s2 ->
  lo <= k -> k + m <= lo + n -> stores (span lo n) s s2.
Proof.
  intros S1 S2 Hk Hm. eapply stores_weaken; [apply (stores_trans _ _ _ _ _ S1 S2)| |].
  - intros a [Ha|Ha]; [done|]. unfold span in *. lia.
  - exact (st_u32 _ _ _ S1).
Qed.

(** A store and what it leaves alone, for reads of any width. *)
Lemma store_frame s W n a v :
  window s W -> subset (span a (Z.of_nat n)) W ->
  exists s', store n a v s = Ok tt s' /\ stores (span a (Z.of_nat n)) s s' /\
    rd n s' a = v mod 2 ^ (8 * Z.of_nat n) /\
    forall m b, subset (span b (Z.of_nat m)) W ->
      b + Z.of_nat m <= a \/ a + Z.of_nat n <= b -> rd m s' b = rd m s b.
Proof.
  intros HW Ha. destruct (store_ok s W n a v HW Ha) as (s' & R & S & V).
  exists s'. split_and!; [done..|]. intros m b Hb Hd.
  apply (stores_rd m _ _ _ W _ S HW Ha Hb). intros c. unfold span. lia.
Qed.

(** Successive stores to one set of addresses [D]. *)
Lemma stores_again D s s1 s2 : stores D s s1 -> stores D s1 s2 -> stores D s s2.
Proof.
  intros S1 S2. eapply stores_weaken; [apply (stores_trans _ _ _ _ _ S1 S2)| |].
  - by intros a [?|?].
  - exact (st_u32 _ _ _ S1).
Qed.
Lemma stores_none D s W : window s W -> subset D W -> stores D s s.
Proof.
  intros HW HD. apply (stores_weaken (fun _ => False)); [apply stores_refl|by intros a []|].
  intros a Ha. apply (win_u32 _ _ HW). by apply HD.
Qed.

Lemma put_ok s s0 W D n a v :
  window s0 W -> subset D W -> stores D s0 s -> subset (span a (Z.of_nat n)) D ->
  exists s', store n a v s = Ok tt s' /\ stores D s0 s' /\
    rd n s' a = v mod 2 ^ (8 * Z.of_nat n) /\
    forall m b, subset (span b (Z.of_nat m)) W ->
      b + Z.of_nat m <= a \/ a + Z.of_nat n <= b -> rd m s' b = rd m s b.
Proof.
  intros HW HD HS Ha. pose proof (stores_window _ _ _ _ HS HW) as HW1.
  destruct (store_frame s W n a v HW1) as (s' & R & S & V & F).
  { intros x Hx. by apply HD, Ha. }
  exists s'. split_and!; [done| |done|done]. apply (stores_again _ _ s); [done|].
  apply (stores_weaken _ _ _ _ S Ha). exact (st_u32 _ _ _ HS).
Qed.
Lemma put8_ok s s0 W D a v :
  window s0 W -> subset D W -> stores D s0 s -> D a ->
  exists s', store8 a v s = Ok tt s' /\ stores D s0 s' /\ rd8 s' a = u8 v /\
    forall m b, subset (span b (Z.of_nat m)) W ->
      b + Z.of_nat m <= a \/ a + 1 <= b -> rd m s' b = rd m s b.
Proof.
  intros HW HD HS Ha. pose proof (stores_window _ _ _ _ HS HW) as HW1.
  destruct (store8_ok s W HW1 a v) as (s' & R & S & V); [by apply HD|].
  exists s'. split_and!; [done| |done|].
  - apply (stores_again _ _ s); [done|]. apply (stores_weaken _ _ _ _ S); [by intros ? <-|].
    exact (st_u32 _ _ _ HS).
  - intros m b Hb Hd. apply (stores_rd m _ _ _ W _ S HW1); [intros ? <-; by apply HD|done|].
    intros c Hc <-. unfold span in Hc. lia.
Qed.
Lemma rd_1 s a : rd 1 s a = rd8 s a.
Proof. simpl. lia. Qed.

(** Filling an array of words. *)
Lemma fill_ok s a lo hi g :
  lo <= hi -> window s (span (a + 4 * lo) (4 * (hi - lo))) ->
  exists s', for_range lo hi (fun k => store32 (a + 4 * k) (g k)) s = Ok tt s' /\
    stores (span (a + 4 * lo) (4 * (hi - lo))) s s' /\
    forall k, lo <= k < hi -> rd32 s' (a + 4 * k) = u32 (g k).
Proof.
  intros Hle HW. set (A := span (a + 4 * lo) (4 * (hi - lo))) in *.
  destruct (for_range_inv (fun n s' => stores A s s' /\
      forall k, lo <= k < n -> rd32 s' (a + 4 * k) = u32 (g k)) lo hi
      (fun k => store32 (a + 4 * k) (g k)) s) as (s' & R & S & Z0).
  - done.
  - split; [|lia]. apply (stores_weaken (fun _ => False)); [apply stores_refl|done|].
    exact (win_u32 _ _ HW).
  - intros n s1 Hn [S1 Z1]. pose proof (stores_window _ _ _ _ S1 HW) as HW1.
    assert (subset (span (a + 4 * n) 4) A) as Hsub by (intros b; unfold A, span; lia).
    destruct (store_ok s1 _ 4 (a + 4 * n) (g n) HW1 Hsub) as (s2 & R2 & S2 & V2).
    exists s2. split; [done|].
    split; [by apply (stores_span_trans _ s1 _ _ _ (a + 4 * n) 4); try lia|].
    intros k Hk. destruct (decide (k = n)) as [->|]; [done|].
    unfold rd32. rewrite (stores_rd 4 _ _ _ _ _ S2 HW1 Hsub); [apply Z1; lia| |];
      intros b; unfold A, span; lia.
  - by exists s'.
Qed.

(** A list of assignments to words. *)
Definition writes (l : list (Z * Z)) : K unit := for_each l (fun av => store32 av.1 av.2).

Lemma writes_step a v l {A} (m k : unit -> K A) s :
  (forall s1, m tt s1 = (writes l ≫= k) s1) ->
  (store32 a v ≫= m) s = (writes ((a, v) :: l) ≫= k) s.
Proof.
  intros H. unfold writes. simpl for_each. rewrite bind_assoc.
  unfold mbind, K_bind. destruct (store32 a v s) as [[] s1| | | | | |]; [apply H|done..].
Qed.
Lemma writes_last a v s : store32 a v s = writes [(a, v)] s.
Proof.
  unfold writes. simpl for_each. unfold mbind, K_bind. simpl.
  by destruct (store32 a v s) as [[]| | | | | |].
Qed.
Lemma writes_nil {A} (k : unit -> K A) s : k tt s = (writes [] ≫= k) s.
Proof. done. Qed.

(** Four bytes away from the words written by [l]. *)
Definition away (l : list (Z * Z)) (b n : Z) : Prop :=
  Forall (fun av => b + n <= av.1 \/ av.1 + 4 <= b) l.
Fixpoint distinct (l : list (Z * Z)) : Prop :=
  match l with
  | [] => True
  | av :: l' => away l' av.1 4 /\ distinct l'
  end.

Lemma writes_ok s0 s W D l :
  window s0 W -> subset D W -> stores D s0 s ->
  Forall (fun av => subset (span av.1 4) D) l -> distinct l ->
  exists s', writes l s = Ok tt s' /\ stores D s0 s' /\
    Forall (fun av => rd32 s' av.1 = u32 av.2) l /\
    forall m b, subset (span b (Z.of_nat m)) W -> away l b (Z.of_nat m) -> rd m s' b = rd m s b.
Proof.
  intros HW HD. revert s. induction l as [|[a v] l IH]; intros s HS HL HN.
  { exists s. by split_and!. }
  apply Forall_cons in HL as [Ha HL]. destruct HN as [Hav HN]. simpl in Ha, Hav.
  destruct (put_ok s s0 W D 4 a v HW HD HS Ha) as (s1 & R1 & S1 & V1 & F1).
  destruct (IH s1 S1 HL HN) as (s2 & R2 & S2 & V2 & F2).
  exists s2. split; [unfold writes; simpl; by run_with R1|]. split; [done|]. split.
  - apply Forall_cons. split; [|done]. simpl. unfold rd32.
    rewrite F2; [done| |done]. intros x Hx. by apply HD, Ha.
  - intros m b Hb [Hd Hl]%Forall_cons. simpl in Hd. rewrite F2, F1; [done|done|lia|done|done].
Qed.

(** Privileged operations that leave memory alone. *)
Lemma stores_same_memory s s' :
  same_memory s s' -> (exists m, s' = set_mach (fun _ => m) s) ->
  stores (fun _ => False) s s'.
Proof.
  intros HM Hm. split; [done| | | | |done].
  - destruct HM as (_ & ? & ?). by split; symmetry.
  - intros va _. symmetry. by apply (same_translate s).
  - intros pa. symmetry. by apply (same_walk_byte s).
  - intros pa _. symmetry. by apply (same_phys8 s).
Qed.
Lemma stores_emit e s : stores (fun _ => False) s (set_mach (emit e) s).
Proof. apply stores_same_memory; [done|by eexists]. Qed.

(** Without paging every set of 32-bit addresses is a window. *)
Lemma flat_window s W : paging (mach s) = false -> subset W in_u32 -> window s W.
Proof.
  intros Hp HW. split; [done| |].
  - intros a Ha. exists a. unfold translate, walk_byte. rewrite Hp. by split; [|intros []].
  - intros a b pa _ _. unfold translate. rewrite Hp. congruence.
Qed.

(** * Memory and globals change together *)

(** The addresses [A] are all the memory that differs; the globals may differ
    too. *)
Definition touches (A : Z -> Prop) (s s' : kst) : Prop :=
  stores A s (set_mach (fun _ => mach s') s).

Lemma touches_mach A s s1 s' : mach s1 = mach s -> touches A s1 s' -> touches A s s'.
Proof.
  unfold touches. intros Hm [_ H2 H3 H4 H5 H6]. simpl in *. rewrite Hm in *.
  split; [by exists (mach s')|done..].
Qed.
Lemma touches_mach_r A s s' s1 : mach s1 = mach s' -> touches A s s' -> touches A s s1.
Proof. unfold touches. by intros ->. Qed.
Lemma stores_touches A B s s' : stores A s s' -> subset A B -> subset B in_u32 -> touches B s s'.
Proof.
  intros HS HAB HB. apply (stores_weaken _ _ _ _) with (2 := HAB); [|done].
  destruct (st_machine _ _ _ HS) as [m Hm]. by subst.
Qed.
Lemma touches_trans A s s1 s2 : touches A s s1 -> touches A s1 s2 -> touches A s s2.
Proof.
  intros H1 H2. apply (stores_again _ _ (set_mach (fun _ => mach s1) s)); [done|].
  destruct H2 as [_ G2 G3 G4 G5 G6]. split; [by exists (mach s2)|done..].
Qed.
Lemma touches_weaken A B s s' :
  touches A s s' -> subset A B -> subset B in_u32 -> touches B s s'.
Proof. apply stores_weaken. Qed.
Lemma touches_same_memory A s s' : same_memory s s' -> subset A in_u32 -> touches A s s'.
Proof.
  intros HM HA. apply (stores_weaken (fun _ => False)); [|by intros a []|done].
  apply stores_same_memory; [done|by exists (mach s')].
Qed.
Lemma touches_window A s s' W : touches A s s' -> window s W -> window s' W.
Proof.
  intros HT HW. apply (window_mach (set_mach (fun _ => mach s') s)); [done|].
  by apply (stores_window _ _ _ _ HT).
Qed.

(** Reads of [W] away from [A] are unchanged. *)
Definition kept_but (A : Z -> Prop) (s s' : kst) (W : Z -> Prop) : Prop :=
  forall m b, subset (span b (Z.of_nat m)) W -> disjoint_from (span b (Z.of_nat m)) A ->
    rd m s' b = rd m s b.

Lemma touches_kept A s s' W :
  window s W -> touches A s s' -> subset A W -> kept_but A s s' W.
Proof.
  intros HW HT HA m b Hb Hd. rewrite <- (rd_mach m s' (set_mach (fun _ => mach s') s)) by done.
  apply (stores_rd m _ _ _ W _ HT HW HA Hb Hd).
Qed.
