(* ===== verification/PageSource.v ===== *)
(** The contract between the allocator of virtual pages and its clients.

    A client sees the addresses in use as one window [W] that a successful
    [allocate_page] extends by a fresh page.  kernel/pmm.c implements it in
    Paging.v; the heap is verified against this interface. *)

From S2P Require Import Prelude Machine State Mmu Window.

Class PageSource := { allocate_page : Z -> K Z }.

Definition with_page (W : Z -> Prop) (p : Z) : Z -> Prop := fun a => W a \/ span p 4096 a.

(** [page_inv s W]: the allocator is in order and [W] is in use; [page_left s]:
    there is address space for one more page. *)
Class PageSourceOk (P : PageSource) := {
  page_inv : kst -> (Z -> Prop) -> Prop;
  page_left : kst -> Prop;
  page_inv_window s W : page_inv s W -> window s W;
  page_inv_subset s W W' : page_inv s W -> subset W' W -> page_inv s W';
  page_inv_stores A s s' W :
    stores A s s' -> subset A W -> page_inv s W -> page_inv s' W;
  page_inv_globals s s' W :
    mach s' = mach s -> pmm s' = pmm s -> page_inv s W -> page_inv s' W;
  page_left_pmm s s' : pmm s' = pmm s -> page_left s -> page_left s';
  allocate_page_spec flag s W :
    page_inv s W -> page_left s -> flag = 0 \/ flags_ok flag ->
    allocate_page flag s = Ok 0 s \/
    exists p s', allocate_page flag s = Ok p s' /\ 0 < p /\ p + 4096 < 2 ^ 32 /\
      page_inv s' (with_page W p) /\ same_globals s s' /\
      disjoint_from (span p 4096) W /\ forall a, W a -> rd8 s' a = rd8 s a
}.
