(* ===== verification/Vga.v ===== *)
(** The text console of kernel/vga.c.

    The code writes the 80x25 cells at 0xB8000 through the page walk and keeps
    the cursor in an [int] its callers own; a cursor passed by address is an
    argument and a result here.  Module [Screen] is the abstract console: a
    list of 2000 cells and a cursor, with scrolling.  The theorems say that
    the code implements it wherever the video memory is mapped. *)

From S2P Require Import Prelude Machine State Window.
From Stdlib Require Export String Ascii.
#[global] Abbreviation length := Datatypes.length.

(** * Strings

    [char_at str k] is the C expression [str[k]]: a cell of a literal, or a
    byte of memory when the string is a pointer.  [char_bound] limits the loop
    over the string. *)
Class CharSource (A : Type) := {
  char_at : A -> Z -> K Z;
  char_bound : A -> nat
}.

Definition char_code (c : ascii) : Z := Z.of_N (N_of_ascii c).
Fixpoint codes (str : string) : list Z :=
  match str with
  | EmptyString => []
  | String c str' => char_code c :: codes str'
  end.

(** A literal ends with the NUL the compiler adds. *)
#[export] Instance literal_chars : CharSource string := {
  char_at str k := mret (default 0 (codes str !! Z.to_nat k));
  char_bound str := S (String.length str)
}.
#[export] Instance memory_chars `{Fuel} : CharSource Z := {
  char_at p k := load8 (p + k);
  char_bound _ := fuel
}.

Definition newline : Z := 10.
Definition NL : string := String (ascii_of_nat 10) EmptyString.

Module Vga.

Definition VGA : Z := 0xB8000.

Definition move (pos : Z) : K unit :=
  outb 0x3D4 0x0F;;
  outb 0x3D5 (Z.land (u16 pos) 0xFF);;
  outb 0x3D4 0x0E;;
  outb 0x3D5 (Z.land (Z.shiftr (u16 pos) 8) 0xFF).

Definition print (c i : Z) : K unit :=
  store8 (VGA + 2 * i) c;;
  store8 (VGA + (2 * i + 1)) 0x0F.

Definition blank : Z := Z.lor (Z.shiftl 0x0F 8) 0x20.

(** [add_line(&cursor)]: the result is the new cursor. *)
Definition add_line (cursor : Z) : K Z :=
  for_range 1 25 (fun row =>
    for_range 0 80 (fun col =>
      v ← load16 (VGA + 2 * (row * 80 + col));
      store16 (VGA + 2 * ((row - 1) * 80 + col)) v));;
  for_range 0 80 (fun col => store16 (VGA + 2 * (24 * 80 + col)) blank);;
  mret (if 2000 <=? cursor then cursor - 80 else cursor).

Definition add_line_if_needed (cursor : Z) : K Z :=
  if 2000 <=? cursor then add_line cursor else mret cursor.

Definition clear (i : Z) : K unit := store8 (VGA + 2 * i) 0x20.

(** The statement group [add_line_if_needed(i); print(c, *i); ( *i)++]. *)
Definition put_char (c i : Z) : K Z :=
  i ← add_line_if_needed i;
  print c i;;
  mret (i + 1).

(** The first loop of [print_number]: the decimal digits, lowest first.  Ten
    iterations are enough for an [unsigned long] of 32 bits and the buffer of
    21 bytes holds them. *)
Fixpoint digits (n : nat) (v : Z) : list Z :=
  match n with
  | O => []
  | S n' => if 0 <? v then (v mod 10 + 48) :: digits n' (v / 10) else []
  end.
Definition buffer (v : Z) : list Z := digits 10 v.

Definition print_number (v i : Z) : K Z :=
  if v =? 0 then
    i ← put_char 48 i;
    add_line_if_needed i
  else
    i ← for_fold (reverse (buffer v)) i put_char;
    add_line_if_needed i.

Section strings.
Context {A : Type} `{CharSource A}.

Fixpoint print_time_message_loop (n : nat) (str : A) (k i : Z) : K unit :=
  match n with
  | O => no_fuel
  | S n' =>
      c ← char_at str k;
      if c =? 0 then mret tt else
      i ← add_line_if_needed i;
      c ← char_at str k;
      print c i;;
      print_time_message_loop n' str (k + 1) (i + 1)
  end.
Definition print_time_message (str : A) (i : Z) : K unit :=
  print_time_message_loop (char_bound str) str 0 i.

Fixpoint print_string_loop (n : nat) (str : A) (k i j : Z) : K (Z * Z) :=
  match n with
  | O => no_fuel
  | S n' =>
      c ← char_at str k;
      if c =? 0 then mret (i, j) else
      if c =? newline then
        i ← add_line_if_needed (i + (80 - Z.rem i 80));
        print_string_loop n' str (k + 1) i 0
      else
        i ← add_line_if_needed i;
        c ← char_at str k;
        print c i;;
        i ← add_line_if_needed (i + 1);
        print_string_loop n' str (k + 1) i (j + 1)
  end.
Definition print_string (str : A) (i j : Z) : K (Z * Z) :=
  ij ← print_string_loop (char_bound str) str 0 i j;
  move ij.1;;
  mret ij.
End strings.

Definition clear_screen : K unit :=
  for_range 0 2000 (fun i => store16 (VGA + 2 * i) 0x0720).

Definition hex : list Z := codes "0123456789ABCDEF".

Definition print_hex (n i : Z) : K Z :=
  i ← put_char 48 i;
  i ← put_char 120 i;
  i ← for_fold [28; 24; 20; 16; 12; 8; 4; 0] i (fun shift i =>
    let digit := Z.land (Z.shiftr n shift) 0xF in
    put_char (default 0 (hex !! Z.to_nat digit)) i);
  add_line_if_needed i.

(** The calls that pass [&i] and [&j], the cursor of kernel/kernel.c. *)
Definition set_i (i : Z) : K unit :=
  modify (set_console (fun c => ConsoleState i (cur_j c))).
Definition set_j (j : Z) : K unit :=
  modify (set_console (fun c => ConsoleState (cur_i c) j)).
Definition print_string_at {A} `{CharSource A} (str : A) : K unit :=
  i ← gets (fun s => cur_i (console s));
  j ← gets (fun s => cur_j (console s));
  ij ← print_string str i j;
  modify (set_console (fun _ => ConsoleState ij.1 ij.2)).
Definition print_number_at (v : Z) : K unit :=
  i ← gets (fun s => cur_i (console s)); i ← print_number v i; set_i i.
Definition print_hex_at (v : Z) : K unit :=
  i ← gets (fun s => cur_i (console s)); i ← print_hex v i; set_i i.

End Vga.

(** * The abstract console *)

Module Screen.

Set Primitive Projections.
Record term := Term { cells : list Z; cursor : Z }.
Unset Primitive Projections.

Definition glyph (c : Z) : Z := u8 c + 2 ^ 8 * 0x0F.
Definition empty_cell : Z := 0x0F20.
Definition scroll (l : list Z) : list Z := drop 80 l ++ replicate 80 empty_cell.

(** Scroll when the cursor has left the last row. *)
Definition fit (t : term) : term :=
  if 2000 <=? cursor t then Term (scroll (cells t)) (cursor t - 80) else t.
Definition put (t : term) (c : Z) : term :=
  Term (<[Z.to_nat (cursor (fit t)) := glyph c]> (cells (fit t))) (cursor (fit t) + 1).
Definition text (t : term) (cs : list Z) : term := foldl put t cs.
Definition next_line (t : term) : term :=
  Term (cells t) (cursor t + (80 - cursor t mod 80)).
Definition put_or_break (t : term) (c : Z) : term :=
  if c =? newline then fit (next_line t) else fit (put t c).
Definition line_text (t : term) (cs : list Z) : term := foldl put_or_break t cs.

(** Decimal and hexadecimal notation. *)
Definition decimal (v : Z) : list Z := if v =? 0 then [48] else reverse (Vga.buffer v).
Definition hex_digit (d : Z) : Z := if d <? 10 then 48 + d else 55 + d.
Definition hexadecimal (v : Z) : list Z :=
  [48; 120] ++ ((fun k => hex_digit (v / 16 ^ k mod 16)) <$> [7; 6; 5; 4; 3; 2; 1; 0]).

Definition decimal_value (cs : list Z) : Z := foldl (fun a c => 10 * a + (c - 48)) 0 cs.
Definition hex_value (cs : list Z) : Z :=
  foldl (fun a c => 16 * a + (if c <? 65 then c - 48 else c - 55)) 0 cs.

End Screen.

(** * The code implements it *)

Section refinement.
Import Vga Screen.

Definition video : Z -> Prop := span VGA 4000.
Definition cell (s : kst) (k : Z) : Z := rd16 s (VGA + 2 * k).
Definition screen (s : kst) : list Z := cell s <$> seqZ 0 2000.

(** [s'] is [s] with other contents of the video memory, showing [l]. *)
Definition shown (s s' : kst) (l : list Z) : Prop :=
  stores video s s' /\ screen s' = l.

Lemma video_u32 : subset video in_u32.
Proof. intros a Ha. unfold video, span, VGA in Ha. width_lia. Qed.

Lemma length_screen s : length (screen s) = 2000%nat.
Proof. unfold screen. by rewrite length_fmap, length_seqZ. Qed.

Lemma lookup_screen s (k : nat) :
  screen s !! k = if decide (k < 2000)%nat then Some (cell s (Z.of_nat k)) else None.
Proof.
  unfold screen. rewrite list_lookup_fmap. case_decide.
  - by rewrite lookup_seqZ_total by lia.
  - by rewrite lookup_ge_None_2 by (rewrite length_seqZ; lia).
Qed.

Lemma screen_ext s l :
  length l = 2000%nat ->
  (forall k : nat, (k < 2000)%nat -> l !! k = Some (cell s (Z.of_nat k))) ->
  screen s = l.
Proof.
  intros Hl H. apply list_eq. intros k. rewrite lookup_screen. case_decide; [by rewrite H|].
  by rewrite lookup_ge_None_2 by lia.
Qed.

Lemma shown_refl s : shown s s (screen s).
Proof.
  split; [|done]. apply (stores_weaken (fun _ => False)); [apply stores_refl|done|].
  apply video_u32.
Qed.

Lemma stores_video_trans s s1 s2 :
  stores video s s1 -> stores video s1 s2 -> stores video s s2.
Proof.
  intros H1 H2. eapply stores_weaken; [apply (stores_trans _ _ _ _ _ H1 H2)| |].
  - by intros a [?|?].
  - apply video_u32.
Qed.

Lemma shown_trans s s1 s2 l1 l2 : shown s s1 l1 -> shown s1 s2 l2 -> shown s s2 l2.
Proof. intros [S1 _] [S2 ?]. split; [by apply (stores_video_trans _ s1)|done]. Qed.

Lemma shown_window s s' l : shown s s' l -> window s video -> window s' video.
Proof. intros [S _]. by apply (stores_window _ _ _ _ S). Qed.

(** One cell written, the others kept. *)
Lemma store16_cell s k v :
  window s video -> 0 <= k < 2000 ->
  exists s', store16 (VGA + 2 * k) v s = Ok tt s' /\ stores video s s' /\
    forall m, 0 <= m < 2000 -> cell s' m = if decide (m = k) then u16 v else cell s m.
Proof.
  intros HW Hk. assert (subset (span (VGA + 2 * k) 2) video) as Hsub.
  { intros a. unfold span, video, span. lia. }
  destruct (store_ok s video 2 (VGA + 2 * k) v HW Hsub) as (s' & R & S & V).
  exists s'. split_and!; [done|by apply (stores_weaken _ _ _ _ S); [|apply video_u32]|].
  intros m Hm. case_decide as Hmk; [by subst|].
  apply (stores_rd 2 _ _ _ video _ S HW Hsub).
  - intros a. unfold span, video, span. lia.
  - intros a. unfold span. lia.
Qed.

Lemma load16_cell s k :
  window s video -> 0 <= k < 2000 -> load16 (VGA + 2 * k) s = Ok (cell s k) s.
Proof.
  intros HW Hk. apply (load_ok s video HW 2). intros a. unfold span, video, span. lia.
Qed.

Lemma print_ok c i s :
  window s video -> 0 <= i < 2000 ->
  exists s', print c i s = Ok tt s' /\ shown s s' (<[Z.to_nat i := glyph c]> (screen s)).
Proof.
  intros HW Hi.
  assert (video (VGA + 2 * i)) as V0 by (unfold video, span; lia).
  assert (video (VGA + (2 * i + 1))) as V1 by (unfold video, span; lia).
  destruct (store8_ok s video HW _ c V0) as (s1 & R1 & S1 & E1).
  pose proof (stores_window _ _ _ _ S1 HW) as HW1.
  destruct (store8_ok s1 video HW1 _ 0x0F V1) as (s2 & R2 & S2 & E2).
  assert (forall a, video a -> a <> VGA + 2 * i -> a <> VGA + (2 * i + 1) ->
    rd8 s2 a = rd8 s a) as Hother.
  { intros a Ha N0 N1.
    rewrite (stores_rd8 _ _ _ _ a S2 HW1), (stores_rd8 _ _ _ _ a S1 HW);
      try done; try (by intros ? <-); congruence. }
  exists s2. split; [unfold print; by run_with R1|]. split.
  - eapply stores_weaken; [apply (stores_trans _ _ _ _ _ S1 S2)| |apply video_u32].
    by intros a [<-|<-].
  - apply screen_ext; [by rewrite length_insert, length_screen|]. intros k Hk.
    rewrite list_lookup_insert, length_screen, lookup_screen.
    rewrite (decide_True (P := (k < 2000)%nat)) by done. unfold cell, rd16. simpl.
    case_decide as Hki.
    + destruct Hki as [<- _]. rewrite Z2Nat.id by lia.
      rewrite (stores_rd8 _ _ _ _ (VGA + 2 * i) S2 HW1), E1
        by (try done; try (by intros ? <-); lia).
      rewrite <- Z.add_assoc, E2. done.
    + f_equal. rewrite !Hother; try done; try (unfold video, span; lia); lia.
Qed.

(** The two loops of [add_line]: the rows move up, the last one is cleared.
    Before cell [k] is copied, the cells below [k] have moved. *)
Definition moved (s : kst) (k : Z) (s' : kst) : Prop :=
  stores video s s' /\
  forall m, 0 <= m < 2000 -> cell s' m = if decide (m < k) then cell s (m + 80) else cell s m.

Lemma move_row_ok s row s1 :
  window s video -> 1 <= row < 25 -> moved s ((row - 1) * 80) s1 ->
  exists s2, for_range 0 80 (fun col =>
      v ← load16 (VGA + 2 * (row * 80 + col));
      store16 (VGA + 2 * ((row - 1) * 80 + col)) v) s1 = Ok tt s2 /\ moved s (row * 80) s2.
Proof.
  intros HW Hrow HI.
  destruct (for_range_inv (fun col s' => moved s ((row - 1) * 80 + col) s') 0 80 (fun col =>
    v ← load16 (VGA + 2 * (row * 80 + col));
    store16 (VGA + 2 * ((row - 1) * 80 + col)) v) s1) as (s2 & R2 & HI2).
  - lia.
  - by rewrite Z.add_0_r.
  - intros col s2 Hcol [S2 C2]. pose proof (stores_window _ _ _ _ S2 HW) as HW2.
    run_with (load16_cell s2 (row * 80 + col) HW2 ltac:(lia)).
    destruct (store16_cell s2 ((row - 1) * 80 + col) (cell s2 (row * 80 + col)) HW2)
      as (s3 & R3 & S3 & C3); [lia|].
    exists s3. split; [done|]. split; [by apply (stores_video_trans _ s2)|].
    intros m Hm. rewrite C3 by done. case_decide as Hmk.
    + subst m. rewrite decide_True by lia. rewrite C2, decide_False by lia.
      rewrite u16_small by apply rd16_range. f_equal. lia.
    + rewrite C2 by done. repeat case_decide; try done; lia.
  - exists s2. split; [done|]. by replace (row * 80) with ((row - 1) * 80 + 80) by lia.
Qed.

Lemma clear_row_ok s s1 :
  window s video -> moved s 1920 s1 ->
  exists s2, for_range 0 80 (fun col => store16 (VGA + 2 * (24 * 80 + col)) blank) s1 = Ok tt s2 /\
    stores video s s2 /\ forall m, 0 <= m < 2000 ->
      cell s2 m = if decide (m < 1920) then cell s (m + 80) else empty_cell.
Proof.
  intros HW [S1 C1].
  destruct (for_range_inv (fun col s' => stores video s s' /\ forall m, 0 <= m < 2000 ->
      cell s' m = if decide (m < 1920) then cell s (m + 80)
                  else if decide (m < 1920 + col) then empty_cell else cell s m) 0 80
    (fun col => store16 (VGA + 2 * (24 * 80 + col)) blank) s1) as (s2 & R2 & S2 & C2).
  - lia.
  - split; [done|]. intros m Hm. rewrite C1 by done. repeat case_decide; try done; lia.
  - intros col s2 Hcol [S2 C2]. pose proof (stores_window _ _ _ _ S2 HW) as HW2.
    destruct (store16_cell s2 (24 * 80 + col) blank HW2) as (s3 & R3 & S3 & C3); [lia|].
    exists s3. split; [done|]. split; [by apply (stores_video_trans _ s2)|].
    intros m Hm. rewrite C3 by done. change (u16 blank) with empty_cell. case_decide as Hmk.
    + rewrite decide_False, decide_True by lia. done.
    + rewrite C2 by done. repeat case_decide; try done; lia.
  - exists s2. split; [done|]. split; [done|]. intros m Hm. rewrite C2 by done.
    case_decide; [done|]. by rewrite decide_True by lia.
Qed.

Lemma add_line_ok cur s :
  window s video ->
  exists s', add_line cur s = Ok (if 2000 <=? cur then cur - 80 else cur) s' /\
    shown s s' (scroll (screen s)).
Proof.
  intros HW.
  destruct (for_range_inv (fun row s' => moved s ((row - 1) * 80) s') 1 25 (fun row =>
    for_range 0 80 (fun col =>
      v ← load16 (VGA + 2 * (row * 80 + col));
      store16 (VGA + 2 * ((row - 1) * 80 + col)) v)) s) as (s1 & R1 & HI).
  { lia. }
  { split; [apply shown_refl|]. intros m Hm. by rewrite decide_False by lia. }
  { intros row s1 Hrow HI. destruct (move_row_ok s row s1 HW Hrow HI) as (s2 & R2 & HI2).
    exists s2. split; [done|]. by replace (row + 1 - 1) with row by lia. }
  destruct (clear_row_ok s s1 HW HI) as (s2 & R2 & S2 & C2).
  exists s2. split.
  { unfold add_line. run_with R1. by run_with R2. }
  split; [done|]. apply screen_ext.
  - unfold scroll. by rewrite length_app, length_drop, length_screen, length_replicate.
  - intros k Hk. rewrite C2 by lia. unfold scroll. case_decide.
    + rewrite lookup_app_l by (rewrite length_drop, length_screen; lia).
      rewrite lookup_drop, lookup_screen, decide_True by lia. do 2 f_equal. lia.
    + rewrite lookup_app_r by (rewrite length_drop, length_screen; lia).
      apply lookup_replicate_2. rewrite length_drop, length_screen. lia.
Qed.

(** What a console operation does: it returns the cursor of the abstract
    console and the screen shows its cells. *)
Definition implements (m : K Z) (s : kst) (t : term) : Prop :=
  exists s', m s = Ok (cursor t) s' /\ shown s s' (cells t).

Lemma add_line_if_needed_ok cur s :
  window s video -> 0 <= cur < 2080 ->
  implements (add_line_if_needed cur) s (fit (Term (screen s) cur)) /\
  0 <= cursor (fit (Term (screen s) cur)) < 2000.
Proof.
  intros HW Hcur. unfold add_line_if_needed, fit, implements. simpl.
  destruct (Z.leb_spec 2000 cur); simpl; (split; [|lia]).
  - destruct (add_line_ok cur s HW) as (s' & R & Hs). exists s'.
    by rewrite R, (proj2 (Z.leb_le _ _)).
  - exists s. split; [done|apply shown_refl].
Qed.

Lemma put_char_ok c i s :
  window s video -> 0 <= i < 2080 ->
  implements (put_char c i) s (put (Term (screen s) i) c) /\
  0 < cursor (put (Term (screen s) i) c) <= 2000.
Proof.
  intros HW Hi.
  destruct (add_line_if_needed_ok i s HW Hi) as [(s1 & R1 & H1) Hc].
  destruct (print_ok c _ s1 (shown_window _ _ _ H1 HW) Hc) as (s2 & R2 & H2).
  split; [|simpl; lia]. exists s2. split.
  - unfold put_char. run_with R1. by run_with R2.
  - rewrite (proj2 H1) in H2. by apply (shown_trans _ s1 _ _ _ H1).
Qed.

Lemma text_ok cs i s :
  window s video -> 0 <= i < 2080 ->
  implements (for_fold cs i put_char) s (text (Term (screen s) i) cs) /\
  0 <= cursor (text (Term (screen s) i) cs) < 2080.
Proof.
  revert i s. induction cs as [|c cs IH]; intros i s HW Hi; simpl.
  { split; [|done]. exists s. split; [done|apply shown_refl]. }
  destruct (put_char_ok c i s HW Hi) as [(s1 & R1 & H1) Hc].
  destruct (IH (cursor (put (Term (screen s) i) c)) s1 (shown_window _ _ _ H1 HW))
    as [(s2 & R2 & H2) Hc2]; [lia|].
  rewrite (proj2 H1) in H2, R2, Hc2.
  split; [|done]. exists s2. run_with R1. split; [done|].
  by apply (shown_trans _ s1 _ _ _ H1).
Qed.

(** Digits, then the final scroll. *)
Lemma text_fit_ok cs i s (m : K Z) :
  window s video -> 0 <= i < 2080 ->
  m s = (i ← for_fold cs i put_char; add_line_if_needed i) s ->
  implements m s (fit (text (Term (screen s) i) cs)) /\
  0 <= cursor (fit (text (Term (screen s) i) cs)) < 2000.
Proof.
  intros HW Hi Hm. destruct (text_ok cs i s HW Hi) as [(s1 & R1 & H1) Hc].
  destruct (add_line_if_needed_ok _ s1 (shown_window _ _ _ H1 HW) Hc) as [(s2 & R2 & H2) Hc2].
  rewrite (proj2 H1) in R2, H2, Hc2.
  split; [|done]. exists s2. rewrite Hm. run_with R1.
  split; [done|]. by apply (shown_trans _ s1 _ _ _ H1).
Qed.

Lemma shown_same_memory s s' :
  same_memory s s' -> (exists m, s' = set_mach (fun _ => m) s) -> shown s s' (screen s).
Proof.
  intros HM Hm. split.
  - eapply stores_weaken; [by apply stores_same_memory|done|apply video_u32].
  - apply screen_ext; [apply length_screen|]. intros k Hk.
    rewrite lookup_screen, decide_True by done. unfold cell, rd16. by rewrite HM.
Qed.

Lemma move_ok pos s :
  exists s', move pos s = Ok tt s' /\ shown s s' (screen s) /\
    trace (mach s') =
      [Outb 0x3D5 (u16 pos / 2 ^ 8); Outb 0x3D4 0x0E;
       Outb 0x3D5 (u16 pos mod 2 ^ 8); Outb 0x3D4 0x0F] ++ trace (mach s).
Proof.
  eexists. split; [reflexivity|]. split.
  - apply shown_same_memory; [done|by eexists].
  - pose proof (u16_range pos) as Hp. unfold in_u16 in Hp.
    assert (u8 (Z.land (Z.shiftr (u16 pos) 8) 0xFF) = u16 pos / 2 ^ 8) as Hhigh.
    { rewrite land_0xFF, Z.shiftr_div_pow2 by lia. unfold u8. lia. }
    assert (u8 (Z.land (u16 pos) 0xFF) = u16 pos mod 2 ^ 8) as Hlow.
    { rewrite land_0xFF. unfold u8. lia. }
    rewrite <- Hhigh, <- Hlow. done.
Qed.

(** ** Numbers *)

Lemma digits_value n v :
  0 <= v < 10 ^ Z.of_nat n -> decimal_value (reverse (digits n v)) = v.
Proof.
  revert v. induction n as [|n IH]; intros v Hv.
  { unfold decimal_value. simpl. change (10 ^ Z.of_nat 0) with 1 in Hv. lia. }
  simpl. destruct (Z.ltb_spec 0 v); [|unfold decimal_value; simpl; lia].
  rewrite Nat2Z.inj_succ, Z.pow_succ_r in Hv by lia.
  unfold decimal_value in *. rewrite reverse_cons, foldl_app. simpl.
  rewrite IH by lia. lia.
Qed.

Lemma digits_range n v : 0 <= v -> Forall (fun c => 48 <= c <= 57) (digits n v).
Proof.
  revert v. induction n as [|n IH]; intros v Hv; simpl; [constructor|].
  case_match; constructor; [lia|]. apply IH. lia.
Qed.

(** No leading zero. *)
Lemma digits_last n v :
  0 < v < 10 ^ Z.of_nat n -> exists c, last (digits n v) = Some c /\ 49 <= c <= 57.
Proof.
  revert v. induction n as [|n IH]; intros v Hv; [change (10 ^ Z.of_nat 0) with 1 in Hv; lia|].
  rewrite Nat2Z.inj_succ, Z.pow_succ_r in Hv by lia.
  simpl. rewrite (proj2 (Z.ltb_lt 0 v)) by lia. destruct (decide (v < 10)).
  - replace (v / 10) with 0 by lia.
    assert (digits n 0 = []) as -> by (by destruct n).
    eexists. split; [done|]. lia.
  - destruct (IH (v / 10)) as (c & Hc & ?); [lia|]. exists c. split; [|done].
    destruct (digits n (v / 10)) eqn:E; [done|]. done.
Qed.

Lemma hex_table d : 0 <= d < 16 -> default 0 (hex !! Z.to_nat d) = hex_digit d.
Proof.
  intros Hd. assert (Forall (fun k => default 0 (hex !! Z.to_nat k) = hex_digit k) (seqZ 0 16)) as H
    by (vm_compute; repeat constructor).
  rewrite Forall_forall in H. apply H, elem_of_seqZ. lia.
Qed.

Lemma hex_digit_value d :
  0 <= d < 16 -> (if hex_digit d <? 65 then hex_digit d - 48 else hex_digit d - 55) = d.
Proof. intros. unfold hex_digit. repeat case_match; lia. Qed.

Lemma hexadecimal_value v : in_u32 v -> hex_value (drop 2 (hexadecimal v)) = v.
Proof.
  intros Hv. unfold hexadecimal, hex_value. simpl drop. simpl foldl.
  rewrite !hex_digit_value by lia. width_lia.
Qed.

Lemma for_fold_map {B} (g : B -> Z) (l : list B) f i s :
  (forall x i s, x ∈ l -> f x i s = put_char (g x) i s) ->
  for_fold l i f s = for_fold (g <$> l) i put_char s.
Proof.
  revert i s. induction l as [|x l IH]; intros i s H; simpl; [done|].
  unfold mbind, K_bind. rewrite H by (apply elem_of_cons; by left).
  destruct (put_char (g x) i s); try done. apply IH.
  intros y i' s' Hy. apply H. apply elem_of_cons. by right.
Qed.

(** ** Strings *)

(** [str] holds the characters [cs], whatever the video memory shows. *)
Class CharsAre {A} `{CharSource A} (str : A) (s : kst) (cs : list Z) : Prop := {
  chars_nonzero : Forall (fun c => c <> 0) cs;
  chars_bound : (List.length cs < char_bound str)%nat;
  chars_read : forall s' (k : nat) c, stores video s s' ->
    (cs ++ [0]) !! k = Some c -> char_at str (Z.of_nat k) s' = Ok c s'
}.

Lemma literal_chars_are (str : string) s :
  forallb (fun c => negb (c =? 0)) (codes str) = true -> CharsAre str s (codes str).
Proof.
  intros Hb. assert (Forall (fun c => c <> 0) (codes str)) as Hz.
  { apply Forall_forall. intros c Hc%list_elem_of_In.
    rewrite forallb_forall in Hb. specialize (Hb c Hc). lia. }
  assert (List.length (codes str) = String.length str) as Hl.
  { clear. induction str; simpl; congruence. }
  split; [done|simpl; lia|]. intros s' k c _ Hk. simpl. rewrite Nat2Z.id.
  destruct (decide (k < List.length (codes str))%nat).
  - rewrite lookup_app_l in Hk by done. by rewrite Hk.
  - rewrite lookup_app_r in Hk by lia. rewrite lookup_ge_None_2 by lia.
    by apply list_lookup_singleton_Some in Hk as [_ <-].
Qed.

(** A NUL-terminated string in memory, outside the video memory. *)
Lemma memory_chars_are `{Fuel} (p : Z) s W cs :
  window s W -> subset video W ->
  subset (span p (Z.of_nat (S (List.length cs)))) W ->
  disjoint_from (span p (Z.of_nat (S (List.length cs)))) video ->
  (forall (k : nat) c, (cs ++ [0]) !! k = Some c -> rd8 s (p + Z.of_nat k) = c) ->
  Forall (fun c => c <> 0) cs -> (List.length cs < fuel)%nat ->
  CharsAre p s cs.
Proof.
  intros HW Hv Hp Hd Hcs Hz Hf. split; [done|done|]. intros s' k c HS Hk. simpl.
  pose proof (lookup_lt_Some _ _ _ Hk) as Hlt. rewrite length_app in Hlt. simpl in Hlt.
  assert (span p (Z.of_nat (S (List.length cs))) (p + Z.of_nat k)) as Hin
    by (unfold span; lia).
  rewrite (load8_ok s' W) by (auto; by apply (stores_window _ _ _ _ HS)).
  rewrite (stores_rd8 _ _ _ W _ HS) by (auto; intros ?; by eapply Hd).
  by rewrite (Hcs k c).
Qed.

Definition column (j : Z) (cs : list Z) : Z :=
  foldl (fun j c => if c =? newline then 0 else j + 1) j cs.

Lemma chars_are_stores {A} `{CharSource A} (str : A) s s' cs :
  stores video s s' -> CharsAre str s cs -> CharsAre str s' cs.
Proof.
  intros HS [H1 H2 H3]. split; [done|done|]. intros s'' k c HS'. apply H3.
  by apply (stores_video_trans _ s').
Qed.

Lemma next_line_ok cur s :
  window s video -> 0 <= cur < 2000 ->
  implements (add_line_if_needed (cur + (80 - Z.rem cur 80))) s
    (fit (next_line (Term (screen s) cur))) /\
  0 <= cursor (fit (next_line (Term (screen s) cur))) < 2000.
Proof.
  intros HW Hcur. rewrite Z.rem_mod_nonneg by lia.
  apply (add_line_if_needed_ok (cur + (80 - cur mod 80)) s HW). lia.
Qed.

Lemma add_line_not_needed i s : i < 2000 -> add_line_if_needed i s = Ok i s.
Proof. intros Hi. unfold add_line_if_needed. by rewrite (proj2 (Z.leb_gt 2000 i)). Qed.

Lemma put_fit_ok c cur s :
  window s video -> 0 <= cur < 2000 ->
  exists s1 s2, print c cur s = Ok tt s1 /\ shown s s1 (cells (put (Term (screen s) cur) c)) /\
    add_line_if_needed (cur + 1) s1 = Ok (cursor (fit (put (Term (screen s) cur) c))) s2 /\
    shown s s2 (cells (fit (put (Term (screen s) cur) c))) /\
    0 <= cursor (fit (put (Term (screen s) cur) c)) < 2000.
Proof.
  intros HW Hcur. destruct (print_ok c cur s HW Hcur) as (s1 & R1 & H1).
  destruct (add_line_if_needed_ok (cur + 1) s1 (shown_window _ _ _ H1 HW) ltac:(lia))
    as [(s2 & R2 & H2) Hc].
  rewrite (proj2 H1) in R2, H2, Hc.
  assert (put (Term (screen s) cur) c =
    Term (<[Z.to_nat cur:=glyph c]> (screen s)) (cur + 1)) as ->.
  { unfold put, fit. simpl. by rewrite (proj2 (Z.leb_gt 2000 cur)) by lia. }
  exists s1, s2. split_and!; [done|done|done|by apply (shown_trans _ s1 _ _ _ H1)|lia..].
Qed.

Lemma print_string_loop_ok {A} `{CharSource A} (str : A) cs n k i j s :
  CharsAre str s cs -> (k <= List.length cs)%nat -> (List.length cs - k < n)%nat ->
  window s video -> 0 <= i < 2000 ->
  exists s', print_string_loop n str (Z.of_nat k) i j s =
      Ok (cursor (line_text (Term (screen s) i) (drop k cs)), column j (drop k cs)) s' /\
    shown s s' (cells (line_text (Term (screen s) i) (drop k cs))) /\
    0 <= cursor (line_text (Term (screen s) i) (drop k cs)) < 2000.
Proof.
  revert k i j s. induction n as [|n IH]; intros k i j s Hcs Hk Hn HW Hi; [lia|].
  destruct (decide (k = List.length cs)) as [->|Hne].
  { rewrite drop_all. exists s. simpl. run_with
      (chars_read (str := str) s (List.length cs) 0 (proj1 (shown_refl s)) (list_lookup_middle cs [] 0 _ eq_refl)).
    split_and!; [done|apply shown_refl|lia|lia]. }
  destruct (lookup_lt_is_Some_2 cs k) as [c Hc]; [lia|].
  assert ((cs ++ [0]) !! k = Some c) as Hc' by (by rewrite lookup_app_l by lia).
  assert (c <> 0) as Hc0.
  { pose proof (chars_nonzero (str := str) (s := s)) as Hz. by apply (Forall_lookup_1 _ _ _ _ Hz Hc). }
  rewrite (drop_S _ _ _ Hc). simpl print_string_loop.
  run_with (chars_read (str := str) s k c (proj1 (shown_refl s)) Hc').
  rewrite (proj2 (Z.eqb_neq c 0)) by done.
  change (line_text (Term (screen s) i) (c :: drop (S k) cs))
    with (line_text (put_or_break (Term (screen s) i) c) (drop (S k) cs)).
  change (column j (c :: drop (S k) cs))
    with (column (if c =? newline then 0 else j + 1) (drop (S k) cs)).
  unfold put_or_break.
  replace (Z.of_nat k + 1) with (Z.of_nat (S k)) by lia.
  destruct (Z.eqb_spec c newline) as [->|Hnl].
  - destruct (next_line_ok i s HW Hi) as [(s1 & R1 & H1) Hb]. run_with R1.
    destruct (IH (S k) _ 0 s1 (chars_are_stores _ _ _ _ (proj1 H1) Hcs)
      ltac:(lia) ltac:(lia) (shown_window _ _ _ H1 HW) Hb) as (s2 & R2 & H2 & Hb2).
    rewrite (proj2 H1) in R2, H2, Hb2.
    exists s2. split_and!; [done|by apply (shown_trans _ s1 _ _ _ H1)|apply Hb2..].
  - run_with (add_line_not_needed i s ltac:(lia)).
    run_with (chars_read (str := str) s k c (proj1 (shown_refl s)) Hc').
    destruct (put_fit_ok c i s HW Hi) as (s1 & s2 & R1 & H1 & R2 & H2 & Hb).
    run_with R1. run_with R2.
    destruct (IH (S k) _ (j + 1) s2 (chars_are_stores _ _ _ _ (proj1 H2) Hcs)
      ltac:(lia) ltac:(lia) (shown_window _ _ _ H2 HW) Hb) as (s3 & R3 & H3 & Hb3).
    rewrite (proj2 H2) in R3, H3, Hb3.
    exists s3. split_and!; [done|by apply (shown_trans _ s2 _ _ _ H2)|apply Hb3..].
Qed.

Lemma print_time_message_loop_ok {A} `{CharSource A} (str : A) cs n k i s :
  CharsAre str s cs -> (k <= List.length cs)%nat -> (List.length cs - k < n)%nat ->
  window s video -> 0 <= i < 2080 ->
  exists s', print_time_message_loop n str (Z.of_nat k) i s = Ok tt s' /\
    shown s s' (cells (text (Term (screen s) i) (drop k cs))).
Proof.
  revert k i s. induction n as [|n IH]; intros k i s Hcs Hk Hn HW Hi; [lia|].
  destruct (decide (k = List.length cs)) as [->|Hne].
  { rewrite drop_all. exists s. simpl. run_with
      (chars_read (str := str) s (List.length cs) 0 (proj1 (shown_refl s)) (list_lookup_middle cs [] 0 _ eq_refl)).
    split; [done|apply shown_refl]. }
  destruct (lookup_lt_is_Some_2 cs k) as [c Hc]; [lia|].
  assert ((cs ++ [0]) !! k = Some c) as Hc' by (by rewrite lookup_app_l by lia).
  pose proof (chars_nonzero (str := str) (s := s)) as Hz. pose proof (Forall_lookup_1 _ _ _ _ Hz Hc) as Hc0.
  simpl in Hc0. rewrite (drop_S _ _ _ Hc). simpl print_time_message_loop.
  run_with (chars_read (str := str) s k c (proj1 (shown_refl s)) Hc').
  rewrite (proj2 (Z.eqb_neq c 0)) by done. replace (Z.of_nat k + 1) with (Z.of_nat (S k)) by lia.
  destruct (add_line_if_needed_ok i s HW Hi) as [(s1 & R1 & H1) Hb]. run_with R1.
  pose proof (chars_are_stores _ _ _ _ (proj1 H1) Hcs) as Hcs1.
  run_with (chars_read (str := str) s1 k c (proj1 (shown_refl s1)) Hc').
  destruct (print_ok c _ s1 (shown_window _ _ _ H1 HW) Hb) as (s2 & R2 & H2). run_with R2.
  rewrite (proj2 H1) in H2. pose proof (shown_trans _ _ _ _ _ H1 H2) as H12.
  destruct (IH (S k) (cursor (fit (Term (screen s) i)) + 1) s2
    (chars_are_stores _ _ _ _ (proj1 H12) Hcs) ltac:(lia) ltac:(lia)
    (shown_window _ _ _ H12 HW) ltac:(lia)) as (s3 & R3 & H3).
  rewrite (proj2 H2) in H3. exists s3. split; [done|]. by apply (shown_trans _ s2 _ _ _ H12).
Qed.

(** [print_time_message] draws the text and leaves the cursor alone. *)
Lemma print_time_message_ok (str : string) i s :
  forallb (fun c => negb (c =? 0)) (codes str) = true -> window s video -> 0 <= i < 2080 ->
  exists s', print_time_message str i s = Ok tt s' /\
    shown s s' (cells (text (Term (screen s) i) (codes str))).
Proof.
  intros Hstr HW Hi. pose proof (literal_chars_are str s Hstr) as Hcs.
  pose proof (chars_bound (str := str) (s := s)) as Hb.
  exact (print_time_message_loop_ok str _ (char_bound str) 0 i s Hcs ltac:(lia) ltac:(lia) HW Hi).
Qed.

(** [clear_screen] fills the screen with grey blanks. *)
Lemma clear_screen_ok s :
  window s video ->
  exists s', clear_screen s = Ok tt s' /\ shown s s' (replicate 2000 0x0720).
Proof.
  intros HW.
  destruct (for_range_inv (fun k s' => stores video s s' /\ forall m, 0 <= m < k -> cell s' m = 0x0720)
    0 2000 (fun k => store16 (VGA + 2 * k) 0x0720) s) as (s1 & R1 & S1 & C1).
  { lia. }
  { split; [apply shown_refl|lia]. }
  { intros k s1 Hk [S1 C1]. pose proof (stores_window _ _ _ _ S1 HW) as HW1.
    destruct (store16_cell s1 k 0x0720 HW1 Hk) as (s2 & R2 & S2 & C2).
    exists s2. split; [done|]. split; [by apply (stores_video_trans _ s1)|].
    intros m Hm. rewrite C2 by lia. case_decide; [done|]. apply C1. lia. }
  exists s1. split; [exact R1|]. split; [done|]. apply screen_ext; [done|].
  intros k Hk. rewrite C1 by lia. by apply lookup_replicate_2.
Qed.

(** ** The calls with the cursor of the kernel *)

(** [s'] is [s] after output: other video memory, another cursor on the screen. *)
Record drawn (s s' : kst) : Prop := {
  dr_state : exists m c, s' = set_console (fun _ => c) (set_mach (fun _ => m) s);
  dr_touches : touches video s s';
  dr_cursor : 0 <= cur_i (console s') < 2000
}.

Lemma drawn_trans s s1 s2 : drawn s s1 -> drawn s1 s2 -> drawn s s2.
Proof.
  intros [(m1 & c1 & E1) T1 _] [(m2 & c2 & E2) T2 C2].
  split; [exists m2, c2; by rewrite E2, E1|by apply (touches_trans _ _ s1)|done].
Qed.

Lemma drawn_window s s' W : drawn s s' -> window s W -> window s' W.
Proof. intros HD. apply (touches_window _ _ _ _ (dr_touches _ _ HD)). Qed.

Lemma shown_drawn s s' l c :
  shown s s' l -> 0 <= cur_i c < 2000 -> drawn s (set_console (fun _ => c) s').
Proof.
  intros [HS _] Hc. destruct (st_machine _ _ _ HS) as [m Hm].
  split; [exists m, c; by rewrite Hm| |done].
  apply (touches_mach_r _ _ s'); [done|].
  by apply (stores_touches _ _ _ _ HS); [intros x|exact video_u32].
Qed.

(** What is shown afterwards: the cells and the cursor of [t]. *)
Record showing (s s' : kst) (t : term) : Prop := {
  sw_drawn : drawn s s';
  sw_screen : screen s' = cells t;
  sw_cursor : cur_i (console s') = cursor t
}.
Definition terminal (s : kst) : term := Term (screen s) (cur_i (console s)).
Lemma showing_terminal s s' t : showing s s' t -> terminal s' = t.
Proof. intros [_ Hs Hc]. unfold terminal. rewrite Hs, Hc. by destruct t. Qed.

Lemma shown_showing s s1 t c :
  shown s s1 (cells t) -> cur_i c = cursor t -> 0 <= cursor t < 2000 ->
  showing s (set_console (fun _ => c) s1) t.
Proof.
  intros H1 Hc Ht. split; [apply (shown_drawn s s1 _ c H1); lia|exact (proj2 H1)|done].
Qed.

Lemma print_string_at_shows (str : string) s :
  forallb (fun c => negb (c =? 0)) (codes str) = true ->
  window s video -> 0 <= cur_i (console s) < 2000 ->
  exists s', print_string_at str s = Ok tt s' /\ showing s s' (line_text (terminal s) (codes str)).
Proof.
  intros Hstr HW Hi. unfold terminal. set (i := cur_i (console s)) in *. set (j := cur_j (console s)).
  pose proof (literal_chars_are str s Hstr) as Hcs.
  pose proof (chars_bound (str := str) (s := s)) as Hb.
  destruct (print_string_loop_ok str _ (char_bound str) 0 i j s Hcs
    ltac:(lia) ltac:(lia) HW Hi) as (s1 & R1 & H1 & Hc).
  destruct (move_ok (cursor (line_text (Term (screen s) i) (codes str))) s1) as (s2 & R2 & H2 & _).
  unfold print_string_at. rewrite !gets_bind. fold i j. unfold print_string. rewrite bind_assoc.
  run_with R1. rewrite bind_assoc. run_with R2. rewrite ret_bind.
  eexists. split; [reflexivity|]. rewrite drop_0 in H1, Hc.
  apply shown_showing; [|done|apply Hc]. apply (shown_trans _ s1 _ _ _ H1).
  by rewrite <- (proj2 H1).
Qed.
Lemma print_string_at_ok (str : string) s :
  forallb (fun c => negb (c =? 0)) (codes str) = true ->
  window s video -> 0 <= cur_i (console s) < 2000 ->
  exists s', print_string_at str s = Ok tt s' /\ drawn s s'.
Proof.
  intros Hstr HW Hi. destruct (print_string_at_shows str s Hstr HW Hi) as (s' & R & D). exists s'.
  split; [done|apply D].
Qed.

Lemma print_hex_chars v i s :
  0 <= v -> print_hex v i s = (i ← for_fold (hexadecimal v) i put_char; add_line_if_needed i) s.
Proof.
  intros Hv. set (g := fun shift => hex_digit (v / 2 ^ shift mod 16)).
  transitivity ((i ← (i ← put_char 48 i; i ← put_char 120 i;
    for_fold (g <$> [28; 24; 20; 16; 12; 8; 4; 0]) i put_char);
    add_line_if_needed i) s); [|reflexivity].
  unfold print_hex. rewrite bind_assoc. unfold mbind, K_bind.
  destruct (put_char 48 i s) as [i1 s1| | | | | |]; try done.
  destruct (put_char 120 i1 s1) as [i2 s2| | | | | |]; try done.
  rewrite (for_fold_map g); [done|].
  intros shift i' s' Hs. assert (0 <= shift) by (rewrite !elem_of_cons, elem_of_nil in Hs; lia).
  by rewrite land_0xF, Z.shiftr_div_pow2, hex_table by lia.
Qed.
Lemma print_number_chars v i s :
  print_number v i s = (i ← for_fold (decimal v) i put_char; add_line_if_needed i) s.
Proof.
  unfold print_number, decimal. destruct (v =? 0); [|done]. simpl. by rewrite bind_assoc.
Qed.

(** Both draw some text and leave the cursor behind it. *)
Lemma text_at_shows (m : Z -> K Z) cs s :
  (forall i, m i s = (i ← for_fold cs i put_char; add_line_if_needed i) s) ->
  window s video -> 0 <= cur_i (console s) < 2000 ->
  exists s', (i ← gets (fun s => cur_i (console s)); i ← m i; set_i i) s = Ok tt s' /\
    showing s s' (fit (text (terminal s) cs)).
Proof.
  intros Hm HW Hi. unfold terminal. set (i := cur_i (console s)) in *.
  destruct (text_fit_ok cs i s (m i) HW ltac:(lia) (Hm i)) as [(s1 & R & H1) Hc].
  rewrite gets_bind. fold i. run_with R. eexists. split; [reflexivity|]. unfold set_i, modify.
  exact (shown_showing s s1 _ (ConsoleState _ _) H1 eq_refl Hc).
Qed.
Lemma print_hex_at_shows v s :
  0 <= v -> window s video -> 0 <= cur_i (console s) < 2000 ->
  exists s', print_hex_at v s = Ok tt s' /\ showing s s' (fit (text (terminal s) (hexadecimal v))).
Proof. intros Hv. apply (text_at_shows (print_hex v) (hexadecimal v)). intros i. by apply print_hex_chars. Qed.
Lemma print_hex_at_ok v s :
  0 <= v -> window s video -> 0 <= cur_i (console s) < 2000 ->
  exists s', print_hex_at v s = Ok tt s' /\ drawn s s'.
Proof.
  intros Hv HW Hi. destruct (print_hex_at_shows v s Hv HW Hi) as (s' & R & D). exists s'.
  split; [done|apply D].
Qed.
Lemma print_number_at_ok v s :
  window s video -> 0 <= cur_i (console s) < 2000 ->
  exists s', print_number_at v s = Ok tt s' /\ drawn s s'.
Proof.
  intros HW Hi.
  destruct (text_at_shows (print_number v) (decimal v) s (fun i => print_number_chars v i s) HW Hi)
    as (s' & R & D). exists s'. split; [done|apply D].
Qed.

End refinement.

(** * What the console guarantees *)

Section guarantees.
Import Vga Screen.

(** C34: [print_string] implements the abstract console: every character is
    drawn at the cursor, a newline moves to the start of the next row, the
    screen scrolls whenever the cursor leaves the last row, only the video
    memory is written, and the cursor ends on the screen. *)
Theorem print_string_refines_console {A} `{CharSource A} (str : A) cs i j s :
  CharsAre str s cs -> window s video -> 0 <= i < 2000 ->
  let t := line_text (Term (screen s) i) cs in
  exists s', print_string str i j s = Ok (cursor t, column j cs) s' /\
    shown s s' (cells t) /\ 0 <= cursor t < 2000.
Proof.
  intros Hcs HW Hi t. pose proof (chars_bound (str := str) (s := s)) as Hb.
  destruct (print_string_loop_ok str cs (char_bound str) 0 i j s Hcs
    ltac:(lia) ltac:(lia) HW Hi) as (s1 & R1 & H1 & Hc).
  rewrite drop_0 in R1, H1, Hc.
  destruct (move_ok (cursor t) s1) as (s2 & R2 & H2 & _).
  exists s2. split_and!; [|rewrite (proj2 H1) in H2; by apply (shown_trans _ s1 _ _ _ H1)|apply Hc..].
  unfold print_string. run_with R1. by run_with R2.
Qed.

(** [print_number] draws the decimal notation of its 32-bit argument: the
    digits read back give the number, and there is no leading zero. *)
Theorem print_number_draws_decimal v i s :
  window s video -> in_u32 v -> 0 <= i < 2000 ->
  let t := fit (text (Term (screen s) i) (decimal v)) in
  (exists s', print_number v i s = Ok (cursor t) s' /\ shown s s' (cells t)) /\
  0 <= cursor t < 2000 /\
  decimal_value (decimal v) = v /\ Forall (fun c => 48 <= c <= 57) (decimal v) /\
  (0 < v -> head (decimal v) <> Some 48).
Proof.
  intros HW Hv Hi t.
  destruct (text_fit_ok (decimal v) i s (print_number v i) HW ltac:(lia) (print_number_chars v i s))
    as [Himp Hc].
  split; [done|]. split; [done|].
  assert (0 <= v < 10 ^ Z.of_nat 10) as Hb by (change (10 ^ Z.of_nat 10) with 10000000000; width_lia).
  unfold decimal. destruct (Z.eqb_spec v 0) as [->|Hv0].
  - split_and!; [done|repeat constructor; lia|lia].
  - split_and!; [by apply digits_value|apply Forall_reverse, digits_range; lia|].
    intros _. rewrite head_reverse. destruct (digits_last 10 v) as (c & Hc' & ?); [lia|].
    unfold buffer. rewrite Hc'. intros [=]. lia.
Qed.

(** [print_hex] draws "0x" and the eight hexadecimal digits of its
    argument; read back they give the number. *)
Theorem print_hex_draws_hexadecimal v i s :
  window s video -> in_u32 v -> 0 <= i < 2000 ->
  let t := fit (text (Term (screen s) i) (hexadecimal v)) in
  (exists s', print_hex v i s = Ok (cursor t) s' /\ shown s s' (cells t)) /\
  0 <= cursor t < 2000 /\
  take 2 (hexadecimal v) = codes "0x" /\ length (hexadecimal v) = 10%nat /\
  hex_value (drop 2 (hexadecimal v)) = v.
Proof.
  intros HW Hv Hi t.
  destruct (text_fit_ok (hexadecimal v) i s (print_hex v i) HW ltac:(lia)
    (print_hex_chars v i s (proj1 Hv))) as [Himp Hc].
  split; [done|]. split; [done|]. split; [done|]. split; [done|].
  by apply hexadecimal_value.
Qed.

(** [add_line] scrolls the screen up by one row, leaves the last row blank
    and moves the cursor with the text. *)
Theorem add_line_scrolls cur s :
  window s video ->
  exists s', add_line cur s = Ok (if 2000 <=? cur then cur - 80 else cur) s' /\
    stores video s s' /\
    (forall row col, 0 <= row < 24 -> 0 <= col < 80 ->
       cell s' (row * 80 + col) = cell s ((row + 1) * 80 + col)) /\
    (forall col, 0 <= col < 80 -> cell s' (24 * 80 + col) = empty_cell).
Proof.
  intros HW. destruct (add_line_ok cur s HW) as (s' & R & S & Hs). exists s'.
  assert (forall k, 0 <= k < 2000 -> Some (cell s' k) = scroll (screen s) !! Z.to_nat k) as Hk.
  { intros k Hk. rewrite <- Hs, lookup_screen, decide_True, Z2Nat.id by lia. done. }
  split_and!; [done|done| |].
  - intros row col Hr Hc. apply (inj Some). rewrite Hk by lia. unfold scroll.
    rewrite lookup_app_l by (rewrite length_drop, length_screen; lia).
    rewrite lookup_drop, lookup_screen, decide_True by lia. do 2 f_equal. lia.
  - intros col Hc. apply (inj Some). rewrite Hk by lia. unfold scroll.
    rewrite lookup_app_r by (rewrite length_drop, length_screen; lia).
    apply lookup_replicate_2. rewrite length_drop, length_screen. lia.
Qed.

(** ** Concrete instances, before paging is enabled *)

Definition boot : kst := boot_state qemu_map no_device.
Lemma boot_video : window boot video.
Proof. apply flat_window; [done|apply video_u32]. Qed.

Lemma print_string_refines_console_witness :
  exists s', print_string ("Hi"%string) 1999 0 boot = Ok (1921, 2) s' /\
    screen s' !! 1919%nat = Some (glyph 72) /\ screen s' !! 1920%nat = Some (glyph 105).
Proof.
  destruct (print_string_refines_console "Hi"%string (codes "Hi") 1999 0 boot
    (literal_chars_are "Hi"%string _ eq_refl) boot_video ltac:(lia))
    as (s' & R & [_ H] & _).
  exists s'. rewrite R, H. split; [|split]; [|vm_compute; reflexivity..].
  reflexivity.
Defined.

Lemma print_number_draws_decimal_witness :
  exists s', print_number 1024 400 boot = Ok 404 s' /\
    take 4 (drop 400 (screen s')) = glyph <$> codes "1024".
Proof.
  destruct (print_number_draws_decimal 1024 400 boot boot_video) as ((s' & R & [_ H]) & _);
    [by split|lia|].
  exists s'. rewrite R, H. split; [|vm_compute; reflexivity]. f_equal.
Defined.

Lemma print_hex_draws_hexadecimal_witness :
  exists s', print_hex 0xC0100000 0 boot = Ok 10 s' /\
    take 10 (screen s') = glyph <$> codes "0xC0100000".
Proof.
  destruct (print_hex_draws_hexadecimal 0xC0100000 0 boot boot_video) as ((s' & R & [_ H]) & _);
    [by split|lia|].
  exists s'. rewrite R, H. split; [|vm_compute; reflexivity]. f_equal.
Defined.

Lemma add_line_scrolls_witness :
  exists s', add_line 2000 boot = Ok 1920 s' /\ cell s' 1999 = empty_cell.
Proof.
  destruct (add_line_scrolls 2000 boot boot_video) as (s' & R & _ & _ & H).
  exists s'. split; [exact R|]. exact (H 79 ltac:(lia)).
Defined.

End guarantees.
