(* ===== verification/MemMap.v ===== *)
(** The physical allocator of kernel/pmm.c: [allocate] and [free] on the BIOS
    memory map.

    Module [MemMap] holds the code; [Spec] is the reference it is checked
    against, on the list of the live entries: best fit with a split at the
    front, and coalescing with the two neighbours.  The last section reads the
    map as a function from addresses to region types, where an allocation
    turns a free interval into a used one and a free does the opposite. *)

From S2P Require Import Prelude Machine State.

Module MemMap.

Definition MAX_FREE_PAGES : Z := 1024.

(** [map[k]] and [map[k] = e].  [mmap] holds the cells of low memory from
    0x504 on that the array may use; no meaning is given to an access beyond
    them. *)
Definition map_at (k : Z) : K Memory_Map := fun s =>
  if k <? 0 then Undefined s else
  match mmap (pmm s) !! Z.to_nat k with
  | Some e => Ok e s
  | None => Undefined s
  end.
Definition put_map (n : Z) (l : list Memory_Map) (s : kst) : kst :=
  set_pmm (fun p => PmmState n l (next_virtual p) (free_virtual p) (free_count p)) s.
Definition map_put (k : Z) (e : Memory_Map) : K unit := fun s =>
  if k <? 0 then Undefined s else
  if Z.of_nat (length (mmap (pmm s))) <=? k then Undefined s else
  Ok tt (put_map (entry (pmm s)) (<[Z.to_nat k := e]> (mmap (pmm s))) s).
Definition get_entry : K Z := gets (fun s => entry (pmm s)).
Definition set_entry (n : Z) : K unit :=
  modify (fun s => put_map (u16 n) (mmap (pmm s)) s).

Definition with_length (n : Z) (e : Memory_Map) : Memory_Map :=
  MemoryMap (mm_base e) n (mm_type e) (mm_acpi e).
Definition with_type (t : Z) (e : Memory_Map) : Memory_Map :=
  MemoryMap (mm_base e) (mm_length e) t (mm_acpi e).

(** The loop that selects [best]; -1 when no entry fits. *)
Definition choose_best (size : Z) : K Z :=
  n ← get_entry;
  for_fold (seqZ 0 n) (-1) (fun k best =>
    e ← map_at k;
    if mm_base e =? 0 then mret best
    else if (size <=? mm_length e) && (mm_type e =? 1) then
      if best =? -1 then mret k
      else b ← map_at best;
           if mm_length e <? mm_length b then mret k else mret best
    else mret best).

(** Cut the remainder off [map[best]] and give it the next cell; false when
    the map is full. *)
Definition split_best (best size : Z) : K bool :=
  b ← map_at best;
  let remain := u64 (mm_length b - size) in
  if 0 <? remain then
    n ← get_entry;
    if MAX_FREE_PAGES <=? n then mret false
    else
      for_each (reverse (seqZ (best + 1) (n - best))) (fun k =>
        e ← map_at (k - 1); map_put k e);;
      b ← map_at best;
      map_put (best + 1) (MemoryMap (u64 (mm_base b + size)) remain 1 (mm_acpi b));;
      n ← get_entry;
      set_entry (n + 1);;
      mret true
  else mret true.

Definition allocate (size : Z) : K Z :=
  best ← choose_best size;
  if best =? -1 then mret 0 else
  room ← split_best best size;
  if room : bool then
    b ← map_at best;
    map_put best (with_type 2 (with_length size b));;
    mret (u32 (mm_base b))
  else mret 0.

(** Remove [map[from]] by moving the later entries down. *)
Definition shift_down (from : Z) : K unit :=
  n ← get_entry;
  for_range from (n - 1) (fun k => e ← map_at (k + 1); map_put k e);;
  set_entry (n - 1).

Definition adjacent (a b : Memory_Map) : bool :=
  (mm_type a =? 1) && (u64 (mm_base a + mm_length a) =? mm_base b).
Definition absorb (a b : Memory_Map) : Memory_Map :=
  with_length (u64 (mm_length a + mm_length b)) a.

(** The two coalescing steps; the first returns the new [index]. *)
Definition merge_previous (index : Z) : K Z :=
  if 0 <? index then
    a ← map_at (index - 1); b ← map_at index;
    if adjacent a b then
      map_put (index - 1) (absorb a b);; shift_down index;; mret (index - 1)
    else mret index
  else mret index.
Definition merge_next (index : Z) : K unit :=
  n ← get_entry;
  if index <? n - 1 then
    a ← map_at index; b ← map_at (index + 1);
    if (mm_type b =? 1) && (u64 (mm_base a + mm_length a) =? mm_base b) then
      map_put index (absorb a b);; shift_down (index + 1)
    else mret tt
  else mret tt.

Definition free (physical_address : Z) : K unit :=
  n ← get_entry;
  found ← for_return (seqZ 0 n) (fun k =>
    e ← map_at k;
    mret (if mm_base e =? physical_address then Some k else None));
  match found with
  | None => mret tt
  | Some index =>
      e ← map_at index; map_put index (with_type 1 e);;
      index ← merge_previous index;
      merge_next index
  end.

End MemMap.

(** * Reference *)

Module Spec.
Import MemMap.

Definition fits (size : Z) (e : Memory_Map) : bool :=
  negb (mm_base e =? 0) && (size <=? mm_length e) && (mm_type e =? 1).

(** The shortest entry that fits, the first of them among equals. *)
Fixpoint best_fit (size : Z) (l : list Memory_Map) : option (nat * Memory_Map) :=
  match l with
  | [] => None
  | e :: l' =>
      match best_fit size l' with
      | Some (j, e') =>
          if fits size e && (mm_length e <=? mm_length e') then Some (0%nat, e)
          else Some (S j, e')
      | None => if fits size e then Some (0%nat, e) else None
      end
  end.

Definition used (size : Z) (e : Memory_Map) : Memory_Map :=
  MemoryMap (mm_base e) size 2 (mm_acpi e).
Definition rest (size : Z) (e : Memory_Map) : Memory_Map :=
  MemoryMap (mm_base e + size) (mm_length e - size) 1 (mm_acpi e).

(** The address handed out and the new map; [None] when nothing fits or a
    split has no room. *)
Definition allocate (size : Z) (l : list Memory_Map) : option (Z * list Memory_Map) :=
  match best_fit size l with
  | None => None
  | Some (i, e) =>
      if mm_length e =? size then Some (mm_base e, take i l ++ used size e :: drop (S i) l)
      else if MAX_FREE_PAGES <=? Z.of_nat (length l) then None
      else Some (mm_base e, take i l ++ used size e :: rest size e :: drop (S i) l)
  end.

(** The region given back. *)
Definition released (e : Memory_Map) : Memory_Map :=
  MemoryMap (mm_base e) (mm_length e) 1 (mm_acpi e).
(** [b] starts where [a] ends, in 64-bit arithmetic; both as one region. *)
Definition touches (a b : Memory_Map) : bool :=
  (mm_base a + mm_length a) mod 2 ^ 64 =? mm_base b.
Definition union (a b : Memory_Map) : Memory_Map :=
  MemoryMap (mm_base a) ((mm_length a + mm_length b) mod 2 ^ 64) (mm_type a) (mm_acpi a).

(** Coalescing on the two halves of a map around an entry; [pre] is reversed. *)
Definition join_previous (pre : list Memory_Map) (e : Memory_Map) :
    list Memory_Map * Memory_Map :=
  match pre with
  | p :: pre' =>
      if (mm_type p =? 1) && touches p e then (pre', union p e) else (pre, e)
  | [] => ([], e)
  end.
Definition join_next (e : Memory_Map) (post : list Memory_Map) :
    Memory_Map * list Memory_Map :=
  match post with
  | q :: post' =>
      if (mm_type q =? 1) && touches e q then (union e q, post') else (e, post)
  | [] => (e, [])
  end.

Fixpoint free_at (pre : list Memory_Map) (a : Z) (l : list Memory_Map) : list Memory_Map :=
  match l with
  | [] => reverse pre
  | e :: post =>
      if mm_base e =? a then
        let '(pre', e1) := join_previous pre (released e) in
        let '(e2, post') := join_next e1 post in
        reverse pre' ++ e2 :: post'
      else free_at (e :: pre) a post
  end.
Definition free (a : Z) (l : list Memory_Map) : list Memory_Map := free_at [] a l.

End Spec.

(** * The code on the live entries *)

Section code.
Import MemMap.

(** The entries in use. *)
Definition live (s : kst) : list Memory_Map :=
  take (Z.to_nat (entry (pmm s))) (mmap (pmm s)).

(** The map is stored as the boot sector leaves it: the count is within the
    limit the code enforces and the cells for that many entries exist. *)
Record map_stored (s : kst) : Prop := {
  ms_entry : 0 <= entry (pmm s) <= MAX_FREE_PAGES;
  ms_cells : MAX_FREE_PAGES <= Z.of_nat (length (mmap (pmm s)))
}.

Lemma live_length s : map_stored s -> Z.of_nat (length (live s)) = entry (pmm s).
Proof.
  intros [H1 H2]. unfold live, MAX_FREE_PAGES in *. rewrite length_take. lia.
Qed.

Lemma live_lookup s (i : nat) :
  Z.of_nat i < entry (pmm s) -> live s !! i = mmap (pmm s) !! i.
Proof. intros Hi. unfold live. apply lookup_take_lt. lia. Qed.

Lemma live_lookup_Some s (i : nat) e :
  live s !! i = Some e -> mmap (pmm s) !! i = Some e /\ Z.of_nat i < entry (pmm s).
Proof. unfold live. intros [? ?]%lookup_take_Some. split; [done|lia]. Qed.

Lemma map_at_ok s (i : nat) k e :
  k = Z.of_nat i -> mmap (pmm s) !! i = Some e -> map_at k s = Ok e s.
Proof.
  intros -> He. unfold map_at. rewrite (proj2 (Z.ltb_ge _ 0)) by lia.
  by rewrite Nat2Z.id, He.
Qed.

Lemma map_at_live s (i : nat) k e :
  k = Z.of_nat i -> live s !! i = Some e -> map_at k s = Ok e s.
Proof. intros Hk [? _]%live_lookup_Some. by apply (map_at_ok s i). Qed.

Lemma map_put_ok s (i : nat) k e :
  k = Z.of_nat i -> (i < length (mmap (pmm s)))%nat ->
  map_put k e s = Ok tt (put_map (entry (pmm s)) (<[i := e]> (mmap (pmm s))) s).
Proof.
  intros -> Hi. unfold map_put. rewrite (proj2 (Z.ltb_ge _ 0)) by lia.
  rewrite (proj2 (Z.leb_gt _ _)) by lia. by rewrite Nat2Z.id.
Qed.

Lemma put_map_put_map n l n' l' s : put_map n l (put_map n' l' s) = put_map n l s.
Proof. done. Qed.

(** ** Choosing *)

Lemma fits_true size e :
  Spec.fits size e = true <-> mm_base e <> 0 /\ size <= mm_length e /\ mm_type e = 1.
Proof. unfold Spec.fits. rewrite !andb_true_iff, negb_true_iff. lia. Qed.

Lemma best_fit_Some size l i e :
  Spec.best_fit size l = Some (i, e) -> l !! i = Some e /\ Spec.fits size e = true.
Proof.
  revert i. induction l as [|x l IH]; intros i; simpl; [done|].
  destruct (Spec.best_fit size l) as [[j e']|].
  - case_match eqn:Hc; intros [= <- <-].
    + apply andb_true_iff in Hc as [? _]. done.
    + by apply (IH j).
  - case_match eqn:Hc; [|done]. intros [= <- <-]. done.
Qed.

Lemma best_fit_snoc size l e :
  Spec.best_fit size (l ++ [e]) =
  match Spec.best_fit size l with
  | Some (j, b) =>
      if Spec.fits size e && (mm_length e <? mm_length b) then Some (length l, e)
      else Some (j, b)
  | None => if Spec.fits size e then Some (length l, e) else None
  end.
Proof.
  induction l as [|x l IH]; simpl; [done|]. rewrite IH. clear IH.
  destruct (Spec.best_fit size l) as [[j b]|];
    destruct (Spec.fits size e), (Spec.fits size x); simpl; try done;
    repeat (case_match; simplify_eq/=; try done; try lia).
Qed.

Definition index_of (o : option (nat * Memory_Map)) : Z :=
  match o with Some (i, _) => Z.of_nat i | None => -1 end.

Lemma choose_best_ok size s :
  map_stored s ->
  choose_best size s = Ok (index_of (Spec.best_fit size (live s))) s.
Proof.
  intros HS. pose proof (live_length s HS) as Hlen.
  unfold choose_best, get_entry. run.
  destruct (for_fold_inv
    (fun n b => b = index_of (Spec.best_fit size (take n (live s))))
    (seqZ 0 (entry (pmm s))) (-1) (fun k best =>
      e ← map_at k;
      if mm_base e =? 0 then mret best
      else if (size <=? mm_length e) && (mm_type e =? 1) then
        if best =? -1 then mret k
        else b ← map_at best;
             if mm_length e <? mm_length b then mret k else mret best
      else mret best) s) as (b & Hrun & Hb).
  - done.
  - intros n x best Hx ->. apply lookup_seqZ in Hx as [-> Hn].
    destruct (lookup_lt_is_Some_2 (live s) n) as [e He]; [lia|].
    rewrite (bind_ok _ _ _ e s) by (by apply (map_at_live s n)).
    rewrite (take_S_r _ _ _ He), best_fit_snoc.
    rewrite length_take_le by lia.
    unfold Spec.fits at 1 2. destruct (mm_base e =? 0); simpl.
    { eexists. split; [done|]. by destruct (Spec.best_fit _ _) as [[j b]|]. }
    destruct ((size <=? mm_length e) && (mm_type e =? 1)); simpl.
    2:{ eexists. split; [done|]. by destruct (Spec.best_fit _ _) as [[j b]|]. }
    destruct (Spec.best_fit size (take n (live s))) as [[j b]|] eqn:Hbest; simpl.
    2:{ eexists. split; [done|]. done. }
    rewrite (proj2 (Z.eqb_neq _ _)) by lia.
    apply best_fit_Some in Hbest as [[Hj _]%lookup_take_Some _].
    rewrite (bind_ok _ _ _ b s) by (by apply (map_at_live s j)).
    case_match; by eexists.
  - rewrite Hrun, Hb, length_seqZ. f_equal. f_equal. f_equal.
    apply take_ge. lia.
Qed.

(** ** Splitting *)

(** The loop that opens a gap after [map[i]]. *)
Lemma open_gap_ok s (i n : nat) :
  (i < n)%nat -> (n < length (mmap (pmm s)))%nat ->
  exists L,
    for_each (reverse (seqZ (Z.of_nat i + 1) (Z.of_nat n - Z.of_nat i)))
      (fun k => e ← map_at (k - 1); map_put k e) s
    = Ok tt (put_map (entry (pmm s)) L s) /\
    length L = length (mmap (pmm s)) /\
    forall j, L !! j = if decide (i < j <= n)%nat then mmap (pmm s) !! (j - 1)%nat
                       else mmap (pmm s) !! j.
Proof.
  intros Hi Hn. set (l := mmap (pmm s)) in *.
  destruct (for_each_inv (fun t s' => exists L,
    s' = put_map (entry (pmm s)) L s /\ length L = length l /\
    forall j, L !! j = if decide (n - t < j <= n)%nat then l !! (j - 1)%nat else l !! j)
    (reverse (seqZ (Z.of_nat i + 1) (Z.of_nat n - Z.of_nat i)))
    (fun k => e ← map_at (k - 1); map_put k e) s) as (s' & Hrun & L & -> & Hlen & HL).
  - exists l. split_and!; [done..|]. intros j. rewrite decide_False by lia. done.
  - intros t k s' Hk (L & -> & Hlen & HL).
    pose proof (lookup_lt_Some _ _ _ Hk) as Ht.
    rewrite length_reverse, length_seqZ in Ht.
    rewrite lookup_reverse_seqZ in Hk by lia. injection Hk as <-.
    destruct (lookup_lt_is_Some_2 l (n - t - 1)) as [e He]; [lia|].
    rewrite (bind_ok _ _ _ e (put_map (entry (pmm s)) L s)).
    2:{ apply (map_at_ok _ (n - t - 1)); [lia|]. simpl.
        rewrite HL, decide_False by lia. done. }
    rewrite (map_put_ok _ (n - t)) by (simpl; lia).
    eexists. split; [done|]. eexists. split; [done|]. simpl.
    rewrite length_insert. split; [done|]. intros j.
    rewrite list_lookup_insert. case_decide as Hj.
    + destruct Hj as [<- _]. rewrite decide_True by lia. by rewrite <- He.
    + rewrite HL. repeat case_decide; try done; lia.
  - exists L. split_and!; [done..|]. intros j. rewrite HL.
    rewrite length_reverse, length_seqZ.
    repeat case_decide; try done; lia.
Qed.

Lemma take_grown s L (i : nat) (x y : Memory_Map) :
  map_stored s -> (i < Z.to_nat (entry (pmm s)))%nat ->
  entry (pmm s) < MAX_FREE_PAGES ->
  length L = length (mmap (pmm s)) ->
  (forall j, L !! j =
     if decide (i < j <= Z.to_nat (entry (pmm s)))%nat then mmap (pmm s) !! (j - 1)%nat
     else mmap (pmm s) !! j) ->
  take (Z.to_nat (entry (pmm s) + 1)) (<[i := x]> (<[S i := y]> L)) =
  take i (live s) ++ x :: y :: drop (S i) (live s).
Proof.
  intros [H1 H2] Hi Hfull Hlen HL. unfold MAX_FREE_PAGES in *.
  apply list_eq. intros j.
  assert (length (live s) = Z.to_nat (entry (pmm s))) as Hll.
  { unfold live. rewrite length_take. lia. }
  rewrite lookup_splice by lia.
  destruct (decide (j < Z.to_nat (entry (pmm s) + 1))%nat) as [Hj|Hj].
  - rewrite lookup_take_lt by done. rewrite !list_lookup_insert, !length_insert, HL.
    unfold live. rewrite !lookup_take.
    repeat case_decide; try done; try lia; f_equal; lia.
  - rewrite lookup_take_ge by lia. unfold live.
    repeat case_decide; try lia. by rewrite lookup_take_ge by lia.
Qed.

Lemma split_best_exact size s i e :
  live s !! i = Some e -> mm_length e = size ->
  split_best (Z.of_nat i) size s = Ok true s.
Proof.
  intros He <-. unfold split_best. run_with (map_at_live s i _ e eq_refl He).
  by rewrite Z.sub_diag.
Qed.

Lemma split_best_full size s i e :
  live s !! i = Some e -> in_u64 (mm_length e) -> 0 <= size < mm_length e ->
  MAX_FREE_PAGES <= entry (pmm s) ->
  split_best (Z.of_nat i) size s = Ok false s.
Proof.
  intros He Hu Hs Hfull. unfold split_best, get_entry.
  run_with (map_at_live s i _ e eq_refl He).
  rewrite u64_small by width_lia. rewrite (proj2 (Z.ltb_lt _ _)) by lia. run.
  by rewrite (proj2 (Z.leb_le _ _)).
Qed.

Lemma split_best_split size s i e :
  map_stored s -> live s !! i = Some e -> in_u64 (mm_length e) ->
  0 <= mm_base e -> mm_base e + mm_length e <= 2 ^ 64 ->
  0 <= size < mm_length e -> entry (pmm s) < MAX_FREE_PAGES ->
  exists L, split_best (Z.of_nat i) size s = Ok true (put_map (entry (pmm s) + 1) L s) /\
    length L = length (mmap (pmm s)) /\ L !! i = Some e /\
    take (Z.to_nat (entry (pmm s) + 1)) (<[i := Spec.used size e]> L) =
    take i (live s) ++ Spec.used size e :: Spec.rest size e :: drop (S i) (live s).
Proof.
  intros HS He Hu Hb Hwrap Hs Hfull. pose proof HS as [HS1 HS2].
  pose proof (live_lookup_Some s i e He) as [He' Hi].
  unfold MAX_FREE_PAGES in *.
  destruct (open_gap_ok s i (Z.to_nat (entry (pmm s)))) as (L & Hrun & Hlen & HL); [lia..|].
  rewrite Z2Nat.id in Hrun by lia.
  assert (L !! i = Some e) as HLi by (rewrite HL, decide_False by lia; done).
  exists (<[S i := Spec.rest size e]> L). split_and!.
  - unfold split_best, get_entry.
    run_with (map_at_live s i _ e eq_refl He).
    rewrite u64_small by width_lia. rewrite (proj2 (Z.ltb_lt _ _)) by lia. run.
    unfold MAX_FREE_PAGES. rewrite (proj2 (Z.leb_gt _ _)) by lia.
    run_with Hrun.
    rewrite (bind_ok _ _ _ e (put_map (entry (pmm s)) L s))
      by (by apply (map_at_ok _ i)).
    erewrite bind_ok by (apply (map_put_ok _ (S i)); simpl; lia).
    unfold set_entry. run. simpl. rewrite put_map_put_map.
    rewrite u16_small by width_lia. rewrite u64_small by width_lia. done.
  - by rewrite length_insert.
  - by rewrite list_lookup_insert_ne by lia.
  - apply take_grown; unfold MAX_FREE_PAGES; auto; lia.
Qed.

(** ** Allocation *)

(** Only the map changes, and it stays well stored. *)
Record map_step (s s' : kst) : Prop := {
  mp_put : exists n L, s' = put_map n L s;
  mp_stored : map_stored s'
}.

(** A region inside the 64-bit address space. *)
Record region_ok (e : Memory_Map) : Prop := {
  rg_base : 0 <= mm_base e;
  rg_length : 0 < mm_length e < 2 ^ 64;
  rg_end : mm_base e + mm_length e < 2 ^ 64
}.

Lemma map_step_put n L s :
  0 <= n <= MAX_FREE_PAGES -> length L = length (mmap (pmm s)) -> map_stored s ->
  map_step s (put_map n L s).
Proof.
  intros Hn HL [H1 H2]. split; [by exists n, L|]. split; simpl; [done|].
  by rewrite HL.
Qed.

Lemma map_step_refl s : map_stored s -> map_step s s.
Proof. intros H. split; [|done]. by exists (entry (pmm s)), (mmap (pmm s)). Qed.

Lemma map_step_trans s1 s2 s3 : map_step s1 s2 -> map_step s2 s3 -> map_step s1 s3.
Proof.
  intros [(n & L & ->) _] [(n' & L' & ->) ?]. split; [by exists n', L'|done].
Qed.

Lemma live_replace s i e :
  (i < length (live s))%nat -> map_stored s ->
  live (put_map (entry (pmm s)) (<[i := e]> (mmap (pmm s))) s) =
  take i (live s) ++ e :: drop (S i) (live s).
Proof.
  intros Hi HS. rewrite <- insert_take_drop by done.
  unfold live in *. rewrite length_take in Hi. simpl. apply list_eq. intros j.
  rewrite list_lookup_insert, !lookup_take, list_lookup_insert, length_take.
  repeat case_decide; try done; lia.
Qed.

Lemma allocate_exact size s i e :
  map_stored s -> Spec.best_fit size (live s) = Some (i, e) -> mm_length e = size ->
  exists s', allocate size s = Ok (u32 (mm_base e)) s' /\ map_step s s' /\
    live s' = take i (live s) ++ Spec.used size e :: drop (S i) (live s).
Proof.
  intros HS Hbest Hlen. pose proof (best_fit_Some _ _ _ _ Hbest) as [He _].
  pose proof (live_lookup_Some _ _ _ He) as [He' Hi].
  pose proof (lookup_lt_Some _ _ _ He) as Hil.
  pose proof (lookup_lt_Some _ _ _ He') as Hil'.
  eexists. split_and!.
  - unfold allocate. run_with (choose_best_ok size s HS). rewrite Hbest. simpl.
    rewrite (proj2 (Z.eqb_neq _ _)) by lia.
    run_with (split_best_exact size s i e He Hlen).
    run_with (map_at_live s i _ e eq_refl He).
    by erewrite bind_ok by (by apply (map_put_ok _ i)).
  - apply map_step_put; [apply HS|by rewrite length_insert|done].
  - by apply live_replace.
Qed.

Lemma allocate_split size s i e :
  map_stored s -> Spec.best_fit size (live s) = Some (i, e) -> region_ok e ->
  0 <= size -> mm_length e <> size -> entry (pmm s) < MAX_FREE_PAGES ->
  exists s', allocate size s = Ok (u32 (mm_base e)) s' /\ map_step s s' /\
    live s' = take i (live s) ++ Spec.used size e :: Spec.rest size e :: drop (S i) (live s).
Proof.
  intros HS Hbest [Hb Hl Hend] Hsize Hne Hfull.
  pose proof (best_fit_Some _ _ _ _ Hbest) as [He Hfits].
  pose proof (live_lookup_Some _ _ _ He) as [He' Hi].
  assert (size < mm_length e) as Hlt.
  { apply fits_true in Hfits. lia. }
  destruct (split_best_split size s i e) as (L & Hrun & HlenL & HLi & Htake);
    [done|done|unfold in_u64; lia|done|lia|lia|done|].
  pose proof (lookup_lt_Some _ _ _ HLi) as HiL.
  eexists. split_and!.
  - unfold allocate. run_with (choose_best_ok size s HS). rewrite Hbest. simpl.
    rewrite (proj2 (Z.eqb_neq _ _)) by lia. run_with Hrun.
    rewrite (bind_ok _ _ _ e (put_map (entry (pmm s) + 1) L s))
      by (by apply (map_at_ok _ i)).
    by erewrite bind_ok by (by apply (map_put_ok _ i)).
  - simpl. rewrite put_map_put_map.
    apply map_step_put; [destruct HS; lia|by rewrite length_insert|done].
  - done.
Qed.

Lemma allocate_full size s i e :
  map_stored s -> Spec.best_fit size (live s) = Some (i, e) -> region_ok e ->
  0 <= size -> mm_length e <> size -> MAX_FREE_PAGES <= entry (pmm s) ->
  allocate size s = Ok 0 s.
Proof.
  intros HS Hbest [Hb Hl Hend] Hsize Hne Hfull.
  pose proof (best_fit_Some _ _ _ _ Hbest) as [He Hfits].
  assert (size < mm_length e) as Hlt.
  { apply fits_true in Hfits. lia. }
  unfold allocate. run_with (choose_best_ok size s HS). rewrite Hbest. simpl.
  rewrite (proj2 (Z.eqb_neq _ _)) by lia.
  run_with (split_best_full size s i e He ltac:(unfold in_u64; lia) ltac:(lia) Hfull).
  done.
Qed.

(** ** Freeing *)

Lemma shift_down_ok s (i : nat) :
  map_stored s -> (i < length (live s))%nat ->
  exists s', shift_down (Z.of_nat i) s = Ok tt s' /\ map_step s s' /\
    live s' = delete i (live s).
Proof.
  intros HS Hi. pose proof (live_length s HS) as Hlen. pose proof HS as [H1 H2].
  unfold MAX_FREE_PAGES in *. set (l := mmap (pmm s)) in *.
  destruct (for_range_inv (fun k s' => exists L,
    s' = put_map (entry (pmm s)) L s /\ length L = length l /\
    forall j, L !! j = if decide ((i <= j)%nat /\ Z.of_nat j < k) then l !! S j else l !! j)
    (Z.of_nat i) (entry (pmm s) - 1)
    (fun k => e ← map_at (k + 1); map_put k e) s) as (s' & Hrun & L & -> & HlenL & HL).
  - lia.
  - exists l. split_and!; [done..|]. intros j. by rewrite decide_False by lia.
  - intros k s' Hk (L & -> & HlenL & HL).
    destruct (lookup_lt_is_Some_2 l (Z.to_nat (k + 1))) as [e He]; [lia|].
    rewrite (bind_ok _ _ _ e (put_map (entry (pmm s)) L s)).
    2:{ apply (map_at_ok _ (Z.to_nat (k + 1))); [lia|]. simpl.
        by rewrite HL, decide_False by lia. }
    rewrite (map_put_ok _ (Z.to_nat k)) by (simpl; lia).
    eexists. split; [done|]. eexists. split; [done|]. simpl.
    rewrite length_insert. split; [done|]. intros j. rewrite list_lookup_insert.
    case_decide as Hj.
    + destruct Hj as [<- _]. rewrite decide_True by lia. rewrite <- He. f_equal. lia.
    + rewrite HL. repeat case_decide; try done; lia.
  - exists (put_map (entry (pmm s) - 1) L s). split_and!.
    + unfold shift_down, get_entry. run. run_with Hrun. unfold set_entry, modify. simpl.
      rewrite u16_small by width_lia. done.
    + apply map_step_put; unfold MAX_FREE_PAGES; [lia|done|done].
    + unfold live. simpl. apply list_eq. intros j.
      rewrite lookup_delete_list, !lookup_take, HL.
      repeat case_decide; try done; lia.
Qed.

Lemma live_insert s (i : nat) e :
  map_stored s -> (i < length (live s))%nat ->
  exists s', map_put (Z.of_nat i) e s = Ok tt s' /\ map_step s s' /\
    live s' = <[i := e]> (live s).
Proof.
  intros HS Hi. pose proof (live_length s HS) as Hlen. pose proof HS as [H1 H2].
  eexists. split_and!.
  - apply (map_put_ok _ i); [done|]. unfold MAX_FREE_PAGES in *. lia.
  - apply map_step_put; [done|by rewrite length_insert|done].
  - rewrite (insert_take_drop (live s)) by done. by apply live_replace.
Qed.

(** The state around [map[index]]: [pre] (reversed) before, [post] after. *)
Definition zipped (s : kst) (pre : list Memory_Map) (e : Memory_Map)
    (post : list Memory_Map) : Prop :=
  map_stored s /\ live s = reverse pre ++ e :: post.

Lemma zipped_at s pre e post :
  zipped s pre e post -> map_at (Z.of_nat (length pre)) s = Ok e s.
Proof.
  intros [HS Hl]. apply (map_at_live s (length pre)); [done|].
  by rewrite Hl, lookup_app_r, length_reverse, Nat.sub_diag by (by rewrite length_reverse).
Qed.

Lemma zipped_put s pre e post e' :
  zipped s pre e post ->
  exists s', map_put (Z.of_nat (length pre)) e' s = Ok tt s' /\ map_step s s' /\
    zipped s' pre e' post.
Proof.
  intros [HS Hl]. destruct (live_insert s (length pre) e' HS) as (s' & H1 & H2 & H3).
  { rewrite Hl, length_app, length_reverse. simpl. lia. }
  exists s'. split_and!; [done..|]. split; [apply H2|].
  rewrite H3, Hl, insert_app_r_alt by (by rewrite length_reverse).
  by rewrite length_reverse, Nat.sub_diag.
Qed.

Lemma zipped_delete_next s pre e q post :
  zipped s pre e (q :: post) ->
  exists s', shift_down (Z.of_nat (length pre) + 1) s = Ok tt s' /\ map_step s s' /\
    zipped s' pre e post.
Proof.
  intros [HS Hl]. destruct (shift_down_ok s (S (length pre)) HS) as (s' & H1 & H2 & H3).
  { rewrite Hl, length_app, length_reverse. simpl. lia. }
  exists s'. split_and!; [by rewrite <- H1; f_equal; lia|done|].
  split; [apply H2|]. rewrite H3, Hl. apply list_eq. intros j.
  rewrite lookup_delete_list. case_decide as Hj.
  - destruct (decide (j < length pre)%nat).
    + by rewrite !lookup_app_l by (rewrite length_reverse; lia).
    + rewrite !lookup_app_r by (rewrite length_reverse; lia). rewrite length_reverse.
      by replace (j - length pre)%nat with 0%nat by lia.
  - rewrite !lookup_app_r by (rewrite length_reverse; lia). rewrite length_reverse.
    replace (j - length pre)%nat with (S (j - length pre - 1)) by lia.
    by replace (S j - length pre)%nat with (S (S (j - length pre - 1))) by lia.
Qed.

Lemma zipped_back s p pre e post :
  zipped s (p :: pre) e post -> zipped s pre p (e :: post).
Proof. intros [HS Hl]. split; [done|]. by rewrite Hl, reverse_cons, <- app_assoc. Qed.

(** The test and the assignment of the code are those of the reference. *)
Lemma adjacent_touches a b : adjacent a b = (mm_type a =? 1) && Spec.touches a b.
Proof. done. Qed.
Lemma absorb_union a b : absorb a b = Spec.union a b.
Proof. done. Qed.

Lemma merge_previous_ok s pre e post :
  zipped s pre e post ->
  exists s', merge_previous (Z.of_nat (length pre)) s =
      Ok (Z.of_nat (length (Spec.join_previous pre e).1)) s' /\ map_step s s' /\
    zipped s' (Spec.join_previous pre e).1 (Spec.join_previous pre e).2 post.
Proof.
  intros HZ. pose proof (proj1 HZ) as HS. unfold merge_previous.
  destruct pre as [|p pre]; simpl.
  { exists s. split_and!; [done|by apply map_step_refl|done]. }
  replace (Z.of_nat (S (length pre)) - 1) with (Z.of_nat (length pre)) by lia.
  run_with (zipped_at _ _ _ _ (zipped_back _ _ _ _ _ HZ)).
  run_with (zipped_at _ _ _ _ HZ).
  rewrite adjacent_touches, absorb_union. destruct ((mm_type p =? 1) && _); simpl.
  2:{ exists s. split_and!; [done|by apply map_step_refl|done]. }
  destruct (zipped_put _ _ _ _ (Spec.union p e) (zipped_back _ _ _ _ _ HZ)) as (s1 & R1 & M1 & Z1).
  run_with R1.
  destruct (zipped_delete_next _ _ _ _ _ Z1) as (s2 & R2 & M2 & Z2).
  replace (Z.of_nat (S (length pre))) with (Z.of_nat (length pre) + 1) by lia.
  run_with R2. exists s2. split_and!; [|by apply (map_step_trans _ s1)|done].
  by replace (Z.of_nat (length pre) + 1 - 1) with (Z.of_nat (length pre)) by lia.
Qed.

Lemma merge_next_ok s pre e post :
  zipped s pre e post ->
  exists s', merge_next (Z.of_nat (length pre)) s = Ok tt s' /\ map_step s s' /\
    zipped s' pre (Spec.join_next e post).1 (Spec.join_next e post).2.
Proof.
  intros HZ. pose proof (proj1 HZ) as HS. pose proof (proj2 HZ) as Hl.
  pose proof (live_length s HS) as Hlen.
  rewrite Hl, length_app, length_reverse in Hlen. simpl in Hlen.
  unfold merge_next, get_entry. run.
  destruct post as [|q post]; simpl in *.
  { rewrite (proj2 (Z.ltb_ge _ _)) by lia.
    exists s. split_and!; [done|by apply map_step_refl|done]. }
  rewrite (proj2 (Z.ltb_lt _ _)) by lia.
  run_with (zipped_at _ _ _ _ HZ).
  rewrite (bind_ok _ _ _ q s).
  2:{ apply (map_at_live s (S (length pre))); [lia|].
      rewrite Hl, lookup_app_r by (rewrite length_reverse; lia). rewrite length_reverse.
      by replace (S (length pre) - length pre)%nat with 1%nat by lia. }
  change (u64 (mm_base e + mm_length e) =? mm_base q) with (Spec.touches e q). rewrite absorb_union.
  destruct ((mm_type q =? 1) && _); simpl.
  2:{ exists s. split_and!; [done|by apply map_step_refl|done]. }
  destruct (zipped_put _ _ _ _ (Spec.union e q) HZ) as (s1 & R1 & M1 & Z1). run_with R1.
  destruct (zipped_delete_next _ _ _ _ _ Z1) as (s2 & R2 & M2 & Z2).
  exists s2. split_and!; [done|by apply (map_step_trans _ s1)|done].
Qed.

Lemma free_at_split pre a l1 e l2 :
  Forall (fun x => mm_base x <> a) l1 -> mm_base e = a ->
  Spec.free_at pre a (l1 ++ e :: l2) =
  let '(pre', e1) := Spec.join_previous (reverse l1 ++ pre) (Spec.released e) in
  let '(e2, post') := Spec.join_next e1 l2 in reverse pre' ++ e2 :: post'.
Proof.
  intros H He. revert pre. induction H as [|x l1 Hx _ IH]; intros pre; simpl.
  - by rewrite (proj2 (Z.eqb_eq _ _)).
  - rewrite (proj2 (Z.eqb_neq _ _)) by done. rewrite IH.
    by rewrite reverse_cons, <- app_assoc.
Qed.

Lemma free_at_none pre a l :
  Forall (fun x => mm_base x <> a) l -> Spec.free_at pre a l = reverse pre ++ l.
Proof.
  intros H. revert pre. induction H as [|x l Hx _ IH]; intros pre; simpl.
  - by rewrite app_nil_r.
  - rewrite (proj2 (Z.eqb_neq _ _)) by done. rewrite IH, reverse_cons.
    by rewrite <- app_assoc.
Qed.

(** The first entry at an address, if there is one. *)
Lemma split_at_base a (l : list Memory_Map) :
  Forall (fun x => mm_base x <> a) l \/
  exists l1 e l2, l = l1 ++ e :: l2 /\ Forall (fun x => mm_base x <> a) l1 /\ mm_base e = a.
Proof.
  induction l as [|x l IH]; [by left|].
  destruct (decide (mm_base x = a)) as [Hx|Hx].
  { right. by exists [], x, l. }
  destruct IH as [?|(l1 & e & l2 & -> & ? & ?)]; [left|right]; [by constructor|].
  exists (x :: l1), e, l2. split_and!; [done|by constructor|done].
Qed.

Lemma free_ok a s :
  map_stored s ->
  exists s', free a s = Ok tt s' /\ map_step s s' /\ live s' = Spec.free a (live s).
Proof.
  intros HS. pose proof (live_length s HS) as Hlen. unfold free, get_entry. run.
  destruct (split_at_base a (live s)) as [Hnone|(l1 & e & l2 & Hl & Hbefore & He)].
  - exists s. rewrite (bind_ok _ _ _ None s).
    { split_and!; [done|by apply map_step_refl|].
      unfold Spec.free. by rewrite free_at_none. }
    apply for_return_none. intros m k Hk. apply lookup_seqZ in Hk as [-> Hm].
    destruct (lookup_lt_is_Some_2 (live s) m) as [x Hx]; [lia|].
    rewrite (bind_ok _ _ _ x s) by (by apply (map_at_live s m)).
    rewrite Forall_lookup in Hnone. specialize (Hnone _ _ Hx).
    by rewrite (proj2 (Z.eqb_neq _ _)).
  - rewrite (bind_ok _ _ _ (Some (Z.of_nat (length l1))) s).
    2:{ rewrite Hl, length_app in Hlen. simpl in Hlen.
        apply (for_return_found _ _ _ (length l1) (Z.of_nat (length l1))).
        - apply lookup_seqZ. lia.
        - rewrite (bind_ok _ _ _ e s).
          2:{ apply (map_at_live s (length l1)); [done|].
              by rewrite Hl, lookup_app_r, Nat.sub_diag. }
          by rewrite (proj2 (Z.eqb_eq _ _)).
        - intros m k Hm Hk. apply lookup_seqZ in Hk as [-> _].
          destruct (lookup_lt_is_Some_2 l1 m) as [x Hx]; [lia|].
          rewrite (bind_ok _ _ _ x s).
          2:{ apply (map_at_live s m); [lia|]. by rewrite Hl, lookup_app_l. }
          rewrite Forall_lookup in Hbefore. specialize (Hbefore _ _ Hx).
          by rewrite (proj2 (Z.eqb_neq _ _)). }
    assert (zipped s (reverse l1) e l2) as HZ by (split; [done|by rewrite reverse_involutive]).
    rewrite <- (length_reverse l1). run_with (zipped_at _ _ _ _ HZ).
    change (with_type 1 e) with (Spec.released e).
    destruct (zipped_put _ _ _ _ (Spec.released e) HZ) as (s1 & R1 & M1 & Z1). run_with R1.
    destruct (merge_previous_ok _ _ _ _ Z1) as (s2 & R2 & M2 & Z2). run_with R2.
    destruct (merge_next_ok _ _ _ _ Z2) as (s3 & R3 & M3 & [Hs3 Hl3]). rewrite R3.
    exists s3. split_and!; [done|by eapply map_step_trans, map_step_trans|].
    unfold Spec.free. rewrite Hl, free_at_split, app_nil_r by done. rewrite Hl3.
    destruct (Spec.join_previous (reverse l1) (Spec.released e)) as [pre' e1]. simpl.
    by destruct (Spec.join_next e1 l2).
Qed.

End code.

(** * The map as a function from addresses to region types *)

Section status.
Import MemMap.

Definition covers (e : Memory_Map) (x : Z) : bool :=
  (mm_base e <=? x) && (x <? mm_base e + mm_length e).

Fixpoint status (l : list Memory_Map) (x : Z) : option Z :=
  match l with
  | [] => None
  | e :: l' => if covers e x then Some (mm_type e) else status l' x
  end.

Definition region_disjoint (e f : Memory_Map) : Prop :=
  mm_base e + mm_length e <= mm_base f \/ mm_base f + mm_length f <= mm_base e.

Fixpoint disjoint_regions (l : list Memory_Map) : Prop :=
  match l with
  | [] => True
  | e :: l' => Forall (region_disjoint e) l' /\ disjoint_regions l'
  end.

(** What the BIOS promises of its map and the allocator keeps. *)
Record map_wf (l : list Memory_Map) : Prop := {
  wf_regions : Forall region_ok l;
  wf_disjoint : disjoint_regions l
}.

Lemma covers_true e x : covers e x = true <-> mm_base e <= x < mm_base e + mm_length e.
Proof. unfold covers. lia. Qed.
Lemma covers_false e x : covers e x = false <-> ~ mm_base e <= x < mm_base e + mm_length e.
Proof. unfold covers. lia. Qed.

Lemma region_disjoint_sym e f : region_disjoint e f -> region_disjoint f e.
Proof. unfold region_disjoint. lia. Qed.

Lemma status_app l1 l2 x :
  status (l1 ++ l2) x = match status l1 x with Some t => Some t | None => status l2 x end.
Proof. induction l1 as [|e l1 IH]; simpl; [done|]. by destruct (covers e x). Qed.

Lemma disjoint_regions_app l1 l2 :
  disjoint_regions (l1 ++ l2) <->
  disjoint_regions l1 /\ disjoint_regions l2 /\
  Forall (fun e => Forall (region_disjoint e) l2) l1.
Proof.
  induction l1 as [|e l1 IH]; simpl.
  { split; [intros ?; split_and!; [done|done|constructor] | by intros (_ & ? & _)]. }
  rewrite Forall_app, Forall_cons, IH. tauto.
Qed.

Lemma map_wf_middle l1 e l2 :
  map_wf (l1 ++ e :: l2) <->
  map_wf (l1 ++ l2) /\ region_ok e /\
  Forall (region_disjoint e) l1 /\ Forall (region_disjoint e) l2.
Proof.
  split.
  - intros [[H1 [H2 H3]%Forall_cons]%Forall_app
      (D1 & [D2 D3] & D4)%disjoint_regions_app].
    split_and!; [split| | |]; try done.
    + by apply Forall_app.
    + apply disjoint_regions_app. split_and!; [done..|].
      eapply Forall_impl; [apply D4|]. by intros f [_ ?]%Forall_cons.
    + eapply Forall_impl; [apply D4|].
      intros f [? _]%Forall_cons. by apply region_disjoint_sym.
  - intros ([[H1 H3]%Forall_app (D1 & D2 & D3)%disjoint_regions_app] & H2 & D4 & D5).
    split; [by apply Forall_app; split; [|constructor]|].
    apply disjoint_regions_app. split_and!; [done..|].
    rewrite Forall_lookup in D3, D4 |- *. intros i f Hf.
    constructor; [apply region_disjoint_sym; eauto|eauto].
Qed.

(** An address inside a region is in no region disjoint from it. *)
Lemma status_disjoint l e x :
  Forall (region_disjoint e) l -> covers e x = true -> status l x = None.
Proof.
  intros H Hx%covers_true. induction H as [|f l Hf _ IH]; simpl; [done|].
  rewrite (proj2 (covers_false f x)); [done|]. unfold region_disjoint in Hf. lia.
Qed.

Lemma status_middle l1 e l2 x :
  Forall (region_disjoint e) l1 ->
  status (l1 ++ e :: l2) x = if covers e x then Some (mm_type e) else status (l1 ++ l2) x.
Proof.
  intros H. rewrite !status_app. simpl. destruct (covers e x) eqn:Hc; [|done].
  by rewrite (status_disjoint l1 e x).
Qed.

(** Regions inside a region are disjoint from what it is disjoint from. *)
Lemma region_disjoint_inside e f l :
  mm_base e <= mm_base f -> mm_base f + mm_length f <= mm_base e + mm_length e ->
  Forall (region_disjoint e) l -> Forall (region_disjoint f) l.
Proof.
  intros ? ? H. eapply Forall_impl; [apply H|]. unfold region_disjoint. lia.
Qed.

(** ** Allocation *)

Lemma used_ok size e :
  region_ok e -> 0 < size <= mm_length e -> region_ok (Spec.used size e).
Proof. intros [] ?. split; simpl; lia. Qed.
Lemma rest_ok size e :
  region_ok e -> 0 < size < mm_length e -> region_ok (Spec.rest size e).
Proof. intros [] ?. split; simpl; lia. Qed.

Lemma exact_wf l1 e l2 :
  map_wf (l1 ++ e :: l2) ->
  map_wf (l1 ++ Spec.used (mm_length e) e :: l2) /\
  forall x, status (l1 ++ Spec.used (mm_length e) e :: l2) x =
    if covers e x then Some 2 else status (l1 ++ e :: l2) x.
Proof.
  intros (Hwf & Hok & D1 & D2)%map_wf_middle. split.
  - apply map_wf_middle. split_and!; [done| |done..]. destruct Hok. by split.
  - intros x. rewrite !status_middle by done.
    change (covers (Spec.used (mm_length e) e) x) with (covers e x).
    by destruct (covers e x).
Qed.

Lemma split_wf size l1 e l2 :
  0 < size < mm_length e -> mm_type e = 1 -> map_wf (l1 ++ e :: l2) ->
  map_wf (l1 ++ Spec.used size e :: Spec.rest size e :: l2) /\
  forall x, status (l1 ++ Spec.used size e :: Spec.rest size e :: l2) x =
    if decide (mm_base e <= x < mm_base e + size) then Some 2
    else status (l1 ++ e :: l2) x.
Proof.
  intros Hs Ht (Hwf & Hok & D1 & D2)%map_wf_middle.
  assert (forall l, Forall (region_disjoint e) l ->
    Forall (region_disjoint (Spec.used size e)) l /\
    Forall (region_disjoint (Spec.rest size e)) l) as Hin.
  { intros l Hl. split; eapply region_disjoint_inside; eauto; simpl; lia. }
  pose proof (used_ok size e Hok ltac:(lia)). pose proof (rest_ok size e Hok Hs).
  split.
  - apply map_wf_middle. split_and!; [|done|by apply Hin|].
    + apply map_wf_middle. split_and!; [done|done|by apply Hin|by apply Hin].
    + constructor; [|by apply Hin]. unfold region_disjoint. simpl. lia.
  - intros x. rewrite !status_middle by (by apply Hin || done).
    repeat case_match; try done; rewrite ?covers_true, ?covers_false in *; simpl in *;
      try lia; by rewrite Ht.
Qed.

(** ** Freeing *)

Lemma touches_true a b :
  region_ok a -> Spec.touches a b = true -> mm_base a + mm_length a = mm_base b.
Proof. intros [] Hb. unfold Spec.touches in Hb. rewrite Z.mod_small in Hb by lia. lia. Qed.
Lemma touching_true a b :
  region_ok a -> (mm_type a =? 1) && Spec.touches a b = true ->
  mm_type a = 1 /\ mm_base a + mm_length a = mm_base b.
Proof. intros Ha [Ht Hb%touches_true]%andb_true_iff; [lia|done]. Qed.

Lemma union_ok a b :
  region_ok a -> region_ok b -> mm_base a + mm_length a = mm_base b ->
  region_ok (Spec.union a b) /\ mm_base (Spec.union a b) = mm_base a /\
  mm_length (Spec.union a b) = mm_length a + mm_length b.
Proof.
  intros [] [] ?. unfold Spec.union. simpl. rewrite Z.mod_small by lia.
  split; [split; simpl|done]; lia.
Qed.

Lemma join_wf l1 a b l2 :
  map_wf (l1 ++ a :: b :: l2) -> mm_type a = 1 -> mm_type b = 1 ->
  mm_base a + mm_length a = mm_base b ->
  map_wf (l1 ++ Spec.union a b :: l2) /\
  forall x, status (l1 ++ Spec.union a b :: l2) x = status (l1 ++ a :: b :: l2) x.
Proof.
  intros (Hwf & Ha & D1 & D2)%map_wf_middle Hta Htb Hadj.
  apply map_wf_middle in Hwf as (Hwf & Hb & D3 & D4).
  apply Forall_cons in D2 as [_ D2].
  destruct (union_ok a b Ha Hb Hadj) as (Hok & Hbase & Hlen).
  assert (forall l, Forall region_ok l -> Forall (region_disjoint a) l ->
    Forall (region_disjoint b) l -> Forall (region_disjoint (Spec.union a b)) l) as Hj.
  { intros l Lo La Lb. rewrite Forall_lookup in Lo, La, Lb |- *. intros i f Hf.
    specialize (Lo i f Hf). specialize (La i f Hf). specialize (Lb i f Hf).
    unfold region_disjoint in *. rewrite Hbase, Hlen. destruct Ha, Hb, Lo. lia. }
  pose proof (proj1 (Forall_app _ _ _) (wf_regions _ Hwf)) as [Ho1 Ho2].
  split.
  - apply map_wf_middle. split_and!; auto.
  - intros x. rewrite !status_middle by auto. unfold covers. rewrite Hbase, Hlen.
    change (mm_type (Spec.union a b)) with (mm_type a). rewrite Hta, Htb. destruct Ha, Hb. repeat (case_match; try done; try lia).
Qed.

Lemma join_previous_wf pre e post :
  mm_type e = 1 -> map_wf (reverse pre ++ e :: post) ->
  let pre' := (Spec.join_previous pre e).1 in
  let e1 := (Spec.join_previous pre e).2 in
  mm_type e1 = 1 /\ map_wf (reverse pre' ++ e1 :: post) /\
  forall x, status (reverse pre' ++ e1 :: post) x = status (reverse pre ++ e :: post) x.
Proof.
  intros Ht Hwf. destruct pre as [|p pre]; simpl; [done|].
  destruct ((mm_type p =? 1) && Spec.touches p e) eqn:Hadj; simpl; [|done].
  rewrite reverse_cons, <- app_assoc in Hwf |- *. simpl in Hwf |- *.
  pose proof (proj1 (map_wf_middle _ _ _) Hwf) as (_ & Hp & _ & _).
  destruct (touching_true p e Hp Hadj) as [Htp Hb].
  split; [done|]. by apply join_wf.
Qed.

Lemma join_next_wf l1 e post :
  mm_type e = 1 -> map_wf (l1 ++ e :: post) ->
  map_wf (l1 ++ (Spec.join_next e post).1 :: (Spec.join_next e post).2) /\
  forall x, status (l1 ++ (Spec.join_next e post).1 :: (Spec.join_next e post).2) x =
            status (l1 ++ e :: post) x.
Proof.
  intros Ht Hwf. destruct post as [|q post]; simpl; [done|].
  destruct ((mm_type q =? 1) && _) eqn:Hc; simpl; [|done].
  pose proof (proj1 (map_wf_middle _ _ _) Hwf) as (_ & [] & _ & _).
  apply andb_true_iff in Hc as [Htq Hb]. apply touches_true in Hb; [|done].
  apply join_wf; [done|done|lia|lia].
Qed.

Lemma spec_free_status a l1 e l2 :
  Forall (fun x => mm_base x <> a) l1 -> mm_base e = a -> map_wf (l1 ++ e :: l2) ->
  map_wf (Spec.free a (l1 ++ e :: l2)) /\
  forall x, status (Spec.free a (l1 ++ e :: l2)) x =
    if covers e x then Some 1 else status (l1 ++ e :: l2) x.
Proof.
  intros Hbefore He Hwf. unfold Spec.free. rewrite free_at_split, app_nil_r by done.
  pose proof (proj1 (map_wf_middle _ _ _) Hwf) as (Hwf' & [] & D1 & D2).
  assert (map_wf (reverse (reverse l1) ++ Spec.released e :: l2)) as Hwf1.
  { rewrite reverse_involutive. by apply map_wf_middle. }
  destruct (join_previous_wf (reverse l1) (Spec.released e) l2 eq_refl Hwf1)
    as (Ht & Hwf2 & Hst).
  destruct (Spec.join_previous (reverse l1) (Spec.released e)) as [pre e1]. simpl in *.
  destruct (join_next_wf _ _ _ Ht Hwf2) as (Hwf3 & Hst').
  destruct (Spec.join_next e1 l2) as [e2 post]. simpl in *.
  split; [done|]. intros x. rewrite Hst', Hst, reverse_involutive, !status_middle by done.
  change (covers (Spec.released e) x) with (covers e x). by destruct (covers e x).
Qed.

Lemma best_fit_None size l :
  Spec.best_fit size l = None <-> forall f, f ∈ l -> Spec.fits size f = false.
Proof.
  induction l as [|x l IH]; simpl; [split; [intros _ f Hf; by apply elem_of_nil in Hf|done]|].
  destruct (Spec.best_fit size l) as [[j e']|] eqn:Hl.
  - split; [by case_match|]. intros H. exfalso.
    apply best_fit_Some in Hl as [Hj Hfits]. apply list_elem_of_lookup_2 in Hj.
    rewrite (H e') in Hfits; [done|]. by apply elem_of_cons; right.
  - split.
    + case_match eqn:Hx; [done|]. intros _ f [->|Hf]%elem_of_cons; [done|].
      by apply (proj1 IH).
    + intros H. by rewrite (H x) by (apply elem_of_cons; by left).
Qed.

(** A best fit is a shortest region that fits. *)
Lemma best_fit_least size l i e f :
  Spec.best_fit size l = Some (i, e) -> f ∈ l -> Spec.fits size f = true ->
  mm_length e <= mm_length f.
Proof.
  revert i e. induction l as [|x l IH]; intros i e; simpl; [by rewrite elem_of_nil|].
  intros H [->|Hf]%elem_of_cons Hfits.
  - rewrite Hfits in H. destruct (Spec.best_fit size l) as [[j e']|]; simpl in H.
    + destruct (Z.leb_spec (mm_length x) (mm_length e')); simplify_eq; lia.
    + by simplify_eq.
  - destruct (Spec.best_fit size l) as [[j e']|] eqn:Hl.
    + pose proof (IH j e' eq_refl Hf Hfits). case_match eqn:Hc; simplify_eq; [|done].
      apply andb_true_iff in Hc as [_ ?]. lia.
    + by rewrite (proj1 (best_fit_None size l) Hl f Hf) in Hfits.
Qed.

End status.

(** * The two outcomes of an allocation *)

Section outcomes.
Import MemMap.

Lemma allocate_cases size s :
  map_stored s -> map_wf (live s) -> 0 < size ->
  (allocate size s = Ok 0 s /\ Spec.allocate size (live s) = None) \/
  exists i e post s',
    Spec.best_fit size (live s) = Some (i, e) /\
    allocate size s = Ok (u32 (mm_base e)) s' /\ map_step s s' /\
    live s' = take i (live s) ++ Spec.used size e :: post /\
    Spec.allocate size (live s) = Some (mm_base e, live s') /\
    map_wf (live s') /\
    forall x, status (live s') x =
      if decide (mm_base e <= x < mm_base e + size) then Some 2 else status (live s) x.
Proof.
  intros HS Hwf Hsize. pose proof (live_length s HS) as Hlen.
  unfold Spec.allocate. destruct (Spec.best_fit size (live s)) as [[i e]|] eqn:Hbest.
  2:{ left. split; [|done]. unfold allocate.
      run_with (choose_best_ok size s HS). by rewrite Hbest. }
  pose proof (best_fit_Some _ _ _ _ Hbest) as [He Hfits%fits_true].
  pose proof (take_drop_middle _ _ _ He) as Hmid.
  assert (map_wf (take i (live s) ++ e :: drop (S i) (live s))) as Hwf' by (by rewrite Hmid).
  pose proof (proj1 (map_wf_middle _ _ _) Hwf') as (_ & Hok & _ & _).
  destruct (Z.eqb_spec (mm_length e) size) as [Heq|Hne].
  - right. destruct (allocate_exact size s i e HS Hbest Heq) as (s' & R & M & L).
    exists i, e, (drop (S i) (live s)), s'. rewrite <- Heq in L |- *.
    destruct (exact_wf _ _ _ Hwf') as [W St].
    split_and!; [done|by rewrite Heq|done|done|by rewrite L|by rewrite L|].
    intros x. rewrite L, St, Hmid. unfold covers. repeat (case_match; try done; try lia).
  - destruct (Z.leb_spec MAX_FREE_PAGES (Z.of_nat (length (live s)))).
    { left. split; [|done]. apply (allocate_full size s i e); auto; lia. }
    right. destruct (allocate_split size s i e HS Hbest Hok) as (s' & R & M & L);
      [lia|done|lia|].
    exists i, e, (Spec.rest size e :: drop (S i) (live s)), s'.
    destruct (split_wf size (take i (live s)) e (drop (S i) (live s))) as [W St];
      [lia|lia|done|].
    split_and!; [done|done|done|done|by rewrite L|by rewrite L|].
    intros x. by rewrite L, St, Hmid.
Qed.

(** Distinct regions of a well-formed map start at distinct addresses. *)
Lemma map_wf_before l1 e l2 :
  map_wf (l1 ++ e :: l2) -> Forall (fun x => mm_base x <> mm_base e) l1.
Proof.
  intros (Hwf & He & D & _)%map_wf_middle.
  destruct Hwf as [[Hok _]%Forall_app _]. rewrite Forall_lookup in D, Hok |- *.
  intros i f Hf. specialize (D i f Hf). specialize (Hok i f Hf).
  destruct He, Hok. unfold region_disjoint in D. lia.
Qed.

(** A release keeps the map well formed, whatever address it is given. *)
Lemma free_wf a s :
  map_stored s -> map_wf (live s) ->
  exists s', free a s = Ok tt s' /\ map_step s s' /\ map_wf (live s').
Proof.
  intros HS Hwf. destruct (free_ok a s HS) as (s' & R & M & L). exists s'. rewrite L.
  split; [done|]. split; [done|].
  destruct (split_at_base a (live s)) as [Hno|(l1 & e & l2 & Hl & Hbefore & He)].
  - unfold Spec.free. by rewrite free_at_none.
  - rewrite Hl in Hwf |- *. by destruct (spec_free_status a l1 e l2 Hbefore He Hwf).
Qed.

Lemma same_base_same_region l1 e l2 f :
  map_wf (l1 ++ e :: l2) -> f ∈ l1 ++ e :: l2 -> mm_base f = mm_base e -> f = e.
Proof.
  intros Hwf Hf Hb. pose proof (map_wf_before _ _ _ Hwf) as H1. rewrite Forall_forall in H1.
  apply elem_of_app in Hf as [Hf|[->|(l3 & l4 & ->)%list_elem_of_split]%elem_of_cons];
    [by destruct (H1 f Hf)|done|].
  rewrite (app_assoc l1 (e :: l3) (f :: l4) : l1 ++ e :: l3 ++ f :: l4 = _) in Hwf.
  pose proof (map_wf_before _ _ _ Hwf) as H2. rewrite Forall_forall in H2.
  destruct (H2 e); [|done]. apply elem_of_app. right. by left.
Qed.

End outcomes.

(** * Page frames

    The callers ask for 4096 bytes at a time.  When the free regions start at
    page boundaries and end below 4 GiB, what they get is a page frame. *)

Section frames.
Import MemMap.

Definition frame_region (e : Memory_Map) : Prop :=
  mm_type e = 1 -> mm_base e <> 0 ->
  mm_base e mod 4096 = 0 /\ mm_base e + mm_length e <= 2 ^ 32.

Record frames (s : kst) : Prop := {
  fr_stored : map_stored s;
  fr_wf : map_wf (live s);
  fr_regions : Forall frame_region (live s)
}.

(** The byte belongs to memory the allocator may hand out: a free region
    other than the one at address 0, which it passes over. *)
Definition available (pa : Z) (e : Memory_Map) : Prop :=
  mm_type e = 1 /\ mm_base e <> 0 /\ covers e pa = true.
Definition free_byte (s : kst) (pa : Z) : Prop := Exists (available pa) (live s).

Lemma allocate_frame s :
  frames s ->
  allocate 4096 s = Ok 0 s \/
  exists f s', allocate 4096 s = Ok f s' /\ map_step s s' /\ frames s' /\
    0 < f /\ f mod 4096 = 0 /\ f + 4096 <= 2 ^ 32 /\
    (forall pa, f <= pa < f + 4096 -> free_byte s pa) /\
    (forall pa, free_byte s' pa -> free_byte s pa /\ ~ f <= pa < f + 4096).
Proof.
  intros [HS Hwf HF].
  destruct (allocate_cases 4096 s HS Hwf ltac:(lia))
    as [[R _]|(i & e & post & s' & Hbest & R & M & L & HSp & W & St)]; [by left|right].
  pose proof (best_fit_Some _ _ _ _ Hbest) as [He Hfits%fits_true].
  pose proof HF as HF'. rewrite Forall_lookup in HF'.
  destruct (HF' i e He) as [Hal Hend]; [lia..|].
  pose proof Hwf as [Hrg _]. rewrite Forall_lookup in Hrg. destruct (Hrg i e He) as [Hb _ _].
  rewrite u32_small in R by width_lia.
  assert (post = drop (S i) (live s) \/
    post = Spec.rest 4096 e :: drop (S i) (live s)) as Hpost.
  { unfold Spec.allocate in HSp. rewrite Hbest in HSp.
    case_match; [left|case_match; [done|right]]; injection HSp as HSp; rewrite L in HSp;
      apply app_inv_head in HSp; by injection HSp as <-. }
  assert (forall pa, Exists (available pa) (live s) <->
    Exists (available pa) (take i (live s)) \/ available pa e \/
    Exists (available pa) (drop (S i) (live s))) as Hlive.
  { intros pa. rewrite <- (take_drop_middle _ _ _ He) at 1. by rewrite Exists_app, Exists_cons. }
  exists (mm_base e), s'. split; [done|]. split; [done|]. split.
  { split; [apply M|done|]. rewrite L.
    apply Forall_app. split; [by apply Forall_take|]. constructor; [intros [=]|].
    assert (Forall frame_region (drop (S i) (live s))) as Hdrop by (by apply Forall_drop).
    destruct Hpost as [->| ->]; [done|]. constructor; [|done]. unfold frame_region. simpl. lia. }
  split_and!; [lia|done|lia| |]; intros pa Hpa.
  - apply Hlive. right. left. unfold available. rewrite covers_true. lia.
  - unfold free_byte in *. split.
    + apply Hlive. rewrite L, Exists_app, Exists_cons in Hpa.
      destruct Hpa as [?|[[[=] _]|Hpa]]; [by left|]. right.
      destruct Hpost as [->| ->]; [by right|]. apply Exists_cons in Hpa as [Hpa|?]; [left|by right].
      unfold available in *. rewrite covers_true in *. simpl in Hpa. lia.
    + intros Hin. apply Exists_exists in Hpa as (x & Hx & Ht & _ & Hc).
      assert (status (live s') pa = Some 1) as H1.
      { apply list_elem_of_split in Hx as (l1 & l2 & Hl). rewrite Hl in W |- *.
        pose proof (proj1 (map_wf_middle _ _ _) W) as (_ & _ & D & _).
        rewrite status_middle, Hc by done. by rewrite Ht. }
      rewrite St, decide_True in H1 by done. done.
Qed.

(** The next [n] pages are there, at addresses that satisfy [P]. *)
Fixpoint next_frames (P : Z -> bool) (n : nat) (l : list Memory_Map) : bool :=
  match n with
  | O => true
  | S n' =>
      match Spec.allocate 4096 l with
      | Some (f, l') => P f && next_frames P n' l'
      | None => false
      end
  end.

Lemma next_frames_le P n m l : (m <= n)%nat -> next_frames P n l = true -> next_frames P m l = true.
Proof.
  revert m l. induction n as [|n IH]; intros [|m] l Hm H0; try done; [lia|]. simpl in *.
  destruct (Spec.allocate 4096 l) as [[f l']|]; [|done].
  apply andb_prop in H0 as [H1 H2]. rewrite H1. simpl. apply IH; [lia|done].
Qed.
Lemma next_frames_weaken (P Q : Z -> bool) n l :
  (forall f, P f = true -> Q f = true) -> next_frames P n l = true -> next_frames Q n l = true.
Proof.
  intros HPQ. revert l. induction n as [|n IH]; intros l; simpl; [done|].
  destruct (Spec.allocate 4096 l) as [[f l']|]; [|done].
  intros [H1%HPQ H2]%andb_prop. rewrite H1. by apply IH.
Qed.

(** Memory for [n] pages; and for [n] pages below 4 MiB. *)
Definition stocked (n : Z) (s : kst) : Prop :=
  next_frames (fun f => negb (f =? 0)) (Z.to_nat n) (live s) = true.
Definition frames_below : nat -> list Memory_Map -> bool :=
  next_frames (fun f => (0 <? f) && (f + 4096 <=? 2 ^ 22)).

Lemma frames_below_le n m l : (m <= n)%nat -> frames_below n l = true -> frames_below m l = true.
Proof. apply next_frames_le. Qed.
Lemma frames_below_stocked n s : frames_below (Z.to_nat n) (live s) = true -> stocked n s.
Proof. apply next_frames_weaken. intros f. lia. Qed.

(** One page is taken. *)
Lemma allocate_next P m s f s' :
  frames s -> allocate 4096 s = Ok f s' -> f <> 0 ->
  next_frames P (S m) (live s) = true -> P f = true /\ next_frames P m (live s') = true.
Proof.
  intros [HS Hwf HF] R Hf. destruct (allocate_cases 4096 s HS Hwf ltac:(lia))
    as [[R' _]|(i & e & post & s1 & Hbest & R' & _ & _ & HSp & _)]; rewrite R in R'; [congruence|].
  injection R' as -> ->. simpl. rewrite HSp. intros [HP Hn]%andb_prop. split; [|done].
  pose proof (best_fit_Some _ _ _ _ Hbest) as [He Hfits%fits_true].
  rewrite Forall_lookup in HF. destruct (HF i e He) as [_ Hend]; [lia..|].
  pose proof Hwf as [Hrg _]. rewrite Forall_lookup in Hrg. destruct (Hrg i e He) as [Hb _ _].
  by rewrite u32_small by width_lia.
Qed.

Lemma allocate_stocked n s :
  frames s -> 0 <= n -> stocked (n + 1) s ->
  exists f s', allocate 4096 s = Ok f s' /\ f <> 0 /\ stocked n s'.
Proof.
  intros HF Hn Hst. unfold stocked in Hst. replace (Z.to_nat (n + 1)) with (S (Z.to_nat n)) in Hst by lia.
  pose proof HF as [HS Hwf HFr]. destruct (allocate_cases 4096 s HS Hwf ltac:(lia))
    as [[_ Hnone]|(i & e & post & s1 & Hbest & R & _ & _ & HSp & _)].
  { simpl in Hst. by rewrite Hnone in Hst. }
  assert (u32 (mm_base e) <> 0) as Hf.
  { simpl in Hst. rewrite HSp in Hst. apply andb_prop in Hst as [Hst _].
    pose proof (best_fit_Some _ _ _ _ Hbest) as [He Hfits%fits_true].
    rewrite Forall_lookup in HFr. destruct (HFr i e He) as [_ Hend]; [lia..|].
    pose proof Hwf as [Hrg _]. rewrite Forall_lookup in Hrg. destruct (Hrg i e He) as [Hb _ _].
    rewrite u32_small by width_lia. lia. }
  exists (u32 (mm_base e)), s1. split; [done|]. split; [done|]. by apply (allocate_next _ _ s (u32 (mm_base e))).
Qed.

Lemma stocked_pmm n s s' : pmm s' = pmm s -> stocked n s -> stocked n s'.
Proof. unfold stocked, live. by intros ->. Qed.
Lemma stocked_le n m s : 0 <= m <= n -> stocked n s -> stocked m s.
Proof. intros Hm. apply next_frames_le. lia. Qed.

Lemma frame_union a b :
  region_ok a -> region_ok b -> mm_base a + mm_length a = mm_base b ->
  mm_type a = 1 -> mm_type b = 1 -> frame_region a -> frame_region b ->
  frame_region (Spec.union a b).
Proof.
  intros Ha Hb Hadj Hta Htb Fa Fb _. destruct (union_ok a b Ha Hb Hadj) as (_ & Eb & El).
  rewrite Eb, El. intros Hnz. destruct (Fa Hta Hnz). destruct Ha, Hb.
  destruct (Fb Htb); lia.
Qed.

Lemma spec_free_frames l1 e l2 :
  map_wf (l1 ++ e :: l2) -> Forall frame_region (l1 ++ e :: l2) ->
  frame_region (Spec.released e) ->
  Forall frame_region (Spec.free (mm_base e) (l1 ++ e :: l2)).
Proof.
  intros Hwf HF He. unfold Spec.free.
  rewrite free_at_split, app_nil_r by (try done; by apply (map_wf_before _ _ l2)).
  apply Forall_app in HF as [F1 F2]. apply Forall_cons in F2 as [_ F2].
  assert (map_wf (reverse (reverse l1) ++ Spec.released e :: l2)) as Hwf1.
  { rewrite reverse_involutive. apply map_wf_middle in Hwf as (W & [] & D1 & D2).
    by apply map_wf_middle. }
  destruct (join_previous_wf (reverse l1) (Spec.released e) l2 eq_refl Hwf1) as (Ht & Hwf2 & _).
  assert (Forall frame_region (Spec.join_previous (reverse l1) (Spec.released e)).1 /\
    frame_region (Spec.join_previous (reverse l1) (Spec.released e)).2) as [F3 F4].
  { apply Forall_reverse in F1. destruct (reverse l1) as [|p pre]; simpl; [done|].
    destruct ((mm_type p =? 1) && Spec.touches p (Spec.released e)) eqn:Hadj; simpl; [|done].
    apply Forall_cons in F1 as [Fp F1]. split; [done|].
    rewrite reverse_cons, <- app_assoc in Hwf1. simpl in Hwf1.
    pose proof (proj1 (map_wf_middle _ _ _) Hwf1) as (Hwf3 & Hp & _ & _).
    apply map_wf_middle in Hwf3 as (_ & He' & _ & _).
    destruct (touching_true _ _ Hp Hadj) as [Htp Hb]. by apply frame_union. }
  destruct (Spec.join_previous (reverse l1) (Spec.released e)) as [pre e1]. simpl in *.
  destruct l2 as [|q post]; simpl.
  { apply Forall_app. split; [by apply Forall_reverse|by apply Forall_singleton]. }
  apply Forall_cons in F2 as [Fq F2].
  destruct ((mm_type q =? 1) && _) eqn:Hc; simpl.
  2:{ apply Forall_app. split; [by apply Forall_reverse|]. by rewrite !Forall_cons. }
  apply Forall_app. split; [by apply Forall_reverse|]. constructor; [|done].
  pose proof (proj1 (map_wf_middle _ _ _) Hwf2) as (Hwf3 & He1 & _ & _).
  apply map_wf_middle in Hwf3 as (_ & Hq & _ & _).
  apply andb_true_iff in Hc as [Htq Hb]. pose proof He1 as [].
  apply touches_true in Hb; [|done]. apply frame_union; (done || lia).
Qed.

Lemma available_union pa a b :
  region_ok a -> region_ok b -> mm_base a + mm_length a = mm_base b ->
  mm_type a = 1 -> mm_type b = 1 ->
  available pa (Spec.union a b) -> available pa a \/ available pa b.
Proof.
  intros Ha Hb Hadj Hta Htb. destruct (union_ok a b Ha Hb Hadj) as (_ & Eb & El).
  unfold available. rewrite !covers_true, Eb, El. intros (_ & Hnz & Hc). destruct Ha, Hb. lia.
Qed.

Lemma spec_free_available pa l1 e l2 :
  map_wf (l1 ++ e :: l2) ->
  Exists (available pa) (Spec.free (mm_base e) (l1 ++ e :: l2)) ->
  Exists (available pa) (l1 ++ e :: l2) \/ covers e pa = true.
Proof.
  intros Hwf. unfold Spec.free.
  rewrite free_at_split, app_nil_r by (try done; by apply (map_wf_before _ _ l2)).
  assert (map_wf (reverse (reverse l1) ++ Spec.released e :: l2)) as Hwf1.
  { rewrite reverse_involutive. apply map_wf_middle in Hwf as (W & [] & D1 & D2).
    by apply map_wf_middle. }
  destruct (join_previous_wf (reverse l1) (Spec.released e) l2 eq_refl Hwf1) as (Ht & Hwf2 & _).
  assert (Exists (available pa) (reverse (Spec.join_previous (reverse l1) (Spec.released e)).1) \/
    available pa (Spec.join_previous (reverse l1) (Spec.released e)).2 ->
    Exists (available pa) l1 \/ covers e pa = true) as Hprev.
  { rewrite <- (reverse_involutive l1) at 3. destruct (reverse l1) as [|p pre]; simpl.
    { intros [H|(_ & _ & H)]; [by left|by right]. }
    destruct ((mm_type p =? 1) && Spec.touches p (Spec.released e)) eqn:Hadj; simpl.
    2:{ intros [H|(_ & _ & H)]; [by left|by right]. }
    rewrite reverse_cons, Exists_app, Exists_cons, Exists_nil.
    rewrite reverse_cons, <- app_assoc in Hwf1. simpl in Hwf1.
    pose proof (proj1 (map_wf_middle _ _ _) Hwf1) as (Hwf3 & Hp & _ & _).
    apply map_wf_middle in Hwf3 as (_ & He' & _ & _).
    destruct (touching_true _ _ Hp Hadj) as [Htp Hb].
    intros [H|H]; [by left; left|].
    apply available_union in H as [H|(_ & _ & H)]; [|by right|done..].
    left. right. by left. }
  destruct (Spec.join_previous (reverse l1) (Spec.released e)) as [pre e1]. simpl in *.
  assert (available pa (Spec.join_next e1 l2).1 \/
    Exists (available pa) (Spec.join_next e1 l2).2 ->
    available pa e1 \/ Exists (available pa) l2) as Hnext.
  { destruct l2 as [|q post]; simpl; [done|].
    destruct ((mm_type q =? 1) && _) eqn:Hc; simpl; [|done].
    pose proof (proj1 (map_wf_middle _ _ _) Hwf2) as (Hwf3 & He1 & _ & _).
    apply map_wf_middle in Hwf3 as (_ & Hq & _ & _).
    apply andb_true_iff in Hc as [Htq Hb]. pose proof He1 as [].
    apply touches_true in Hb; [|done]. rewrite Exists_cons.
    intros [H|H]; [|by right; right].
    apply available_union in H as [H|H]; [by left|by right; left|done|done|lia|done|lia]. }
  destruct (Spec.join_next e1 l2) as [e2 post]. simpl in *.
  rewrite !Exists_app, !Exists_cons. tauto.
Qed.

(** Giving a frame back. *)
Lemma free_frame r s :
  frames s -> r ∈ live s -> mm_base r mod 4096 = 0 -> mm_base r + mm_length r <= 2 ^ 32 ->
  exists s', free (mm_base r) s = Ok tt s' /\ map_step s s' /\ frames s' /\
    (forall x, status (live s') x = if covers r x then Some 1 else status (live s) x) /\
    forall pa, free_byte s' pa -> free_byte s pa \/ covers r pa = true.
Proof.
  intros [HS Hwf HF] (l1 & l2 & Hl)%list_elem_of_split Hal Hend.
  destruct (free_ok (mm_base r) s HS) as (s' & R & M & L). rewrite Hl in *.
  destruct (spec_free_status (mm_base r) l1 r l2) as [W St];
    [by eapply map_wf_before|done|done|].
  exists s'. split; [done|]. split; [done|]. split; [|split].
  - split; [apply M|by rewrite L|]. rewrite L. by apply spec_free_frames.
  - by rewrite L.
  - intros pa. unfold free_byte. rewrite L, Hl. by apply spec_free_available.
Qed.

End frames.

(** * What the allocator guarantees *)

Section guarantees.
Import MemMap.

(** C1: the index loops of [allocate] compute the reference allocation: the
    best fit of the live entries is split at its front, the other entries keep
    their order, and when nothing fits, or a split finds the map full, the
    result is 0 and nothing changes. *)
Theorem allocate_refines_best_fit size s :
  map_stored s -> map_wf (live s) -> 0 < size ->
  match Spec.allocate size (live s) with
  | Some (a, l) => exists s', allocate size s = Ok (u32 a) s' /\ map_step s s' /\ live s' = l
  | None => allocate size s = Ok 0 s
  end.
Proof.
  intros HS Hwf Hsize.
  destruct (allocate_cases size s HS Hwf Hsize)
    as [[R ->]|(i & e & post & s' & _ & R & M & _ & -> & _)]; [done|].
  by exists s'.
Qed.

(** C27: when [allocate] finds room, it takes the first bytes of a free region,
    a shortest one that fits: that interval becomes used, every other address
    keeps its status, and the map stays well formed.  The result is the low half
    of the 64-bit address of the interval, which is the address itself, and not
    0, when the region starts below 4 GiB.  Otherwise it returns 0 and changes
    nothing, which happens only when no region fits or the map is full. *)
Theorem allocate_grants_interval size s :
  map_stored s -> map_wf (live s) -> 0 < size ->
  (exists e r s', allocate size s = Ok r s' /\ r = mm_base e mod 2 ^ 32 /\
    (mm_base e < 2 ^ 32 -> r = mm_base e /\ r <> 0) /\
    e ∈ live s /\ Spec.fits size e = true /\
    (forall f, f ∈ live s -> Spec.fits size f = true -> mm_length e <= mm_length f) /\
    map_step s s' /\ map_wf (live s') /\
    (forall x, mm_base e <= x < mm_base e + size -> status (live s) x = Some 1) /\
    forall x, status (live s') x =
      if decide (mm_base e <= x < mm_base e + size) then Some 2 else status (live s) x) \/
  (allocate size s = Ok 0 s /\
   ((forall f, f ∈ live s -> Spec.fits size f = false) \/ entry (pmm s) = MAX_FREE_PAGES)).
Proof.
  intros HS Hwf Hsize. pose proof (live_length s HS) as Hlen. pose proof HS as [Hent _].
  destruct (allocate_cases size s HS Hwf Hsize)
    as [[R Hnone]|(i & e & post & s' & Hbest & R & M & _ & _ & W & St)].
  - right. split; [done|]. unfold Spec.allocate in Hnone.
    destruct (Spec.best_fit size (live s)) as [[i e]|] eqn:Hbest.
    + right. case_match; [done|]. case_match; [|done]. lia.
    + left. by apply best_fit_None.
  - left. exists e, (u32 (mm_base e)), s'. pose proof (best_fit_Some _ _ _ _ Hbest) as [He Hfits].
    split_and!; [done|done| |by apply (list_elem_of_lookup_2 _ i)|done| |done|done| |done].
    + pose proof (wf_regions _ Hwf) as Hrg. rewrite Forall_lookup in Hrg.
      destruct (Hrg i e He) as [Hb _ _]. apply fits_true in Hfits.
      intros Hlow. rewrite u32_small by width_lia. split; [done|lia].
    + intros f. by apply (best_fit_least _ _ i).
    + intros x Hx. apply fits_true in Hfits. rewrite <- (take_drop_middle _ _ _ He) in Hwf |- *.
      pose proof (proj1 (map_wf_middle _ _ _) Hwf) as (_ & _ & D & _).
      rewrite status_middle by done. rewrite (proj2 (covers_true e x)) by lia. f_equal. lia.
Qed.

(** C2: [free] computes the reference release: the first live entry at the
    address is marked free and joined with the entry before it and the one
    behind it where these are free and touch it; an address where no entry
    starts changes nothing.  On a well-formed map the result is well formed and
    exactly the addresses of the region that starts there become free. *)
Theorem free_refines_coalescing a s :
  map_stored s ->
  exists s', free a s = Ok tt s' /\ map_step s s' /\ live s' = Spec.free a (live s) /\
    (map_wf (live s) -> map_wf (live s') /\
      (forall e x, e ∈ live s -> mm_base e = a ->
         status (live s') x = if covers e x then Some 1 else status (live s) x) /\
      (Forall (fun e => mm_base e <> a) (live s) -> live s' = live s)).
Proof.
  intros HS. destruct (free_ok a s HS) as (s' & R & M & L).
  exists s'. split; [done|]. split; [done|]. split; [done|]. intros Hwf. rewrite L.
  destruct (split_at_base a (live s)) as [Hno|(l1 & e & l2 & Hl & Hbefore & He)].
  - unfold Spec.free. rewrite free_at_none by done. split; [done|]. split; [|done].
    intros e x Hin He. by destruct (proj1 (Forall_forall _ _) Hno e Hin).
  - rewrite Hl in Hwf |- *. destruct (spec_free_status a l1 e l2 Hbefore He Hwf) as [W St].
    split; [done|]. split; [|by intros (_ & [? _]%Forall_cons)%Forall_app].
    intros f x Hf Hfa. rewrite St. by rewrite (same_base_same_region l1 e l2 f) by (done || congruence).
Qed.

(** Releasing the region that starts at [a] makes exactly the addresses of
    that region free, whatever it is joined with, and keeps the map well
    formed. *)
Theorem free_releases_region a e s :
  map_stored s -> map_wf (live s) -> e ∈ live s -> mm_base e = a ->
  exists s', free a s = Ok tt s' /\ map_step s s' /\ map_wf (live s') /\
    forall x, status (live s') x = if covers e x then Some 1 else status (live s) x.
Proof.
  intros HS Hwf (l1 & l2 & Hl)%list_elem_of_split <-.
  destruct (free_ok (mm_base e) s HS) as (s' & R & M & L).
  exists s'. rewrite L, Hl. rewrite Hl in Hwf.
  destruct (spec_free_status (mm_base e) l1 e l2) as [W St];
    [by eapply map_wf_before|done|done|].
  done.
Qed.

(** C28: freeing what was just allocated gives every address its status back,
    when the map lies below 4 GiB. *)
Theorem allocate_free_roundtrip size s r s1 :
  map_stored s -> map_wf (live s) -> 0 < size ->
  Forall (fun e => mm_base e + mm_length e <= 2 ^ 32) (live s) ->
  allocate size s = Ok r s1 -> r <> 0 ->
  exists s2, free r s1 = Ok tt s2 /\ map_step s s2 /\ map_wf (live s2) /\
    forall x, status (live s2) x = status (live s) x.
Proof.
  intros HS Hwf Hsize Hlow Halloc Hr.
  destruct (allocate_cases size s HS Hwf Hsize)
    as [[R _]|(i & e & post & s' & Hbest & R & M & L & _ & W & St)]; [congruence|].
  rewrite Halloc in R. injection R as -> ->. rename s' into s1.
  pose proof (best_fit_Some _ _ _ _ Hbest) as [He Hfits%fits_true].
  rewrite <- (take_drop_middle _ _ _ He) in Hwf.
  pose proof (proj1 (map_wf_middle _ _ _) Hwf) as (_ & [] & D & _).
  rewrite Forall_lookup in Hlow. specialize (Hlow _ _ He). simpl in Hlow.
  rewrite u32_small by width_lia.
  destruct (free_ok (mm_base e) s1 (mp_stored _ _ M)) as (s2 & R2 & M2 & L2).
  exists s2. rewrite L in L2, W, St.
  destruct (spec_free_status (mm_base e) (take i (live s)) (Spec.used size e) post)
    as [W2 St2]; [|done|done|].
  { change (mm_base e) with (mm_base (Spec.used size e)). by apply (map_wf_before _ _ post). }
  rewrite L2. split_and!; [done|by apply (map_step_trans _ s1)|done|].
  intros x. rewrite St2, St. unfold covers. simpl.
  destruct (decide (mm_base e <= x < mm_base e + size)) as [Hx|Hx].
  - rewrite (proj2 (andb_true_iff _ _)) by lia.
    rewrite <- (take_drop_middle _ _ _ He), status_middle by done.
    rewrite (proj2 (covers_true e x)) by lia. f_equal. lia.
  - case_match; [lia|done].
Qed.

(** The states a run of allocations and releases goes through. *)
Inductive pmm_step : kst -> kst -> Prop :=
  | step_allocate size s r s' :
      0 < size -> allocate size s = Ok r s' -> pmm_step s s'
  | step_free a s s' : free a s = Ok tt s' -> pmm_step s s'.

(** C29: every state reachable by allocations and releases has a well-formed
    map that describes the same addresses as the first one. *)
Theorem reachable_map_wf s s' :
  rtc pmm_step s s' -> map_stored s -> map_wf (live s) ->
  map_step s s' /\ map_wf (live s') /\
  forall x, is_Some (status (live s') x) <-> is_Some (status (live s) x).
Proof.
  intros Hrtc HS Hwf. induction Hrtc as [s|s s1 s2 Hstep _ IH].
  { split; [by apply map_step_refl|done]. }
  assert (map_step s s1 /\ map_wf (live s1) /\
    forall x, is_Some (status (live s1) x) <-> is_Some (status (live s) x)) as (M & W & St).
  2:{ destruct (IH (mp_stored _ _ M) W) as (M' & W' & St').
      split_and!; [by apply (map_step_trans _ s1)|done|]. intros x. by rewrite St'. }
  clear IH. destruct Hstep as [size s r s1 Hsize R|a s s1 R].
  - destruct (allocate_cases size s HS Hwf Hsize)
      as [[R' _]|(i & e & post & s' & Hbest & R' & M & L & _ & W & St)];
      rewrite R in R'; simplify_eq.
    { split; [by apply map_step_refl|done]. }
    split_and!; [done..|]. intros x. rewrite St.
    destruct (decide _) as [Hx|]; [|done].
    pose proof (best_fit_Some _ _ _ _ Hbest) as [He Hfits%fits_true].
    rewrite <- (take_drop_middle _ _ _ He) in Hwf |- *.
    pose proof (proj1 (map_wf_middle _ _ _) Hwf) as (_ & _ & D & _).
    rewrite status_middle by done. rewrite (proj2 (covers_true e x)) by lia. by split.
  - destruct (free_ok a s HS) as (s' & R' & M & L). rewrite R in R'. simplify_eq.
    split; [done|]. rewrite L.
    destruct (split_at_base a (live s)) as [Hnone|(l1 & e & l2 & Hl & Hbefore & He)].
    { unfold Spec.free. by rewrite free_at_none. }
    rewrite Hl in Hwf |- *. destruct (spec_free_status a l1 e l2 Hbefore He Hwf) as [W St].
    split; [done|]. intros x. rewrite St.
    pose proof (proj1 (map_wf_middle _ _ _) Hwf) as (_ & _ & D & _).
    rewrite status_middle by done. case_match; [by split|done].
Qed.

(** The 64-bit base is returned as 32 bits.  When the best fit starts at a
    multiple of 4 GiB the caller gets 0, which it takes for a failure, and the
    region is used up all the same. *)
Theorem allocate_truncates_high_base size s i e :
  map_stored s -> map_wf (live s) -> 0 < size ->
  Spec.best_fit size (live s) = Some (i, e) -> mm_base e mod 2 ^ 32 = 0 ->
  entry (pmm s) < MAX_FREE_PAGES ->
  exists s', allocate size s = Ok 0 s' /\ status (live s') (mm_base e) = Some 2.
Proof.
  intros HS Hwf Hsize Hb Hbase Hroom. pose proof (live_length s HS) as Hlen.
  destruct (allocate_cases size s HS Hwf Hsize)
    as [[_ Hnone]|(j & f & post & s' & Hbest & R & M & L & _ & W & St)].
  - exfalso. unfold Spec.allocate in Hnone. rewrite Hb in Hnone.
    case_match; [done|]. case_match; [lia|done].
  - rewrite Hb in Hbest. injection Hbest as <- <-. exists s'. split.
    + rewrite R. unfold u32. by rewrite Hbase.
    + rewrite St. by rewrite decide_True by lia.
Qed.

End guarantees.

(** * Concrete instances *)

Section examples.
Import MemMap.

Definition qemu_boot : kst := boot_state qemu_map no_device.

Lemma qemu_stored : map_stored qemu_boot.
Proof. split; [split; by vm_compute|by vm_compute]. Qed.
Lemma qemu_live : live qemu_boot = qemu_map.
Proof. reflexivity. Qed.
Lemma qemu_wf : map_wf (live qemu_boot).
Proof.
  rewrite qemu_live. split.
  - repeat (constructor; [split; simpl; lia|]). constructor.
  - simpl. repeat split; repeat constructor; unfold region_disjoint; simpl; lia.
Qed.

Lemma allocate_refines_best_fit_witness :
  map_stored qemu_boot /\ map_wf (live qemu_boot) /\
  exists s', allocate 4096 qemu_boot = Ok 0x100000 s' /\ map_step qemu_boot s' /\
    nth 3 (live s') inhabitant = MemoryMap 0x100000 4096 2 1 /\
    nth 4 (live s') inhabitant = MemoryMap 0x101000 0x7EDF000 1 1.
Proof.
  split; [apply qemu_stored|split; [apply qemu_wf|]].
  destruct (allocate_refines_best_fit 4096 qemu_boot qemu_stored qemu_wf ltac:(lia))
    as (s' & R & M & L).
  exists s'. split; [exact R|]. split; [exact M|]. rewrite L. split; reflexivity.
Defined.

Lemma allocate_grants_interval_witness :
  exists s', allocate 4096 qemu_boot = Ok 0x100000 s' /\
    status (live s') 0x100FFF = Some 2 /\ status (live s') 0x101000 = Some 1.
Proof.
  destruct (allocate_grants_interval 4096 qemu_boot qemu_stored qemu_wf ltac:(lia))
    as [(e & r & s' & R & _ & _ & _ & _ & _ & _ & _ & _ & St)|[R _]].
  - exists s'.
    assert (r = 0x100000) as Ha.
    { transitivity (match allocate 4096 qemu_boot with Ok a _ => a | _ => 0 end);
        [by rewrite R|by vm_compute]. }
    assert (s' = match allocate 4096 qemu_boot with Ok _ t => t | _ => qemu_boot end) as ->
      by (by rewrite R).
    split; [|split]; [|vm_compute; reflexivity..].
    rewrite R at 1. by rewrite Ha.
  - exfalso. revert R. vm_compute. discriminate.
Defined.

(** The states after one and two allocations, for the release theorems. *)
Definition state_after {A} (o : outcome A) : kst :=
  match o with Ok _ s => s | _ => qemu_boot end.
Definition one_allocated : kst := state_after (allocate 4096 qemu_boot).
Definition two_allocated : kst := state_after (allocate 8192 one_allocated).

Lemma one_allocated_run : allocate 4096 qemu_boot = Ok 0x100000 one_allocated.
Proof. vm_compute. reflexivity. Qed.
Lemma two_allocated_run : allocate 8192 one_allocated = Ok 0x101000 two_allocated.
Proof. vm_compute. reflexivity. Qed.

Lemma two_allocated_stored : map_stored two_allocated.
Proof. split; [split; by vm_compute|by vm_compute]. Qed.
Lemma two_allocated_live :
  live two_allocated =
  [MemoryMap 0 0x9FC00 1 1; MemoryMap 0x9FC00 0x400 2 1; MemoryMap 0xF0000 0x10000 2 1;
   MemoryMap 0x100000 4096 2 1; MemoryMap 0x101000 8192 2 1;
   MemoryMap 0x103000 0x7EDD000 1 1;
   MemoryMap 0x7FE0000 0x20000 2 1; MemoryMap 0xFFFC0000 0x40000 2 1].
Proof. vm_compute. reflexivity. Qed.
Lemma two_allocated_wf : map_wf (live two_allocated).
Proof.
  rewrite two_allocated_live. split.
  - repeat (constructor; [split; simpl; lia|]). constructor.
  - simpl. repeat split; repeat constructor; unfold region_disjoint; simpl; lia.
Qed.

Lemma free_refines_coalescing_witness :
  map_stored two_allocated /\
  exists s', free 0x101000 two_allocated = Ok tt s' /\ map_step two_allocated s' /\
    nth 4 (live s') inhabitant = MemoryMap 0x101000 0x7EDF000 1 1.
Proof.
  split; [apply two_allocated_stored|].
  destruct (free_refines_coalescing 0x101000 two_allocated two_allocated_stored)
    as (s' & R & M & L & _).
  exists s'. split; [exact R|]. split; [exact M|]. by rewrite L, two_allocated_live.
Defined.

Lemma free_releases_region_witness :
  MemoryMap 0x101000 8192 2 1 ∈ live two_allocated /\
  exists s', free 0x101000 two_allocated = Ok tt s' /\
    status (live s') 0x102FFF = Some 1 /\ status (live s') 0x100FFF = Some 2.
Proof.
  assert (MemoryMap 0x101000 8192 2 1 ∈ live two_allocated) as Hin.
  { rewrite two_allocated_live. apply list_elem_of_lookup. by exists 4%nat. }
  split; [exact Hin|].
  destruct (free_releases_region 0x101000 _ _ two_allocated_stored two_allocated_wf
    Hin eq_refl) as (s' & R & _ & _ & St).
  exists s'. split; [exact R|]. rewrite !St, two_allocated_live. split; reflexivity.
Defined.

Lemma allocate_free_roundtrip_witness :
  exists s1 s2, allocate 4096 two_allocated = Ok 0x103000 s1 /\
    free 0x103000 s1 = Ok tt s2 /\ status (live s2) 0x103000 = Some 1.
Proof.
  destruct (allocate 4096 two_allocated) as [r s1| | | | | |] eqn:R;
    try (exfalso; revert R; vm_compute; discriminate).
  assert (r = 0x103000) as ->.
  { transitivity (match allocate 4096 two_allocated with Ok a _ => a | _ => 0 end);
      [by rewrite R|by vm_compute]. }
  destruct (allocate_free_roundtrip 4096 two_allocated 0x103000 s1) as (s2 & R2 & _ & _ & St).
  - apply two_allocated_stored.
  - apply two_allocated_wf.
  - lia.
  - rewrite two_allocated_live. repeat (constructor; [simpl; lia|]). constructor.
  - exact R.
  - lia.
  - exists s1, s2. split; [reflexivity|]. split; [exact R2|].
    rewrite St, two_allocated_live. reflexivity.
Defined.

Lemma reachable_map_wf_witness :
  exists s', rtc pmm_step qemu_boot s' /\ map_wf (live s') /\ is_Some (status (live s') 0x100000).
Proof.
  destruct (free 0x100000 two_allocated) as [[] s'| | | | | |] eqn:Rf;
    try (exfalso; revert Rf; vm_compute; discriminate).
  assert (rtc pmm_step qemu_boot s') as Hrtc.
  { apply rtc_l with one_allocated;
      [exact (step_allocate 4096 _ _ _ ltac:(lia) one_allocated_run)|].
    apply rtc_l with two_allocated;
      [exact (step_allocate 8192 _ _ _ ltac:(lia) two_allocated_run)|].
    apply rtc_once. exact (step_free _ _ _ Rf). }
  exists s'. split; [exact Hrtc|].
  destruct (reachable_map_wf qemu_boot s' Hrtc qemu_stored qemu_wf) as (_ & W & St).
  split; [exact W|]. apply St. rewrite qemu_live. by eexists.
Defined.

(** A machine whose only free memory starts at 4 GiB. *)
Definition high_boot : kst :=
  boot_state [MemoryMap 0 0x9FC00 2 1; MemoryMap 0x100000000 0x40000000 1 1] no_device.

Lemma allocate_truncates_high_base_witness :
  exists s', allocate 4096 high_boot = Ok 0 s' /\ status (live s') 0x100000000 = Some 2.
Proof.
  apply (allocate_truncates_high_base 4096 high_boot 1 (MemoryMap 0x100000000 0x40000000 1 1)).
  - split; [split; by vm_compute|by vm_compute].
  - split; [repeat (constructor; [split; simpl; lia|]); constructor|].
    simpl. repeat split; repeat constructor; unfold region_disjoint; simpl; lia.
  - lia.
  - reflexivity.
  - reflexivity.
  - reflexivity.
Defined.

End examples.
