(* ===== verification/MemLib.v ===== *)
(** [memset] and [memcpy] of kernel/pmm.c.

    Both work byte by byte through the page walk, upwards.  Inside a window
    they do what their names say; [memcpy] also says what an overlapping copy
    does when the destination is below the source. *)

From S2P Require Import Prelude Machine State Window.

Module MemLib.

Definition memset (ptr value size : Z) : K unit :=
  for_range 0 size (fun k => store8 (ptr + k) (u8 value)).

Definition memcpy (dest src n : Z) : K Z :=
  for_range 0 n (fun i => v ← load8 (src + i); store8 (dest + i) v);;
  mret dest.

End MemLib.

(** * What they write *)

Section specification.
Import MemLib.

(** One byte of a loop that writes [ptr + k]. *)
Lemma store_next s s1 W ptr size k v :
  window s W -> subset (span ptr size) W -> stores (span ptr size) s s1 -> 0 <= k < size ->
  exists s2, store8 (ptr + k) v s1 = Ok tt s2 /\ stores (span ptr size) s s2 /\
    rd8 s2 (ptr + k) = u8 v /\ forall a, W a -> a <> ptr + k -> rd8 s2 a = rd8 s1 a.
Proof.
  intros HW Hsub S1 Hk. pose proof (stores_window _ _ _ _ S1 HW) as HW1.
  assert (W (ptr + k)) as Wk by (apply Hsub; unfold span; lia).
  destruct (store8_ok s1 W HW1 (ptr + k) v Wk) as (s2 & R & S2 & V).
  exists s2. split_and!; [done| |done|].
  - eapply stores_weaken; [apply (stores_trans _ _ _ _ _ S1 S2)| |exact (st_u32 _ _ _ S1)].
    intros a [?|<-]; [done|unfold span; lia].
  - intros a Ha Hne. apply (stores_rd8 _ _ _ W a S2 HW1); [by intros ? <-|done|].
    intros Heq. by apply Hne.
Qed.

Lemma span_refl s W ptr size : window s W -> subset (span ptr size) W -> stores (span ptr size) s s.
Proof.
  intros HW Hsub. apply (stores_weaken (fun _ => False)); [apply stores_refl|done|].
  intros a Ha. by apply (win_u32 _ _ HW), Hsub.
Qed.

Lemma memset_ok s W ptr value size :
  window s W -> subset (span ptr size) W -> 0 <= size ->
  exists s', memset ptr value size s = Ok tt s' /\ stores (span ptr size) s s' /\
    (forall a, span ptr size a -> rd8 s' a = u8 value) /\
    (forall a, W a -> ~ span ptr size a -> rd8 s' a = rd8 s a).
Proof.
  intros HW Hsub Hsize.
  destruct (for_range_inv (fun k s' => stores (span ptr size) s s' /\
    (forall a, span ptr k a -> rd8 s' a = u8 value)) 0 size
    (fun k => store8 (ptr + k) (u8 value)) s Hsize) as (s' & R & S & V).
  { split; [by apply (span_refl s W)|]. intros a Ha. unfold span in Ha. lia. }
  { intros k s1 Hk [S1 V1].
    destruct (store_next s s1 W ptr size k (u8 value) HW Hsub S1 Hk) as (s2 & R2 & S2 & V2 & F2).
    exists s2. split; [done|]. split; [done|]. intros a Ha.
    destruct (decide (a = ptr + k)) as [->|Hne]; [by rewrite V2, u8_idemp|].
    rewrite F2; [|apply Hsub; unfold span in *; lia|done]. apply V1. unfold span in *. lia. }
  exists s'. split_and!; [done|done|done|]. intros a Ha Hn. by apply (stores_rd8 _ _ _ W a S HW).
Qed.

Lemma memcpy_ok s W dest src n :
  window s W -> subset (span dest n) W -> subset (span src n) W -> 0 <= n ->
  dest <= src \/ src + n <= dest ->
  exists s', memcpy dest src n s = Ok dest s' /\ stores (span dest n) s s' /\
    (forall k, 0 <= k < n -> rd8 s' (dest + k) = rd8 s (src + k)) /\
    (forall a, W a -> ~ span dest n a -> rd8 s' a = rd8 s a).
Proof.
  intros HW Hd Hs Hn Hover.
  destruct (for_range_inv (fun k s' => stores (span dest n) s s' /\
    (forall m, 0 <= m < k -> rd8 s' (dest + m) = rd8 s (src + m)) /\
    (forall a, W a -> ~ span dest k a -> rd8 s' a = rd8 s a)) 0 n
    (fun i => v ← load8 (src + i); store8 (dest + i) v) s Hn) as (s' & R & S & V & F).
  { split; [by apply (span_refl s W)|]. split; [lia|done]. }
  { intros k s1 Hk (S1 & V1 & F1). pose proof (stores_window _ _ _ _ S1 HW) as HW1.
    assert (W (src + k)) as Wk by (apply Hs; unfold span; lia).
    run_with (load8_ok s1 W HW1 (src + k) Wk).
    rewrite (F1 (src + k) Wk) by (unfold span; lia).
    destruct (store_next s s1 W dest n k (rd8 s (src + k)) HW Hd S1 Hk) as (s2 & R2 & S2 & V2 & F2).
    exists s2. split; [done|]. split; [done|]. split.
    - intros m Hm. destruct (decide (m = k)) as [->|Hne].
      + rewrite V2. apply u8_small, rd8_range.
      + rewrite F2; [apply V1; lia|apply Hd; unfold span; lia|lia].
    - intros a Ha Hna. unfold span in *. rewrite F2 by (try done; lia). apply F1; [done|lia]. }
  exists s'. split_and!; [|done|done|done]. unfold memcpy. by run_with R.
Qed.

(** [memset] makes every byte of the range the low byte of the value and
    writes nothing else. *)
Theorem memset_fills s W ptr value size :
  window s W -> subset (span ptr size) W -> 0 <= size ->
  exists s', memset ptr value size s = Ok tt s' /\ stores (span ptr size) s s' /\
    (forall a, span ptr size a -> rd8 s' a = u8 value) /\
    (forall a, W a -> ~ span ptr size a -> rd8 s' a = rd8 s a).
Proof. apply memset_ok. Qed.

(** [memcpy] copies the range, also onto itself when the destination is
    below the source, and writes nothing else. *)
Theorem memcpy_copies s W dest src n :
  window s W -> subset (span dest n) W -> subset (span src n) W -> 0 <= n ->
  dest <= src \/ src + n <= dest ->
  exists s', memcpy dest src n s = Ok dest s' /\ stores (span dest n) s s' /\
    (forall k, 0 <= k < n -> rd8 s' (dest + k) = rd8 s (src + k)) /\
    (forall a, W a -> ~ span dest n a -> rd8 s' a = rd8 s a).
Proof. apply memcpy_ok. Qed.

(** ** Concrete instances *)

Definition start : kst := boot_state [] no_device.
Lemma start_window : window start in_u32.
Proof. apply flat_window; [done|by intros a Ha]. Qed.
Lemma low_span a n : 0 <= a -> a + n <= 2 ^ 32 -> subset (span a n) in_u32.
Proof. intros Ha Hn b. unfold span, in_u32. lia. Qed.

Lemma memset_fills_witness :
  exists s', memset 0x5000 0x1FF 100 start = Ok tt s' /\ rd8 s' 0x5063 = 0xFF /\ rd8 s' 0x5064 = 0.
Proof.
  destruct (memset_fills start in_u32 0x5000 0x1FF 100 start_window) as (s' & R & _ & V & F);
    [apply low_span; lia|lia|].
  exists s'. split; [exact R|]. split.
  - rewrite V by (unfold span; lia). reflexivity.
  - rewrite F by (unfold span, in_u32; lia). reflexivity.
Defined.

Lemma memcpy_copies_witness :
  exists s', memcpy 0x5000 0x5004 16 start = Ok 0x5000 s' /\ rd8 s' 0x5001 = rd8 start 0x5005.
Proof.
  destruct (memcpy_copies start in_u32 0x5000 0x5004 16 start_window) as (s' & R & _ & V & _);
    [apply low_span; lia|apply low_span; lia|lia|left; lia|].
  exists s'. split; [exact R|]. apply (V 1). lia.
Defined.

End specification.
