(* ===== verification/Descriptors.v ===== *)
(** Segment and interrupt descriptors: kernel/tss.c and kernel/idt.c.

    The code scatters bases, limits and handlers over the fields of packed
    entries; the theorems put them together again the way the processor does. *)

From S2P Require Import Prelude Machine State.

Module Descriptors.

(** kernel/process.h *)
Definition KERNEL_CS : Z := 0x08.
Definition KERNEL_DS : Z := 0x10.
Definition USER_CS : Z := 0x1B.
Definition USER_DS : Z := 0x23.

Definition set_gdt (f : list gdt_entry -> list gdt_entry) : K unit :=
  modify (set_descs (fun d => DescState (f (gdt d)) (gp d) (tss d) (idt d) (idt_ptr d))).
Definition set_gp (p : table_ptr) : K unit :=
  modify (set_descs (fun d => DescState (gdt d) p (tss d) (idt d) (idt_ptr d))).
Definition set_tss (f : tss_t -> tss_t) : K unit :=
  modify (set_descs (fun d => DescState (gdt d) (gp d) (f (tss d)) (idt d) (idt_ptr d))).
Definition set_idt (f : list interrupt_des -> list interrupt_des) : K unit :=
  modify (set_descs (fun d => DescState (gdt d) (gp d) (tss d) (f (idt d)) (idt_ptr d))).
Definition set_idt_ptr (p : table_ptr) : K unit :=
  modify (set_descs (fun d => DescState (gdt d) (gp d) (tss d) (idt d) p)).

(** The entry [gdt_set_gate] writes; the assignments to one field fold into
    its value. *)
Definition gdt_gate (base limit access gran : Z) : gdt_entry :=
  GdtEntry (Z.land limit 0xFFFF) (Z.land base 0xFFFF)
    (Z.land (Z.shiftr base 16) 0xFF) (u8 access)
    (Z.lor (Z.land (Z.shiftr limit 16) 0x0F) (Z.land (u8 gran) 0xF0))
    (Z.land (Z.shiftr base 24) 0xFF).
Definition gdt_set_gate (num base limit access gran : Z) : K unit :=
  set_gdt (fun g => <[Z.to_nat num := gdt_gate base limit access gran]> g).

Definition sizeof_tss : Z := 104.
Definition sizeof_gdt : Z := 48.

(** [add(n, handler, idt, type)] on the one table the kernel has. *)
Definition idt_gate (handler type : Z) : interrupt_des :=
  InterruptDes (Z.land handler 0xFFFF) 0x08 0 (u8 type) (Z.land (Z.shiftr handler 16) 0xFFFF).
Definition add (n handler type : Z) : K unit :=
  set_idt (fun t => <[Z.to_nat n := idt_gate handler type]> t).
Definition load_idt (ptr : Z) : K unit := privileged (Lidt ptr).

Section layout.
Context `{Layout}.

Definition init_tss : K unit :=
  gdt_set_gate 5 tss_addr (sizeof_tss - 1) 0x89 0x40;;
  set_tss (fun _ => Tss 0 0 0);;
  set_tss (fun t => Tss (esp0 t) KERNEL_DS (iomap_base t));;
  set_tss (fun t => Tss 0x90000 (ss0 t) (iomap_base t));;
  set_tss (fun t => Tss (esp0 t) (ss0 t) sizeof_tss).

Definition init_gdt : K unit :=
  gdt_set_gate 0 0 0 0 0;;
  gdt_set_gate 1 0 0xFFFFFFFF 0x9A 0xCF;;
  gdt_set_gate 2 0 0xFFFFFFFF 0x92 0xCF;;
  gdt_set_gate 3 0 0xFFFFFFFF 0xFA 0xCF;;
  gdt_set_gate 4 0 0xFFFFFFFF 0xF3 0xCF;;
  init_tss;;
  set_gp (TablePtr (sizeof_gdt - 1) gdt_addr);;
  privileged (GdtFlush gp_addr);;
  privileged TssFlush.

(** [next->kernel_stack] is at offset 8 of a process. *)
Definition set_kernel_stack (next : Z) : K unit :=
  ks ← load32 (next + 8);
  set_tss (fun t => Tss (u32 (ks + 4096)) (ss0 t) (iomap_base t)).

End layout.
End Descriptors.

(** * What the processor reads *)

Definition gate_base (g : gdt_entry) : Z :=
  base_low g + 2 ^ 16 * base_middle g + 2 ^ 24 * base_high g.
Definition gate_limit (g : gdt_entry) : Z :=
  let limit := limit_low g + 2 ^ 16 * (granularity g mod 16) in
  if Z.testbit (granularity g) 7 then limit * 4096 + 4095 else limit.
Definition gate_flags (g : gdt_entry) : Z := granularity g / 16.
Definition gate_ring (g : gdt_entry) : Z := access g / 32 mod 4.
Definition handler_of (d : interrupt_des) : Z := offset_1 d + 2 ^ 16 * offset_2 d.

Section guarantees.
Import Descriptors.

Lemma land_0xF0 x : Z.land x 0xF0 = x mod 256 - x mod 16.
Proof.
  assert (Z.land x 0xF0 = Z.land (Z.land x 0xFF) 0xF0) as ->.
  { by rewrite <- Z.land_assoc. }
  rewrite land_0xFF. etransitivity; [apply (land_high_mask (x mod 256) 4 8); lia|].
  change (2 ^ 4) with 16. lia.
Qed.

(** The two halves of the granularity byte do not overlap. *)
Lemma granularity_sum limit gran :
  0 <= limit ->
  Z.lor (Z.land (Z.shiftr limit 16) 0x0F) (Z.land (u8 gran) 0xF0) =
  limit / 2 ^ 16 mod 16 + (gran mod 256 - gran mod 16).
Proof.
  intros Hl. rewrite land_0xF, land_0xF0, Z.shiftr_div_pow2, Z.lor_comm by lia.
  rewrite (lor_aligned _ _ 4); [unfold u8; lia|lia|unfold u8; lia|lia].
Qed.

(** [gdt_set_gate] stores a descriptor the processor reads as the base, the
    low 20 bits of the limit, the access byte and the high half of [gran] it
    was given, and leaves the other five entries alone. *)
Theorem gdt_set_gate_decodes num base limit access gran s :
  0 <= num < 6 -> length (gdt (descs s)) = 6%nat -> in_u32 base -> in_u32 limit ->
  exists s' g, gdt_set_gate num base limit access gran s = Ok tt s' /\
    gdt (descs s') !! Z.to_nat num = Some g /\
    gate_base g = base /\ limit_low g + 2 ^ 16 * (granularity g mod 16) = limit mod 2 ^ 20 /\
    gate_flags g = u8 gran / 16 /\ State.access g = u8 access /\
    forall k, k <> Z.to_nat num -> gdt (descs s') !! k = gdt (descs s) !! k.
Proof.
  intros Hn Hlen Hb Hl. eexists _, (gdt_gate base limit access gran).
  split; [reflexivity|]. simpl. split; [apply list_lookup_insert_eq; lia|].
  unfold gate_base, gate_flags. simpl.
  rewrite granularity_sum by width_lia.
  rewrite !land_0xFFFF, !land_0xFF, !Z.shiftr_div_pow2 by lia.
  split_and!; try width_lia; try done.
  intros k Hk. by apply list_lookup_insert_ne.
Qed.

(** [add] stores a gate through which the processor reaches exactly the
    handler it was given, in the kernel code segment, and leaves the other 255
    entries alone. *)
Theorem add_decodes n handler type s :
  0 <= n < 256 -> length (idt (descs s)) = 256%nat -> in_u32 handler ->
  exists s' d, add n handler type s = Ok tt s' /\
    idt (descs s') !! Z.to_nat n = Some d /\ handler_of d = handler /\
    selector d = KERNEL_CS /\ des_type d = u8 type /\
    forall k, k <> Z.to_nat n -> idt (descs s') !! k = idt (descs s) !! k.
Proof.
  intros Hn Hlen Hh. eexists _, (idt_gate handler type). split; [reflexivity|].
  simpl. split; [apply list_lookup_insert_eq; lia|].
  unfold handler_of. simpl. rewrite !land_0xFFFF, Z.shiftr_div_pow2 by lia.
  split_and!; [width_lia|done|done|]. intros k Hk. by apply list_lookup_insert_ne.
Qed.

(** [init_gdt] builds a flat memory model: code and data segments of rings
    0 and 3 from 0 to the last byte of memory, a task segment that is exactly
    [tss], whose stack for interrupts from ring 3 is the kernel data segment;
    the table pointer covers the six entries and both tables are loaded. *)
Theorem init_gdt_flat `{Layout} s :
  length (gdt (descs s)) = 6%nat -> in_u32 tss_addr ->
  exists s' g1 g2 g3 g4 g5, init_gdt s = Ok tt s' /\
    gdt (descs s') = [gdt_gate 0 0 0 0; g1; g2; g3; g4; g5] /\
    Forall (fun g => gate_base g = 0 /\ gate_limit g = 2 ^ 32 - 1) [g1; g2; g3; g4] /\
    map gate_ring [g1; g2; g3; g4] = [0; 0; 3; 3] /\
    gate_base g5 = tss_addr /\ gate_limit g5 = 103 /\
    tss (descs s') = Tss 0x90000 KERNEL_DS 104 /\ gp (descs s') = TablePtr 47 gdt_addr /\
    trace (mach s') = [TssFlush; GdtFlush gp_addr] ++ trace (mach s).
Proof.
  intros Hlen Ht. destruct s as [m p h pr c k [g gpt t i ip] tk]. simpl in Hlen.
  do 6 (destruct g as [|? g]; [done|]). destruct g; [|done].
  eexists _, _, _, _, _, _. split; [reflexivity|]. simpl. split; [reflexivity|].
  split; [by repeat constructor|]. split; [reflexivity|].
  unfold gate_base. simpl. rewrite land_0xFFFF, !land_0xFF, !Z.shiftr_div_pow2 by lia.
  split_and!; try done. width_lia.
Qed.

(** ** Concrete instances *)

Definition start : kst := boot_state [] no_device.

Lemma gdt_set_gate_decodes_witness :
  exists s' g, gdt_set_gate 5 0x12345678 0x67 0x89 0x40 start = Ok tt s' /\
    gdt (descs s') !! 5%nat = Some g /\ gate_base g = 0x12345678.
Proof.
  destruct (gdt_set_gate_decodes 5 0x12345678 0x67 0x89 0x40 start)
    as (s' & g & R & Hg & Hb & _); [lia|reflexivity|unfold in_u32; lia|unfold in_u32; lia|].
  exists s', g. split; [exact R|]. split; [exact Hg|exact Hb].
Defined.

Lemma add_decodes_witness :
  exists s' d, add 0x80 0x11234 0xEE start = Ok tt s' /\
    idt (descs s') !! 128%nat = Some d /\ handler_of d = 0x11234 /\ des_type d = 0xEE.
Proof.
  destruct (add_decodes 0x80 0x11234 0xEE start) as (s' & d & R & Hd & Hh & _ & Ht & _);
    [lia|reflexivity|unfold in_u32; lia|].
  exists s', d. split; [exact R|]. split; [exact Hd|]. split; [exact Hh|exact Ht].
Defined.

Lemma init_gdt_flat_witness :
  exists s', @init_gdt example_layout start = Ok tt s' /\ esp0 (tss (descs s')) = 0x90000.
Proof.
  destruct (@init_gdt_flat example_layout start) as (s' & _ & _ & _ & _ & _ & R & _ & _ & _ & _ & _ & Ht & _);
    [reflexivity|unfold in_u32; simpl; lia|].
  exists s'. split; [exact R|]. by rewrite Ht.
Defined.

End guarantees.
