(* ===== verification/Devices.v ===== *)
(** The keyboard and timer drivers: kernel/keyboard.c and kernel/pit.c. *)

From S2P Require Import Prelude Machine State Vga.

Module Keyboard.

Definition KEY_NONE : Z := 0.
Definition KEY_UP : Z := 256.
Definition KEY_DOWN : Z := 257.
Definition KEY_LEFT : Z := 258.
Definition KEY_RIGHT : Z := 259.
Definition KEY_F1 : Z := 260.
Definition KEY_F10 : Z := 269.
Definition KEY_F12 : Z := 271.

(** The cases of the [switch]: scan codes and the characters of the keys. *)
Definition letters : list (Z * Z) :=
  zip [0x02; 0x03; 0x04; 0x05; 0x06; 0x07; 0x08; 0x09; 0x0A; 0x0B;
       0x1E; 0x30; 0x2E; 0x20; 0x12; 0x21; 0x22; 0x23; 0x17; 0x24; 0x25; 0x26; 0x32;
       0x31; 0x18; 0x19; 0x10; 0x13; 0x1F; 0x14; 0x16; 0x2F; 0x11; 0x2D; 0x15; 0x2C;
       0x1C; 0x39; 0x0E]
      (codes "1234567890abcdefghijklmnopqrstuvwxyz" ++ [10; 32; 8]).
Definition function_keys : list (Z * Z) :=
  zip [0x48; 0x50; 0x4B; 0x4D; 0x3B; 0x3C; 0x3D; 0x3E; 0x3F; 0x40; 0x41; 0x42; 0x43;
       0x44; 0x57; 0x58] (seqZ KEY_UP 16).
Definition switch (code : Z) (cases : list (Z * Z)) (default : Z) : Z :=
  match List.find (fun kv => kv.1 =? code) cases with
  | Some kv => kv.2
  | None => default
  end.
Definition key_of (code : Z) : Z := switch code (letters ++ function_keys) KEY_NONE.

Definition read : K Z :=
  code ← inb 0x60;
  if negb (Z.land code 0x80 =? 0) then mret KEY_NONE
  else mret (key_of code).

End Keyboard.

Module Pit.

Definition HZ : Z := 100.

Definition read_pit_count : K Z :=
  cli;;
  outb 0x43 0x00;;
  count ← inb 0x40;
  high ← inb 0x40;
  let count := Z.lor count (Z.shiftl high 8) in
  sti;;
  mret count.

Definition pit_init (divisor : Z) : K unit :=
  cli;;
  outb 0x43 0x36;;
  outb 0x40 (Z.land divisor 0xFF);;
  outb 0x40 (Z.land (Z.shiftr divisor 8) 0xFF);;
  sti.

Definition get_seconds : K Z := gets (fun s => u32 (ticks s) / HZ).

End Pit.

(** * What the drivers do *)

Section guarantees.
Import Keyboard Pit.

(** The byte the next read of a port gives. *)
Definition next_byte (s : kst) (port : Z) : Z :=
  u8 (device (mach s) (u16 port) (reads (mach s))).

(** [read] takes one byte from the keyboard port.  The release of a key and
    a key the table does not have give 0; different keys give different
    values, characters below 128 and the other keys from [KEY_UP] to
    [KEY_F12]. *)
Theorem read_decodes s :
  let code := next_byte s 0x60 in
  (exists s', read s = Ok (if 0x80 <=? code then KEY_NONE else key_of code) s' /\
     trace (mach s') = Inb 0x60 :: trace (mach s) /\ ram (mach s') = ram (mach s)) /\
  (forall a b, 0 <= a < 256 -> 0 <= b < 256 -> key_of a = key_of b -> key_of a <> KEY_NONE ->
     a = b) /\
  (forall a, 0 <= a < 256 -> 0 <= key_of a < 128 \/ KEY_UP <= key_of a <= KEY_F12).
Proof.
  intros code. assert (in_u8 code) as Hcode by apply u8_range.
  split; [|split].
  - assert (forallb (fun c => Bool.eqb (negb (Z.land c 0x80 =? 0)) (0x80 <=? c)) (seqZ 0 256) = true)
      as Hbit by (by vm_compute).
    rewrite forallb_forall in Hbit. specialize (Hbit code).
    apply Bool.eqb_prop in Hbit; [|by apply list_elem_of_In, elem_of_seqZ; unfold in_u8 in Hcode].
    unfold read, inb. unfold mbind, K_bind. fold (next_byte s 0x60). fold code. rewrite Hbit.
    by destruct (0x80 <=? code); eexists.
  - assert (forallb (fun a => forallb (fun b =>
      negb (key_of a =? key_of b) || (key_of a =? KEY_NONE) || (a =? b)) (seqZ 0 256))
      (seqZ 0 256) = true) as Hinj by (by vm_compute).
    intros a b Ha Hb Hab Hne. rewrite forallb_forall in Hinj.
    specialize (Hinj a ltac:(by apply list_elem_of_In, elem_of_seqZ)).
    rewrite forallb_forall in Hinj. specialize (Hinj b ltac:(by apply list_elem_of_In, elem_of_seqZ)).
    rewrite Hab, Z.eqb_refl in Hinj. simpl in Hinj. rewrite Hab in Hne.
    rewrite (proj2 (Z.eqb_neq _ _)) in Hinj by done. by apply Z.eqb_eq.
  - assert (forallb (fun a => (0 <=? key_of a) && (key_of a <? 128) ||
      (KEY_UP <=? key_of a) && (key_of a <=? KEY_F12)) (seqZ 0 256) = true) as Hr by (by vm_compute).
    intros a Ha. rewrite forallb_forall in Hr.
    specialize (Hr a ltac:(by apply list_elem_of_In, elem_of_seqZ)). lia.
Qed.

(** [pit_init] sends the two halves of the divisor, low byte first, with
    interrupts off; the timer puts them together to the low 16 bits. *)
Theorem pit_init_loads_divisor divisor s :
  in_u32 divisor ->
  exists s' low high, pit_init divisor s = Ok tt s' /\
    trace (mach s') =
      [Sti; Outb 0x40 high; Outb 0x40 low; Outb 0x43 0x36; Cli] ++ trace (mach s) /\
    low + 2 ^ 8 * high = divisor mod 2 ^ 16 /\ ram (mach s') = ram (mach s).
Proof.
  intros Hd. eexists _, _, _. split; [reflexivity|]. split; [reflexivity|]. split; [|done].
  rewrite !land_0xFF, Z.shiftr_div_pow2 by lia. unfold u8. width_lia.
Qed.

Lemma pit_init_loads_divisor_witness :
  exists s', pit_init 11931 (boot_state [] no_device) = Ok tt s' /\
    trace (mach s') = [Sti; Outb 0x40 46; Outb 0x40 155; Outb 0x43 0x36; Cli].
Proof.
  destruct (pit_init_loads_divisor 11931 (boot_state [] no_device) ltac:(unfold in_u32; lia))
    as (s' & low & high & R & Ht & Hsum & _).
  exists s'. split; [exact R|].
  assert (s' = match pit_init 11931 (boot_state [] no_device) with Ok _ t => t | _ => s' end) as ->
    by (by rewrite R).
  vm_compute. reflexivity.
Defined.

End guarantees.
