(* ===== verification/Paging.v ===== *)
(** The virtual-page layer of kernel/pmm.c and kernel/pagging.asm: the two
    tables the kernel starts with, [map_page] and its inverses, and the
    allocator of virtual pages.

    The tables live in the memory the code itself addresses, so every access
    to them goes through the page walk they define.  [paged] is the invariant
    under which that is sound: the tables are distinct frames, all of them
    mapped at their own address. *)

From S2P Require Import Prelude Machine State Mmu Window PageSource Vga MemMap.

Module Paging.

Definition PAGE_PRESENT : Z := 1.
Definition PAGE_WRITE : Z := 2.
Definition PAGE_USER : Z := 4.

(** The fields of the virtual-page allocator. *)
Definition set_next_virtual (v : Z) : K unit :=
  modify (set_pmm (fun p => PmmState (entry p) (mmap p) (u32 v) (free_virtual p) (free_count p))).
Definition set_free_count (n : Z) : K unit :=
  modify (set_pmm (fun p => PmmState (entry p) (mmap p) (next_virtual p) (free_virtual p) (u32 n))).
Definition get_next_virtual : K Z := gets (fun s => next_virtual (pmm s)).
Definition get_free_count : K Z := gets (fun s => free_count (pmm s)).

(** [free_virtual[k]]; nothing is said of an access outside its 1024 cells. *)
Definition free_virtual_at (k : Z) : K Z := fun s =>
  match (if 0 <=? k then free_virtual (pmm s) !! Z.to_nat k else None) with
  | Some v => Ok v s
  | None => Undefined s
  end.
Definition free_virtual_put (k v : Z) : K unit := fun s =>
  if (0 <=? k) && (k <? Z.of_nat (length (free_virtual (pmm s)))) then
    Ok tt (set_pmm (fun p => PmmState (entry p) (mmap p) (next_virtual p)
                       (<[Z.to_nat k := v]> (free_virtual p)) (free_count p)) s)
  else Undefined s.

(** kernel/pagging.asm *)
Definition load_page_directory (directory : Z) : K unit :=
  modify (set_mach (fun m =>
    Machine (ram m) (paging m) directory (device m) (reads m)
            (LoadPageDirectory directory :: trace m))).
Definition enable_paging : K unit :=
  modify (set_mach (fun m =>
    Machine (ram m) true (cr3 m) (device m) (reads m) (EnablePaging :: trace m))).

(** The [print_string] and [print_number] calls of [search] pass the addresses
    of its own parameters [i] and [j]. *)
Definition search (i j : Z) : K unit :=
  ij ← Vga.print_string "Entries: "%string i j;
  n ← MemMap.get_entry;
  i ← Vga.print_number n ij.1;
  n ← MemMap.get_entry;
  for_fold (seqZ 0 n) (i + 80, ij.2) (fun k ij =>
    e ← MemMap.map_at k;
    ij ← Vga.print_string "base: "%string ij.1 ij.2;
    i ← Vga.print_hex (u32 (mm_base e)) ij.1;
    ij ← Vga.print_string "Size: "%string i ij.2;
    i ← Vga.print_number (u32 (mm_length e)) ij.1;
    ij ← Vga.print_string "Type: "%string i ij.2;
    i ← Vga.print_number (mm_type e) ij.1;
    mret (i + 80, ij.2));;
  mret tt.

(** [flag == 0] stands for a supervisor read-write page. *)
Definition default_flag (flag : Z) : Z :=
  if flag =? 0 then Z.lor PAGE_PRESENT PAGE_WRITE else flag.

Section layout.
Context `{Layout}.

Definition init_virtual_allocator : K unit :=
  set_next_virtual (Z.land (u32 (kernel_end_addr + 4095)) 0xFFFFF000).

Definition page_directory_at (d : Z) : K Z := load32 (page_directory_addr + 4 * d).
Definition page_directory_put (d v : Z) : K unit := store32 (page_directory_addr + 4 * d) v.

Definition build_first_page : K unit :=
  for_range 0 1024 (fun k =>
    store32 (page_table_addr + 4 * k) (Z.lor (k * 0x1000) 7));;
  page_directory_put 0 (Z.lor page_table_addr 7);;
  for_range 1 1024 (fun k => page_directory_put k 0).

(** The part of [map_page] that gives directory slot [directory] a table;
    false when the function returns for want of memory. *)
Definition new_table (directory flags : Z) : K bool :=
  e ← page_directory_at directory;
  if Z.land e 1 =? 0 then
    new_table ← MemMap.allocate 4096;
    if new_table =? 0 then
      Vga.print_string_at ("allocate FAILED" ++ NL)%string;; mret false
    else
      for_range 0 1024 (fun k => store32 (new_table + 4 * k) 0);;
      let directory_flags := Z.lor PAGE_PRESENT PAGE_WRITE in
      let directory_flags :=
        if negb (Z.land flags PAGE_USER =? 0) then Z.lor directory_flags PAGE_USER
        else directory_flags in
      page_directory_put directory (Z.lor new_table directory_flags);;
      mret true
  else mret true.

Definition map_page (physical_address virtual_address flags : Z) : K unit :=
  let directory := Z.shiftr virtual_address 22 in
  let table := Z.land (Z.shiftr virtual_address 12) 0x3FF in
  ok ← new_table directory flags;
  if ok : bool then
    (if negb (Z.land flags PAGE_USER =? 0) then
       e ← page_directory_at directory;
       page_directory_put directory (Z.lor e PAGE_USER)
     else mret tt);;
    e ← page_directory_at directory;
    let table_ptr := Z.land e 0xFFFFF000 in
    store32 (table_ptr + 4 * table) (Z.lor (Z.land physical_address 0xFFFFF000) flags);;
    invlpg virtual_address
  else mret tt.

(** The page the next mapping goes to: a recycled one, else a new one. *)
Definition take_virtual : K Z :=
  n ← get_free_count;
  if 0 <? n then
    set_free_count (n - 1);;
    n ← get_free_count;
    free_virtual_at n
  else
    v ← get_next_virtual;
    set_next_virtual (v + 4096);;
    mret v.

Definition allocate_page (flag : Z) : K Z :=
  let flag := default_flag flag in
  physical ← MemMap.allocate 4096;
  if physical =? 0 then mret 0 else
  virtual ← take_virtual;
  map_page physical virtual flag;;
  mret virtual.

Definition allocate_pages_contig (count flag : Z) : K Z :=
  let flag := default_flag flag in
  virtual_start ← get_next_virtual;
  set_next_virtual (virtual_start + count * 4096);;
  r ← for_return (seqZ 0 count) (fun k =>
    phy ← MemMap.allocate 4096;
    if phy =? 0 then mret (Some 0)
    else map_page phy (u32 (virtual_start + k * 4096)) flag;; mret None);
  mret (default virtual_start r).

(** A NULL result is 0: the entry of page 0 is in a table, never at 0. *)
Definition get_pte (virtual : Z) : K Z :=
  let directory := Z.shiftr virtual 22 in
  let table := Z.land (Z.shiftr virtual 12) 0x3FF in
  e ← page_directory_at directory;
  if Z.land e 1 =? 0 then mret 0 else
  e ← page_directory_at directory;
  let table_ptr := Z.land e 0xFFFFF000 in
  mret (u32 (table_ptr + 4 * table)).

(** The test [pte == NULL || !( *pte & 1)]. *)
Definition not_mapped (pte : Z) : K bool :=
  if pte =? 0 then mret true
  else e ← load32 pte; mret (Z.land e 1 =? 0).

Definition get_map (virtual : Z) : K Z :=
  pte ← get_pte virtual;
  absent ← not_mapped pte;
  if absent : bool then mret 0 else
  e ← load32 pte;
  mret (Z.land e 0xFFFFF000).

Definition free_page (addr : Z) : K unit :=
  n ← get_free_count;
  set_free_count (n + 1);;
  free_virtual_put n addr;;
  pte ← get_pte addr;
  absent ← not_mapped pte;
  if absent : bool then mret tt else
  e ← load32 pte;
  MemMap.free (Z.land e 0xFFFFF000);;
  store32 pte 0.

Definition unmap_page (virtual : Z) : K unit :=
  pte ← get_pte virtual;
  absent ← not_mapped pte;
  if absent : bool then mret tt else
  store32 pte 0;;
  invlpg virtual.

End layout.
End Paging.

(** * Accesses to identity-mapped memory *)

Section identity.

Definition identity (m : machine) (a n : Z) : Prop :=
  forall k, 0 <= k < n -> in_u32 (a + k) /\ translate m (a + k) = Some (a + k).

Lemma identity_sub m a n b k :
  identity m a n -> a <= b -> b + k <= a + n -> identity m b k.
Proof.
  intros H Hb Hk j Hj. specialize (H (b - a + j) ltac:(lia)).
  by replace (a + (b - a + j)) with (b + j) in H by lia.
Qed.

Lemma xlate_identity s a :
  in_u32 a -> translate (mach s) a = Some a -> xlate a s = Ok a s.
Proof. intros Ha Ht. unfold xlate. by rewrite u32_small, Ht. Qed.

Lemma xlate_all_identity s a :
  identity (mach s) a 4 -> xlate_all 4 a s = Ok [a; a + 1; a + 2; a + 3] s.
Proof.
  intros H. simpl.
  destruct (H 0 ltac:(lia)) as [? T0], (H 1 ltac:(lia)) as [? T1], (H 2 ltac:(lia)) as [? T2],
    (H 3 ltac:(lia)) as [? T3].
  rewrite Z.add_0_r in *.
  replace (a + 1 + 1) with (a + 2) by lia. replace (a + 2 + 1) with (a + 3) by lia.
  run_with (xlate_identity s a ltac:(done) T0). rewrite bind_assoc.
  run_with (xlate_identity s (a + 1) ltac:(done) T1). rewrite bind_assoc, bind_assoc.
  run_with (xlate_identity s (a + 2) ltac:(done) T2). rewrite !bind_assoc.
  by run_with (xlate_identity s (a + 3) ltac:(done) T3).
Qed.

Lemma load32_identity s a :
  identity (mach s) a 4 -> load32 a s = Ok (phys32 (mach s) a) s.
Proof.
  intros H. unfold load32, load. run_with (xlate_all_identity s a H).
  unfold gets. f_equal. unfold get_bytes, phys32, word_of. lia.
Qed.

Lemma store32_identity s a v :
  identity (mach s) a 4 -> store32 a v s = Ok tt (set_mach (set_phys32 a v) s).
Proof.
  intros H. unfold store32, store. run_with (xlate_all_identity s a H).
  unfold modify. do 2 f_equal. unfold set_mach. f_equal. simpl.
  unfold set_phys32, set_phys8, set_ram, byte_of. simpl.
  rewrite !u8_idemp, !Z.shiftr_shiftr by lia. by rewrite Z.shiftr_0_r.
Qed.

Lemma identity_rd32 s a : identity (mach s) a 4 -> rd32 s a = phys32 (mach s) a.
Proof.
  intros H. unfold rd32, phys32, word_of. simpl. unfold rd8.
  destruct (H 0 ltac:(lia)) as [? T0], (H 1 ltac:(lia)) as [? T1], (H 2 ltac:(lia)) as [? T2],
    (H 3 ltac:(lia)) as [? T3].
  rewrite Z.add_0_r in *. rewrite T0, T1.
  replace (a + 1 + 1) with (a + 2) by lia. rewrite T2.
  replace (a + 2 + 1) with (a + 3) by lia. rewrite T3. lia.
Qed.

End identity.

(** * The paging invariant *)

Section paged.
Context `{Layout}.

Record paged (s : kst) : Prop := {
  pg_tables : tables_ok (mach s);
  pg_cr3 : cr3 (mach s) = page_directory_addr;
  pg_self : forall pa, walk_byte (mach s) pa -> translate (mach s) pa = Some pa
}.

Lemma walk_byte_u32 m pa : tables_ok m -> walk_byte m pa -> in_u32 pa.
Proof.
  intros HT [_ [Hc|(d & Hd & Hp & Hb)]].
  - rewrite page_base_cr3 in Hc by done.
    pose proof (to_cr3 m HT). pose proof (to_aligned m HT). width_lia.
  - pose proof (table_aligned m d) as Ha.
    pose proof (page_base_range (pde m d) (phys32_range _ _)). width_lia.
Qed.

Lemma directory_identity s d :
  paged s -> 0 <= d < 1024 -> identity (mach s) (page_directory_addr + 4 * d) 4.
Proof.
  intros [HT Hc Hs] Hd k Hk.
  assert (walk_byte (mach s) (page_directory_addr + 4 * d + k)) as Hw.
  { split; [apply HT|]. left. rewrite page_base_cr3, Hc by done. lia. }
  split; [by eapply walk_byte_u32|by apply Hs].
Qed.

Lemma table_identity s d t :
  paged s -> 0 <= d < 1024 -> 0 <= t < 1024 -> present (pde (mach s) d) = true ->
  identity (mach s) (page_base (pde (mach s) d) + 4 * t) 4.
Proof.
  intros [HT Hc Hs] Hd Ht Hp k Hk.
  assert (walk_byte (mach s) (page_base (pde (mach s) d) + 4 * t + k)) as Hw.
  { split; [apply HT|]. right. exists d. split_and!; try done; lia. }
  split; [by eapply walk_byte_u32|by apply Hs].
Qed.

Lemma page_directory_at_ok s d :
  paged s -> 0 <= d < 1024 -> Paging.page_directory_at d s = Ok (pde (mach s) d) s.
Proof.
  intros HP Hd. unfold Paging.page_directory_at.
  rewrite load32_identity by (by apply directory_identity).
  unfold pde. by rewrite page_base_cr3, (pg_cr3 _ HP) by apply HP.
Qed.

Lemma page_directory_put_ok s d v :
  paged s -> 0 <= d < 1024 ->
  Paging.page_directory_put d v s =
    Ok tt (set_mach (set_phys32 (cr3 (mach s) + 4 * d) v) s).
Proof.
  intros HP Hd. unfold Paging.page_directory_put.
  rewrite store32_identity by (by apply directory_identity). by rewrite (pg_cr3 _ HP).
Qed.

End paged.

(** * Updates of the tables

    [retabled T N s s']: the accesses from [s] to [s'] changed the tables so
    that addresses now translate as [T] says, made the bytes [N] part of the
    tables, and touched no other memory. *)

Section retabled.
Context `{Layout}.

Record retabled (T : Z -> option Z) (N : Z -> Prop) (s s' : kst) : Prop := {
  rt_machine : exists m, s' = set_mach (fun _ => m) s;
  rt_paged : paged s';
  rt_translate : forall x, in_u32 x -> translate (mach s') x = T x;
  rt_walk : forall pa, walk_byte (mach s') pa <-> walk_byte (mach s) pa \/ N pa;
  rt_frame : forall pa, ~ walk_byte (mach s) pa -> ~ N pa ->
    phys8 (mach s') pa = phys8 (mach s) pa
}.

Definition nothing : Z -> Prop := fun _ => False.

Lemma retabled_refl s : paged s -> retabled (translate (mach s)) nothing s s.
Proof.
  intros HP. split; try done; [by exists (mach s)|].
  intros pa. unfold nothing. tauto.
Qed.

Lemma retabled_trans T1 T2 N1 N2 s1 s2 s3 :
  retabled T1 N1 s1 s2 -> retabled T2 N2 s2 s3 ->
  retabled T2 (fun pa => N1 pa \/ N2 pa) s1 s3.
Proof.
  intros [[m1 ->] P1 T1' W1 F1] [[m2 ->] P2 T2' W2 F2]. split; try done.
  - by exists m2.
  - intros pa. rewrite W2, W1. tauto.
  - intros pa Hw Hn. rewrite F2, F1; try done; try tauto. rewrite W1. tauto.
Qed.

Lemma retabled_ext T T' N N' s s' :
  retabled T N s s' -> (forall x, in_u32 x -> T x = T' x) -> (forall pa, N pa <-> N' pa) ->
  retabled T' N' s s'.
Proof.
  intros [M P Ht W F] HT HN. split; [done|done| | |].
  - intros x Hx. by rewrite Ht, HT.
  - intros pa. by rewrite W, HN.
  - intros pa Hw Hn. apply F; [done|by rewrite HN].
Qed.

Lemma paged_same_memory s s' : same_memory s s' -> paged s -> paged s'.
Proof.
  intros HM [[T1 T2 T3 T4 T6 T5] Hc Hs]. pose proof HM as (_ & Hp & Hc').
  assert (forall d, pde (mach s') d = pde (mach s) d) as Hpde.
  { intros d. unfold pde. by rewrite <- Hc', (same_phys32 s s' HM). }
  split; [split| |].
  - congruence.
  - congruence.
  - congruence.
  - intros d. rewrite <- Hc', Hpde. apply T4.
  - intros d. rewrite Hpde. apply T6.
  - intros d e. rewrite !Hpde. apply T5.
  - congruence.
  - intros pa. rewrite <- (same_walk_byte s s' HM), <- (same_translate s s' HM). apply Hs.
Qed.

Lemma paged_mach s s' : mach s' = mach s -> paged s -> paged s'.
Proof. intros Hm. apply paged_same_memory. unfold same_memory. by rewrite Hm. Qed.

Lemma retabled_emit T N s s' e :
  retabled T N s s' -> retabled T N s (set_mach (emit e) s').
Proof.
  intros [[m ->] P Ht W F]. split.
  - by eexists.
  - by apply (paged_same_memory (set_mach (fun _ => m) s)).
  - done.
  - done.
  - done.
Qed.

(** Ordinary stores keep the tables. *)
Lemma stores_paged A s s' : stores A s s' -> window s A -> paged s -> paged s'.
Proof.
  intros HS HW [HT Hc Hs]. pose proof (st_control _ _ _ HS) as [Ep Ec].
  assert (forall pa, walk_byte (mach s) pa -> phys8 (mach s') pa = phys8 (mach s) pa) as Hw.
  { intros pa Hpa. apply (st_frame _ _ _ HS). intros a Ha Hta.
    destruct (win_mapped _ _ HW a Ha) as (pb & Hpb & Hn). by simplify_eq. }
  assert (forall d, 0 <= d < 1024 -> pde (mach s') d = pde (mach s) d) as Hpde.
  { intros d Hd. unfold pde. rewrite Ec. apply phys32_ext. intros k Hk. apply Hw.
    split; [apply HT|]. left. lia. }
  split; [split| |].
  - by rewrite Ep; apply HT.
  - by rewrite Ec; apply HT.
  - by rewrite Ec; apply HT.
  - intros d Hd. rewrite Ec, Hpde by done. by apply HT.
  - intros d Hd. rewrite Hpde by done. by apply HT.
  - intros d e Hd He. rewrite !Hpde by done. by apply HT.
  - by rewrite Ec.
  - intros pa Hpa. rewrite (st_walk _ _ _ HS) in Hpa.
    rewrite (st_translate _ _ _ HS) by (by apply (walk_byte_u32 (mach s))). by apply Hs.
Qed.

Section step.
Context (s : kst) (HP : paged s).

Lemma set_pte_ok d t v :
  0 <= d < 1024 -> 0 <= t < 1024 -> present (pde (mach s) d) = true ->
  (forall pa, walk_byte (mach s) pa -> dir_index pa = d /\ tab_index pa = t ->
     entry_frame (u32 v) pa = Some pa) ->
  retabled (fun x => if decide (dir_index x = d /\ tab_index x = t)
                     then entry_frame (u32 v) x else translate (mach s) x) nothing
    s (set_mach (set_phys32 (page_base (pde (mach s) d) + 4 * t) v) s).
Proof using HP.
  intros Hd Ht Hp Hself. pose proof (pg_tables s HP) as HT. split.
  - by eexists.
  - split; [by apply tables_ok_set_pte|exact (pg_cr3 s HP)|]. simpl. intros pa Hw.
    rewrite walk_byte_set_pte in Hw by done.
    rewrite translate_set_pte by (try done; by apply (walk_byte_u32 (mach s))).
    case_decide; [by apply Hself|by apply (pg_self s HP)].
  - intros x Hx. by apply translate_set_pte.
  - intros pa. simpl. rewrite walk_byte_set_pte by done. unfold nothing. tauto.
  - intros pa Hw _. simpl. apply phys8_set32_out.
    destruct (decide (pa < page_base (pde (mach s) d) + 4 * t)); [by left|right].
    destruct (decide (page_base (pde (mach s) d) + 4 * t + 4 <= pa)); [done|].
    exfalso. apply Hw. split; [apply HT|]. right. exists d. split_and!; try done; lia.
Qed.

Lemma directory_frame d v pa :
  0 <= d < 1024 -> ~ walk_byte (mach s) pa ->
  phys8 (set_phys32 (cr3 (mach s) + 4 * d) v (mach s)) pa = phys8 (mach s) pa.
Proof using HP.
  intros Hd Hw. pose proof (pg_tables s HP) as HT. apply phys8_set32_out.
  destruct (decide (pa < cr3 (mach s) + 4 * d)); [by left|right].
  destruct (decide (cr3 (mach s) + 4 * d + 4 <= pa)); [done|].
  exfalso. apply Hw. split; [apply HT|]. left. rewrite page_base_cr3 by done. lia.
Qed.

Lemma set_flags_ok d v :
  0 <= d < 1024 -> in_u32 v -> present (pde (mach s) d) = true -> present v = true ->
  page_base v = page_base (pde (mach s) d) ->
  retabled (translate (mach s)) nothing s
    (set_mach (set_phys32 (cr3 (mach s) + 4 * d) v) s).
Proof using HP.
  intros Hd Hv Hp Hpv Hb. pose proof (pg_tables s HP) as HT.
  assert (forall pa, walk_byte (set_phys32 (cr3 (mach s) + 4 * d) v (mach s)) pa <->
    walk_byte (mach s) pa) as Hw.
  { intros pa. rewrite walk_byte_set_pde by done. split; [|by left]. intros [?|?]; [done|].
    split; [apply HT|]. right. exists d. rewrite <- Hb. done. }
  split.
  - by eexists.
  - split; [|exact (pg_cr3 s HP)|].
    + apply tables_ok_set_pde; try done.
      * rewrite Hb. by apply (to_directory _ HT).
      * rewrite Hb. by apply (to_nonzero _ HT).
      * intros e He Hne Hpe Heq. apply Hne. apply (to_inj _ HT); try done. congruence.
    + simpl. intros pa. rewrite Hw. intros Hpa.
      rewrite translate_set_flags by (try done; by apply (walk_byte_u32 (mach s))).
      by apply (pg_self s HP).
  - intros x Hx. by apply translate_set_flags.
  - intros pa. simpl. rewrite Hw. unfold nothing. tauto.
  - intros pa Hpa _. by apply directory_frame.
Qed.

Lemma set_empty_ok d v :
  0 <= d < 1024 -> in_u32 v -> present (pde (mach s) d) = false -> present v = true ->
  page_base v <> 0 -> identity (mach s) (page_base v) 4096 ->
  (forall pa, span (page_base v) 4096 pa -> ~ walk_byte (mach s) pa) ->
  (forall t, 0 <= t < 1024 -> pte_in (mach s) v t = 0) ->
  retabled (translate (mach s)) (span (page_base v) 4096) s
    (set_mach (set_phys32 (cr3 (mach s) + 4 * d) v) s).
Proof using HP.
  intros Hd Hv Hp Hpv Hnz Hid Hfresh Hz. pose proof (pg_tables s HP) as HT.
  assert (span (page_base v) 4096 (page_base v)) as Hin by (unfold span; lia).
  assert (page_base v <> cr3 (mach s)) as Hne.
  { intros Heq. apply (Hfresh _ Hin). split; [apply HT|]. left. rewrite page_base_cr3 by done. lia. }
  assert (forall pa, walk_byte (set_phys32 (cr3 (mach s) + 4 * d) v (mach s)) pa <->
    walk_byte (mach s) pa \/ span (page_base v) 4096 pa) as Hw.
  { intros pa. apply walk_byte_set_pde; try done. congruence. }
  split.
  - by eexists.
  - split; [|exact (pg_cr3 s HP)|].
    + apply tables_ok_set_pde; try done. intros e He _ Hpe Heq. apply (Hfresh _ Hin).
      split; [apply HT|]. right. exists e. rewrite Heq. split_and!; try done; lia.
    + simpl. intros pa. rewrite Hw. intros Hpa.
      assert (in_u32 pa /\ translate (mach s) pa = Some pa) as [Hu Ht].
      { destruct Hpa as [Hpa|Hpa].
        - split; [by eapply walk_byte_u32|by apply (pg_self s HP)].
        - unfold span in Hpa. specialize (Hid (pa - page_base v) ltac:(lia)).
          by replace (page_base v + (pa - page_base v)) with pa in Hid by lia. }
      by rewrite translate_set_empty.
  - intros x Hx. by apply translate_set_empty.
  - intros pa. simpl. apply Hw.
  - intros pa Hpa _. by apply directory_frame.
Qed.

End step.
End retabled.

(** * [map_page] *)

Section mapping.
Context `{Layout}.

(** The translation of [m] with the page of [va] sent to the frame [o]. *)
Definition remap (m : machine) (va : Z) (o : option Z) (x : Z) : option Z :=
  if decide (page_base x = page_base va) then (fun f => f + Z.land x 0xFFF) <$> o
  else translate m x.

Lemma present_lor a b : present (Z.lor a b) = present a || present b.
Proof.
  unfold present. rewrite Z.land_lor_distr_l, !land_1.
  assert (a mod 2 = 0 \/ a mod 2 = 1) as [->| ->] by lia;
  assert (b mod 2 = 0 \/ b mod 2 = 1) as [->| ->] by lia; done.
Qed.

Lemma page_base_lor_user e : page_base (Z.lor e Paging.PAGE_USER) = page_base e.
Proof. unfold page_base. rewrite Z.land_lor_distr_l. apply Z.lor_0_r. Qed.

Lemma entry_flags f flags :
  in_u32 f -> f mod 4096 = 0 -> flags_ok flags ->
  in_u32 (Z.lor f flags) /\ page_base (Z.lor f flags) = f /\ present (Z.lor f flags) = true.
Proof.
  intros Hf Ha [Hr Hp]. split_and!.
  - apply lor_u32; [done|width_lia].
  - by apply page_base_flags.
  - rewrite present_lor, Hp. apply orb_true_r.
Qed.

Lemma remap_entry m va f flags x :
  in_u32 va -> in_u32 x -> in_u32 f -> f mod 4096 = 0 -> flags_ok flags ->
  (if decide (dir_index x = dir_index va /\ tab_index x = tab_index va)
   then entry_frame (u32 (Z.lor f flags)) x else translate m x) = remap m va (Some f) x.
Proof.
  intros Hva Hx Hf Ha Hfl. unfold remap. destruct (entry_flags f flags Hf Ha Hfl) as (Hr & Hb & Hp).
  pose proof (same_page x va Hx Hva) as Hs. unfold entry_frame.
  rewrite u32_small, Hp, Hb by done. repeat case_decide; tauto.
Qed.

Lemma remap_none m va x :
  in_u32 va -> in_u32 x ->
  (if decide (dir_index x = dir_index va /\ tab_index x = tab_index va)
   then entry_frame (u32 0) x else translate m x) = remap m va None x.
Proof.
  intros Hva Hx. unfold remap. pose proof (same_page x va Hx Hva) as Hs.
  repeat case_decide; tauto.
Qed.

(** Where the page table for directory slot [d] comes from: it is there, or
    the allocator gives a frame the code can clear.  [s1] is the state after
    the allocation and [N] the bytes of the new table. *)
Inductive table_for (s : kst) (d : Z) : kst -> (Z -> Prop) -> Prop :=
  | table_present :
      present (pde (mach s) d) = true -> table_for s d s nothing
  | table_allocated f s1 :
      present (pde (mach s) d) = false -> MemMap.allocate 4096 s = Ok f s1 ->
      mach s1 = mach s -> 0 < f -> f mod 4096 = 0 -> f + 4096 <= 2 ^ 32 ->
      identity (mach s) f 4096 -> (forall pa, span f 4096 pa -> ~ walk_byte (mach s) pa) ->
      table_for s d s1 (span f 4096).

Lemma table_for_mach s d s1 N : table_for s d s1 N -> mach s1 = mach s.
Proof. by intros []. Qed.

(** An identity-mapped range outside the tables is a window. *)
Lemma identity_window s a n :
  identity (mach s) a n -> (forall pa, span a n pa -> ~ walk_byte (mach s) pa) ->
  window s (span a n).
Proof.
  intros Hid Hw.
  assert (forall b, span a n b -> in_u32 b /\ translate (mach s) b = Some b) as Hb.
  { intros b Hb. unfold span in Hb. specialize (Hid (b - a) ltac:(lia)).
    by replace (a + (b - a)) with b in Hid by lia. }
  split.
  - intros b Hin. by apply Hb.
  - intros b Hin. exists b. split; [by apply Hb|by apply Hw].
  - intros b c pa H1 H2. destruct (Hb b H1) as [_ ->], (Hb c H2) as [_ ->]. congruence.
Qed.

Lemma stores_identity A s s' a n :
  stores A s s' -> identity (mach s) a n -> identity (mach s') a n.
Proof.
  intros HS Hid k Hk. destruct (Hid k Hk) as [Hu Ht]. split; [done|].
  by rewrite (st_translate _ _ _ HS).
Qed.

(** The clearing loop. *)
Lemma clear_table_ok s f :
  0 <= f -> f + 4096 <= 2 ^ 32 -> window s (span f 4096) ->
  exists s', for_range 0 1024 (fun k => store32 (f + 4 * k) 0) s = Ok tt s' /\
    stores (span f 4096) s s' /\ forall k, 0 <= k < 1024 -> rd32 s' (f + 4 * k) = 0.
Proof.
  intros Hf Hend HW. destruct (fill_ok s f 0 1024 (fun _ => 0)) as (s' & R & S & V);
    [lia|by rewrite Z.add_0_r|].
  rewrite Z.add_0_r in S. by exists s'.
Qed.

Lemma new_table_ok s d flags s1 N :
  paged s -> 0 <= d < 1024 -> table_for s d s1 N ->
  exists s2, Paging.new_table d flags s = Ok true s2 /\
    retabled (translate (mach s)) N s1 s2 /\ present (pde (mach s2) d) = true.
Proof.
  intros HP Hd HTF. unfold Paging.new_table. run_with (page_directory_at_ok s d HP Hd).
  destruct HTF as [Hp|f s1 Hp Ha Hm Hf Hal Hend Hid Hfresh].
  { unfold present in Hp. apply negb_true_iff in Hp. rewrite Hp.
    exists s. split; [done|]. split; [by apply retabled_refl|]. unfold present. by rewrite Hp. }
  pose proof Hp as Hp'. unfold present in Hp'. apply negb_false_iff in Hp'. rewrite Hp'.
  run_with Ha. rewrite (proj2 (Z.eqb_neq f 0)) by lia.
  pose proof (paged_mach s s1 Hm HP) as HP1.
  rewrite <- Hm in Hid, Hfresh, Hp |- *.
  pose proof (identity_window s1 f 4096 Hid Hfresh) as HW.
  destruct (clear_table_ok s1 f ltac:(lia) Hend HW) as (s2 & R2 & S2 & Z2). run_with R2.
  pose proof (stores_paged _ _ _ S2 HW HP1) as HP2.
  pose proof (stores_identity _ _ _ _ _ S2 Hid) as Hid2.
  set (fl := if negb (Z.land flags Paging.PAGE_USER =? 0) then _ else _).
  assert (flags_ok fl) as Hfl by (unfold fl; case_match; split; done).
  destruct (entry_flags f fl) as (Hv & Hvb & Hvp); [width_lia|done|done|].
  rewrite <- Hvb in S2, Hid2, Hfresh, HW, Z2. set (v := Z.lor f fl) in *.
  assert (present (pde (mach s2) d) = false) as Hpd.
  { rewrite <- Hp. f_equal. unfold pde. destruct (st_control _ _ _ S2) as [_ ->].
    apply phys32_ext. intros k Hk. apply (st_frame _ _ _ S2). intros a Haa Hta.
    destruct (win_mapped _ _ HW a Haa) as (pb & Hpb & Hn). apply Hn.
    simplify_eq. split; [apply HP1|]. left. lia. }
  assert (forall pa, walk_byte (mach s2) pa <-> walk_byte (mach s1) pa) as Hw2
    by apply (st_walk _ _ _ S2).
  run_with (page_directory_put_ok s2 d v HP2 Hd).
  eexists. split; [reflexivity|].
  pose proof (set_empty_ok s2 HP2 d v Hd Hv Hpd Hvp ltac:(lia) Hid2) as Hset.
  destruct Hset as [[m Hm3] P3 T3 W3 F3].
  { intros pa Hpa. rewrite Hw2. by apply Hfresh. }
  { intros t Ht. unfold pte_in. rewrite <- identity_rd32; [by apply Z2|].
    eapply identity_sub; [apply Hid2|lia|lia]. }
  split; [rewrite Hvb in W3, F3, S2; split|].
  - destruct (st_machine _ _ _ S2) as [m2 ->]. by eexists.
  - done.
  - intros x Hx. rewrite T3 by done. by apply (st_translate _ _ _ S2).
  - intros pa. by rewrite W3, Hw2.
  - intros pa Hpw Hpn. rewrite F3 by (try done; by rewrite Hw2).
    apply (st_frame _ _ _ S2). intros a Haa Hta. rewrite <- Hvb in Haa.
    destruct (Hid (a - page_base v)) as [_ Hta']; [unfold span in Haa; lia|].
    rewrite Hvb in Haa, Hta'. replace (f + (a - f)) with a in Hta' by lia. by simplify_eq.
  - simpl. rewrite (pde_set_pde (mach s2)) by (try done; apply HP2).
    by rewrite decide_True, u32_small.
Qed.

(** The flags of an existing directory entry may grow. *)
Lemma user_flag_ok s d flags :
  paged s -> 0 <= d < 1024 -> present (pde (mach s) d) = true ->
  exists s', (if negb (Z.land flags Paging.PAGE_USER =? 0) then
                e ← Paging.page_directory_at d;
                Paging.page_directory_put d (Z.lor e Paging.PAGE_USER)
              else mret tt) s = Ok tt s' /\
    retabled (translate (mach s)) nothing s s' /\
    present (pde (mach s') d) = true /\
    page_base (pde (mach s') d) = page_base (pde (mach s) d).
Proof.
  intros HP Hd Hp. case_match.
  2:{ exists s. split; [done|]. split; [by apply retabled_refl|done]. }
  run_with (page_directory_at_ok s d HP Hd).
  set (v := Z.lor (pde (mach s) d) Paging.PAGE_USER).
  assert (in_u32 v) as Hv by (apply lor_u32; [apply phys32_range|done]).
  assert (present v = true) as Hpv by (unfold v; by rewrite present_lor, Hp).
  assert (page_base v = page_base (pde (mach s) d)) as Hb by apply page_base_lor_user.
  eexists. split; [by apply page_directory_put_ok|].
  split; [by apply set_flags_ok|]. simpl.
  rewrite (pde_set_pde (mach s)), decide_True, u32_small by (try done; apply HP). done.
Qed.

Lemma map_page_ok phys va flags s s1 N :
  paged s -> in_u32 phys -> in_u32 va -> flags_ok flags ->
  table_for s (dir_index va) s1 N ->
  (forall pa, walk_byte (mach s) pa \/ N pa -> page_base pa = page_base va ->
     page_base phys = page_base va) ->
  exists s', Paging.map_page phys va flags s = Ok tt s' /\
    retabled (remap (mach s) va (Some (page_base phys))) N s1 s' /\
    head (trace (mach s')) = Some (Invlpg va).
Proof.
  intros HP Hphys Hva Hfl HTF Hself. pose proof (dir_index_range va Hva) as Hd.
  pose proof (tab_index_range va) as Ht. unfold Paging.map_page.
  change (Z.shiftr va 22) with (dir_index va).
  change (Z.land (Z.shiftr va 12) 0x3FF) with (tab_index va).
  destruct (new_table_ok s (dir_index va) flags s1 N HP Hd HTF) as (s2 & R2 & T2 & P2).
  run_with R2.
  destruct (user_flag_ok s2 (dir_index va) flags (rt_paged _ _ _ _ T2) Hd P2)
    as (s3 & R3 & T3 & P3 & B3). run_with R3.
  pose proof (rt_paged _ _ _ _ T3) as HP3.
  run_with (page_directory_at_ok s3 (dir_index va) HP3 Hd).
  change (Z.land phys 0xFFFFF000) with (page_base phys).
  set (v := Z.lor (page_base phys) flags).
  change (Z.land (pde (mach s3) (dir_index va)) 0xFFFFF000)
    with (page_base (pde (mach s3) (dir_index va))).
  run_with (store32_identity s3 (page_base (pde (mach s3) (dir_index va)) + 4 * tab_index va) v
    (table_identity s3 _ _ HP3 Hd Ht P3)).
  eexists. split; [reflexivity|]. split; [|done]. apply retabled_emit.
  assert (forall x, in_u32 x -> translate (mach s3) x = translate (mach s) x) as Htr.
  { intros x Hx. rewrite (rt_translate _ _ _ _ T3), (rt_translate _ _ _ _ T2) by done. done. }
  destruct (entry_flags (page_base phys) flags) as (Hv & Hvb & Hvp); [auto with kern..|done|].
  pose proof (set_pte_ok s3 HP3 (dir_index va) (tab_index va) v Hd Ht P3) as T4.
  eapply retabled_ext;
    [eapply retabled_trans; [eapply retabled_trans; [exact T2|exact T3]|apply T4]|..].
  - intros pa Hw Hidx. rewrite (rt_walk _ _ _ _ T3) in Hw.
    destruct Hw as [Hw|[]]. pose proof Hw as Hw2. rewrite (rt_walk _ _ _ _ T2) in Hw.
    rewrite <- (table_for_mach _ _ _ _ HTF) in Hself.
    assert (in_u32 pa) as Hpa
      by (eapply walk_byte_u32; [apply (pg_tables s2), (rt_paged _ _ _ _ T2)|done]).
    apply (same_page pa va Hpa Hva) in Hidx. specialize (Hself pa Hw Hidx).
    unfold entry_frame. rewrite u32_small by done. unfold v in *.
    rewrite Hvp, Hvb, Hself, <- Hidx, land_0xFFF, page_base_eq by done. f_equal. lia.
  - intros x Hx. cbv beta. rewrite Htr by done. apply remap_entry; auto with kern.
  - intros pa. split; [by intros [[?|[]]|[]]|by intros ?; left; left].
Qed.

(** ** Reading an entry back *)

Lemma get_pte_present s va :
  paged s -> in_u32 va -> present (pde (mach s) (dir_index va)) = true ->
  Paging.get_pte va s =
    Ok (page_base (pde (mach s) (dir_index va)) + 4 * tab_index va) s.
Proof.
  intros HP Hva Hp. pose proof (dir_index_range va Hva) as Hd.
  pose proof (tab_index_range va) as Ht. unfold Paging.get_pte.
  change (Z.shiftr va 22) with (dir_index va).
  change (Z.land (Z.shiftr va 12) 0x3FF) with (tab_index va).
  run_with (page_directory_at_ok s _ HP Hd).
  pose proof Hp as Hp'. unfold present in Hp'. apply negb_true_iff in Hp'. rewrite Hp'.
  run_with (page_directory_at_ok s _ HP Hd).
  destruct (table_identity s _ _ HP Hd Ht Hp 0 ltac:(lia)) as [Hr _].
  rewrite Z.add_0_r in Hr. by rewrite u32_small.
Qed.

Lemma get_pte_absent s va :
  paged s -> in_u32 va -> present (pde (mach s) (dir_index va)) = false ->
  Paging.get_pte va s = Ok 0 s.
Proof.
  intros HP Hva Hp. pose proof (dir_index_range va Hva) as Hd. unfold Paging.get_pte.
  change (Z.shiftr va 22) with (dir_index va).
  run_with (page_directory_at_ok s _ HP Hd).
  unfold present in Hp. apply negb_false_iff in Hp. by rewrite Hp.
Qed.

(** The entry of [va], and what the tests of the code say about it. *)
Lemma pte_cases s va :
  paged s -> in_u32 va ->
  let d := dir_index va in let t := tab_index va in
  let pte := page_base (pde (mach s) d) + 4 * t in
  let e := pte_in (mach s) (pde (mach s) d) t in
  (translate (mach s) va = None /\ exists p, Paging.get_pte va s = Ok p s /\
     Paging.not_mapped p s = Ok true s) \/
  (present (pde (mach s) d) = true /\ present e = true /\
   translate (mach s) va = Some (page_base e + Z.land va 0xFFF) /\
   Paging.get_pte va s = Ok pte s /\ Paging.not_mapped pte s = Ok false s /\
   load32 pte s = Ok e s /\ identity (mach s) pte 4).
Proof.
  intros HP Hva d t pte e. pose proof (dir_index_range va Hva) as Hd.
  pose proof (tab_index_range va) as Ht. pose proof (pg_tables s HP) as HT.
  destruct (present (pde (mach s) d)) eqn:Hp.
  2:{ left. split; [by apply translate_absent; [apply HT|]|]. exists 0.
      split; [by apply get_pte_absent|done]. }
  assert (identity (mach s) pte 4) as Hid by (by apply table_identity).
  assert (load32 pte s = Ok e s) as Hload by (by apply load32_identity).
  assert (Paging.not_mapped pte s = Ok (negb (present e)) s) as Hnm.
  { unfold Paging.not_mapped. pose proof (to_nonzero _ HT d Hd Hp) as Hnz.
    pose proof (page_base_range (pde (mach s) d) (phys32_range _ _)) as Hr.
    fold t in Ht. rewrite (proj2 (Z.eqb_neq pte 0)) by (unfold pte; width_lia).
    run_with Hload. unfold present. by rewrite negb_involutive. }
  assert (translate (mach s) va = entry_frame e va) as Htr
    by (by apply translate_entry; [apply HT|]).
  assert (Paging.get_pte va s = Ok pte s) as Hget by (by apply get_pte_present).
  unfold entry_frame in Htr.
  destruct (present e) eqn:Hpe; [right|left; split; [done|by exists pte]].
  done.
Qed.

(** Clearing an entry of a page that holds no table. *)
Lemma clear_pte_ok s va :
  let pte := page_base (pde (mach s) (dir_index va)) + 4 * tab_index va in
  paged s -> in_u32 va -> present (pde (mach s) (dir_index va)) = true ->
  (forall pa, walk_byte (mach s) pa -> page_base pa <> page_base va) ->
  exists s', store32 pte 0 s = Ok tt s' /\
    retabled (remap (mach s) va None) nothing s s' /\ trace (mach s') = trace (mach s) /\
    forall d, 0 <= d < 1024 -> pde (mach s') d = pde (mach s) d.
Proof.
  intros pte HP Hva Hp Hno. pose proof (dir_index_range va Hva) as Hd.
  pose proof (tab_index_range va) as Ht.
  eexists. split; [by apply store32_identity, table_identity|].
  split; [|split; [done|intros d' Hd'; by apply pde_set_pte; [apply (pg_tables s HP)|..]]].
  eapply retabled_ext; [apply (set_pte_ok s HP _ _ 0 Hd Ht Hp)|..].
  - intros pa Hw Hidx. exfalso. apply (Hno pa Hw).
    apply same_page; [by eapply walk_byte_u32; [apply (pg_tables s HP)|]|done|done].
  - intros x Hx. by apply remap_none.
  - done.
Qed.

End mapping.

(** * Mappings and windows *)

Section windows.
Context `{Layout}.

Lemma page_base_span va a :
  in_u32 va -> va mod 4096 = 0 -> in_u32 a -> page_base a = page_base va <-> span va 4096 a.
Proof.
  intros Hva Hal Ha. rewrite !page_base_eq by done. unfold span. width_lia.
Qed.

Lemma remap_other m va o x :
  in_u32 va -> va mod 4096 = 0 -> in_u32 x -> ~ span va 4096 x ->
  remap m va o x = translate m x.
Proof.
  intros Hva Hal Hx Hn. unfold remap. rewrite decide_False; [done|]. by rewrite page_base_span.
Qed.
Lemma remap_page m va f x :
  in_u32 va -> va mod 4096 = 0 -> in_u32 x -> span va 4096 x ->
  remap m va (Some f) x = Some (f + (x - va)).
Proof.
  intros Hva Hal Hx Hn. unfold remap. rewrite decide_True by (by rewrite page_base_span).
  simpl. rewrite land_0xFFF. unfold span in Hn. do 2 f_equal. width_lia.
Qed.

(** What is seen through a window whose addresses keep their translation. *)
Lemma retabled_window T N s s' W :
  retabled T N s s' -> window s W ->
  (forall a, W a -> T a = translate (mach s) a) ->
  (forall a pa, W a -> translate (mach s) a = Some pa -> ~ N pa) ->
  window s' W /\ forall a, W a -> rd8 s' a = rd8 s a.
Proof.
  intros HR [H1 H2 H3] HT HN.
  assert (forall a, W a -> translate (mach s') a = translate (mach s) a) as Htr.
  { intros a Ha. rewrite (rt_translate _ _ _ _ HR) by auto. auto. }
  split.
  - split; [done| |].
    + intros a Ha. destruct (H2 a Ha) as (pa & Hpa & Hw). exists pa.
      rewrite Htr by done. split; [done|].
      intros [?|?]%(rt_walk _ _ _ _ HR); [done|by apply (HN a pa)].
    + intros a b pa Ha Hb. rewrite !Htr by done. by apply H3.
  - intros a Ha. unfold rd8. rewrite Htr by done.
    destruct (H2 a Ha) as (pa & Hpa & Hw). rewrite Hpa.
    apply (rt_frame _ _ _ _ HR); [done|by apply (HN a pa)].
Qed.

(** A new page joins the window. *)
Lemma window_add_page s W va f :
  window s W -> in_u32 va -> va mod 4096 = 0 -> f + 4096 <= 2 ^ 32 ->
  (forall a, span va 4096 a -> translate (mach s) a = Some (f + (a - va))) ->
  (forall pa, span f 4096 pa -> ~ walk_byte (mach s) pa) ->
  (forall a pa, W a -> translate (mach s) a = Some pa -> ~ span f 4096 pa) ->
  window s (fun a => W a \/ span va 4096 a).
Proof.
  intros [H1 H2 H3] Hva Hal Hf Ht Hw Hd. split.
  - intros a [Ha|Ha]; [by apply H1|]. unfold span in Ha. width_lia.
  - intros a [Ha|Ha]; [by apply H2|]. exists (f + (a - va)). split; [by apply Ht|].
    apply Hw. unfold span in *. lia.
  - intros a b pa [Ha|Ha] [Hb|Hb] Ea Eb.
    + by apply (H3 a b pa).
    + exfalso. apply (Hd a pa Ha Ea). rewrite Ht in Eb by done. unfold span in *. simplify_eq. lia.
    + exfalso. apply (Hd b pa Hb Eb). rewrite Ht in Ea by done. unfold span in *. simplify_eq. lia.
    + rewrite Ht in Ea, Eb by done. simplify_eq. lia.
Qed.

End windows.

(** * The allocator of virtual pages

    [pages limit s W]: the addresses [W] are in use as plain memory, no byte
    of them or of the tables belongs to a frame the allocator may hand out,
    and the pages [take_virtual] may return below [limit] are unused.  The
    code does not know a limit: see [page_limit] and
    [allocate_page_takes_the_screen]. *)

Section pages.
Context `{Layout} (limit : Z) (Hlimit : limit <= 2 ^ 22).

Definition recycled (s : kst) : list Z :=
  take (Z.to_nat (free_count (pmm s))) (free_virtual (pmm s)).

Definition spare (s : kst) (p : Z) : Prop :=
  p ∈ recycled s \/ (next_virtual (pmm s) <= p /\ p + 4096 <= limit /\ p mod 4096 = 0).

Record pages (s : kst) (W : Z -> Prop) : Prop := {
  pa_paged : paged s;
  pa_frames : frames s;
  pa_window : window s W;
  pa_used : forall pa, free_byte s pa ->
    ~ walk_byte (mach s) pa /\ forall a, W a -> translate (mach s) a <> Some pa;
  pa_directory : present (pde (mach s) 0) = true;
  pa_next : 0 < next_virtual (pmm s) /\ next_virtual (pmm s) mod 4096 = 0;
  pa_stack : 0 <= free_count (pmm s) <= 1024 /\ length (free_virtual (pmm s)) = 1024%nat;
  pa_recycled : Forall (fun p => 0 < p /\ p mod 4096 = 0 /\ p + 4096 <= limit /\
                           p < next_virtual (pmm s)) (recycled s);
  pa_nodup : NoDup (recycled s);
  pa_spare : forall p a, spare s p -> span p 4096 a -> ~ W a /\ ~ walk_byte (mach s) a
}.

(** There is a page to take. *)
Definition page_room (s : kst) : Prop :=
  0 < free_count (pmm s) \/ next_virtual (pmm s) + 4096 <= limit.

Lemma frames_same s s' :
  entry (pmm s') = entry (pmm s) -> mmap (pmm s') = mmap (pmm s) ->
  (frames s -> frames s') /\ forall pa, free_byte s' pa <-> free_byte s pa.
Proof.
  intros He Hm. assert (live s' = live s) as Hl by (unfold live; by rewrite He, Hm).
  unfold free_byte. rewrite Hl. split; [|done]. intros [[H1 H2] H3 H4].
  split; [split|..]; by rewrite ?He, ?Hm, ?Hl.
Qed.

Lemma spare_bounds s W p :
  pages s W -> spare s p -> 0 < p /\ p mod 4096 = 0 /\ p + 4096 <= limit.
Proof.
  intros HP [Hp|Hp].
  - pose proof (pa_recycled _ _ HP) as Hr. rewrite Forall_forall in Hr.
    destruct (Hr p Hp) as (? & ? & ? & _). done.
  - pose proof (pa_next _ _ HP). lia.
Qed.

Lemma pages_subset s W W' : pages s W -> subset W' W -> pages s W'.
Proof.
  intros HP Hs. pose proof HP as []. split; try done.
  - by apply (window_subset s W).
  - intros pa Hpa. destruct (pa_used _ _ HP pa Hpa) as [? Hno]. split; auto.
  - intros p a Hp Ha. destruct (pa_spare _ _ HP p a Hp Ha) as [Hno ?]. split; auto.
Qed.

(** The globals of the other components do not matter. *)
Lemma pages_globals s s' W : mach s' = mach s -> pmm s' = pmm s -> pages s W -> pages s' W.
Proof.
  intros Hm Hp HP. pose proof HP as [].
  destruct (frames_same s s') as [HF HB]; [by rewrite Hp..|].
  split; unfold recycled in *; rewrite ?Hm, ?Hp; try done.
  - by apply (paged_mach s).
  - by apply HF.
  - by apply (window_mach s).
  - intros pa. rewrite HB. apply (pa_used _ _ HP).
  - intros p a. unfold spare, recycled. rewrite Hp. apply (pa_spare _ _ HP).
Qed.

(** Fewer free frames. *)
Lemma pages_map_step s s1 W :
  pages s W -> map_step s s1 -> frames s1 ->
  (forall pa, free_byte s1 pa -> free_byte s pa) -> pages s1 W.
Proof.
  intros HP [(n & L & ->) _] HF Hfree. pose proof HP as [].
  split; try done; simpl.
  - by apply (paged_mach s).
  - by apply (window_mach s).
  - intros pa Hpa. auto.
Qed.

(** Stores inside the window keep everything. *)
Lemma stores_pages A s s' W : stores A s s' -> subset A W -> pages s W -> pages s' W.
Proof.
  intros HS Hsub HP. pose proof HP as []. pose proof (st_machine _ _ _ HS) as [m Hm].
  pose proof (window_subset _ _ _ (pa_window _ _ HP) Hsub) as HWA.
  pose proof (pa_paged _ _ HP) as Hpg. pose proof (stores_paged _ _ _ HS HWA Hpg) as Hpg'.
  destruct (frames_same s s') as [HF HB]; [by subst..|].
  assert (pmm s' = pmm s) as Hp by (by subst).
  split; unfold recycled in *; rewrite ?Hp; try done.
  - by apply HF.
  - by apply (stores_window _ _ _ _ HS).
  - intros pa. rewrite HB. intros Hpa. destruct (pa_used _ _ HP pa Hpa) as [Hw Hno].
    split; [by rewrite (st_walk _ _ _ HS)|]. intros a Ha.
    rewrite (st_translate _ _ _ HS); [by apply Hno|]. by apply (win_u32 _ _ (pa_window _ _ HP)).
  - replace (pde (mach s') 0) with (pde (mach s) 0); [done|]. unfold pde.
    destruct (st_control _ _ _ HS) as [_ ->]. symmetry. apply phys32_ext. intros k Hk.
    apply (st_frame _ _ _ HS). intros a Ha Hta.
    destruct (win_mapped _ _ HWA a Ha) as (pb & Hpb & Hn). simplify_eq. apply Hn.
    split; [apply (pg_tables s Hpg)|]. left. lia.
  - intros p a. unfold spare, recycled. rewrite Hp, (st_walk _ _ _ HS). apply (pa_spare _ _ HP).
Qed.

(** The allocator's own fields move on: fewer spare pages. *)
Lemma pages_take s nv fc W :
  let s' := set_pmm (fun x => PmmState (entry x) (mmap x) nv (free_virtual x) fc) s in
  pages s W -> 0 <= fc <= free_count (pmm s) -> next_virtual (pmm s) <= nv -> nv mod 4096 = 0 ->
  pages s' W /\ forall q, spare s' q -> spare s q.
Proof.
  intros s' HP Hfc Hnv Hal. pose proof HP as [].
  assert (recycled s' = take (Z.to_nat fc) (recycled s)) as Er.
  { unfold recycled. simpl. rewrite take_take. f_equal. lia. }
  assert (forall q, spare s' q -> spare s q) as Hsp.
  { unfold spare. rewrite Er. intros q [Hq|Hq].
    - left. apply elem_of_take in Hq as (i & Hq & _). by eapply list_elem_of_lookup_2.
    - right. simpl in Hq. lia. }
  split; [|done]. destruct (frames_same s s') as [HF HB]; [done..|].
  split; try done.
  - by apply (paged_mach s).
  - by apply HF.
  - by apply (window_mach s).
  - simpl. destruct (pa_next _ _ HP). lia.
  - simpl. destruct (pa_stack _ _ HP). split; [lia|done].
  - rewrite Er. apply Forall_take. eapply Forall_impl; [apply (pa_recycled _ _ HP)|].
    simpl. intros. lia.
  - rewrite Er. by apply (sublist_NoDup _ (recycled s)), sublist_take.
  - intros p a Hp. by apply (pa_spare _ _ HP p a), Hsp.
Qed.

(** The virtual half of [allocate_page]. *)
Lemma take_virtual_ok s W :
  pages s W -> page_room s ->
  exists p s', Paging.take_virtual s = Ok p s' /\ pages s' W /\
    (exists nv fc, fc <= free_count (pmm s) /\ nv <= next_virtual (pmm s) + 4096 /\
       s' = set_pmm (fun x => PmmState (entry x) (mmap x) nv (free_virtual x) fc) s) /\
    spare s p /\ forall q, spare s' q -> spare s q /\ q <> p.
Proof using Hlimit.
  intros HP Hleft. destruct (pa_next _ _ HP) as [Hn0 Hna]. destruct (pa_stack _ _ HP) as [Hc Hlen].
  pose proof (pa_recycled _ _ HP) as Hrec. pose proof (pa_nodup _ _ HP) as Hnd.
  unfold Paging.take_virtual, Paging.get_free_count. rewrite gets_bind.
  destruct (Z.ltb_spec 0 (free_count (pmm s))) as [Hpos|Hzero].
  - set (n := Z.to_nat (free_count (pmm s) - 1)).
    destruct (lookup_lt_is_Some_2 (free_virtual (pmm s)) n) as [p Hp]; [lia|].
    assert (Z.to_nat (free_count (pmm s)) = S n) as Hn by lia.
    assert (recycled s = take n (free_virtual (pmm s)) ++ [p]) as Er.
    { unfold recycled. rewrite Hn. by apply take_S_r. }
    assert (p ∈ recycled s) as Hin.
    { rewrite Er. apply elem_of_app. right. by apply list_elem_of_singleton. }
    pose proof Hrec as Hrec'. rewrite Forall_forall in Hrec'. destruct (Hrec' p Hin) as (_ & _ & _ & Hlt).
    rewrite Er in Hnd. apply NoDup_app in Hnd as (_ & Hdis & _).
    destruct (pages_take s (next_virtual (pmm s)) (free_count (pmm s) - 1) W HP) as [HP' Hsp];
      [lia..|done|].
    exists p. eexists. split.
    { unfold Paging.set_free_count, Paging.free_virtual_at. run. simpl.
      rewrite u32_small by width_lia. rewrite (proj2 (Z.leb_le 0 _)) by lia.
      fold n. by rewrite Hp. }
    split; [exact HP'|]. split; [eexists _, _; split; [|split; [|done]]; lia|]. split; [by left|].
    intros q Hq. split; [by apply Hsp|]. intros ->. destruct Hq as [Hq|Hq]; simpl in Hq; [|lia].
    apply (Hdis p Hq). by apply list_elem_of_singleton.
  - destruct Hleft as [?|Hleft]; [lia|].
    destruct (pages_take s (next_virtual (pmm s) + 4096) (free_count (pmm s)) W HP) as [HP' Hsp];
      [lia..|].
    exists (next_virtual (pmm s)). eexists. split.
    { unfold Paging.get_next_virtual, Paging.set_next_virtual. run.
      rewrite u32_small by width_lia. reflexivity. }
    split; [exact HP'|]. split; [eexists _, _; split; [|split; [|done]]; lia|]. split; [right; lia|].
    intros q Hq. split; [by apply Hsp|]. intros ->. destruct Hq as [Hq|Hq]; simpl in Hq; [|lia].
    unfold recycled in Hq. simpl in Hq. replace (free_count (pmm s)) with 0 in Hq by lia.
    by apply elem_of_nil in Hq.
Qed.

(** Pages from [limit] on and the set of the tables stay as they are. *)
Definition above (s s' : kst) : Prop :=
  (forall a, in_u32 a -> limit <= a -> translate (mach s') a = translate (mach s) a) /\
  forall pa, walk_byte (mach s') pa <-> walk_byte (mach s) pa.
#[global] Instance above_preorder : PreOrder above.
Proof.
  split; [by intros s; split|]. intros s s1 s2 [T1 W1] [T2 W2]. split.
  - intros a Ha Hl. by rewrite T2, T1.
  - intros pa. by rewrite W2.
Qed.
Lemma above_mach s s' : mach s' = mach s -> above s s'.
Proof. intros E. split; by rewrite E. Qed.
Lemma stores_above A s s' : stores A s s' -> above s s'.
Proof.
  intros HS. split; intros; [by apply (st_translate _ _ _ HS)|apply (st_walk _ _ _ HS)].
Qed.

(** What a program above [limit] may rely on. *)
Definition undisturbed (s s' : kst) : Prop :=
  above s s' /\ forall pa, free_byte s' pa -> free_byte s pa.
#[global] Instance undisturbed_preorder : PreOrder undisturbed.
Proof.
  split; [by intros s; split|]. intros s s1 s2 [A1 F1] [A2 F2]. split; [by transitivity s1|auto].
Qed.
Lemma touches_undisturbed A s s' : touches A s s' -> pmm s' = pmm s -> undisturbed s s'.
Proof.
  intros HT E. split; [|by unfold free_byte, live; rewrite E].
  apply (stores_above A s) in HT as [H1 H2]. by split.
Qed.

(** A step of the allocator below [limit]. *)
Definition page_taken (s s' : kst) : Prop :=
  same_globals s s' /\ free_count (pmm s') <= free_count (pmm s) /\
  (forall pa, free_byte s' pa -> free_byte s pa) /\ above s s'.
#[global] Instance page_taken_preorder : PreOrder page_taken.
Proof.
  split; [by intros s; split_and!|]. intros s s1 s2 (G1 & C1 & F1 & A1) (G2 & C2 & F2 & A2).
  split; [by transitivity s1|]. split; [lia|]. split; [auto|by transitivity s1].
Qed.

Lemma page_taken_undisturbed s s' : page_taken s s' -> undisturbed s s'.
Proof. by intros (_ & _ & HF & HA). Qed.

(** At most [n] frames have been taken. *)
Definition frames_left (n : Z) (s s' : kst) : Prop :=
  (forall m, 0 <= m -> stocked (m + n) s -> stocked m s') /\
  forall m, frames_below (Z.to_nat n + m) (live s) = true -> frames_below m (live s') = true.
Lemma frames_left_live n s s' : 0 <= n -> live s' = live s -> frames_left n s s'.
Proof.
  intros Hn E. split; intros m; [|rewrite E; apply (frames_below_le (Z.to_nat n + m)); lia].
  intros Hm Hst. apply (stocked_le (m + n) m) in Hst; [|lia]. unfold stocked in *. by rewrite E.
Qed.
Lemma frames_left_pmm n s s' : 0 <= n -> pmm s' = pmm s -> frames_left n s s'.
Proof. intros Hn E. apply frames_left_live; [done|]. unfold live. by rewrite E. Qed.
Lemma frames_left_add n m k s s1 s2 :
  k = n + m -> 0 <= n -> 0 <= m -> frames_left n s s1 -> frames_left m s1 s2 -> frames_left k s s2.
Proof.
  intros -> Hn Hm [S1 T1] [S2 T2]. split; intros k.
  - intros Hk Hst. apply S2, S1; [done|lia|]. by replace (k + m + n) with (k + (n + m)) by lia.
  - rewrite Z2Nat.inj_add, <- Nat.add_assoc by done. intros Hk. by apply T2, T1.
Qed.
Lemma allocate_left s f s' :
  frames s -> MemMap.allocate 4096 s = Ok f s' -> f <> 0 -> frames_left 1 s s'.
Proof.
  intros HF R Hf. split; intros m; [|by apply (allocate_next _ m s f)]. intros Hm Hst.
  destruct (allocate_stocked m s HF Hm Hst) as (f1 & s1 & R' & _ & Hst'). congruence.
Qed.

(** Mapping an unused page to an unused frame. *)
Section fresh_mapping.
Context (s s' : kst) (W : Z -> Prop) (p f : Z).
Context (HP : pages s W) (Hp0 : 0 < p) (Hpa : p mod 4096 = 0) (Hpl : p + 4096 <= limit).
Context (Hvirt : forall a, span p 4096 a -> ~ W a /\ ~ walk_byte (mach s) a).
Context (Hne : forall q, spare s q -> q <> p).
Context (Hf0 : 0 < f) (Hfa : f mod 4096 = 0) (Hfe : f + 4096 <= 2 ^ 32).
Context (Hphys : forall pa, span f 4096 pa -> ~ free_byte s pa /\ ~ walk_byte (mach s) pa /\
  forall a, W a -> translate (mach s) a <> Some pa).
Context (T : retabled (remap (mach s) p (Some f)) nothing s s').

Lemma fresh_page a : span p 4096 a -> translate (mach s') a = Some (f + (a - p)).
Proof using Hfa Hf0 Hfe Hlimit Hp0 Hpa Hpl T.
  intros Ha. assert (in_u32 a) by (unfold span in Ha; width_lia).
  rewrite (rt_translate _ _ _ _ T) by done. apply remap_page; (done || width_lia).
Qed.
Lemma fresh_other a : in_u32 a -> ~ span p 4096 a -> translate (mach s') a = translate (mach s) a.
Proof using Hlimit Hp0 Hpa Hpl T.
  intros Ha Hn. rewrite (rt_translate _ _ _ _ T) by done. apply remap_other; (done || width_lia).
Qed.
Lemma fresh_used a : W a -> translate (mach s') a = translate (mach s) a.
Proof using HP Hlimit Hp0 Hpa Hpl Hvirt T.
  intros Ha. apply fresh_other; [by apply (win_u32 _ _ (pa_window _ _ HP))|].
  intros Hin. by destruct (Hvirt a Hin).
Qed.
Lemma fresh_walk pa : walk_byte (mach s') pa <-> walk_byte (mach s) pa.
Proof using T. rewrite (rt_walk _ _ _ _ T). split; [by intros [?|[]]|by left]. Qed.

Lemma fresh_window :
  window s' W /\ forall a, W a -> rd8 s' a = rd8 s a.
Proof using HP Hlimit Hp0 Hpa Hpl Hvirt T.
  apply (retabled_window _ _ _ _ W T (pa_window _ _ HP)); [|by intros a pa _ _ []].
  intros a Ha. rewrite <- (fresh_used a Ha).
  by rewrite (rt_translate _ _ _ _ T) by (by apply (win_u32 _ _ (pa_window _ _ HP))).
Qed.

Lemma fresh_pages : pages s' (fun a => W a \/ span p 4096 a).
Proof using HP Hfa Hf0 Hfe Hlimit Hne Hp0 Hpa Hphys Hpl Hvirt T.
  destruct (rt_machine _ _ _ _ T) as [m Hm]. assert (pmm s' = pmm s) as Hpm by (by rewrite Hm).
  destruct (frames_same s s') as [HF HB]; [by rewrite Hpm..|].
  split; try (unfold recycled in *; rewrite Hpm; apply HP).
  - apply (rt_paged _ _ _ _ T).
  - apply HF, HP.
  - assert (in_u32 p) as Hpu by width_lia.
    apply (window_add_page s' W p f); [apply fresh_window|done|done|done|exact fresh_page| |].
    + intros pa Hpa'. rewrite fresh_walk. by apply Hphys.
    + intros a pa Ha Hta Hin. rewrite fresh_used in Hta by done.
      destruct (Hphys pa Hin) as (_ & _ & Hno). by apply (Hno a).
  - intros pa Hfree. rewrite HB in Hfree. rewrite fresh_walk.
    destruct (pa_used _ _ HP pa Hfree) as [Hnw Hno]. split; [done|].
    intros a [Ha|Ha]; [rewrite fresh_used by done; by apply Hno|].
    rewrite fresh_page by done. intros [= <-]. unfold span in *.
    destruct (Hphys (f + (a - p))) as (Hnf & _); [lia|done].
  - destruct (present (pde (mach s') 0)) eqn:Hpr; [done|]. exfalso.
    assert (span p 4096 p) as Hin by (unfold span; lia). pose proof (fresh_page p Hin) as Htr.
    rewrite translate_absent in Htr; [done|apply (pg_tables s'), (rt_paged _ _ _ _ T)|].
    assert (dir_index p = 0) as -> by (rewrite dir_index_eq; width_lia). done.
  - intros q a Hq Ha. assert (spare s q) as Hq' by (unfold spare, recycled in *; by rewrite <- Hpm).
    rewrite fresh_walk. destruct (pa_spare _ _ HP q a Hq' Ha) as [Hnw Hnk].
    split; [|done]. intros [?|Hin]; [done|].
    destruct (spare_bounds _ _ _ HP Hq') as (_ & Hqa & _). specialize (Hne q Hq').
    unfold span in *. lia.
Qed.

Lemma fresh_above : above s s'.
Proof using Hlimit Hp0 Hpa Hpl T.
  split; [|exact fresh_walk]. intros a Ha Hla. apply fresh_other; [done|]. unfold span. lia.
Qed.

End fresh_mapping.

Lemma map_fresh_ok s W p f fl :
  pages s W -> 0 < p -> p mod 4096 = 0 -> p + 4096 <= limit -> flags_ok fl ->
  (forall a, span p 4096 a -> ~ W a /\ ~ walk_byte (mach s) a) ->
  (forall q, spare s q -> q <> p) ->
  0 < f -> f mod 4096 = 0 -> f + 4096 <= 2 ^ 32 ->
  (forall pa, span f 4096 pa -> ~ free_byte s pa /\ ~ walk_byte (mach s) pa /\
     forall a, W a -> translate (mach s) a <> Some pa) ->
  exists s', Paging.map_page f p fl s = Ok tt s' /\ (exists m, s' = set_mach (fun _ => m) s) /\
    pages s' (fun a => W a \/ span p 4096 a) /\ above s s' /\
    (forall a, span p 4096 a -> translate (mach s') a = Some (f + (a - p))) /\
    forall a, W a -> translate (mach s') a = translate (mach s) a /\ rd8 s' a = rd8 s a.
Proof using Hlimit.
  intros HP Hp0 Hpa Hpl Hfl Hvirt Hne Hf0 Hfa Hfe Hphys.
  assert (in_u32 p) as Hpu by width_lia.
  assert (dir_index p = 0) as Hdir by (rewrite dir_index_eq; lia).
  destruct (map_page_ok f p fl s s nothing (pa_paged _ _ HP)) as (s' & R & T & _);
    [width_lia|done|done|apply table_present; by rewrite Hdir; apply HP| |].
  { intros pa [Hw|[]] Hb. exfalso.
    pose proof (walk_byte_u32 _ _ (pg_tables _ (pa_paged _ _ HP)) Hw) as Hpu'.
    apply page_base_span in Hb; [|done..]. by destruct (Hvirt pa Hb). }
  replace (page_base f) with f in T by (rewrite page_base_eq by width_lia; lia).
  exists s'. split; [done|]. split; [apply (rt_machine _ _ _ _ T)|].
  split; [by apply (fresh_pages s s' W p f)|]. split; [by apply (fresh_above s s' p f)|].
  split; [intros a; by apply (fresh_page s s' p f)|]. intros a Ha.
  split; [by apply (fresh_used s s' W p f)|by apply (fresh_window s s' W p f)].
Qed.

(** The globals after a step of the allocator of virtual pages. *)
Definition page_step (s s' : kst) : Prop :=
  same_globals s s' /\ free_count (pmm s') <= free_count (pmm s) /\
  forall pa, free_byte s' pa -> free_byte s pa.

(** What [MemMap.allocate] gives is an unused frame. *)
Lemma take_frame_ok s W :
  pages s W ->
  (MemMap.allocate 4096 s = Ok 0 s /\ ~ stocked 1 s) \/
  exists f s', MemMap.allocate 4096 s = Ok f s' /\ map_step s s' /\ pages s' W /\
    0 < f /\ f mod 4096 = 0 /\ f + 4096 <= 2 ^ 32 /\
    (forall pa, free_byte s' pa -> free_byte s pa) /\
    (forall pa, span f 4096 pa -> ~ free_byte s' pa /\ ~ walk_byte (mach s') pa /\
       forall a, W a -> translate (mach s') a <> Some pa) /\
    frames_left 1 s s'.
Proof.
  intros HP. destruct (allocate_frame s (pa_frames _ _ HP))
    as [R|(f & s' & R & M & F & Hf0 & Hfa & Hfe & Hwas & Hfree)]; [left|right].
  { split; [done|]. intros Hst.
    destruct (allocate_stocked 0 s (pa_frames _ _ HP)) as (f & s' & R' & Hf & _); [done..|congruence]. }
  assert (mach s' = mach s) as Hm by (by destruct M as [(n & L & ->) _]).
  exists f, s'. split; [done|]. split; [done|]. split.
  { apply (pages_map_step s); auto. intros pa Hpa. by apply Hfree. }
  do 3 (split; [done|]). split; [intros pa Hpa; by apply Hfree|]. split.
  { intros pa Hpa. rewrite Hm. destruct (pa_used _ _ HP pa (Hwas pa Hpa)) as [Hw Hno].
    split; [|done]. intros Hf. by destruct (Hfree pa Hf). }
  apply (allocate_left s f); [apply HP|done|lia].
Qed.

Lemma allocate_page_ok flag s W :
  pages s W -> page_room s -> flag = 0 \/ flags_ok flag ->
  (~ stocked 1 s /\ MemMap.allocate 4096 s = Ok 0 s /\ Paging.allocate_page flag s = Ok 0 s) \/
  exists p s', Paging.allocate_page flag s = Ok p s' /\
    pages s' (fun a => W a \/ span p 4096 a) /\ page_taken s s' /\
    0 < p /\ p mod 4096 = 0 /\ p + 4096 <= limit /\ spare s p /\
    disjoint_from (span p 4096) W /\ (forall a, W a -> rd8 s' a = rd8 s a) /\
    next_virtual (pmm s') <= next_virtual (pmm s) + 4096 /\
    exists f s1, MemMap.allocate 4096 s = Ok f s1 /\ live s' = live s1 /\
      forall a, span p 4096 a -> translate (mach s') a = Some (f + (a - p)).
Proof using Hlimit.
  intros HP Hleft Hflag. unfold Paging.allocate_page.
  assert (flags_ok (Paging.default_flag flag)) as Hfl.
  { unfold Paging.default_flag. destruct Hflag as [->|Hfl]; [by split|].
    case_match; [by split|done]. }
  set (fl := Paging.default_flag flag) in *. clearbody fl.
  destruct (take_frame_ok s W HP)
    as [[R Hst]|(f & s1 & R1 & M1 & HP1 & Hf0 & Hfa & Hfe & Hfree & Hframe & _)].
  { left. split; [done|]. split; [done|]. by run_with R. }
  right. run_with R1. rewrite (proj2 (Z.eqb_neq f 0)) by lia.
  destruct M1 as [(n & L & ->) _].
  destruct (take_virtual_ok _ W HP1 Hleft) as (p & s2 & R2 & HP2 & (nv & fc & Hfc & Hnv & ->) & Hsp & Hsp2).
  run_with R2. destruct (spare_bounds _ _ _ HP Hsp) as (Hp0 & Hpa & Hpl).
  destruct (map_fresh_ok _ W p f fl HP2 Hp0 Hpa Hpl Hfl) as (s3 & R3 & (m & ->) & HP3 & Hab & Htr & Hrd);
    try done.
  { intros a Ha. by apply (pa_spare _ _ HP p a). }
  { intros q Hq. by apply Hsp2. }
  run_with R3. exists p. eexists. split; [reflexivity|]. split; [done|]. split; [by split_and!|].
  split_and!; try done.
  - intros a Ha Hw. by destruct (pa_spare _ _ HP p a Hsp Ha).
  - intros a Ha. by destruct (Hrd a Ha).
  - by eexists f, _.
Qed.

(** The loop of [allocate_pages_contig] from page [k] on. *)
Section contig.
Context (v n fl : Z) (Hfl : flags_ok fl).
Context (Hv : 0 < v) (Hva : v mod 4096 = 0) (Hvn : v + n * 4096 <= limit).

Definition contig_body (k : Z) : K (option Z) :=
  phy ← MemMap.allocate 4096;
  if phy =? 0 then mret (Some 0)
  else Paging.map_page phy (u32 (v + k * 4096)) fl;; mret None.

(** The pages from [k] on are unused and cannot be handed out. *)
Definition reserved (k : Z) (s : kst) (W : Z -> Prop) : Prop :=
  (forall a, span (v + k * 4096) ((n - k) * 4096) a -> ~ W a /\ ~ walk_byte (mach s) a) /\
  (forall q, spare s q -> ~ span (v + k * 4096) ((n - k) * 4096) q).

Lemma contig_step k s W :
  pages s W -> reserved k s W -> 0 <= k < n ->
  (contig_body k s = Ok (Some 0) s /\ ~ stocked 1 s) \/
  exists s', contig_body k s = Ok None s' /\ next_virtual (pmm s') = next_virtual (pmm s) /\
    frames_left 1 s s' /\
    pages s' (fun a => W a \/ span (v + k * 4096) 4096 a) /\
    reserved (k + 1) s' (fun a => W a \/ span (v + k * 4096) 4096 a) /\
    page_taken s s' /\ forall a, W a -> rd8 s' a = rd8 s a.
Proof using Hfl Hlimit Hv Hva Hvn.
  intros HP [Hres1 Hres2] Hk. unfold contig_body.
  destruct (take_frame_ok s W HP)
    as [[R Hst]|(f & s1 & R1 & M1 & HP1 & Hf0 & Hfa & Hfe & Hfree & Hframe & Hst)].
  { left. split; [by run_with R|done]. }
  right. run_with R1. rewrite (proj2 (Z.eqb_neq f 0)) by lia.
  destruct M1 as [(nn & L & ->) _]. rewrite u32_small by width_lia.
  destruct (map_fresh_ok _ W (v + k * 4096) f fl HP1)
    as (s2 & R2 & (m & ->) & HP2 & Hab & _ & Hrd); try done; try lia.
  { intros a Ha. apply Hres1. unfold span in *. lia. }
  { intros q Hq ->. apply (Hres2 _ Hq). unfold span. lia. }
  run_with R2. eexists. split; [reflexivity|]. split; [done|]. split; [exact Hst|]. split; [done|].
  split; [split|split; [by split_and!|]].
  - intros a Ha. rewrite (proj2 Hab). destruct (Hres1 a) as [H1 H2]; [unfold span in *; lia|].
    split; [|done]. intros [?|?]; [done|]. unfold span in *. lia.
  - intros q Hq Hin. apply (Hres2 _ Hq). unfold span in *. lia.
  - intros a Ha. by destruct (Hrd a Ha).
Qed.

Lemma contig_loop (c : nat) k s W :
  pages s W -> reserved k s W -> 0 <= k -> k + Z.of_nat c = n ->
  exists r s', for_return (seqZ k (Z.of_nat c)) contig_body s = Ok r s' /\ page_taken s s' /\
    next_virtual (pmm s') = next_virtual (pmm s) /\
    (forall a, W a -> rd8 s' a = rd8 s a) /\
    (r = Some 0 /\ pages s' W /\ ~ stocked (Z.of_nat c) s \/
     r = None /\ frames_left (Z.of_nat c) s s' /\
     pages s' (fun a => W a \/ span (v + k * 4096) (Z.of_nat c * 4096) a)).
Proof using Hfl Hlimit Hv Hva Hvn.
  revert k s W. induction c as [|c IH]; intros k s W HP Hres Hk Hn.
  { exists None, s. split; [done|]. split; [done|]. split; [done|]. split; [done|]. right.
    split; [done|]. split; [by apply frames_left_pmm|].
    apply (pages_subset s W); [done|]. intros a [?|Ha]; [done|]. unfold span in Ha. lia. }
  rewrite seqZ_cons by lia. simpl for_return.
  replace (Z.pred (Z.of_nat (S c))) with (Z.of_nat c) by lia.
  destruct (contig_step k s W HP Hres)
    as [[R Hno]|(s1 & R1 & N1 & Hst1 & HP1 & Hres1 & St1 & Rd1)]; [lia| |].
  { exists (Some 0), s. run_with R. split; [done|]. split; [done|]. split; [done|]. split; [done|].
    left. split; [done|]. split; [done|]. intros Hst. apply Hno. revert Hst. apply stocked_le. lia. }
  run_with R1.
  destruct (IH (k + 1) s1 _ HP1 Hres1) as (r & s2 & R2 & St2 & N2 & Rd2 & Hcase); [lia..|].
  exists r, s2. split; [done|]. split; [by transitivity s1|].
  split; [congruence|]. split; [intros a Ha; rewrite Rd2 by (by left); by apply Rd1|].
  destruct Hcase as [(-> & HP2 & Hno)|(-> & Hst2 & HP2)]; [left|right]; (split; [done|]).
  - split; [eapply pages_subset; [exact HP2|]; intros a Ha; by left|].
    intros Hst. apply Hno, (proj1 Hst1); [lia|].
    by replace (Z.of_nat c + 1) with (Z.of_nat (S c)) by lia.
  - split; [apply (frames_left_add 1 (Z.of_nat c) _ s s1); (done || lia)|].
    eapply pages_subset; [exact HP2|]. intros a [?|Ha]; [by left; left|]. unfold span in *.
    destruct (decide (a < v + (k + 1) * 4096)); [left; right|right]; lia.
Qed.
End contig.

Lemma allocate_pages_contig_ok count flag s W :
  let v := next_virtual (pmm s) in
  pages s W -> 0 <= count -> v + count * 4096 <= limit -> flag = 0 \/ flags_ok flag ->
  exists r s', Paging.allocate_pages_contig count flag s = Ok r s' /\ page_taken s s' /\
    next_virtual (pmm s') = v + count * 4096 /\
    (forall a, W a -> rd8 s' a = rd8 s a) /\
    (r = 0 /\ pages s' W /\ ~ stocked count s \/
     r = v /\ frames_left count s s' /\
     pages s' (fun a => W a \/ span v (count * 4096) a) /\
     0 < v /\ v mod 4096 = 0 /\ disjoint_from (span v (count * 4096)) W).
Proof using Hlimit.
  intros v HP Hc Hend Hflag. destruct (pa_next _ _ HP) as [Hv0 Hva]. fold v in Hv0, Hva.
  assert (flags_ok (Paging.default_flag flag)) as Hfl.
  { unfold Paging.default_flag. destruct Hflag as [->|Hfl]; [by split|].
    case_match; [by split|done]. }
  destruct (pages_take s (v + count * 4096) (free_count (pmm s)) W HP) as [HP1 Hsp];
    [pose proof (pa_stack _ _ HP); lia|unfold v; lia|lia|].
  set (s1 := set_pmm _ s) in HP1, Hsp.
  destruct (contig_loop v count (Paging.default_flag flag) Hfl Hv0 Hva Hend
    (Z.to_nat count) 0 s1 W HP1) as (r & s2 & R & St & N2 & Rd & Hcase); [|lia|lia|].
  { split.
    - intros a Ha. rewrite Z.mul_0_l, Z.add_0_r, Z.sub_0_r in Ha.
      set (p := v + (a - v) / 4096 * 4096).
      apply (pa_spare _ _ HP p a); unfold span, p in *; [right; fold v; lia|lia].
    - intros q [Hq|Hq] Hin; unfold span in Hin; simpl in Hq; [|lia].
      assert (q ∈ recycled s) as Hq' by done.
      pose proof (pa_recycled _ _ HP) as Hr. rewrite Forall_forall in Hr.
      destruct (Hr q Hq') as (_ & _ & _ & Hlt). fold v in Hlt. lia. }
  rewrite Z2Nat.id in R, Hcase by done. rewrite Z.mul_0_l, Z.add_0_r in Hcase.
  assert (Paging.allocate_pages_contig count flag s = Ok (default v r) s2) as Hrun.
  { unfold Paging.allocate_pages_contig, Paging.get_next_virtual, Paging.set_next_virtual.
    rewrite gets_bind, modify_bind, u32_small by (fold v; width_lia). fold v.
    change (set_pmm _ s) with s1. by run_with R. }
  exists (default v r), s2. split; [done|]. split; [done|]. split; [done|].
  split; [done|].
  destruct Hcase as [(-> & HP2 & Hno)|(-> & Hst & HP2)]; [by left|right].
  split_and!; try done. intros a Ha Hw.
  set (p := v + (a - v) / 4096 * 4096).
  destruct (pa_spare _ _ HP p a); [right; fold v; unfold span, p in *; lia|unfold span, p in *; lia|done].
Qed.

End pages.

(** * Switching paging on *)

Section start.
Context `{HL : Layout} `{HOk : !LayoutOk}.

(** The calls of [kernel] from [build_first_page] to [enable_paging], without
    the line it prints in between. *)
Definition start_paging : K unit :=
  Paging.build_first_page;;
  Paging.load_page_directory page_directory_addr;;
  Paging.enable_paging.

Definition tables : Z -> Prop := fun a =>
  span page_table_addr 4096 a \/ span page_directory_addr 4096 a.

Lemma tables_u32 : subset tables in_u32.
Proof using HOk.
  destruct page_table_in_image, page_directory_in_image. pose proof kernel_end_low.
  intros a [Ha|Ha]; unfold span in Ha; width_lia.
Qed.

Lemma tables_apart :
  page_table_addr + 4096 <= page_directory_addr \/ page_directory_addr + 4096 <= page_table_addr.
Proof using HOk.
  pose proof page_table_aligned. pose proof page_directory_aligned.
  pose proof page_tables_distinct. lia.
Qed.

(** The two tables as [build_first_page] leaves them. *)
Lemma build_first_page_ok s :
  paging (mach s) = false ->
  exists s', Paging.build_first_page s = Ok tt s' /\ stores tables s s' /\
    (forall k, 0 <= k < 1024 ->
       phys32 (mach s') (page_table_addr + 4 * k) = Z.lor (k * 0x1000) 7) /\
    phys32 (mach s') page_directory_addr = Z.lor page_table_addr 7 /\
    (forall k, 1 <= k < 1024 -> phys32 (mach s') (page_directory_addr + 4 * k) = 0).
Proof using HOk.
  intros Hp. pose proof (flat_window s in_u32 Hp (fun _ h => h)) as HW.
  destruct page_table_in_image as [T1 T2], page_directory_in_image as [D1 D2].
  pose proof kernel_end_low as Hlow. pose proof tables_apart as Hap.
  assert (forall lo n, 0 <= lo -> lo + n <= 0x90000 -> subset (span lo n) in_u32) as Hsub
    by (intros lo n Hlo Hn a Ha; unfold span in Ha; width_lia).
  destruct (fill_ok s page_table_addr 0 1024 (fun k => Z.lor (k * 0x1000) 7))
    as (s1 & R1 & S1 & V1); [lia|apply (window_subset s in_u32); [done|apply Hsub; lia]|].
  pose proof (stores_window _ _ _ _ S1 HW) as HW1.
  assert (subset (span page_directory_addr (Z.of_nat 4)) in_u32) as Hd4 by (apply Hsub; lia).
  destruct (store_ok s1 in_u32 4 page_directory_addr (Z.lor page_table_addr 7) HW1 Hd4)
    as (s2 & R2 & S2 & V2).
  pose proof (stores_window _ _ _ _ S2 HW1) as HW2.
  destruct (fill_ok s2 page_directory_addr 1 1024 (fun _ => 0)) as (s3 & R3 & S3 & V3);
    [lia|apply (window_subset s2 in_u32); [done|apply Hsub; lia]|].
  assert (paging (mach s3) = false) as Hp3.
  { destruct (st_control _ _ _ S3) as [-> _], (st_control _ _ _ S2) as [-> _].
    by destruct (st_control _ _ _ S1) as [-> _]. }
  assert (forall a, 0 <= a -> a + 4 <= 0x90000 -> phys32 (mach s3) a = rd32 s3 a) as Hphys.
  { intros a Ha He. symmetry. apply identity_rd32. intros k Hk.
    split; [width_lia|]. unfold translate. by rewrite Hp3. }
  (* The later stores leave what the earlier ones wrote. *)
  assert (forall b, 0x10000 <= b -> b + 4 <= 0x90000 ->
    b + 4 <= page_directory_addr + 4 \/ page_directory_addr + 4096 <= b ->
    rd32 s3 b = rd32 s2 b) as H32.
  { intros b Hb1 Hb2 Hb. apply (stores_rd 4 _ _ _ in_u32 _ S3 HW2);
      [apply Hsub; lia|apply Hsub; lia|]. intros c. unfold span. lia. }
  assert (forall b, 0x10000 <= b -> b + 4 <= 0x90000 ->
    b + 4 <= page_directory_addr \/ page_directory_addr + 4 <= b ->
    rd32 s2 b = rd32 s1 b) as H21.
  { intros b Hb1 Hb2 Hb. apply (stores_rd 4 _ _ _ in_u32 _ S2 HW1);
      [apply Hsub; lia|apply Hsub; lia|]. intros c. unfold span. lia. }
  exists s3. split_and!.
  - unfold Paging.build_first_page, Paging.page_directory_put. run_with R1.
    rewrite Z.mul_0_r, Z.add_0_r. run_with R2. exact R3.
  - eapply stores_weaken;
      [apply (stores_trans _ _ _ _ _ (stores_trans _ _ _ _ _ S1 S2) S3)| |apply tables_u32].
    unfold tables. intros a [[Ha|Ha]|Ha]; unfold span in *; [left|right|right]; lia.
  - intros k Hk. rewrite Hphys, H32, H21 by lia. rewrite V1 by lia.
    apply u32_small. rewrite lor_flags by lia. width_lia.
  - rewrite Hphys, H32 by lia. unfold rd32. rewrite V2. change (2 ^ (8 * Z.of_nat 4)) with (2 ^ 32).
    rewrite lor_flags by (try lia; apply page_table_aligned). apply Z.mod_small. lia.
  - intros k Hk. rewrite Hphys by lia. by apply V3.
Qed.

Lemma directory_base : page_base page_directory_addr = page_directory_addr.
Proof using HOk.
  destruct page_directory_in_image. pose proof kernel_end_low.
  rewrite page_base_eq by width_lia. pose proof page_directory_aligned. lia.
Qed.

Lemma table_entry : page_base (Z.lor page_table_addr 7) = page_table_addr /\
  present (Z.lor page_table_addr 7) = true.
Proof using HOk.
  destruct page_table_in_image. pose proof kernel_end_low.
  split.
  - apply page_base_flags; [width_lia|apply page_table_aligned|lia].
  - rewrite present_lor. apply orb_true_r.
Qed.

(** What a machine with these tables translates. *)
Section first_tables.
Context (m : machine) (Hpg : paging m = true) (Hcr : cr3 m = page_directory_addr).
Context (Htab : forall k, 0 <= k < 1024 ->
  phys32 m (page_table_addr + 4 * k) = Z.lor (k * 0x1000) 7).
Context (Hdir0 : phys32 m page_directory_addr = Z.lor page_table_addr 7).
Context (Hdir : forall k, 1 <= k < 1024 -> phys32 m (page_directory_addr + 4 * k) = 0).

Lemma first_pde d :
  0 <= d < 1024 -> pde m d = if decide (d = 0) then Z.lor page_table_addr 7 else 0.
Proof using All.
  intros Hd. unfold pde. rewrite Hcr, directory_base.
  case_decide; [subst; by rewrite Z.mul_0_r, Z.add_0_r|]. apply Hdir. lia.
Qed.

Lemma first_present d : 0 <= d < 1024 -> present (pde m d) = true -> d = 0.
Proof using All. intros Hd. rewrite first_pde by done. by case_decide. Qed.

Lemma first_translate x :
  in_u32 x -> translate m x = if x <? 2 ^ 22 then Some x else None.
Proof using All.
  intros Hx. pose proof (dir_index_range x Hx) as Hd. pose proof (tab_index_range x) as Ht.
  destruct table_entry as [Hb Hp].
  unfold translate. rewrite Hpg, first_pde by done. rewrite dir_index_eq in *.
  destruct (Z.ltb_spec x (2 ^ 22)) as [Hlt|Hge].
  - rewrite decide_True, Hp by lia. unfold pte_in. rewrite Hb, Htab by done.
    rewrite present_lor. replace (present 7) with true by done. rewrite orb_true_r.
    rewrite page_base_flags by (try lia; rewrite tab_index_eq in *; width_lia).
    rewrite land_0xFFF, tab_index_eq. f_equal. lia.
  - by rewrite decide_False by lia.
Qed.

Lemma first_walk pa : walk_byte m pa <-> tables pa.
Proof using All.
  destruct table_entry as [Hb Hp]. unfold walk_byte, tables, span. rewrite Hcr, directory_base.
  split.
  - intros [_ [?|(d & Hd & Hpd & Hin)]]; [by right|left].
    pose proof (first_present d Hd Hpd) as ->. rewrite first_pde, decide_True, Hb in Hin by done.
    done.
  - intros [?|?]; (split; [done|]); [right|by left].
    exists 0. by rewrite first_pde, decide_True, Hb, Hp.
Qed.

Lemma first_tables_ok : tables_ok m.
Proof using All.
  destruct table_entry as [Hb Hp]. destruct page_table_in_image, page_directory_in_image.
  pose proof kernel_end_low. split; try done.
  - rewrite Hcr. width_lia.
  - rewrite Hcr. apply page_directory_aligned.
  - intros d Hd Hpd. pose proof (first_present d Hd Hpd) as ->.
    rewrite first_pde, decide_True, Hb, Hcr by done. apply page_tables_distinct.
  - intros d Hd Hpd. pose proof (first_present d Hd Hpd) as ->.
    rewrite first_pde, decide_True, Hb by done. lia.
  - intros d e Hd He Hpd Hpe _.
    by rewrite (first_present d Hd Hpd), (first_present e He Hpe).
Qed.
End first_tables.

(** The tables are in memory. *)
Record tables_built (m : machine) : Prop := {
  tb_table : forall k, 0 <= k < 1024 -> phys32 m (page_table_addr + 4 * k) = Z.lor (k * 0x1000) 7;
  tb_first : phys32 m page_directory_addr = Z.lor page_table_addr 7;
  tb_rest : forall k, 1 <= k < 1024 -> phys32 m (page_directory_addr + 4 * k) = 0
}.

(** What the processor does from [enable_paging] on. *)
Record paging_on (s : kst) : Prop := {
  po_paged : paged s;
  po_translate : forall x, in_u32 x -> translate (mach s) x = if x <? 2 ^ 22 then Some x else None;
  po_walk : forall pa, walk_byte (mach s) pa <-> tables pa;
  po_present : forall d, 0 <= d < 1024 -> present (pde (mach s) d) = bool_decide (d = 0)
}.

Lemma enable_paging_ok s :
  tables_built (mach s) ->
  exists s', (Paging.load_page_directory page_directory_addr;; Paging.enable_paging) s = Ok tt s' /\
    (exists m, s' = set_mach (fun _ => m) s) /\ paging_on s' /\
    forall pa, phys8 (mach s') pa = phys8 (mach s) pa.
Proof using HOk.
  intros [T1 D0 D1].
  set (m := Machine (ram (mach s)) true page_directory_addr (device (mach s))
    (reads (mach s)) (EnablePaging :: LoadPageDirectory page_directory_addr :: trace (mach s))).
  assert (forall a, phys32 m a = phys32 (mach s) a) as Hm by done.
  pose proof (first_translate m eq_refl eq_refl T1 D0 D1) as Htr.
  pose proof (first_walk m eq_refl eq_refl T1 D0 D1) as Hwalk.
  pose proof (first_tables_ok m eq_refl eq_refl T1 D0 D1) as HT.
  exists (set_mach (fun _ => m) s). split; [reflexivity|]. split; [by exists m|]. split; [|done].
  assert (subset tables (fun x => x < 2 ^ 22)) as Hlow.
  { destruct page_table_in_image, page_directory_in_image. pose proof kernel_end_low.
    intros a [Ha|Ha]; unfold span in Ha; lia. }
  split; [|done|done|].
  - split; [done|done|]. intros pa Hw. pose proof (walk_byte_u32 _ _ HT Hw).
    simpl. rewrite Htr by done. apply Hwalk, Hlow in Hw. by rewrite (proj2 (Z.ltb_lt _ _)).
  - intros d Hd. simpl. rewrite (first_pde m eq_refl eq_refl T1 D0 D1) by done.
    destruct (decide (d = 0)) as [->|Hne]; [apply table_entry|]. by rewrite bool_decide_false.
Qed.

Lemma start_paging_ok s :
  paging (mach s) = false ->
  exists s', start_paging s = Ok tt s' /\ (exists m, s' = set_mach (fun _ => m) s) /\ paging_on s' /\
    forall pa, ~ tables pa -> phys8 (mach s') pa = phys8 (mach s) pa.
Proof using HOk.
  intros Hp. destruct (build_first_page_ok s Hp) as (s1 & R1 & S1 & T1 & D0 & D1).
  destruct (enable_paging_ok s1) as (s2 & R2 & (m & ->) & HO & Hph); [by split|].
  eexists. split; [unfold start_paging; run_with R1; exact R2|].
  split; [destruct (st_machine _ _ _ S1) as [m1 ->]; by exists m|]. split; [done|].
  intros pa Hpa. rewrite Hph. apply (st_frame _ _ _ S1). intros a Ha. unfold translate. rewrite Hp.
  by intros [= ->].
Qed.

End start.

(** Where the virtual pages have to end: the kernel starts on a stack below
    0x90000, which interrupts of user code use too until the first switch; above
    it is the video memory. *)
Abbreviation page_limit := 0x8F000 (only parsing).

(** A lower limit is a stricter one. *)
Lemma pages_lower `{Layout} limit limit' s W :
  limit' <= limit -> free_count (pmm s) = 0 -> pages limit s W -> pages limit' s W.
Proof.
  intros Hl Hfc [H1 H2 H3 H4 H5 H6 H7 _ _ H10]. split; try done.
  - unfold recycled. by rewrite Hfc.
  - unfold recycled. rewrite Hfc. apply NoDup_nil_2.
  - intros p a Hp. apply H10. destruct Hp as [Hp|(Hp & He & Ha)]; [by left|right]. split_and!; try done. lia.
Qed.

(** kernel/pmm.c implements the contract of PageSource.v. *)
#[export] Instance paging_source `{Layout} : PageSource := {
  allocate_page := Paging.allocate_page
}.

#[export] Instance paging_source_ok `{Layout} : PageSourceOk paging_source.
Proof.
  refine {| page_inv := pages page_limit; page_left := page_room page_limit |}.
  - intros s W HP. apply (pa_window _ _ _ HP).
  - intros s W W'. apply pages_subset.
  - intros A s s' W. apply stores_pages.
  - intros s s' W. apply pages_globals.
  - unfold page_room. by intros s s' ->.
  - intros flag s W HP Hleft Hflag.
    destruct (allocate_page_ok page_limit ltac:(lia) flag s W HP Hleft Hflag)
      as [(_ & _ & R)|(p & s' & R & HP' & (G & _) & Hp & _ & Hpl & _ & Hd & Hrd & _)]; [by left|right].
    exists p, s'. split_and!; try done. lia.
Defined.

(** * Giving a virtual page back *)

Section release.
Context `{Layout} (limit : Z) (Hlimit : limit <= 2 ^ 22).

(** The bytes of a mapped page are consecutive. *)
Lemma translate_page m p f a :
  in_u32 p -> p mod 4096 = 0 -> translate m p = Some f -> paging m = true ->
  span p 4096 a -> translate m a = Some (f + (a - p)).
Proof.
  intros Hp Hal Ht Hpg Ha. assert (in_u32 a) as Hau by (unfold span in Ha; width_lia).
  assert (page_base a = page_base p) as Hb by (by apply page_base_span).
  apply (same_page a p Hau Hp) in Hb as [Hd Hti]. revert Ht. unfold translate.
  rewrite Hpg, Hd, Hti. repeat case_match; try done. intros [= <-].
  rewrite !land_0xFFF. f_equal. unfold span in Ha. lia.
Qed.

(** The state [free_page] has made when it looks at the table. *)
Definition pushed (addr : Z) (s : kst) : kst :=
  set_pmm (fun p => PmmState (entry p) (mmap p) (next_virtual p)
    (<[Z.to_nat (free_count (pmm s)) := addr]> (free_virtual p)) (free_count p + 1)) s.

Lemma free_page_push addr s :
  0 <= free_count (pmm s) < 1024 -> length (free_virtual (pmm s)) = 1024%nat ->
  Paging.free_page addr s =
    (pte ← Paging.get_pte addr;
     absent ← Paging.not_mapped pte;
     if absent : bool then mret tt else
     e ← load32 pte; MemMap.free (page_base e);; store32 pte 0) (pushed addr s).
Proof.
  intros Hc Hl. unfold Paging.free_page, Paging.get_free_count, Paging.set_free_count.
  rewrite gets_bind, modify_bind, u32_small by width_lia.
  unfold Paging.free_virtual_put at 1. unfold mbind at 1, K_bind at 1. simpl. rewrite Hl.
  rewrite (proj2 (andb_true_iff _ _)) by lia. reflexivity.
Qed.

(** What is left of the invariant when the page [p], mapped to the frame [f],
    is no longer used: the tables, the map and the stack of recycled pages
    have been updated. *)
Lemma pages_release p f s s2 s' W :
  let W' := fun a => W a /\ ~ span p 4096 a in
  pages limit s W -> subset (span p 4096) W -> 0 < p -> p mod 4096 = 0 ->
  p + 4096 <= limit -> p < next_virtual (pmm s) -> free_count (pmm s) < 1024 ->
  translate (mach s) p = Some f ->
  mach s2 = mach s -> retabled (remap (mach s) p None) nothing s2 s' ->
  pde (mach s') 0 = pde (mach s) 0 -> frames s' ->
  (forall pa, free_byte s' pa -> free_byte s pa \/ span f 4096 pa) ->
  next_virtual (pmm s') = next_virtual (pmm s) ->
  free_count (pmm s') = free_count (pmm s) + 1 -> length (free_virtual (pmm s')) = 1024%nat ->
  recycled s' = recycled s ++ [p] ->
  pages limit s' W' /\ forall a, W' a -> rd8 s' a = rd8 s a.
Proof using Hlimit.
  intros W' HP Hsub Hp0 Hpa Hpl Hpn Hc Hpf Hm2 T Hpde HF HB Env Efc Efv Er.
  pose proof (pa_paged _ _ _ HP) as Hpg. pose proof (pa_window _ _ _ HP) as HW.
  assert (in_u32 p) as Hpu by width_lia.
  assert (forall a, span p 4096 a -> translate (mach s) a = Some (f + (a - p))) as Hpage
    by (intros a; apply translate_page; try done; apply Hpg).
  assert (forall a, W' a -> remap (mach s) p None a = translate (mach s) a) as Hkeep.
  { intros a [Ha Hn]. apply remap_other; [done..|by apply (win_u32 _ _ HW)|done]. }
  assert (window s2 W') as HW2.
  { apply (window_mach s); [done|]. apply (window_subset s W); [done|]. by intros a [? _]. }
  assert (forall pa, walk_byte (mach s') pa <-> walk_byte (mach s) pa) as Hwalk.
  { intros pa. rewrite (rt_walk _ _ _ _ T), Hm2. split; [by intros [?|[]]|by left]. }
  destruct (retabled_window _ _ _ _ W' T HW2) as [HW3 Hrd];
    [by rewrite Hm2|by intros a pa _ _ []|].
  assert (forall a, W' a -> translate (mach s') a = translate (mach s) a) as Htw.
  { intros a Ha. rewrite (rt_translate _ _ _ _ T) by (by apply (win_u32 _ _ HW2)). by apply Hkeep. }
  split.
  2:{ intros a Ha. rewrite Hrd by done. unfold rd8. by rewrite Hm2. }
  destruct (pa_stack _ _ _ HP) as [Hc0 _].
  split; rewrite ?Env, ?Efc, ?Er, ?Hpde; try done; try apply HP.
  - apply (rt_paged _ _ _ _ T).
  - intros pa Hfree. rewrite Hwalk.
    assert ((~ walk_byte (mach s) pa /\ forall a, W a -> translate (mach s) a <> Some pa) \/
      exists a, span p 4096 a /\ translate (mach s) a = Some pa) as [[Hnw Hno']|(a & Ha & Hta)].
    { destruct (HB pa Hfree) as [Hpa'|Hpa']; [left; by apply (pa_used _ _ _ HP)|right].
      exists (p + (pa - f)). unfold span in *. split; [lia|]. rewrite Hpage by (unfold span; lia).
      f_equal. lia. }
    + split; [done|]. intros a Ha. rewrite Htw by done. apply Hno', Ha.
    + destruct (win_mapped _ _ HW a (Hsub a Ha)) as (pb & Hpb & Hnw). simplify_eq.
      split; [done|]. intros b Hb. rewrite Htw by done. intros Htb. destruct Hb as [Hb Hn].
      apply Hn. by rewrite (win_inj _ _ HW b a pa) by auto.
  - lia.
  - apply Forall_app. split; [apply HP|]. by apply Forall_singleton.
  - apply NoDup_app. split; [apply HP|]. split; [|apply NoDup_singleton].
    intros q Hq ->%list_elem_of_singleton. assert (span p 4096 p) as Hin by (unfold span; lia).
    destruct (pa_spare _ _ _ HP p p) as [Hno _]; [by left|done|]. by apply Hno, Hsub.
  - intros q a Hq Ha. rewrite Hwalk. unfold W'.
    assert (spare limit s q \/ q = p) as [Hq'| ->].
    { destruct Hq as [Hq|Hq]; [|left; right; by rewrite Env in Hq].
      rewrite Er in Hq. apply elem_of_app in Hq as [Hq|Hq%list_elem_of_singleton];
        [left; by left|by right]. }
    + destruct (pa_spare _ _ _ HP q a Hq' Ha) as [Hnw Hnk]. split; [|done]. by intros [? _].
    + split; [by intros [_ ?]|]. intros Hw.
      destruct (win_mapped _ _ HW a (Hsub a Ha)) as (pb & Hpb & Hn).
      rewrite (pg_self _ Hpg a Hw) in Hpb. by simplify_eq.
Qed.

Lemma free_page_ok p f r s W :
  let W' := fun a => W a /\ ~ span p 4096 a in
  pages limit s W -> subset (span p 4096) W -> 0 < p -> p mod 4096 = 0 ->
  p + 4096 <= limit -> p < next_virtual (pmm s) -> free_count (pmm s) < 1024 ->
  translate (mach s) p = Some f -> r ∈ live s -> mm_base r = f -> mm_length r = 4096 ->
  f + 4096 <= 2 ^ 32 ->
  exists s', Paging.free_page p s = Ok tt s' /\ pages limit s' W' /\
    recycled s' = recycled s ++ [p] /\
    (forall a, W' a -> rd8 s' a = rd8 s a) /\
    (forall x, status (live s') x =
       if decide (f <= x < f + 4096) then Some 1 else status (live s) x) /\
    translate (mach s') p = None /\ trace (mach s') = trace (mach s).
Proof using Hlimit.
  intros W' HP Hsub Hp0 Hpa Hpl Hpn Hc Hpf Hr Hbase Hlen Hfe.
  pose proof (pa_paged _ _ _ HP) as Hpg. pose proof (pa_window _ _ _ HP) as HW.
  destruct (pa_stack _ _ _ HP) as [Hc0 Hfl]. assert (in_u32 p) as Hpu by width_lia.
  rewrite free_page_push by (lia || done). set (s1 := pushed p s).
  destruct (pte_cases s1 p (paged_mach s s1 eq_refl Hpg) Hpu)
    as [[Ht _]|(Hpd & Hpe & Ht & Rg & Rn & Rl & _)]; change (mach s1) with (mach s) in *;
    [congruence|].
  run_with Rg. run_with Rn. run_with Rl.
  rewrite Hpf in Ht. injection Ht as Ht. rewrite land_0xFFF, Hpa, Z.add_0_r in Ht. rewrite <- Ht.
  destruct (frames_same s s1) as [HF1 HB1]; [done..|].
  assert (f mod 4096 = 0) as Hfal by (rewrite Ht; apply page_base_aligned, phys32_range).
  destruct (free_frame r s1 (HF1 (pa_frames _ _ _ HP))) as (s2 & R2 & M2 & F2 & St2 & B2);
    [done|by rewrite Hbase|lia|]. rewrite Hbase in R2. run_with R2.
  destruct M2 as [(n & L & ->) _]. set (s2 := MemMap.put_map n L s1) in *.
  destruct (clear_pte_ok s2 p (paged_mach s s2 eq_refl Hpg) Hpu Hpd) as (s3 & R3 & T3 & Tr3 & Hpde).
  { intros pa Hw Hb. pose proof (walk_byte_u32 _ _ (pg_tables _ Hpg) Hw) as Hpau.
    apply page_base_span in Hb; [|done..]. destruct (win_mapped _ _ HW pa (Hsub pa Hb)) as (pb & Hpb & Hn).
    rewrite (pg_self _ Hpg pa Hw) in Hpb. by simplify_eq. }
  destruct (rt_machine _ _ _ _ T3) as [m Hm]. assert (pmm s3 = pmm s2) as Hpm by (by subst).
  destruct (frames_same s2 s3) as [HF3 HB3]; [by rewrite Hpm..|].
  assert (recycled s3 = recycled s ++ [p]) as Er.
  { unfold recycled. rewrite Hpm. simpl. replace (Z.to_nat (free_count (pmm s) + 1))
      with (S (Z.to_nat (free_count (pmm s)))) by lia.
    rewrite (take_S_r _ _ p) by (rewrite list_lookup_insert_eq by lia; done).
    by rewrite take_insert_ge by lia. }
  assert (forall x, covers r x = true <-> f <= x < f + 4096) as Hcov
    by (intros x; by rewrite covers_true, Hbase, Hlen).
  destruct (pages_release p f s s2 s3 W HP Hsub) as [HP3 Hrd]; try done.
  { by apply Hpde. }
  { by apply HF3. }
  { intros pa. rewrite HB3. intros [Hb|Hb]%B2; [left; by apply HB1|right; by apply Hcov]. }
  { by rewrite Hpm. }
  { by rewrite Hpm. }
  { rewrite Hpm. simpl. by rewrite length_insert. }
  exists s3. split_and!; try done.
  - intros x. assert (live s3 = live s2) as -> by (unfold live; by rewrite Hpm).
    rewrite St2. change (live s1) with (live s). specialize (Hcov x).
    case_decide; destruct (covers r x); try done; exfalso; [|by apply H0, Hcov].
    by apply Hcov in H0.
  - rewrite (rt_translate _ _ _ _ T3) by done. unfold remap. by rewrite decide_True.
Qed.

End release.

(** * What the virtual-page layer guarantees *)

Section guarantees.
Context `{HL : Layout} `{HOk : !LayoutOk}.

Definition screen_base : Z := 0xB8000.

(** The allocator of pages when paging is on. *)
Lemma start_pages s :
  paging_on s -> frames s -> (forall pa, free_byte s pa -> 0x100000 <= pa) ->
  next_virtual (pmm s) = kernel_end_addr ->
  free_count (pmm s) = 0 -> length (free_virtual (pmm s)) = 1024%nat -> pages screen_base s video.
Proof using HOk.
  intros [Hpg Htr Hw Hpd] HF Hhigh Hnv Hfc Hfv.
  pose proof kernel_end_low as Hlow. pose proof kernel_end_aligned as Hal.
  destruct page_table_in_image as [T1 T2], page_directory_in_image as [D1 D2].
  assert (forall a, 0 <= a < 2 ^ 22 -> translate (mach s) a = Some a) as Hid.
  { intros a Ha. specialize (Htr a ltac:(width_lia)). by rewrite (proj2 (Z.ltb_lt _ _)) in Htr by lia. }
  unfold video, Vga.VGA, screen_base. split; try done.
  - split.
    + intros a Ha. unfold span in Ha. width_lia.
    + intros a Ha. exists a. unfold span in Ha. rewrite Hid by lia.
      split; [done|]. rewrite Hw. unfold tables, span. lia.
    + intros a b pa Ha Hb. unfold span in *. rewrite !Hid by lia. congruence.
  - intros pa Hpa. specialize (Hhigh pa Hpa). rewrite Hw. unfold tables, span in *.
    split; [lia|]. intros a Ha. rewrite Hid by lia. intros [=]. lia.
  - by rewrite Hpd.
  - rewrite Hnv. lia.
  - rewrite Hfc. by split.
  - unfold recycled. by rewrite Hfc.
  - unfold recycled. rewrite Hfc. apply NoDup_nil_2.
  - intros p a [Hpa|Hpa] Ha.
    + unfold recycled in Hpa. rewrite Hfc in Hpa. by apply elem_of_nil in Hpa.
    + rewrite Hw. unfold tables, span in *. lia.
Qed.

Lemma init_virtual_ok s :
  Paging.init_virtual_allocator s =
    Ok tt (set_pmm (fun p => PmmState (entry p) (mmap p) kernel_end_addr (free_virtual p) (free_count p)) s).
Proof using HOk.
  pose proof kernel_end_low as Hlow. pose proof kernel_end_aligned as Hal.
  destruct page_table_in_image as [T1 T2]. unfold Paging.init_virtual_allocator, Paging.set_next_virtual.
  assert (Z.land (u32 (kernel_end_addr + 4095)) 0xFFFFF000 = kernel_end_addr) as ->.
  { rewrite u32_small by width_lia. change (Z.land ?x 0xFFFFF000) with (page_base x).
    rewrite page_base_eq by width_lia. lia. }
  by rewrite u32_small by width_lia.
Qed.

Lemma start_ok s :
  paging (mach s) = false -> frames s -> (forall pa, free_byte s pa -> 0x100000 <= pa) ->
  free_count (pmm s) = 0 -> length (free_virtual (pmm s)) = 1024%nat ->
  exists s', (Paging.init_virtual_allocator;; start_paging) s = Ok tt s' /\
    (forall x, in_u32 x -> translate (mach s') x = if x <? 2 ^ 22 then Some x else None) /\
    (forall pa, ~ tables pa -> phys8 (mach s') pa = phys8 (mach s) pa) /\
    next_virtual (pmm s') = kernel_end_addr /\ page_step s s' /\
    entry (pmm s') = entry (pmm s) /\ mmap (pmm s') = mmap (pmm s) /\
    free_count (pmm s') = 0 /\ pages screen_base s' video /\
    (forall d, 0 <= d < 1024 -> present (pde (mach s') d) = bool_decide (d = 0)) /\
    (forall pa, walk_byte (mach s') pa -> tables pa).
Proof using HOk.
  intros Hp HF Hhigh Hfc Hfv. run_with (init_virtual_ok s). set (s1 := set_pmm _ s).
  destruct (start_paging_ok s1 Hp) as (s2 & R2 & (m & ->) & HO & Hfr).
  eexists. split; [exact R2|]. pose proof HO as [_ Htr Hw Hpd].
  assert (pages screen_base (set_mach (fun _ => m) s1) video).
  { apply start_pages; try done. by apply (frames_same s). }
  split_and!; try done. intros pa. by rewrite Hw.
Qed.

(** C30: paging starts with the first 4 MiB mapped to themselves and nothing
    else mapped; memory outside the two tables is untouched, and from there on
    the pages between the end of the kernel and the video memory are free to
    be handed out. *)
Theorem paging_starts_identity s :
  paging (mach s) = false -> frames s -> (forall pa, free_byte s pa -> 0x100000 <= pa) ->
  free_count (pmm s) = 0 -> length (free_virtual (pmm s)) = 1024%nat ->
  exists s', (Paging.init_virtual_allocator;; start_paging) s = Ok tt s' /\
    (forall x, in_u32 x -> translate (mach s') x = if x <? 2 ^ 22 then Some x else None) /\
    (forall pa, ~ tables pa -> phys8 (mach s') pa = phys8 (mach s) pa) /\
    next_virtual (pmm s') = kernel_end_addr /\ page_step s s' /\
    entry (pmm s') = entry (pmm s) /\ mmap (pmm s') = mmap (pmm s) /\
    free_count (pmm s') = 0 /\ pages screen_base s' video.
Proof using HOk.
  intros Hp HF Hhigh Hfc Hfv.
  destruct (start_ok s Hp HF Hhigh Hfc Hfv) as (s' & R & H1 & H2 & H3 & H4 & H5 & H6 & H7 & H8 & _).
  by exists s'.
Qed.

(** [map_page] sends the page of [va] to the frame and changes no other
    translation; no byte outside the tables (old and new) changes, and the
    entry is flushed from the TLB last.  It needs a table for that part of the
    address space, present or allocated where the code can write. *)
Theorem map_page_maps phys va flags s s1 N :
  paged s -> in_u32 phys -> in_u32 va -> flags_ok flags ->
  table_for s (dir_index va) s1 N ->
  (forall pa, walk_byte (mach s) pa \/ N pa -> page_base pa = page_base va ->
     page_base phys = page_base va) ->
  exists s', Paging.map_page phys va flags s = Ok tt s' /\ paged s' /\
    (forall x, in_u32 x -> translate (mach s') x =
       if decide (page_base x = page_base va) then Some (page_base phys + x mod 4096)
       else translate (mach s) x) /\
    (forall pa, ~ walk_byte (mach s) pa -> ~ N pa ->
       phys8 (mach s') pa = phys8 (mach s1) pa) /\
    (forall pa, walk_byte (mach s') pa <-> walk_byte (mach s) pa \/ N pa) /\
    head (trace (mach s')) = Some (Invlpg va).
Proof.
  intros HP Hphys Hva Hfl HTF Hself.
  destruct (map_page_ok phys va flags s s1 N HP Hphys Hva Hfl HTF Hself) as (s' & R & T & Htr).
  pose proof (table_for_mach _ _ _ _ HTF) as Hm. exists s'. split_and!; try done.
  - apply (rt_paged _ _ _ _ T).
  - intros x Hx. rewrite (rt_translate _ _ _ _ T) by done. unfold remap. simpl.
    by rewrite land_0xFFF.
  - intros pa Hw Hn. apply (rt_frame _ _ _ _ T); [by rewrite Hm|done].
  - intros pa. by rewrite (rt_walk _ _ _ _ T), Hm.
Qed.

(** C31: [get_map] walks the tables the way the processor does: it returns the
    frame a supervisor access to the page would reach, 0 when it would fault,
    and changes nothing. *)
Theorem get_map_reads_translation va s :
  paged s -> in_u32 va ->
  Paging.get_map va s =
    Ok (match translate (mach s) va with Some pa => page_base pa | None => 0 end) s.
Proof.
  intros HP Hva. unfold Paging.get_map.
  destruct (pte_cases s va HP Hva)
    as [[-> (p & Rg & Rn)]|(Hpd & Hpe & -> & Rg & Rn & Rl & _)]; run_with Rg; run_with Rn; [done|].
  run_with Rl. unfold mret, K_ret. f_equal.
  set (e := pte_in _ _ _). assert (in_u32 e) as He by apply phys32_range.
  change (Z.land e 0xFFFFF000) with (page_base e). rewrite land_0xFFF.
  pose proof (page_base_range e He). pose proof (page_base_aligned e He).
  rewrite (page_base_eq (page_base e + va mod 4096)) by width_lia. lia.
Qed.

(** [unmap_page] makes exactly the page of [va] fault, flushes the TLB
    entry, and does nothing to a page that is not mapped. *)
Theorem unmap_page_unmaps va s :
  paged s -> in_u32 va ->
  (forall pa, walk_byte (mach s) pa -> page_base pa <> page_base va) ->
  exists s', Paging.unmap_page va s = Ok tt s' /\ paged s' /\
    (forall x, in_u32 x -> translate (mach s') x =
       if decide (page_base x = page_base va) then None else translate (mach s) x) /\
    (forall pa, ~ walk_byte (mach s) pa -> phys8 (mach s') pa = phys8 (mach s) pa) /\
    (translate (mach s) va <> None -> head (trace (mach s')) = Some (Invlpg va)).
Proof.
  intros HP Hva Hno. unfold Paging.unmap_page.
  destruct (pte_cases s va HP Hva)
    as [[Ht (p & Rg & Rn)]|(Hpd & Hpe & _ & Rg & Rn & _ & _)]; run_with Rg; run_with Rn.
  - exists s. split; [done|]. split; [done|]. split; [|done].
    intros x Hx. case_decide as Hb; [|done].
    destruct (same_page x va Hx Hva) as [Hs _]. destruct (Hs Hb) as [Hd Hti].
    revert Ht. unfold translate. rewrite Hd, Hti. destruct (paging (mach s)); [|done].
    by repeat case_match.
  - destruct (clear_pte_ok s va HP Hva Hpd Hno) as (s' & R & T & _). run_with R.
    eexists. split; [reflexivity|]. pose proof (retabled_emit _ _ _ _ (Invlpg va) T) as T'.
    split_and!; [apply (rt_paged _ _ _ _ T')| | |done].
    + intros x Hx. rewrite (rt_translate _ _ _ _ T') by done. unfold remap. by case_decide.
    + intros pa Hw. apply (rt_frame _ _ _ _ T'); [done|by intros []].
Qed.

(** C4: as long as there is a virtual page to take (a recycled one, or the page
    at [next_virtual] ends at or below [limit], which is at most 4 MiB), and
    with flags the table can hold, [allocate_page] either fails for want of a
    frame and changes nothing, or maps a page nobody uses to a frame nobody
    uses: memory in use keeps its contents, the new page is plain memory
    disjoint from it, and the invariant holds for the larger set of used
    addresses.  (Nothing in the code keeps [next_virtual] below the limit.) *)
Theorem allocate_page_fresh limit flag s W :
  limit <= 2 ^ 22 -> pages limit s W -> page_room limit s -> flag = 0 \/ flags_ok flag ->
  (~ stocked 1 s /\ MemMap.allocate 4096 s = Ok 0 s /\ Paging.allocate_page flag s = Ok 0 s) \/
  exists p s', Paging.allocate_page flag s = Ok p s' /\ 0 < p /\ p mod 4096 = 0 /\
    pages limit s' (fun a => W a \/ span p 4096 a) /\ page_taken limit s s' /\
    disjoint_from (span p 4096) W /\ forall a, W a -> rd8 s' a = rd8 s a.
Proof.
  intros Hl HP Hleft Hflag.
  destruct (allocate_page_ok limit Hl flag s W HP Hleft Hflag)
    as [R|(p & s' & R & HP' & St & Hp0 & Hpa & _ & _ & Hd & Hrd & _)]; [by left|right].
  by exists p, s'.
Qed.

(** [allocate_pages_contig] returns consecutive fresh pages, or 0 when the
    memory runs out; either way memory in use keeps its contents. *)
Theorem allocate_pages_contig_fresh limit count flag s W :
  let v := next_virtual (pmm s) in
  limit <= 2 ^ 22 -> pages limit s W -> 0 <= count -> v + count * 4096 <= limit ->
  flag = 0 \/ flags_ok flag ->
  exists r s', Paging.allocate_pages_contig count flag s = Ok r s' /\ page_taken limit s s' /\
    (forall a, W a -> rd8 s' a = rd8 s a) /\
    (r = 0 /\ ~ stocked count s /\ pages limit s' W \/
     r = v /\ 0 < v /\ v mod 4096 = 0 /\ disjoint_from (span v (count * 4096)) W /\
     pages limit s' (fun a => W a \/ span v (count * 4096) a)).
Proof.
  intros v Hl HP Hc Hend Hflag.
  destruct (allocate_pages_contig_ok limit Hl count flag s W HP Hc Hend Hflag)
    as (r & s' & R & St & _ & Hrd & [(-> & HP' & Hno)|(-> & _ & HP' & Hv0 & Hva & Hd)]).
  - exists 0, s'. split_and!; try done. by left.
  - exists v, s'. split_and!; try done. by right.
Qed.

(** [free_page] makes the page fault, gives its frame back to the
    allocator of frames and the page to [take_virtual]; memory in other pages
    keeps its contents.  Unlike [unmap_page] it does not flush the TLB: the
    trace of privileged operations does not grow. *)
Theorem free_page_releases limit p f r s W :
  let W' := fun a => W a /\ ~ span p 4096 a in
  limit <= 2 ^ 22 -> pages limit s W -> subset (span p 4096) W -> 0 < p -> p mod 4096 = 0 ->
  p + 4096 <= limit -> p < next_virtual (pmm s) -> free_count (pmm s) < 1024 ->
  translate (mach s) p = Some f -> r ∈ live s -> mm_base r = f -> mm_length r = 4096 ->
  f + 4096 <= 2 ^ 32 ->
  exists s', Paging.free_page p s = Ok tt s' /\ pages limit s' W' /\
    recycled s' = recycled s ++ [p] /\
    (forall a, W' a -> rd8 s' a = rd8 s a) /\
    (forall x, status (live s') x =
       if decide (f <= x < f + 4096) then Some 1 else status (live s) x) /\
    translate (mach s') p = None /\ trace (mach s') = trace (mach s).
Proof. intros W' Hl. by apply free_page_ok. Qed.

(** [free_page] does not bound the stack of recycled pages: with 1024 of them
    the next one is stored behind [free_virtual]. *)
Theorem free_page_overflows p s :
  free_count (pmm s) = 1024 -> length (free_virtual (pmm s)) = 1024%nat ->
  exists s', Paging.free_page p s = Undefined s'.
Proof.
  intros Hc Hl. unfold Paging.free_page, Paging.get_free_count, Paging.set_free_count.
  rewrite gets_bind, Hc. eexists. unfold mbind, K_bind, modify, Paging.free_virtual_put. simpl.
  by rewrite Hl.
Qed.

(** C35: nothing stops [next_virtual] at the video memory.  When it gets there,
    [allocate_page] hands the page of the screen out as heap memory: from then
    on the addresses of the console reach an ordinary frame. *)
Theorem allocate_page_takes_the_screen s f s1 :
  paged s -> present (pde (mach s) 0) = true ->
  (forall pa, walk_byte (mach s) pa -> page_base pa <> screen_base) ->
  next_virtual (pmm s) = screen_base -> free_count (pmm s) = 0 ->
  MemMap.allocate 4096 s = Ok f s1 -> map_step s s1 -> 0 < f -> in_u32 f ->
  exists s', Paging.allocate_page 0 s = Ok screen_base s' /\
    forall a, span screen_base 4096 a ->
      translate (mach s') a = Some (page_base f + (a - screen_base)).
Proof.
  intros HP Hpd Hno Hnv Hfc Ha [(n & L & ->) _] Hf Hfu.
  unfold Paging.allocate_page. run_with Ha. rewrite (proj2 (Z.eqb_neq f 0)) by lia.
  unfold Paging.take_virtual, Paging.get_free_count, Paging.get_next_virtual,
    Paging.set_next_virtual. rewrite bind_assoc. run. simpl. rewrite Hfc. simpl.
  run. simpl. rewrite Hnv. set (s2 := set_pmm _ _).
  destruct (map_page_ok f screen_base (Paging.default_flag 0) s2 s2 nothing) as (s' & R & T & _);
    try done.
  { by apply (paged_mach s). }
  { by apply table_present. }
  { intros pa [Hw|[]] Hb. exfalso. by apply (Hno pa). }
  run_with R. exists s'. split; [done|]. intros a Hin.
  assert (in_u32 a) as Hau by (unfold span, screen_base in Hin; width_lia).
  rewrite (rt_translate _ _ _ _ T) by done. by apply remap_page.
Qed.

End guarantees.

(** ** Concrete instances: the state QEMU boots into *)

Section examples.
#[local] Existing Instance example_layout.
#[local] Existing Instance example_layout_ok.

Lemma qemu_frames : frames qemu_boot.
Proof.
  split; [apply qemu_stored|apply qemu_wf|]. rewrite qemu_live.
  unfold qemu_map. rewrite !Forall_cons, Forall_nil. unfold frame_region. simpl. lia.
Qed.
Lemma qemu_available pa : free_byte qemu_boot pa -> 0x100000 <= pa.
Proof.
  unfold free_byte. rewrite qemu_live. unfold qemu_map.
  rewrite !Exists_cons, Exists_nil. unfold available. rewrite !covers_true. simpl. lia.
Qed.

(** The state after the first calls of [kernel], for the other components. *)
Lemma qemu_pages :
  exists s, (Paging.init_virtual_allocator;; start_paging) qemu_boot = Ok tt s /\
    (forall x, in_u32 x -> translate (mach s) x = if x <? 2 ^ 22 then Some x else None) /\
    (forall pa, ~ tables pa -> phys8 (mach s) pa = 0) /\
    next_virtual (pmm s) = 0x30000 /\ page_step qemu_boot s /\
    entry (pmm s) = entry (pmm qemu_boot) /\ mmap (pmm s) = mmap (pmm qemu_boot) /\
    free_count (pmm s) = 0 /\ pages screen_base s video /\
    (forall d, 0 <= d < 1024 -> present (pde (mach s) d) = bool_decide (d = 0)) /\
    (forall pa, walk_byte (mach s) pa -> 0x20000 <= pa < 0x22000).
Proof.
  destruct (start_ok qemu_boot eq_refl qemu_frames qemu_available eq_refl eq_refl)
    as (s & R & Htr & Hfr & H1 & H2 & H3 & H4 & H5 & H6 & H7 & Hw). exists s.
  split; [exact R|]. split; [exact Htr|]. split; [intros pa Hpa; by rewrite Hfr|].
  split; [exact H1|]. split; [exact H2|]. split; [exact H3|]. split; [exact H4|].
  split; [exact H5|]. split; [exact H6|]. split; [exact H7|].
  intros pa Hpa. apply Hw in Hpa. unfold tables, span in Hpa. simpl in Hpa. lia.
Qed.

Lemma qemu_allocate s :
  frames s -> entry (pmm s) = entry (pmm qemu_boot) -> mmap (pmm s) = mmap (pmm qemu_boot) ->
  exists s1, MemMap.allocate 4096 s = Ok 0x100000 s1 /\ mach s1 = mach s /\ map_step s s1 /\
    MemoryMap 0x100000 0x1000 2 1 ∈ live s1.
Proof.
  intros HF He Hm.
  assert (match MemMap.allocate 4096 s with
          | Ok a s1 => a = 0x100000 /\ MemoryMap 0x100000 0x1000 2 1 ∈ live s1
          | _ => False end) as Hf.
  { destruct s as [m [e mm nv fv fc] h p c k d t]. simpl in He, Hm. subst e mm.
    vm_compute. split; [done|]. do 3 (apply list_elem_of_further). apply list_elem_of_here. }
  destruct (allocate_frame s HF) as [R|(f & s1 & R & M & _)]; rewrite R in Hf.
  - by destruct Hf as [? _].
  - destruct Hf as [-> Hin]. exists s1. split_and!; try done. by destruct M as [(n & L & ->) _].
Qed.

Lemma paging_starts_identity_witness :
  exists s', (Paging.init_virtual_allocator;; start_paging) qemu_boot = Ok tt s' /\
    translate (mach s') 0x123456 = Some 0x123456 /\ translate (mach s') 0x400000 = None.
Proof.
  destruct (paging_starts_identity qemu_boot eq_refl qemu_frames qemu_available eq_refl eq_refl)
    as (s & R & Htr & _).
  exists s. split; [exact R|]. split; rewrite Htr by (unfold in_u32; lia); reflexivity.
Defined.

Lemma low_tables pa : 0x100000 <= pa -> ~ tables pa.
Proof. unfold tables, span. simpl. lia. Qed.

(** A program page at 0x8048000, whose table is the first frame allocated. *)
Lemma qemu_table s :
  (forall x, in_u32 x -> translate (mach s) x = if x <? 2 ^ 22 then Some x else None) ->
  entry (pmm s) = entry (pmm qemu_boot) -> mmap (pmm s) = mmap (pmm qemu_boot) ->
  pages screen_base s video ->
  (forall d, 0 <= d < 1024 -> present (pde (mach s) d) = bool_decide (d = 0)) ->
  exists s1, table_for s (dir_index 0x8048000) s1 (span 0x100000 4096) /\ mach s1 = mach s.
Proof.
  intros Htr He Hm HP Hpd.
  destruct (qemu_allocate s (pa_frames _ _ _ HP) He Hm) as (s1 & Ra & Hm1 & Hms & _).
  exists s1. split; [|done]. apply table_allocated; [by apply Hpd|done|done|lia|done|lia| |].
  - intros k Hk. split; [unfold in_u32; lia|]. rewrite Htr by (unfold in_u32; lia).
    by rewrite (proj2 (Z.ltb_lt _ _)) by lia.
  - intros pa Hpa. destruct (allocate_frame s (pa_frames _ _ _ HP))
      as [R|(f & s2 & R & _ & _ & _ & _ & _ & Hfree & _)]; rewrite Ra in R; [done|].
    injection R as <- <-. apply (pa_used _ _ _ HP), Hfree. unfold span in Hpa. lia.
Qed.

Lemma map_page_maps_witness :
  exists s s' : kst, Paging.map_page 0x300000 0x8048000 7 s = Ok tt s' /\
    translate (mach s) 0x8048010 = None /\ translate (mach s') 0x8048010 = Some 0x300010.
Proof.
  destruct qemu_pages as (s & _ & Htr & _ & _ & _ & He & Hm & _ & HP & Hpd & Hw).
  destruct (qemu_table s Htr He Hm HP Hpd) as (s1 & HT & _).
  destruct (map_page_maps 0x300000 0x8048000 7 s s1 (span 0x100000 4096) (pa_paged _ _ _ HP))
    as (s' & R & _ & Hmap & _); [unfold in_u32; lia|unfold in_u32; lia|by split|exact HT| |].
  { intros pa Hpa Hb. exfalso.
    assert (0x20000 <= pa < 0x101000) as Hlow.
    { destruct Hpa as [Hpw|Hs]; [specialize (Hw pa Hpw)|unfold span in Hs]; lia. }
    rewrite page_base_eq in Hb by (unfold in_u32; lia).
    change (page_base 0x8048000) with 0x8048000 in Hb. lia. }
  exists s, s'. split; [exact R|]. split.
  - rewrite Htr by (unfold in_u32; lia). reflexivity.
  - rewrite Hmap by (unfold in_u32; lia). reflexivity.
Defined.

Lemma get_map_reads_translation_witness :
  exists s : kst, Paging.get_map 0xB8F9E s = Ok 0xB8000 s.
Proof.
  destruct qemu_pages as (s & _ & Htr & _ & _ & _ & _ & _ & _ & HP & _).
  exists s. rewrite (get_map_reads_translation 0xB8F9E s (pa_paged _ _ _ HP)) by (unfold in_u32; lia).
  rewrite Htr by (unfold in_u32; lia). reflexivity.
Defined.

Lemma unmap_page_unmaps_witness :
  exists s s' : kst, translate (mach s) 0xB8000 = Some 0xB8000 /\
    Paging.unmap_page 0xB8000 s = Ok tt s' /\ translate (mach s') 0xB8000 = None.
Proof.
  destruct qemu_pages as (s & _ & Htr & _ & _ & _ & _ & _ & _ & HP & _ & Hw).
  assert (translate (mach s) 0xB8000 = Some 0xB8000) as Ht
    by (rewrite Htr by (unfold in_u32; lia); reflexivity).
  destruct (unmap_page_unmaps 0xB8000 s (pa_paged _ _ _ HP)) as (s' & R & _ & Hun & _);
    [unfold in_u32; lia| |].
  { intros pa Hpw Hb. specialize (Hw pa Hpw). rewrite page_base_eq in Hb by (unfold in_u32; lia).
    change (page_base 0xB8000) with 0xB8000 in Hb. lia. }
  exists s, s'. split; [exact Ht|]. split; [exact R|].
  rewrite Hun by (unfold in_u32; lia). reflexivity.
Defined.

Lemma allocate_page_fresh_witness :
  exists (s s' : kst) p, Paging.allocate_page 0 s = Ok p s' /\ 0 < p /\
    disjoint_from (span p 4096) video.
Proof.
  destruct qemu_pages as (s & _ & _ & _ & Hnv & _ & He & Hm & _ & HP & _).
  destruct (qemu_allocate s (pa_frames _ _ _ HP) He Hm) as (s1 & Ra & _).
  destruct (allocate_page_fresh screen_base 0 s video)
    as [(_ & R & _)|(p & s' & R & Hp & _ & _ & _ & Hd & _)];
    [unfold screen_base; lia|exact HP|right; rewrite Hnv; unfold screen_base; lia|by left| |].
  - exfalso. rewrite Ra in R. discriminate.
  - exists s, s', p. split; [exact R|]. split; [exact Hp|exact Hd].
Defined.

Lemma allocate_pages_contig_fresh_witness :
  exists (s s' : kst) r, Paging.allocate_pages_contig 4 3 s = Ok r s' /\ (r = 0 \/ r = 0x30000).
Proof.
  destruct qemu_pages as (s & _ & _ & _ & Hnv & _ & _ & _ & _ & HP & _).
  destruct (allocate_pages_contig_fresh screen_base 4 3 s video)
    as (r & s' & R & _ & _ & Hcase);
    [unfold screen_base; lia|exact HP|lia|rewrite Hnv; unfold screen_base; lia|right; by split|].
  exists s, s', r. split; [exact R|]. rewrite Hnv in Hcase.
  destruct Hcase as [[-> _]|[-> _]]; [by left|by right].
Defined.

(** The first page the heap gets, given back. *)
Lemma qemu_page :
  exists s p r, pages screen_base s (fun a => video a \/ span p 4096 a) /\ 0 < p /\
    p mod 4096 = 0 /\ p + 4096 <= screen_base /\ p < next_virtual (pmm s) /\
    free_count (pmm s) < 1024 /\ translate (mach s) p = Some 0x100000 /\ r ∈ live s /\
    mm_base r = 0x100000 /\ mm_length r = 4096.
Proof.
  destruct qemu_pages as (s & _ & _ & _ & Hnv & _ & He & Hm & Hfc & HP & _).
  destruct (qemu_allocate s (pa_frames _ _ _ HP) He Hm) as (s1 & Ra & _ & _ & Hin).
  destruct (allocate_page_ok screen_base ltac:(unfold screen_base; lia) 0 s video HP)
    as [(_ & R & _)|(p & s' & R & HP' & (_ & Hfc' & _) & Hp & Hpa & Hpl & _ & _ & _ & _ & Hf)];
    [right; rewrite Hnv; unfold screen_base; lia|by left|rewrite Ra in R; discriminate|].
  destruct Hf as (f & s2 & R2 & Hl & Htr). rewrite Ra in R2. injection R2 as <- <-.
  assert (p < next_virtual (pmm s')) as Hn.
  { destruct (decide (p < next_virtual (pmm s'))) as [|Hge]; [done|]. exfalso.
    destruct (pa_spare _ _ _ HP' p p) as [Hno _]; [right; lia|unfold span; lia|].
    apply Hno. right. unfold span. lia. }
  exists s', p, (MemoryMap 0x100000 0x1000 2 1). split_and!; try done.
  - lia.
  - rewrite Htr by (unfold span; lia). f_equal. lia.
  - by rewrite Hl.
Qed.

Lemma free_page_releases_witness :
  exists (s s' : kst) p, Paging.free_page p s = Ok tt s' /\
    translate (mach s) p = Some 0x100000 /\ translate (mach s') p = None /\
    status (live s') 0x100ABC = Some 1.
Proof.
  destruct qemu_page as (s & p & r & HP & Hp & Hpa & Hpl & Hn & Hfc & Htr & Hr & Hb & Hl).
  destruct (free_page_releases screen_base p 0x100000 r s _ ltac:(unfold screen_base; lia) HP)
    as (s' & R & _ & _ & _ & Hst & Hnone & _); try assumption.
  { intros a Ha. by right. }
  { lia. }
  exists s, s', p. split; [exact R|]. split; [exact Htr|]. split; [exact Hnone|].
  rewrite Hst. reflexivity.
Defined.

(** The state above when 136 pages have been taken. *)
Lemma allocate_page_takes_the_screen_witness :
  exists s s' : kst, translate (mach s) 0xB8000 = Some 0xB8000 /\
    Paging.allocate_page 0 s = Ok 0xB8000 s' /\ translate (mach s') 0xB8000 = Some 0x100000.
Proof.
  destruct qemu_pages as (s0 & _ & Htr & _ & _ & _ & He & Hm & Hfc & HP & Hpd & Hw).
  set (s := set_pmm (fun p => PmmState (entry p) (mmap p) 0xB8000 (free_virtual p) (free_count p)) s0).
  destruct (frames_same s0 s eq_refl eq_refl) as [HF _].
  destruct (qemu_allocate s (HF (pa_frames _ _ _ HP)) He Hm) as (s1 & Ra & _ & M & _).
  destruct (allocate_page_takes_the_screen s 0x100000 s1) as (s' & R & Hs').
  - by apply (paged_mach s0), (pa_paged _ _ _ HP).
  - by apply Hpd.
  - intros pa Hpw. specialize (Hw pa Hpw). unfold screen_base.
    rewrite page_base_eq by (unfold in_u32; lia). lia.
  - reflexivity.
  - exact Hfc.
  - exact Ra.
  - exact M.
  - lia.
  - unfold in_u32; lia.
  - exists s, s'. split; [|split; [exact R|]].
    + change (mach s) with (mach s0). rewrite Htr by (unfold in_u32; lia). reflexivity.
    + change 0xB8000 with screen_base. rewrite Hs' by (unfold span, screen_base; lia). reflexivity.
Defined.

End examples.

