(* ===== verification/Heap.v ===== *)
(** The kernel heap of kernel/pmm.c: [kmalloc], [kfree] and [inspect].

    The blocks of a page form, with those of the other pages, one linked list
    in memory.  [Spec] says what the operations do to that list as a list of
    records; the theorems relate the two through [heap_ok], against the
    contract of the page allocator in PageSource.v. *)

From S2P Require Import Prelude Machine State Mmu Window PageSource Vga.

Module Heap.

(** [Block] is packed: size at 0, type at 4, next at 5. *)
Definition sizeof_Block : Z := 9.
Definition block_size (p : Z) : K Z := load32 p.
Definition block_type (p : Z) : K Z := load8 (p + 4).
Definition block_next (p : Z) : K Z := load32 (p + 5).
Definition set_block_size (p v : Z) : K unit := store32 p v.
Definition set_block_type (p v : Z) : K unit := store8 (p + 4) v.
Definition set_block_next (p v : Z) : K unit := store32 (p + 5) v.

Definition get_heap_head : K Z := gets (fun s => heap_head (heap s)).
Definition get_current_block : K Z := gets (fun s => current_block (heap s)).
Definition set_heap_head (p : Z) : K unit :=
  modify (set_heap (fun h => HeapState p (current_block h))).
Definition set_current_block (p : Z) : K unit :=
  modify (set_heap (fun h => HeapState (heap_head h) p)).

(** A block that fills a new page. *)
Definition init_block (p : Z) : K unit :=
  set_block_size p (4096 - sizeof_Block);;
  set_block_type p 1;;
  set_block_next p 0.

(** The loop that selects [best_block]. *)
Fixpoint find_best (n : nat) (size current_page best_block : Z) : K Z :=
  match n with
  | O => no_fuel
  | S n' =>
      if current_page =? 0 then mret best_block else
      t ← block_type current_page;
      sz ← block_size current_page;
      best ← (if (t =? 1) && (size <=? sz) then
                if best_block =? 0 then mret current_page
                else bs ← block_size best_block;
                     mret (if sz <? bs then current_page else best_block)
              else mret best_block);
      next ← block_next current_page;
      find_best n' size next best
  end.

(** The end of [kmalloc]: take [best_block], splitting it when there is room. *)
Definition take_block (best_block size : Z) : K Z :=
  bs ← block_size best_block;
  if u32 (size + sizeof_Block) <=? bs then
    let new_block := u32 (best_block + sizeof_Block + size) in
    next ← block_next best_block;
    set_block_next new_block next;;
    bs ← block_size best_block;
    set_block_size new_block (u32 (bs - size - sizeof_Block));;
    set_block_type new_block 1;;
    set_block_size best_block size;;
    set_block_type best_block 2;;
    set_block_next best_block new_block;;
    mret (u32 (best_block + sizeof_Block))
  else
    set_block_type best_block 2;;
    mret (u32 (best_block + sizeof_Block)).

Section source.
Context `{Fuel} `{PageSource}.

Definition default_flag (flag : Z) : Z := if flag =? 0 then 3 else flag.

(** The first page, when there is none. *)
Definition first_page (flag : Z) : K unit :=
  head ← get_heap_head;
  if head =? 0 then
    p ← allocate_page flag;
    set_heap_head p;;
    set_current_block p;;
    head ← get_heap_head;
    init_block head
  else mret tt.

(** Another page at the end of the list, when no block is large enough. *)
Definition more_pages (flag : Z) : K Z :=
  new_page ← allocate_page flag;
  init_block new_page;;
  c ← get_current_block;
  set_block_next c new_page;;
  set_current_block new_page;;
  mret new_page.

Definition kmalloc (size flag : Z) : K Z :=
  let flag := default_flag flag in
  if (4096 <? size) || (size =? 0) then mret 0 else
  first_page flag;;
  head ← get_heap_head;
  best_block ← find_best fuel size head 0;
  best_block ← (if best_block =? 0 then more_pages flag else mret best_block);
  take_block best_block size.

Fixpoint kfree_loop (n : nat) (addr current_page : Z) : K unit :=
  match n with
  | O => no_fuel
  | S n' =>
      if current_page =? 0 then mret tt else
      let user_addr := u32 (current_page + sizeof_Block) in
      if user_addr =? addr then set_block_type current_page 1
      else next ← block_next current_page; kfree_loop n' addr next
  end.
Definition kfree (addr : Z) : K unit :=
  head ← get_heap_head; kfree_loop fuel addr head.

Fixpoint inspect_loop (n : nat) (cur : Z) : K unit :=
  match n with
  | O => no_fuel
  | S n' =>
      if cur =? 0 then mret tt else
      Vga.print_string_at (NL ++ "Block: ")%string;;
      Vga.print_hex_at cur;;
      Vga.print_string_at " size="%string;;
      sz ← block_size cur; Vga.print_number_at sz;;
      Vga.print_string_at " type="%string;;
      t ← block_type cur; Vga.print_number_at t;;
      next ← block_next cur;
      inspect_loop n' next
  end.
Definition inspect : K unit := head ← get_heap_head; inspect_loop fuel head.

End source.
End Heap.

(** * Reference *)

Set Primitive Projections.
Record block := MkBlock { b_addr : Z; b_size : Z; b_used : bool }.
Unset Primitive Projections.
#[export] Instance block_eq_dec : EqDecision block.
Proof. solve_decision. Defined.

Module Spec.

Definition fits (size : Z) (b : block) : bool := negb (b_used b) && (size <=? b_size b).

(** The smallest free block that fits, the first among equals. *)
Definition better (size : Z) (best : option block) (b : block) : option block :=
  if fits size b then
    match best with
    | None => Some b
    | Some b0 => if b_size b <? b_size b0 then Some b else best
    end
  else best.
Definition best_fit (size : Z) (l : list block) : option block := foldl (better size) None l.

(** The block that starts at [a] is taken; what it does not need is a new block
    if a header fits in it. *)
Definition carve (size : Z) (b : block) : list block :=
  if size + 9 <=? b_size b then
    [MkBlock (b_addr b) size true;
     MkBlock (b_addr b + 9 + size) (b_size b - size - 9) false]
  else [MkBlock (b_addr b) (b_size b) true].
Fixpoint take_at (size a : Z) (l : list block) : list block :=
  match l with
  | [] => []
  | b :: l' => if b_addr b =? a then carve size b ++ l' else b :: take_at size a l'
  end.

(** The blocks up to the one at [c]: what is left of the list when the next
    pointer of that block is overwritten. *)
Fixpoint up_to (c : Z) (l : list block) : list block :=
  match l with
  | [] => []
  | b :: l' => if b_addr b =? c then [b] else b :: up_to c l'
  end.
Definition fresh (p : Z) : block := MkBlock p 4087 false.

(** [kfree]: the block whose payload starts at [addr]. *)
Fixpoint release (addr : Z) (l : list block) : list block :=
  match l with
  | [] => []
  | b :: l' =>
      if b_addr b + 9 =? addr then MkBlock (b_addr b) (b_size b) false :: l'
      else b :: release addr l'
  end.

End Spec.

(** * The list in memory *)

Section list.

Definition type_of (b : block) : Z := if b_used b then 2 else 1.

(** The header at a block, and the list from [a] to the pointer [z]. *)
Record header (s : kst) (b : block) (next : Z) : Prop := {
  hd_size : rd32 s (b_addr b) = b_size b;
  hd_type : rd8 s (b_addr b + 4) = type_of b;
  hd_next : rd32 s (b_addr b + 5) = next
}.
Fixpoint segment (s : kst) (a : Z) (l : list block) (z : Z) : Prop :=
  match l with
  | [] => a = z
  | b :: l' => a = b_addr b /\ exists next, header s b next /\ segment s next l' z
  end.

(** A block lies in the addresses in use. *)
Record block_ok (W : Z -> Prop) (b : block) : Prop := {
  bo_addr : 0 < b_addr b;
  bo_size : 0 <= b_size b;
  bo_end : b_addr b + 9 + b_size b < 2 ^ 32;
  bo_in : subset (span (b_addr b) (9 + b_size b)) W
}.

Definition apart (b c : block) : Prop :=
  b_addr b + 9 + b_size b <= b_addr c \/ b_addr c + 9 + b_size c <= b_addr b.
Fixpoint separate (l : list block) : Prop :=
  match l with
  | [] => True
  | b :: l' => Forall (apart b) l' /\ separate l'
  end.

Lemma apart_sym b c : apart b c -> apart c b.
Proof. unfold apart. lia. Qed.

Lemma separate_app l1 l2 :
  separate (l1 ++ l2) <->
  separate l1 /\ separate l2 /\ Forall (fun b => Forall (apart b) l2) l1.
Proof.
  induction l1 as [|b l1 IH]; simpl; [by rewrite Forall_nil; tauto|].
  rewrite IH, Forall_app, Forall_cons. tauto.
Qed.

Lemma separate_middle l1 b l2 :
  separate (l1 ++ b :: l2) <->
  separate l1 /\ separate l2 /\ Forall (fun c => Forall (apart c) l2) l1 /\
  Forall (apart b) l1 /\ Forall (apart b) l2.
Proof.
  rewrite separate_app. simpl.
  assert (Forall (fun c => Forall (apart c) (b :: l2)) l1 <->
    Forall (apart b) l1 /\ Forall (fun c => Forall (apart c) l2) l1) as ->; [|tauto].
  rewrite <- Forall_and. apply Forall_iff. intros c. rewrite Forall_cons.
  split; intros [? ?]; split; try done; by apply apart_sym.
Qed.

Lemma separate_pair l b c : separate l -> b ∈ l -> c ∈ l -> b = c \/ apart b c.
Proof.
  intros Hsep (l1 & l2 & ->)%list_elem_of_split Hc.
  apply separate_middle in Hsep as (_ & _ & _ & Ha1 & Ha2). rewrite Forall_forall in Ha1, Ha2.
  apply elem_of_app in Hc as [Hc|[->|Hc]%elem_of_cons]; [right|by left|right]; auto.
Qed.

Lemma segment_app s a l1 l2 z :
  segment s a (l1 ++ l2) z <-> exists m, segment s a l1 m /\ segment s m l2 z.
Proof.
  revert a. induction l1 as [|b l1 IH]; intros a; simpl.
  - split; [intros H; by exists a|by intros (m & -> & H)].
  - split.
    + intros (-> & next & Hh & (m & H1 & H2)%IH). exists m. split; [|done]. by eauto.
    + intros (m & (-> & next & Hh & H1) & H2). split; [done|]. exists next. split; [done|].
      apply IH. by exists m.
Qed.

(** Headers that keep their bytes keep the list. *)
Definition same_header (s s' : kst) (b : block) : Prop :=
  forall n x, b_addr b <= x -> x + Z.of_nat n <= b_addr b + 9 -> rd n s' x = rd n s x.

Lemma header_same s s' b next : same_header s s' b -> header s b next -> header s' b next.
Proof.
  intros H [H1 H2 H3]. split.
  - unfold rd32. by rewrite H by lia.
  - pose proof (H 1%nat (b_addr b + 4)) as Ht. simpl in Ht.
    specialize (Ht ltac:(lia) ltac:(lia)). lia.
  - unfold rd32. by rewrite H by lia.
Qed.

Lemma segment_same s s' a l z :
  Forall (same_header s s') l -> segment s a l z -> segment s' a l z.
Proof.
  revert a. induction l as [|b l IH]; intros a; simpl; [done|].
  intros [Hb Hl]%Forall_cons (-> & next & Hh & Hs). split; [done|].
  exists next. split; [by apply (header_same s)|by apply IH].
Qed.

(** The list after stores outside the headers. *)
Lemma same_header_stores A s s' W b :
  window s W -> stores A s s' -> subset A W -> block_ok W b ->
  disjoint_from (span (b_addr b) 9) A -> same_header s s' b.
Proof.
  intros HW HS HA [] Hd n x Hx Hn. apply (stores_rd n A s s' W x HS HW HA).
  - intros y Hy. apply bo_in0. unfold span in *. lia.
  - intros y Hy HAy. apply (Hd y); [unfold span in *; lia|done].
Qed.

End list.

(** * The operations on the list *)

Section operations.
Import Heap.
Context (s : kst) (W : Z -> Prop) (HW : window s W).

Lemma field_in b n k :
  block_ok W b -> 0 <= k -> k + n <= 9 -> subset (span (b_addr b + k) n) W.
Proof. intros [] Hk Hn x Hx. apply bo_in0. unfold span in *. lia. Qed.

Lemma block_size_ok b next :
  block_ok W b -> header s b next -> block_size (b_addr b) s = Ok (b_size b) s.
Proof using HW.
  intros Hb [Hs _ _]. unfold block_size, load32. rewrite <- (Z.add_0_r (b_addr b)).
  rewrite (load_ok s W HW 4) by (by apply field_in). rewrite Z.add_0_r. by unfold rd32 in Hs; rewrite Hs.
Qed.
Lemma block_type_ok b next :
  block_ok W b -> header s b next -> block_type (b_addr b) s = Ok (type_of b) s.
Proof using HW.
  intros Hb [_ Ht _]. unfold block_type. rewrite (load8_ok s W HW).
  - by rewrite Ht.
  - apply (field_in b 1 4 Hb); [lia|lia|unfold span; lia].
Qed.
Lemma block_next_ok b next :
  block_ok W b -> header s b next -> block_next (b_addr b) s = Ok next s.
Proof using HW.
  intros Hb [_ _ Hn]. unfold block_next, load32.
  rewrite (load_ok s W HW 4) by (by apply field_in). by unfold rd32 in Hn; rewrite Hn.
Qed.

Definition addr_of (o : option block) : Z := match o with Some b => b_addr b | None => 0 end.
Definition readable (o : option block) : Prop :=
  match o with Some b => block_ok W b /\ exists next, header s b next | None => True end.

Lemma find_best_ok (n : nat) size a l best :
  segment s a l 0 -> Forall (block_ok W) l -> (length l < n)%nat -> readable best ->
  find_best n size a (addr_of best) s = Ok (addr_of (foldl (Spec.better size) best l)) s.
Proof using HW.
  revert a l best. induction n as [|n IH]; intros a l best Hseg Hok Hn Hbest; [lia|].
  destruct l as [|b l]; simpl in Hseg |- *.
  { by subst a. }
  destruct Hseg as (-> & next & Hh & Hseg). apply Forall_cons in Hok as [Hb Hok].
  rewrite (proj2 (Z.eqb_neq _ 0)) by (destruct Hb; lia).
  run_with (block_type_ok b next Hb Hh). run_with (block_size_ok b next Hb Hh).
  assert ((if (type_of b =? 1) && (size <=? b_size b) then
             if addr_of best =? 0 then mret (b_addr b)
             else bs ← block_size (addr_of best);
                  mret (if b_size b <? bs then b_addr b else addr_of best)
           else mret (addr_of best)) s = Ok (addr_of (Spec.better size best b)) s) as Hstep.
  { unfold Spec.better, Spec.fits, type_of. destruct (b_used b); simpl; [done|].
    destruct (size <=? b_size b); simpl; [|done].
    destruct best as [b0|]; simpl; [|done].
    destruct Hbest as [Hb0 [next0 Hh0]].
    rewrite (proj2 (Z.eqb_neq _ 0)) by (destruct Hb0; lia).
    run_with (block_size_ok b0 next0 Hb0 Hh0). by destruct (b_size b <? b_size b0). }
  run_with Hstep. run_with (block_next_ok b next Hb Hh).
  apply IH; [done|done|simpl in Hn; lia|].
  unfold Spec.better. destruct (Spec.fits size b); [|done].
  assert (readable (Some b)) by (simpl; eauto).
  destruct best as [b0|]; [|done]. by destruct (b_size b <? b_size b0).
Qed.

End operations.

(** * Taking a block *)

Section take.
Import Heap.

Lemma carve_blocks W size b :
  block_ok W b -> 0 <= size ->
  Forall (block_ok W) (Spec.carve size b) /\ separate (Spec.carve size b) /\
  Forall (fun c => b_addr b <= b_addr c /\
    b_addr c + 9 + b_size c <= b_addr b + 9 + b_size b) (Spec.carve size b).
Proof.
  intros [] Hs. unfold Spec.carve. destruct (Z.leb_spec (size + 9) (b_size b)).
  - rewrite !Forall_cons, Forall_nil. simpl. rewrite Forall_cons, Forall_nil.
    unfold apart. simpl. split_and!; try done; try lia;
      (split; simpl; [lia|lia|lia|intros x Hx; apply bo_in0; unfold span in *; lia]).
  - rewrite !Forall_cons, Forall_nil. simpl. rewrite Forall_nil. split_and!; try done; lia.
Qed.

(** Replacing a block by blocks inside its extent. *)
Lemma replace_blocks W l1 b l2 l :
  Forall (block_ok W) (l1 ++ b :: l2) -> separate (l1 ++ b :: l2) ->
  Forall (block_ok W) l -> separate l ->
  Forall (fun c => b_addr b <= b_addr c /\
    b_addr c + 9 + b_size c <= b_addr b + 9 + b_size b) l ->
  Forall (block_ok W) (l1 ++ l ++ l2) /\ separate (l1 ++ l ++ l2).
Proof.
  intros Hok Hsep Hl Hsl Hin.
  apply Forall_app in Hok as [H1 H2]. apply Forall_cons in H2 as [_ H2].
  apply separate_middle in Hsep as (S1 & S2 & S12 & Sb1 & Sb2).
  split; [by rewrite !Forall_app|].
  assert (forall l', Forall (apart b) l' -> Forall (fun c => Forall (apart c) l') l) as Hap.
  { intros l' Hl'. rewrite Forall_forall in Hin |- *. intros c Hc.
    eapply Forall_impl; [exact Hl'|]. simpl. intros d. specialize (Hin c Hc).
    unfold apart. lia. }
  rewrite !separate_app. split_and!; try done.
  - by apply Hap.
  - specialize (Hap l1 Sb1). rewrite Forall_forall in S12, Hap |- *. intros c Hc.
    apply Forall_app. split; [|by apply S12]. rewrite Forall_forall. intros d Hd.
    specialize (Hap d Hd). rewrite Forall_forall in Hap. by apply apart_sym, Hap.
Qed.

(** What [take_block] writes. *)
Definition headers (b : block) (size : Z) : Z -> Prop := fun x =>
  span (b_addr b) 9 x \/ (size + 9 <= b_size b /\ span (b_addr b + 9 + size) 9 x).

Section writes.
Context (s : kst) (W : Z -> Prop) (b : block) (next size : Z).
Context (HW : window s W) (Hb : block_ok W b) (Hh : header s b next).
Context (Hnext : in_u32 next) (Hsize : 0 < size <= 4096).

Lemma headers_in : subset (headers b size) W.
Proof using Hb Hsize.
  destruct Hb as [_ Hs0 _ Hin]. intros x [Hx|[? Hx]]; apply Hin; unfold span in *; lia.
Qed.

(** No room for a second block: only the type changes. *)
Lemma take_whole :
  b_size b < size + 9 ->
  exists s', take_block (b_addr b) size s = Ok (b_addr b + 9) s' /\
    stores (headers b size) s s' /\ segment s' (b_addr b) (Spec.carve size b) next.
Proof using All.
  intros Hfull. pose proof Hb as [Ha0 Hs0 He Hin].
  pose proof (stores_none (headers b size) s W HW headers_in) as S0.
  unfold take_block, Spec.carve. run_with (block_size_ok s W HW b next Hb Hh).
  unfold sizeof_Block. rewrite (u32_small (size + 9)) by width_lia.
  rewrite (proj2 (Z.leb_gt _ _)) by done.
  destruct (put8_ok s s W (headers b size) (b_addr b + 4) 2 HW headers_in S0)
    as (s1 & R1 & S1 & V1 & F1); [left; unfold span; lia|].
  exists s1. unfold set_block_type. run_with R1. rewrite u32_small by width_lia.
  split; [done|]. split; [done|]. simpl. split; [done|]. exists next. split; [|done].
  destruct Hh as [H1 H2 H3]. split; simpl; [| by rewrite V1|];
    unfold rd32 in *; rewrite F1; try done; try lia; intros x Hx; apply Hin; unfold span in *; lia.
Qed.

Lemma fields_in k n :
  size + 9 <= b_size b -> 0 <= k -> k + n <= 9 ->
  subset (span (b_addr b + k) n) (headers b size) /\
  subset (span (b_addr b + 9 + size + k) n) (headers b size).
Proof using All.
  intros Hroom Hk Hn. split; intros x Hx; unfold headers, span in *; [left|right; split]; lia.
Qed.

(** The remainder becomes a block of its own. *)
Lemma take_split :
  size + 9 <= b_size b ->
  exists s', take_block (b_addr b) size s = Ok (b_addr b + 9) s' /\
    stores (headers b size) s s' /\ segment s' (b_addr b) (Spec.carve size b) next.
Proof using All.
  intros Hroom. pose proof Hb as [Ha0 Hs0 He Hin]. pose proof headers_in as HD.
  pose proof (stores_none (headers b size) s W HW HD) as S0.
  unfold take_block, Spec.carve. run_with (block_size_ok s W HW b next Hb Hh).
  unfold sizeof_Block. rewrite (u32_small (size + 9)) by width_lia.
  rewrite (proj2 (Z.leb_le _ _)) by done.
  run_with (block_next_ok s W HW b next Hb Hh).
  rewrite (u32_small (b_addr b + 9 + size)) by width_lia. set (nb := b_addr b + 9 + size).
  pose proof (fun k n => fields_in k n Hroom) as Hf. fold nb in Hf.
  assert (forall k n, 0 <= k -> k + n <= 9 -> subset (span (b_addr b + k) n) W /\
    subset (span (nb + k) n) W) as Hf'.
  { intros k n Hk Hn. destruct (Hf k n Hk Hn). split; intros x Hx; apply HD; auto. }
  unfold set_block_next, set_block_size, set_block_type, store32.
  destruct (put_ok s s W _ 4 (nb + 5) next HW HD S0 (proj2 (Hf 5 4 ltac:(lia) ltac:(lia))))
    as (s1 & R1 & S1 & V1 & F1). run_with R1.
  assert (header s1 b next) as Hh1.
  { apply (header_same s); [|done]. intros n x Hx Hn. apply F1; [|unfold nb; lia].
    intros y Hy. apply Hin. unfold span in *. lia. }
  run_with (block_size_ok s1 W (stores_window _ _ _ _ S1 HW) b next Hb Hh1).
  destruct (put_ok s1 s W _ 4 nb (u32 (b_size b - size - 9)) HW HD S1) as (s2 & R2 & S2 & V2 & F2).
  { rewrite <- (Z.add_0_r nb). apply Hf; lia. }
  run_with R2.
  destruct (put8_ok s2 s W _ (nb + 4) 1 HW HD S2) as (s3 & R3 & S3 & V3 & F3).
  { apply (proj2 (Hf 4 1 ltac:(lia) ltac:(lia))). unfold span. lia. }
  run_with R3.
  destruct (put_ok s3 s W _ 4 (b_addr b) size HW HD S3) as (s4 & R4 & S4 & V4 & F4).
  { rewrite <- (Z.add_0_r (b_addr b)). apply Hf; lia. }
  run_with R4.
  destruct (put8_ok s4 s W _ (b_addr b + 4) 2 HW HD S4) as (s5 & R5 & S5 & V5 & F5).
  { apply (proj1 (Hf 4 1 ltac:(lia) ltac:(lia))). unfold span. lia. }
  run_with R5.
  destruct (put_ok s5 s W _ 4 (b_addr b + 5) nb HW HD S5 (proj1 (Hf 5 4 ltac:(lia) ltac:(lia))))
    as (s6 & R6 & S6 & V6 & F6). run_with R6.
  exists s6. rewrite u32_small by width_lia. split; [done|]. split; [done|].
  assert (forall n k, 0 <= k -> k + Z.of_nat n <= 9 ->
    rd n s6 (nb + k) = rd n s3 (nb + k)) as Hnb.
  { intros n k Hk Hn. pose proof (proj2 (Hf' k (Z.of_nat n) Hk Hn)) as Hin'.
    rewrite F6, F5, F4; (done || (unfold nb; lia)). }
  simpl. split; [done|]. exists nb. split; [split; simpl|].
  - unfold rd32. rewrite F6, F5, V4; try lia; try (rewrite <- (Z.add_0_r (b_addr b)); apply Hf'; lia).
  - rewrite <- rd_1, F6, rd_1, V5; [done|apply Hf'; lia|lia].
  - unfold rd32. rewrite V6. apply Z.mod_small. unfold nb. lia.
  - split; [done|]. exists next. split; [split; simpl|done].
    + unfold rd32. rewrite <- (Z.add_0_r nb), Hnb, F3 by (try lia; apply Hf'; lia).
      rewrite Z.add_0_r, V2. unfold u32. change (2 ^ (8 * Z.of_nat 4)) with (2 ^ 32). lia.
    + by rewrite <- rd_1, Hnb, rd_1, V3 by lia.
    + unfold rd32. rewrite Hnb, F3, F2 by (try lia; apply Hf'; lia).
      rewrite V1. by apply Z.mod_small.
Qed.

Lemma take_block_writes :
  exists s', take_block (b_addr b) size s = Ok (b_addr b + 9) s' /\
    stores (headers b size) s s' /\ segment s' (b_addr b) (Spec.carve size b) next.
Proof using All.
  destruct (decide (b_size b < size + 9)); [by apply take_whole|apply take_split; lia].
Qed.

End writes.
End take.

(** * The heap invariant *)

Section heap.
Import Heap.
Context `{Fuel} `{PS : PageSource} `{PSOk : !PageSourceOk PS}.

(** [l] is the list the heap holds, inside the addresses [W] in use. *)
Record heap_list (s : kst) (W : Z -> Prop) (l : list block) : Prop := {
  hl_inv : page_inv s W;
  hl_segment : segment s (heap_head (heap s)) l 0;
  hl_blocks : Forall (block_ok W) l;
  hl_separate : separate l;
  hl_current : l <> [] -> exists b, b ∈ l /\ b_addr b = current_block (heap s)
}.

(** The bytes handed out: the payloads of the blocks in use. *)
Definition payload (l : list block) (x : Z) : Prop :=
  exists b, b ∈ l /\ b_used b = true /\ span (b_addr b + 9) (b_size b) x.

Lemma heap_window s W l : heap_list s W l -> window s W.
Proof using PSOk. intros HL. apply page_inv_window, HL. Qed.

Lemma head_nonzero s W l : heap_list s W l -> l <> [] -> heap_head (heap s) <> 0.
Proof.
  intros HL. pose proof (hl_segment _ _ _ HL) as Hseg. pose proof (hl_blocks _ _ _ HL) as Hok.
  destruct l as [|b l]; [done|]. intros _. destruct Hseg as [-> _].
  apply Forall_cons in Hok as [[] _]. lia.
Qed.

Lemma best_fit_in size l b :
  Spec.best_fit size l = Some b -> b ∈ l /\ b_used b = false /\ size <= b_size b.
Proof.
  unfold Spec.best_fit. assert (forall best,
    foldl (Spec.better size) best l = Some b ->
    (b ∈ l /\ b_used b = false /\ size <= b_size b) \/ best = Some b) as Hgen.
  2:{ intros Hl. destruct (Hgen None Hl); [done|done]. }
  induction l as [|c l IH]; intros best; simpl; [by right|].
  intros Hl. destruct (IH _ Hl) as [(? & ?)|Hb].
  { left. split; [apply elem_of_cons; by right|done]. }
  unfold Spec.better in Hb. destruct (Spec.fits size c) eqn:Hf; [|by right].
  unfold Spec.fits in Hf. apply andb_true_iff in Hf as [Hf1%negb_true_iff Hf2%Z.leb_le].
  assert (c ∈ c :: l) by (apply elem_of_cons; by left).
  destruct best as [b0|]; [|left; by injection Hb as <-].
  case_match; [left; by injection Hb as <-|by right].
Qed.

(** Nothing in the list is smaller. *)
Lemma best_block_least size l b c :
  Spec.best_fit size l = Some b -> c ∈ l -> Spec.fits size c = true -> b_size b <= b_size c.
Proof.
  unfold Spec.best_fit. assert (forall best,
    foldl (Spec.better size) best l = Some b ->
    (forall b0, best = Some b0 -> b_size b <= b_size b0) /\
    (c ∈ l -> Spec.fits size c = true -> b_size b <= b_size c)) as Hgen.
  2:{ intros Hl. by apply (Hgen None Hl). }
  induction l as [|d l IH]; intros best; simpl.
  { intros ->. split; [intros b0 [= ->]; lia|by intros ?%elem_of_nil]. }
  intros Hl. destruct (IH _ Hl) as [H1 H2]. unfold Spec.better in H1. split.
  - intros b0 ->. destruct (Spec.fits size d); [|by apply H1].
    destruct (Z.ltb_spec (b_size d) (b_size b0)); [specialize (H1 d eq_refl); lia|by apply H1].
  - intros [->|Hc]%elem_of_cons Hf; [|by apply H2]. rewrite Hf in H1.
    destruct best as [b0|]; [|by apply H1].
    destruct (Z.ltb_spec (b_size d) (b_size b0)); [by apply H1|]. specialize (H1 b0 eq_refl). lia.
Qed.

Lemma take_at_middle size l1 b l2 :
  separate (l1 ++ b :: l2) -> Forall (fun c => 0 <= b_size c) (l1 ++ b :: l2) ->
  Spec.take_at size (b_addr b) (l1 ++ b :: l2) = l1 ++ Spec.carve size b ++ l2.
Proof.
  induction l1 as [|c l1 IH]; simpl.
  { intros _ _. by rewrite Z.eqb_refl. }
  intros [Hap Hsep] [Hc Hl]%Forall_cons. pose proof Hl as Hb.
  rewrite Forall_app, Forall_cons in Hap, Hb.
  destruct Hap as (_ & Hap & _), Hb as (_ & Hb & _). unfold apart in Hap.
  rewrite (proj2 (Z.eqb_neq _ _)) by lia. f_equal. by apply IH.
Qed.

(** ** A block of the list is taken *)

Lemma headers_apart b c size W :
  block_ok W b -> block_ok W c -> 0 <= size -> apart b c ->
  disjoint_from (span (b_addr c) 9) (headers b size).
Proof.
  intros [] [] Hs Hap x Hx HD. unfold apart, headers, span in *. lia.
Qed.

Lemma take_in_list s W l size b :
  heap_list s W l -> b ∈ l -> b_used b = false -> 0 < size <= 4096 ->
  exists s', take_block (b_addr b) size s = Ok (b_addr b + 9) s' /\
    heap_list s' W (Spec.take_at size (b_addr b) l) /\ stores (headers b size) s s'.
Proof using PSOk.
  intros HL (l1 & l2 & ->)%list_elem_of_split Hfree Hsize.
  pose proof (heap_window _ _ _ HL) as HW.
  destruct HL as [Hinv Hseg Hok Hsep Hcur].
  assert (block_ok W b) as Hb by (by apply Forall_app in Hok as [_ [? _]%Forall_cons]).
  pose proof Hseg as (m & Hseg1 & Hm & next & Hh & Hseg2)%segment_app.
  simpl in Hm. subst m.
  assert (in_u32 next) as Hnext by (destruct Hh as [_ _ <-]; apply rd32_range).
  destruct (take_block_writes s W b next size HW Hb Hh Hnext Hsize) as (s' & R & S & Hc).
  assert (subset (headers b size) W) as HD.
  { by apply headers_in. }
  pose proof (proj1 (separate_middle _ _ _) Hsep) as (_ & _ & _ & Ha1 & Ha2).
  assert (forall l', Forall (block_ok W) l' -> Forall (apart b) l' ->
    Forall (same_header s s') l') as Hkeep.
  { intros l' Hl' Hap. rewrite Forall_forall in Hl', Hap |- *. intros c Hcin.
    apply (same_header_stores _ s s' W c HW S HD); [by apply Hl'|].
    apply (headers_apart b c size W Hb); [by apply Hl'|lia|by apply Hap]. }
  pose proof Hok as [Hok1 Hok2]%Forall_app. apply Forall_cons in Hok2 as [_ Hok2].
  destruct (carve_blocks W size b Hb) as (C1 & C2 & C3); [lia|].
  destruct (replace_blocks W l1 b l2 _ Hok Hsep C1 C2 C3) as [N1 N2].
  exists s'. split; [done|]. split; [|done].
  rewrite take_at_middle; [|done|eapply Forall_impl; [exact Hok|by intros c []]].
  destruct (st_machine _ _ _ S) as [mm Hmm].
  assert (heap s' = heap s) as Eh by (by subst).
  split; rewrite ?Eh; try done.
  - by apply (page_inv_stores (headers b size) s).
  - apply segment_app. exists (b_addr b). split; [apply (segment_same s); [by apply Hkeep|done]|].
    apply segment_app. exists next. split; [done|]. apply (segment_same s); [by apply Hkeep|done].
  - intros _. destruct Hcur as (c & Hcin & Ec); [by destruct l1|].
    apply elem_of_app in Hcin as [Hcin|[->|Hcin]%elem_of_cons].
    + exists c. split; [apply elem_of_app; by left|done].
    + exists (hd b (Spec.carve size b)). rewrite <- Ec. unfold Spec.carve.
      case_match; simpl; (split; [|done]); apply elem_of_app; right; by left.
    + exists c. split; [|done]. apply elem_of_app. right. apply elem_of_app. by right.
Qed.

(** The payloads in use are kept. *)
Lemma take_keeps_payload s s' W l size b :
  heap_list s W l -> b ∈ l -> b_used b = false -> 0 <= size ->
  stores (headers b size) s s' -> forall x, payload l x -> rd8 s' x = rd8 s x.
Proof using PSOk.
  intros HL Hb Hfree Hsize S x (c & Hc & Hused & Hx).
  pose proof (heap_window _ _ _ HL) as HW. destruct HL as [_ _ Hok Hsep _].
  pose proof Hok as Hok'. rewrite Forall_forall in Hok'.
  destruct (Hok' b Hb), (Hok' c Hc).
  assert (apart b c) as Hap
    by (destruct (separate_pair _ _ _ Hsep Hb Hc) as [->|]; [congruence|done]).
  apply (stores_rd8 _ _ _ W x S HW).
  - intros y [Hy|[? Hy]]; apply bo_in0; unfold span in *; lia.
  - apply bo_in1. unfold span in *. lia.
  - unfold headers, span, apart in *. lia.
Qed.

(** ** A page joins the heap *)

Lemma init_block_ok s W p :
  window s W -> subset (span p 9) W ->
  exists s', init_block p s = Ok tt s' /\ stores (span p 9) s s' /\ header s' (Spec.fresh p) 0.
Proof.
  intros HW Hp. pose proof (stores_none (span p 9) s W HW Hp) as S0.
  assert (forall k n, 0 <= k -> k + n <= 9 -> subset (span (p + k) n) (span p 9)) as Hf
    by (intros k n Hk Hn x; unfold span; lia).
  unfold init_block, set_block_size, set_block_type, set_block_next, store32, sizeof_Block.
  destruct (put_ok s s W _ 4 p (4096 - 9) HW Hp S0) as (s1 & R1 & S1 & V1 & F1).
  { rewrite <- (Z.add_0_r p) at 1. apply Hf; lia. }
  run_with R1.
  destruct (put8_ok s1 s W _ (p + 4) 1 HW Hp S1) as (s2 & R2 & S2 & V2 & F2).
  { unfold span. lia. }
  run_with R2.
  destruct (put_ok s2 s W _ 4 (p + 5) 0 HW Hp S2) as (s3 & R3 & S3 & V3 & F3).
  { apply Hf; lia. }
  exists s3. split; [done|]. split; [done|]. split; simpl.
  - unfold rd32. rewrite F3, F2, V1; try lia; try done; intros x Hx; apply Hp; unfold span in *; lia.
  - rewrite <- rd_1, F3, rd_1, V2; [done| |lia]. intros x Hx; apply Hp; unfold span in *; lia.
  - by unfold rd32.
Qed.

Lemma up_to_middle l1 b l2 :
  separate (l1 ++ b :: l2) -> Forall (fun c => 0 <= b_size c) (l1 ++ b :: l2) ->
  Spec.up_to (b_addr b) (l1 ++ b :: l2) = l1 ++ [b].
Proof.
  induction l1 as [|c l1 IH]; simpl.
  { intros _ _. by rewrite Z.eqb_refl. }
  intros [Hap Hsep] [Hc Hl]%Forall_cons. pose proof Hl as Hb.
  rewrite Forall_app, Forall_cons in Hap, Hb.
  destruct Hap as (_ & Hap & _), Hb as (_ & Hb & _). unfold apart in Hap.
  rewrite (proj2 (Z.eqb_neq _ _)) by lia. f_equal. by apply IH.
Qed.

(** A page that [allocate_page] gave: outside the blocks, which it kept. *)
Record got_page (s : kst) (W : Z -> Prop) (p : Z) (s1 : kst) : Prop := {
  gp_pos : 0 < p;
  gp_end : p + 4096 < 2 ^ 32;
  gp_inv : page_inv s1 (with_page W p);
  gp_globals : same_globals s s1;
  gp_fresh : disjoint_from (span p 4096) W;
  gp_keep : forall a, W a -> rd8 s1 a = rd8 s a
}.
Lemma got_page_ok s W flag p s1 :
  page_inv s W -> page_left s -> flag = 0 \/ flags_ok flag ->
  allocate_page flag s = Ok p s1 -> p <> 0 -> got_page s W p s1.
Proof using PSOk.
  intros Hi Hl Hf Ha Hp.
  destruct (allocate_page_spec flag s W Hi Hl Hf)
    as [R|(q & s' & R & ? & ? & ? & ? & ? & ?)]; rewrite R in Ha; injection Ha as <- <-; [done|].
  by split.
Qed.

Lemma fresh_ok W p : 0 < p -> p + 4096 < 2 ^ 32 -> block_ok (with_page W p) (Spec.fresh p).
Proof.
  intros Hp He. split; simpl; [lia|lia|lia|]. intros x Hx. right. unfold span in *. lia.
Qed.

Lemma fresh_outside W p c :
  block_ok W c -> disjoint_from (span p 4096) W ->
  b_addr c + 9 + b_size c <= p \/ p + 4096 <= b_addr c.
Proof.
  intros [_ ? _ Hin] Hd. destruct (decide (b_addr c + 9 + b_size c <= p)); [by left|].
  destruct (decide (p + 4096 <= b_addr c)); [by right|exfalso].
  apply (Hd (Z.max p (b_addr c))); [|apply Hin]; unfold span; lia.
Qed.

Lemma block_ok_weaken W W' b : subset W W' -> block_ok W b -> block_ok W' b.
Proof. intros HW []. split; try done. intros x Hx. by apply HW, bo_in0. Qed.

(** Before the first allocation the list is empty. *)
Lemma first_page_ok s W flag p s1 :
  heap_list s W [] -> allocate_page flag s = Ok p s1 -> got_page s W p s1 ->
  exists s', first_page flag s = Ok tt s' /\ heap_list s' (with_page W p) [Spec.fresh p] /\
    (exists m, s' = set_heap (fun _ => HeapState p p) (set_mach (fun _ => m) s1)) /\
    (forall x, W x -> rd8 s' x = rd8 s x) /\ touches (span p 9) s1 s'.
Proof using PSOk.
  intros HL Ha [Hp He Hi HG Hd Hk]. pose proof (hl_segment _ _ _ HL) as Hhead. simpl in Hhead.
  unfold first_page, get_heap_head, set_heap_head, set_current_block. run.
  rewrite Hhead. simpl. run. run_with Ha. run. simpl.
  set (s2 := set_heap _ (set_heap _ s1)).
  assert (page_inv s2 (with_page W p)) as Hi2 by (by apply (page_inv_globals s1)).
  pose proof (page_inv_window _ _ Hi2) as HW2.
  assert (subset (span p 9) (with_page W p)) as Hsub by (intros x Hx; right; unfold span in *; lia).
  destruct (init_block_ok s2 _ p HW2 Hsub) as (s3 & R3 & S3 & Hh).
  destruct (st_machine _ _ _ S3) as [m Hm].
  exists s3. split; [done|]. split; [|split; [by exists m; subst|]].
  - assert (heap s3 = HeapState p p) as Eh by (by subst).
    split; rewrite ?Eh; simpl.
    + by apply (page_inv_stores (span p 9) s2).
    + split; [done|]. by exists 0.
    + apply Forall_singleton. by apply fresh_ok.
    + done.
    + intros _. exists (Spec.fresh p). split; [apply elem_of_cons; by left|done].
  - split.
    + intros x Hx. rewrite (stores_rd8 _ _ _ _ x S3 HW2 Hsub); [by apply Hk|by left|].
      intros Hin. apply (Hd x); [unfold span in *; lia|done].
    + apply (touches_mach _ _ s2); [done|].
      by apply (stores_touches _ _ _ _ S3); [intros x|exact (st_u32 _ _ _ S3)].
Qed.

(** Later pages are linked behind [current_block]: what followed it is no
    longer in the list. *)
(** The stores: the header of the new block and the link of the last page [c]. *)
Lemma link_page_ok s W l1 c l2 flag p s1 :
  heap_list s W (l1 ++ c :: l2) -> b_addr c = current_block (heap s) ->
  allocate_page flag s = Ok p s1 -> got_page s W p s1 ->
  exists s', more_pages flag s = Ok p s' /\ heap s' = HeapState (heap_head (heap s)) p /\
    page_inv s' (with_page W p) /\ rd32 s' (b_addr c + 5) = p /\ header s' (Spec.fresh p) 0 /\
    forall n x, subset (span x (Z.of_nat n)) W ->
      x + Z.of_nat n <= b_addr c + 5 \/ b_addr c + 9 <= x -> rd n s' x = rd n s x.
Proof using PSOk.
  intros HL Ec Ha [Hp He Hi HG Hd Hk]. pose proof (page_inv_window _ _ Hi) as HW1.
  pose proof (hl_blocks _ _ _ HL) as Hok. rewrite Forall_app, Forall_cons in Hok. destruct Hok as (_ & Oc & _).
  assert (subset (span p 9) (with_page W p)) as Hsub by (intros x Hx; right; unfold span in *; lia).
  destruct (init_block_ok s1 _ p HW1 Hsub) as (s2 & R2 & S2 & Hh2).
  pose proof (stores_window _ _ _ _ S2 HW1) as HW2.
  destruct HG as (Eh1 & _). destruct (st_machine _ _ _ S2) as [m2 Hm2].
  assert (heap s2 = heap s) as Eh2 by (rewrite <- Eh1; by subst).
  assert (subset (span (b_addr c + 5) (Z.of_nat 4)) (with_page W p)) as Hc5
    by (intros x Hx; left; by apply (field_in W c 4 5 Oc)).
  destruct (store_frame s2 _ 4 (b_addr c + 5) p HW2 Hc5) as (s3 & R3 & S3 & V3 & F3).
  destruct (st_machine _ _ _ S3) as [m3 Hm3].
  set (s4 := set_heap (fun h => HeapState (heap_head h) p) s3).
  exists s4. split; [|split; [|split; [|split; [|split]]]].
  - unfold more_pages. run_with Ha. run_with R2. unfold get_current_block. run.
    rewrite Eh2, <- Ec. unfold set_block_next, store32. by run_with R3.
  - change (heap s4) with (HeapState (heap_head (heap s3)) p). rewrite <- Eh2. by subst.
  - apply (page_inv_globals s3); [done|done|].
    apply (page_inv_stores _ _ _ _ S3); [done|]. by apply (page_inv_stores _ _ _ _ S2).
  - unfold rd32. rewrite (rd_mach 4 s3 s4), V3 by done. apply Z.mod_small. lia.
  - apply (header_same s2); [|done]. intros n x Hx Hn. simpl in *.
    rewrite (rd_mach n s3 s4) by done. apply F3.
    + intros y Hy. right. unfold span in *. lia.
    + destruct (fresh_outside W p c Oc Hd), Oc; lia.
  - intros n x Hx Hxc. rewrite (rd_mach n s3 s4) by done.
    rewrite F3; [|intros y Hy; left; by apply Hx|lia].
    rewrite (stores_rd n _ _ _ _ x S2 HW1 Hsub); [|intros y Hy; left; by apply Hx|].
    + apply rd_ext. intros y Hy. apply Hk. by apply Hx.
    + intros y Hy Hy'. apply (Hd y); [unfold span in *; lia|by apply Hx].
Qed.

(** The blocks up to [c] and the new one do not overlap. *)
Lemma fresh_separate W l1 c l2 p :
  Forall (block_ok W) (l1 ++ c :: l2) -> separate (l1 ++ c :: l2) -> disjoint_from (span p 4096) W ->
  separate ((l1 ++ [c]) ++ [Spec.fresh p]).
Proof.
  rewrite Forall_app, Forall_cons. intros (O1 & Oc & _) (Sp1 & _ & _ & Sa1 & _)%separate_middle Hd.
  assert (forall b, block_ok W b -> apart b (Spec.fresh p)) as Hap.
  { intros b Hb. destruct (fresh_outside W p b Hb Hd); unfold apart; simpl; lia. }
  rewrite !separate_app. simpl. rewrite Forall_nil. split_and!; try done.
  - eapply Forall_impl; [exact Sa1|]. intros b Hb. apply Forall_singleton. by apply apart_sym.
  - apply Forall_app. split; [|by apply Forall_singleton, Forall_singleton, Hap].
    eapply Forall_impl; [exact O1|]. intros b Hb. by apply Forall_singleton, Hap.
Qed.

Lemma more_pages_ok s W l flag p s1 :
  heap_list s W l -> l <> [] -> allocate_page flag s = Ok p s1 -> got_page s W p s1 ->
  exists s', more_pages flag s = Ok p s' /\
    heap_list s' (with_page W p) (Spec.up_to (current_block (heap s)) l ++ [Spec.fresh p]) /\
    forall x, payload l x -> rd8 s' x = rd8 s x.
Proof using PSOk.
  intros HL Hne Ha Hgot. pose proof HL as [_ Hseg Hok Hsep Hcur].
  destruct (Hcur Hne) as (c & (l1 & l2 & ->)%list_elem_of_split & Ec).
  pose proof Hok as Hok'. rewrite Forall_app, Forall_cons in Hok'. destruct Hok' as (O1 & Oc & O2).
  rewrite <- Ec, up_to_middle by first [done|eapply Forall_impl; [exact Hok|by intros b []]].
  destruct (link_page_ok s W l1 c l2 flag p s1 HL Ec Ha Hgot) as (s4 & R & Eh & Hi4 & Vc & Hp4 & Hkeep).
  destruct Hgot as [Hp He Hi HG Hd Hk]. exists s4. split; [done|].
  pose proof Hsep as (_ & _ & _ & Sa1 & _)%separate_middle. rewrite Forall_forall in Sa1.
  pose proof Hseg as (mm & Hseg1 & Hmm & next & Hhc & _)%segment_app. simpl in Hmm. subst mm.
  rewrite Forall_forall in Hok. split.
  2:{ intros x (b & Hb & Hu & Hx). rewrite <- !rd_1. destruct (Hok b Hb) as [_ ? _ Hin]. apply Hkeep.
      - intros y Hy. apply Hin. unfold span in *. lia.
      - unfold span in Hx. destruct (separate_pair _ b c Hsep Hb) as [->|Hap];
          [apply elem_of_app; right; by left|lia|unfold apart in Hap; destruct Oc; lia]. }
  split; rewrite ?Eh; simpl.
  - done.
  - apply segment_app. exists p. split; [|simpl; split; [done|by exists 0]].
    apply segment_app. exists (b_addr c). split.
    + apply (segment_same s); [|done]. rewrite Forall_forall in O1 |- *. intros b Hb n x Hx Hn.
      destruct (O1 b Hb) as [_ ? _ Hin]. specialize (Sa1 b Hb). unfold apart in Sa1.
      apply Hkeep; [intros y Hy; apply Hin; unfold span in *; lia|destruct Oc; lia].
    + simpl. split; [done|]. exists p. split; [|done].
      destruct Hhc as [H1 H2 _]. pose proof (field_in W c) as Hf. split; [| |done].
      * rewrite <- H1. rewrite <- (Z.add_0_r (b_addr c)). apply Hkeep; [by apply Hf|lia].
      * rewrite <- H2, <- !rd_1. apply Hkeep; [by apply Hf|lia].
  - apply Forall_app. split; [|by apply Forall_singleton, fresh_ok].
    apply Forall_app. split; [|apply Forall_singleton]; [|by apply (block_ok_weaken W); [by left|]].
    eapply Forall_impl; [exact O1|]. intros b. apply block_ok_weaken. by left.
  - apply (fresh_separate W l1 c l2); [by apply Forall_forall|done|done].
  - intros _. exists (Spec.fresh p). split; [|done]. apply elem_of_app. right.
    by apply list_elem_of_singleton.
Qed.

(** ** [kmalloc] and [kfree] on the list *)

Lemma default_flag_ok flag : flag = 0 \/ flags_ok flag -> flags_ok (default_flag flag).
Proof.
  intros [->|Hf]; [by split|]. unfold default_flag. case_match; [by split|done].
Qed.

Lemma search_ok s W l size :
  heap_list s W l -> (length l < fuel)%nat ->
  (head ← get_heap_head; find_best fuel size head 0) s = Ok (addr_of (Spec.best_fit size l)) s.
Proof using PSOk.
  intros HL Hlen. unfold get_heap_head. rewrite gets_bind.
  change 0 with (addr_of None).
  apply (find_best_ok s W (heap_window _ _ _ HL)); [apply HL|apply HL|done|done].
Qed.

Lemma kmalloc_nonempty size flag s W l :
  heap_list s W l -> l <> [] -> 0 < size <= 4096 -> (length l < fuel)%nat ->
  kmalloc size flag s =
    (best ← (if addr_of (Spec.best_fit size l) =? 0 then more_pages (default_flag flag)
             else mret (addr_of (Spec.best_fit size l)));
     take_block best size) s.
Proof using PSOk.
  intros HL Hne Hsize Hlen. unfold kmalloc.
  rewrite (proj2 (orb_false_iff (4096 <? size) (size =? 0))) by lia.
  assert (first_page (default_flag flag) s = Ok tt s) as Hfirst.
  { unfold first_page, get_heap_head. rewrite gets_bind.
    by rewrite (proj2 (Z.eqb_neq _ 0)) by (by eapply head_nonzero). }
  run_with Hfirst. rewrite <- bind_assoc. by run_with (search_ok s W l size HL Hlen).
Qed.

(** The bytes of the heap, handed out or not, with the headers. *)
Definition heap_bytes (l : list block) (x : Z) : Prop :=
  Exists (fun b => span (b_addr b) (9 + b_size b) x) l.

Lemma headers_heap W l b size :
  Forall (block_ok W) l -> b ∈ l -> 0 <= size -> subset (headers b size) (heap_bytes l).
Proof.
  intros Hok Hb Hsize x Hx. rewrite Forall_forall in Hok. destruct (Hok b Hb).
  apply Exists_exists. exists b. split; [done|]. unfold headers, span in *. lia.
Qed.

Lemma kmalloc_reuse_writes size flag s W l b :
  heap_list s W l -> 0 < size <= 4096 -> (length l < fuel)%nat ->
  Spec.best_fit size l = Some b ->
  exists s', kmalloc size flag s = Ok (b_addr b + 9) s' /\
    heap_list s' W (Spec.take_at size (b_addr b) l) /\ stores (headers b size) s s'.
Proof using PSOk.
  intros HL Hsize Hlen Hbest.
  destruct (best_fit_in _ _ _ Hbest) as (Hin & Hfree & _).
  pose proof (hl_blocks _ _ _ HL) as Hok. rewrite Forall_forall in Hok. pose proof (Hok b Hin) as Hb.
  rewrite (kmalloc_nonempty size flag s W l HL) by (try done; by intros ->).
  rewrite Hbest. simpl. rewrite (proj2 (Z.eqb_neq _ 0)) by (destruct Hb; lia). rewrite ret_bind.
  exact (take_in_list s W l size b HL Hin Hfree Hsize).
Qed.

Lemma kmalloc_reuse_ok size flag s W l b :
  heap_list s W l -> 0 < size <= 4096 -> (length l < fuel)%nat ->
  Spec.best_fit size l = Some b ->
  exists s', kmalloc size flag s = Ok (b_addr b + 9) s' /\
    heap_list s' W (Spec.take_at size (b_addr b) l) /\
    (forall x, payload l x -> rd8 s' x = rd8 s x) /\ stores W s s'.
Proof using PSOk.
  intros HL Hsize Hlen Hbest. destruct (best_fit_in _ _ _ Hbest) as (Hin & Hfree & _).
  destruct (kmalloc_reuse_writes size flag s W l b HL Hsize Hlen Hbest) as (s' & R & HL' & S).
  exists s'. split; [done|]. split; [done|]. split.
  - apply (take_keeps_payload s s' W l size b); (done || lia).
  - pose proof (hl_blocks _ _ _ HL) as Hok. rewrite Forall_forall in Hok.
    apply (stores_weaken _ _ _ _ S); [by apply headers_in; [apply Hok|]|].
    exact (win_u32 _ _ (heap_window _ _ _ HL)).
Qed.

(** The whole list after a page was added and its block taken. *)
Lemma take_fresh s W l p size :
  heap_list s W (l ++ [Spec.fresh p]) -> 0 < size <= 4096 ->
  exists s', take_block p size s = Ok (p + 9) s' /\
    heap_list s' W (l ++ Spec.carve size (Spec.fresh p)) /\
    forall x, payload l x -> rd8 s' x = rd8 s x.
Proof using PSOk.
  intros HL Hsize. assert (Spec.fresh p ∈ l ++ [Spec.fresh p]) as Hin
    by (apply elem_of_app; right; by apply list_elem_of_singleton).
  destruct (take_in_list s W _ size _ HL Hin eq_refl Hsize) as (s' & R & HL' & S).
  exists s'. split; [done|]. split.
  - pose proof (take_at_middle size l (Spec.fresh p) [] (hl_separate _ _ _ HL)) as Ht.
    simpl in Ht. rewrite app_nil_r in Ht. rewrite <- Ht; [done|].
    eapply Forall_impl; [apply (hl_blocks _ _ _ HL)|by intros b []].
  - intros x (b & Hb & Hu & Hx).
    apply (take_keeps_payload s s' W _ size _ HL Hin); (done || lia || idtac).
    exists b. split; [apply elem_of_app; by left|done].
Qed.

Lemma kmalloc_grow_ok size flag s W l p s1 :
  heap_list s W l -> 0 < size <= 4096 -> (length l < fuel)%nat -> (1 < fuel)%nat ->
  Spec.best_fit size l = None -> (l = [] -> size <= 4087) ->
  page_left s -> flag = 0 \/ flags_ok flag ->
  allocate_page (default_flag flag) s = Ok p s1 -> p <> 0 ->
  exists s', kmalloc size flag s = Ok (p + 9) s' /\
    heap_list s' (with_page W p)
      (Spec.up_to (current_block (heap s)) l ++ Spec.carve size (Spec.fresh p)) /\
    forall x, payload (Spec.up_to (current_block (heap s)) l) x -> rd8 s' x = rd8 s x.
Proof using PSOk.
  intros HL Hsize Hlen Hfuel Hnone Hempty Hleft Hflag Ha Hp.
  pose proof (got_page_ok s W _ p s1 (hl_inv _ _ _ HL) Hleft
    (or_intror (default_flag_ok flag Hflag)) Ha Hp) as Hgot.
  destruct (decide (l = [])) as [->|Hne].
  - destruct (first_page_ok s W _ p s1 HL Ha Hgot) as (s2 & R2 & HL2 & _ & _).
    specialize (Hempty eq_refl).
    assert (Spec.best_fit size [Spec.fresh p] = Some (Spec.fresh p)) as Hbest.
    { unfold Spec.best_fit, Spec.better, Spec.fits. simpl.
      by rewrite (proj2 (Z.leb_le _ _)) by done. }
    destruct (take_fresh s2 _ [] p size HL2 Hsize) as (s3 & R3 & HL3 & _).
    exists s3. split; [|split; [done|by intros x (b & ?%elem_of_nil & _)]].
    unfold kmalloc. rewrite (proj2 (orb_false_iff (4096 <? size) (size =? 0))) by lia.
    run_with R2. rewrite <- bind_assoc.
    run_with (search_ok s2 _ _ size HL2 Hfuel). rewrite Hbest. simpl.
    rewrite (proj2 (Z.eqb_neq p 0)) by done. by rewrite ret_bind.
  - destruct (more_pages_ok s W l _ p s1 HL Hne Ha Hgot) as (s2 & R2 & HL2 & K2).
    destruct (take_fresh s2 _ _ p size HL2 Hsize) as (s3 & R3 & HL3 & K3).
    exists s3. rewrite (kmalloc_nonempty size flag s W l HL) by done. rewrite Hnone. simpl.
    run_with R2. split; [done|]. split; [done|]. intros x Hx. rewrite K3 by done. apply K2.
    destruct Hx as (b & Hb & Hx). exists b. split; [|done].
    clear - Hb. induction l as [|c l IH]; simpl in Hb; [done|].
    case_match; apply elem_of_cons.
    + left. by apply list_elem_of_singleton in Hb.
    + apply elem_of_cons in Hb as [->|Hb]; [by left|right; by apply IH].
Qed.

Definition starts_at (addr : Z) (b : block) : bool := b_addr b + 9 =? addr.

Lemma kfree_loop_ok (n : nat) addr s W a l :
  window s W -> segment s a l 0 -> Forall (block_ok W) l -> (length l < n)%nat ->
  kfree_loop n addr a s =
    match List.find (starts_at addr) l with
    | Some b => set_block_type (b_addr b) 1 s
    | None => Ok tt s
    end.
Proof.
  intros HW. revert a l. induction n as [|n IH]; intros a l Hseg Hok Hn; [lia|].
  destruct l as [|b l]; simpl in Hseg |- *; [by subst a|].
  destruct Hseg as (-> & next & Hh & Hseg). apply Forall_cons in Hok as [Hb Hok].
  pose proof Hb as []. rewrite (proj2 (Z.eqb_neq _ 0)) by lia.
  unfold sizeof_Block, starts_at at 1. rewrite u32_small by width_lia.
  destruct (b_addr b + 9 =? addr); [done|].
  run_with (block_next_ok s W HW b next Hb Hh). apply IH; [done|done|simpl in Hn; lia].
Qed.

Lemma release_find addr l :
  match List.find (starts_at addr) l with
  | Some b => exists l1 l2, l = l1 ++ b :: l2 /\ b_addr b + 9 = addr /\
      Spec.release addr l = l1 ++ MkBlock (b_addr b) (b_size b) false :: l2
  | None => Spec.release addr l = l
  end.
Proof.
  induction l as [|b l IH]; simpl; [done|]. unfold starts_at at 1.
  destruct (Z.eqb_spec (b_addr b + 9) addr) as [Heq|Hne].
  - exists [], l. done.
  - destruct (List.find (starts_at addr) l) as [c|]; [|by rewrite IH].
    destruct IH as (l1 & l2 & -> & Hc & ->). by exists (b :: l1), l2.
Qed.

(** The type byte of one block [b]. *)
Lemma set_free_ok s W l1 b l2 :
  heap_list s W (l1 ++ b :: l2) ->
  exists s', set_block_type (b_addr b) 1 s = Ok tt s' /\ stores (eq (b_addr b + 4)) s s' /\
    rd8 s' (b_addr b + 4) = 1 /\
    (forall n x, subset (span x (Z.of_nat n)) W ->
       x + Z.of_nat n <= b_addr b + 4 \/ b_addr b + 5 <= x -> rd n s' x = rd n s x) /\
    (forall n x c, c ∈ l1 ++ b :: l2 -> c <> b -> b_addr c <= x ->
       x + Z.of_nat n <= b_addr c + 9 + b_size c -> rd n s' x = rd n s x).
Proof using PSOk.
  intros HL. pose proof (heap_window _ _ _ HL) as HW. pose proof HL as [_ _ Hok Hsep _].
  pose proof Hok as Hok'. rewrite Forall_app, Forall_cons in Hok'. destruct Hok' as (_ & Ob & _).
  assert (subset (eq (b_addr b + 4)) W) as HD.
  { intros x <-. apply (field_in W b 1 4 Ob); [lia|lia|unfold span; lia]. }
  destruct (put8_ok s s W _ (b_addr b + 4) 1 HW HD (stores_none _ s W HW HD) eq_refl)
    as (s' & R & S & V & F).
  exists s'. split; [done|]. split; [done|]. split; [done|].
  assert (forall n x, subset (span x (Z.of_nat n)) W ->
    x + Z.of_nat n <= b_addr b + 4 \/ b_addr b + 5 <= x -> rd n s' x = rd n s x) as HF
    by (intros n x Hx Hd; apply F; [done|lia]).
  split; [done|]. intros n x c Hc Hcb Hx Hn. rewrite Forall_forall in Hok.
  pose proof (Hok c Hc) as [_ ? _ Hin]. apply HF; [intros y Hy; apply Hin; unfold span in *; lia|].
  destruct (separate_pair _ b c Hsep) as [->|Hap]; [apply elem_of_app; right; by left|done|done|].
  destruct Ob. unfold apart in Hap. lia.
Qed.

Lemma freed_list s s' W l1 b l2 :
  let b' := MkBlock (b_addr b) (b_size b) false in
  heap_list s W (l1 ++ b :: l2) -> stores (eq (b_addr b + 4)) s s' -> rd8 s' (b_addr b + 4) = 1 ->
  (forall n x, subset (span x (Z.of_nat n)) W ->
     x + Z.of_nat n <= b_addr b + 4 \/ b_addr b + 5 <= x -> rd n s' x = rd n s x) ->
  (forall n x c, c ∈ l1 ++ b :: l2 -> c <> b -> b_addr c <= x ->
     x + Z.of_nat n <= b_addr c + 9 + b_size c -> rd n s' x = rd n s x) ->
  heap_list s' W (l1 ++ b' :: l2).
Proof using PSOk.
  intros b' HL S V F Hkeep. pose proof HL as [Hinv Hseg Hok Hsep Hcur].
  pose proof Hok as Hok'. rewrite Forall_app, Forall_cons in Hok'. destruct Hok' as (O1 & Ob & O2).
  pose proof Hsep as (_ & _ & _ & Sa1 & Sa2)%separate_middle.
  assert (forall l', (forall c, c ∈ l' -> c ∈ l1 ++ b :: l2) -> Forall (apart b) l' ->
    Forall (same_header s s') l') as Hsame.
  { intros l' Hin Hap. rewrite Forall_forall in Hap |- *. intros c Hc n x Hx Hn.
    rewrite Forall_forall in Hok. pose proof (Hok c (Hin c Hc)) as [_ ? _ _].
    apply (Hkeep n x c); [by apply Hin| |done|lia].
    intros ->. specialize (Hap b Hc). destruct Ob. unfold apart in Hap. lia. }
  destruct (st_machine _ _ _ S) as [m Hm]. assert (heap s' = heap s) as Eh by (by subst).
  split; rewrite ?Eh.
  - apply (page_inv_stores _ _ _ _ S); [|done].
    intros x <-. apply (field_in W b 1 4 Ob); [lia|lia|unfold span; lia].
  - apply segment_app in Hseg as (m0 & H1 & -> & next & Hh & H2).
    apply segment_app. exists (b_addr b). split.
    { apply (segment_same s); [|done]. apply Hsame; [|done]. intros c Hc. apply elem_of_app. by left. }
    simpl. split; [done|]. exists next. split.
    { destruct Hh as [G1 G2 G3]. pose proof (field_in W b) as Hf. split; simpl.
      - rewrite <- G1. apply F; [rewrite <- (Z.add_0_r (b_addr b)); by apply Hf|lia].
      - by rewrite V.
      - rewrite <- G3. apply F; [by apply Hf|lia]. }
    apply (segment_same s); [|done]. apply Hsame; [|done].
    intros c Hc. apply elem_of_app. right. apply elem_of_cons. by right.
  - apply Forall_app. split; [done|]. apply Forall_cons. split; [|done]. by destruct Ob.
  - apply separate_middle in Hsep as (G1 & G2 & G3 & G4 & G5). apply separate_middle. by split_and!.
  - intros _. destruct Hcur as (c & Hc & Ec); [by destruct l1|].
    destruct (decide (c = b)) as [->|Hne].
    + exists b'. split; [apply elem_of_app; right; by left|done].
    + exists c. split; [|done]. apply elem_of_app in Hc as [Hc|[->|Hc]%elem_of_cons]; [|done|];
        apply elem_of_app; [by left|right; by right].
Qed.

Lemma kfree_ok addr s W l :
  heap_list s W l -> (length l < fuel)%nat ->
  exists s', kfree addr s = Ok tt s' /\ heap_list s' W (Spec.release addr l) /\
    (forall x, payload l x -> rd8 s' x = rd8 s x) /\ stores W s s'.
Proof using PSOk.
  intros HL Hlen. pose proof (heap_window _ _ _ HL) as HW.
  pose proof HL as [Hinv Hseg Hok Hsep Hcur].
  unfold kfree, get_heap_head. rewrite gets_bind, (kfree_loop_ok fuel addr s W _ l HW) by done.
  pose proof (release_find addr l) as Hr. destruct (List.find _ l) as [b|].
  2:{ rewrite Hr. exists s. split_and!; try done. apply (stores_none W s W HW). by intros x. }
  destruct Hr as (l1 & l2 & -> & Haddr & ->).
  destruct (set_free_ok s W l1 b l2 HL) as (s' & R & S & V & F & Hkeep).
  rewrite Forall_app, Forall_cons in Hok. destruct Hok as (O1 & Ob & O2).
  exists s'. split; [done|]. split; [by apply (freed_list s s' W l1 b l2)|]. split.
  - intros x (c & Hc & Hu & Hx). rewrite <- !rd_1. unfold span in Hx.
    destruct (decide (c = b)) as [->|Hne]; [|apply (Hkeep 1%nat x c); (done || lia)].
    apply F; [|lia]. intros y Hy. destruct Ob as [_ _ _ Hin]. apply Hin. unfold span in *. lia.
  - apply (stores_weaken _ _ _ _ S); [|exact (win_u32 _ _ HW)].
    intros x <-. apply (field_in W b 1 4 Ob); [lia|lia|unfold span; lia].
Qed.

End heap.

(** * What the heap guarantees *)

Section guarantees.
Import Heap.
Context `{Fuel} `{PS : PageSource} `{PSOk : !PageSourceOk PS}.

(** C3: when some free block is large enough, [kmalloc] takes the smallest such
    block, splits off what it does not need, and returns its payload: a range
    of at least [size] bytes in use by nobody else.  The heap stays well
    formed and every byte handed out before keeps its value. *)
Theorem kmalloc_best_fit size flag s W l b :
  heap_list s W l -> 0 < size <= 4096 -> (length l < fuel)%nat ->
  Spec.best_fit size l = Some b ->
  (forall c, c ∈ l -> Spec.fits size c = true -> b_size b <= b_size c) /\
  (forall x, span (b_addr b + 9) size x -> W x /\ ~ payload l x) /\
  exists s', kmalloc size flag s = Ok (b_addr b + 9) s' /\
    heap_list s' W (Spec.take_at size (b_addr b) l) /\
    (forall x, payload l x -> rd8 s' x = rd8 s x) /\ stores W s s'.
Proof using PSOk.
  intros HL Hsize Hlen Hbest. destruct (best_fit_in _ _ _ Hbest) as (Hin & Hfree & Hle).
  pose proof HL as [_ _ Hok Hsep _]. rewrite Forall_forall in Hok.
  pose proof (Hok b Hin) as [_ _ _ HbW].
  split; [intros c; by apply best_block_least|]. split; [|by apply kmalloc_reuse_ok].
  intros x Hx. split; [apply HbW; unfold span in *; lia|].
  intros (c & Hc & Hu & Hxc). destruct (Hok c Hc).
  destruct (separate_pair _ _ _ Hsep Hin Hc) as [->|Hap]; [congruence|].
  unfold apart, span in *. lia.
Qed.

(** C32: when no free block is large enough and a page can be allocated,
    [kmalloc] gets one more page, links it behind [current_block] and allocates
    from it; bytes handed out in the blocks that stay in the list keep their
    values. *)
Theorem kmalloc_grows size flag s W l p s1 :
  heap_list s W l -> 0 < size <= 4096 -> (length l < fuel)%nat -> (1 < fuel)%nat ->
  Spec.best_fit size l = None -> (l = [] -> size <= 4087) ->
  page_left s -> flag = 0 \/ flags_ok flag ->
  allocate_page (default_flag flag) s = Ok p s1 -> p <> 0 ->
  exists s', kmalloc size flag s = Ok (p + 9) s' /\
    heap_list s' (with_page W p)
      (Spec.up_to (current_block (heap s)) l ++ Spec.carve size (Spec.fresh p)) /\
    forall x, payload (Spec.up_to (current_block (heap s)) l) x -> rd8 s' x = rd8 s x.
Proof using PSOk. apply kmalloc_grow_ok. Qed.

(** [kfree] marks the block whose payload starts at the address as free,
    joins it with nothing, ignores any other address, and changes no payload. *)
Theorem kfree_releases addr s W l :
  heap_list s W l -> (length l < fuel)%nat ->
  exists s', kfree addr s = Ok tt s' /\ heap_list s' W (Spec.release addr l) /\
    (forall x, payload l x -> rd8 s' x = rd8 s x) /\ stores W s s'.
Proof using PSOk. apply kfree_ok. Qed.

(** Releasing the block that has just been carved out of a free one: the bytes
    in use are those of the other blocks. *)
Lemma release_carved size s W l1 b l2 :
  heap_list s W (l1 ++ Spec.carve size b ++ l2) ->
  (length (l1 ++ Spec.carve size b ++ l2) < fuel)%nat ->
  exists s' l', kfree (b_addr b + 9) s = Ok tt s' /\ heap_list s' W l' /\
    (forall x, payload l' x <-> payload (l1 ++ l2) x) /\
    (forall x, payload (l1 ++ l2) x -> rd8 s' x = rd8 s x).
Proof using PSOk.
  intros HL Hlen. destruct (kfree_ok (b_addr b + 9) s W _ HL Hlen) as (s' & R & HL' & K & _).
  (* The block released is the first one carved. *)
  set (d := hd b (Spec.carve size b)) in *. set (tl := List.tl (Spec.carve size b)) in *.
  assert (Spec.carve size b = d :: tl /\ b_addr d = b_addr b /\
    Forall (fun c => b_used c = false) tl) as (Ecarve & Ed & Htl).
  { unfold d, tl, Spec.carve. case_match; simpl; by repeat constructor. }
  rewrite Ecarve in HL, HL', K. simpl in HL, HL', K.
  assert (Spec.release (b_addr b + 9) (l1 ++ d :: tl ++ l2) =
    l1 ++ MkBlock (b_addr d) (b_size d) false :: tl ++ l2) as Erel.
  { rewrite <- Ed. pose proof (hl_separate _ _ _ HL) as Hs. pose proof (hl_blocks _ _ _ HL) as Ho.
    clear - Hs Ho. induction l1 as [|c l1 IH]; simpl; [by rewrite Z.eqb_refl|].
    simpl in Hs. destruct Hs as [Hap Hs]. apply Forall_cons in Ho as [Hc Ho].
    pose proof Ho as (_ & [Hd _]%Forall_cons)%Forall_app.
    apply Forall_app in Hap as (_ & [Hap _]%Forall_cons). destruct Hc, Hd. unfold apart in Hap.
    rewrite (proj2 (Z.eqb_neq _ _)) by lia. f_equal. by apply IH. }
  rewrite Erel in HL'. rewrite Forall_forall in Htl. exists s'. eexists. split; [done|]. split; [exact HL'|].
  split; intros x; unfold payload.
  - split; intros (c & Hc & Hu & Hx); exists c; (split; [|done]);
      rewrite !elem_of_app, ?elem_of_cons, ?elem_of_app in *;
      [destruct Hc as [?|[->|[Hc|?]]]|destruct Hc as [?|?]]; auto; [done|].
    by rewrite (Htl c Hc) in Hu.
  - intros (c & Hc & Hu & Hx). apply K. exists c. split; [|done].
    rewrite !elem_of_app, ?elem_of_cons, ?elem_of_app in *. destruct Hc; auto.
Qed.

(** The two ways a request is served without losing a block: from a free block
    of the list; or from a page linked behind the last block, when
    [current_block] is that one. *)
Definition served (size flag : Z) (s : kst) (l : list block) : Prop :=
  (exists b, Spec.best_fit size l = Some b) \/
  Spec.best_fit size l = None /\ Spec.up_to (current_block (heap s)) l = l /\
  (l = [] -> size <= 4087) /\ page_left s /\ (flag = 0 \/ flags_ok flag) /\
  exists p s1, allocate_page (default_flag flag) s = Ok p s1 /\ p <> 0.

(** What [kmalloc] leaves then: the blocks around the one it carves. *)
Lemma kmalloc_served size flag s W l :
  heap_list s W l -> 0 < size <= 4096 -> (length l + 2 < fuel)%nat -> served size flag s l ->
  exists s1 W1 l1 b l2, kmalloc size flag s = Ok (b_addr b + 9) s1 /\ subset W W1 /\
    heap_list s1 W1 (l1 ++ Spec.carve size b ++ l2) /\ (length (l1 ++ l2) <= length l)%nat /\
    (forall x, payload (l1 ++ l2) x <-> payload l x) /\
    (forall x, payload l x -> rd8 s1 x = rd8 s x).
Proof using PSOk.
  intros HL Hsize Hlen [(b & Hbest)|(Hnone & Hup & Hempty & Hleft & Hflag & p & sp & Ha & Hp)].
  - destruct (best_fit_in _ _ _ Hbest) as (Hin & Hfree & _).
    destruct (kmalloc_reuse_ok size flag s W l b HL Hsize ltac:(lia) Hbest)
      as (s1 & R1 & HL1 & K1 & _). apply list_elem_of_split in Hin as (l1 & l2 & ->).
    rewrite take_at_middle in HL1;
      [|apply HL|eapply Forall_impl; [apply (hl_blocks _ _ _ HL)|by intros c []]].
    exists s1, W, l1, b, l2. split; [done|]. split; [by intros x|]. split; [done|].
    split; [rewrite !length_app; simpl; lia|]. split; [|done].
    intros x. unfold payload. split; intros (c & Hc & Hu & Hx); exists c; (split; [|done]);
      rewrite !elem_of_app, ?elem_of_cons in *; [destruct Hc; auto|].
    destruct Hc as [?|[->|?]]; [auto|congruence|auto].
  - destruct (kmalloc_grow_ok size flag s W l p sp HL Hsize ltac:(lia) ltac:(lia) Hnone Hempty
      Hleft Hflag Ha Hp) as (s1 & R1 & HL1 & K1). rewrite Hup in HL1, K1.
    exists s1, (with_page W p), l, (Spec.fresh p), []. rewrite !app_nil_r.
    split; [done|]. split; [by left|]. by split_and!.
Qed.

(** C33: freeing what was just allocated leaves exactly the bytes in use that
    were in use before, with their values, when the request was served from a
    free block or from a page linked behind the last block.  (When
    [current_block] is not the last block, a page that is linked behind it cuts
    blocks off: [kmalloc_loses_blocks].) *)
Theorem kmalloc_kfree_roundtrip size flag s W l r s1 :
  heap_list s W l -> 0 < size <= 4096 -> (length l + 2 < fuel)%nat -> served size flag s l ->
  kmalloc size flag s = Ok r s1 ->
  exists s2 W2 l2, kfree r s1 = Ok tt s2 /\ heap_list s2 W2 l2 /\ subset W W2 /\
    (forall x, payload l2 x <-> payload l x) /\
    (forall x, payload l x -> rd8 s2 x = rd8 s x).
Proof using PSOk.
  intros HL Hsize Hlen Hserved Hrun.
  destruct (kmalloc_served size flag s W l HL Hsize Hlen Hserved)
    as (s1' & W1 & l1 & b & l2 & R1 & HW & HL1 & Hl12 & Hpay & K1).
  rewrite Hrun in R1. injection R1 as -> <-.
  destruct (release_carved size s1 W1 l1 b l2 HL1) as (s2 & l' & R2 & HL2 & Hpay2 & K2).
  { rewrite !length_app in *. unfold Spec.carve. case_match; simpl; lia. }
  exists s2, W1, l'. split; [done|]. split; [done|]. split; [done|]. split.
  - intros x. by rewrite Hpay2, Hpay.
  - intros x Hx. rewrite K2 by (by apply Hpay). by apply K1.
Qed.

(** C36: a request for more than 4087 bytes passes the guard of [kmalloc], but a
    page only holds 4087 bytes of payload: the block returned is smaller than
    the request and the last bytes of the request are beyond the page. *)
Theorem kmalloc_overruns_page size flag s W l p s1 :
  heap_list s W l -> 4087 < size <= 4096 -> (length l < fuel)%nat -> (1 < fuel)%nat ->
  l <> [] -> Spec.best_fit size l = None -> page_left s -> flag = 0 \/ flags_ok flag ->
  allocate_page (default_flag flag) s = Ok p s1 -> p <> 0 ->
  p + 4096 < p + 9 + size /\
  exists s' l', kmalloc size flag s = Ok (p + 9) s' /\ heap_list s' (with_page W p) l' /\
    MkBlock p 4087 true ∈ l'.
Proof using PSOk.
  intros HL Hsize Hlen Hfuel Hne Hnone Hleft Hflag Ha Hp. split; [lia|].
  destruct (kmalloc_grow_ok size flag s W l p s1 HL ltac:(lia) Hlen Hfuel Hnone ltac:(done)
    Hleft Hflag Ha Hp) as (s' & R & HL' & _).
  exists s'. eexists. split; [done|]. split; [exact HL'|].
  apply elem_of_app. right. unfold Spec.carve. simpl.
  rewrite (proj2 (Z.leb_gt _ _)) by lia. by apply list_elem_of_singleton.
Qed.

(** C37: [kmalloc] does not move [current_block] when it splits a block, so the
    next page overwrites the link to what was split off: the blocks behind
    [current_block], free ones and blocks in use, leave the list for good. *)
Theorem kmalloc_loses_blocks size flag s W l1 c l2 d p s1 :
  let l := l1 ++ c :: l2 in
  heap_list s W l -> current_block (heap s) = b_addr c -> d ∈ l2 ->
  0 < size <= 4096 -> (length l < fuel)%nat -> (1 < fuel)%nat ->
  Spec.best_fit size l = None -> page_left s -> flag = 0 \/ flags_ok flag ->
  allocate_page (default_flag flag) s = Ok p s1 -> p <> 0 ->
  exists s' l', kmalloc size flag s = Ok (p + 9) s' /\ heap_list s' (with_page W p) l' /\
    forall e, e ∈ l' -> b_addr e <> b_addr d.
Proof using PSOk.
  intros l HL Hcur Hd Hsize Hlen Hfuel Hnone Hleft Hflag Ha Hp.
  destruct (kmalloc_grow_ok size flag s W l p s1 HL Hsize Hlen Hfuel Hnone
    ltac:(unfold l; by destruct l1) Hleft Hflag Ha Hp) as (s' & R & HL' & _).
  pose proof (hl_separate _ _ _ HL) as Hsep. pose proof (hl_blocks _ _ _ HL) as Hok.
  rewrite Hcur in HL'. unfold l in *.
  rewrite up_to_middle in HL' by first [done|eapply Forall_impl; [exact Hok|by intros b []]].
  exists s'. eexists. split; [done|]. split; [exact HL'|].
  pose proof (got_page_ok s W _ p s1 (hl_inv _ _ _ HL) Hleft
    (or_intror (default_flag_ok flag Hflag)) Ha Hp) as [_ _ _ _ Hfr _].
  rewrite Forall_forall in Hok. assert (d ∈ l1 ++ c :: l2) as Hdl
    by (rewrite elem_of_app, elem_of_cons; by right; right).
  pose proof (Hok d Hdl) as Hdok.
  intros e [[He|He]%elem_of_app|He]%elem_of_app Heq.
  - assert (e ∈ l1 ++ c :: l2) as Hel by (apply elem_of_app; by left).
    apply separate_app in Hsep as (_ & _ & Hap). rewrite Forall_forall in Hap.
    specialize (Hap e He). apply Forall_cons in Hap as [_ Hap]. rewrite Forall_forall in Hap.
    specialize (Hap d Hd). destruct (Hok e Hel), Hdok. unfold apart in Hap. lia.
  - apply list_elem_of_singleton in He as ->.
    assert (c ∈ l1 ++ c :: l2) as Hcl by (rewrite elem_of_app, elem_of_cons; right; by left).
    apply separate_middle in Hsep as (_ & _ & _ & _ & Hap). rewrite Forall_forall in Hap.
    specialize (Hap d Hd). destruct (Hok c Hcl), Hdok. unfold apart in Hap. lia.
  - assert (p <= b_addr e < p + 4096) as Hpe.
    { unfold Spec.carve in He. simpl in He. case_match;
        rewrite ?elem_of_cons, ?elem_of_nil in He; destruct He as [->|He];
        try destruct He as [->|[]]; simpl; try lia; done. }
    destruct (fresh_outside W p d Hdok Hfr), Hdok; lia.
Qed.

End guarantees.

(** ** Concrete instances: a page source without paging *)

Section examples.
Import Heap.

#[local] Instance fuel_64 : Fuel := 64%nat.

(** Pages one after the other, below 0x80000. *)
#[local] Instance bump : PageSource := {|
  allocate_page := fun flag s =>
    let v := next_virtual (pmm s) in
    if v + 4096 <=? 0x80000 then
      Ok v (set_pmm (fun p => PmmState (entry p) (mmap p) (v + 4096) (free_virtual p) (free_count p)) s)
    else Ok 0 s
|}.

Record bump_inv (s : kst) (W : Z -> Prop) : Prop := {
  bi_paging : paging (mach s) = false;
  bi_next : 0 < next_virtual (pmm s) <= 0x80000;
  bi_used : forall a, W a -> 0 <= a < next_virtual (pmm s)
}.
#[local] Instance bump_ok : PageSourceOk bump.
Proof.
  refine {| page_inv := bump_inv; page_left := fun s => next_virtual (pmm s) + 4096 <= 0x80000 |}.
  - intros s W [Hp Hn Hu]. apply flat_window; [done|]. intros a Ha. specialize (Hu a Ha). width_lia.
  - intros s W W' [Hp Hn Hu] Hs. split; auto.
  - intros A s s' W HS _ [Hp Hn Hu]. destruct (st_machine _ _ _ HS) as [m Hm].
    destruct (st_control _ _ _ HS) as [Hc _]. split; [congruence|by subst..].
  - intros s s' W Hm Hp [H1 H2 H3]. split; rewrite ?Hm, ?Hp; done.
  - by intros s s' ->.
  - intros flag s W [Hp Hn Hu] Hl _. right. simpl. rewrite (proj2 (Z.leb_le _ _)) by done.
    eexists _, _. split; [done|]. split; [lia|]. split; [lia|]. split.
    { split; simpl; [done|lia|]. intros a [Ha|Ha]; [specialize (Hu a Ha)|unfold span in Ha]; lia. }
    split; [done|]. split; [|done]. intros a Ha Hw. specialize (Hu a Hw). unfold span in Ha. lia.
Defined.

Definition boot : kst :=
  set_pmm (fun p => PmmState (entry p) (mmap p) 0x30000 (free_virtual p) 0)
    (boot_state qemu_map no_device).
Definition state_of {A} (o : outcome A) : kst := match o with Ok _ s => s | _ => boot end.
(** After a first allocation of 100 bytes. *)
Definition after_one : kst := state_of (kmalloc 100 0 boot).
Definition one_block : list block := [MkBlock 0x30000 100 true; MkBlock 0x3006D 3978 false].

Lemma boot_heap : heap_list boot (fun _ => False) [].
Proof. split; [by split|done|constructor|done|done]. Qed.

Lemma after_one_heap : heap_list after_one (span 0x30000 4096) one_block.
Proof.
  split.
  - split; [by vm_compute|by vm_compute|].
    assert (next_virtual (pmm after_one) = 0x31000) as -> by (by vm_compute).
    intros a. unfold span. lia.
  - vm_compute. split; [done|]. eexists. split; [by split|]. split; [done|]. eexists. by split; [split|].
  - unfold one_block. rewrite !Forall_cons, Forall_nil.
    split; [|split; [|done]]; (split; simpl; [lia|lia|lia|intros x; unfold span; simpl; lia]).
  - unfold one_block. simpl. rewrite !Forall_cons, Forall_nil. unfold apart. simpl.
    split_and!; try done. lia.
  - intros _. exists (MkBlock 0x30000 100 true). split; [by left|by vm_compute].
Qed.

Lemma kmalloc_best_fit_witness :
  exists s', kmalloc 50 0 after_one = Ok 0x30076 s' /\
    heap_list s' (span 0x30000 4096)
      [MkBlock 0x30000 100 true; MkBlock 0x3006D 50 true; MkBlock 0x300A8 3919 false].
Proof.
  destruct (kmalloc_best_fit 50 0 after_one _ one_block (MkBlock 0x3006D 3978 false) after_one_heap
    ltac:(lia) ltac:(by apply Nat.ltb_lt) eq_refl) as (_ & _ & s' & R & HL & _).
  exists s'. split; [exact R|exact HL].
Defined.

Lemma kmalloc_grows_witness :
  exists s', kmalloc 100 0 boot = Ok 0x30009 s' /\
    heap_list s' (with_page (fun _ => False) 0x30000) one_block.
Proof.
  destruct (kmalloc_grows 100 0 boot _ [] 0x30000 (state_of (bump.(allocate_page) 3 boot)) boot_heap
    ltac:(lia) ltac:(by apply Nat.ltb_lt) ltac:(by apply Nat.ltb_lt) eq_refl ltac:(lia)
    ltac:(simpl; lia) (or_introl eq_refl) eq_refl ltac:(lia)) as (s' & R & HL & _).
  exists s'. split; [exact R|exact HL].
Defined.

Lemma kfree_releases_witness :
  exists s', kfree 0x30009 after_one = Ok tt s' /\
    heap_list s' (span 0x30000 4096) [MkBlock 0x30000 100 false; MkBlock 0x3006D 3978 false].
Proof.
  destruct (kfree_releases 0x30009 after_one _ one_block after_one_heap
    ltac:(by apply Nat.ltb_lt)) as (s' & R & HL & _).
  exists s'. split; [exact R|exact HL].
Defined.

(** From a free block; and, on the empty heap, from its first page. *)
Lemma kmalloc_kfree_roundtrip_witness :
  (exists s1 s2 W2 l2, kmalloc 50 0 after_one = Ok 0x30076 s1 /\ kfree 0x30076 s1 = Ok tt s2 /\
    heap_list s2 W2 l2 /\ ~ payload l2 0x30080) /\
  exists s1 s2 W2 l2, kmalloc 100 0 boot = Ok 0x30009 s1 /\ kfree 0x30009 s1 = Ok tt s2 /\
    heap_list s2 W2 l2 /\ ~ payload l2 0x30009.
Proof.
  split.
  - assert (kmalloc 50 0 after_one = Ok 0x30076 (state_of (kmalloc 50 0 after_one))) as R1
      by (vm_compute; reflexivity).
    destruct (kmalloc_kfree_roundtrip 50 0 after_one _ one_block 0x30076 _ after_one_heap
      ltac:(lia) ltac:(by apply Nat.ltb_lt) (or_introl (ex_intro _ (MkBlock 0x3006D 3978 false) eq_refl)) R1)
      as (s2 & W2 & l2 & R2 & HL & _ & Hp & _).
    eexists _, s2, W2, l2. split; [exact R1|]. split; [exact R2|]. split; [exact HL|].
    rewrite Hp. intros (b & Hb & Hu & Hx). unfold one_block in Hb.
    rewrite !elem_of_cons, elem_of_nil in Hb. destruct Hb as [->|[->|[]]]; [|discriminate].
    unfold span in Hx. simpl in Hx. lia.
  - assert (kmalloc 100 0 boot = Ok 0x30009 (state_of (kmalloc 100 0 boot))) as R1
      by (vm_compute; reflexivity).
    assert (served (PS := bump) 100 0 boot []) as Hs.
    { right. split; [done|]. split; [done|]. split; [lia|]. split; [simpl; lia|]. split; [by left|].
      exists 0x30000, (state_of (bump.(allocate_page) 3 boot)). split; [reflexivity|lia]. }
    destruct (kmalloc_kfree_roundtrip 100 0 boot _ [] 0x30009 _ boot_heap ltac:(lia)
      ltac:(by apply Nat.ltb_lt) Hs R1) as (s2 & W2 & l2 & R2 & HL & _ & Hp & _).
    eexists _, s2, W2, l2. split; [exact R1|]. split; [exact R2|]. split; [exact HL|].
    rewrite Hp. intros (b & Hb & _). by apply elem_of_nil in Hb.
Defined.

Lemma kmalloc_overruns_page_witness :
  exists s' l', kmalloc 4096 0 after_one = Ok 0x31009 s' /\
    heap_list s' (with_page (span 0x30000 4096) 0x31000) l' /\ MkBlock 0x31000 4087 true ∈ l'.
Proof.
  destruct (kmalloc_overruns_page 4096 0 after_one _ one_block 0x31000
    (state_of (bump.(allocate_page) 3 after_one)) after_one_heap ltac:(lia)
    ltac:(by apply Nat.ltb_lt) ltac:(by apply Nat.ltb_lt) ltac:(discriminate) ltac:(by vm_compute)
    ltac:(by vm_compute) (or_introl eq_refl) ltac:(by vm_compute) ltac:(lia))
    as (_ & s' & l' & R & HL & Hin).
  exists s', l'. split; [exact R|]. split; [exact HL|exact Hin].
Defined.

(** 100 bytes, then a page: the 3978 free bytes of the first page are gone. *)
Lemma kmalloc_loses_blocks_witness :
  exists s' l', kmalloc 4000 0 after_one = Ok 0x31009 s' /\
    heap_list s' (with_page (span 0x30000 4096) 0x31000) l' /\
    forall e, e ∈ l' -> b_addr e <> 0x3006D.
Proof.
  destruct (kmalloc_loses_blocks 4000 0 after_one (span 0x30000 4096) []
    (MkBlock 0x30000 100 true) [MkBlock 0x3006D 3978 false] (MkBlock 0x3006D 3978 false) 0x31000
    (state_of (bump.(allocate_page) 3 after_one)) after_one_heap ltac:(by vm_compute)
    ltac:(by left) ltac:(lia) ltac:(by apply Nat.ltb_lt) ltac:(by apply Nat.ltb_lt)
    ltac:(by vm_compute) ltac:(by vm_compute) (or_introl eq_refl) ltac:(by vm_compute) ltac:(lia))
    as (s' & l' & R & HL & Hlost).
  exists s', l'. split; [exact R|]. split; [exact HL|exact Hlost].
Defined.

(** [kmalloc] does not check what [allocate_page] returns.  With no frame
    left and an empty heap it writes its block headers at address 0 and returns
    9, which callers that compare the result with NULL take for memory. *)
Theorem kmalloc_out_of_memory :
  let s := set_pmm (fun p => PmmState 0 (mmap p) 0x80000 (free_virtual p) 0) boot in
  (forall flag, allocate_page flag s = Ok 0 s) /\
  exists s', kmalloc 48 3 s = Ok 9 s' /\ rd32 s' 0 = 48 /\ rd8 s' 4 = 2.
Proof.
  split; [by intros flag|]. eexists. split; [vm_compute; reflexivity|]. by split; vm_compute.
Qed.

End examples.
