(* ===== verification/UserMap.v ===== *)
(** Mapping pages of user programs.

    The allocator of virtual pages stays below the video memory; the ELF loader
    maps pages of its own choice, above the 4 MiB the kernel maps to
    themselves.  A page there may need a new table, which the code clears
    through its physical address: it works as long as the frames handed out
    are below 4 MiB.  [userland] is the invariant, [frames_below] counts the
    low frames that are left. *)

From S2P Require Import Prelude Machine State Mmu Window PageSource Vga MemMap Paging.

(** Memory and the map of frames may differ, and nothing else. *)
Definition same_but_frames (s s' : kst) : Prop :=
  same_globals s s' /\ next_virtual (pmm s') = next_virtual (pmm s) /\
  free_virtual (pmm s') = free_virtual (pmm s) /\ free_count (pmm s') = free_count (pmm s).
#[export] Instance same_but_frames_preorder : PreOrder same_but_frames.
Proof.
  split; [by intros s; split_and!|]. intros s s1 s2 (G1 & E1) (G2 & E2).
  split; [by transitivity s1|]. intuition congruence.
Qed.

Section userland.
Context `{Layout} (limit : Z) (Hlimit : 0 < limit < 2 ^ 22).

Record userland (s : kst) (W : Z -> Prop) : Prop := {
  us_pages : pages limit s W;
  us_identity : forall x, limit <= x < 2 ^ 22 -> translate (mach s) x = Some x;
  us_tables : forall pa, walk_byte (mach s) pa -> pa < 2 ^ 22;
  us_free : forall pa, free_byte s pa -> limit <= pa
}.

Lemma userland_subset s W W' : userland s W -> subset W' W -> userland s W'.
Proof. intros [HP ? ? ?] Hs. split; try done. by apply (pages_subset limit s W). Qed.

Lemma stores_userland A s s' W : stores A s s' -> subset A W -> userland s W -> userland s' W.
Proof using Hlimit.
  intros HS Hsub [HP Hid Ht Hf]. pose proof (st_machine _ _ _ HS) as [m Hm].
  destruct (frames_same s s') as [_ HB]; [by subst..|]. split.
  - by apply (stores_pages limit A s).
  - intros x Hx. rewrite (st_translate _ _ _ HS) by width_lia. by apply Hid.
  - intros pa. rewrite (st_walk _ _ _ HS). apply Ht.
  - intros pa. rewrite HB. apply Hf.
Qed.

(** What the allocator does below [limit] does not concern the programs. *)
Lemma userland_undisturbed s s' W W' :
  userland s W -> pages limit s' W' -> undisturbed limit s s' -> userland s' W'.
Proof using Hlimit.
  intros [_ Hid Ht Hf] HP [[HA HW] HF]. split; [done| |intros pa; rewrite HW; apply Ht|auto].
  intros x Hx. rewrite HA by width_lia. by apply Hid.
Qed.

(** A frame nobody uses. *)
Definition unused (s : kst) (W : Z -> Prop) (pa : Z) : Prop :=
  ~ free_byte s pa /\ ~ walk_byte (mach s) pa /\ forall a, W a -> translate (mach s) a <> Some pa.

Lemma take_low_frame s W n :
  userland s W -> frames_below (S n) (live s) = true ->
  exists f s', MemMap.allocate 4096 s = Ok f s' /\ map_step s s' /\ userland s' W /\
    frames_below n (live s') = true /\
    limit <= f /\ f mod 4096 = 0 /\ f + 4096 <= 2 ^ 22 /\
    (forall pa, free_byte s' pa -> free_byte s pa) /\
    (forall pa, span f 4096 pa -> free_byte s pa /\ unused s' W pa).
Proof.
  intros [HP Hid Hlow Hfree] Hn. pose proof (pa_frames _ _ _ HP) as HF.
  pose proof HF as [HS Hwf _]. unfold frames_below in Hn. simpl in Hn.
  destruct (allocate_cases 4096 s HS Hwf ltac:(lia))
    as [[_ Hnone]|(i & e & post & s1 & Hbest & R1 & _ & _ & HSp & _ & _)]; [by rewrite Hnone in Hn|].
  rewrite HSp in Hn. apply andb_prop in Hn as [[_ Hb]%andb_prop Hn].
  pose proof (best_fit_Some _ _ _ _ Hbest) as [He Hfits%fits_true].
  pose proof Hwf as [Hrg _]. rewrite Forall_lookup in Hrg. destruct (Hrg i e He) as [Hb0 _ _].
  rewrite u32_small in R1 by width_lia.
  destruct (allocate_frame s HF)
    as [R|(f & s' & R & M & HF' & Hf0 & Hfa & _ & Hwas & Hsub)]; rewrite R1 in R; injection R as E1 E2;
    [lia|]. subst f s1.
  assert (mach s' = mach s) as Hm by (by destruct M as [(k & L & ->) _]).
  exists (mm_base e), s'. split; [done|]. split; [done|]. split.
  { split; rewrite ?Hm; try done; [|intros pa Hpa; by apply Hfree, Hsub].
    apply (pages_map_step limit s); auto. intros pa Hpa. by apply Hsub. }
  split; [done|]. split; [apply Hfree, Hwas; lia|]. split; [done|]. split; [lia|].
  split; [intros pa Hpa; by apply Hsub|]. intros pa Hpa. specialize (Hwas pa ltac:(unfold span in Hpa; lia)).
  split; [done|]. destruct (pa_used _ _ _ HP pa Hwas) as [Hw Hno].
  split; [|by rewrite Hm]. intros Hf. by destruct (Hsub pa Hf).
Qed.

(** The table a page needs: it is there, or a low frame becomes one. *)
Lemma user_table s W d n :
  userland s W -> 0 <= d < 1024 -> frames_below (S n) (live s) = true ->
  exists s1 N, table_for s d s1 N /\ userland s1 W /\ same_but_frames s s1 /\ mach s1 = mach s /\
    frames_below n (live s1) = true /\ (forall pa, free_byte s1 pa -> free_byte s pa) /\
    forall pa, N pa -> free_byte s pa /\ unused s1 W pa /\ limit <= pa < 2 ^ 22.
Proof using Hlimit.
  intros HU Hd Hn. destruct (present (pde (mach s) d)) eqn:Hp.
  { exists s, nothing. split; [by apply table_present|]. split; [done|]. split; [done|].
    split; [done|]. split; [by apply (frames_below_le (S n)); [lia|]|]. split; [done|]. by intros pa []. }
  destruct (take_low_frame s W n HU Hn) as (f & s1 & R & M & HU1 & Hn1 & Hf & Hfa & Hfe & Hsub & Hun).
  assert (mach s1 = mach s) as Hm by (by destruct M as [(k & L & ->) _]).
  exists s1, (span f 4096). split.
  { apply table_allocated; [done|done|done|lia|done|lia| |].
    - intros k Hk. split; [width_lia|]. apply (us_identity _ _ HU). lia.
    - intros pa Hpa. destruct (Hun pa Hpa) as [_ (_ & Hw & _)]. by rewrite Hm in Hw. }
  split; [done|]. split; [by destruct M as [(k & L & ->) _]|]. split; [done|]. split; [done|].
  split; [done|]. intros pa Hpa. destruct (Hun pa Hpa). split; [done|]. split; [done|].
  unfold span in Hpa. lia.
Qed.

(** The invariant after the tables have changed: the page [p] is new, backed by
    the frame [f], and the bytes [N] have become part of the tables. *)
Section mapped.
Context (s s' : kst) (W N : Z -> Prop) (p f : Z).
Context (HU : userland s W) (Hp : 2 ^ 22 <= p) (Hpa : p mod 4096 = 0) (Hpe : p + 4096 <= 2 ^ 32).
Context (Hfresh : disjoint_from (span p 4096) W) (Hfe : f + 4096 <= 2 ^ 32).
Context (Hun : forall pa, span f 4096 pa -> unused s W pa /\ ~ N pa).
Context (HN : forall pa, N pa -> unused s W pa /\ limit <= pa < 2 ^ 22).
Context (T : retabled (remap (mach s) p (Some f)) N s s').

Lemma mapped_pmm : pmm s' = pmm s.
Proof using T. by destruct (rt_machine _ _ _ _ T) as [m ->]. Qed.

Lemma mapped_page a : span p 4096 a -> translate (mach s') a = Some (f + (a - p)).
Proof using T Hp Hpa Hpe.
  intros Ha. assert (in_u32 a) by (unfold span in Ha; width_lia).
  rewrite (rt_translate _ _ _ _ T) by done. by apply remap_page; [width_lia|..].
Qed.
Lemma mapped_other a :
  in_u32 a -> ~ span p 4096 a -> translate (mach s') a = translate (mach s) a.
Proof using T Hp Hpa Hpe.
  intros Ha Hno. rewrite (rt_translate _ _ _ _ T) by done. by apply remap_other; [width_lia|..].
Qed.
Lemma mapped_used a : W a -> in_u32 a /\ ~ span p 4096 a.
Proof using HU Hfresh.
  intros Ha. split; [by apply (win_u32 _ _ (pa_window _ _ _ (us_pages _ _ HU)))|].
  intros Hin. by apply (Hfresh a).
Qed.
Lemma mapped_walk pa : walk_byte (mach s') pa -> walk_byte (mach s) pa \/ N pa.
Proof using T. by rewrite (rt_walk _ _ _ _ T). Qed.

Lemma mapped_window : window s' (fun a => W a \/ span p 4096 a) /\ forall a, W a -> rd8 s' a = rd8 s a.
Proof using HU Hp Hpa Hpe Hfresh Hfe Hun HN T.
  destruct (retabled_window _ _ _ _ W T (pa_window _ _ _ (us_pages _ _ HU))) as [HW' Hrd].
  { intros a Ha. destruct (mapped_used a Ha). by apply remap_other; [width_lia|..]. }
  { intros a pa Ha Hta Hpn. destruct (HN pa Hpn) as [(_ & _ & Hno) _]. by apply (Hno a). }
  split; [|done]. apply (window_add_page s' W p f); [done|width_lia|done|done|exact mapped_page| |].
  - intros pa Hin Hw. destruct (Hun pa Hin) as [(_ & Hnw & _) HnN]. by destruct (mapped_walk pa Hw).
  - intros a pa Ha Hta Hin. destruct (mapped_used a Ha). rewrite mapped_other in Hta by done.
    destruct (Hun pa Hin) as [(_ & _ & Hno) _]. by apply (Hno a).
Qed.

Lemma mapped_pages : pages limit s' (fun a => W a \/ span p 4096 a).
Proof using HU Hlimit Hp Hpa Hpe Hfresh Hfe Hun HN T.
  pose proof HU as [HP Hid _ _]. pose proof mapped_pmm as Hpm.
  destruct (frames_same s s') as [HF HB]; [by rewrite Hpm..|].
  split; try (unfold recycled in *; rewrite Hpm; apply HP).
  - apply (rt_paged _ _ _ _ T).
  - apply HF, HP.
  - apply mapped_window.
  - intros pa Hpf. rewrite HB in Hpf. destruct (pa_used _ _ _ HP pa Hpf) as [Hnw Hno]. split.
    + intros Hw. destruct (mapped_walk pa Hw) as [?|Hw1]; [done|]. by destruct (HN pa Hw1) as [(? & _) _].
    + intros a [Ha|Ha]; [destruct (mapped_used a Ha); rewrite mapped_other by done; by apply Hno|].
      rewrite mapped_page by done. intros [= <-]. unfold span in *.
      destruct (Hun (f + (a - p))) as [(Hnf & _) _]; [lia|done].
  - destruct (present (pde (mach s') 0)) eqn:Hpr; [done|]. exfalso.
    assert (translate (mach s') limit = Some limit) as Hl.
    { rewrite mapped_other by (unfold span; width_lia). apply Hid. lia. }
    rewrite translate_absent in Hl; [done|apply (pg_tables s'), (rt_paged _ _ _ _ T)|].
    replace (dir_index limit) with 0; [done|]. rewrite dir_index_eq. lia.
  - intros q a Hq Ha. assert (spare limit s q) as Hq' by (unfold spare, recycled in *; by rewrite <- Hpm).
    destruct (pa_spare _ _ _ HP q a Hq' Ha) as [Hnw Hnk].
    destruct (spare_bounds _ _ _ _ HP Hq') as (_ & _ & Hql). unfold span in Ha. split.
    + unfold span. intros [?|?]; [done|lia].
    + intros Hw. destruct (mapped_walk a Hw) as [?|Hw1]; [done|]. destruct (HN a Hw1) as [_ ?]. lia.
Qed.

Lemma mapped_userland : userland s' (fun a => W a \/ span p 4096 a).
Proof using HU Hlimit Hp Hpa Hpe Hfresh Hfe Hun HN T.
  destruct (frames_same s s') as [_ HB]; [by rewrite mapped_pmm..|]. split.
  - apply mapped_pages.
  - intros x Hx. rewrite mapped_other by (unfold span; width_lia). by apply (us_identity _ _ HU).
  - intros pa Hw. destruct (mapped_walk pa Hw) as [Hw1|Hw1]; [by apply (us_tables _ _ HU)|].
    by apply HN.
  - intros pa Hpf. rewrite HB in Hpf. by apply (us_free _ _ HU).
Qed.
End mapped.

(** A new page [p] of a program, backed by the unused frame [f]. *)
Lemma map_user_ok s W p f fl n :
  userland s W -> 2 ^ 22 <= p -> p mod 4096 = 0 -> p + 4096 <= 2 ^ 32 -> flags_ok fl ->
  disjoint_from (span p 4096) W ->
  0 < f -> f mod 4096 = 0 -> f + 4096 <= 2 ^ 32 -> (forall pa, span f 4096 pa -> unused s W pa) ->
  frames_below (S n) (live s) = true ->
  exists s', Paging.map_page f p fl s = Ok tt s' /\ same_but_frames s s' /\
    userland s' (fun a => W a \/ span p 4096 a) /\ frames_below n (live s') = true /\
    forall a, W a -> rd8 s' a = rd8 s a.
Proof using Hlimit.
  intros HU Hp Hpa Hpe Hfl Hfresh Hf0 Hfa Hfe Hun Hn.
  assert (in_u32 p) as Hpu by width_lia. assert (in_u32 f) as Hfu by width_lia.
  destruct (user_table s W (dir_index p) n HU (dir_index_range p Hpu) Hn)
    as (s1 & N & HT & HU1 & HG & Hm1 & Hn1 & Hsub & HN).
  pose proof (us_pages _ _ HU) as HP.
  destruct (map_page_ok f p fl s s1 N (pa_paged _ _ _ HP) Hfu Hpu Hfl HT) as (s' & R & T & _).
  { intros pa Hpa' Hb. exfalso. assert (0 <= pa < 2 ^ 22).
    { destruct Hpa' as [Hw|Hw]; [|apply HN in Hw; lia]. split; [|by apply (us_tables _ _ HU)].
      by apply (walk_byte_u32 _ _ (pg_tables _ (pa_paged _ _ _ HP)) Hw). }
    rewrite !page_base_eq in Hb by width_lia. lia. }
  replace (page_base f) with f in T by (rewrite page_base_eq by width_lia; lia).
  rewrite <- Hm1 in T.
  assert (forall pa, span f 4096 pa -> unused s1 W pa /\ ~ N pa) as Hun1.
  { intros pa Hin. destruct (Hun pa Hin) as (Hnf & Hnw & Hno).
    split; [split; [by intros Hf1; apply Hnf, Hsub|by rewrite Hm1]|]. intros Hpn. by apply Hnf, HN. }
  assert (forall pa, N pa -> unused s1 W pa /\ limit <= pa < 2 ^ 22) as HN1
    by (intros pa Hpn; by apply (HN pa)).
  exists s'. split; [done|]. split; [|split; [|split]].
  - transitivity s1; [done|]. by destruct (rt_machine _ _ _ _ T) as [m ->].
  - by apply (mapped_userland s1 s' W N p f).
  - unfold live. by rewrite (mapped_pmm s1 s' N p f T).
  - intros a Ha. destruct (mapped_window s1 s' W N p f) as [_ Hrd]; try done.
    rewrite Hrd by done. unfold rd8. by rewrite Hm1.
Qed.

(** Memory that is mapped to itself and not used by anything joins the window. *)
Lemma pages_add_identity s W A :
  pages limit s W -> subset A in_u32 ->
  (forall a, A a -> translate (mach s) a = Some a /\ ~ walk_byte (mach s) a /\ ~ free_byte s a) ->
  (forall a b, A a -> W b -> translate (mach s) b = Some a -> b = a) ->
  (forall p a, spare limit s p -> span p 4096 a -> ~ A a) ->
  pages limit s (fun a => W a \/ A a).
Proof.
  intros HP HA Hid Hdis Hsp. split; try apply HP.
  - destruct (pa_window _ _ _ HP) as [H1 H2 H3]. split.
    + intros a [?|?]; auto.
    + intros a [Ha|Ha]; [auto|]. exists a. destruct (Hid a Ha) as (? & ? & _). done.
    + intros a b pa [Ha|Ha] [Hb|Hb] Ea Eb; [by apply (H3 a b pa)| | |].
      * destruct (Hid b Hb) as (E & _). simplify_eq. by apply (Hdis pa a).
      * destruct (Hid a Ha) as (E & _). simplify_eq. symmetry. by apply (Hdis pa b).
      * destruct (Hid a Ha) as (E & _), (Hid b Hb) as (E' & _). by simplify_eq.
  - intros pa Hpa. destruct (pa_used _ _ _ HP pa Hpa) as [Hw Hno]. split; [done|].
    intros a [Ha|Ha]; [by apply Hno|]. destruct (Hid a Ha) as (E & _ & Hf). rewrite E.
    intros [= <-]. done.
  - intros p a Hp Ha. destruct (pa_spare _ _ _ HP p a Hp Ha) as [Hw Hn]. split; [|done].
    intros [?|?]; [done|]. by apply (Hsp p a).
Qed.

End userland.
