(* ===== verification/Process.v ===== *)
(** Processes: kernel/process.c.

    A process is a record in heap memory, linked to the next one; the code
    works on addresses.  [procs_list] relates the list in memory to a list of
    records, [Rr] is the round-robin choice [schedule] implements, and the
    theorems say what each operation does to the list. *)

From S2P Require Import Prelude Machine State Mmu Window PageSource Vga MemMap Paging MemLib Heap Descriptors.

Module Process.

Definition PROCESS_KERNEL : Z := 0.
Definition PROCESS_USER : Z := 1.
Definition KERNEL_STACK_SIZE : Z := 4096 * 4.

Definition PROCESS_READY : Z := 0.
Definition PROCESS_RUNNING : Z := 1.
Definition PROCESS_BLOCKED : Z := 2.
Definition PROCESS_ZOMBIE : Z := 4.

(** Offsets in [process_t] and its size. *)
Definition pid : Z := 0.
Definition kernel_stack : Z := 8.
Definition kernel_stack_to : Z := 12.
Definition regs : Z := 16.
Definition state : Z := 20.
Definition exit_code : Z := 24.
Definition entry : Z := 28.
Definition wake : Z := 32.
Definition next : Z := 36.
Definition parent : Z := 40.
Definition user_stack : Z := 44.
Definition sizeof_process : Z := 48.

(** Offsets in [registers_t] and its size. *)
Definition r_gs : Z := 0.
Definition r_fs : Z := 4.
Definition r_es : Z := 8.
Definition r_ds : Z := 12.
Definition r_edi : Z := 16.
Definition r_esi : Z := 20.
Definition r_ebp : Z := 24.
Definition r_esp : Z := 28.
Definition r_ebx : Z := 32.
Definition r_edx : Z := 36.
Definition r_ecx : Z := 40.
Definition r_eax : Z := 44.
Definition r_eip : Z := 48.
Definition r_cs : Z := 52.
Definition r_eflags : Z := 56.
Definition r_user_esp : Z := 60.
Definition r_user_ss : Z := 64.
Definition sizeof_registers : Z := 68.

(** [p->field] and [p->field = v]; every field is a 32-bit word. *)
Definition get (p field : Z) : K Z := load32 (p + field).
Definition set (p field v : Z) : K unit := store32 (p + field) v.

Definition get_list : K Z := gets (fun s => process_list (procs s)).
Definition get_current : K Z := gets (fun s => current_process (procs s)).
Definition set_list (p : Z) : K unit :=
  modify (set_procs (fun r => ProcState p (current_process r) (process_number r))).
Definition set_current (p : Z) : K unit :=
  modify (set_procs (fun r => ProcState (process_list r) p (process_number r))).

(** kernel/restore_esp.asm: the registers of [p] are popped and the call does
    not return. *)
Definition restore_esp {A} (p : Z) : K A := fun s => Switched p s.
(** [cli; hlt] with interrupts off. *)
Definition halted {A} : K A := fun s => Halted s.
Definition halt {A} : K A := cli;; hlt;; halted.

Fixpoint find_loop (n : nat) (pro current : Z) : K Z :=
  match n with
  | O => no_fuel
  | S n' =>
      if current =? 0 then mret 0
      else if current =? pro then mret pro
      else current ← get current next; find_loop n' pro current
  end.
Definition find_process `{Fuel} (pro : Z) : K Z :=
  current ← get_list; find_loop fuel pro current.

Fixpoint is_valid_loop (n : nat) (pro p : Z) : K Z :=
  match n with
  | O => no_fuel
  | S n' =>
      if p =? 0 then mret 0
      else if p =? pro then mret 1
      else p ← get p next; is_valid_loop n' pro p
  end.
Definition is_valid_process_ptr `{Fuel} (pro : Z) : K Z :=
  p ← get_list; is_valid_loop fuel pro p.

(** The walk of [add_process] to the last process. *)
Fixpoint last_process (n : nat) (current : Z) : K Z :=
  match n with
  | O => no_fuel
  | S n' =>
      nx ← get current next;
      if nx =? 0 then mret current
      else nx ← get current next; last_process n' nx
  end.
Definition add_process `{Fuel} (pro : Z) : K unit :=
  set pro next 0;;
  current ← get_list;
  if current =? 0 then set_list pro;; set_current pro
  else
    current ← last_process fuel current;
    set current next pro.

(** The registers [save_context] copies for every process, in its order. *)
Definition saved_registers : list Z :=
  [r_gs; r_fs; r_es; r_ds; r_edi; r_esi; r_ebp; r_esp; r_ebx; r_edx; r_ecx; r_eax;
   r_eip; r_cs; r_eflags].
(** [current_process->regs->field = regs->field] *)
Definition save_register (regs field : Z) : K unit :=
  v ← get regs field;
  p ← get_current;
  r ← get p Process.regs;
  set r field v.
Definition save_context (regs : Z) : K unit :=
  p ← get_current;
  absent ← (if p =? 0 then mret true
            else r ← get p Process.regs; mret (r =? 0));
  if absent : bool then mret tt else
  for_each saved_registers (save_register regs);;
  cs ← get regs r_cs;
  if Z.land cs 3 =? 3 then
    save_register regs r_user_esp;;
    save_register regs r_user_ss
  else mret tt.

Definition context_switch {A} (reg next : Z) : K A :=
  save_context reg;;
  set_current next;;
  top ← get next kernel_stack_to;
  Descriptors.set_tss (fun t => Tss top (ss0 t) (iomap_base t));;
  restore_esp next.

(** The two loops of [schedule]: to the end of the list, then from its head to
    the current process. *)
Fixpoint first_ready (n : nat) (p stop : Z) : K Z :=
  match n with
  | O => no_fuel
  | S n' =>
      if p =? stop then mret 0 else
      st ← get p state;
      if st =? PROCESS_READY then mret p
      else p ← get p next; first_ready n' p stop
  end.
Definition schedule `{Fuel} : K Z :=
  c ← get_current;
  p ← get c next;
  r ← first_ready fuel p 0;
  if negb (r =? 0) then mret r else
  p ← get_list;
  c ← get_current;
  first_ready fuel p c.

(** [ticks] is an [unsigned long] of kernel.c declared [extern int] here, and
    [wake] is an [int]: the comparison is signed. *)
Fixpoint wake_loop (n : nat) (p : Z) : K unit :=
  match n with
  | O => no_fuel
  | S n' =>
      if p =? 0 then mret tt else
      st ← get p state;
      (if st =? PROCESS_BLOCKED then
         t ← gets ticks;
         w ← get p wake;
         if s32 w <=? s32 t then set p state PROCESS_READY else mret tt
       else mret tt);;
      p ← get p next;
      wake_loop n' p
  end.
Definition wake_processes `{Fuel} : K unit := p ← get_list; wake_loop fuel p.

Definition exit_process `{Fuel} : K unit :=
  dead ← get_current;
  set dead state PROCESS_ZOMBIE;;
  pa ← get dead parent;
  (if negb (pa =? 0) then
     pa ← get dead parent; set pa state PROCESS_READY
   else mret tt);;
  nx ← schedule;
  (if (nx =? 0) || (nx =? dead) then
     Vga.print_string_at ("PANIC: no ready process after exit" ++ NL)%string;;
     halt
   else mret tt);;
  c ← get_current;
  (if negb (nx =? c) then set_current nx else mret tt);;
  restore_esp nx.

(** [call] stands for the code at a function pointer. *)
Definition process_entry `{Fuel} (call : Z -> K unit) : K unit :=
  c ← get_current;
  f ← get c entry;
  call f;;
  exit_process.

Fixpoint remove_loop (n : nat) (remove : Z -> K unit) (pro current previous : Z) : K unit :=
  match n with
  | O => no_fuel
  | S n' =>
      if current =? 0 then mret tt
      else if current =? pro then
        (if previous =? 0 then
           nx ← get current next; set_list nx
         else
           nx ← get current next; set previous next nx);;
        remove current
      else
        nx ← get current next;
        remove_loop n' remove pro nx current
  end.

Section layout.
Context `{Layout} `{Fuel}.

Definition remove_process (pro : Z) : K unit :=
  ks ← get pro kernel_stack;
  Paging.free_page ks;;
  Heap.kfree pro.
Definition remove_process_list (pro : Z) : K unit :=
  current ← get_list; remove_loop fuel remove_process pro current 0.

(** The registers a new process starts with. *)
Definition init_regs (regs entry mode kernel_stack user_stack : Z) : K unit :=
  MemLib.memset regs 0 sizeof_registers;;
  if mode =? PROCESS_KERNEL then
    set regs r_gs Descriptors.KERNEL_DS;;
    set regs r_fs Descriptors.KERNEL_DS;;
    set regs r_es Descriptors.KERNEL_DS;;
    set regs r_ds Descriptors.KERNEL_DS;;
    set regs r_eip process_entry_addr;;
    set regs r_cs Descriptors.KERNEL_CS;;
    set regs r_eflags 0x202;;
    set regs r_esp (kernel_stack + KERNEL_STACK_SIZE)
  else
    set regs r_gs Descriptors.USER_DS;;
    set regs r_fs Descriptors.USER_DS;;
    set regs r_es Descriptors.USER_DS;;
    set regs r_ds Descriptors.USER_DS;;
    set regs r_eip entry;;
    set regs r_cs Descriptors.USER_CS;;
    set regs r_eflags 0x202;;
    set regs r_esp (kernel_stack + KERNEL_STACK_SIZE);;
    set regs r_user_esp (user_stack + 4096);;
    set regs r_user_ss Descriptors.USER_DS.

(** From [pro->regs = regs] on: the record is filled in and linked. *)
Definition init_process (pro entry mode kernel_stack user_stack : Z) : K unit :=
  let regs := u32 (kernel_stack + KERNEL_STACK_SIZE - sizeof_registers) in
  set pro Process.regs regs;;
  set pro Process.kernel_stack kernel_stack;;
  set pro kernel_stack_to (kernel_stack + KERNEL_STACK_SIZE);;
  n ← gets (fun s => process_number (procs s));
  modify (set_procs (fun r => ProcState (process_list r) (current_process r) (u16 (n + 1))));;
  set pro pid n;;
  set pro state PROCESS_READY;;
  set pro wake 0;;
  set pro next 0;;
  set pro Process.entry entry;;
  init_regs regs entry mode kernel_stack user_stack;;
  c ← get_current;
  set pro parent c;;
  add_process pro.

Definition create_process (entry mode : Z) : K Z :=
  pro ← Heap.kmalloc sizeof_process (Z.lor Paging.PAGE_PRESENT Paging.PAGE_WRITE);
  if pro =? 0 then mret 0 else
  kernel_stack ← Paging.allocate_pages_contig (KERNEL_STACK_SIZE / 4096)
                   (Z.lor Paging.PAGE_PRESENT Paging.PAGE_WRITE);
  if kernel_stack =? 0 then Heap.kfree pro;; mret 0 else
  us ← (if mode =? PROCESS_USER then
          us ← Paging.allocate_page
                 (Z.lor (Z.lor Paging.PAGE_PRESENT Paging.PAGE_WRITE) Paging.PAGE_USER);
          if us =? 0 then mret None
          else set pro user_stack us;; mret (Some us)
        else mret (Some 0));
  match us with
  | None =>
      Paging.free_page kernel_stack;;
      Heap.kfree pro;;
      mret 0
  | Some us =>
      init_process pro entry mode kernel_stack us;;
      mret pro
  end.

End layout.
End Process.

(** * The process list in memory *)

Section list.
Import Process.

Definition field (s : kst) (p off : Z) : Z := rd32 s (p + off).

(** The processes [l], linked from [a] to the pointer [z]. *)
Fixpoint path (s : kst) (a : Z) (l : list Z) (z : Z) : Prop :=
  match l with
  | [] => a = z
  | p :: l' => a = p /\ path s (field s p next) l' z
  end.

Record proc_ok (W : Z -> Prop) (p : Z) : Prop := {
  pr_addr : 0 < p;
  pr_end : p + sizeof_process < 2 ^ 32;
  pr_in : subset (span p sizeof_process) W
}.
Definition apart_procs (p q : Z) : Prop := p + sizeof_process <= q \/ q + sizeof_process <= p.
Fixpoint separate_procs (l : list Z) : Prop :=
  match l with
  | [] => True
  | p :: l' => Forall (apart_procs p) l' /\ separate_procs l'
  end.

(** [l] is the list the kernel holds, inside the addresses [W]. *)
Record procs_list (s : kst) (W : Z -> Prop) (l : list Z) : Prop := {
  pl_window : window s W;
  pl_path : path s (process_list (procs s)) l 0;
  pl_procs : Forall (proc_ok W) l;
  pl_separate : separate_procs l
}.

Lemma path_app s a l1 l2 z :
  path s a (l1 ++ l2) z <-> exists m, path s a l1 m /\ path s m l2 z.
Proof.
  revert a. induction l1 as [|p l1 IH]; intros a; simpl.
  - split; [intros H; by exists a|by intros (m & -> & H)].
  - rewrite IH. split; [intros (-> & m & H1 & H2)|intros (m & [-> H1] & H2)]; eauto.
Qed.

Lemma separate_procs_app l1 l2 :
  separate_procs (l1 ++ l2) <->
  separate_procs l1 /\ separate_procs l2 /\ Forall (fun p => Forall (apart_procs p) l2) l1.
Proof.
  induction l1 as [|b l1 IH]; simpl; [by rewrite Forall_nil; tauto|].
  rewrite IH, Forall_app, Forall_cons. tauto.
Qed.

Lemma separate_procs_pair l p q :
  separate_procs l -> p ∈ l -> q ∈ l -> p = q \/ apart_procs p q.
Proof.
  induction l as [|r l IH]; [by intros _ ?%elem_of_nil|]. simpl.
  intros [Hr Hs]. rewrite !elem_of_cons. rewrite Forall_forall in Hr.
  intros [->|Hp] [->|Hq]; [by left|right; by apply Hr|right|by apply IH].
  specialize (Hr p Hp). unfold apart_procs in *. lia.
Qed.

Lemma separate_procs_nodup l : separate_procs l -> NoDup l.
Proof.
  induction l as [|p l IH]; simpl; [by constructor|]. intros [Hp Hs].
  constructor; [|by apply IH]. intros Hin. rewrite Forall_forall in Hp.
  specialize (Hp p Hin). unfold apart_procs, sizeof_process in Hp. lia.
Qed.

Lemma record_in W p off n :
  proc_ok W p -> 0 <= off -> off + n <= sizeof_process -> subset (span (p + off) n) W.
Proof. intros [_ _ Hin] Ho Hn x Hx. apply Hin. unfold span in *. lia. Qed.

(** [get] and [set] on any four bytes of a window. *)
Lemma get_ok s W p off :
  window s W -> subset (span (p + off) 4) W -> get p off s = Ok (field s p off) s.
Proof. intros HW Hin. unfold get, load32. by rewrite (load_ok s W HW 4). Qed.

Lemma get_proc_ok s W p off :
  window s W -> proc_ok W p -> 0 <= off -> off + 4 <= sizeof_process ->
  get p off s = Ok (field s p off) s.
Proof. intros HW Hp Ho Hn. apply (get_ok s W); [done|]. by apply record_in. Qed.

Lemma set_ok s W p off v :
  window s W -> subset (span (p + off) 4) W ->
  exists s', set p off v s = Ok tt s' /\ stores (span (p + off) 4) s s' /\
    field s' p off = u32 v /\
    forall m b, subset (span b (Z.of_nat m)) W ->
      b + Z.of_nat m <= p + off \/ p + off + 4 <= b -> rd m s' b = rd m s b.
Proof. intros HW Hin. unfold set, store32, field, rd32. apply (store_frame s W 4); done. Qed.

(** The fields of the processes of the list. *)
Definition same_fields (s s' : kst) (l : list Z) : Prop :=
  forall p off, p ∈ l -> 0 <= off -> off + 4 <= sizeof_process -> field s' p off = field s p off.

Lemma path_same s s' a l z :
  (forall p, p ∈ l -> field s' p next = field s p next) -> path s a l z -> path s' a l z.
Proof.
  revert a. induction l as [|p l IH]; intros a H; simpl; [done|]. intros [-> Hp].
  split; [done|]. rewrite H by (apply elem_of_cons; by left). apply IH; [|done].
  intros q Hq. apply H. apply elem_of_cons. by right.
Qed.

End list.

(** * The scheduler *)

Section scheduler.
Import Process.
Context `{Fuel}.

Definition ready (s : kst) (p : Z) : bool := field s p state =? PROCESS_READY.

Lemma first_ready_ok (n : nat) s W a l stop :
  window s W -> Forall (proc_ok W) l -> path s a l stop -> ~ stop ∈ l -> (length l < n)%nat ->
  first_ready n a stop s = Ok (default 0 (List.find (ready s) l)) s.
Proof.
  intros HW. revert a l. induction n as [|n IH]; intros a l Hok Hpath Hstop Hn; [lia|].
  destruct l as [|p l]; simpl in Hpath |- *.
  { subst a. by rewrite Z.eqb_refl. }
  destruct Hpath as [-> Hpath]. apply Forall_cons in Hok as [Hp Hok].
  apply not_elem_of_cons in Hstop as [Hne Hstop].
  rewrite (proj2 (Z.eqb_neq p stop)) by congruence.
  run_with (get_proc_ok s W p state HW Hp ltac:(done) ltac:(done)).
  unfold ready at 1. destruct (field s p state =? PROCESS_READY); [done|].
  run_with (get_proc_ok s W p next HW Hp ltac:(done) ltac:(done)).
  apply IH; [done|done|done|simpl in Hn; lia].
Qed.

(** What round robin chooses: the first ready process after the current one, in
    the order of the list, going round to its head. *)
Definition round_robin (s : kst) (before after : list Z) : Z :=
  default 0 (List.find (ready s) (after ++ before)).

Lemma find_nonzero (f : Z -> bool) l :
  Forall (fun p => 0 < p) l -> default 0 (List.find f l) = 0 -> List.find f l = None.
Proof.
  induction l as [|p l IH]; simpl; [done|]. intros [Hp Hl]%Forall_cons.
  destruct (f p); simpl; [lia|by apply IH].
Qed.

Lemma schedule_ok s W l1 c l2 :
  procs_list s W (l1 ++ c :: l2) -> current_process (procs s) = c ->
  (length (l1 ++ c :: l2) < fuel)%nat ->
  schedule s = Ok (round_robin s l1 l2) s.
Proof.
  intros [HW Hpath Hok Hsep] Hc Hlen.
  pose proof (separate_procs_nodup _ Hsep) as Hnd.
  apply path_app in Hpath as (m & Hpath1 & -> & Hpath2).
  pose proof Hok as [Hok1 [Hokc Hok2]%Forall_cons]%Forall_app.
  rewrite length_app in Hlen. simpl in Hlen.
  unfold schedule, get_current. rewrite gets_bind, Hc.
  run_with (get_proc_ok s W c next HW Hokc ltac:(done) ltac:(done)).
  assert (~ 0 ∈ l2) as H0.
  { intros Hin. rewrite Forall_forall in Hok2. destruct (Hok2 0 Hin). lia. }
  run_with (first_ready_ok fuel s W _ l2 0 HW Hok2 Hpath2 H0 ltac:(lia)).
  unfold round_robin. rewrite find_app.
  destruct (Z.eqb_spec (default 0 (List.find (ready s) l2)) 0) as [Hz|Hnz]; simpl.
  - apply find_nonzero in Hz; [|eapply Forall_impl; [exact Hok2|by intros p []]]. rewrite Hz.
    unfold get_list. run. rewrite Hc. apply (first_ready_ok fuel s W); try done; [|lia].
    apply NoDup_app in Hnd as (_ & Hdis & _). intros Hin.
    apply (Hdis c Hin). apply elem_of_cons. by left.
  - by destruct (List.find (ready s) l2).
Qed.

Lemma others_not_current s W l1 c l2 : procs_list s W (l1 ++ c :: l2) -> ~ c ∈ l2 ++ l1.
Proof.
  intros [_ _ _ Hsep]. pose proof (separate_procs_nodup _ Hsep) as Hnd.
  apply NoDup_app in Hnd as (_ & Hdis & Hnd2). apply NoDup_cons in Hnd2 as [Hc2 _].
  intros [?|Hin]%elem_of_app; [done|]. apply (Hdis c Hin). apply elem_of_cons. by left.
Qed.

Lemma default_find_in (f : Z -> bool) l :
  default 0 (List.find f l) <> 0 -> default 0 (List.find f l) ∈ l.
Proof.
  destruct (List.find f l) as [q|] eqn:Hf; simpl; [|done]. intros _.
  destruct (find_split _ _ _ Hf) as (a & b & -> & _). apply elem_of_app. right. by left.
Qed.

(** C19: [schedule] is round robin: it returns the first ready process after the
    current one, going round the list, never the current process itself, and 0
    exactly when no other process is ready; it changes nothing. *)
Theorem schedule_round_robin s W l1 c l2 :
  procs_list s W (l1 ++ c :: l2) -> current_process (procs s) = c ->
  (length (l1 ++ c :: l2) < fuel)%nat ->
  schedule s = Ok (round_robin s l1 l2) s /\
  (round_robin s l1 l2 = 0 -> forall p, p ∈ l2 ++ l1 -> field s p state <> PROCESS_READY) /\
  (round_robin s l1 l2 <> 0 ->
     exists a b, l2 ++ l1 = a ++ round_robin s l1 l2 :: b /\
       field s (round_robin s l1 l2) state = PROCESS_READY /\ round_robin s l1 l2 <> c /\
       forall p, p ∈ a -> field s p state <> PROCESS_READY).
Proof.
  intros HL Hc Hlen. split; [by apply (schedule_ok s W l1 c l2)|].
  pose proof (others_not_current _ _ _ _ _ HL) as Hcur. destruct HL as [_ _ Hok _].
  assert (Forall (fun p => 0 < p) (l2 ++ l1)) as Hpos.
  { apply Forall_app in Hok as [Hok1 [_ Hok2]%Forall_cons]. apply Forall_app.
    split; (eapply Forall_impl; [eassumption|by intros p []]). }
  unfold round_robin. split.
  - intros Hz p Hp. apply find_nonzero in Hz; [|done].
    apply Z.eqb_neq. by apply (proj1 (find_none_iff _ _) Hz).
  - destruct (List.find (ready s) (l2 ++ l1)) as [q|] eqn:Hf; simpl; [|done]. intros _.
    destruct (find_split _ _ _ Hf) as (a & b & Hl & Hq & Ha). exists a, b.
    split; [done|]. split; [by apply Z.eqb_eq|]. split.
    + intros ->. apply Hcur. rewrite Hl. apply elem_of_app. right. by left.
    + intros p Hp. apply Z.eqb_neq. by apply Ha.
Qed.

(** ** Waking up *)

Definition due (s : kst) (p : Z) : bool :=
  (field s p state =? PROCESS_BLOCKED) && (s32 (field s p wake) <=? s32 (ticks s)).
Definition woken (s : kst) (p : Z) : Z := if due s p then PROCESS_READY else field s p state.

(** Bytes outside the records [l]. *)
Definition kept_outside (s s' : kst) (W : Z -> Prop) (l : list Z) : Prop :=
  forall m b, subset (span b (Z.of_nat m)) W ->
    (forall p, p ∈ l -> b + Z.of_nat m <= p \/ p + sizeof_process <= b) -> rd m s' b = rd m s b.

Lemma kept_field s s' W l p off :
  kept_outside s s' W l -> proc_ok W p -> Forall (apart_procs p) l -> 0 <= off ->
  off + 4 <= sizeof_process -> field s' p off = field s p off.
Proof.
  intros HK Hp Hap Ho Hn. unfold field, rd32. apply HK; [by apply record_in|].
  intros q Hq. rewrite Forall_forall in Hap. specialize (Hap q Hq). unfold apart_procs in Hap. lia.
Qed.

(** Setting one field of one process. *)
Lemma set_field_ok s W l p off v :
  window s W -> Forall (proc_ok W) l -> separate_procs l -> p ∈ l ->
  0 <= off -> off + 4 <= sizeof_process ->
  exists s', set p off v s = Ok tt s' /\ stores (span p sizeof_process) s s' /\
    field s' p off = u32 v /\
    (forall q o, q ∈ l -> 0 <= o -> o + 4 <= sizeof_process ->
       q <> p \/ o + 4 <= off \/ off + 4 <= o -> field s' q o = field s q o) /\
    kept_outside s s' W [p].
Proof.
  intros HW Hok Hsep Hp Ho Hn. rewrite Forall_forall in Hok.
  destruct (set_ok s W p off v HW) as (s' & R & S & V & F); [by apply record_in; [apply Hok|..]|].
  exists s'. split; [exact R|]. split.
  { apply (stores_weaken _ _ _ _ S); [intros x; unfold span; lia|].
    intros x Hx. apply (win_u32 _ _ HW). by apply (pr_in _ _ (Hok p Hp)). }
  split; [done|]. split.
  - intros q o Hq Ho' Hn' Hd. unfold field, rd32. apply F; [by apply record_in; [apply Hok|..]|].
    destruct (separate_procs_pair l q p Hsep Hq Hp) as [->|Hqp]; [destruct Hd; [done|lia]|].
    unfold apart_procs, sizeof_process in *. lia.
  - intros m b Hb Hd. apply F; [done|]. specialize (Hd p ltac:(by apply list_elem_of_singleton)).
    unfold sizeof_process in *. lia.
Qed.

(** Setting the state of one process of the list. *)
Lemma set_state_ok s W l p v :
  procs_list s W l -> p ∈ l ->
  exists s', set p state v s = Ok tt s' /\ procs_list s' W l /\
    (exists m, s' = set_mach (fun _ => m) s) /\ field s' p state = u32 v /\
    (forall q off, q ∈ l -> 0 <= off -> off + 4 <= sizeof_process ->
       q <> p \/ off + 4 <= state \/ state + 4 <= off -> field s' q off = field s q off) /\
    kept_outside s s' W l.
Proof.
  intros [HW Hpath Hok Hsep] Hp.
  destruct (set_field_ok s W l p state v HW Hok Hsep Hp) as (s' & R & S & V & F & K); [done..|].
  exists s'. split; [exact R|]. split.
  - split; [by apply (stores_window _ _ _ _ S)| |done|done].
    destruct (st_machine _ _ _ S) as [m ->]. apply (path_same s); [|done].
    intros q Hq. apply F; [done|done|done|right; right; done].
  - split; [apply (st_machine _ _ _ S)|]. split; [done|]. split; [done|].
    intros m b Hb Hd. apply K; [done|]. intros q ->%list_elem_of_singleton. by apply Hd.
Qed.

(** The body of the loop on one process. *)
Lemma wake_one s W p :
  window s W -> proc_ok W p ->
  exists s', (st ← get p state;
      if st =? PROCESS_BLOCKED then
         t ← gets ticks;
         w ← get p wake;
         if s32 w <=? s32 t then set p state PROCESS_READY else mret tt
       else mret tt) s = Ok tt s' /\
    stores (span p sizeof_process) s s' /\ field s' p state = woken s p /\
    (forall off, 0 <= off -> off + 4 <= sizeof_process -> off + 4 <= state \/ state + 4 <= off ->
       field s' p off = field s p off) /\
    kept_outside s s' W [p].
Proof.
  intros HW Hp. pose proof (pr_in _ _ Hp) as Hin.
  pose proof (stores_none _ s W HW Hin) as S0.
  run_with (get_proc_ok s W p state HW Hp ltac:(done) ltac:(done)).
  unfold woken, due. destruct (field s p state =? PROCESS_BLOCKED); simpl.
  2:{ exists s. split; [reflexivity|]. split; [exact S0|]. split; [done|]. by split. }
  rewrite gets_bind. run_with (get_proc_ok s W p wake HW Hp ltac:(done) ltac:(done)).
  match goal with |- context [if ?b then set _ _ _ else _] =>
    change b with (s32 (field s p wake) <=? s32 (ticks s)) end.
  destruct (s32 (field s p wake) <=? s32 (ticks s)).
  2:{ exists s. split; [reflexivity|]. split; [exact S0|]. split; [done|]. by split. }
  destruct (set_ok s W p state PROCESS_READY HW) as (s' & R & S & V & F); [by apply record_in|].
  exists s'. split; [done|]. split.
  { apply (stores_weaken _ _ _ _ S); [|exact (st_u32 _ _ _ S0)].
    intros x. unfold span, state, sizeof_process. lia. }
  split; [done|]. split.
  - intros off Ho Hn Hs. unfold field, rd32. apply F; [by apply record_in|lia].
  - intros m b Hb Hd. apply F; [done|]. specialize (Hd p ltac:(by apply list_elem_of_singleton)).
    unfold state, sizeof_process in *. lia.
Qed.

Lemma wake_loop_ok (n : nat) s W a l :
  window s W -> Forall (proc_ok W) l -> separate_procs l -> path s a l 0 -> (length l < n)%nat ->
  exists s', wake_loop n a s = Ok tt s' /\ stores W s s' /\
    (forall p, p ∈ l -> field s' p state = woken s p /\
       forall off, 0 <= off -> off + 4 <= sizeof_process -> off + 4 <= state \/ state + 4 <= off ->
         field s' p off = field s p off) /\
    kept_outside s s' W l.
Proof.
  revert s a l. induction n as [|n IH]; intros s a l HW Hok Hsep Hpath Hn; [lia|].
  destruct l as [|p l]; simpl in Hpath |- *.
  { subst a. exists s. split; [done|]. split; [by apply (stores_none W s W); [done|intros x]|].
    split; [by intros p ?%elem_of_nil|done]. }
  destruct Hpath as [-> Hpath]. apply Forall_cons in Hok as [Hp Hok]. destruct Hsep as [Hap Hsep].
  rewrite (proj2 (Z.eqb_neq p 0)) by (destruct Hp; lia).
  destruct (wake_one s W p HW Hp) as (s1 & R1 & S1 & V1 & F1 & K1).
  rewrite <- bind_assoc. run_with R1.
  pose proof (stores_window _ _ _ _ S1 HW) as HW1.
  run_with (get_proc_ok s1 W p next HW1 Hp ltac:(done) ltac:(done)).
  rewrite F1 by (unfold next, state, sizeof_process; lia).
  assert (forall q off, q ∈ l -> 0 <= off -> off + 4 <= sizeof_process ->
    field s1 q off = field s q off) as Hq.
  { intros q off Hin Ho Hf. rewrite Forall_forall in Hok, Hap.
    apply (kept_field s s1 W [p]); try done; [by apply Hok|]. apply Forall_singleton.
    specialize (Hap q Hin). unfold apart_procs in *. lia. }
  assert (forall q, q ∈ l -> woken s1 q = woken s q) as Hwk.
  { intros q Hin. unfold woken, due. rewrite !Hq by (done || (unfold state, wake, sizeof_process; lia)).
    destruct (st_machine _ _ _ S1) as [m ->]. done. }
  destruct (IH s1 (field s p next) l HW1 Hok Hsep) as (s2 & R2 & S2 & V2 & K2).
  { apply (path_same s); [|done]. intros q Hin. by apply Hq. }
  { simpl in Hn. lia. }
  exists s2. split; [done|]. split.
  { apply (stores_again _ _ s1); [|done]. apply (stores_weaken _ _ _ _ S1); [apply Hp|].
    exact (win_u32 _ _ HW). }
  split.
  - intros q [->|Hin]%elem_of_cons.
    + assert (forall off, 0 <= off -> off + 4 <= sizeof_process -> field s2 p off = field s1 p off) as Hk
        by (intros off Ho Hf; by apply (kept_field s1 s2 W l)).
      rewrite Hk by (unfold state, sizeof_process; lia). split; [done|].
      intros off Ho Hf Hd. rewrite Hk by done. by apply F1.
    + destruct (V2 q Hin) as [Va Vb]. rewrite Va, Hwk by done. split; [done|].
      intros off Ho Hf Hd. rewrite Vb, Hq by done. done.
  - intros m b Hb Hd. rewrite K2, K1; try done.
    + intros q ->%list_elem_of_singleton. apply Hd, elem_of_cons. by left.
    + intros q Hin. apply Hd, elem_of_cons. by right.
Qed.

(** [wake_processes] makes ready exactly the blocked processes whose
    deadline has come, in the signed order of 32-bit ticks, and changes no
    other field of any process, nor any byte outside their records. *)
Theorem wake_processes_wakes s W l :
  procs_list s W l -> (length l < fuel)%nat ->
  exists s', wake_processes s = Ok tt s' /\ procs_list s' W l /\ stores W s s' /\
    (forall p, p ∈ l -> field s' p state =
       if (field s p state =? PROCESS_BLOCKED) && (s32 (field s p wake) <=? s32 (ticks s))
       then PROCESS_READY else field s p state) /\
    (forall p off, p ∈ l -> 0 <= off -> off + 4 <= sizeof_process ->
       off + 4 <= state \/ state + 4 <= off -> field s' p off = field s p off) /\
    kept_outside s s' W l.
Proof.
  intros [HW Hpath Hok Hsep] Hlen.
  destruct (wake_loop_ok fuel s W _ l HW Hok Hsep Hpath Hlen) as (s' & R & S & V & K).
  exists s'. split; [exact R|]. split.
  { destruct (st_machine _ _ _ S) as [m Hm]. split; [by apply (stores_window _ _ _ _ S)| |done|done].
    assert (procs s' = procs s) as -> by (by subst).
    apply (path_same s); [|done]. intros p Hp. destruct (V p Hp) as [_ Vf].
    apply Vf; unfold next, state, sizeof_process; lia. }
  split; [exact S|]. split; [intros p Hp; exact (proj1 (V p Hp))|]. split; [|exact K].
  intros p off Hp. exact (proj2 (V p Hp) off).
Qed.

End scheduler.
