(* ===== verification/Switch.v ===== *)
(** Leaving a process: [save_context], [context_switch] and [exit_process] of
    kernel/process.c.

    [context_switch] stores the interrupt frame in the register record of the
    current process before the next one is restored; [exit_process] abandons
    the current one. *)

From S2P Require Import Prelude Machine State Mmu Window PageSource Vga MemMap Paging MemLib Heap Descriptors Process.

(** * Saving the interrupt frame *)

Section saving.
Import Process.

(** Where [save_context] may run: [c] is the current process, [f] the frame the
    interrupt pushed.  The frame is the record of [c] itself (an interrupt of
    user code pushes it there) or lies apart from it. *)
Record saveable (s : kst) (W : Z -> Prop) (c f : Z) : Prop := {
  sv_window : window s W;
  sv_current : current_process (procs s) = c /\ c <> 0;
  sv_regs_in : subset (span (c + regs) 4) W;
  sv_regs : field s c regs <> 0;
  sv_record : subset (span (field s c regs) sizeof_registers) W;
  sv_frame : subset (span f sizeof_registers) W;
  sv_apart : f = field s c regs \/ f + sizeof_registers <= field s c regs \/
             field s c regs + sizeof_registers <= f;
  sv_outside : c + regs + 4 <= field s c regs \/ field s c regs + sizeof_registers <= c + regs
}.

Lemma saved_registers_at n off :
  saved_registers !! n = Some off -> off = 4 * Z.of_nat n /\ (n < 15)%nat.
Proof.
  intros H. pose proof (lookup_lt_Some _ _ _ H) as Hn. simpl in Hn. split; [|done].
  do 15 (destruct n as [|n]; [by injection H as <-|]). simpl in Hn. lia.
Qed.

(** The registers of the frame numbered [lo] to [hi] are in the record of
    [c], nothing else has changed. *)
Definition saved (s s' : kst) (W : Z -> Prop) (c f lo hi : Z) : Prop :=
  let rp := field s c regs in
  stores (span rp sizeof_registers) s s' /\
  (forall k, lo <= k < hi -> field s' rp (4 * k) = field s f (4 * k)) /\
  (forall m b, subset (span b (Z.of_nat m)) W ->
     b + Z.of_nat m <= rp + 4 * lo \/ rp + 4 * hi <= b -> rd m s' b = rd m s b).

Lemma save_register_ok s s1 W c f k off :
  saveable s W c f -> saved s s1 W c f 0 k -> 0 <= k < 17 -> off = 4 * k ->
  exists s2, save_register f off s1 = Ok tt s2 /\ saved s s2 W c f 0 (k + 1).
Proof.
  intros HS (S1 & V1 & F1) Hk ->. pose proof HS as [HW [Hc Hc0] Hci Hr Hrec Hf Hap Hout].
  pose proof (stores_window _ _ _ _ S1 HW) as HW1. unfold sizeof_registers in *.
  assert (subset (span (f + 4 * k) 4) W) as Hfk by (intros x Hx; apply Hf; unfold span in *; lia).
  assert (field s1 c regs = field s c regs) as Hreg.
  { unfold field, rd32. apply F1; [done|unfold regs in *; lia]. }
  assert (field s1 f (4 * k) = field s f (4 * k)) as Hsrc by (apply F1; [done|lia]).
  unfold save_register. run_with (get_ok s1 W f (4 * k) HW1 Hfk).
  assert (get_current s1 = Ok c s1) as Hcur.
  { destruct (st_machine _ _ _ S1) as [m ->]. unfold get_current, gets. simpl. by rewrite Hc. }
  run_with Hcur. run_with (get_ok s1 W c regs HW1 Hci). rewrite Hreg, Hsrc.
  set (rp := field s c regs) in *.
  assert (subset (span (rp + 4 * k) 4) W) as Hrk by (intros x Hx; apply Hrec; unfold span in *; lia).
  destruct (set_ok s1 W rp (4 * k) (field s f (4 * k)) HW1 Hrk) as (s2 & R2 & S2 & V2 & F2).
  exists s2. split; [done|]. split; [|split].
  - apply (stores_span_trans _ s1 _ _ _ _ _ S1 S2); unfold sizeof_registers; lia.
  - intros m Hm. fold rp. destruct (decide (m = k)) as [->|Hne].
    + rewrite V2. apply u32_small, rd32_range.
    + rewrite <- V1 by lia. unfold field at 1 2. fold rp. unfold rd32. apply F2; [|lia].
      intros x Hx. apply Hrec. unfold span in *. lia.
  - intros m b Hb Hd. fold rp in Hd. rewrite F2 by (done || lia). apply F1; [done|]. fold rp. lia.
Qed.

Lemma save_all_ok s W c f :
  saveable s W c f ->
  exists s', for_each saved_registers (save_register f) s = Ok tt s' /\ saved s s' W c f 0 15.
Proof.
  intros HS. pose proof HS as [HW _ _ _ Hrec _ _ _].
  destruct (for_each_inv (fun n s1 => saved s s1 W c f 0 (Z.of_nat n)) saved_registers
    (save_register f) s) as (s' & R & HV).
  - split; [by apply (stores_none _ s W)|]. split; [lia|done].
  - intros n off s1 Hn HV. apply saved_registers_at in Hn as [-> Hn].
    rewrite Nat2Z.inj_succ. apply (save_register_ok s s1 W c f); try done; lia.
  - by exists s'.
Qed.

(** The number of registers a frame has: an interrupt of user code also pushes
    the user's stack pointer. *)
Definition frame_registers (s : kst) (f : Z) : Z :=
  if Z.land (field s f r_cs) 3 =? 3 then 17 else 15.

Lemma save_context_ok s W c f :
  saveable s W c f ->
  exists s', save_context f s = Ok tt s' /\ saved s s' W c f 0 (frame_registers s f).
Proof.
  intros HS. pose proof HS as [HW [Hc Hc0] Hci Hr Hrec Hf Hap Hout].
  unfold save_context, get_current. rewrite gets_bind, Hc, (proj2 (Z.eqb_neq c 0)) by done.
  rewrite bind_assoc. run_with (get_ok s W c regs HW Hci). rewrite ret_bind.
  rewrite (proj2 (Z.eqb_neq _ 0)) by done.
  destruct (save_all_ok s W c f HS) as (s1 & R1 & HV1). run_with R1.
  pose proof HV1 as (S1 & V1 & F1). pose proof (stores_window _ _ _ _ S1 HW) as HW1.
  run_with (get_ok s1 W f r_cs HW1 ltac:(intros x Hx; apply Hf; unfold span, r_cs, sizeof_registers in *; lia)).
  assert (field s1 f r_cs = field s f r_cs) as ->.
  { destruct Hap as [->|Hap]; [apply (V1 13); lia|]. apply F1; unfold sizeof_registers, r_cs in *; [|lia].
    intros x Hx. apply Hf. unfold span in *. lia. }
  unfold frame_registers. destruct (Z.land (field s f r_cs) 3 =? 3).
  - destruct (save_register_ok s s1 W c f 15 r_user_esp HS HV1) as (s2 & R2 & HV2); [lia|done|].
    run_with R2. apply (save_register_ok s s2 W c f 16 r_user_ss HS HV2); [lia|done].
  - by exists s1.
Qed.

End saving.

(** * Switching *)

Section switching.
Import Process.

Lemma context_switch_ok {A} s W c f nxt :
  let rp := field s c regs in
  saveable s W c f -> subset (span (nxt + kernel_stack_to) 4) W ->
  nxt + kernel_stack_to + 4 <= rp \/ rp + sizeof_registers <= nxt + kernel_stack_to ->
  exists s', context_switch f nxt s = (Switched nxt s' : outcome A) /\
    current_process (procs s') = nxt /\ process_list (procs s') = process_list (procs s) /\
    ticks s' = ticks s /\ window s' W /\
    esp0 (tss (descs s')) = field s nxt kernel_stack_to /\
    (forall k, 0 <= k < frame_registers s f -> field s' rp (4 * k) = field s f (4 * k)) /\
    (forall m b, subset (span b (Z.of_nat m)) W ->
       b + Z.of_nat m <= rp \/ rp + 4 * frame_registers s f <= b -> rd m s' b = rd m s b).
Proof.
  intros rp HS Hn Hd. pose proof HS as [HW [Hc Hc0] Hci Hr Hrec Hf Hap Hout]. fold rp in Hr, Hrec.
  destruct (save_context_ok s W c f HS) as (s1 & R1 & S1 & V1 & F1). fold rp in S1, V1, F1.
  unfold context_switch. run_with R1. unfold set_current. rewrite modify_bind.
  set (s2 := set_procs _ s1).
  assert (get nxt kernel_stack_to s2 = Ok (field s nxt kernel_stack_to) s2) as Rg.
  { rewrite (get_ok s2 W); [|by apply (window_mach s1), (stores_window _ _ _ _ S1)|done].
    f_equal. unfold field, rd32. rewrite (rd_mach 4 s1) by done. apply F1; [done|].
    unfold frame_registers, sizeof_registers in *. case_match; lia. }
  run_with Rg. unfold Descriptors.set_tss. rewrite modify_bind.
  eexists. split; [reflexivity|]. simpl. split; [done|]. split.
  { by destruct (st_machine _ _ _ S1) as [m ->]. }
  split.
  { by destruct (st_machine _ _ _ S1) as [m ->]. }
  split; [by apply (window_mach s1), (stores_window _ _ _ _ S1)|].
  split; [done|]. split.
  - intros k Hk. rewrite <- V1 by done. apply (rd_mach 4). done.
  - intros m b Hb Hx. rewrite (rd_mach m s1) by done. apply F1; [done|]. rewrite Z.mul_0_r, Z.add_0_r. done.
Qed.

(** C20: [context_switch] stores every register of the interrupt frame in the
    record of the process it leaves (the user's stack pointer too, exactly when
    the frame is of user code), writes nothing else in memory, makes the next
    process current, points tss.esp0 at the top of its kernel stack, and goes
    on in it: the call does not return. *)
Theorem context_switch_saves_and_switches {A} s W c f nxt :
  let rp := field s c regs in
  saveable s W c f -> subset (span (nxt + kernel_stack_to) 4) W ->
  nxt + kernel_stack_to + 4 <= rp \/ rp + sizeof_registers <= nxt + kernel_stack_to ->
  exists s', context_switch f nxt s = (Switched nxt s' : outcome A) /\
    current_process (procs s') = nxt /\ process_list (procs s') = process_list (procs s) /\
    esp0 (tss (descs s')) = field s nxt kernel_stack_to /\
    (forall k, 0 <= k < frame_registers s f -> field s' rp (4 * k) = field s f (4 * k)) /\
    (forall m b, subset (span b (Z.of_nat m)) W ->
       b + Z.of_nat m <= rp \/ rp + 4 * frame_registers s f <= b -> rd m s' b = rd m s b).
Proof.
  intros rp HS Hn Hd.
  destruct (context_switch_ok (A := A) s W c f nxt HS Hn Hd) as (s' & R & C & L & _ & _ & E).
  by exists s'.
Qed.

(** ** Switching inside a process list

    [c] runs and is in the list, [f] is the interrupt frame; the frame and the
    register record of [c] are in the kernel stacks, apart from the records of
    the processes. *)
Definition apart_span (b n p : Z) : Prop := b + n <= p \/ p + sizeof_process <= b.

Record preemptible (s : kst) (W : Z -> Prop) (l : list Z) (c f : Z) : Prop := {
  pe_list : procs_list s W l;
  pe_current : current_process (procs s) = c;
  pe_in : c ∈ l;
  pe_regs : field s c regs <> 0;
  pe_record : subset (span (field s c regs) sizeof_registers) W;
  pe_frame : subset (span f sizeof_registers) W;
  pe_same : f = field s c regs \/ f + sizeof_registers <= field s c regs \/
            field s c regs + sizeof_registers <= f;
  pe_record_apart : forall p, p ∈ l -> apart_span (field s c regs) sizeof_registers p;
  pe_frame_apart : forall p, p ∈ l -> apart_span f sizeof_registers p
}.

Lemma in_proc_ok s W l p : procs_list s W l -> p ∈ l -> proc_ok W p.
Proof. intros [_ _ Hok _]. by apply Forall_forall. Qed.

Lemma preemptible_saveable s W l c f : preemptible s W l c f -> saveable s W c f.
Proof.
  intros [HL Hc Hin Hr Hrec Hf Hs Hra Hfa]. pose proof (in_proc_ok s W l c HL Hin) as Hp.
  split; try done.
  - apply HL.
  - split; [done|]. destruct Hp. lia.
  - by apply record_in.
  - specialize (Hra c Hin). unfold apart_span, sizeof_registers, sizeof_process, regs in *. lia.
Qed.

(** [s'] is [s] with other values in the fields of the processes [l]: [v p off]
    is the word at [off] in the record [p], nothing outside the records has
    changed. *)
Record updated (s s' : kst) (W : Z -> Prop) (l : list Z) (v : Z -> Z -> Z) : Prop := {
  up_list : procs_list s' W l;
  up_machine : exists m, s' = set_mach (fun _ => m) s;
  up_fields : forall p k, p ∈ l -> 0 <= k < 12 -> field s' p (4 * k) = v p (4 * k);
  up_kept : kept_outside s s' W l
}.

Lemma updated_trans s s1 s2 W l v1 v2 :
  updated s s1 W l v1 -> updated s1 s2 W l v2 -> updated s s2 W l v2.
Proof.
  intros [H1 [m1 ->] F1 K1] [H2 [m2 ->] F2 K2]. split; [done|by exists m2|done|].
  intros m b Hb Hd. by rewrite K2, K1.
Qed.
Lemma updated_ext s s' W l v1 v2 :
  updated s s' W l v1 -> (forall p k, p ∈ l -> 0 <= k < 12 -> v1 p (4 * k) = v2 p (4 * k)) ->
  updated s s' W l v2.
Proof. intros [H1 H2 F K] Hv. split; try done. intros p k Hp Hk. by rewrite F, Hv. Qed.

(** One field of one process. *)
Definition over (s : kst) (p off v : Z) : Z -> Z -> Z :=
  fun q o => if (q =? p) && (o =? off) then v else field s q o.

Lemma set_updated s W l p k off v :
  procs_list s W l -> p ∈ l -> off = 4 * k -> 0 <= k < 12 -> off <> next ->
  exists s', set p off v s = Ok tt s' /\ updated s s' W l (over s p off (u32 v)).
Proof.
  intros [HW Hpath Hok Hsep] Hp -> Hk Hne. unfold next in Hne.
  destruct (set_field_ok s W l p (4 * k) v HW Hok Hsep Hp) as (s' & R & S & V & F & K);
    [unfold sizeof_process; lia..|].
  exists s'. split; [exact R|].
  assert (forall q j, q ∈ l -> 0 <= j < 12 -> field s' q (4 * j) = over s p (4 * k) (u32 v) q (4 * j))
    as HF.
  { intros q j Hq Hj. unfold over.
    destruct (Z.eqb_spec q p) as [->|Hqp]; destruct (Z.eqb_spec (4 * j) (4 * k)) as [E|E]; simpl.
    1: by rewrite E. all: apply F; [done|unfold sizeof_process; lia..|].
    - right. lia.
    - by left.
    - by left. }
  split; [|apply (st_machine _ _ _ S)|done|].
  - split; [by apply (stores_window _ _ _ _ S)| |done|done].
    destruct (st_machine _ _ _ S) as [m ->]. apply (path_same s); [|done].
    intros q Hq. change next with (4 * 9). rewrite HF by (done || lia).
    unfold over. rewrite (proj2 (Z.eqb_neq (4 * 9) _)) by lia. by rewrite andb_false_r.
  - intros m b Hb Hd. apply K; [done|]. intros q ->%list_elem_of_singleton. by apply Hd.
Qed.

Lemma preemptible_updated s s' W l c f v :
  updated s s' W l v -> v c regs = field s c regs -> preemptible s W l c f ->
  preemptible s' W l c f.
Proof.
  intros [HL' [m ->] F _] Hv [HL Hc Hin Hr Hrec Hf Hs Hra Hfa].
  assert (field (set_mach (fun _ => m) s) c regs = field s c regs) as Hreg.
  { rewrite <- Hv. by apply (F c 4). }
  by split; rewrite ?Hreg.
Qed.

(** The registers of the frame survive. *)
Lemma frame_updated s s' W l c f v k :
  updated s s' W l v -> preemptible s W l c f -> 0 <= k < 17 ->
  field s' f (4 * k) = field s f (4 * k).
Proof.
  intros [_ _ _ K] HP Hk. unfold field, rd32. apply K.
  - intros x Hx. apply (pe_frame _ _ _ _ _ HP). unfold span, sizeof_registers in *. lia.
  - intros p Hp. pose proof (pe_frame_apart _ _ _ _ _ HP p Hp).
    unfold apart_span, sizeof_registers in *. lia.
Qed.

Lemma switch_to_ok {A} s W l c f nxt :
  preemptible s W l c f -> nxt ∈ l ->
  exists s', context_switch f nxt s = (Switched nxt s' : outcome A) /\
    current_process (procs s') = nxt /\ procs_list s' W l /\ ticks s' = ticks s /\
    esp0 (tss (descs s')) = field s nxt kernel_stack_to /\
    (forall k, 0 <= k < frame_registers s f ->
       field s' (field s c regs) (4 * k) = field s f (4 * k)) /\
    (forall p off, p ∈ l -> 0 <= off -> off + 4 <= sizeof_process -> field s' p off = field s p off) /\
    (forall m b, subset (span b (Z.of_nat m)) W ->
       b + Z.of_nat m <= field s c regs \/
       field s c regs + 4 * frame_registers s f <= b -> rd m s' b = rd m s b).
Proof.
  intros HP Hn. pose proof (preemptible_saveable _ _ _ _ _ HP) as HS.
  destruct HP as [HL Hc Hin Hr Hrec Hf Hs Hra Hfa].
  pose proof (in_proc_ok s W l nxt HL Hn) as Hpn.
  assert (0 <= 4 * frame_registers s f <= sizeof_registers) as Hfr.
  { unfold frame_registers, sizeof_registers. case_match; lia. }
  destruct (context_switch_ok (A := A) s W c f nxt HS) as (s' & R & C & L & T & HW & E & V & F).
  { by apply record_in. }
  { specialize (Hra nxt Hn). unfold apart_span, kernel_stack_to, sizeof_process in *. lia. }
  assert (forall p off, p ∈ l -> 0 <= off -> off + 4 <= sizeof_process ->
    field s' p off = field s p off) as HF.
  { intros p off Hp Ho Hoff. unfold field, rd32. apply F.
    - apply record_in; [by apply (in_proc_ok s W l)|done|done].
    - specialize (Hra p Hp). unfold apart_span, sizeof_process in *. lia. }
  exists s'. split; [exact R|]. split; [done|]. split; [|by split_and!].
  destruct HL as [_ Hpath Hok Hsep]. split; [done| |done|done]. rewrite L.
  apply (path_same s); [|done]. intros p Hp. by apply HF.
Qed.

End switching.

(** * Leaving for good *)

Section exiting.
Import Process.
Context `{Fuel}.

(** The process that runs after [c] has left: the first one after it, going
    round the list, that is ready or is its parent. *)
Definition successor (s : kst) (before : list Z) (c : Z) (after : list Z) : Z :=
  default 0 (List.find (fun p => (p =? field s c parent) || ready s p) (after ++ before)).

(** The two state changes of [exit_process]. *)
Definition bury (dead : Z) : K unit :=
  set dead state PROCESS_ZOMBIE;;
  pa ← get dead parent;
  if negb (pa =? 0) then pa ← get dead parent; set pa state PROCESS_READY else mret tt.

Definition buried (s s' : kst) (W : Z -> Prop) (l : list Z) (c : Z) : Prop :=
  procs_list s' W l /\ (exists m, s' = set_mach (fun _ => m) s) /\
  (forall p, p ∈ l -> field s' p state =
     if p =? c then PROCESS_ZOMBIE
     else if p =? field s c parent then PROCESS_READY else field s p state) /\
  (forall p off, p ∈ l -> 0 <= off -> off + 4 <= sizeof_process ->
     off + 4 <= state \/ state + 4 <= off -> field s' p off = field s p off) /\
  kept_outside s s' W l.

Lemma bury_ok s W l c :
  procs_list s W l -> c ∈ l ->
  field s c parent = 0 \/ field s c parent ∈ l /\ field s c parent <> c ->
  exists s', bury c s = Ok tt s' /\ buried s s' W l c.
Proof.
  intros HL Hc Hpa. pose proof (proj1 (Forall_forall _ _) (pl_procs _ _ _ HL)) as Hok.
  destruct (set_state_ok s W l c PROCESS_ZOMBIE HL Hc) as (s1 & R1 & HL1 & M1 & V1 & F1 & K1).
  unfold bury. run_with R1.
  run_with (get_proc_ok s1 W c parent (pl_window _ _ _ HL1) (Hok c Hc) ltac:(done) ltac:(done)).
  rewrite F1 by (done || (right; right; done)). set (pa := field s c parent) in *.
  destruct (Z.eqb_spec pa 0) as [H0|H0]; simpl.
  - exists s1. split; [done|]. split; [done|]. split; [done|]. split; [|split; [|done]].
    + intros p Hp. destruct (Z.eqb_spec p c) as [->|Hne]; [done|].
      destruct (Z.eqb_spec p (field s c parent)) as [->|_]; [|apply F1; auto; done].
      pose proof (pr_addr _ _ (Hok _ Hp)). fold pa in H1. lia.
    + intros p off Hp Ho Hn Hd. apply F1; auto.
  - destruct Hpa as [?|[Hpa Hne]]; [done|].
    run_with (get_proc_ok s1 W c parent (pl_window _ _ _ HL1) (Hok c Hc) ltac:(done) ltac:(done)).
    rewrite F1 by (done || (right; right; done)). fold pa.
    destruct (set_state_ok s1 W l pa PROCESS_READY HL1 Hpa) as (s2 & R2 & HL2 & M2 & V2 & F2 & K2).
    exists s2. split; [done|]. split; [done|]. split.
    { destruct M1 as [m1 ->], M2 as [m2 ->]. by exists m2. }
    split; [|split].
    + intros p Hp. fold pa. destruct (Z.eqb_spec p c) as [->|Hpc].
      { rewrite F2; [done|done|done|done|by left; congruence]. }
      destruct (Z.eqb_spec p pa) as [->|Hpp]; [done|].
      rewrite F2, F1; try done; by left.
    + intros p off Hp Ho Hn Hd. rewrite F2, F1; auto.
    + intros m b Hb Hd. rewrite K2, K1; done.
Qed.

Lemma exit_process_bury s :
  exit_process s = (c ← get_current; bury c;; nx ← schedule;
    (if (nx =? 0) || (nx =? c) then
       Vga.print_string_at ("PANIC: no ready process after exit" ++ NL)%string;; halt
     else mret tt);;
    c' ← get_current;
    (if negb (nx =? c') then set_current nx else mret tt);;
    restore_esp nx) s.
Proof.
  unfold exit_process, bury, get_current. rewrite !gets_bind, !bind_assoc.
  unfold mbind, K_bind. destruct (set _ _ _ s) as [[] s1| | | | | |]; try done.
  destruct (get _ _ s1); done.
Qed.

Lemma exit_process_ok s W l1 c l2 :
  let l := l1 ++ c :: l2 in
  procs_list s W l -> current_process (procs s) = c -> (length l < fuel)%nat ->
  field s c parent = 0 \/ field s c parent ∈ l /\ field s c parent <> c ->
  successor s l1 c l2 <> 0 ->
  exists s', exit_process s = Switched (successor s l1 c l2) s' /\
    current_process (procs s') = successor s l1 c l2 /\ procs_list s' W l /\
    (forall p, p ∈ l -> field s' p state =
       if p =? c then PROCESS_ZOMBIE
       else if p =? field s c parent then PROCESS_READY else field s p state) /\
    (forall p off, p ∈ l -> 0 <= off -> off + 4 <= sizeof_process ->
       off + 4 <= state \/ state + 4 <= off -> field s' p off = field s p off) /\
    kept_outside s s' W l /\ descs s' = descs s.
Proof.
  intros l HL Hc Hlen Hpa Hnx. assert (c ∈ l) as Hcl by (unfold l; apply elem_of_app; right; by left).
  rewrite exit_process_bury. unfold get_current. rewrite gets_bind, Hc.
  destruct (bury_ok s W l c HL Hcl Hpa) as (s1 & R1 & HL1 & [m ->] & V1 & F1 & K1).
  run_with R1. set (s1 := set_mach _ s) in *.
  assert (~ c ∈ l2 ++ l1) as Hcur by apply (others_not_current _ _ _ _ _ HL).
  assert (round_robin s1 l1 l2 = successor s l1 c l2) as Hrr.
  { unfold round_robin, successor. f_equal. apply find_ext. intros p Hp.
    assert (p ∈ l) as Hpl by (unfold l; rewrite !elem_of_app, elem_of_cons in *; tauto).
    unfold ready at 1. rewrite V1 by done. rewrite (proj2 (Z.eqb_neq p c)) by congruence.
    by destruct (p =? field s c parent). }
  run_with (schedule_ok s1 W l1 c l2 HL1 Hc Hlen). rewrite Hrr.
  assert (successor s l1 c l2 <> c) as Hnc.
  { intros He. apply Hcur. rewrite <- He at 1. by apply default_find_in. }
  rewrite (proj2 (Z.eqb_neq _ 0)), (proj2 (Z.eqb_neq _ c)) by done. cbv beta. simpl orb. cbv iota. rewrite ret_bind.
  rewrite gets_bind. change (current_process (procs s1)) with (current_process (procs s)).
  rewrite Hc, (proj2 (Z.eqb_neq _ c)) by done. simpl. unfold set_current. rewrite modify_bind.
  eexists. split; [reflexivity|]. split; [reflexivity|]. split.
  { destruct HL1 as [HW1 Hp1 Ho1 Hs1]. split; [by apply (window_mach s1)| |done|done].
    by apply (path_same s1). }
  split; [exact V1|]. split; [exact F1|]. split; [|done].
  intros n b Hb Hd. rewrite (rd_mach n s1) by done. by apply K1.
Qed.

(** C21: [exit_process] leaves the caller a zombie and its parent, if it has
    one, ready, and, as some process is ready then, goes on in the next ready
    process in round-robin order; no other state and no other field changes.  It does not touch the task state segment:
    tss.esp0 still points at the stack of the process that has left. *)
Theorem exit_process_switches s W l1 c l2 :
  let l := l1 ++ c :: l2 in
  procs_list s W l -> current_process (procs s) = c -> (length l < fuel)%nat ->
  field s c parent = 0 \/ field s c parent ∈ l /\ field s c parent <> c ->
  successor s l1 c l2 <> 0 ->
  exists s', exit_process s = Switched (successor s l1 c l2) s' /\
    current_process (procs s') = successor s l1 c l2 /\ procs_list s' W l /\
    (forall p, p ∈ l -> field s' p state =
       if p =? c then PROCESS_ZOMBIE
       else if p =? field s c parent then PROCESS_READY else field s p state) /\
    (forall p off, p ∈ l -> 0 <= off -> off + 4 <= sizeof_process ->
       off + 4 <= state \/ state + 4 <= off -> field s' p off = field s p off) /\
    kept_outside s s' W l /\ descs s' = descs s.
Proof. apply exit_process_ok. Qed.

End exiting.

(** * A concrete list of three processes *)

Section examples.
Import Process.
#[local] Instance hundred : Fuel := 100%nat.

(** A runs and is the parent of B; B sleeps until tick 5, C is ready. *)
Definition proc_a : Z := 0x30000.
Definition proc_b : Z := 0x30100.
Definition proc_c : Z := 0x30200.
Definition frame : Z := 0x50000.
Definition abc : list Z := [proc_a; proc_b; proc_c].

Definition memory : list (Z * Z) :=
  [(proc_a + next, proc_b); (proc_b + next, proc_c); (proc_a + regs, 0x43FBC);
   (proc_b + state, PROCESS_BLOCKED); (proc_b + wake, 5); (proc_b + parent, proc_a);
   (proc_c + kernel_stack_to, 0x48000); (frame + r_eip, 0x1234); (frame + r_cs, Descriptors.USER_CS);
   (frame + r_user_esp, 0x80000)].
Definition three : kst :=
  set_ticks (fun _ => 7) (set_procs (fun _ => ProcState proc_a proc_a 4)
    (match writes memory (boot_state [] no_device) with
     | Ok _ s => s
     | _ => boot_state [] no_device
     end)).

Lemma three_window : window three in_u32.
Proof. apply flat_window; [by vm_compute|by intros a]. Qed.

Lemma low_proc p : 0 < p -> p < 2 ^ 31 -> proc_ok in_u32 p.
Proof.
  intros H0 H1. split; [done|unfold sizeof_process; lia|].
  intros a. unfold span, sizeof_process, in_u32. lia.
Qed.

Lemma three_list current :
  procs_list (set_procs (fun _ => ProcState proc_a current 4) three) in_u32 abc.
Proof.
  split.
  - by apply (window_mach three), three_window.
  - by vm_compute.
  - unfold abc. rewrite !Forall_cons, Forall_nil. split_and!; try done; by apply low_proc.
  - unfold abc. simpl. rewrite !Forall_cons, Forall_nil. unfold apart_procs.
    split_and!; (done || (vm_compute; left; discriminate)).
Qed.

Lemma schedule_round_robin_witness :
  schedule three = Ok proc_c three.
Proof.
  destruct (schedule_round_robin three in_u32 [] proc_a [proc_b; proc_c]) as [R _].
  - apply (three_list proc_a).
  - by vm_compute.
  - vm_compute. lia.
  - rewrite R. by vm_compute.
Defined.

Lemma wake_processes_wakes_witness :
  exists s', wake_processes three = Ok tt s' /\ field s' proc_b state = PROCESS_READY /\
    field s' proc_b wake = 5.
Proof.
  destruct (wake_processes_wakes three in_u32 abc (three_list proc_a)) as (s' & R & _ & _ & V & F & _).
  { vm_compute. lia. }
  exists s'. split; [exact R|]. split.
  - rewrite V by (right; by left). by vm_compute.
  - rewrite F; [by vm_compute|right; by left|done|done|right; done].
Defined.

Lemma context_switch_saves_and_switches_witness :
  exists s', context_switch frame proc_c three = (Switched proc_c s' : outcome unit) /\
    esp0 (tss (descs s')) = 0x48000 /\ field s' 0x43FBC r_eip = 0x1234.
Proof.
  assert (field three proc_a regs = 0x43FBC) as Hr by (by vm_compute).
  destruct (context_switch_saves_and_switches (A := unit) three in_u32 proc_a frame proc_c)
    as (s' & R & _ & _ & E & V & _).
  - split; rewrite ?Hr; unfold regs, sizeof_registers, proc_a, frame; try done;
      try (intros x; unfold span, in_u32; lia); [apply three_window|right; right; lia|left; lia].
  - intros x. unfold span, proc_c, kernel_stack_to, in_u32. lia.
  - rewrite Hr. left. by vm_compute.
  - exists s'. split; [exact R|]. split; [rewrite E; by vm_compute|].
    rewrite Hr in V. change r_eip with (4 * 12). rewrite (V 12); [by vm_compute|]. split; [lia|by vm_compute].
Defined.

(** B, woken, exits: A is its parent and the first ready process after it. *)
Lemma exit_process_switches_witness :
  exists s', exit_process (set_procs (fun _ => ProcState proc_a proc_b 4) three) =
      Switched proc_c s' /\ field s' proc_b state = PROCESS_ZOMBIE.
Proof.
  set (s := set_procs _ three).
  assert (field s proc_b parent = proc_a) as Hp by (by vm_compute).
  assert (successor s [proc_a] proc_b [proc_c] = proc_c) as Hs by (by vm_compute).
  destruct (exit_process_switches s in_u32 [proc_a] proc_b [proc_c]) as (s' & R & _ & _ & V & _).
  - apply (three_list proc_b).
  - done.
  - vm_compute. lia.
  - right. rewrite Hp. split; [by left|done].
  - by rewrite Hs.
  - rewrite Hs in R. exists s'. split; [exact R|]. rewrite V by (right; by left). done.
Defined.

End examples.
