(* ===== verification/Spawn.v ===== *)
(** Making a process: [add_process] and [create_process] of kernel/process.c.

    [create_process] composes the heap, the page allocator and the process
    list; its theorem is proved from the contracts of the three. *)

From S2P Require Import Prelude Machine State Mmu Window PageSource Vga MemMap Paging MemLib Heap Descriptors Process.

(** * Linking *)

Section linking.
Import Process.
Context `{Fuel}.

(** Memory and the globals of the process list may differ. *)
Definition same_but_procs (s s' : kst) : Prop :=
  exists m r, s' = set_mach (fun _ => m) (set_procs (fun _ => r) s).

Lemma last_process_ok (n : nat) s W a l z :
  window s W -> Forall (proc_ok W) (l ++ [z]) -> path s a (l ++ [z]) 0 -> (length l < n)%nat ->
  last_process n a s = Ok z s.
Proof.
  intros HW. revert n a. induction l as [|p l IH]; intros n a Hok Hpath Hn;
    (destruct n as [|n]; [simpl in Hn; lia|]); simpl in Hok, Hpath |- *;
    destruct Hpath as [-> Hpath]; apply Forall_cons in Hok as [Hp Hok];
    run_with (get_proc_ok s W _ next HW Hp ltac:(done) ltac:(done)).
  - by rewrite Hpath, Z.eqb_refl.
  - assert (field s p next <> 0) as Hnz.
    { destruct l as [|q l]; simpl in Hpath, Hok; destruct Hpath as [-> _];
        apply Forall_cons in Hok as [[] _]; lia. }
    rewrite (proj2 (Z.eqb_neq _ 0)) by done.
    run_with (get_proc_ok s W p next HW Hp ltac:(done) ltac:(done)).
    apply IH; [done|done|simpl in Hn; lia].
Qed.

Lemma path_snoc s s' a l z p :
  path s a (l ++ [z]) 0 -> (forall q, q ∈ l -> field s' q next = field s q next) ->
  field s' z next = p -> field s' p next = 0 -> path s' a ((l ++ [z]) ++ [p]) 0.
Proof.
  rewrite <- app_assoc. intros (m & H1 & H2)%path_app Hl Hz Hp.
  apply path_app. exists m. split; [by apply (path_same s)|].
  destruct H2 as [-> _]. split; [done|]. by split.
Qed.

Lemma set_procs_list s W l r :
  procs_list s W l -> process_list r = process_list (procs s) ->
  procs_list (set_procs (fun _ => r) s) W l.
Proof.
  intros [HW Hp Ho Hs] Hr. split; [by apply (window_mach s)| |done|done].
  simpl. rewrite Hr. by apply (path_same s).
Qed.

Definition same_fields_but (skip : Z) (s s' : kst) (l : list Z) : Prop :=
  forall q o, q ∈ l -> 0 <= o -> o + 4 <= sizeof_process -> o + 4 <= skip \/ skip + 4 <= o ->
    field s' q o = field s q o.

(** The bytes of the records [l]. *)
Definition records (l : list Z) : Z -> Prop := fun x => Exists (fun q => span q sizeof_process x) l.

Lemma records_in l q : q ∈ l -> subset (span q sizeof_process) (records l).
Proof. intros Hq x Hx. apply Exists_exists. by exists q. Qed.
Lemma records_u32 s W l : window s W -> Forall (proc_ok W) l -> subset (records l) in_u32.
Proof.
  intros HW Hok x (q & Hq & Hx)%Exists_exists. rewrite Forall_forall in Hok.
  apply (win_u32 _ _ HW), (pr_in _ _ (Hok q Hq)), Hx.
Qed.

Lemma append_ok s W l p :
  procs_list s W l -> proc_ok W p -> Forall (apart_procs p) l ->
  Forall (proc_ok W) (l ++ [p]) /\ separate_procs (l ++ [p]) /\ forall q, q ∈ l -> q <> p.
Proof.
  intros [_ _ Hok Hsep] Hp Hap. split; [by apply Forall_app; split; [|constructor]|]. split.
  - apply separate_procs_app. split; [done|]. split; [by split|].
    eapply Forall_impl; [exact Hap|]. intros q Hq. apply Forall_singleton.
    unfold apart_procs in *. lia.
  - intros q Hq ->. rewrite Forall_forall in Hap. specialize (Hap p Hq).
    unfold apart_procs, sizeof_process in Hap. lia.
Qed.

(** [pro->next = NULL], seen from the list [l]. *)
Lemma clear_next_ok s W l p :
  procs_list s W l -> proc_ok W p -> Forall (apart_procs p) l ->
  exists s1, set p next 0 s = Ok tt s1 /\ stores (records (l ++ [p])) s s1 /\ field s1 p next = 0 /\
    path s1 (process_list (procs s)) l 0 /\ same_fields_but next s s1 (l ++ [p]) /\
    kept_outside s s1 W (l ++ [p]).
Proof.
  intros HL Hp Hap. destruct (append_ok s W l p HL Hp Hap) as (Hok' & Hsep' & Hne).
  destruct HL as [HW Hpath _ _]. assert (p ∈ l ++ [p]) as Hin by (apply elem_of_app; right; by left).
  destruct (set_field_ok s W (l ++ [p]) p next 0 HW Hok' Hsep' Hin)
    as (s1 & R1 & S1 & V1 & F1 & K1); [done..|].
  exists s1. split; [done|]. split.
  { apply (stores_weaken _ _ _ _ S1); [by apply records_in|by apply (records_u32 s W)]. }
  split; [done|]. split.
  { apply (path_same s); [|done]. intros q Hq. apply F1; try done; [|by left; apply Hne].
    apply elem_of_app. by left. }
  split; [intros q o Hq Ho Hn Hd; apply F1; auto|].
  intros n b Hb Hd. apply K1; [done|]. intros q ->%list_elem_of_singleton. by apply Hd.
Qed.

(** [current->next = pro] at the last process [z]. *)
Lemma link_last_ok s1 W l z p :
  let l' := (l ++ [z]) ++ [p] in
  window s1 W -> Forall (proc_ok W) l' -> separate_procs l' -> (forall q, q ∈ l ++ [z] -> q <> p) ->
  path s1 (process_list (procs s1)) (l ++ [z]) 0 -> field s1 p next = 0 ->
  exists s2, set z next p s1 = Ok tt s2 /\ stores (records l') s1 s2 /\ procs_list s2 W l' /\
    same_fields_but next s1 s2 l' /\ kept_outside s1 s2 W l'.
Proof.
  intros l' HW1 Hok' Hsep' Hne Hpath1 V1.
  assert (z ∈ l') as Hz by (unfold l'; rewrite !elem_of_app; left; right; by left).
  assert (p ∈ l') as Hp by (unfold l'; rewrite !elem_of_app; right; by left).
  destruct (set_field_ok s1 W l' z next p HW1 Hok' Hsep' Hz) as (s2 & R2 & S2 & V2 & F2 & K2); [done..|].
  exists s2. split; [exact R2|]. destruct (st_machine _ _ _ S2) as [m2 Hm2].
  pose proof (separate_procs_nodup _ (proj1 (proj1 (separate_procs_app _ _) Hsep'))) as Hnd.
  assert (in_u32 p) as Hpu.
  { rewrite Forall_forall in Hok'. destruct (Hok' p Hp) as [? He _]. unfold sizeof_process in He. width_lia. }
  split; [|split; [|split]].
  - apply (stores_weaken _ _ _ _ S2); [by apply records_in|by apply (records_u32 s1 W)].
  - split; [by apply (stores_window _ _ _ _ S2)| |done|done].
    replace (procs s2) with (procs s1) by (by rewrite Hm2).
    apply (path_snoc s1); [done| |by rewrite V2; apply u32_small|].
    + intros q Hq. apply F2; [unfold l'; rewrite !elem_of_app; by left; left|done|done|left].
      intros ->. apply NoDup_app in Hnd as (_ & Hdis & _). by apply (Hdis z Hq); left.
    + rewrite F2; [exact V1|done|done|done|left]. intros ->. apply (Hne z); [|done].
      rewrite elem_of_app. right. by left.
  - intros q o Hq Ho Hn Hd. apply F2; auto.
  - intros n b Hb Hd. apply K2; [done|]. intros q ->%list_elem_of_singleton. by apply Hd.
Qed.

Lemma add_process_ok s W l p :
  procs_list s W l -> proc_ok W p -> Forall (apart_procs p) l -> (length l < fuel)%nat ->
  exists s', add_process p s = Ok tt s' /\ procs_list s' W (l ++ [p]) /\ same_but_procs s s' /\
    current_process (procs s') = (if l is [] then p else current_process (procs s)) /\
    process_number (procs s') = process_number (procs s) /\
    same_fields_but next s s' (l ++ [p]) /\ kept_outside s s' W (l ++ [p]) /\
    touches (fun x => Exists (fun q => span q sizeof_process x) (l ++ [p])) s s'.
Proof.
  intros HL Hp Hap Hlen. destruct (append_ok s W l p HL Hp Hap) as (Hok' & Hsep' & Hne).
  destruct (clear_next_ok s W l p HL Hp Hap) as (s1 & R1 & S1 & V1 & Hpath1 & F1 & K1).
  destruct HL as [HW Hpath Hok Hsep]. pose proof (stores_window _ _ _ _ S1 HW) as HW1.
  pose proof (records_u32 s W _ HW Hok') as HAu. destruct (st_machine _ _ _ S1) as [m1 Hm1].
  assert (procs s1 = procs s) as Hp1 by (by rewrite Hm1).
  unfold add_process, get_list. run_with R1. rewrite gets_bind, Hp1.
  destruct l as [|z l _] using rev_ind.
  - simpl in Hpath1. rewrite Hpath1. cbn [Z.eqb]. rewrite Z.eqb_refl.
    unfold set_list, set_current. rewrite modify_bind.
    eexists. split; [reflexivity|]. simpl app in *. split.
    { split; [by apply (window_mach s1)|by split|done|done]. }
    split; [eexists m1, _; by rewrite Hm1|]. split; [done|]. split; [by rewrite Hm1|].
    split; [done|]. split; [intros n b Hb Hd; rewrite (rd_mach n s1) by done; by apply K1|].
    apply (touches_mach_r _ _ s1); [done|]. apply (stores_touches _ _ _ _ S1); [by intros x|done].
  - assert (process_list (procs s) <> 0) as Hnz.
    { destruct l as [|q l]; simpl in Hpath1, Hok; destruct Hpath1 as [-> _];
        apply Forall_cons in Hok as [[] _]; lia. }
    rewrite (proj2 (Z.eqb_neq _ 0)) by done. rewrite length_app in Hlen. simpl in Hlen.
    run_with (last_process_ok fuel s1 W _ l z HW1 Hok Hpath1 ltac:(lia)). rewrite <- Hp1 in Hpath1.
    destruct (link_last_ok s1 W l z p HW1 Hok' Hsep' Hne Hpath1 V1) as (s2 & R2 & S2 & HL2 & F2 & K2).
    exists s2. split; [exact R2|]. split; [done|]. destruct (st_machine _ _ _ S2) as [m2 Hm2].
    assert (procs s2 = procs s) as Hps by (by rewrite Hm2, Hm1).
    split; [exists m2, (procs s); rewrite Hm2, Hm1; done|].
    split; [by rewrite Hps; destruct l|]. split; [by rewrite Hps|].
    split; [intros q o Hq Ho Hn Hd; rewrite F2, F1; auto|].
    split; [intros n b Hb Hd; rewrite K2, K1; done|].
    apply (touches_trans _ _ s1);
      [apply (stores_touches _ _ _ _ S1)|apply (stores_touches _ _ _ _ S2)]; (done || by intros x).
Qed.

End linking.

(** * The first registers *)

Lemma rd_zero n s b :
  (forall a, span b (Z.of_nat n) a -> rd8 s a = 0) -> rd n s b = 0.
Proof.
  revert b. induction n as [|n IH]; intros b H; [done|]. simpl.
  rewrite H, IH; [done| |unfold span; lia]. intros a Ha. apply H. unfold span in *. lia.
Qed.

(** Offsets are numerals: that assignments are to distinct words is decided by computation. *)
Ltac solve_words :=
  split; simpl; unfold away; rewrite ?Forall_cons, ?Forall_nil; cbn [fst snd];
  split_and!; try done; try (vm_compute; (left + right); discriminate);
  match goal with |- exists k, ?x = _ /\ _ =>
    let y := eval vm_compute in (x / 4) in exists y; split; [reflexivity|by vm_compute] end.

Section registers.
Import Process.
Context `{Layout}.

(** Assignments to the words of a record at [rp], by offset. *)
Definition at_base (rp : Z) (l : list (Z * Z)) : list (Z * Z) := map (fun rv => (rp + rv.1, rv.2)) l.
Definition words (n : Z) (l : list (Z * Z)) : Prop :=
  Forall (fun rv => exists k, rv.1 = 4 * k /\ 0 <= k < n) l /\ distinct (at_base 0 l).
(** The word at [off] afterwards, [d] if it is not assigned. *)
Definition value_after (l : list (Z * Z)) (off d : Z) : Z :=
  match List.find (fun rv => rv.1 =? off) l with Some rv => u32 rv.2 | None => d end.

Lemma at_base_distinct rp l : distinct (at_base 0 l) -> distinct (at_base rp l).
Proof.
  induction l as [|[o v] l IH]; simpl; [done|]. intros [Ha Hd]. split; [|by apply IH].
  unfold away, at_base in *. rewrite Forall_map in Ha |- *. simpl in *.
  eapply Forall_impl; [exact Ha|]. intros [o' v']. simpl. lia.
Qed.

Lemma words_ok s0 s W rp n l :
  window s0 W -> subset (span rp (4 * n)) W -> stores (span rp (4 * n)) s0 s -> words n l ->
  exists s', writes (at_base rp l) s = Ok tt s' /\ stores (span rp (4 * n)) s0 s' /\
    forall k, 0 <= k < n -> field s' rp (4 * k) = value_after l (4 * k) (field s rp (4 * k)).
Proof.
  intros HW Hsub HS [Hr Hd].
  assert (Forall (fun av => subset (span av.1 4) (span rp (4 * n))) (at_base rp l)) as Hin.
  { unfold at_base. rewrite Forall_map. eapply Forall_impl; [exact Hr|].
    intros [o v] (k & Ho & Hk) x. unfold span. simpl in *. lia. }
  destruct (writes_ok s0 s W _ (at_base rp l) HW Hsub HS Hin (at_base_distinct _ _ Hd))
    as (s2 & R2 & S2 & V2 & F2).
  exists s2. split; [done|]. split; [done|]. intros k Hk. unfold value_after.
  destruct (List.find _ l) as [[o v]|] eqn:Hf.
  - destruct (find_split _ _ _ Hf) as (a & b & Hl & Ho & _). simpl in Ho. apply Z.eqb_eq in Ho.
    rewrite Forall_forall in V2. unfold field. rewrite <- Ho.
    apply (V2 (rp + o, v)). unfold at_base. apply list_elem_of_fmap. exists (o, v).
    split; [done|]. rewrite Hl. apply elem_of_app. right. by left.
  - apply (F2 4%nat).
    + intros x Hx. apply Hsub. unfold span in *. lia.
    + unfold away, at_base. rewrite Forall_map. apply Forall_forall. intros [o v] Hin'. simpl.
      pose proof (proj1 (find_none_iff _ _) Hf _ Hin') as Hne. simpl in Hne.
      rewrite Forall_forall in Hr. destruct (Hr _ Hin') as (k' & Hk' & _). simpl in Hk'. lia.
Qed.

(** What a new process finds in its registers; all others are 0. *)
Definition first_registers (entry mode kernel_stack user_stack : Z) : list (Z * Z) :=
  if mode =? PROCESS_KERNEL then
    [(r_gs, Descriptors.KERNEL_DS); (r_fs, Descriptors.KERNEL_DS); (r_es, Descriptors.KERNEL_DS);
     (r_ds, Descriptors.KERNEL_DS); (r_eip, process_entry_addr); (r_cs, Descriptors.KERNEL_CS);
     (r_eflags, 0x202); (r_esp, kernel_stack + KERNEL_STACK_SIZE)]
  else
    [(r_gs, Descriptors.USER_DS); (r_fs, Descriptors.USER_DS); (r_es, Descriptors.USER_DS);
     (r_ds, Descriptors.USER_DS); (r_eip, entry); (r_cs, Descriptors.USER_CS);
     (r_eflags, 0x202); (r_esp, kernel_stack + KERNEL_STACK_SIZE);
     (r_user_esp, user_stack + 4096); (r_user_ss, Descriptors.USER_DS)].

Lemma first_registers_words entry mode ks us : words 17 (first_registers entry mode ks us).
Proof. unfold first_registers. destruct (mode =? PROCESS_KERNEL); solve_words. Qed.

Lemma init_regs_writes rp entry mode ks us s :
  init_regs rp entry mode ks us s =
  (MemLib.memset rp 0 sizeof_registers;; writes (at_base rp (first_registers entry mode ks us))) s.
Proof.
  unfold init_regs, mbind, K_bind. destruct (MemLib.memset _ _ _ s) as [p s1| | | | | |]; try done.
  unfold first_registers.
  destruct (mode =? PROCESS_KERNEL); unfold at_base, set; simpl map;
    (etransitivity; [|apply bind_unit]);
    repeat (apply writes_step; intros ?); rewrite bind_unit; apply writes_last.
Qed.

Lemma init_regs_ok s W rp entry mode ks us :
  window s W -> subset (span rp sizeof_registers) W ->
  exists s', init_regs rp entry mode ks us s = Ok tt s' /\
    stores (span rp sizeof_registers) s s' /\
    forall k, 0 <= k < 17 ->
      field s' rp (4 * k) = value_after (first_registers entry mode ks us) (4 * k) 0.
Proof.
  intros HW Hsub. rewrite init_regs_writes.
  destruct (memset_ok s W rp 0 68 HW Hsub ltac:(lia)) as (s1 & R1 & S1 & V1 & _). run_with R1.
  destruct (words_ok s s1 W rp 17 _ HW Hsub S1 (first_registers_words entry mode ks us))
    as (s2 & R2 & S2 & V2).
  exists s2. split; [done|]. split; [done|]. intros k Hk. rewrite V2 by done. f_equal.
  apply rd_zero. intros a Ha. rewrite V1 by (unfold span in *; lia). done.
Qed.

End registers.

(** * Filling in the record *)

Section filling.
Import Process.
Context `{Layout} `{Fuel}.

Lemma kept_but_field A s s' W q o :
  kept_but A s s' W -> proc_ok W q -> 0 <= o -> o + 4 <= sizeof_process ->
  disjoint_from (span (q + o) 4) A -> field s' q o = field s q o.
Proof. intros HK Hq Ho Hn Hd. apply (HK 4%nat); [by apply record_in|done]. Qed.

Lemma same_but_procs_trans s s1 s2 :
  same_but_procs s s1 -> same_but_procs s1 s2 -> same_but_procs s s2.
Proof. intros (m1 & r1 & ->) (m2 & r2 & ->). by exists m2, r2. Qed.
Lemma stores_same_but_procs A s s' : stores A s s' -> same_but_procs s s' /\ procs s' = procs s.
Proof. intros HS. destruct (st_machine _ _ _ HS) as [m ->]. split; [by exists m, (procs s)|done]. Qed.

(** The assignments to the record, before and after the process is counted. *)
Definition first_fields (ks : Z) : list (Z * Z) :=
  [(regs, u32 (ks + KERNEL_STACK_SIZE - sizeof_registers)); (kernel_stack, ks);
   (kernel_stack_to, ks + KERNEL_STACK_SIZE)].
Definition more_fields (n entry : Z) : list (Z * Z) :=
  [(pid, n); (state, PROCESS_READY); (wake, 0); (next, 0); (Process.entry, entry)].
Definition count_process (r : proc_state) : proc_state :=
  ProcState (process_list r) (current_process r) (u16 (process_number r + 1)).

Definition fill_fields (p entry ks : Z) : K unit :=
  writes (at_base p (first_fields ks));;
  n ← gets (fun s => process_number (procs s));
  modify (set_procs count_process);;
  writes (at_base p (more_fields n entry)).

Lemma init_process_fills p entry mode ks us s :
  init_process p entry mode ks us s =
  (fill_fields p entry ks;;
   init_regs (u32 (ks + KERNEL_STACK_SIZE - sizeof_registers)) entry mode ks us;;
   c ← get_current;
   set p parent c;;
   add_process p) s.
Proof.
  unfold fill_fields. rewrite !bind_assoc. unfold init_process, first_fields, set, at_base. simpl map.
  do 3 (apply writes_step; intros ?). rewrite <- writes_nil, !gets_bind.
  rewrite bind_assoc, gets_bind, bind_assoc, !modify_bind.
  unfold more_fields. simpl map. do 5 (apply writes_step; intros ?). by rewrite <- writes_nil.
Qed.

Lemma fill_fields_ok s W p entry ks :
  window s W -> proc_ok W p ->
  let n := process_number (procs s) in
  exists s', fill_fields p entry ks s = Ok tt s' /\ same_but_procs s s' /\
    procs s' = count_process (procs s) /\ window s' W /\
    touches (span p sizeof_process) s s' /\
    forall k, 0 <= k < 12 -> field s' p (4 * k) =
      value_after (more_fields n entry) (4 * k)
        (value_after (first_fields ks) (4 * k) (field s p (4 * k))).
Proof.
  intros HW Hp n. pose proof (pr_in _ _ Hp) as Hin. change sizeof_process with (4 * 12) in *.
  destruct (words_ok s s W p 12 (first_fields ks) HW Hin (stores_none _ s W HW Hin))
    as (s1 & R1 & S1 & V1); [unfold first_fields; solve_words|].
  destruct (stores_same_but_procs _ _ _ S1) as [G1 P1]. set (s2 := set_procs count_process s1).
  assert (window s2 W) as HW2 by (by apply (window_mach s1), (stores_window _ _ _ _ S1)).
  destruct (words_ok s2 s2 W p 12 (more_fields n entry) HW2 Hin (stores_none _ s2 W HW2 Hin))
    as (s3 & R3 & S3 & V3); [unfold more_fields; solve_words|].
  destruct (stores_same_but_procs _ _ _ S3) as [G3 P3].
  exists s3. split.
  { unfold fill_fields. run_with R1. rewrite gets_bind, modify_bind, P1. exact R3. }
  split.
  { apply (same_but_procs_trans _ s1); [done|]. apply (same_but_procs_trans _ s2); [|done].
    by exists (mach s1), (count_process (procs s1)). }
  split; [rewrite P3; simpl; by rewrite P1|].
  split; [by apply (stores_window _ _ _ _ S3)|]. split.
  - apply (touches_trans _ _ s1); [by apply (stores_touches _ _ _ _ S1); [intros x|exact (st_u32 _ _ _ S1)]|].
    apply (touches_mach _ _ s2); [done|].
    by apply (stores_touches _ _ _ _ S3); [intros x|exact (st_u32 _ _ _ S1)].
  - intros k Hk. rewrite V3 by done. f_equal. by apply V1.
Qed.

(** The record [create_process] leaves, but for its links. *)
Record started (s : kst) (p n entry mode ks us : Z) : Prop := {
  sd_pid : field s p pid = n;
  sd_stack : field s p kernel_stack = ks;
  sd_stack_to : field s p kernel_stack_to = ks + KERNEL_STACK_SIZE;
  sd_regs : field s p regs = ks + KERNEL_STACK_SIZE - sizeof_registers;
  sd_state : field s p state = PROCESS_READY;
  sd_wake : field s p wake = 0;
  sd_entry : field s p Process.entry = u32 entry;
  sd_registers : forall k, 0 <= k < 17 ->
    field s (ks + KERNEL_STACK_SIZE - sizeof_registers) (4 * k) =
    value_after (first_registers entry mode ks us) (4 * k) 0
}.

(** Where [init_process] writes. *)
Definition touched (p ks : Z) (l : list Z) (x : Z) : Prop :=
  span p sizeof_process x \/
  span (ks + KERNEL_STACK_SIZE - sizeof_registers) sizeof_registers x \/
  Exists (fun q => span q sizeof_process x) l.

Lemma touched_in W p ks l :
  proc_ok W p -> Forall (proc_ok W) l ->
  subset (span (ks + KERNEL_STACK_SIZE - sizeof_registers) sizeof_registers) W ->
  subset (touched p ks l) W.
Proof.
  intros Hp Hl Hr x [Hx|[Hx|(q & Hq & Hx)%Exists_exists]]; [by apply (pr_in _ _ Hp)|by apply Hr|].
  rewrite Forall_forall in Hl. by apply (pr_in _ _ (Hl q Hq)).
Qed.

(** Up to the registers and the parent. *)
Lemma init_record_ok s W p entry mode ks us :
  let n := process_number (procs s) in
  let rp := ks + KERNEL_STACK_SIZE - sizeof_registers in
  window s W -> proc_ok W p -> in_u16 n -> 0 <= ks -> ks + KERNEL_STACK_SIZE < 2 ^ 32 ->
  subset (span rp sizeof_registers) W ->
  p + sizeof_process <= rp \/ rp + sizeof_registers <= p ->
  exists s', init_process p entry mode ks us s = add_process p s' /\
    started s' p n entry mode ks us /\ field s' p parent = u32 (current_process (procs s)) /\
    field s' p user_stack = field s p user_stack /\ same_but_procs s s' /\
    procs s' = count_process (procs s) /\ window s' W /\ touches (touched p ks []) s s'.
Proof.
  intros n rp HW Hp Hn Hks Hke Hrp Hap.
  destruct (fill_fields_ok s W p entry ks HW Hp) as (s1 & R1 & G1 & P1 & HW1 & K1 & V1). fold n in V1.
  destruct (init_regs_ok s1 W rp entry mode ks us HW1 Hrp) as (s2 & R2 & S2 & V2).
  pose proof (stores_window _ _ _ _ S2 HW1) as HW2. destruct (stores_same_but_procs _ _ _ S2) as [G2 P2].
  assert (Forall (proc_ok W) [p]) as Hok by (by constructor).
  destruct (set_field_ok s2 W [p] p parent (current_process (procs s)) HW2 Hok)
    as (s3 & R3 & S3 & V3 & F3 & K3); [by split|by left|done|done|].
  destruct (stores_same_but_procs _ _ _ S3) as [G3 P3].
  assert (u32 rp = rp) as Hu by (apply u32_small; unfold rp, KERNEL_STACK_SIZE, sizeof_registers in *; width_lia).
  assert (forall k, 0 <= k < 12 -> 4 * k <> parent -> field s3 p (4 * k) =
    value_after (more_fields n entry) (4 * k)
      (value_after (first_fields ks) (4 * k) (field s p (4 * k)))) as V.
  { intros k Hk Hne. rewrite F3; [|by left|lia|unfold sizeof_process; lia|unfold parent in *; lia].
    rewrite <- V1 by done. apply (stores_rd 4 _ _ _ W _ S2 HW1 Hrp).
    - apply record_in; [done|lia|unfold sizeof_process; lia].
    - intros x. unfold span, sizeof_process, sizeof_registers in *. lia. }
  unfold KERNEL_STACK_SIZE, sizeof_registers, rp in *.
  exists s3. split.
  { rewrite init_process_fills. run_with R1. rewrite Hu. run_with R2.
    unfold get_current. rewrite gets_bind, P2, P1. simpl. by run_with R3. }
  split; [|split; [done|split; [by apply (V 11)|]]].
  - split.
    + etransitivity; [exact (V 0 ltac:(lia) ltac:(done))|]. apply u32_small. unfold n in *. width_lia.
    + etransitivity; [exact (V 2 ltac:(lia) ltac:(done))|]. apply u32_small. width_lia.
    + etransitivity; [exact (V 3 ltac:(lia) ltac:(done))|]. apply u32_small.
      unfold KERNEL_STACK_SIZE. width_lia.
    + etransitivity; [exact (V 4 ltac:(lia) ltac:(done))|]. etransitivity; [apply u32_idemp|exact Hu].
    + exact (V 5 ltac:(lia) ltac:(done)).
    + exact (V 8 ltac:(lia) ltac:(done)).
    + exact (V 7 ltac:(lia) ltac:(done)).
    + intros k Hk. unfold KERNEL_STACK_SIZE, sizeof_registers. rewrite <- V2 by done.
      apply (stores_rd 4 _ _ _ W _ S3 HW2); [apply Hp| |];
        intros x; [intros Hx; apply Hrp|];
        unfold span, sizeof_process, KERNEL_STACK_SIZE, sizeof_registers in *; lia.
  - split; [by apply (same_but_procs_trans _ s1); [|apply (same_but_procs_trans _ s2)]|].
    split; [by rewrite P3, P2|]. split; [by apply (stores_window _ _ _ _ S3)|].
    assert (subset (touched p ks []) W) as HT by (by apply touched_in; [|constructor|]).
    assert (subset (touched p ks []) in_u32) as Hu' by (intros x Hx; by apply (win_u32 _ _ HW), HT).
    apply (touches_trans _ _ s1); [|apply (touches_trans _ _ s2)].
    + apply (touches_weaken _ _ _ _ K1); [|done]. intros x Hx. by left.
    + apply (stores_touches _ _ _ _ S2); [|done]. intros x Hx. right. by left.
    + apply (stores_touches _ _ _ _ S3); [|done]. intros x Hx. by left.
Qed.

Lemma started_kept s s' W p l n entry mode ks us :
  subset (span (ks + KERNEL_STACK_SIZE - sizeof_registers) sizeof_registers) W ->
  Forall (fun q => q + sizeof_process <= ks + KERNEL_STACK_SIZE - sizeof_registers \/
                   ks + KERNEL_STACK_SIZE <= q) l ->
  p ∈ l -> same_fields_but next s s' l -> kept_outside s s' W l ->
  started s p n entry mode ks us -> started s' p n entry mode ks us.
Proof.
  intros Hrp Hap Hp HF HK [H1 H2 H3 H4 H5 H6 H7 H8].
  split; try (rewrite HF; [done|done|done|done|by vm_compute; (left + right)]).
  intros k Hk. rewrite <- H8 by done. apply (HK 4%nat).
  - intros x Hx. apply Hrp. unfold span, sizeof_registers in *. lia.
  - intros q Hq. rewrite Forall_forall in Hap. specialize (Hap q Hq).
    unfold KERNEL_STACK_SIZE, sizeof_registers in *. lia.
Qed.

Lemma init_process_ok s W l p entry mode ks us :
  let n := process_number (procs s) in
  procs_list s W l -> proc_ok W p -> Forall (apart_procs p) l -> (length l < fuel)%nat ->
  in_u16 n -> 0 <= ks -> ks + KERNEL_STACK_SIZE < 2 ^ 32 ->
  subset (span (ks + KERNEL_STACK_SIZE - sizeof_registers) sizeof_registers) W ->
  Forall (fun q => q + sizeof_process <= ks + KERNEL_STACK_SIZE - sizeof_registers \/
                   ks + KERNEL_STACK_SIZE <= q) (p :: l) ->
  exists s', init_process p entry mode ks us s = Ok tt s' /\ procs_list s' W (l ++ [p]) /\
    started s' p n entry mode ks us /\ field s' p parent = u32 (current_process (procs s)) /\
    field s' p user_stack = field s p user_stack /\
    current_process (procs s') = (if l is [] then p else current_process (procs s)) /\
    process_number (procs s') = u16 (n + 1) /\ same_but_procs s s' /\
    same_fields_but next s s' l /\ touches (touched p ks l) s s'.
Proof.
  intros n HL Hp Hap Hlen Hn Hks Hke Hrp Haway. pose proof HL as [HW Hpath Hok Hsep].
  apply Forall_cons in Haway as [Hpa Haway].
  destruct (init_record_ok s W p entry mode ks us HW Hp Hn Hks Hke Hrp)
    as (s1 & R1 & D1 & Pa1 & U1 & G1 & P1 & HW1 & T1); [unfold sizeof_registers in *; lia|].
  assert (forall q o, q ∈ l -> 0 <= o -> o + 4 <= sizeof_process -> field s1 q o = field s q o) as F1.
  { intros q o Hq Ho He. rewrite Forall_forall in Hap, Haway, Hok.
    apply (kept_but_field _ _ _ W _ _ (touches_kept _ _ _ _ HW T1
      (touched_in _ _ _ [] Hp (Forall_nil_2 _) Hrp)) (Hok q Hq) Ho He).
    specialize (Hap q Hq). specialize (Haway q Hq). unfold apart_procs in Hap.
    intros x Hx [Hs|[Hs|Hs]]; [| |by apply Exists_nil in Hs];
      unfold span, sizeof_registers in *; lia. }
  assert (procs_list s1 W l) as HL1.
  { split; [done| |done|done]. rewrite P1. simpl. apply (path_same s); [|done].
    intros q Hq. by apply F1. }
  destruct (add_process_ok s1 W l p HL1 Hp Hap Hlen) as (s2 & R2 & HL2 & G2 & C2 & N2 & F2 & K2 & T2).
  assert (p ∈ l ++ [p]) as Hin by (apply elem_of_app; right; by left).
  exists s2. split; [by rewrite R1|]. split; [done|]. split.
  { apply (started_kept s1 _ W p (l ++ [p])); try done.
    apply Forall_app. split; [done|]. by apply Forall_singleton. }
  split; [by rewrite F2 by (done || (right; done) || (left; done))|].
  split; [by rewrite F2 by (done || (right; done) || (left; done))|].
  split; [by rewrite C2, P1|]. split; [by rewrite N2, P1|].
  split; [by apply (same_but_procs_trans _ s1)|]. split.
  - intros q o Hq Ho He Hd. rewrite F2, F1; try done. apply elem_of_app. by left.
  - pose proof (touched_in W p ks l Hp Hok Hrp) as HT.
    assert (subset (touched p ks l) in_u32) as Hu by (intros x Hx; by apply (win_u32 _ _ HW), HT).
    apply (touches_trans _ _ s1); (eapply touches_weaken; [eassumption| |exact Hu]).
    + intros x [Hx|[Hx|Hx]]; [by left|by right; left|by apply Exists_nil in Hx].
    + intros x [Hx|Hx]%Exists_app; [by right; right|]. apply Exists_cons in Hx as [Hx|Hx]; [by left|].
      by apply Exists_nil in Hx.
Qed.

End filling.

(** * Creating a process *)

Section creating.
Import Process.
Context `{Layout} `{Fuel}.

(** What the steps of [create_process] leave alone: the mappings of programs, and
    the globals of the drivers. *)
Definition spared (s s' : kst) : Prop :=
  undisturbed page_limit s s' /\ console s' = console s /\ keys s' = keys s /\
  descs s' = descs s /\ ticks s' = ticks s.
#[global] Instance spared_preorder : PreOrder spared.
Proof.
  split; [by intros s; split_and!|]. intros s s1 s2 (U1 & E1) (U2 & E2).
  split; [by transitivity s1|]. intuition congruence.
Qed.
Lemma stores_spared A s s' : stores A s s' -> spared s s'.
Proof.
  intros S. pose proof (stores_above page_limit _ _ _ S) as HA. destruct (st_machine _ _ _ S) as [m ->].
  by split.
Qed.
Lemma page_taken_spared s s' : page_taken page_limit s s' -> spared s s'.
Proof.
  intros HT. split; [by apply page_taken_undisturbed|]. by destruct HT as [(_ & _ & ? & ? & ? & ?) _].
Qed.

(** The record at [p] lies in one of the blocks handed out. *)
Definition housed (l : list block) (p : Z) : Prop :=
  exists c, c ∈ l /\ b_used c = true /\ b_addr c + 9 <= p /\ p + sizeof_process <= b_addr c + 9 + b_size c.

(** The heap and the process list in it. *)
Record kernel_data (s : kst) (W : Z -> Prop) (l : list block) (ps : list Z) : Prop := {
  kd_heap : heap_list s W l;
  kd_procs : procs_list s W ps;
  kd_housed : Forall (housed l) ps
}.

Lemma heap_list_grow s s' W W' l :
  heap_list s W l -> page_inv s' W' -> subset W W' -> heap s' = heap s ->
  (forall a, W a -> rd8 s' a = rd8 s a) -> heap_list s' W' l.
Proof.
  intros [Hinv Hseg Hok Hsep Hcur] Hinv' HWW Hh Hrd. split; [done| | |done|by rewrite Hh].
  - rewrite Hh. apply (segment_same s); [|done]. eapply Forall_impl; [exact Hok|].
    intros b [_ H1 _ Hin] n x Hx Hn. apply rd_ext. intros a Ha. apply Hrd, Hin.
    unfold span in *. lia.
  - eapply Forall_impl; [exact Hok|]. intros b. by apply block_ok_weaken.
Qed.

Lemma procs_list_grow s s' W W' ps :
  procs_list s W ps -> window s' W' -> subset W W' -> procs s' = procs s ->
  (forall p x, p ∈ ps -> span p sizeof_process x -> rd8 s' x = rd8 s x) ->
  procs_list s' W' ps /\ forall p o, p ∈ ps -> 0 <= o -> o + 4 <= sizeof_process ->
    field s' p o = field s p o.
Proof.
  intros [HW Hpath Hok Hsep] HW' HWW Hp Hrd.
  assert (forall p o, p ∈ ps -> 0 <= o -> o + 4 <= sizeof_process ->
    field s' p o = field s p o) as HF.
  { intros p o Hin Ho He. apply (rd_ext 4). intros a Ha. apply (Hrd p); [done|].
    unfold span in *. lia. }
  split; [|done]. split; [done| | |done].
  - rewrite Hp. apply (path_same s); [|done]. intros p Hin. by apply HF.
  - eapply Forall_impl; [exact Hok|]. intros p []. split; [done|done|]. intros x Hx. by apply HWW, pr_in.
Qed.

Lemma kernel_data_grow s s' W W' l ps :
  kernel_data s W l ps -> page_inv s' W' -> subset W W' -> heap s' = heap s ->
  procs s' = procs s -> (forall a, W a -> rd8 s' a = rd8 s a) ->
  kernel_data s' W' l ps /\ forall p o, p ∈ ps -> 0 <= o -> o + 4 <= sizeof_process ->
    field s' p o = field s p o.
Proof.
  intros [HL HP HH] Hinv HWW Hh Hp Hrd.
  pose proof (proj1 (Forall_forall _ _) (pl_procs _ _ _ HP)) as Hok.
  destruct (procs_list_grow s s' W W' ps HP) as [HP' HF]; try done.
  - by apply page_inv_window.
  - intros p x Hin Hx. apply Hrd. by apply (pr_in _ _ (Hok p Hin)).
  - split; [|done]. split; [by apply (heap_list_grow s _ W)|done|done].
Qed.

(** Writes to memory that holds no header. *)
Lemma heap_list_touches A s s' W l :
  heap_list s W l -> touches A s s' -> heap s' = heap s -> pmm s' = pmm s -> subset A W ->
  Forall (fun b => disjoint_from (span (b_addr b) 9) A) l -> heap_list s' W l.
Proof.
  intros [Hinv Hseg Hok Hsep Hcur] HT Hh Hm HA Hd.
  pose proof (page_inv_window _ _ Hinv) as HW.
  split; [|rewrite Hh|done|done|by rewrite Hh].
  - apply (page_inv_globals (set_mach (fun _ => mach s') s)); [done|done|].
    by apply (page_inv_stores _ _ _ _ HT).
  - apply (segment_same s); [|done]. rewrite Forall_forall in Hok, Hd |- *.
    intros b Hb n x Hx Hn. rewrite <- (rd_mach n s' (set_mach (fun _ => mach s') s)) by done.
    apply (same_header_stores _ _ _ W b HW HT HA (Hok b Hb) (Hd b Hb)); done.
Qed.

Lemma housed_headers W l p b :
  Forall (block_ok W) l -> separate l -> housed l p -> b ∈ l ->
  disjoint_from (span (b_addr b) 9) (span p sizeof_process).
Proof.
  intros Hok Hsep (c & Hc & _ & Hlo & Hhi) Hb x Hx Hp. rewrite Forall_forall in Hok.
  destruct (Hok b Hb), (Hok c Hc).
  destruct (separate_pair l b c Hsep Hb Hc) as [->|Hap]; unfold apart, span, sizeof_process in *; lia.
Qed.

Lemma take_at_keeps size a l c :
  c ∈ l -> b_addr c <> a -> c ∈ Spec.take_at size a l.
Proof.
  induction l as [|d l IH]; simpl; [done|]. intros [->|Hc]%elem_of_cons Hne.
  - rewrite (proj2 (Z.eqb_neq _ _)) by done. by left.
  - case_match; [apply elem_of_app; by right|]. apply elem_of_cons. right. by apply IH.
Qed.
Lemma take_at_has size l b :
  separate l -> Forall (fun c => 0 <= b_size c) l -> b ∈ l -> size <= b_size b ->
  exists c, c ∈ Spec.take_at size (b_addr b) l /\ b_used c = true /\ b_addr c = b_addr b /\
    size <= b_size c.
Proof.
  intros Hsep Hs (l1 & l2 & ->)%list_elem_of_split Hsize. rewrite take_at_middle by done.
  unfold Spec.carve. case_match; eexists; (split; [rewrite !elem_of_app; right; left; by left|done]).
Qed.

Lemma take_at_bytes size a l :
  0 <= size -> Forall (fun b => 0 <= b_size b) l ->
  subset (heap_bytes (Spec.take_at size a l)) (heap_bytes l).
Proof.
  intros Hs. unfold heap_bytes. induction l as [|b l IH]; simpl; [by intros _ x|].
  intros [Hb Hl]%Forall_cons x. case_match.
  - rewrite Exists_app, Exists_cons. intros [Hx|Hx]; [left|by right].
    unfold Spec.carve in Hx. case_match; rewrite ?Exists_cons, Exists_nil in Hx; simpl in Hx;
      unfold span in *; lia.
  - rewrite !Exists_cons. intros [Hx|Hx]; [by left|right; by apply IH].
Qed.

Lemma housed_bytes l p x : housed l p -> span p sizeof_process x -> heap_bytes l x.
Proof.
  intros (c & Hc & _ & Hlo & Hhi) Hx. apply Exists_exists. exists c. split; [done|].
  unfold span in *. lia.
Qed.

(** The record is allocated. *)
Lemma record_ok s W l ps b flag :
  kernel_data s W l ps -> (length l < fuel)%nat -> Spec.best_fit sizeof_process l = Some b ->
  let p := b_addr b + 9 in
  let l' := Spec.take_at sizeof_process (b_addr b) l in
  exists s', Heap.kmalloc sizeof_process flag s = Ok p s' /\ kernel_data s' W l' ps /\
    pmm s' = pmm s /\ procs s' = procs s /\ spared s s' /\
    (forall q o, q ∈ ps -> 0 <= o -> o + 4 <= sizeof_process -> field s' q o = field s q o) /\
    proc_ok W p /\ Forall (apart_procs p) ps /\ housed l' p /\
    forall x, W x -> ~ heap_bytes l x -> rd8 s' x = rd8 s x.
Proof.
  intros [HL HP HH] Hlen Hbest p l'. destruct (best_fit_in _ _ _ Hbest) as (Hin & Hfree & Hle).
  destruct (kmalloc_reuse_writes sizeof_process flag s W l b HL ltac:(by split) Hlen Hbest)
    as (s' & R & HL' & S).
  pose proof (take_keeps_payload s s' W l sizeof_process b HL Hin Hfree ltac:(done) S) as Hkeep.
  pose proof (hl_blocks _ _ _ HL) as Hok. pose proof (hl_separate _ _ _ HL) as Hsep.
  pose proof (proj1 (Forall_forall _ _) Hok) as Hok'. pose proof (Hok' b Hin) as [Hb0 Hb1 Hb2 HbW].
  destruct (st_machine _ _ _ S) as [m Hm]. rewrite Forall_forall in HH.
  assert (forall q, q ∈ ps -> apart_procs p q) as Hap.
  { intros q Hq. destruct (HH q Hq) as (c & Hc & Hu & Hlo & Hhi).
    destruct (separate_pair l b c Hsep Hin Hc) as [->|Ha]; [congruence|].
    unfold apart, apart_procs in *. unfold p, sizeof_process in *. lia. }
  destruct (procs_list_grow s s' W W ps HP) as [HP' HF]; [by apply (heap_window _ _ _ HL')|by intros x|by subst| |].
  { intros q x Hq Hx. apply Hkeep. destruct (HH q Hq) as (c & Hc & Hu & Hlo & Hhi).
    exists c. split_and!; try done. all: unfold span in *; lia. }
  exists s'. split; [exact R|]. split.
  { split; [done|done|]. apply Forall_forall. intros q Hq.
    destruct (HH q Hq) as (c & Hc & Hu & Hr). exists c. split; [|done].
    apply take_at_keeps; [done|]. intros He.
    destruct (separate_pair l b c Hsep Hin Hc) as [->|Ha]; [congruence|].
    destruct (Hok' c Hc). unfold apart in Ha. lia. }
  split; [by subst|]. split; [by subst|]. split; [exact (stores_spared _ _ _ S)|].
  split; [done|]. split.
  { unfold p, sizeof_process in *. split; unfold sizeof_process; [lia|lia|]. intros x Hx. apply HbW.
    unfold span in *. lia. }
  split; [by apply Forall_forall|].
  split.
  { destruct (take_at_has sizeof_process l b Hsep) as (c & Hc & Hu & Ha & Hs); [|done|done|].
    { eapply Forall_impl; [exact Hok|]. by intros c []. }
    exists c. unfold p. rewrite Ha. split_and!; try done; lia. }
  intros x Hx Hnx. apply (stores_rd8 _ _ _ W x S (heap_window _ _ _ HL)); [|done|].
  - intros y [Hy|[? Hy]]; apply HbW; unfold span, sizeof_process in *; lia.
  - intros Hy. by apply Hnx, (headers_heap W l b sizeof_process Hok Hin ltac:(done)).
Qed.

(** Data that the writes to [A] do not reach. *)
Lemma kernel_data_touches A s s' W l ps :
  kernel_data s W l ps -> touches A s s' -> heap s' = heap s -> pmm s' = pmm s ->
  procs s' = procs s -> subset A W ->
  Forall (fun b => disjoint_from (span (b_addr b) 9) A) l ->
  Forall (fun q => disjoint_from (span q sizeof_process) A) ps ->
  kernel_data s' W l ps /\ forall q o, q ∈ ps -> 0 <= o -> o + 4 <= sizeof_process ->
    field s' q o = field s q o.
Proof.
  intros [HL HP HH] HT Hh Hm Hp HA Hl Hps. pose proof (pl_window _ _ _ HP) as HW.
  pose proof (proj1 (Forall_forall _ _) (pl_procs _ _ _ HP)) as Hok. rewrite Forall_forall in Hps.
  destruct (procs_list_grow s s' W W ps HP) as [HP' HF];
    [by apply (touches_window _ _ _ _ HT)|by intros x|done| |].
  { intros q x Hq Hx. rewrite <- !rd_1. apply (touches_kept _ _ _ _ HW HT HA 1%nat).
    - intros y Hy. apply (pr_in _ _ (Hok q Hq)). unfold span in *. lia.
    - intros y Hy. apply (Hps q Hq). unfold span in *. lia. }
  split; [|done]. split; [by apply (heap_list_touches A s)|done|done].
Qed.

Lemma stack_ok s W l ps :
  let ks := next_virtual (pmm s) in
  kernel_data s W l ps -> ks + KERNEL_STACK_SIZE <= page_limit -> stocked 4 s ->
  exists s', Paging.allocate_pages_contig 4 3 s = Ok ks s' /\
    kernel_data s' (fun a => W a \/ span ks KERNEL_STACK_SIZE a) l ps /\ procs s' = procs s /\
    next_virtual (pmm s') = ks + KERNEL_STACK_SIZE /\
    spared s s' /\ frames_left 4 s s' /\
    (forall q o, q ∈ ps -> 0 <= o -> o + 4 <= sizeof_process -> field s' q o = field s q o) /\
    0 < ks /\ disjoint_from (span ks KERNEL_STACK_SIZE) W /\
    forall x, W x -> rd8 s' x = rd8 s x.
Proof.
  intros ks HK Hend Hst. unfold KERNEL_STACK_SIZE in *.
  destruct (allocate_pages_contig_ok page_limit ltac:(lia) 4 3 s W (hl_inv _ _ _ (kd_heap _ _ _ _ HK)))
    as (r & s' & R & St & Hnv & Hrd & [(_ & _ & Hno)|(-> & Hst' & HP & Hk0 & Hka & Hd)]);
    [lia|done|right; by split|done|].
  pose proof St as [(Hh & Hp & _) _].
  destruct (kernel_data_grow s s' W (fun a => W a \/ span ks (4 * 4096) a) l ps HK HP) as [HK' HF];
    [intros x; by left|done..|].
  exists s'. apply page_taken_spared in St. by repeat (split; [done|]).
Qed.

(** The page of the user's stack. *)
Definition user_page (mode p : Z) : K (option Z) :=
  if mode =? PROCESS_USER then
    us ← Paging.allocate_page
           (Z.lor (Z.lor Paging.PAGE_PRESENT Paging.PAGE_WRITE) Paging.PAGE_USER);
    if us =? 0 then mret None
    else set p user_stack us;; mret (Some us)
  else mret (Some 0).

Lemma user_page_ok mode s W l ps p :
  kernel_data s W l ps -> proc_ok W p -> Forall (apart_procs p) ps -> housed l p ->
  next_virtual (pmm s) + 4096 <= page_limit -> stocked 1 s ->
  exists us s' W', user_page mode p s = Ok (Some us) s' /\ kernel_data s' W' l ps /\
    subset W W' /\ (forall x, W' x -> W x \/ x < page_limit) /\ procs s' = procs s /\
    (forall q o, q ∈ ps -> 0 <= o -> o + 4 <= sizeof_process -> field s' q o = field s q o) /\
    (mode = PROCESS_USER -> field s' p user_stack = us /\ subset (span us 4096) W' /\
       disjoint_from (span us 4096) W /\ 0 < us /\ us mod 4096 = 0 /\ us + 4096 <= page_limit) /\
    next_virtual (pmm s') <= next_virtual (pmm s) + 4096 /\
    spared s s' /\ frames_left 1 s s' /\
    (forall x, W x -> ~ span p sizeof_process x -> rd8 s' x = rd8 s x).
Proof.
  intros HK Hp Hap Hho Hend Hst. unfold user_page. destruct (Z.eqb_spec mode PROCESS_USER) as [Hm|Hm].
  2:{ exists 0, s, W. split; [done|]. split; [done|]. split; [by intros x|]. split; [by left|].
      split; [done|].
      split; [done|]. split; [done|]. split; [lia|]. split; [done|].
      split; [by apply frames_left_pmm|done]. }
  pose proof (hl_inv _ _ _ (kd_heap _ _ _ _ HK)) as HPs.
  destruct (allocate_page_ok page_limit ltac:(lia) 7 s W HPs)
    as [[Hno _]|(us & s1 & R & HP & St & Hu0 & Hua & Hul & _ & Hd & Hrd & Hnv & Hf)];
    [by right|right; by split|done|].
  pose proof St as [(Hh & Hpr & _) _]. apply page_taken_spared in St.
  change (Z.lor (Z.lor Paging.PAGE_PRESENT Paging.PAGE_WRITE) Paging.PAGE_USER) with 7. run_with R.
  rewrite (proj2 (Z.eqb_neq us 0)) by lia.
  set (W' := fun a => W a \/ span us 4096 a) in *.
  assert (subset W W') as HWW by (intros x; by left).
  destruct (kernel_data_grow s s1 W W' l ps HK HP HWW Hh Hpr Hrd) as [HK1 HF1].
  pose proof (pl_window _ _ _ (kd_procs _ _ _ _ HK1)) as HW1.
  assert (proc_ok W' p) as Hp1.
  { destruct Hp. split; [done|done|]. intros x Hx. by apply HWW, pr_in. }
  destruct (set_field_ok s1 W' [p] p user_stack us HW1) as (s2 & R2 & S2 & V2 & _ & _);
    [by constructor|by split|by left|done|done|].
  destruct (stores_same_but_procs _ _ _ S2) as [_ P2]. destruct (st_machine _ _ _ S2) as [m Hm2].
  destruct (kernel_data_touches (span p sizeof_process) s1 s2 W' l ps HK1) as [HK2 HF2].
  - apply (stores_touches _ _ _ _ S2); [by intros x|exact (st_u32 _ _ _ S2)].
  - by subst s2.
  - by subst s2.
  - done.
  - apply Hp1.
  - apply Forall_forall. intros b Hb.
    apply (housed_headers W' l); [apply (hl_blocks _ _ _ (kd_heap _ _ _ _ HK1))|
      apply (hl_separate _ _ _ (kd_heap _ _ _ _ HK1))|done|done].
  - eapply Forall_impl; [exact Hap|]. intros q Hq x. unfold apart_procs, span in *. lia.
  - exists us, s2, W'. split; [by run_with R2|]. split; [done|]. split; [done|].
    split; [intros x [?|Hx]; [by left|right; unfold span in Hx; lia]|]. split; [congruence|]. split; [intros q o Hq Ho He; rewrite HF2, HF1; done|].
    assert (pmm s2 = pmm s1) as Pm by (by subst s2).
    split; [intros _|split; [by rewrite Pm|split; [|split]]].
    + split; [rewrite V2; apply u32_small; width_lia|]. split; [intros x; by right|done].
    + transitivity s1; [done|]. exact (stores_spared _ _ _ S2).
    + destruct Hf as (f & s1' & Rf & Lf & _).
      destruct (take_frame_ok _ s W HPs) as [[R0 Hno]|(f' & s'' & Rf' & _ & _ & _ & _ & _ & _ & _ & HL)];
        [by destruct Hno|].
      rewrite Rf in Rf'. injection Rf' as <- <-. apply (frames_left_add 1 0 _ s s1'); try done.
      apply frames_left_live; [done|]. rewrite <- Lf. unfold live. by rewrite Pm.
    + intros x Hx Hnx. rewrite <- Hrd by done.
      apply (stores_rd8 _ _ _ W' x S2 HW1); [apply Hp1|by left|done].
Qed.

Lemma create_process_user_page entry mode s :
  create_process entry mode s =
  (pro ← Heap.kmalloc sizeof_process 3;
   if pro =? 0 then mret 0 else
   ks ← Paging.allocate_pages_contig 4 3;
   if ks =? 0 then Heap.kfree pro;; mret 0 else
   us ← user_page mode pro;
   match us with
   | None => Paging.free_page ks;; Heap.kfree pro;; mret 0
   | Some us => init_process pro entry mode ks us;; mret pro
   end) s.
Proof. reflexivity. Qed.

(** Everything allocated: the record is filled in and linked. *)
Lemma init_in_heap s W W0 l ps p entry mode ks us :
  let n := process_number (procs s) in
  kernel_data s W l ps -> Forall (block_ok W0) l -> Forall (proc_ok W0) (p :: ps) ->
  Forall (apart_procs p) ps -> housed l p -> (length ps < fuel)%nat -> in_u16 n ->
  0 < ks -> ks + KERNEL_STACK_SIZE < 2 ^ 32 -> subset (span ks KERNEL_STACK_SIZE) W ->
  subset W0 W -> disjoint_from (span ks KERNEL_STACK_SIZE) W0 ->
  exists s', init_process p entry mode ks us s = Ok tt s' /\ kernel_data s' W l (ps ++ [p]) /\
    started s' p n entry mode ks us /\ field s' p parent = u32 (current_process (procs s)) /\
    field s' p user_stack = field s p user_stack /\
    current_process (procs s') = (if ps is [] then p else current_process (procs s)) /\
    process_number (procs s') = u16 (n + 1) /\ pmm s' = pmm s /\ spared s s' /\
    same_fields_but next s s' ps /\
    (forall x, W0 x -> ~ heap_bytes l x -> rd8 s' x = rd8 s x).
Proof.
  intros n HK Hl0 Hps0 Hap Hho Hlen Hn Hks0 Hke Hks HWW Hd.
  pose proof HK as [HL HP HH]. pose proof (proj1 (Forall_forall _ _) Hps0) as Hin.
  set (rp := ks + KERNEL_STACK_SIZE - sizeof_registers).
  assert (subset (span rp sizeof_registers) (span ks KERNEL_STACK_SIZE)) as Hrk.
  { intros x. unfold rp, span, KERNEL_STACK_SIZE, sizeof_registers. lia. }
  assert (subset (span rp sizeof_registers) W) as Hrp by (intros x Hx; by apply Hks, Hrk).
  assert (forall q, q ∈ p :: ps -> q + sizeof_process <= rp \/ ks + KERNEL_STACK_SIZE <= q) as Haway.
  { intros q Hq. destruct (decide (q + sizeof_process <= rp \/ ks + KERNEL_STACK_SIZE <= q)) as [|Hno]; [done|].
    exfalso. apply (Hd (Z.max q rp)).
    - unfold span, rp, sizeof_process, sizeof_registers, KERNEL_STACK_SIZE in *. lia.
    - apply (pr_in _ _ (Hin q Hq)). unfold span, rp, sizeof_process, sizeof_registers, KERNEL_STACK_SIZE in *. lia. }
  assert (proc_ok W p) as Hp.
  { destruct (Hin p (list_elem_of_here _ _)). split; [done|done|]. intros x Hx. by apply HWW, pr_in. }
  destruct (init_process_ok s W ps p entry mode ks us HP Hp Hap Hlen Hn ltac:(lia) Hke Hrp)
    as (s' & R & HP' & D & Pa & U & C & N & G & F & T); [by apply Forall_forall|].
  assert (Forall (housed l) (ps ++ [p])) as HH' by (apply Forall_app; split; [done|by constructor]).
  destruct G as (m & r & Hs'). exists s'. split; [exact R|]. split.
  { split; [|done|done]. apply (heap_list_touches (touched p ks ps) s); [done|done|by rewrite Hs'|by rewrite Hs'| |].
    - apply touched_in; [done|apply (pl_procs _ _ _ HP)|done].
    - rewrite Forall_forall in Hl0. apply Forall_forall. intros b Hb x Hx [Ht|[Ht|Ht]].
      + by apply (housed_headers W l p b (hl_blocks _ _ _ HL) (hl_separate _ _ _ HL) Hho Hb x).
      + destruct (Hl0 b Hb) as [_ ? _ Hbin]. apply (Hd x); [by apply Hrk|]. apply Hbin.
        unfold span in *. lia.
      + apply Exists_exists in Ht as (q & Hq & Ht). rewrite Forall_forall in HH.
        by apply (housed_headers W l q b (hl_blocks _ _ _ HL) (hl_separate _ _ _ HL) (HH q Hq) Hb x). }
  assert (pmm s' = pmm s) as Hpm by (by rewrite Hs').
  do 6 (split; [done|]). split; [split; [by apply (touches_undisturbed _ _ _ _ T)|by rewrite Hs']|]. split; [done|]. intros x Hx Hnx. rewrite <- !rd_1.
  pose proof (touched_in W p ks ps Hp (pl_procs _ _ _ HP) Hrp) as HT.
  apply (touches_kept _ _ _ _ (pl_window _ _ _ HP) T HT 1%nat);
    intros y Hy; (replace y with x by (unfold span in Hy; lia)); [by apply HWW|].
  intros [Ht|[Ht|Ht]].
  - by apply Hnx, (housed_bytes l p).
  - apply (Hd x); [by apply Hrk|done].
  - apply Exists_exists in Ht as (q & Hq & Ht). rewrite Forall_forall in HH.
    by apply Hnx, (housed_bytes l q); [apply HH|].
Qed.

(** Everything a new process is, and what is left as it was. *)
Record created (s s' : kst) (W W' : Z -> Prop) (l : list block) (ps : list Z) (b : block)
    (entry mode us : Z) : Prop := {
  cr_data : kernel_data s' W' (Spec.take_at sizeof_process (b_addr b) l) (ps ++ [b_addr b + 9]);
  cr_started : started s' (b_addr b + 9) (process_number (procs s)) entry mode
                 (next_virtual (pmm s)) us;
  cr_parent : field s' (b_addr b + 9) parent = u32 (current_process (procs s));
  cr_number : process_number (procs s') = u16 (process_number (procs s) + 1);
  cr_current : current_process (procs s') =
    (if ps is [] then b_addr b + 9 else current_process (procs s));
  cr_more : subset W W';
  cr_low : forall x, W' x -> W x \/ x < page_limit;
  cr_stack : subset (span (next_virtual (pmm s)) KERNEL_STACK_SIZE) W';
  cr_stack_fresh : disjoint_from (span (next_virtual (pmm s)) KERNEL_STACK_SIZE) W;
  cr_user : mode = PROCESS_USER -> field s' (b_addr b + 9) user_stack = us /\
    0 < us /\ us mod 4096 = 0 /\ us + 4096 <= page_limit /\ subset (span us 4096) W' /\
    forall x, span us 4096 x -> ~ W x /\ ~ span (next_virtual (pmm s)) KERNEL_STACK_SIZE x;
  cr_others : same_fields_but next s s' ps;
  cr_kept : forall x, W x -> ~ heap_bytes l x -> rd8 s' x = rd8 s x;
  cr_blocks : Forall (block_ok W) (Spec.take_at sizeof_process (b_addr b) l);
  cr_bytes : subset (heap_bytes (Spec.take_at sizeof_process (b_addr b) l)) (heap_bytes l);
  cr_next : next_virtual (pmm s') <= next_virtual (pmm s) + KERNEL_STACK_SIZE + 4096;
  cr_left : frames_left 5 s s';
  cr_spared : spared s s'
}.

Lemma create_process_ok entry mode s W l ps b :
  let n := process_number (procs s) in
  let ks := next_virtual (pmm s) in
  kernel_data s W l ps -> Spec.best_fit sizeof_process l = Some b ->
  (length l < fuel)%nat -> (length ps < fuel)%nat -> in_u16 n ->
  ks + KERNEL_STACK_SIZE + 4096 <= page_limit -> stocked 5 s ->
  exists us s' W', create_process entry mode s = Ok (b_addr b + 9) s' /\
    created s s' W W' l ps b entry mode us.
Proof.
  intros n ks HK Hbest Hlen Hlenp Hn Hend Hst. rewrite create_process_user_page.
  destruct (record_ok s W l ps b 3 HK Hlen Hbest)
    as (s1 & R1 & HK1 & Pm1 & Pr1 & A1 & F1 & Hp & Hap & Hho & M1).
  set (p := b_addr b + 9) in *. set (l' := Spec.take_at _ _ l) in *.
  run_with R1. rewrite (proj2 (Z.eqb_neq p 0)) by (destruct Hp; lia).
  assert (next_virtual (pmm s1) = ks) as Hks1 by (by rewrite Pm1).
  assert (forall m, stocked m s -> stocked m s1) as St1 by (intros m; by apply stocked_pmm).
  destruct (stack_ok s1 W l' ps HK1) as (s2 & R2 & HK2 & Pr2 & Nv2 & A2 & St2 & F2 & Hk0 & Hd & M2);
    [rewrite Hks1; lia|by apply St1, (stocked_le 5)|].
  rewrite Hks1 in *. run_with R2. rewrite (proj2 (Z.eqb_neq ks 0)) by lia.
  set (W2 := fun a => W a \/ span ks KERNEL_STACK_SIZE a) in *.
  assert (subset W W2) as HW2 by (intros x; by left).
  assert (proc_ok W2 p) as Hp2 by (destruct Hp; split; [done|done|intros x Hx; by apply HW2, pr_in]).
  destruct (user_page_ok mode s2 W2 l' ps p HK2 Hp2 Hap Hho)
    as (us & s3 & W3 & R3 & HK3 & HW3 & Lo3 & Pr3 & F3 & Hus & Nv3 & A3 & St3 & M3);
    [rewrite Nv2; lia|by apply (proj1 St2), St1|].
  run_with R3.
  pose proof (pl_procs _ _ _ (kd_procs _ _ _ _ HK1)) as Hps.
  pose proof (hl_blocks _ _ _ (kd_heap _ _ _ _ HK1)) as Hl'.
  destruct (init_in_heap s3 W3 W l' ps p entry mode ks us HK3 Hl')
    as (s4 & R4 & HK4 & D4 & Pa4 & U4 & C4 & N4 & Pm4 & A4 & F4 & M4);
    [by constructor|done|done|done|by rewrite Pr3, Pr2, Pr1|done|
     unfold KERNEL_STACK_SIZE in *; lia|intros x Hx; apply HW3; by right|
     intros x Hx; by apply HW3, HW2|done|].
  assert (subset (heap_bytes l') (heap_bytes l)) as Hb.
  { apply take_at_bytes; [done|]. eapply Forall_impl; [apply (hl_blocks _ _ _ (kd_heap _ _ _ _ HK))|].
    by intros c []. }
  rewrite Pr3, Pr2, Pr1 in *. exists us, s4, W3. split; [by run_with R4|].
  split; try done; fold p l' ks n.
  - intros x Hx. by apply HW3, HW2.
  - intros x Hx. destruct (Lo3 x Hx) as [[?|Hk]|?]; [by left|right|by right].
    unfold span, ks, KERNEL_STACK_SIZE in *. lia.
  - intros x Hx. apply HW3. by right.
  - intros Hm. destruct (Hus Hm) as (Hu1 & Hu2 & Hu3 & Hu4 & Hu5 & Hu6). rewrite U4.
    do 5 (split; [done|]). intros x Hx. split; intros Hw; apply (Hu3 x Hx); [by left|by right].
  - intros q o Hq Ho He Hx. rewrite F4, F3, F2, F1; done.
  - intros x Hx Hnx. assert (~ span p sizeof_process x) as Hnp.
    { intros Hxp. by apply Hnx, Hb, (housed_bytes l' p). }
    rewrite M4, M3, M2, M1; (done || (by left) || (intros ?; by apply Hnx, Hb)).
  - rewrite Pm4. lia.
  - apply (frames_left_add 0 5 _ s s1); [done..|by apply frames_left_pmm|].
    apply (frames_left_add 4 1 _ s1 s2); [done..|].
    apply (frames_left_add 1 0 _ s2 s3); [done..|by apply frames_left_pmm].
  - transitivity s1; [done|]. transitivity s2; [done|]. by transitivity s3.
Qed.

(** C5: when a free block holds a record and there are frames and address
    space for the stacks, [create_process] returns a new process at the end of
    the list: its record lies in a block of the heap nobody else uses, its
    identifier is the next one, its parent is the caller, it is ready, its
    registers, saved at the top of a fresh four-page kernel stack, start the
    given code in the given mode, and a user process has a fresh page for its
    stack.  The processes there were keep their fields, and memory outside the
    heap its contents. *)
Theorem create_process_creates entry mode s W l ps b :
  let n := process_number (procs s) in
  let ks := next_virtual (pmm s) in
  let p := b_addr b + 9 in
  kernel_data s W l ps -> Spec.best_fit sizeof_process l = Some b ->
  (length l < fuel)%nat -> (length ps < fuel)%nat -> in_u16 n ->
  ks + KERNEL_STACK_SIZE + 4096 <= page_limit -> stocked 5 s ->
  exists us s' W', create_process entry mode s = Ok p s' /\
    kernel_data s' W' (Spec.take_at sizeof_process (b_addr b) l) (ps ++ [p]) /\
    started s' p n entry mode ks us /\
    field s' p parent = u32 (current_process (procs s)) /\
    process_number (procs s') = u16 (n + 1) /\
    current_process (procs s') = (if ps is [] then p else current_process (procs s)) /\
    subset W W' /\ subset (span ks KERNEL_STACK_SIZE) W' /\
    disjoint_from (span ks KERNEL_STACK_SIZE) W /\
    (mode = PROCESS_USER -> field s' p user_stack = us /\ subset (span us 4096) W' /\
       forall x, span us 4096 x -> ~ W x /\ ~ span ks KERNEL_STACK_SIZE x) /\
    same_fields_but next s s' ps /\
    forall x, W x -> ~ heap_bytes l x -> rd8 s' x = rd8 s x.
Proof.
  intros n ks p HK Hbest Hlen Hlenp Hn Hend Hst.
  destruct (create_process_ok entry mode s W l ps b HK Hbest Hlen Hlenp Hn Hend Hst)
    as (us & s' & W' & R & []).
  exists us, s', W'. split_and!; try done. intros Hm. by destruct (cr_user0 Hm) as (? & _ & _ & _ & ?).
Qed.

End creating.

(** * The first process of a machine with 128 MiB *)

Section examples.
Import Process.
#[local] Existing Instance example_layout.
#[local] Existing Instance example_layout_ok.
#[local] Instance hundred : Fuel := 100%nat.

(** Paging is on and the heap has its first page. *)
Lemma first_heap :
  exists s W p, kernel_data s W [Spec.fresh p] [] /\ process_number (procs s) = 1 /\
    next_virtual (pmm s) <= 0x31000 /\ stocked 10 s.
Proof.
  destruct qemu_pages as (s & _ & _ & _ & Hnv & ((Hh & Hpr & _) & _) & He & Hm & Hfc & HP0 & _).
  assert (pages page_limit s video) as HP by (by apply (pages_lower screen_base)).
  assert (live s = qemu_map) as Hlive by (rewrite <- qemu_live; unfold live; by rewrite He, Hm).
  assert (stocked (10 + 1) s) as Hst.
  { unfold stocked. rewrite Hlive. by vm_compute. }
  destruct (allocate_page_ok page_limit ltac:(lia) 3 s video HP)
    as [(Hno & _)|(p & s1 & R & HP1 & [(Hh1 & Hpr1 & _) _] & Hp & Hpa & Hpl & _ & Hd & Hrd & Hnv1 & Hf)];
    [right; rewrite Hnv; lia|right; by split|exfalso; by apply Hno, (stocked_le 11)|].
  destruct Hf as (f & s2 & R2 & Hl & _).
  destruct (allocate_stocked 10 s (pa_frames _ _ _ HP) ltac:(lia) Hst) as (f' & s2' & R2' & _ & Hst').
  rewrite R2 in R2'. injection R2' as <- <-.
  assert (heap_list s video []) as HL.
  { split; [exact HP|by rewrite Hh|constructor|done|done]. }
  destruct (first_page_ok s video 3 p s1 HL R) as (s3 & _ & HL3 & (m & ->) & _).
  { apply (got_page_ok s video 3); [exact HP|right; rewrite Hnv; lia|right; by split|done|lia]. }
  eexists _, _, p. split; [split; [exact HL3| |constructor]|].
  { split; [apply (heap_window _ _ _ HL3)| |constructor|done]. simpl. by rewrite Hpr1, Hpr. }
  simpl. split; [by rewrite Hpr1, Hpr|]. split; [lia|].
  unfold stocked in *. rewrite <- Hl in Hst'. exact Hst'.
Qed.

Lemma create_process_creates_witness :
  exists s s' p, create_process 0x1234 PROCESS_USER s = Ok p s' /\
    field s' p state = PROCESS_READY /\ field s' p pid = 1 /\ current_process (procs s') = p.
Proof.
  destruct first_heap as (s & W & p & HK & Hn & Hnv & Hst).
  destruct (create_process_creates 0x1234 PROCESS_USER s W [Spec.fresh p] [] (Spec.fresh p) HK eq_refl)
    as (us & s' & W' & R & _ & D & _ & _ & C & _);
    [by apply Nat.ltb_lt|by apply Nat.ltb_lt|rewrite Hn; by split|unfold KERNEL_STACK_SIZE; lia|by apply (stocked_le 10)|].
  exists s, s', (b_addr (Spec.fresh p) + 9). split; [exact R|].
  split; [apply D|]. split; [rewrite (sd_pid _ _ _ _ _ _ _ D); exact Hn|exact C].
Defined.

End examples.
