(* ===== verification/Elf.v ===== *)
(** The loader of ELF programs: kernel/elf.c.

    The file is memory at an address; headers are read where they lie.  The
    theorems relate the checks to the bytes of the header, and the loading of a
    segment to the contents the program finds at its addresses. *)

From S2P Require Import Prelude Machine State Mmu Window PageSource Vga MemMap Paging UserMap MemLib Heap Descriptors Process.

Module Elf.

Definition ELFCLASS32 : Z := 1.
Definition EM_386 : Z := 3.
Definition EV_CURRENT : Z := 1.
Definition ET_REL : Z := 1.
Definition ET_EXEC : Z := 2.
Definition PT_LOAD : Z := 1.
Definition USER_STACK_TOP : Z := 0xBFFFF000.

(** Fields of [Elf32_Ehdr] and [Elf32_Phdr]. *)
Definition e_ident (hdr k : Z) : K Z := load8 (hdr + k).
Definition e_type (hdr : Z) : K Z := load16 (hdr + 16).
Definition e_machine (hdr : Z) : K Z := load16 (hdr + 18).
Definition e_entry (hdr : Z) : K Z := load32 (hdr + 24).
Definition e_phoff (hdr : Z) : K Z := load32 (hdr + 28).
Definition e_phsize (hdr : Z) : K Z := load16 (hdr + 42).
Definition e_phnum (hdr : Z) : K Z := load16 (hdr + 44).

Definition p_type (ph : Z) : K Z := load32 ph.
Definition p_offset (ph : Z) : K Z := load32 (ph + 4).
Definition p_vaddr (ph : Z) : K Z := load32 (ph + 8).
Definition p_filesz (ph : Z) : K Z := load32 (ph + 16).
Definition p_memsz (ph : Z) : K Z := load32 (ph + 20).

(** [print_string(msg, &i, &j); return 0;] *)
Definition reject (msg : string) : K Z := Vga.print_string_at (msg ++ NL)%string;; mret 0.

Definition check_elf_file (hdr : Z) : K Z :=
  if hdr =? 0 then mret 0 else
  b ← e_ident hdr 0;
  if negb (b =? 0x7F) then reject "index 0 error " else
  b ← e_ident hdr 1;
  if negb (b =? 69) then reject "index 1 error " else
  b ← e_ident hdr 2;
  if negb (b =? 76) then reject "index 2 error " else
  b ← e_ident hdr 3;
  if negb (b =? 70) then reject "index 3 error " else
  mret 1.

Definition check_elf_supported (hdr : Z) : K Z :=
  ok ← check_elf_file hdr;
  if ok =? 0 then mret 0 else
  b ← e_ident hdr 4;
  if negb (b =? ELFCLASS32) then reject "index 4 error " else
  m ← e_machine hdr;
  if negb (m =? EM_386) then reject "machine error " else
  b ← e_ident hdr 6;
  if negb (b =? EV_CURRENT) then reject "index 6 error " else
  t ← e_type hdr;
  unknown ← (if negb (t =? ET_REL) then t ← e_type hdr; mret (negb (t =? ET_EXEC))
             else mret false);
  if unknown : bool then reject "not existing type " else
  mret 1.

(** No [return]: the value the caller uses does not exist. *)
Definition elf_load_rel (hdr : Z) : K Z := undefined.

Section layout.
Context `{Layout} `{Fuel}.

(** The body of the loop of [load_segment]: [Some] leaves the function. *)
Definition load_page (vaddr : Z) : K (option unit) :=
  phy ← MemMap.allocate 4096;
  if phy =? 0 then mret (Some tt)
  else
    Paging.map_page phy vaddr
      (Z.lor (Z.lor Paging.PAGE_PRESENT Paging.PAGE_USER) Paging.PAGE_WRITE);;
    mret None.
(** After the loop: the contents are copied, the rest is cleared. *)
Definition fill_segment (ph file : Z) : K unit :=
  off ← p_offset ph;
  let src := u32 (file + off) in
  va ← p_vaddr ph;
  fsz ← p_filesz ph;
  MemLib.memcpy va src fsz;;
  msz ← p_memsz ph;
  fsz ← p_filesz ph;
  if fsz <? msz then
    va ← p_vaddr ph;
    fsz ← p_filesz ph;
    msz ← p_memsz ph;
    fsz' ← p_filesz ph;
    MemLib.memset (u32 (va + fsz)) 0 (u32 (msz - fsz'))
  else mret tt.
(** The loop steps through the multiples of 4096 from [segment_start] to
    [segment_end]; both are multiples, so [vaddr] does not wrap. *)
Definition load_segment (ph file : Z) : K unit :=
  va ← p_vaddr ph;
  let segment_start := Z.land va 0xFFFFF000 in
  va ← p_vaddr ph;
  msz ← p_memsz ph;
  let segment_end := Z.land (u32 (va + msz + 0xFFF)) 0xFFFFF000 in
  r ← for_return (seqZ 0 ((segment_end - segment_start) / 4096))
        (fun k => load_page (segment_start + 4096 * k));
  match r with
  | Some _ => mret tt
  | None => fill_segment ph file
  end.

Fixpoint load_segments (n : nat) (i phdr hdr file : Z) : K unit :=
  match n with
  | O => no_fuel
  | S n' =>
      num ← e_phnum hdr;
      if i <? num then
        sz ← e_phsize hdr;
        let ph := u32 (phdr + i * sz) in
        t ← p_type ph;
        (if negb (t =? PT_LOAD) then mret tt else load_segment ph file);;
        load_segments n' (u16 (i + 1)) phdr hdr file
      else mret tt
  end.
Definition elf_load_exec (hdr file : Z) : K Z :=
  off ← e_phoff hdr;
  let phdr := u32 (hdr + off) in
  load_segments fuel 0 phdr hdr file;;
  e_entry hdr.

Definition elf_load_file (file : Z) : K Z :=
  let hdr := file in
  ok ← check_elf_supported hdr;
  if ok =? 0 then mret 0 else
  t ← e_type hdr;
  if t =? ET_EXEC then elf_load_exec hdr file
  else if t =? ET_REL then elf_load_rel hdr
  else mret 0.

Definition create_elf_process (file : Z) : K Z :=
  p ← Process.create_process 0 Process.PROCESS_USER;
  if p =? 0 then Vga.print_string_at "process creation faild"%string;; mret 0 else
  entry ← elf_load_file file;
  (if negb (entry =? 0) then
     Vga.print_string_at ("ELF loaded successfully" ++ NL)%string;;
     Vga.print_hex_at entry
   else Vga.print_string_at ("ELF loading FAILED" ++ NL)%string);;
  r ← Process.get p Process.regs;
  Process.set r Process.r_eip entry;;
  phy ← MemMap.allocate 4096;
  Paging.map_page phy (USER_STACK_TOP - 4096)
    (Z.lor (Z.lor Paging.PAGE_PRESENT Paging.PAGE_WRITE) Paging.PAGE_USER);;
  r ← Process.get p Process.regs;
  Process.set r Process.r_user_esp USER_STACK_TOP;;
  mret p.

End layout.
End Elf.

(** * The checks of the header *)

Section checks.
Import Elf.

(** What the loader accepts: the magic number, 32 bits, the 80386, the current
    version, a relocatable file or an executable one. *)
Definition magic_ok (s : kst) (hdr : Z) : bool :=
  (rd8 s hdr =? 0x7F) && (rd8 s (hdr + 1) =? 69) && (rd8 s (hdr + 2) =? 76) && (rd8 s (hdr + 3) =? 70).
Definition header_ok (s : kst) (hdr : Z) : bool :=
  magic_ok s hdr && (rd8 s (hdr + 4) =? ELFCLASS32) && (rd16 s (hdr + 18) =? EM_386) &&
  (rd8 s (hdr + 6) =? EV_CURRENT) && ((rd16 s (hdr + 16) =? ET_REL) || (rd16 s (hdr + 16) =? ET_EXEC)).

(** A header in the window, and a screen to complain on. *)
Record readable_header (s : kst) (W : Z -> Prop) (hdr : Z) : Prop := {
  rh_window : window s W;
  rh_in : subset (span hdr 52) W;
  rh_address : 0 < hdr;
  rh_screen : window s video;
  rh_cursor : 0 <= cur_i (console s) < 2000
}.

Lemma e_ident_ok s W hdr k :
  readable_header s W hdr -> 0 <= k < 52 -> e_ident hdr k s = Ok (rd8 s (hdr + k)) s.
Proof.
  intros [HW Hin _ _ _] Hk. apply (load8_ok s W HW). apply Hin. unfold span. lia.
Qed.
Lemma load16_header s W hdr k :
  readable_header s W hdr -> 0 <= k -> k + 2 <= 52 -> load16 (hdr + k) s = Ok (rd16 s (hdr + k)) s.
Proof.
  intros [HW Hin _ _ _] Hk Hn. apply (load_ok s W HW 2). intros a Ha. apply Hin. unfold span in *. lia.
Qed.

(** The tests in the order they are made, with what is said when one fails. *)
Definition magic_tests (s : kst) (hdr : Z) : list (bool * string) :=
  [(rd8 s (hdr + 0) =? 0x7F, "index 0 error "%string); (rd8 s (hdr + 1) =? 69, "index 1 error "%string);
   (rd8 s (hdr + 2) =? 76, "index 2 error "%string); (rd8 s (hdr + 3) =? 70, "index 3 error "%string)].
Definition support_tests (s : kst) (hdr : Z) : list (bool * string) :=
  [(rd8 s (hdr + 4) =? 1, "index 4 error "%string); (rd16 s (hdr + 18) =? 3, "machine error "%string);
   (rd8 s (hdr + 6) =? 1, "index 6 error "%string);
   ((rd16 s (hdr + 16) =? 1) || (rd16 s (hdr + 16) =? 2), "not existing type "%string)].
Fixpoint first_failure (l : list (bool * string)) : option string :=
  match l with
  | [] => None
  | (ok, msg) :: l' => if ok : bool then first_failure l' else Some msg
  end.
Definition complaint (s : kst) (hdr : Z) : option string :=
  first_failure (magic_tests s hdr ++ support_tests s hdr).

Lemma first_failure_app l1 l2 :
  first_failure (l1 ++ l2) =
  match first_failure l1 with Some msg => Some msg | None => first_failure l2 end.
Proof. induction l1 as [|[[] msg] l1 IH]; by simpl. Qed.
Lemma first_failure_none l : first_failure l = None <-> forallb fst l = true.
Proof. induction l as [|[[] msg] l IH]; by simpl. Qed.

Lemma complaint_none s hdr : complaint s hdr = None <-> header_ok s hdr = true.
Proof.
  unfold complaint. rewrite first_failure_none. unfold header_ok, magic_ok. simpl.
  rewrite Z.add_0_r, andb_true_r, !andb_assoc. done.
Qed.

(** The screen after a line has been printed at the cursor. *)
Definition line_printed (s s' : kst) (msg : string) : Prop :=
  showing s s' (Screen.line_text (terminal s) (codes (msg ++ NL))).

(** Both checks end in one of two ways. *)
Definition verdict (m : K Z) (s : kst) (o : option string) : Prop :=
  match o with
  | None => m s = Ok 1 s
  | Some msg => exists s', m s = Ok 0 s' /\ line_printed s s' msg
  end.

Definition printable (msg : string) : bool :=
  forallb (fun c => negb (c =? 0)) (codes (msg ++ NL)).

Lemma reject_ok s W hdr (msg : string) :
  readable_header s W hdr -> printable msg = true -> verdict (reject msg) s (Some msg).
Proof.
  intros [_ _ _ HV Hc] Hm. destruct (print_string_at_shows (msg ++ NL) s Hm HV Hc) as (s' & R & D).
  exists s'. split; [|done]. unfold reject. by run_with R.
Qed.

Lemma verdict_ext (m m' : K Z) s o : m s = m' s -> verdict m s o -> verdict m' s o.
Proof. unfold verdict. by intros ->. Qed.
(** A computation that leaves the state alone comes first. *)
Lemma verdict_bind {A} (m : K A) v (rest : A -> K Z) s o :
  m s = Ok v s -> verdict (rest v) s o -> verdict (x ← m; rest x) s o.
Proof.
  intros Hv HR. unfold verdict in *. destruct o; [|by run_with Hv].
  destruct HR as (s' & R & D). exists s'. split; [by run_with Hv|done].
Qed.

(** One test: a byte or a word is compared, and the function goes on. *)
Lemma verdict_step (m : K Z) v (P : Z -> bool) (msg : string) (rest : K Z) l s W hdr :
  readable_header s W hdr -> printable msg = true ->
  m s = Ok v s -> (P v = true -> verdict rest s (first_failure l)) ->
  verdict (x ← m; if negb (P x) then reject msg else rest) s (first_failure ((P v, msg) :: l)).
Proof.
  intros HR Hm Hv Hrest. apply (verdict_bind m v); [done|]. simpl.
  destruct (P v); [by apply Hrest|by apply (reject_ok s W hdr)].
Qed.

Lemma check_elf_file_ok s W hdr :
  readable_header s W hdr -> verdict (check_elf_file hdr) s (first_failure (magic_tests s hdr)).
Proof.
  intros HR. unfold check_elf_file. rewrite (proj2 (Z.eqb_neq hdr 0)) by (destruct HR; lia).
  do 4 (eapply (verdict_step _ _ (fun b => b =? _)); [exact HR|done|by apply (e_ident_ok s W)|intros _]).
  done.
Qed.

Lemma type_ok s W hdr :
  readable_header s W hdr ->
  (t ← e_type hdr;
   if negb (t =? ET_REL) then t ← e_type hdr; mret (negb (t =? ET_EXEC)) else mret false) s =
  Ok (negb ((rd16 s (hdr + 16) =? ET_REL) || (rd16 s (hdr + 16) =? ET_EXEC))) s.
Proof.
  intros HR. pose proof (load16_header s W hdr 16 HR ltac:(done) ltac:(done)) as Ht.
  unfold e_type. run_with Ht. destruct (rd16 s (hdr + 16) =? ET_REL); simpl; [done|]. by run_with Ht.
Qed.

Lemma check_elf_supported_ok s W hdr :
  readable_header s W hdr -> verdict (check_elf_supported hdr) s (complaint s hdr).
Proof.
  intros HR. pose proof (check_elf_file_ok s W hdr HR) as HF.
  unfold complaint. rewrite first_failure_app. unfold check_elf_supported.
  destruct (first_failure (magic_tests s hdr)) as [msg|]; unfold verdict in HF.
  { destruct HF as (s' & R & D). exists s'. split; [by run_with R|done]. }
  apply (verdict_bind _ _ _ _ _ HF). simpl (if 1 =? 0 then _ else _).
  eapply (verdict_step _ _ (fun b => b =? _)); [exact HR|done|by apply (e_ident_ok s W)|intros _].
  eapply (verdict_step _ _ (fun b => b =? _)); [exact HR|done|by apply (load16_header s W)|intros _].
  eapply (verdict_step _ _ (fun b => b =? _)); [exact HR|done|by apply (e_ident_ok s W)|intros _].
  eapply verdict_ext; [apply bind_assoc|]. apply (verdict_bind _ _ _ _ _ (type_ok s W hdr HR)).
  simpl. destruct (_ || _); simpl; [done|by apply (reject_ok s W hdr)].
Qed.

(** C23: [check_elf_supported] accepts a file exactly when its header has the
    magic number and is of a 32-bit file for the 80386, of the current version,
    relocatable or executable; it changes nothing then.  It refuses every other
    file with 0 and prints, as a line at the cursor, the message of the first
    test that fails, and changes nothing but the screen and the cursor. *)
Theorem check_elf_supported_accepts s W hdr :
  readable_header s W hdr ->
  (header_ok s hdr = true -> check_elf_supported hdr s = Ok 1 s) /\
  (header_ok s hdr = false -> exists msg s', complaint s hdr = Some msg /\
     check_elf_supported hdr s = Ok 0 s' /\ drawn s s' /\
     terminal s' = Screen.line_text (terminal s) (codes (msg ++ NL))).
Proof.
  intros HR. pose proof (check_elf_supported_ok s W hdr HR) as HV. unfold verdict in HV.
  split; intros Hok.
  - by rewrite (proj2 (complaint_none s hdr) Hok) in HV.
  - destruct (complaint s hdr) as [msg|] eqn:Hc; [|by rewrite (proj1 (complaint_none s hdr) Hc) in Hok].
    destruct HV as (s' & R & D). exists msg, s'.
    split; [done|]. split; [done|]. split; [apply D|by apply (showing_terminal s)].
Qed.

(** An executable header at 0x40000; version 2 of it is refused. *)
Definition header_memory (version : Z) : list (Z * Z) :=
  [(0x40000, 0x464C457F); (0x40004, 0x00000101 + 0x10000 * version); (0x40010, 0x00030002)].
Definition with_header (version : Z) : kst :=
  set_console (fun _ => ConsoleState 400 0)
    (match writes (header_memory version) (boot_state [] no_device) with
     | Ok _ s => s
     | _ => boot_state [] no_device
     end).
Lemma with_header_readable version :
  version = 1 \/ version = 2 -> readable_header (with_header version) in_u32 0x40000.
Proof.
  intros Hv. split; [|by intros a; unfold span, in_u32; lia|done| |].
  1,2: destruct Hv as [-> | ->];
    (apply flat_window; [by vm_compute|first [exact video_u32|by intros a]]).
  simpl. lia.
Qed.
Lemma check_elf_supported_accepts_witness :
  check_elf_supported 0x40000 (with_header 1) = Ok 1 (with_header 1) /\
  exists s', check_elf_supported 0x40000 (with_header 2) = Ok 0 s' /\
    take 13 (drop 400 (screen s')) = Screen.glyph <$> codes "index 6 error".
Proof.
  split.
  - apply (check_elf_supported_accepts (with_header 1) in_u32 0x40000).
    + apply with_header_readable. by left.
    + by vm_compute.
  - destruct (check_elf_supported_accepts (with_header 2) in_u32 0x40000) as [_ H2].
    + apply with_header_readable. by right.
    + destruct H2 as (msg & s' & Hm & R & _ & T); [by vm_compute|].
      assert (msg = "index 6 error "%string) as -> by (revert Hm; vm_compute; congruence).
      exists s'. split; [exact R|]. change (screen s') with (Screen.cells (terminal s')).
      rewrite T. by vm_compute.
Defined.

End checks.

(** * Loading a segment *)

Section segments.
Import Elf.
Context `{Layout} (limit : Z) (Hlimit : 0 < limit < 2 ^ 22).

(** One page: a frame and, perhaps, a table. *)
Lemma load_page_ok s W p n :
  userland limit s W -> 2 ^ 22 <= p -> p mod 4096 = 0 -> p + 4096 <= 2 ^ 32 ->
  disjoint_from (span p 4096) W -> frames_below (S (S n)) (live s) = true ->
  exists s', load_page p s = Ok None s' /\ same_but_frames s s' /\
    userland limit s' (fun a => W a \/ span p 4096 a) /\ frames_below n (live s') = true /\
    forall a, W a -> rd8 s' a = rd8 s a.
Proof using Hlimit.
  intros HU Hp Hpa Hpe Hfresh Hn.
  destruct (take_low_frame limit s W (S n) HU Hn)
    as (f & s1 & R1 & M1 & HU1 & Hn1 & Hf & Hfa & Hfe & _ & Hun).
  destruct (map_user_ok limit Hlimit s1 W p f
    (Z.lor (Z.lor Paging.PAGE_PRESENT Paging.PAGE_USER) Paging.PAGE_WRITE) n HU1 Hp Hpa Hpe)
    as (s2 & R2 & HG & HU2 & Hn2 & Hrd); try done; [lia|lia|intros pa Hpa'; by apply Hun|].
  exists s2. split.
  { unfold load_page. run_with R1. rewrite (proj2 (Z.eqb_neq f 0)) by lia. by run_with R2. }
  destruct M1 as [(k & L & ->) _]. split; [exact HG|]. split; [done|]. split; [done|].
  intros a Ha. by rewrite Hrd.
Qed.

Lemma load_pages_ok (m n : nat) s W start k0 :
  userland limit s W -> 2 ^ 22 <= start -> start mod 4096 = 0 -> 0 <= k0 ->
  start + 4096 * (k0 + Z.of_nat m) <= 2 ^ 32 ->
  disjoint_from (span (start + 4096 * k0) (4096 * Z.of_nat m)) W ->
  frames_below (2 * m + n) (live s) = true ->
  exists s', for_return (seqZ k0 (Z.of_nat m)) (fun k => load_page (start + 4096 * k)) s = Ok None s' /\
    same_but_frames s s' /\
    userland limit s' (fun a => W a \/ span (start + 4096 * k0) (4096 * Z.of_nat m) a) /\
    frames_below n (live s') = true /\ forall a, W a -> rd8 s' a = rd8 s a.
Proof using Hlimit.
  revert s W k0. induction m as [|m IH]; intros s W k0 HU Hs Hsa Hk Hend Hfresh Hn.
  { exists s. split; [done|]. split; [done|]. split; [|done].
    apply (userland_subset limit _ W); [done|]. intros a [?|Ha]; [done|]. unfold span in Ha. lia. }
  rewrite seqZ_cons by lia. replace (Z.pred (Z.of_nat (S m))) with (Z.of_nat m) by lia. simpl for_return.
  destruct (load_page_ok s W (start + 4096 * k0) (2 * m + n) HU)
    as (s1 & R1 & G1 & HU1 & Hn1 & V1); [lia|lia|lia| |by replace (S (S (2 * m + n))) with (2 * S m + n)%nat by lia|].
  { intros a Ha. apply Hfresh. unfold span in *. lia. }
  destruct (IH s1 _ (Z.succ k0) HU1 Hs Hsa) as (s2 & R2 & G2 & HU2 & Hn2 & V2); [lia|lia| |done|].
  { intros a Ha [?|?]; [apply (Hfresh a)|]; unfold span in *; (done || lia). }
  exists s2. split; [by run_with R1|]. split; [by transitivity s1|]. split; [|split; [done|]].
  - apply (userland_subset limit _ _ _ HU2). intros a. unfold span. intros [?|?]; [by left; left|].
    destruct (decide (a < start + 4096 * k0 + 4096)); [left; right|right]; lia.
  - intros a Ha. rewrite V2 by (by left). by apply V1.
Qed.

(** The program header at [ph]. *)
Definition vaddr_of (s : kst) (ph : Z) : Z := rd32 s (ph + 8).
Definition offset_of (s : kst) (ph : Z) : Z := rd32 s (ph + 4).
Definition filesz_of (s : kst) (ph : Z) : Z := rd32 s (ph + 16).
Definition memsz_of (s : kst) (ph : Z) : Z := rd32 s (ph + 20).
(** The pages of the segment. *)
Definition first_page_of (s : kst) (ph : Z) : Z := page_base (vaddr_of s ph).
Definition pages_of (s : kst) (ph : Z) : nat :=
  Z.to_nat ((page_base (vaddr_of s ph + memsz_of s ph + 0xFFF) - first_page_of s ph) / 4096).
Definition pages_span (s : kst) (ph : Z) : Z -> Prop :=
  span (first_page_of s ph) (4096 * Z.of_nat (pages_of s ph)).

(** A segment the loader can load: it lies above the kernel's 4 MiB and does
    not wrap, its pages are not in use, and the header and the contents are in
    memory. *)
Record loadable (s : kst) (W : Z -> Prop) (ph file : Z) : Prop := {
  ld_header : subset (span ph 32) W;
  ld_user : 2 ^ 22 <= vaddr_of s ph;
  ld_end : vaddr_of s ph + memsz_of s ph + 0xFFF < 2 ^ 32;
  ld_sizes : filesz_of s ph <= memsz_of s ph;
  ld_contents : subset (span (file + offset_of s ph) (filesz_of s ph)) W;
  ld_source : 0 <= file /\ file + offset_of s ph < 2 ^ 32;
  ld_fresh : disjoint_from (pages_span s ph) W
}.

Lemma pages_of_eq s ph :
  vaddr_of s ph + memsz_of s ph + 0xFFF < 2 ^ 32 ->
  (page_base (vaddr_of s ph + memsz_of s ph + 0xFFF) - first_page_of s ph) / 4096 =
    Z.of_nat (pages_of s ph) /\
  first_page_of s ph <= vaddr_of s ph /\ first_page_of s ph mod 4096 = 0 /\
  vaddr_of s ph + memsz_of s ph <= first_page_of s ph + 4096 * Z.of_nat (pages_of s ph) <= 2 ^ 32.
Proof.
  intros He. pose proof (rd32_range s (ph + 8)) as Hv. pose proof (rd32_range s (ph + 20)) as Hm.
  fold (vaddr_of s ph) in Hv. fold (memsz_of s ph) in Hm. unfold pages_of, first_page_of.
  rewrite !page_base_eq by width_lia. unfold in_u32 in *. rewrite Z2Nat.id by lia. split; lia.
Qed.

Lemma read_header s0 s W W' ph o :
  window s W' -> subset W W' -> subset (span ph 32) W -> (forall a, W a -> rd8 s a = rd8 s0 a) ->
  0 <= o -> o + 4 <= 32 -> load32 (ph + o) s = Ok (rd32 s0 (ph + o)) s.
Proof.
  intros HW Hsub Hh V Ho Ho'.
  assert (subset (span (ph + o) 4) W) as Hin by (intros a Ha; apply Hh; unfold span in *; lia).
  unfold load32. rewrite (load_ok s W' HW 4) by (intros a Ha; by apply Hsub, Hin).
  f_equal. apply rd_ext. intros a Ha. by apply V, Hin.
Qed.

(** The contents arrive and the rest is zero, once the pages are in [W1]. *)
Section filling.
Context (s s1 : kst) (W W1 : Z -> Prop) (ph file : Z).
Context (HLd : loadable s W ph file) (HW1 : window s1 W1) (HWW : subset W W1).
Context (HPW : subset (pages_span s ph) W1) (V1 : forall a, W a -> rd8 s1 a = rd8 s a).

Lemma segment_bounds :
  0 <= vaddr_of s ph < 2 ^ 32 /\ 0 <= filesz_of s ph <= memsz_of s ph /\
  vaddr_of s ph + memsz_of s ph < 2 ^ 32 /\ 0 <= file + offset_of s ph < 2 ^ 32.
Proof using HLd.
  destruct HLd as [_ Hu He Hsz _ Hsrc _]. pose proof (rd32_range s (ph + 16)) as Hfs.
  pose proof (rd32_range s (ph + 4)) as Hof. pose proof (rd32_range s (ph + 8)) as Hva.
  fold (filesz_of s ph) in Hfs. fold (offset_of s ph) in Hof. fold (vaddr_of s ph) in Hva.
  unfold in_u32 in *. lia.
Qed.
(** The segment is in its pages, which were not in use. *)
Lemma segment_in a n : vaddr_of s ph <= a -> a + n <= vaddr_of s ph + memsz_of s ph ->
  subset (span a n) W1.
Proof using HLd HPW.
  intros Ha Hn x Hx. apply HPW. destruct (pages_of_eq s ph (ld_end _ _ _ _ HLd)) as (_ & Hfv & _ & Hend & _).
  unfold pages_span, span in *. lia.
Qed.
Lemma segment_new a : W a -> ~ span (vaddr_of s ph) (memsz_of s ph) a.
Proof using HLd.
  intros Ha Hp. destruct (pages_of_eq s ph (ld_end _ _ _ _ HLd)) as (_ & Hfv & _ & Hend & _).
  apply (ld_fresh _ _ _ _ HLd a); [|done]. unfold pages_span, span in *. lia.
Qed.

Lemma copy_contents :
  exists s2, MemLib.memcpy (vaddr_of s ph) (file + offset_of s ph) (filesz_of s ph) s1 =
      Ok (vaddr_of s ph) s2 /\ stores W1 s1 s2 /\
    (forall a, W a -> rd8 s2 a = rd8 s a) /\
    forall k, 0 <= k < filesz_of s ph -> rd8 s2 (vaddr_of s ph + k) = rd8 s (file + offset_of s ph + k).
Proof using HLd HPW HW1 HWW V1.
  pose proof segment_bounds as Hb. pose proof (ld_contents _ _ _ _ HLd) as Hc.
  assert (subset (span (vaddr_of s ph) (filesz_of s ph)) W1) as Hin by (apply segment_in; lia).
  destruct (memcpy_ok s1 W1 (vaddr_of s ph) (file + offset_of s ph) (filesz_of s ph) HW1 Hin)
    as (s2 & R2 & S2 & V2 & F2).
  { intros a Ha. by apply HWW, Hc. }
  { lia. }
  { destruct (decide (file + offset_of s ph + filesz_of s ph <= vaddr_of s ph)) as [?|?]; [by right|left].
    destruct (decide (vaddr_of s ph <= file + offset_of s ph)); [done|].
    exfalso. apply (segment_new (vaddr_of s ph)); [apply Hc|]; unfold span; lia. }
  exists s2. split; [exact R2|]. split.
  { apply (stores_weaken _ _ _ _ S2); [exact Hin|exact (win_u32 _ _ HW1)]. }
  split.
  - intros a Ha. rewrite F2; [by apply V1|by apply HWW|]. intros Hs. apply (segment_new a Ha). unfold span in *. lia.
  - intros k Hk. rewrite V2, V1 by (done || (apply Hc; unfold span; lia)). done.
Qed.

Lemma clear_rest s2 :
  stores W1 s1 s2 -> (forall a, W a -> rd8 s2 a = rd8 s a) -> filesz_of s ph < memsz_of s ph ->
  exists s3, MemLib.memset (vaddr_of s ph + filesz_of s ph) 0 (memsz_of s ph - filesz_of s ph) s2 =
      Ok tt s3 /\ stores W1 s1 s3 /\
    (forall a, W a -> rd8 s3 a = rd8 s a) /\
    (forall k, 0 <= k < filesz_of s ph -> rd8 s3 (vaddr_of s ph + k) = rd8 s2 (vaddr_of s ph + k)) /\
    forall k, filesz_of s ph <= k < memsz_of s ph -> rd8 s3 (vaddr_of s ph + k) = 0.
Proof using HLd HPW HW1 HWW.
  intros S2 V2 Hlt. pose proof segment_bounds as Hb. pose proof (stores_window _ _ _ _ S2 HW1) as HW2.
  assert (subset (span (vaddr_of s ph + filesz_of s ph) (memsz_of s ph - filesz_of s ph)) W1) as Hin
    by (apply segment_in; lia).
  destruct (memset_ok s2 W1 (vaddr_of s ph + filesz_of s ph) 0 (memsz_of s ph - filesz_of s ph) HW2 Hin)
    as (s3 & R3 & S3 & V3 & F3); [lia|].
  exists s3. split; [exact R3|]. split; [|split; [|split]].
  - apply (stores_again _ _ s2); [done|]. apply (stores_weaken _ _ _ _ S3); [exact Hin|exact (win_u32 _ _ HW2)].
  - intros a Ha. rewrite F3; [by apply V2|by apply HWW|]. intros Hs. apply (segment_new a Ha). unfold span in *. lia.
  - intros k Hk. rewrite F3; [done| |unfold span; lia].
    apply (segment_in (vaddr_of s ph) (memsz_of s ph)); [lia|lia|]. unfold span. lia.
  - intros k Hk. rewrite V3 by (unfold span; lia). done.
Qed.

Lemma fill_segment_ok :
  exists s', fill_segment ph file s1 = Ok tt s' /\ stores W1 s1 s' /\
    (forall a, W a -> rd8 s' a = rd8 s a) /\
    (forall k, 0 <= k < filesz_of s ph ->
       rd8 s' (vaddr_of s ph + k) = rd8 s (file + offset_of s ph + k)) /\
    (forall k, filesz_of s ph <= k < memsz_of s ph -> rd8 s' (vaddr_of s ph + k) = 0).
Proof using HLd HPW HW1 HWW V1.
  pose proof segment_bounds as Hb. pose proof (ld_header _ _ _ _ HLd) as Hh.
  destruct copy_contents as (s2 & R2 & S2 & V2 & C2). pose proof (stores_window _ _ _ _ S2 HW1) as HW2.
  pose proof (fun k => read_header s s1 W W1 ph k HW1 HWW Hh V1) as L1.
  pose proof (fun k => read_header s s2 W W1 ph k HW2 HWW Hh V2) as L2.
  unfold fill_segment, p_offset, p_vaddr, p_filesz, p_memsz.
  run_with (L1 4 ltac:(lia) ltac:(lia)). run_with (L1 8 ltac:(lia) ltac:(lia)).
  run_with (L1 16 ltac:(lia) ltac:(lia)).
  change (rd32 s (ph + 4)) with (offset_of s ph). rewrite u32_small by (unfold in_u32; lia).
  run_with R2. run_with (L2 20 ltac:(lia) ltac:(lia)). run_with (L2 16 ltac:(lia) ltac:(lia)).
  change (rd32 s (ph + 16)) with (filesz_of s ph). change (rd32 s (ph + 20)) with (memsz_of s ph).
  destruct (Z.ltb_spec (filesz_of s ph) (memsz_of s ph)) as [Hlt|Hge].
  2:{ exists s2. do 4 (split; [done|]). lia. }
  run_with (L2 8 ltac:(lia) ltac:(lia)). run_with (L2 16 ltac:(lia) ltac:(lia)).
  run_with (L2 20 ltac:(lia) ltac:(lia)). run_with (L2 16 ltac:(lia) ltac:(lia)).
  change (rd32 s (ph + 16)) with (filesz_of s ph). change (rd32 s (ph + 20)) with (memsz_of s ph).
  change (rd32 s (ph + 8)) with (vaddr_of s ph). rewrite !u32_small by (unfold in_u32; lia).
  destruct (clear_rest s2 S2 V2 Hlt) as (s3 & R3 & S3 & V3 & C3 & Z3).
  exists s3. do 3 (split; [done|]). split; [|done]. intros k Hk. rewrite C3 by done. by apply C2.
Qed.

End filling.

Lemma load_segment_ok s W ph file n :
  userland limit s W -> loadable s W ph file ->
  frames_below (2 * pages_of s ph + n) (live s) = true ->
  exists s', load_segment ph file s = Ok tt s' /\ same_but_frames s s' /\
    userland limit s' (fun a => W a \/ pages_span s ph a) /\ frames_below n (live s') = true /\
    (forall a, W a -> rd8 s' a = rd8 s a) /\
    (forall k, 0 <= k < filesz_of s ph ->
       rd8 s' (vaddr_of s ph + k) = rd8 s (file + offset_of s ph + k)) /\
    (forall k, filesz_of s ph <= k < memsz_of s ph -> rd8 s' (vaddr_of s ph + k) = 0).
Proof using Hlimit.
  intros HU HL Hn. pose proof HL as [Hh Hu He Hsz Hc Hsrc Hf].
  destruct (pages_of_eq s ph He) as (Hpg & Hfv & Hfa & Hend & Htop).
  pose proof (rd32_range s (ph + 8)) as Hv. pose proof (rd32_range s (ph + 20)) as Hms.
  fold (vaddr_of s ph) in Hv. fold (memsz_of s ph) in Hms. unfold in_u32 in *.
  assert (2 ^ 22 <= first_page_of s ph) as Hfu.
  { unfold first_page_of. rewrite page_base_eq by (unfold in_u32; lia). lia. }
  destruct (load_pages_ok (pages_of s ph) n s W (first_page_of s ph) 0 HU Hfu Hfa)
    as (s1 & R1 & G1 & HU1 & Hn1 & V1); [lia|lia|by rewrite Z.add_0_r|done|].
  rewrite Z.add_0_r in HU1. fold (pages_span s ph) in HU1.
  pose proof (pa_window _ _ _ (us_pages _ _ _ HU)) as HW.
  pose proof (pa_window _ _ _ (us_pages _ _ _ HU1)) as HW1.
  destruct (fill_segment_ok s s1 W _ ph file HL HW1) as (s2 & R2 & S2 & V2 & C2 & Z2);
    [intros a; by left|intros a; by right|done|].
  exists s2. split; [|split; [|split; [|split; [|done]]]].
  - pose proof (read_header s s W W ph) as L0. unfold load_segment, p_vaddr, p_memsz.
    run_with (L0 8 HW ltac:(by intros x) Hh ltac:(done) ltac:(lia) ltac:(lia)).
    run_with (L0 8 HW ltac:(by intros x) Hh ltac:(done) ltac:(lia) ltac:(lia)).
    run_with (L0 20 HW ltac:(by intros x) Hh ltac:(done) ltac:(lia) ltac:(lia)).
    change (rd32 s (ph + 8)) with (vaddr_of s ph). change (rd32 s (ph + 20)) with (memsz_of s ph).
    rewrite u32_small by (unfold in_u32; lia).
    change (Z.land (vaddr_of s ph) 0xFFFFF000) with (first_page_of s ph).
    change (Z.land (vaddr_of s ph + memsz_of s ph + 0xFFF) 0xFFFFF000)
      with (page_base (vaddr_of s ph + memsz_of s ph + 0xFFF)).
    rewrite Hpg. by run_with R1.
  - transitivity s1; [done|]. by destruct (st_machine _ _ _ S2) as [m ->].
  - apply (stores_userland limit Hlimit _ s1 s2 _ S2); [by intros x|done].
  - destruct (st_machine _ _ _ S2) as [m Hm]. unfold live in *. by rewrite Hm.
Qed.

(** ** All the segments of a file *)

Definition is_load (s : kst) (ph : Z) : bool := rd32 s ph =? PT_LOAD.

(** The contents of the segment at [ph] are where the program expects them. *)
Definition placed (s s' : kst) (file ph : Z) : Prop :=
  (forall k, 0 <= k < filesz_of s ph ->
     rd8 s' (vaddr_of s ph + k) = rd8 s (file + offset_of s ph + k)) /\
  (forall k, filesz_of s ph <= k < memsz_of s ph -> rd8 s' (vaddr_of s ph + k) = 0).

(** Program headers [l]: those of loadable segments describe pages of their
    own (two segments on one page: the second would hide the first). *)
Fixpoint separate_segments (s : kst) (l : list Z) : Prop :=
  match l with
  | [] => True
  | ph :: l' =>
      (is_load s ph = true ->
       Forall (fun q => is_load s q = true -> disjoint_from (pages_span s ph) (pages_span s q)) l') /\
      separate_segments s l'
  end.
Definition headers_ok (s : kst) (W : Z -> Prop) (file : Z) (l : list Z) : Prop :=
  Forall (fun ph => subset (span ph 32) W /\ (is_load s ph = true -> loadable s W ph file)) l.
Definition loaded_pages (s : kst) (l : list Z) : Z -> Prop :=
  fun a => Exists (fun ph => is_load s ph = true /\ pages_span s ph a) l.
Fixpoint frames_for (s : kst) (l : list Z) : nat :=
  match l with
  | [] => 0
  | ph :: l' => ((if is_load s ph then 2 * pages_of s ph else 0) + frames_for s l')%nat
  end.

(** What the headers say does not change while they stay in memory. *)
Lemma header_kept s s' W ph :
  subset (span ph 32) W -> (forall a, W a -> rd8 s' a = rd8 s a) ->
  rd32 s' ph = rd32 s ph /\ vaddr_of s' ph = vaddr_of s ph /\ offset_of s' ph = offset_of s ph /\
  filesz_of s' ph = filesz_of s ph /\ memsz_of s' ph = memsz_of s ph.
Proof.
  intros Hh V. assert (forall o, 0 <= o -> o + 4 <= 32 -> rd32 s' (ph + o) = rd32 s (ph + o)) as F.
  { intros o Ho Ho'. apply rd_ext. intros a Ha. apply V, Hh. unfold span in *. lia. }
  split; [rewrite <- (Z.add_0_r ph); exact (F 0 ltac:(lia) ltac:(lia))|].
  split; [exact (F 8 ltac:(lia) ltac:(lia))|]. split; [exact (F 4 ltac:(lia) ltac:(lia))|].
  split; [exact (F 16 ltac:(lia) ltac:(lia))|exact (F 20 ltac:(lia) ltac:(lia))].
Qed.

Lemma pages_kept s s' W ph :
  subset (span ph 32) W -> (forall a, W a -> rd8 s' a = rd8 s a) ->
  is_load s' ph = is_load s ph /\ pages_of s' ph = pages_of s ph /\
  pages_span s' ph = pages_span s ph.
Proof.
  intros Hh V. destruct (header_kept s s' W ph Hh V) as (E1 & E2 & E3 & E4 & E5).
  unfold is_load, pages_span, pages_of, first_page_of. by rewrite E1, E2, E5.
Qed.

Lemma loadable_kept s s' W W' ph file :
  loadable s W ph file -> (forall a, W a -> rd8 s' a = rd8 s a) -> subset W W' ->
  disjoint_from (pages_span s ph) W' -> loadable s' W' ph file.
Proof.
  intros [Hh Hu He Hsz Hc Hsrc Hf] V Hsub Hd.
  destruct (header_kept s s' W ph Hh V) as (E1 & E2 & E3 & E4 & E5).
  destruct (pages_kept s s' W ph Hh V) as (_ & _ & E6).
  split; rewrite ?E2, ?E3, ?E4, ?E5, ?E6; try done; intros a Ha; apply Hsub; auto.
Qed.

(** The state of the loading after the segments [l]. *)
Record loaded (s s' : kst) (W : Z -> Prop) (file : Z) (l : list Z) (n : nat) : Prop := {
  lo_globals : same_but_frames s s';
  lo_userland : userland limit s' (fun a => W a \/ loaded_pages s l a);
  lo_frames : frames_below n (live s') = true;
  lo_kept : forall a, W a -> rd8 s' a = rd8 s a;
  lo_placed : forall ph, ph ∈ l -> is_load s ph = true -> placed s s' file ph
}.

(** One header in front of the others. *)
Lemma loaded_cons s s1 s2 W file ph l n m :
  headers_ok s W file (ph :: l) ->
  loaded s s1 W file [ph] m ->
  loaded s1 s2 (fun a => W a \/ loaded_pages s [ph] a) file l n ->
  loaded s s2 W file (ph :: l) n.
Proof.
  intros Hok [G1 U1 _ K1 P1] [G2 U2 F2 K2 P2]. apply Forall_cons in Hok as [[Hh Hl] Hok].
  rewrite Forall_forall in Hok.
  assert (forall q, q ∈ l -> is_load s1 q = is_load s q /\ pages_of s1 q = pages_of s q /\
    pages_span s1 q = pages_span s q) as Hq.
  { intros q Hq. apply (pages_kept s s1 W q); [exact (proj1 (Hok q Hq))|done]. }
  split; [by transitivity s1| |done|intros a Ha; rewrite K2 by (by left); by apply K1|].
  - apply (userland_subset limit _ _ _ U2). intros a [Ha|Ha]; [left; by left|].
    apply Exists_cons in Ha as [Ha|Ha]; [left; right; apply Exists_cons; by left|right].
    apply Exists_exists in Ha as (q & Hin & Ha). apply Exists_exists. exists q.
    destruct (Hq q Hin) as (-> & _ & ->). done.
  - intros q [->|Hin]%elem_of_cons Hlq.
    + destruct (P1 ph ltac:(by apply list_elem_of_singleton) Hlq) as [C1 Z1].
      destruct (Hl Hlq) as [_ _ He Hsz _ _ _]. destruct (pages_of_eq s ph He) as (_ & Hfv & _ & Hend & _).
      pose proof (rd32_range s (ph + 16)) as Hfs. fold (filesz_of s ph) in Hfs. unfold in_u32 in Hfs.
      assert (forall k, 0 <= k < memsz_of s ph ->
        rd8 s2 (vaddr_of s ph + k) = rd8 s1 (vaddr_of s ph + k)) as Hk.
      { intros k Hk. apply K2. right. apply Exists_cons. left. split; [done|].
        unfold pages_span, span. lia. }
      split; intros k Hr; rewrite Hk by lia; [by apply C1|by apply Z1].
    + destruct (Hok q Hin) as [Hhq Hlo]. destruct (Hq q Hin) as (Eq & _).
      destruct (P2 q Hin ltac:(by rewrite Eq)) as [C2 Z2].
      destruct (header_kept s s1 W q Hhq K1) as (_ & E2 & E3 & E4 & E5).
      rewrite E2, E4, E5 in *. rewrite E3 in C2. split; [|done].
      intros k Hk. rewrite C2 by done. apply K1. apply (ld_contents _ _ _ _ (Hlo Hlq)). unfold span. lia.
Qed.

(** The first header: skipped or loaded. *)
Lemma load_first s W file ph l n :
  userland limit s W -> headers_ok s W file (ph :: l) -> separate_segments s (ph :: l) ->
  frames_below (frames_for s (ph :: l) + n) (live s) = true ->
  exists s1, (if negb (rd32 s ph =? PT_LOAD) then mret tt else load_segment ph file) s = Ok tt s1 /\
    loaded s s1 W file [ph] (frames_for s l + n) /\
    headers_ok s1 (fun a => W a \/ loaded_pages s [ph] a) file l /\ separate_segments s1 l /\
    frames_for s1 l = frames_for s l.
Proof using Hlimit.
  intros HU Hok [Hsep1 Hsep] Hn. pose proof Hok as [[Hh Hl] Hok']%Forall_cons.
  assert (exists s1, (if negb (rd32 s ph =? PT_LOAD) then mret tt else load_segment ph file) s = Ok tt s1 /\
    loaded s s1 W file [ph] (frames_for s l + n)) as (s1 & R & HL).
  { simpl in Hn. fold (is_load s ph). destruct (is_load s ph) eqn:E; simpl.
    - destruct (load_segment_ok s W ph file (frames_for s l + n) HU (Hl eq_refl))
        as (s1 & R & G & U1 & F1 & K1 & C1 & Z1); [by rewrite Nat.add_assoc|].
      exists s1. split; [done|]. split; [done| |done|done|].
      + apply (userland_subset limit _ _ _ U1). intros a [?|Ha]; [by left|right].
        by apply Exists_cons in Ha as [[_ ?]|?%Exists_nil].
      + intros q ->%list_elem_of_singleton _. by split.
    - exists s. split; [done|]. split; [done| |done|done|].
      + apply (userland_subset limit _ _ _ HU). intros a [?|Ha]; [done|].
        apply Exists_cons in Ha as [[E' _]|[]%Exists_nil]. by rewrite E in E'.
      + intros q ->%list_elem_of_singleton ?. congruence. }
  exists s1. split; [done|]. split; [done|]. pose proof (lo_kept _ _ _ _ _ _ HL) as K.
  assert (forall q, q ∈ l -> is_load s1 q = is_load s q /\ pages_of s1 q = pages_of s q /\
    pages_span s1 q = pages_span s q) as Hq.
  { intros q Hq. rewrite Forall_forall in Hok'. apply (pages_kept s s1 W q); [exact (proj1 (Hok' q Hq))|done]. }
  clear Hn HL R. split; [|split].
  - unfold headers_ok. rewrite Forall_forall in Hok' |- *. intros q Hin. destruct (Hok' q Hin) as [Hhq Hlq].
    split; [intros a Ha; left; by apply Hhq|]. destruct (Hq q Hin) as (-> & _). intros Hload.
    apply (loadable_kept s s1 W); [by apply Hlq|done|intros a; by left|].
    intros a Ha [Hw|Hp]; [by apply (ld_fresh _ _ _ _ (Hlq Hload) a)|].
    apply Exists_cons in Hp as [[E Hp]|?%Exists_nil]; [|done].
    specialize (Hsep1 E). rewrite Forall_forall in Hsep1. by apply (Hsep1 q Hin Hload a).
  - clear Hsep1 Hok Hok' Hl Hh. induction l as [|q l IH]; [done|]. destruct Hsep as [Hs1 Hs].
    split; [|apply IH; [done|]; intros r Hr; apply Hq, elem_of_cons; by right].
    destruct (Hq q ltac:(apply elem_of_cons; by left)) as (-> & _ & ->). intros E. specialize (Hs1 E).
    rewrite Forall_forall in Hs1 |- *. intros r Hr.
    destruct (Hq r ltac:(apply elem_of_cons; by right)) as (-> & _ & ->). by apply Hs1.
  - clear Hsep1 Hsep Hok Hok' Hl Hh. induction l as [|q l IH]; [done|]. simpl.
    destruct (Hq q ltac:(apply elem_of_cons; by left)) as (-> & -> & _).
    rewrite IH; [done|]. intros r Hr. apply Hq, elem_of_cons. by right.
Qed.

(** ** The loop over the headers *)

Section file.
Context `{Fuel} (file : Z).

Definition phnum_of (s : kst) : Z := rd16 s (file + 44).
Definition phsize_of (s : kst) : Z := rd16 s (file + 42).
Definition phdr_of (s : kst) : Z := u32 (file + rd32 s (file + 28)).
(** Addresses of the headers from number [i] on. *)
Definition headers_from (phdr sz i : Z) (m : nat) : list Z :=
  (fun k => u32 (phdr + k * sz)) <$> seqZ i (Z.of_nat m).
Definition headers_of (s : kst) : list Z :=
  headers_from (phdr_of s) (phsize_of s) 0 (Z.to_nat (phnum_of s)).

(** Fields of the file header, whatever has been loaded. *)
Lemma read_field s0 s W W' k m :
  window s W' -> subset W W' -> subset (span file 52) W -> (forall a, W a -> rd8 s a = rd8 s0 a) ->
  0 <= k -> k + Z.of_nat m <= 52 -> load m (file + k) s = Ok (rd m s0 (file + k)) s.
Proof.
  intros HW Hsub Hh V Hk Hm.
  assert (subset (span (file + k) (Z.of_nat m)) W) as Hin
    by (intros a Ha; apply Hh; unfold span in *; lia).
  rewrite (load_ok s W' HW m) by (intros a Ha; by apply Hsub, Hin).
  f_equal. apply rd_ext. intros a Ha. by apply V, Hin.
Qed.

Lemma load_segments_ok (f m : nat) s W phdr i n :
  userland limit s W -> subset (span file 52) W -> 0 <= i -> i + Z.of_nat m = phnum_of s ->
  (m < f)%nat -> headers_ok s W file (headers_from phdr (phsize_of s) i m) ->
  separate_segments s (headers_from phdr (phsize_of s) i m) ->
  frames_below (frames_for s (headers_from phdr (phsize_of s) i m) + n) (live s) = true ->
  exists s', load_segments f i phdr file file s = Ok tt s' /\
    loaded s s' W file (headers_from phdr (phsize_of s) i m) n.
Proof using Hlimit.
  revert f s W i. induction m as [|m IH]; intros f s W i HU Hh Hi Hm Hf Hok Hsep Hn.
  all: destruct f as [|f]; [lia|]; pose proof (pa_window _ _ _ (us_pages _ _ _ HU)) as HW.
  all: pose proof (read_field s s W W 44 2 HW ltac:(by intros x) Hh ltac:(done) ltac:(lia) ltac:(lia)) as Rn.
  all: pose proof (read_field s s W W 42 2 HW ltac:(by intros x) Hh ltac:(done) ltac:(lia) ltac:(lia)) as Rz.
  all: simpl load_segments; unfold e_phnum; run_with Rn; fold (rd16 s (file + 44)); fold (phnum_of s).
  { rewrite (proj2 (Z.ltb_ge i _)) by lia. exists s. split; [done|].
    split; [done| |done|done|by intros ph ?%elem_of_nil].
    apply (userland_subset limit _ _ _ HU). by intros a [?|[]%Exists_nil]. }
  rewrite (proj2 (Z.ltb_lt i _)) by lia. unfold e_phsize. run_with Rz. fold (phsize_of s).
  set (sz := phsize_of s) in *. unfold headers_from in Hok, Hsep, Hn |- *.
  rewrite seqZ_cons in Hok, Hsep, Hn |- * by lia.
  replace (Z.pred (Z.of_nat (S m))) with (Z.of_nat m) in * by lia. rewrite fmap_cons in *.
  fold (headers_from phdr sz (Z.succ i) m) in *. set (ph := u32 (phdr + i * sz)) in *.
  pose proof Hok as [[Hph _] _]%Forall_cons.
  assert (p_type ph s = Ok (rd32 s ph) s) as Rt.
  { apply (load_ok s W HW 4). intros a Ha. apply Hph. unfold span in *. lia. }
  run_with Rt. destruct (load_first s W file ph _ n HU Hok Hsep Hn) as (s1 & R1 & L1 & Hok1 & Hsep1 & E1).
  run_with R1. pose proof (lo_kept _ _ _ _ _ _ L1) as K1.
  assert (forall k, 0 <= k -> k + 2 <= 52 -> rd16 s1 (file + k) = rd16 s (file + k)) as F1.
  { intros k Hk Hk2. apply rd_ext. intros a Ha. apply K1, Hh. unfold span in *. lia. }
  assert (phsize_of s1 = sz /\ phnum_of s1 = phnum_of s) as [Esz Enum] by (split; apply F1; lia).
  assert (u16 (i + 1) = Z.succ i) as ->.
  { pose proof (rd16_range s (file + 44)) as Hr. fold (phnum_of s) in Hr.
    rewrite u16_small; [lia|]. unfold in_u16 in *. lia. }
  destruct (IH f s1 _ (Z.succ i) (lo_userland _ _ _ _ _ _ L1)) as (s2 & R2 & L2);
    rewrite ?Esz; try done; [|lia|lia|lia| |].
  { intros a Ha. left. by apply Hh. }
  { rewrite E1. apply (lo_frames _ _ _ _ _ _ L1). }
  exists s2. split; [done|]. rewrite Esz in L2. by apply (loaded_cons s s1 s2 W file ph _ n _ Hok L1).
Qed.

Lemma elf_load_exec_ok s W n :
  userland limit s W -> subset (span file 52) W -> (Z.to_nat (phnum_of s) < fuel)%nat ->
  headers_ok s W file (headers_of s) -> separate_segments s (headers_of s) ->
  frames_below (frames_for s (headers_of s) + n) (live s) = true ->
  exists s', elf_load_exec file file s = Ok (rd32 s (file + 24)) s' /\
    loaded s s' W file (headers_of s) n.
Proof using Hlimit.
  intros HU Hh Hf Hok Hsep Hn. pose proof (pa_window _ _ _ (us_pages _ _ _ HU)) as HW.
  unfold elf_load_exec, e_phoff, e_entry, load32.
  run_with (read_field s s W W 28 4 HW ltac:(by intros x) Hh ltac:(done) ltac:(lia) ltac:(lia)).
  fold (rd32 s (file + 28)). fold (phdr_of s).
  pose proof (rd16_range s (file + 44)) as Hr. fold (phnum_of s) in Hr. unfold in_u16 in Hr.
  destruct (load_segments_ok fuel (Z.to_nat (phnum_of s)) s W (phdr_of s) 0 n HU Hh)
    as (s1 & R1 & L1); try done; [lia|].
  run_with R1. exists s1. split; [|done].
  pose proof (pa_window _ _ _ (us_pages _ _ _ (lo_userland _ _ _ _ _ _ L1))) as HW1.
  apply (read_field s s1 W _ 24 4 HW1); [intros a; by left|done|apply L1|lia|lia].
Qed.

End file.
End segments.

(** * What the loader guarantees *)

Section guarantees.
Import Elf.
Context `{Layout} `{Fuel}.

Lemma elf_load_file_ok limit s W file n :
  0 < limit < 2 ^ 22 -> userland limit s W -> readable_header s W file ->
  header_ok s file = true -> rd16 s (file + 16) = ET_EXEC ->
  (Z.to_nat (phnum_of file s) < fuel)%nat ->
  headers_ok s W file (headers_of file s) -> separate_segments s (headers_of file s) ->
  frames_below (frames_for s (headers_of file s) + n) (live s) = true ->
  exists s', elf_load_file file s = Ok (rd32 s (file + 24)) s' /\ same_but_frames s s' /\
    userland limit s' (fun a => W a \/ loaded_pages s (headers_of file s) a) /\
    (forall a, W a -> rd8 s' a = rd8 s a) /\
    (forall ph, ph ∈ headers_of file s -> is_load s ph = true -> placed s s' file ph) /\
    frames_below n (live s') = true.
Proof.
  intros Hlim HU HR Hhd Hty Hf Hok Hsep Hn.
  pose proof (check_elf_supported_ok s W file HR) as HV. rewrite (proj2 (complaint_none s file) Hhd) in HV. unfold verdict in HV.
  destruct (elf_load_exec_ok limit Hlim file s W n HU (rh_in _ _ _ HR) Hf Hok Hsep Hn)
    as (s' & R & [G U F K P]).
  exists s'. split; [|by split_and!].
  unfold elf_load_file. run_with HV. simpl.
  pose proof (load16_header s W file 16 HR ltac:(done) ltac:(done)) as Ht.
  unfold e_type. run_with Ht. by rewrite Hty.
Qed.

(** C11: [elf_load_file] of an executable file: if its header is accepted, each
    loadable segment lies above the kernel's 4 MiB on pages of its own, and
    enough frames are left below 4 MiB, the result is the entry point of the
    file and every segment is in place: the contents from the file, then zeros
    up to its size in memory.  No byte in use before is changed and the
    invariant of the page allocator holds with the new pages in use. *)
Theorem elf_load_file_loads limit s W file n :
  0 < limit < 2 ^ 22 -> userland limit s W -> readable_header s W file ->
  header_ok s file = true -> rd16 s (file + 16) = ET_EXEC ->
  (Z.to_nat (phnum_of file s) < fuel)%nat ->
  headers_ok s W file (headers_of file s) -> separate_segments s (headers_of file s) ->
  frames_below (frames_for s (headers_of file s) + n) (live s) = true ->
  exists s', elf_load_file file s = Ok (rd32 s (file + 24)) s' /\ same_but_frames s s' /\
    userland limit s' (fun a => W a \/ loaded_pages s (headers_of file s) a) /\
    (forall a, W a -> rd8 s' a = rd8 s a) /\
    (forall ph, ph ∈ headers_of file s -> is_load s ph = true -> placed s s' file ph) /\
    frames_below n (live s') = true.
Proof. apply elf_load_file_ok. Qed.

End guarantees.

(** * A concrete program

    At 0x10000 in the image: one segment of four bytes, eight in memory. *)

Section examples.
Import Elf.
#[local] Existing Instance example_layout.
#[local] Existing Instance example_layout_ok.
#[local] Instance hundred : Fuel := 100%nat.

Definition program : Z := 0x10000.
Definition program_memory : list (Z * Z) :=
  [(program, 0x464C457F); (program + 4, 0x00010101); (program + 16, 0x00030002);
   (program + 24, 0x08048000); (program + 28, 52); (program + 40, 0x00200034); (program + 44, 1);
   (program + 52, PT_LOAD); (program + 56, 84); (program + 60, 0x08048000); (program + 68, 4);
   (program + 72, 8); (program + 84, 0xCAFEBABE)].
Definition with_program : kst :=
  match writes program_memory qemu_boot with Ok _ s => s | _ => qemu_boot end.

Lemma rd_copied n s s' a b :
  (forall k, 0 <= k < Z.of_nat n -> rd8 s' (a + k) = rd8 s (b + k)) -> rd n s' a = rd n s b.
Proof.
  revert a b. induction n as [|n IH]; intros a b V; [done|]. simpl.
  pose proof (V 0 ltac:(lia)) as V0. rewrite !Z.add_0_r in V0. rewrite V0.
  f_equal. f_equal. apply IH. intros k Hk. rewrite <- !Z.add_assoc. apply V. lia.
Qed.

(** The state the loader is called in. *)
Lemma program_ready :
  exists s, userland screen_base s (fun a => video a \/ span program 4096 a) /\
    readable_header s (fun a => video a \/ span program 4096 a) program /\
    live s = qemu_map /\
    forall n a, program <= a -> a + Z.of_nat n <= program + 4096 -> rd n s a = rd n with_program a.
Proof.
  assert (mmap (pmm with_program) = mmap (pmm qemu_boot) /\
    entry (pmm with_program) = entry (pmm qemu_boot)) as [Em Ee] by (by vm_compute).
  destruct (frames_same qemu_boot with_program Ee Em) as [HF HB].
  destruct (start_ok with_program) as (s & _ & Htr & Hfr & Hnv & Hst & He & Hm & Hfc & HP & Hpd & Hw).
  { by vm_compute. }
  { by apply HF, qemu_frames. }
  { intros pa Hpa. by apply qemu_available, HB. }
  { by vm_compute. }
  { by vm_compute. }
  assert (live s = qemu_map) as Hl by (unfold live; rewrite He, Hm, Em, Ee; by vm_compute).
  assert (forall a, 0 <= a < 2 ^ 22 -> translate (mach s) a = Some a) as Hid.
  { intros a Ha. rewrite Htr by width_lia. by rewrite (proj2 (Z.ltb_lt _ _)) by lia. }
  assert (forall pa, free_byte s pa -> 0x100000 <= pa) as Hfree.
  { intros pa Hpa. apply qemu_available. unfold free_byte in *. by rewrite qemu_live, <- Hl. }
  assert (forall pa, walk_byte (mach s) pa -> 0x20000 <= pa < 0x22000) as Hlow.
  { intros pa Hpa. apply Hw in Hpa. unfold tables, span in Hpa. simpl in Hpa. lia. }
  assert (pages screen_base s (fun a => video a \/ span program 4096 a)) as HP1.
  { apply pages_add_identity; [done|by intros a; unfold span, program; width_lia| | |].
    - intros a Ha. unfold span, program in Ha. split; [apply Hid; lia|].
      split; [intros Hwb; specialize (Hlow a Hwb); lia|intros Hf; specialize (Hfree a Hf); lia].
    - intros a b Ha Hb. unfold span, program in *. unfold video, span, Vga.Vga.VGA in Hb.
      rewrite Hid by lia. by intros [= ->].
    - intros p a Hp Ha Hin. unfold span, program in *. destruct Hp as [Hp|Hp].
      + unfold recycled in Hp. rewrite Hfc in Hp. by apply elem_of_nil in Hp.
      + rewrite Hnv in Hp. simpl in Hp. lia. }
  exists s. split; [split; [done| | |]|].
  - intros x Hx. apply Hid. unfold screen_base in Hx. lia.
  - intros pa Hpa. specialize (Hlow pa Hpa). lia.
  - intros pa Hpa. specialize (Hfree pa Hpa). unfold screen_base. lia.
  - split; [|split; [done|]].
    + split; [apply HP1|intros a Ha; right; unfold span in *; lia|done| |].
      * apply (window_subset _ _ _ (pa_window _ _ _ HP1)). intros a. by left.
      * destruct Hst as ((_ & _ & -> & _) & _). by vm_compute.
    + intros n a Ha Hn. unfold program in *. apply rd_ext. intros b Hb. unfold span in Hb.
      unfold rd8. rewrite Hid by lia. rewrite Hfr by (unfold tables, span; simpl; lia). done.
Qed.

Definition in_use (a : Z) : Prop := video a \/ span program 4096 a.

(** What the loader needs to know of the program. *)
Record program_in (s : kst) : Prop := {
  pi_userland : userland screen_base s in_use;
  pi_readable : readable_header s in_use program;
  pi_header : header_ok s program = true;
  pi_type : rd16 s (program + 16) = ET_EXEC;
  pi_entry : rd32 s (program + 24) = 0x08048000;
  pi_count : (Z.to_nat (phnum_of program s) < fuel)%nat;
  pi_headers : headers_of program s = [program + 52];
  pi_ok : headers_ok s in_use program [program + 52];
  pi_load : is_load s (program + 52) = true;
  pi_frames : frames_below (frames_for s [program + 52] + 4) (live s) = true;
  pi_place : vaddr_of s (program + 52) = 0x08048000 /\ pages_of s (program + 52) = 1%nat /\
    first_page_of s (program + 52) = 0x08048000;
  pi_sizes : filesz_of s (program + 52) = 4 /\ memsz_of s (program + 52) = 8;
  pi_content : offset_of s (program + 52) = 84 /\ rd32 s (program + 84) = 0xCAFEBABE
}.

Lemma program_exists : exists s, program_in s.
Proof.
  destruct program_ready as (s & HU & HR & Hl & Hrd). exists s. unfold program in Hrd.
  assert (rd8 s 0x10000 = 0x7F /\ rd8 s 0x10001 = 69 /\ rd8 s 0x10002 = 76 /\ rd8 s 0x10003 = 70 /\
    rd8 s 0x10004 = 1 /\ rd8 s 0x10006 = 1 /\ rd16 s 0x10012 = 3 /\ rd16 s 0x10010 = 2 /\
    rd32 s 0x10018 = 0x08048000 /\ rd32 s 0x1001C = 52 /\ rd16 s 0x1002A = 32 /\ rd16 s 0x1002C = 1 /\
    rd32 s 0x10034 = 1 /\ rd32 s 0x10038 = 84 /\ rd32 s 0x1003C = 0x08048000 /\ rd32 s 0x10044 = 4 /\
    rd32 s 0x10048 = 8 /\ rd32 s 0x10054 = 0xCAFEBABE)
    as (B0 & B1 & B2 & B3 & B4 & B6 & H18 & H16 & H24 & H28 & H42 & H44 & P0 & P4 & P8 & P16 & P20 & C0).
  { rewrite <- !(rd_1 s). unfold rd16, rd32. rewrite !Hrd by lia. by vm_compute. }
  change program with 0x10000 in *. assert (headers_of 0x10000 s = [0x10034]) as Hh.
  { unfold headers_of, phdr_of, phsize_of, phnum_of.
    change (0x10000 + 28) with 0x1001C. change (0x10000 + 42) with 0x1002A.
    change (0x10000 + 44) with 0x1002C. by rewrite H28, H42, H44. }
  assert (vaddr_of s 0x10034 = 0x08048000 /\ offset_of s 0x10034 = 84 /\ filesz_of s 0x10034 = 4 /\
    memsz_of s 0x10034 = 8) as (Ev & Eo & Ef & Em) by (by split_and!).
  assert (first_page_of s 0x10034 = 0x08048000 /\ pages_of s 0x10034 = 1%nat) as [Efp Epg].
  { unfold pages_of, first_page_of. rewrite Ev, Em. by vm_compute. }
  split; change (program + 52) with 0x10034; change program with 0x10000; try done.
  - unfold header_ok, magic_ok. change (0x10000 + 1) with 0x10001. change (0x10000 + 2) with 0x10002.
    change (0x10000 + 3) with 0x10003. change (0x10000 + 4) with 0x10004.
    change (0x10000 + 6) with 0x10006. change (0x10000 + 16) with 0x10010.
    change (0x10000 + 18) with 0x10012. by rewrite B0, B1, B2, B3, B4, B6, H18, H16.
  - unfold phnum_of. change (0x10000 + 44) with 0x1002C. rewrite H44. vm_compute. lia.
  - apply Forall_singleton. unfold in_use. change program with 0x10000.
    split; [intros a Ha; right; unfold span in *; lia|].
    intros _. split; rewrite ?Ev, ?Em, ?Ef, ?Eo; try lia; [intros a Ha; right; unfold span in *; lia..|].
    unfold pages_span. rewrite Efp, Epg. intros a Ha. unfold video, span, Vga.Vga.VGA in *. lia.
  - by apply Z.eqb_eq.
  - rewrite Hl. simpl frames_for. rewrite Epg. by destruct (is_load s 0x10034); vm_compute.
Qed.

Lemma elf_load_file_loads_witness :
  exists s s' : kst, elf_load_file program s = Ok 0x08048000 s' /\
    rd32 s' 0x08048000 = 0xCAFEBABE /\ rd32 s' 0x08048004 = 0.
Proof.
  destruct program_exists as (s & [HU HR Hhd Hty Hen Hf Hh Hok Hld Hn (Ev & _ & _) (Ef & Em) (Eo & Ec)]).
  destruct (elf_load_file_loads screen_base s _ program 4 ltac:(unfold screen_base; lia) HU HR Hhd Hty Hf)
    as (s' & R & _ & _ & _ & HP & _); [by rewrite Hh..|].
  rewrite Hen in R. exists s, s'. split; [exact R|].
  destruct (HP (program + 52)) as [HC HZ]; [rewrite Hh; by apply list_elem_of_singleton|done|].
  rewrite Ev, Ef, Eo in HC. rewrite Ev, Ef, Em in HZ. split.
  - rewrite <- Ec. apply (rd_copied 4). intros k Hk. by apply HC.
  - transitivity (rd 4 (boot_state [] no_device) 0); [|done]. apply (rd_copied 4). intros k Hk.
    transitivity 0; [|done]. replace (0x08048004 + k) with (0x08048000 + (4 + k)) by lia.
    apply HZ. lia.
Defined.

End examples.
