(* ===== verification/Syscall.v ===== *)
(** The system calls: kernel/syscall.c.

    [syscall_dispatch] runs on the frame the interrupt pushed; a call that
    switches to another process does not return.  The theorems follow the
    calls that change the state of processes. *)

From S2P Require Import Prelude Machine State Mmu Window PageSource Vga MemMap Paging MemLib Heap Descriptors Devices Process Switch Spawn Elf.

Module Syscall.

Definition SYS_EXIT : Z := 0.
Definition SYS_YIELD : Z := 1.
Definition SYS_PRINTS : Z := 2.
Definition SYS_PRINTC : Z := 3.
Definition SYS_PRINTN : Z := 4.
Definition SYS_PRINTHEX : Z := 5.
Definition SYS_SLEEP : Z := 6.
Definition SYS_SECONDS : Z := 7.
Definition SYS_PRINT_SECONDS : Z := 8.
Definition SYS_CREATE_PROCESS : Z := 9.
Definition SYS_GET_PID : Z := 10.
Definition SYS_MALLOC : Z := 11.
Definition SYS_FREE : Z := 12.
Definition SYS_WAIT : Z := 13.
Definition SYS_GET_PARENT_PID : Z := 14.
Definition SYS_FORK : Z := 15.
Definition SYS_EXEC : Z := 16.

(** [(uint32_t)-1] *)
Definition minus_one : Z := 0xFFFFFFFF.

Import Process.

Definition sys_printc (c : Z) : K unit :=
  i ← gets (fun s => cur_i (console s)); Vga.print c i.
Definition sys_printn (n : Z) : K unit := Vga.print_number_at n.
Definition sys_printhex (n : Z) : K unit := Vga.print_hex_at n.

Definition sys_print_seconds (seconds : Z) : K unit :=
  let message_pos := 0 in
  Vga.print_time_message "Up Time"%string message_pos;;
  let pos := 160 in
  Vga.print_number seconds pos;;
  mret tt.

Definition sys_get_pid : K Z := c ← get_current; get c pid.

Section fuel.
Context `{Fuel}.

Definition sys_prints (string : Z) : K unit := Vga.print_string_at string.

Definition sys_exit (status : Z) : K unit :=
  c ← get_current;
  set c exit_code status;;
  exit_process;;
  spin.

Definition sys_yield (regs : Z) : K unit :=
  old ← get_current;
  wake_processes;;
  nx ← schedule;
  if negb (nx =? 0) && negb (nx =? old) then context_switch regs nx else mret tt.

(** [ticks] is an [int] here, [time] an [unsigned long]. *)
Definition sys_sleep (regs time : Z) : K unit :=
  c ← get_current;
  t ← gets ticks;
  set c wake (t + time);;
  c ← get_current;
  set c state PROCESS_BLOCKED;;
  nx ← schedule;
  c ← get_current;
  if negb (nx =? 0) && negb (nx =? c) then context_switch regs nx else mret tt.

Definition sys_get_parent_pid (pro : Z) : K Z :=
  valid ← is_valid_process_ptr pro;
  if valid =? 0 then mret minus_one else
  pa ← get pro parent;
  if pa =? 0 then mret minus_one else
  pa ← get pro parent;
  get pa pid.

(** The search of [sys_wait]: [Some r] returns [r]. *)
Fixpoint wait_loop (n : nat) (status p : Z) : K (option Z) :=
  match n with
  | O => no_fuel
  | S n' =>
      if p =? 0 then mret None else
      pa ← get p parent;
      ppid ← get pa pid;
      c ← get_current;
      cpid ← get c pid;
      found ← (if ppid =? cpid then st ← get p state; mret (st =? PROCESS_ZOMBIE)
               else mret false);
      if found : bool then
        code ← get p exit_code;
        store32 status code;;
        r ← get p pid;
        mret (Some r)
      else
        nx ← get p next;
        wait_loop n' status nx
  end.
Definition sys_wait (status regs : Z) : K Z :=
  p ← get_list;
  r ← wait_loop fuel status p;
  match r with
  | Some r => mret r
  | None =>
      c ← get_current;
      set c state PROCESS_BLOCKED;;
      set regs r_eax minus_one;;
      nx ← schedule;
      c ← get_current;
      (if (nx =? 0) || (nx =? c) then
         Vga.print_string_at ("PANIC: no runnable process" ++ NL)%string;;
         halt
       else mret tt);;
      context_switch (A := unit) regs nx;;
      mret minus_one
  end.

(** [*child->regs = *regs] *)
Definition copy_registers (dest src : Z) : K unit :=
  for_range 0 17 (fun k => v ← get src (4 * k); set dest (4 * k) v).

(** The loop that moves the saved frame pointers of the copied stack. *)
Fixpoint fix_frames (n : nat) (frame child_stack_top parent_stack_top used delta : Z) : K unit :=
  match n with
  | O => no_fuel
  | S n' =>
      if (u32 (child_stack_top - used) <=? frame) && (frame <? u32 (child_stack_top - 4)) then
        saved_ebp ← load32 frame;
        if (u32 (parent_stack_top - 4096) <=? saved_ebp) && (saved_ebp <? parent_stack_top) then
          store32 frame (saved_ebp + delta);;
          frame ← load32 frame;
          fix_frames n' frame child_stack_top parent_stack_top used delta
        else mret tt
      else mret tt
  end.

End fuel.

Section layout.
Context `{Layout} `{Fuel}.

Definition sys_create_process (entry mode : Z) : K Z :=
  pro ← create_process entry mode;
  valid ← is_valid_process_ptr pro;
  if valid =? 0 then Vga.print_string_at "unvalid process"%string;; mret 0
  else mret pro.

Definition sys_kmalloc (size : Z) : K Z :=
  Heap.kmalloc size (Z.lor (Z.lor Paging.PAGE_PRESENT Paging.PAGE_WRITE) Paging.PAGE_USER).
Definition sys_free (address : Z) : K unit := Heap.kfree address.

(** The part of [sys_fork] that gives [child] the registers of the caller, and
    the part that gives it a copy of the stack of its parent [pa]. *)
Definition copy_frame (child regs : Z) : K unit :=
  r ← get child Process.regs;
  child_user_esp ← get r r_user_esp;
  r ← get child Process.regs;
  copy_registers r regs;;
  r ← get child Process.regs;
  set r r_eax 0;;
  r ← get child Process.regs;
  set r r_user_esp child_user_esp.
Definition copy_stack (pa child regs : Z) : K unit :=
  us ← get pa user_stack;
  let parent_stack_top := u32 (us + 4096) in
  us ← get child user_stack;
  let child_stack_top := u32 (us + 4096) in
  let delta := u32 (child_stack_top - parent_stack_top) in
  esp ← get regs r_user_esp;
  let used := u32 (parent_stack_top - esp) in
  MemLib.memcpy (u32 (child_stack_top - used)) (u32 (parent_stack_top - used)) used;;
  r ← get child Process.regs;
  set r r_user_esp (child_stack_top - used);;
  ebp ← get regs r_ebp;
  r ← get child Process.regs;
  set r r_ebp (ebp + delta);;
  r ← get child Process.regs;
  frame ← get r r_ebp;
  fix_frames fuel frame child_stack_top parent_stack_top used delta.

Definition sys_fork (regs : Z) : K Z :=
  pa ← get_current;
  child ← create_process 0 PROCESS_USER;
  if child =? 0 then set regs r_eax minus_one;; mret minus_one else
  copy_frame child regs;;
  copy_stack pa child regs;;
  id ← get child pid;
  set regs r_eax id;;
  set child parent pa;;
  set child state PROCESS_READY;;
  get child pid.

Definition sys_exec (file regs : Z) : K Z :=
  entry ← Elf.elf_load_file file;
  if entry =? 0 then mret minus_one else
  set regs r_eip entry;;
  set regs r_ebp 0;;
  phy ← MemMap.allocate 4096;
  if phy =? 0 then mret minus_one else
  Paging.map_page phy (Elf.USER_STACK_TOP - 4096)
    (Z.lor (Z.lor Paging.PAGE_PRESENT Paging.PAGE_WRITE) Paging.PAGE_USER);;
  set regs r_user_esp Elf.USER_STACK_TOP;;
  mret 0.

(** [regs->eax = call] *)
Definition return_to (regs : Z) (call : K Z) : K unit := r ← call; set regs r_eax r.

Definition syscall_dispatch (regs : Z) : K unit :=
  n ← get regs r_eax;
  if n =? SYS_EXIT then b ← get regs r_ebx; sys_exit b
  else if n =? SYS_YIELD then sys_yield regs
  else if n =? SYS_PRINTS then b ← get regs r_ebx; sys_prints b
  else if n =? SYS_PRINTC then b ← get regs r_ebx; sys_printc (u8 b)
  else if n =? SYS_PRINTN then b ← get regs r_ebx; sys_printn b
  else if n =? SYS_PRINTHEX then b ← get regs r_ebx; sys_printhex b
  else if n =? SYS_SECONDS then return_to regs Pit.get_seconds
  else if n =? SYS_PRINT_SECONDS then b ← get regs r_ebx; sys_print_seconds b
  else if n =? SYS_SLEEP then b ← get regs r_ebx; sys_sleep regs b
  else if n =? SYS_CREATE_PROCESS then
    return_to regs (b ← get regs r_ebx; c ← get regs r_ecx; sys_create_process b c)
  else if n =? SYS_GET_PID then return_to regs sys_get_pid
  else if n =? SYS_MALLOC then return_to regs (b ← get regs r_ebx; sys_kmalloc b)
  else if n =? SYS_FREE then b ← get regs r_ebx; sys_free b
  else if n =? SYS_WAIT then return_to regs (b ← get regs r_ebx; sys_wait b regs)
  else if n =? SYS_GET_PARENT_PID then
    return_to regs (b ← get regs r_ebx; sys_get_parent_pid b)
  else if n =? SYS_FORK then return_to regs (sys_fork regs)
  else if n =? SYS_EXEC then return_to regs (b ← get regs r_ebx; sys_exec b regs)
  else mret tt.

End layout.
End Syscall.

(** * Giving up the processor *)

Section scheduling.
Import Process Syscall.
Context `{Fuel}.

(** The process that runs next once the sleepers have been woken. *)
Definition next_woken (s : kst) (before after : list Z) : Z :=
  default 0 (List.find (fun p => woken s p =? PROCESS_READY) (after ++ before)).

(** The fields after [wake_processes]. *)
Definition woken_fields (s : kst) : Z -> Z -> Z :=
  fun p off => if off =? state then woken s p else field s p off.

Lemma wake_ok s W l :
  procs_list s W l -> (length l < fuel)%nat ->
  exists s', wake_processes s = Ok tt s' /\ updated s s' W l (woken_fields s).
Proof.
  intros HL Hlen. pose proof HL as [HW Hpath Hok Hsep].
  destruct (wake_loop_ok fuel s W _ l HW Hok Hsep Hpath Hlen) as (s' & R & S & V & K).
  exists s'. split; [exact R|]. split; [|by apply (st_machine _ _ _ S)| |done].
  - destruct (st_machine _ _ _ S) as [m ->]. split; [by apply (stores_window _ _ _ _ S)| |done|done].
    apply (path_same s); [|done]. intros p Hp. apply V; [done|done|done|right; done].
  - intros p k Hp Hk. destruct (V p Hp) as [Vs Vf]. unfold woken_fields.
    destruct (Z.eqb_spec (4 * k) state) as [->|Hne]; [done|].
    apply Vf; unfold state, sizeof_process in *; lia.
Qed.

Lemma round_robin_woken s s' l1 l2 :
  (forall p, p ∈ l2 ++ l1 -> field s' p state = woken s p) ->
  round_robin s' l1 l2 = next_woken s l1 l2.
Proof.
  intros H0. unfold round_robin, next_woken. f_equal. apply find_ext.
  intros p Hp. unfold ready. by rewrite H0.
Qed.

(** [s'] is [s] after [c] has given way to [nxt]: the interrupt frame [f] is
    in the record of [c], the fields of the processes are [v]. *)
Record given_way (s s' : kst) (W : Z -> Prop) (l : list Z) (c f nxt : Z) (v : Z -> Z -> Z)
    : Prop := {
  gw_current : current_process (procs s') = nxt;
  gw_list : procs_list s' W l;
  gw_stack : esp0 (tss (descs s')) = field s nxt kernel_stack_to;
  gw_saved : forall k, 0 <= k < frame_registers s f ->
    field s' (field s c regs) (4 * k) = field s f (4 * k);
  gw_fields : forall p k, p ∈ l -> 0 <= k < 12 -> field s' p (4 * k) = v p (4 * k);
  gw_ticks : ticks s' = ticks s;
  gw_kept : forall m b, subset (span b (Z.of_nat m)) W ->
    (forall p, p ∈ l -> b + Z.of_nat m <= p \/ p + sizeof_process <= b) ->
    b + Z.of_nat m <= field s c regs \/ field s c regs + 4 * frame_registers s f <= b ->
    rd m s' b = rd m s b
}.

Lemma give_way_ok {A} s s1 W l c f nxt v :
  preemptible s W l c f -> updated s s1 W l v -> nxt ∈ l ->
  v c regs = field s c regs -> v nxt kernel_stack_to = field s nxt kernel_stack_to ->
  exists s', context_switch f nxt s1 = (Switched nxt s' : outcome A) /\
    given_way s s' W l c f nxt v.
Proof.
  intros HP HR Hn Hvc Hvn. pose proof (preemptible_updated _ _ _ _ _ _ _ HR Hvc HP) as HP1.
  destruct (switch_to_ok (A := A) s1 W l c f nxt HP1 Hn) as (s' & R & C & HL & T & E & V & F & K).
  pose proof (up_fields _ _ _ _ _ HR) as HF.
  assert (field s1 c regs = field s c regs) as Hreg.
  { rewrite <- Hvc. apply (HF c 4); [apply HP|done]. }
  assert (frame_registers s1 f = frame_registers s f) as Hfr.
  { unfold frame_registers. change r_cs with (4 * 13).
    by rewrite (frame_updated s s1 W l c f v 13 HR HP). }
  exists s'. split; [exact R|]. split; try done.
  - rewrite E, <- Hvn. by apply (HF nxt 3).
  - intros k Hk. rewrite <- Hreg, V by (by rewrite Hfr).
    apply (frame_updated s s1 W l c f v k HR HP). unfold frame_registers in Hk. case_match; lia.
  - intros p k Hp Hk. rewrite F by (done || (unfold sizeof_process; lia)). by apply HF.
  - rewrite T. by destruct (up_machine _ _ _ _ _ HR) as [m ->].
  - intros m b Hb Hd Hrp. rewrite K by (rewrite ?Hreg, ?Hfr; done).
    by apply (up_kept _ _ _ _ _ HR).
Qed.

(** The choice of the next process, and what it is. *)
Lemma next_of_list s W l1 c l2 (g : Z -> bool) :
  let l := l1 ++ c :: l2 in let nxt := default 0 (List.find g (l2 ++ l1)) in
  procs_list s W l -> nxt <> 0 -> nxt ∈ l /\ nxt <> c.
Proof.
  intros l nxt HL Hnz. pose proof (default_find_in _ _ Hnz) as Hin. fold nxt in Hin. split.
  - unfold l. rewrite elem_of_app, elem_of_cons in *. tauto.
  - intros He. apply (others_not_current _ _ _ _ _ HL). by rewrite <- He.
Qed.

(** [sys_yield] after any changes [v] of the fields that keep what the switch
    needs: either nobody else is ready and it returns, or it gives way. *)
Lemma sys_yield_ok s W l1 c l2 f :
  let l := l1 ++ c :: l2 in let nxt := next_woken s l1 l2 in
  preemptible s W l c f -> (length l < fuel)%nat ->
  exists s',
    if nxt =? 0 then sys_yield f s = Ok tt s' /\ updated s s' W l (woken_fields s)
    else sys_yield f s = Switched nxt s' /\ given_way s s' W l c f nxt (woken_fields s).
Proof.
  intros l nxt HP Hlen. pose proof (pe_list _ _ _ _ _ HP) as HL.
  destruct (wake_ok s W l HL Hlen) as (s1 & R1 & HR).
  pose proof (preemptible_updated _ _ _ _ _ _ _ HR eq_refl HP) as HP1.
  unfold sys_yield, get_current. rewrite gets_bind, (pe_current _ _ _ _ _ HP). run_with R1.
  run_with (schedule_ok s1 W l1 c l2 (pe_list _ _ _ _ _ HP1) (pe_current _ _ _ _ _ HP1) Hlen).
  rewrite (round_robin_woken s s1).
  2:{ intros p Hp. apply (up_fields _ _ _ _ _ HR p 5); [|done].
      unfold l. rewrite elem_of_app, elem_of_cons in *. tauto. }
  fold nxt. destruct (Z.eqb_spec nxt 0) as [Hz|Hnz]; simpl; [by exists s1|].
  destruct (next_of_list s W l1 c l2 _ HL Hnz) as [Hin Hne].
  rewrite (proj2 (Z.eqb_neq nxt c)) by done. simpl.
  by apply (give_way_ok s s1 W l c f nxt).
Qed.

(** The fields once [c] sleeps until [until]. *)
Definition asleep_fields (s : kst) (c until : Z) : Z -> Z -> Z :=
  fun p off =>
    if (p =? c) && (off =? state) then PROCESS_BLOCKED
    else if (p =? c) && (off =? wake) then until else field s p off.

Lemma sys_sleep_ok s W l1 c l2 f time :
  let l := l1 ++ c :: l2 in let nxt := round_robin s l1 l2 in
  let v := asleep_fields s c (u32 (ticks s + time)) in
  preemptible s W l c f -> (length l < fuel)%nat ->
  exists s',
    if nxt =? 0 then sys_sleep f time s = Ok tt s' /\ updated s s' W l v
    else sys_sleep f time s = Switched nxt s' /\ given_way s s' W l c f nxt v.
Proof.
  intros l nxt v HP Hlen. pose proof (pe_list _ _ _ _ _ HP) as HL.
  pose proof (pe_current _ _ _ _ _ HP) as Hc.
  destruct (set_updated s W l c 8 wake (ticks s + time) HL (pe_in _ _ _ _ _ HP)) as (s1 & R1 & U1);
    [done..|].
  destruct (set_updated s1 W l c 5 state PROCESS_BLOCKED (up_list _ _ _ _ _ U1) (pe_in _ _ _ _ _ HP))
    as (s2 & R2 & U2); [done..|].
  assert (updated s s2 W l v) as U.
  { apply (updated_trans _ _ _ _ _ _ _ U1). apply (updated_ext _ _ _ _ _ _ U2).
    intros p k Hp Hk. unfold over at 1, v, asleep_fields.
    destruct ((p =? c) && (4 * k =? state)); [done|].
    by rewrite (up_fields _ _ _ _ _ U1). }
  assert (v c regs = field s c regs) as Hvc.
  { unfold v, asleep_fields. by rewrite !andb_false_r. }
  pose proof (preemptible_updated _ _ _ _ _ _ _ U Hvc HP) as HP2.
  unfold sys_sleep, get_current. rewrite !gets_bind, Hc. run_with R1.
  rewrite gets_bind. replace (current_process (procs s1)) with c
    by (by destruct (up_machine _ _ _ _ _ U1) as [m ->]).
  run_with R2.
  run_with (schedule_ok s2 W l1 c l2 (up_list _ _ _ _ _ U) (pe_current _ _ _ _ _ HP2) Hlen).
  assert (round_robin s2 l1 l2 = nxt) as ->.
  { unfold nxt, round_robin. f_equal. apply find_ext. intros p Hp. unfold ready.
    change state with (4 * 5). rewrite (up_fields _ _ _ _ _ U).
    - unfold v, asleep_fields. rewrite (proj2 (Z.eqb_neq p c)); [done|].
      intros ->. by apply (others_not_current _ _ _ _ _ HL).
    - unfold l. rewrite elem_of_app, elem_of_cons in *. tauto.
    - done. }
  rewrite gets_bind, (pe_current _ _ _ _ _ HP2).
  destruct (Z.eqb_spec nxt 0) as [Hz|Hnz]; simpl; [by exists s2|].
  destruct (next_of_list s W l1 c l2 _ HL Hnz) as [Hin Hne]. fold nxt l in Hin, Hne.
  rewrite (proj2 (Z.eqb_neq nxt c)) by done. simpl.
  apply (give_way_ok s s2 W l c f nxt v); try done.
  unfold v, asleep_fields. by rewrite (proj2 (Z.eqb_neq nxt c)).
Qed.

(** A blocked process at the time [t]. *)
Lemma wakes_at t s W l c :
  procs_list s W l -> (length l < fuel)%nat -> c ∈ l -> field s c state = PROCESS_BLOCKED ->
  exists s', wake_processes (set_ticks (fun _ => t) s) = Ok tt s' /\
    field s' c state = if s32 (field s c wake) <=? s32 t then PROCESS_READY else PROCESS_BLOCKED.
Proof.
  intros HL Hlen Hin Hst. set (s0 := set_ticks (fun _ => t) s).
  assert (procs_list s0 W l) as HL0.
  { destruct HL as [HW Hp Hok Hsep]. split; [|by apply (path_same s)|done|done].
    exact (proj2 (window_proper s0 s ltac:(by split_and!) W W eq_refl) HW). }
  destruct (wake_processes_wakes s0 W l HL0 Hlen) as (s' & R & _ & _ & V & _).
  exists s'. split; [exact R|]. rewrite V by done.
  change (field s0 c) with (field s c). by rewrite Hst.
Qed.

(** C22: [sys_sleep]: the caller is blocked with the deadline [ticks + time],
    no other field of any process changes, and the next ready process in
    round-robin order runs.  [wake_processes], which every tick runs, at any
    time [t] makes the caller ready if, in the signed order of 32-bit numbers,
    [t] is not before the deadline, and leaves it blocked if it is.  If no other
    process is ready the call returns to the caller, blocked as it is. *)
Theorem sys_sleep_blocks_until s W l1 c l2 f time :
  let l := l1 ++ c :: l2 in let nxt := round_robin s l1 l2 in
  let until := u32 (ticks s + time) in
  preemptible s W l c f -> (length l < fuel)%nat ->
  exists s', sys_sleep f time s = (if nxt =? 0 then Ok tt s' else Switched nxt s') /\
    procs_list s' W l /\
    field s' c state = PROCESS_BLOCKED /\ field s' c wake = until /\
    (forall p k, p ∈ l -> 0 <= k < 12 -> p <> c \/ (4 * k <> state /\ 4 * k <> wake) ->
       field s' p (4 * k) = field s p (4 * k)) /\
    (forall t, exists s'', wake_processes (set_ticks (fun _ => t) s') = Ok tt s'' /\
       field s'' c state =
         if s32 until <=? s32 t then PROCESS_READY else PROCESS_BLOCKED) /\
    (nxt <> 0 -> current_process (procs s') = nxt /\
       forall k, 0 <= k < frame_registers s f ->
         field s' (field s c regs) (4 * k) = field s f (4 * k)).
Proof.
  intros l nxt until HP Hlen. pose proof (pe_in _ _ _ _ _ HP) as Hin.
  destruct (sys_sleep_ok s W l1 c l2 f time HP Hlen) as (s' & HY). fold l nxt until in HY.
  assert (procs_list s' W l /\ forall p k, p ∈ l -> 0 <= k < 12 ->
    field s' p (4 * k) = asleep_fields s c until p (4 * k)) as [HL HF].
  { destruct (nxt =? 0); destruct HY as [_ HY]; split; apply HY. }
  assert (field s' c state = PROCESS_BLOCKED) as Hst.
  { change state with (4 * 5). rewrite HF by done. unfold asleep_fields. by rewrite Z.eqb_refl. }
  assert (field s' c wake = until) as Hwk.
  { change wake with (4 * 8). rewrite HF by done. unfold asleep_fields. by rewrite Z.eqb_refl. }
  exists s'. split; [by destruct (nxt =? 0); destruct HY|]. split; [done|]. split; [done|].
  split; [done|]. split; [|split].
  - intros p k Hp Hk Hd. rewrite HF by done. unfold asleep_fields.
    destruct (Z.eqb_spec p c) as [->|]; [|done]. destruct Hd as [?|[H1 H2]]; [done|].
    by rewrite (proj2 (Z.eqb_neq _ _) H1), (proj2 (Z.eqb_neq _ _) H2).
  - intros t. rewrite <- Hwk. by apply (wakes_at t s' W l).
  - intros Hnz. rewrite (proj2 (Z.eqb_neq nxt 0)) in HY by done. destruct HY as [_ [G1 _ _ G4 _ _ _]].
    by split.
Qed.

End scheduling.

(** * Waiting for a child *)

Section waiting.
Import Process Syscall.
Context `{Fuel}.

(** The test of [sys_wait]: the parent has the caller's number. *)
Definition zombie_child (s : kst) (c p : Z) : bool :=
  (field s (field s p parent) pid =? field s c pid) && (field s p state =? PROCESS_ZOMBIE).
(** The number of every parent can be read; a parent that is not in the list
    (the null pointer: the code does not test for it) is not inside a record. *)
Definition parents_in (s : kst) (W : Z -> Prop) (l : list Z) : Prop :=
  forall p, p ∈ l -> subset (span (field s p parent + pid) 4) W /\
    (field s p parent ∈ l \/ forall q, q ∈ l -> apart_span (field s p parent + pid) 4 q).
Definition readable_parents (s : kst) (W : Z -> Prop) (l : list Z) : Prop :=
  forall p, p ∈ l -> subset (span (field s p parent + pid) 4) W.
Lemma parents_readable s W l : parents_in s W l -> readable_parents s W l.
Proof. intros H0 p Hp. by apply H0. Qed.

(** The search comes to the first zombie child, or to the end of the list. *)
Lemma wait_loop_ok (n : nat) s W c status a l :
  window s W -> Forall (proc_ok W) l -> path s a l 0 -> readable_parents s W l -> (length l < n)%nat ->
  current_process (procs s) = c -> proc_ok W c ->
  wait_loop n status a s =
    match List.find (zombie_child s c) l with
    | Some q => (code ← get q exit_code; store32 status code;; r ← get q pid; mret (Some r)) s
    | None => Ok None s
    end.
Proof.
  intros HW. revert a l. induction n as [|n IH]; intros a l Hok Hpath Hpar Hn Hcur Hc; [lia|].
  destruct l as [|p l]; simpl in Hpath |- *.
  { subst a. by rewrite Z.eqb_refl. }
  destruct Hpath as [-> Hpath]. apply Forall_cons in Hok as [Hp Hok].
  rewrite (proj2 (Z.eqb_neq p 0)) by (destruct Hp; lia).
  run_with (get_proc_ok s W p parent HW Hp ltac:(done) ltac:(done)).
  run_with (get_ok s W (field s p parent) pid HW (Hpar p ltac:(apply elem_of_cons; by left))).
  unfold get_current. rewrite gets_bind, Hcur.
  run_with (get_proc_ok s W c pid HW Hc ltac:(done) ltac:(done)).
  assert (wait_loop n status (field s p next) s =
    match List.find (zombie_child s c) l with
    | Some q => (code ← get q exit_code; store32 status code;; r ← get q pid; mret (Some r)) s
    | None => Ok None s
    end) as Hrest.
  { apply IH; try done; [|simpl in Hn; lia]. intros q Hq. apply Hpar, elem_of_cons. by right. }
  unfold zombie_child at 1.
  destruct (field s (field s p parent) pid =? field s c pid); simpl.
  - rewrite bind_assoc. run_with (get_proc_ok s W p state HW Hp ltac:(done) ltac:(done)).
    rewrite ret_bind. destruct (field s p state =? PROCESS_ZOMBIE); [done|].
    by run_with (get_proc_ok s W p next HW Hp ltac:(done) ltac:(done)).
  - rewrite ret_bind. by run_with (get_proc_ok s W p next HW Hp ltac:(done) ltac:(done)).
Qed.

(** The caller, its list and the place of the status. *)
Record may_wait (s : kst) (W : Z -> Prop) (l : list Z) (c status : Z) : Prop := {
  mw_list : procs_list s W l;
  mw_current : current_process (procs s) = c;
  mw_in : c ∈ l;
  mw_parents : parents_in s W l;
  mw_status : subset (span status 4) W;
  mw_apart : forall p, p ∈ l -> apart_span status 4 p;
  mw_away : forall p, p ∈ l ->
    status + 4 <= field s p parent + pid \/ field s p parent + pid + 4 <= status
}.

(** Storing the status leaves the list alone. *)
Lemma status_ok s W l c status v :
  may_wait s W l c status ->
  exists s', store32 status v s = Ok tt s' /\ may_wait s' W l c status /\
    rd32 s' status = u32 v /\
    (forall p off, p ∈ l -> 0 <= off -> off + 4 <= sizeof_process -> field s' p off = field s p off) /\
    (forall p, zombie_child s' c p = zombie_child s c p \/ ~ p ∈ l).
Proof.
  intros [HL Hc Hin Hpar Hst Hap Haw]. pose proof HL as [HW Hpath Hok Hsep].
  destruct (store_frame s W 4 status v HW Hst) as (s' & R & S & V & F).
  assert (forall p off, p ∈ l -> 0 <= off -> off + 4 <= sizeof_process ->
    field s' p off = field s p off) as HF.
  { intros p off Hp Ho Hn. apply F; [by apply record_in; [apply (in_proc_ok s W l)|..]|].
    specialize (Hap p Hp). unfold apart_span, sizeof_process in *. lia. }
  exists s'. split; [exact R|]. destruct (st_machine _ _ _ S) as [m Hm].
  assert (forall p, p ∈ l -> field s' p parent = field s p parent) as Hfp by (intros p Hp; by apply HF).
  split; [|split; [exact V|split; [exact HF|]]].
  - split; try done; [|by rewrite Hm| |].
    + split; [by apply (stores_window _ _ _ _ S)| |done|done].
      rewrite Hm. simpl. apply (path_same s); [|done]. intros p Hp. rewrite <- Hm. by apply HF.
    + intros p Hp. rewrite Hfp by done. by apply Hpar.
    + intros p Hp. rewrite Hfp by done. by apply Haw.
  - intros p. destruct (decide (p ∈ l)) as [Hp|Hp]; [left|by right].
    assert (field s' (field s p parent) pid = field s (field s p parent) pid) as Hpp.
    { apply F; [by apply (proj1 (Hpar p Hp))|]. specialize (Haw p Hp). lia. }
    unfold zombie_child.
    by rewrite Hfp, Hpp, (HF p state Hp), (HF c pid Hin) by done.
Qed.

Lemma sys_wait_found s W l c status f q :
  may_wait s W l c status -> (length l < fuel)%nat ->
  List.find (zombie_child s c) l = Some q ->
  exists s', sys_wait status f s = Ok (field s q pid) s' /\ may_wait s' W l c status /\
    rd32 s' status = field s q exit_code /\
    (forall p off, p ∈ l -> 0 <= off -> off + 4 <= sizeof_process -> field s' p off = field s p off) /\
    List.find (zombie_child s' c) l = Some q.
Proof.
  intros HM Hlen Hq. pose proof HM as [HL Hc Hin Hpar Hst Hap Haw].
  pose proof HL as [HW Hpath Hok Hsep].
  assert (q ∈ l) as Hql.
  { destruct (find_split _ _ _ Hq) as (a & b & -> & _). apply elem_of_app. right. by left. }
  pose proof (in_proc_ok s W l q HL Hql) as Hqok.
  destruct (status_ok s W l c status (field s q exit_code) HM) as (s' & R & HM' & V & F & Z0).
  exists s'. split; [|split; [done|split; [|split; [done|]]]].
  - unfold sys_wait, get_list. rewrite gets_bind.
    assert (wait_loop fuel status (process_list (procs s)) s = Ok (Some (field s q pid)) s') as Rw.
    { rewrite (wait_loop_ok fuel s W c status _ l HW Hok Hpath (parents_readable _ _ _ Hpar) Hlen Hc) by
        (by apply (in_proc_ok s W l)).
      rewrite Hq. run_with (get_proc_ok s W q exit_code HW Hqok ltac:(done) ltac:(done)). run_with R.
      run_with (get_proc_ok s' W q pid (pl_window _ _ _ (mw_list _ _ _ _ _ HM')) Hqok
        ltac:(done) ltac:(done)). by rewrite F. }
    by run_with Rw.
  - rewrite V. apply u32_small, rd32_range.
  - rewrite <- Hq. apply find_ext. intros p Hp. by destruct (Z0 p).
Qed.

(** [sys_wait] with a zombie child: it returns the number of the first one
    in the list and stores its exit code; no record of the list changes, so the
    zombie stays and the same call gives the same child again. *)
Theorem sys_wait_finds_zombie_again s W l c status f q :
  may_wait s W l c status -> (length l < fuel)%nat ->
  List.find (zombie_child s c) l = Some q ->
  exists s', sys_wait status f s = Ok (field s q pid) s' /\ procs_list s' W l /\
    rd32 s' status = field s q exit_code /\
    (forall p off, p ∈ l -> 0 <= off -> off + 4 <= sizeof_process -> field s' p off = field s p off) /\
    exists s2, sys_wait status f s' = Ok (field s q pid) s2 /\ procs_list s2 W l.
Proof.
  intros HM Hlen Hq.
  destruct (sys_wait_found s W l c status f q HM Hlen Hq) as (s1 & R1 & M1 & V1 & F1 & Q1).
  destruct (sys_wait_found s1 W l c status f q M1 Hlen Q1) as (s2 & R2 & M2 & _).
  assert (q ∈ l) as Hql.
  { destruct (find_split _ _ _ Hq) as (a & b & -> & _). apply elem_of_app. right. by left. }
  exists s1. split; [done|]. split; [apply M1|]. split; [done|]. split; [done|].
  exists s2. rewrite F1 in R2 by done. split; [done|apply M2].
Qed.

(** A store to the interrupt frame: [regs->eax = v]. *)
Lemma set_frame_ok s W l c f k v :
  preemptible s W l c f -> 0 <= k < 17 ->
  exists s', set f (4 * k) v s = Ok tt s' /\ preemptible s' W l c f /\
    (exists m, s' = set_mach (fun _ => m) s) /\
    (forall j, 0 <= j < 17 ->
       field s' f (4 * j) = if j =? k then u32 v else field s f (4 * j)) /\
    (forall p off, p ∈ l -> 0 <= off -> off + 4 <= sizeof_process -> field s' p off = field s p off).
Proof.
  intros [HL Hc Hin Hr Hrec Hf Hs Hra Hfa] Hk. pose proof HL as [HW Hpath Hok Hsep].
  assert (forall j, 0 <= j < 17 -> subset (span (f + 4 * j) 4) W) as Hfj.
  { intros j Hj x Hx. apply Hf. unfold span, sizeof_registers in *. lia. }
  destruct (set_ok s W f (4 * k) v HW (Hfj k Hk)) as (s' & R & S & V & F).
  assert (forall p off, p ∈ l -> 0 <= off -> off + 4 <= sizeof_process ->
    field s' p off = field s p off) as HF.
  { intros p off Hp Ho Hn. apply F; [by apply record_in; [apply (in_proc_ok s W l)|..]|].
    specialize (Hfa p Hp). unfold apart_span, sizeof_registers, sizeof_process in *. lia. }
  pose proof (st_machine _ _ _ S) as [m Hm].
  exists s'. split; [exact R|]. split; [|split; [by exists m|split; [|exact HF]]].
  - assert (field s' c regs = field s c regs) as Hreg by (by apply HF).
    split; rewrite ?Hreg; try done; [|by rewrite Hm].
    split; [by apply (stores_window _ _ _ _ S)| |done|done].
    rewrite Hm. apply (path_same s); [|done]. intros p Hp. rewrite <- Hm. by apply HF.
  - intros j Hj. destruct (Z.eqb_spec j k) as [->|Hne]; [exact V|]. apply F; [by apply Hfj|lia].
Qed.

Lemma updated_refl s W l : procs_list s W l -> updated s s W l (field s).
Proof. intros HL. split; [done|by exists (mach s)|done|done]. Qed.

(** [sys_wait] without a zombie child: the caller is blocked, its saved
    registers are the interrupt frame with -1 in eax, and the next ready
    process in round-robin order runs.  Nothing says what the caller waits for:
    [wake] keeps its old value, so once that is in the past the next tick of
    the timer wakes the caller, whether a child has exited or not. *)
Theorem sys_wait_blocks_caller s W l1 c l2 status f :
  let l := l1 ++ c :: l2 in let nxt := round_robin s l1 l2 in
  may_wait s W l c status -> preemptible s W l c f -> (length l < fuel)%nat ->
  List.find (zombie_child s c) l = None -> nxt <> 0 ->
  exists s', sys_wait status f s = Switched nxt s' /\ current_process (procs s') = nxt /\
    procs_list s' W l /\
    (forall p k, p ∈ l -> 0 <= k < 12 ->
       field s' p (4 * k) = over s c state PROCESS_BLOCKED p (4 * k)) /\
    (forall k, 0 <= k < frame_registers s f ->
       field s' (field s c regs) (4 * k) = if 4 * k =? r_eax then minus_one else field s f (4 * k)) /\
    (s32 (field s c wake) <= s32 (ticks s') -> due s' c = true).
Proof.
  intros l nxt HM HP Hlen Hz Hnz. pose proof HM as [HL Hc Hin Hpar Hst Hap Haw].
  pose proof HL as [HW Hpath Hok Hsep].
  destruct (set_updated s W l c 5 state PROCESS_BLOCKED HL Hin) as (s1 & R1 & U1); [done..|].
  assert (over s c state (u32 PROCESS_BLOCKED) c regs = field s c regs) as Hreg
    by (unfold over; by rewrite andb_false_r).
  pose proof (preemptible_updated _ _ _ _ _ _ _ U1 Hreg HP) as HP1.
  destruct (set_frame_ok s1 W l c f 11 minus_one HP1) as (s2 & R2 & HP2 & M2 & V2 & F2); [done|].
  assert (forall p k, p ∈ l -> 0 <= k < 12 ->
    field s2 p (4 * k) = over s c state PROCESS_BLOCKED p (4 * k)) as HF.
  { intros p k Hp Hk. rewrite F2 by (done || (unfold sizeof_process; lia)).
    by apply (up_fields _ _ _ _ _ U1). }
  unfold sys_wait, get_list. rewrite gets_bind.
  assert (wait_loop fuel status (process_list (procs s)) s = Ok None s) as Rw.
  { rewrite (wait_loop_ok fuel s W c status _ l HW Hok Hpath (parents_readable _ _ _ Hpar) Hlen Hc) by
      (by apply (in_proc_ok s W l)). by rewrite Hz. }
  run_with Rw. unfold get_current. rewrite gets_bind, Hc. run_with R1.
  change r_eax with (4 * 11). run_with R2.
  run_with (schedule_ok s2 W l1 c l2 (pe_list _ _ _ _ _ HP2) (pe_current _ _ _ _ _ HP2) Hlen).
  assert (round_robin s2 l1 l2 = nxt) as ->.
  { unfold nxt, round_robin. f_equal. apply find_ext. intros p Hp. unfold ready.
    change state with (4 * 5). rewrite HF; [|unfold l; rewrite elem_of_app, elem_of_cons in *; tauto|done].
    unfold over. rewrite (proj2 (Z.eqb_neq p c)); [done|].
    intros ->. by apply (others_not_current _ _ _ _ _ HL). }
  destruct (next_of_list s W l1 c l2 _ HL Hnz) as [Hnin Hne]. fold nxt l in Hnin, Hne.
  rewrite gets_bind, (pe_current _ _ _ _ _ HP2), (proj2 (Z.eqb_neq nxt 0)), (proj2 (Z.eqb_neq nxt c))
    by done. cbv beta. simpl orb. cbv iota. rewrite ret_bind.
  destruct (give_way_ok (A := unit) s2 s2 W l c f nxt (field s2) HP2
    (updated_refl _ _ _ (pe_list _ _ _ _ _ HP2)) Hnin eq_refl eq_refl) as (s' & R & [G1 G2 G3 G4 G5 G6]).
  assert (field s2 c regs = field s c regs) as Hr2
    by (change regs with (4 * 4); rewrite HF by done; unfold over; by rewrite andb_false_r).
  assert (forall j, 0 <= j < 17 -> j <> 11 -> field s2 f (4 * j) = field s f (4 * j)) as Hfr.
  { intros j Hj Hne'. rewrite V2, (proj2 (Z.eqb_neq j 11)) by done.
    by apply (frame_updated _ _ _ _ _ _ _ j U1 HP). }
  exists s'. split; [unfold mbind, K_bind; by rewrite R|]. split; [done|]. split; [done|].
  assert (forall p k, p ∈ l -> 0 <= k < 12 ->
    field s' p (4 * k) = over s c state PROCESS_BLOCKED p (4 * k)) as HF'.
  { intros p k Hp Hk. rewrite G5 by done. by apply HF. }
  split; [exact HF'|]. split.
  - intros k Hk. rewrite <- Hr2. rewrite G4.
    + destruct (Z.eqb_spec (4 * k) (4 * 11)) as [E|E]; [by replace k with 11 by lia; apply (V2 11)|].
      apply Hfr; [|lia]. unfold frame_registers in Hk. case_match; lia.
    + unfold frame_registers in *. change r_cs with (4 * 13). by rewrite Hfr.
  - intros Hw. unfold due. change state with (4 * 5). change wake with (4 * 8).
    rewrite !HF' by done. unfold over. rewrite Z.eqb_refl. simpl.
    change (4 * 8) with wake. lia.
Qed.

(** ** A child's exit and its parent's wait *)

(** The state in which [p] runs. *)
Definition resumed (p : Z) (s : kst) : kst :=
  set_procs (fun r => ProcState (process_list r) p (process_number r)) s.

Lemma field_resumed q s p off : field (resumed q s) p off = field s p off.
Proof. by apply (rd_mach 4). Qed.

Lemma list_resumed q s W l : procs_list s W l -> procs_list (resumed q s) W l.
Proof.
  intros [HW Hpath Hok Hsep]. split; [by apply (window_mach s)| |done|done].
  apply (path_same s); [|done]. intros p Hp. apply field_resumed.
Qed.

Lemma sys_exit_ok s W l1 c l2 code :
  let l := l1 ++ c :: l2 in
  procs_list s W l -> current_process (procs s) = c -> (length l < fuel)%nat ->
  field s c parent ∈ l -> field s c parent <> c -> successor s l1 c l2 <> 0 ->
  exists s', sys_exit code s = Switched (successor s l1 c l2) s' /\ procs_list s' W l /\
    (forall p, p ∈ l -> field s' p state =
       if p =? c then PROCESS_ZOMBIE
       else if p =? field s c parent then PROCESS_READY else field s p state) /\
    field s' c exit_code = u32 code /\
    (forall p, p ∈ l -> field s' p pid = field s p pid /\ field s' p parent = field s p parent) /\
    kept_outside s s' W l.
Proof.
  intros l HL Hc Hlen Hpa Hne Hnx.
  assert (c ∈ l) as Hin by (unfold l; rewrite elem_of_app, elem_of_cons; tauto).
  destruct (set_updated s W l c 6 exit_code code HL Hin) as (s1 & R1 & U1); [done..|].
  assert (current_process (procs s1) = c) as Hc1 by (by destruct (up_machine _ _ _ _ _ U1) as [m ->]).
  assert (forall p k, p ∈ l -> 0 <= k < 12 -> k <> 6 -> field s1 p (4 * k) = field s p (4 * k)) as F1.
  { intros p k Hp Hk H6. rewrite (up_fields _ _ _ _ _ U1) by done. unfold over, exit_code.
    rewrite (proj2 (Z.eqb_neq (4 * k) 24)) by lia. by rewrite andb_false_r. }
  assert (field s1 c parent = field s c parent) as Hp1 by (by apply (F1 c 10)).
  assert (successor s1 l1 c l2 = successor s l1 c l2) as Hsu.
  { unfold successor. f_equal. apply find_ext. intros p Hp. rewrite Hp1. unfold ready. f_equal. f_equal.
    apply (F1 p 5); [|done|done]. unfold l. rewrite elem_of_app, elem_of_cons in *. tauto. }
  destruct (exit_process_ok s1 W l1 c l2 (up_list _ _ _ _ _ U1) Hc1 Hlen)
    as (s' & R & _ & HL' & V & F & K & _).
  { right. by rewrite Hp1. }
  { by rewrite Hsu. }
  rewrite Hp1 in V. rewrite Hsu in R. exists s'. split; [|split; [done|split; [|split; [|split]]]].
  - unfold sys_exit, get_current. rewrite gets_bind, Hc. run_with R1.
    unfold mbind, K_bind. by rewrite R.
  - intros p Hp. rewrite V by done. change state with (4 * 5). by rewrite (F1 p 5).
  - rewrite F by (done || (right; done)). change exit_code with (4 * 6).
    rewrite (up_fields _ _ _ _ _ U1) by done. unfold over. by rewrite Z.eqb_refl.
  - intros p Hp. split.
    + rewrite F by (done || (left; done)). by apply (F1 p 0).
    + rewrite F by (done || (right; done)). by apply (F1 p 10).
  - intros m b Hb Hd. rewrite K by done. by apply (up_kept _ _ _ _ _ U1).
Qed.

(** C18: what a process exits with is what its parent waits for: [sys_exit] of a
    child, and [sys_wait] of its parent when that runs again, if no zombie
    child of it comes earlier in the list, give the child's number and its
    exit code. *)
Theorem exit_wait_roundtrip s W l1 c l2 pa code status f :
  let l := l1 ++ c :: l2 in
  procs_list s W l -> current_process (procs s) = c -> (length l < fuel)%nat ->
  field s c parent = pa -> pa <> c -> may_wait (resumed pa s) W l pa status ->
  List.find (zombie_child s pa) l1 = None ->
  exists s1, sys_exit code s = Switched (successor s l1 c l2) s1 /\
  exists s2, sys_wait status f (resumed pa s1) = Ok (field s c pid) s2 /\
    rd32 s2 status = u32 code.
Proof.
  intros l HL Hc Hlen Hpc Hne HM Hz. pose proof HM as [_ _ Hin Hpar Hst Hap Haw].
  assert (c ∈ l) as Hcl by (unfold l; rewrite elem_of_app, elem_of_cons; tauto).
  assert (successor s l1 c l2 <> 0) as Hnx.
  { unfold successor. intros H0. apply find_nonzero in H0.
    - pose proof (proj1 (find_none_iff _ _) H0 pa) as Hf. simpl in Hf.
      rewrite Hpc, Z.eqb_refl in Hf. discriminate Hf.
      unfold l in Hin. rewrite elem_of_app, elem_of_cons in Hin. rewrite elem_of_app. tauto.
    - destruct HL as [_ _ Hok _]. apply Forall_app in Hok as [Hok1 [_ Hok2]%Forall_cons].
      apply Forall_app. split; (eapply Forall_impl; [eassumption|by intros p []]). }
  destruct (sys_exit_ok s W l1 c l2 code HL Hc Hlen) as (s1 & R1 & HL1 & V1 & X1 & F1 & K1);
    rewrite ?Hpc; try done.
  rewrite Hpc in V1. exists s1. split; [done|]. set (r1 := resumed pa s1).
  assert (forall p, p ∈ l -> field r1 p parent = field s p parent /\
    field r1 (field s p parent) pid = field s (field s p parent) pid) as FP.
  { intros p Hp. unfold r1. rewrite !field_resumed. split; [exact (proj2 (F1 p Hp))|].
    destruct (Hpar p Hp) as [Hw Hor]. rewrite field_resumed in Hw, Hor.
    destruct Hor as [Hq|Hq]; [exact (proj1 (F1 _ Hq))|].
    unfold field at 1 3. unfold rd32. apply K1; [exact Hw|exact Hq]. }
  assert (may_wait r1 W l pa status) as HM1.
  { split; [by apply list_resumed|reflexivity|exact Hin| |exact Hst|exact Hap|]; intros p Hp;
      destruct (FP p Hp) as [-> _]; [apply (Hpar p Hp)|apply (Haw p Hp)]. }
  assert (List.find (zombie_child r1 pa) l = Some c) as Hfind.
  { assert (forall p, p ∈ l -> zombie_child r1 pa p =
      (field s (field s p parent) pid =? field s pa pid) && (field s1 p state =? PROCESS_ZOMBIE)) as Hzc.
    { intros p Hp. unfold zombie_child. destruct (FP p Hp) as [-> ->].
      unfold r1. rewrite !field_resumed. destruct (F1 pa Hin) as [-> _]. done. }
    unfold l. rewrite find_app.
    assert (List.find (zombie_child r1 pa) l1 = None) as ->.
    { apply find_none_iff. intros p Hp.
      assert (p ∈ l) as Hpl by (unfold l; rewrite elem_of_app; tauto).
      rewrite Hzc, V1 by done. pose proof (proj1 (find_none_iff _ _) Hz p Hp) as Hf.
      unfold zombie_child in Hf. destruct (Z.eqb_spec p c) as [->|_].
      { by destruct (others_not_current _ _ _ _ _ HL); apply elem_of_app; right. }
      destruct (p =? pa); [by rewrite andb_false_r|done]. }
    simpl. by rewrite Hzc, V1, Hpc, !Z.eqb_refl by done. }
  destruct (sys_wait_found r1 W l pa status f c HM1 Hlen Hfind) as (s2 & R2 & _ & V2 & _).
  exists s2. unfold r1 in R2, V2. rewrite field_resumed in R2, V2.
  destruct (F1 c Hcl) as [Hpid _]. rewrite Hpid in R2. split; [exact R2|]. by rewrite V2.
Qed.

End waiting.

(** * A concrete family *)

Section examples.
Import Process Syscall.
#[local] Instance hundred : Fuel := 100%nat.

(** A, which runs, is the parent of B and C; C is ready, B is in state [st]
    and has exit code 42. *)
Definition family_memory (st : Z) : list (Z * Z) :=
  [(proc_a + next, proc_b); (proc_b + next, proc_c); (proc_a + regs, 0x43FBC);
   (proc_a + pid, 1); (proc_b + pid, 2); (proc_c + pid, 3); (proc_b + state, st);
   (proc_b + exit_code, 42); (proc_b + parent, proc_a); (proc_c + parent, proc_a);
   (proc_c + kernel_stack_to, 0x48000); (frame + r_cs, Descriptors.USER_CS)].
Definition family (st : Z) : kst :=
  set_ticks (fun _ => 7) (set_procs (fun _ => ProcState proc_a proc_a 4)
    (match writes (family_memory st) (boot_state [] no_device) with
     | Ok _ s => s
     | _ => boot_state [] no_device
     end)).
Definition status_place : Z := 0x60000.

Lemma flat_list s W l :
  window s W -> path s (process_list (procs s)) l 0 -> Forall (proc_ok W) l ->
  separate_procs l -> procs_list s W l.
Proof. by split. Qed.

Lemma abc_ok : Forall (proc_ok in_u32) abc /\ separate_procs abc.
Proof.
  split; unfold abc; simpl; rewrite ?Forall_cons, ?Forall_nil.
  - split_and!; try done; by apply low_proc.
  - unfold apart_procs. split_and!; (done || (vm_compute; left; discriminate)).
Qed.

Lemma family_list st current :
  st = PROCESS_ZOMBIE \/ st = PROCESS_READY -> procs_list (resumed current (family st)) in_u32 abc.
Proof.
  intros Hst. apply list_resumed. destruct abc_ok as [Hok Hsep].
  destruct Hst as [-> | ->]; (apply flat_list; [|by vm_compute|done|done]);
    (apply flat_window; [by vm_compute|by intros a]).
Qed.

Lemma in_abc p : p ∈ abc -> p = proc_a \/ p = proc_b \/ p = proc_c.
Proof. unfold abc. rewrite !elem_of_cons, elem_of_nil. tauto. Qed.

Lemma family_waits st current :
  st = PROCESS_ZOMBIE \/ st = PROCESS_READY ->
  current = proc_a -> may_wait (resumed current (family st)) in_u32 abc current status_place.
Proof.
  intros Hst ->. pose proof (family_list st proc_a Hst) as HL.
  assert (forall p, p ∈ abc -> field (resumed proc_a (family st)) p parent =
    if p =? proc_a then 0 else proc_a) as Hpar.
  { intros p Hp. rewrite field_resumed. apply in_abc in Hp.
    destruct Hst as [-> | ->], Hp as [-> |[-> | ->]]; by vm_compute. }
  split; [exact HL|done|by left| |apply low_span; unfold status_place; lia| |].
  - intros p Hp. rewrite Hpar by done. split.
    + case_match; apply low_span; unfold proc_a, pid; lia.
    + case_match; [right|left; by left]. intros q [-> |[-> | ->]]%in_abc; left; by vm_compute.
  - intros p [-> |[-> | ->]]%in_abc; right; by vm_compute.
  - intros p Hp. rewrite Hpar by done. case_match; right; by vm_compute.
Qed.

Lemma sys_wait_finds_zombie_again_witness :
  exists s', sys_wait status_place frame (resumed proc_a (family PROCESS_ZOMBIE)) = Ok 2 s' /\
    rd32 s' status_place = 42.
Proof.
  set (s := resumed proc_a (family PROCESS_ZOMBIE)).
  destruct (sys_wait_finds_zombie_again s in_u32 abc proc_a status_place frame proc_b)
    as (s' & R & _ & V & _).
  - apply family_waits; [by left|done].
  - vm_compute. lia.
  - by vm_compute.
  - exists s'. assert (field s proc_b pid = 2) as Hp by (by vm_compute).
    rewrite Hp in R. split; [exact R|]. rewrite V. by vm_compute.
Defined.

Lemma family_preemptible : preemptible (resumed proc_a (family PROCESS_READY)) in_u32 abc proc_a frame.
Proof.
  assert (field (resumed proc_a (family PROCESS_READY)) proc_a regs = 0x43FBC) as Hr by (by vm_compute).
  split; rewrite ?Hr; try (apply low_span; unfold frame, sizeof_registers; lia).
  - apply (family_list PROCESS_READY). by right.
  - done.
  - by left.
  - done.
  - right. right. by vm_compute.
  - intros p [-> |[-> | ->]]%in_abc; right; by vm_compute.
  - intros p [-> |[-> | ->]]%in_abc; right; by vm_compute.
Qed.

Lemma sys_wait_blocks_caller_witness :
  exists s', sys_wait status_place frame (resumed proc_a (family PROCESS_READY)) = Switched proc_b s' /\
    field s' 0x43FBC r_eax = minus_one.
Proof.
  set (s := resumed proc_a (family PROCESS_READY)).
  assert (field s proc_a regs = 0x43FBC) as Hr by (by vm_compute).
  destruct (sys_wait_blocks_caller s in_u32 [] proc_a [proc_b; proc_c] status_place frame)
    as (s' & R & _ & _ & _ & V & _).
  - apply family_waits; [by right|done].
  - exact family_preemptible.
  - vm_compute. lia.
  - by vm_compute.
  - by vm_compute.
  - assert (round_robin s [] [proc_b; proc_c] = proc_b) as Hn by (by vm_compute).
    rewrite Hn in R. exists s'. split; [exact R|]. rewrite Hr in V.
    change r_eax with (4 * 11). apply (V 11). split; [lia|by vm_compute].
Defined.

(** B exits with code 7 and A waits. *)
Lemma exit_wait_roundtrip_witness :
  let s := resumed proc_b (family PROCESS_READY) in
  exists s1, sys_exit 7 s = Switched proc_c s1 /\
  exists s2, sys_wait status_place frame (resumed proc_a s1) = Ok 2 s2 /\ rd32 s2 status_place = 7.
Proof.
  intros s.
  destruct (exit_wait_roundtrip s in_u32 [proc_a] proc_b [proc_c] proc_a 7 status_place frame)
    as (s1 & R1 & s2 & R2 & V).
  - apply (family_list PROCESS_READY). by right.
  - done.
  - vm_compute. lia.
  - by vm_compute.
  - done.
  - apply (family_waits PROCESS_READY); [by right|done].
  - by vm_compute.
  - assert (field s proc_b pid = 2) as Hp by (by vm_compute).
    assert (successor s [proc_a] proc_b [proc_c] = proc_c) as Hs by (by vm_compute).
    rewrite Hp in R2. rewrite Hs in R1.
    exists s1. split; [exact R1|]. exists s2. split; [exact R2|exact V].
Defined.

Lemma sys_sleep_blocks_until_witness :
  exists s', sys_sleep frame 100 (resumed proc_a (family PROCESS_READY)) = Switched proc_b s' /\
    field s' proc_a wake = 107 /\
    (exists s1, wake_processes (set_ticks (fun _ => 106) s') = Ok tt s1 /\
       field s1 proc_a state = PROCESS_BLOCKED) /\
    exists s2, wake_processes (set_ticks (fun _ => 107) s') = Ok tt s2 /\
      field s2 proc_a state = PROCESS_READY.
Proof.
  set (s := resumed proc_a (family PROCESS_READY)).
  destruct (sys_sleep_blocks_until s in_u32 [] proc_a [proc_b; proc_c] frame 100)
    as (s' & R & _ & _ & V & _ & D & _).
  - exact family_preemptible.
  - vm_compute. lia.
  - assert (round_robin s [] [proc_b; proc_c] = proc_b) as Hn by (by vm_compute).
    rewrite Hn in R. exists s'. split; [exact R|]. split; [rewrite V; by vm_compute|].
    split; [destruct (D 106) as (s1 & R1 & E1)|destruct (D 107) as (s1 & R1 & E1)];
      exists s1; (split; [exact R1|]); rewrite E1; by vm_compute.
Defined.

End examples.
