(* ===== verification/Fork.v ===== *)
(** [sys_fork] of kernel/syscall.c: the child is a copy of its parent.

    The stack of the child is another page, so the code copies the used part
    and moves the saved frame pointers it finds in it. *)

From S2P Require Import Prelude Machine State Mmu Window PageSource Vga MemMap Paging MemLib Heap Descriptors Devices Process Switch Spawn Elf Syscall.

(** * The saved frame pointers *)

Section frames.
Import Syscall.

(** A function that keeps a frame pointer saves its caller's at the address in
    ebp.  [frame_chain s esp top a l]: starting with the pointer [a], [l] are
    the addresses of the saved pointers on the stack from [esp] to [top], each
    above the one before. *)
Fixpoint frame_chain (s : kst) (esp top a : Z) (l : list Z) : Prop :=
  match l with
  | [] => esp <= a < top - 4 -> ~ top - 4096 <= rd32 s a < top
  | x :: l' =>
      x = a /\ esp <= a < top - 4 /\ top - 4096 <= rd32 s a < top /\ a + 4 <= rd32 s a /\
      frame_chain s esp top (rd32 s a) l'
  end.

Lemma chain_above s esp top a l x :
  frame_chain s esp top a l -> x ∈ l -> esp <= x < top - 4 /\ a <= x.
Proof.
  revert a. induction l as [|y l IH]; intros a; [by intros _ ?%elem_of_nil|].
  intros (-> & Ha & _ & Hup & Hl) [->|Hx]%elem_of_cons; [lia|].
  destruct (IH _ Hl Hx). lia.
Qed.

(** A saved pointer of the parent, [delta] away in the child. *)
Lemma chain_word s s0 top delta a x :
  (forall b, a <= b < top -> rd8 s (b + delta) = rd8 s0 b) -> a <= x -> x + 4 <= top ->
  rd32 s (x + delta) = rd32 s0 x.
Proof.
  intros Hsame Ha Hx. unfold rd32. simpl. rewrite <- (Hsame x) by lia.
  rewrite <- (Hsame (x + 1)), <- (Hsame (x + 1 + 1)), <- (Hsame (x + 1 + 1 + 1)) by lia.
  by replace (x + delta + 1) with (x + 1 + delta) by lia;
    replace (x + 1 + delta + 1) with (x + 1 + 1 + delta) by lia;
    replace (x + 1 + 1 + delta + 1) with (x + 1 + 1 + 1 + delta) by lia.
Qed.

Lemma fix_frames_ok n s s0 W esp top delta a l :
  let child x := x + delta in
  window s W -> subset (span (child esp) (top - esp)) W ->
  4096 <= top < 2 ^ 32 -> 4096 <= child top < 2 ^ 32 -> top - 4096 <= esp <= top -> in_u32 a ->
  frame_chain s0 esp top a l -> (length l < n)%nat ->
  (forall b, esp <= b < top -> a <= b -> rd8 s (child b) = rd8 s0 b) ->
  exists s', fix_frames n (u32 (child a)) (child top) top (top - esp) (u32 delta) s = Ok tt s' /\
    stores (span (child esp) (top - esp)) s s' /\
    (forall x, x ∈ l -> rd32 s' (child x) = child (rd32 s0 x)) /\
    (forall b, esp <= b < top -> (forall x, x ∈ l -> ~ span x 4 b) ->
       rd8 s' (child b) = rd8 s (child b)).
Proof.
  intros child. revert n s a. induction l as [|y l IH]; intros [|n] s a HW HU Ht Hc He Ha Hl Hn Hsame;
    simpl in Hn; try lia; simpl fix_frames.
  - exists s. split; [|split; [by apply (stores_none _ _ W)|split; [by intros x ?%elem_of_nil|done]]].
    destruct (decide (esp <= a < top - 4)) as [Hin|Hout].
    + rewrite !u32_small, (proj2 (andb_true_iff _ _)) by (unfold child in *; width_lia || lia).
      assert (subset (span (child a) 4) W) as Hsub by (intros x Hx; apply HU; unfold child, span in *; lia).
      unfold load32. run_with (load_ok s W HW 4 _ Hsub).
      change (rd 4 s (child a)) with (rd32 s (a + delta)).
      rewrite (chain_word s s0 top delta a a) by (done || lia || (intros; apply Hsame; lia)).
      specialize (Hl Hin). rewrite (proj2 (andb_false_iff _ _)); [done|lia].
    + rewrite (proj2 (andb_false_iff _ _)); [done|]. unfold child in *. width_lia.
  - destruct Hl as (-> & Hin & Hv & Hup & Hl).
    rewrite !u32_small, (proj2 (andb_true_iff _ _)) by (unfold child in *; width_lia || lia).
    assert (subset (span (child a) 4) (span (child esp) (top - esp))) as Hsub
      by (intros x; unfold child, span in *; lia).
    assert (subset (span (child a) 4) W) as HsubW by (intros x Hx; by apply HU, Hsub).
    unfold load32 at 1. run_with (load_ok s W HW 4 _ HsubW).
    change (rd 4 s (child a)) with (rd32 s (a + delta)).
    rewrite (chain_word s s0 top delta a a) by (done || lia || (intros; apply Hsame; lia)).
    rewrite (proj2 (andb_true_iff _ _)) by lia.
    destruct (put_ok s s W _ 4 (child a) (rd32 s0 a + u32 delta) HW HU (stores_none _ _ _ HW HU) Hsub)
      as (s1 & R1 & S1 & V1 & F1).
    assert ((rd32 s0 a + u32 delta) mod 2 ^ (8 * Z.of_nat 4) = child (rd32 s0 a)) as Hmod.
    { change (2 ^ (8 * Z.of_nat 4)) with (2 ^ 32). unfold child in *. width_lia. }
    rewrite Hmod in V1. unfold store32. run_with R1. pose proof (stores_window _ _ _ _ S1 HW) as HW1.
    unfold load32. run_with (load_ok s1 W HW1 4 _ HsubW). rewrite V1.
    assert (forall b, child a + 4 <= child b \/ child b < child a -> esp <= b < top ->
      rd8 s1 (child b) = rd8 s (child b)) as F8.
    { intros b Hb Hbt. rewrite <- !rd_1. apply F1; [|lia].
      intros x Hx. apply HU. unfold child, span in *. lia. }
    rewrite <- (u32_small (child (rd32 s0 a))) by (unfold child in *; width_lia).
    destruct (IH n s1 (rd32 s0 a) HW1 HU Ht Hc He (rd32_range _ _) Hl) as (s2 & R2 & S2 & V2 & F2); [lia| |].
    { intros b Hbt Hb. rewrite F8 by (unfold child; lia). apply Hsame; lia. }
    exists s2. split; [done|]. split; [by apply (stores_again _ _ s1)|]. split.
    + intros x [->|Hx]%elem_of_cons; [|by apply V2].
      transitivity (rd32 s1 (child a)).
      * apply rd_ext. intros b Hb. replace b with (child (b - delta)) by (unfold child; lia).
        apply F2; [unfold child, span in *; lia|]. intros x Hx Hxb.
        destruct (chain_above _ _ _ _ _ _ Hl Hx). unfold child, span in *. lia.
      * exact V1.
    + intros b Hbt Hb. rewrite F2; [apply F8; [|done]|done|].
      * pose proof (Hb a ltac:(by left)). unfold child, span in *. lia.
      * intros x Hx. apply Hb. by right.
Qed.

End frames.

(** * The child while it is filled in *)

Section filling.
Import Process Syscall.
Context `{Fuel}.

(** Since [s1] only the register record at [r] and the child's stack at [us]
    have been written: the registers are [g] and the bytes of the stack [m]. *)
Record filled (s1 si : kst) (r us : Z) (g m : Z -> Z) : Prop := {
  fi_stores : stores (fun x => span r sizeof_registers x \/ span us 4096 x) s1 si;
  fi_regs : forall k, 0 <= k < 17 -> field si r (4 * k) = g k;
  fi_stack : forall x, span us 4096 x -> rd8 si x = m x
}.

(** Where the record and the stack are. *)
Record child_memory (s1 : kst) (W : Z -> Prop) (r us : Z) : Prop := {
  cm_window : window s1 W;
  cm_regs : subset (span r sizeof_registers) W;
  cm_stack : subset (span us 4096) W;
  cm_apart : disjoint_from (span us 4096) (span r sizeof_registers)
}.

Lemma reg_in r k : 0 <= k < 17 -> subset (span (r + 4 * k) 4) (span r sizeof_registers).
Proof. intros Hk x. unfold span, sizeof_registers. lia. Qed.

Lemma filled_in s1 W r us :
  child_memory s1 W r us -> subset (fun x => span r sizeof_registers x \/ span us 4096 x) W.
Proof. intros [_ H1 H2 _] x [Hx|Hx]; [by apply H1|by apply H2]. Qed.

(** Everything else is as it was. *)
Lemma filled_kept s1 si W r us g m a n :
  child_memory s1 W r us -> filled s1 si r us g m -> subset (span a (Z.of_nat n)) W ->
  disjoint_from (span a (Z.of_nat n)) (span r sizeof_registers) ->
  disjoint_from (span a (Z.of_nat n)) (span us 4096) -> rd n si a = rd n s1 a.
Proof.
  intros HC [HS _ _] Ha Hr Hu. apply (stores_rd n _ _ _ W _ HS (cm_window _ _ _ _ HC)); [|done|].
  - by apply (filled_in s1).
  - intros x Hx [Hy|Hy]; [by apply (Hr x)|by apply (Hu x)].
Qed.

Lemma filled_window s1 si W r us g m : child_memory s1 W r us -> filled s1 si r us g m -> window si W.
Proof. intros HC HF. apply (stores_window _ _ _ _ (fi_stores _ _ _ _ _ _ HF)), HC. Qed.

Lemma get_reg_ok s1 si W r us g m k :
  child_memory s1 W r us -> filled s1 si r us g m -> 0 <= k < 17 ->
  get r (4 * k) si = Ok (g k) si.
Proof.
  intros HC HF Hk. rewrite (get_ok si W).
  - by rewrite (fi_regs _ _ _ _ _ _ HF).
  - by apply (filled_window s1 si W r us g m).
  - intros x Hx. by apply (cm_regs _ _ _ _ HC), (reg_in r k Hk).
Qed.

(** A store to a register, and a store to the stack. *)
Lemma filled_reg s1 si W r us g m k v :
  child_memory s1 W r us -> filled s1 si r us g m -> 0 <= k < 17 ->
  exists s', set r (4 * k) v si = Ok tt s' /\
    filled s1 s' r us (fun j => if j =? k then u32 v else g j) m.
Proof.
  intros HC HF Hk. pose proof (filled_window _ _ _ _ _ _ _ HC HF) as HWi.
  pose proof HC as [HW Hr Hu Hap]. destruct HF as [HS HG HM].
  destruct (put_ok si s1 W _ 4 (r + 4 * k) v HW (filled_in _ _ _ _ HC) HS) as (s' & R & S & V & F).
  { intros x Hx. left. by apply (reg_in r k). }
  exists s'. split; [exact R|]. split; [done| |].
  - intros j Hj. destruct (Z.eqb_spec j k) as [->|Hne]; [exact V|].
    rewrite <- HG by done. apply (F 4%nat); [|lia]. intros x Hx. by apply Hr, (reg_in r j).
  - intros x Hx. rewrite <- HM, <- !rd_1 by done. apply F.
    + intros y Hy. apply Hu. unfold span in *. lia.
    + destruct (decide (r + 4 * k <= x < r + 4 * k + 4)); [exfalso|lia].
      apply (Hap x Hx). unfold span, sizeof_registers. lia.
Qed.

Lemma filled_stores s1 si s' W r us g m m' D :
  child_memory s1 W r us -> filled s1 si r us g m -> stores D si s' -> subset D (span us 4096) ->
  (forall x, span us 4096 x -> rd8 s' x = m' x) -> filled s1 s' r us g m'.
Proof.
  intros HC HF HS HD HM. pose proof (filled_window _ _ _ _ _ _ _ HC HF) as HWi.
  destruct HC as [HW Hr Hu Hap], HF as [HS1 HG _]. split; [| |done].
  - apply (stores_again _ _ si); [done|]. apply (stores_weaken _ _ _ _ HS); [intros x Hx; right; by apply HD|].
    exact (st_u32 _ _ _ HS1).
  - intros k Hk. rewrite <- HG by done. apply (stores_rd 4 _ _ _ W _ HS HWi).
    + intros x Hx. by apply Hu, HD.
    + intros x Hx. by apply Hr, (reg_in r k).
    + intros x Hx Hx'. by apply (Hap x); [apply HD|apply (reg_in r k)].
Qed.

(** [*child->regs = *regs] *)
Lemma copy_registers_ok s1 W r us f g m :
  child_memory s1 W r us -> filled s1 s1 r us g m -> subset (span f sizeof_registers) W ->
  disjoint_from (span f sizeof_registers) (span r sizeof_registers) ->
  disjoint_from (span f sizeof_registers) (span us 4096) ->
  exists s', copy_registers r f s1 = Ok tt s' /\ filled s1 s' r us (fun k => field s1 f (4 * k)) m.
Proof.
  intros HC HF Hf Hfr Hfu.
  assert (forall k, 0 <= k < 17 -> subset (span (f + 4 * k) 4) W) as Hfk.
  { intros k Hk x Hx. by apply Hf, (reg_in f k). }
  destruct (for_range_inv (fun n si => filled s1 si r us (fun j => if j <? n then field s1 f (4 * j) else g j) m)
    0 17 (fun k => v ← get f (4 * k); set r (4 * k) v) s1) as (s' & R & HF').
  - lia.
  - destruct HF as [HS HG HM]. split; [done| |done]. intros k Hk.
    by rewrite (proj2 (Z.ltb_ge k 0)), HG by lia.
  - intros k si Hk HFi. pose proof (filled_window _ _ _ _ _ _ _ HC HFi) as HWi.
    run_with (get_ok si W f (4 * k) HWi (Hfk k Hk)).
    assert (field si f (4 * k) = field s1 f (4 * k)) as ->.
    { apply (filled_kept s1 si W r us _ _ _ 4 HC HFi); [by apply Hfk| |];
        intros x Hx; [apply (Hfr x)|apply (Hfu x)]; by apply (reg_in f k). }
    destruct (filled_reg s1 si W r us _ m k (field s1 f (4 * k)) HC HFi Hk) as (s2 & R2 & [HS2 HG2 HM2]).
    exists s2. split; [done|]. split; [done| |done]. intros j Hj. rewrite HG2 by done.
    rewrite u32_small by apply rd32_range. repeat case_match; try done; try lia. f_equal. lia.
  - exists s'. split; [exact R|]. destruct HF' as [HS HG HM]. split; [done| |done].
    intros k Hk. by rewrite HG, (proj2 (Z.ltb_lt k 17)) by lia.
Qed.

End filling.

(** * Copying the parent *)

Section copying.
Import Process Syscall.
Context `{Layout} `{Fuel}.

(** Memory the copy only reads. *)
Definition quiet (W : Z -> Prop) (r us : Z) (A : Z -> Prop) : Prop :=
  subset A W /\ disjoint_from A (span r sizeof_registers) /\ disjoint_from A (span us 4096).

Lemma quiet_read s1 si W r us g m a n A :
  child_memory s1 W r us -> filled s1 si r us g m -> quiet W r us A ->
  subset (span a (Z.of_nat n)) A -> rd n si a = rd n s1 a.
Proof.
  intros HC HF (HW & Hr & Hu) Ha. apply (filled_kept s1 si W r us g m a n HC HF).
  - intros x Hx. by apply HW, Ha.
  - intros x Hx. by apply Hr, Ha.
  - intros x Hx. by apply Hu, Ha.
Qed.
Lemma quiet_get s1 si W r us g m p off n :
  child_memory s1 W r us -> filled s1 si r us g m -> quiet W r us (span p n) ->
  0 <= off -> off + 4 <= n -> get p off si = Ok (field s1 p off) si.
Proof.
  intros HC HF HQ Ho Hn. assert (subset (span (p + off) 4) (span p n)) as Hs.
  { intros x. unfold span. lia. }
  rewrite (get_ok si W).
  - f_equal. exact (quiet_read s1 si W r us g m (p + off) 4 _ HC HF HQ Hs).
  - by apply (filled_window s1 si W r us g m).
  - intros x Hx. by apply (proj1 HQ), Hs.
Qed.

Lemma quiet_bind {A} (k : Z -> K A) s1 si W r us g m p off n :
  child_memory s1 W r us -> filled s1 si r us g m -> quiet W r us (span p n) ->
  0 <= off -> off + 4 <= n -> (get p off ≫= k) si = k (field s1 p off) si.
Proof. intros HC HF HQ Ho Hn. by run_with (quiet_get s1 si W r us g m p off n HC HF HQ Ho Hn). Qed.

Lemma filled_ext s1 si r us g g' m m' :
  filled s1 si r us g m -> (forall k, 0 <= k < 17 -> g k = g' k) ->
  (forall x, span us 4096 x -> m x = m' x) -> filled s1 si r us g' m'.
Proof.
  intros [HS HG HM] Eg Em. split; [done| |].
  - intros k Hk. by rewrite HG, Eg.
  - intros x Hx. by rewrite HM, Em.
Qed.

(** What the copy needs: the child [p] with its record [r] and its stack [us'],
    the parent [c] with its stack [us], and the frame [f] of the call. *)
Record fork_site (s1 : kst) (W : Z -> Prop) (p c f r us us' : Z) : Prop := {
  fs_memory : child_memory s1 W r us';
  fs_child : quiet W r us' (span p sizeof_process);
  fs_parent : quiet W r us' (span c sizeof_process);
  fs_frame : quiet W r us' (span f sizeof_registers);
  fs_stack : quiet W r us' (span us 4096);
  fs_regs : field s1 p regs = r;
  fs_child_stack : field s1 p user_stack = us' /\ 0 <= us' /\ us' + 4096 < 2 ^ 32;
  fs_parent_stack : field s1 c user_stack = us /\ 0 <= us /\ us + 4096 < 2 ^ 32;
  fs_esp : us <= field s1 f r_user_esp <= us + 4096
}.

(** The registers of the child: those of the frame, but [eax] is 0 and the
    pointers into the stack have moved. *)
Definition child_registers (s : kst) (f delta : Z) (k : Z) : Z :=
  if 4 * k =? r_eax then 0
  else if 4 * k =? r_user_esp then field s f r_user_esp + delta
  else if 4 * k =? r_ebp then u32 (field s f r_ebp + delta)
  else field s f (4 * k).

(** The first part: the registers, before the stack. *)
Lemma copy_frame_ok s1 W p c f r us us' :
  fork_site s1 W p c f r us us' ->
  exists s2 g, copy_frame p f s1 = Ok tt s2 /\
    filled s1 s2 r us' g (rd8 s1) /\
    forall k, 0 <= k < 17 -> 4 * k <> r_user_esp ->
      g k = if 4 * k =? r_eax then 0 else field s1 f (4 * k).
Proof.
  intros [HC HP _ HF _ Hr _ _ _].
  assert (filled s1 s1 r us' (fun k => field s1 r (4 * k)) (rd8 s1)) as F0.
  { split; [|done|done]. apply (stores_none _ _ W); [apply HC|by apply (filled_in s1)]. }
  unfold copy_frame. rewrite (quiet_bind _ _ _ _ _ _ _ _ _ _ _ HC F0 HP), Hr by done.
  change r_user_esp with (4 * 15). run_with (get_reg_ok s1 s1 W r us' _ _ 15 HC F0 ltac:(lia)).
  rewrite (quiet_bind _ _ _ _ _ _ _ _ _ _ _ HC F0 HP), Hr by done.
  destruct (copy_registers_ok s1 W r us' f _ _ HC F0) as (s2 & R2 & F2); [apply HF..|].
  run_with R2.
  rewrite (quiet_bind _ _ _ _ _ _ _ _ _ _ _ HC F2 HP), Hr by done.
  change r_eax with (4 * 11).
  destruct (filled_reg s1 s2 W r us' _ _ 11 0 HC F2 ltac:(lia)) as (s3 & R3 & F3). run_with R3.
  rewrite (quiet_bind _ _ _ _ _ _ _ _ _ _ _ HC F3 HP), Hr by done.
  destruct (filled_reg s1 s3 W r us' _ _ 15 (field s1 r (4 * 15)) HC F3 ltac:(lia)) as (s4 & R4 & F4).
  eexists s4, _. split; [exact R4|]. split; [exact F4|]. intros k Hk Hne. simpl.
  rewrite (proj2 (Z.eqb_neq k 15)) by lia. destruct (Z.eqb_spec k 11) as [->|]; [done|].
  by rewrite (proj2 (Z.eqb_neq (4 * k) (4 * 11))) by lia.
Qed.

(** The used part of the stack. *)
Lemma copy_used_ok s1 s2 W p c f r us us' g :
  let delta := us' - us in
  let esp := field s1 f r_user_esp in
  let used := us + 4096 - esp in
  fork_site s1 W p c f r us us' -> filled s1 s2 r us' g (rd8 s1) ->
  exists s3, MemLib.memcpy (us' + 4096 - used) (us + 4096 - used) used s2 = Ok (us' + 4096 - used) s3 /\
    filled s1 s3 r us' g (fun x => if esp + delta <=? x then rd8 s1 (x - delta) else rd8 s1 x).
Proof.
  intros delta esp used [HC _ _ _ HV _ (_ & Hu0 & Hu1) (_ & Hv0 & Hv1) He] HF. fold esp in He.
  pose proof (filled_window _ _ _ _ _ _ _ HC HF) as HW2.
  assert (us' + 4096 <= us \/ us + 4096 <= us') as Hap.
  { destruct (decide (us' + 4096 <= us)); [by left|]. destruct (decide (us + 4096 <= us')); [by right|].
    exfalso. apply (proj2 (proj2 HV) (Z.max us us')); unfold span; lia. }
  assert (subset (span (us' + 4096 - used) used) (span us' 4096)) as HU by (intros x; unfold used, span; lia).
  assert (subset (span (us + 4096 - used) used) (span us 4096)) as HVs by (intros x; unfold used, span; lia).
  destruct (memcpy_ok s2 W (us' + 4096 - used) (us + 4096 - used) used HW2) as (s3 & R3 & S3 & V3 & K3).
  - intros x Hx. by apply (cm_stack _ _ _ _ HC), HU.
  - intros x Hx. by apply (proj1 HV), HVs.
  - unfold used. lia.
  - unfold used. lia.
  - exists s3. split; [exact R3|]. apply (filled_stores s1 s2 s3 W r us' g _ _ _ HC HF S3 HU).
    intros x Hx. unfold delta. destruct (Z.leb_spec (esp + (us' - us)) x) as [Hlo|Hhi].
    + replace x with (us' + 4096 - used + (x - (esp + (us' - us)))) at 1 by (unfold used; lia).
      rewrite V3 by (unfold used, span in *; lia). rewrite <- !rd_1.
      replace (us + 4096 - used + (x - (esp + (us' - us)))) with (x - (us' - us)) by (unfold used; lia).
      apply (quiet_read s1 s2 W r us' _ _ _ 1 _ HC HF HV). intros y. unfold span in *. lia.
    + rewrite K3; [by apply (fi_stack _ _ _ _ _ _ HF)|by apply (cm_stack _ _ _ _ HC)|].
      unfold used, span in *. lia.
Qed.

Lemma copy_stack_ok s1 s2 W p c f r us us' g frames :
  let delta := us' - us in
  let top := us + 4096 in
  let esp := field s1 f r_user_esp in
  fork_site s1 W p c f r us us' -> filled s1 s2 r us' g (rd8 s1) ->
  (forall k, 0 <= k < 17 -> 4 * k <> r_user_esp ->
     g k = if 4 * k =? r_eax then 0 else field s1 f (4 * k)) ->
  frame_chain s1 esp top (field s1 f r_ebp) frames -> (length frames < fuel)%nat ->
  exists s' m, copy_stack c p f s2 = Ok tt s' /\
    filled s1 s' r us' (child_registers s1 f delta) m /\
    (forall x, x ∈ frames -> rd32 s' (x + delta) = rd32 s1 x + delta) /\
    (forall x, esp <= x < top -> (forall y, y ∈ frames -> ~ span y 4 x) ->
       m (x + delta) = rd8 s1 x).
Proof.
  intros delta top esp HS HF Hg Hl Hn.
  pose proof HS as [HC HP HCp HFr HV Hr (Hus' & Hu0 & Hu1) (Hus & Hv0 & Hv1) He]. fold esp in He.
  unfold copy_stack.
  rewrite (quiet_bind _ _ _ _ _ _ _ _ _ _ _ HC HF HCp) by done. rewrite Hus.
  rewrite (quiet_bind _ _ _ _ _ _ _ _ _ _ _ HC HF HP) by done. rewrite Hus'.
  rewrite (quiet_bind _ _ _ _ _ _ _ _ _ _ _ HC HF HFr) by done. fold esp.
  rewrite (u32_small (us + 4096)), (u32_small (us' + 4096)) by width_lia.
  rewrite (u32_small (us + 4096 - esp)) by width_lia.
  rewrite (u32_small (us' + 4096 - (us + 4096 - esp))), (u32_small (us + 4096 - (us + 4096 - esp))) by width_lia.
  destruct (copy_used_ok s1 s2 W p c f r us us' g HS HF) as (s3 & R3 & F3). fold esp delta in R3, F3.
  run_with R3.
  rewrite (quiet_bind _ _ _ _ _ _ _ _ _ _ _ HC F3 HP), Hr by done.
  change r_user_esp with (4 * 15).
  destruct (filled_reg s1 s3 W r us' _ _ 15 (us' + 4096 - (us + 4096 - esp)) HC F3 ltac:(lia)) as (s4 & R4 & F4).
  run_with R4. change r_ebp with (4 * 6).
  rewrite (quiet_bind _ _ _ _ _ _ _ _ _ _ _ HC F4 HFr) by done.
  rewrite (quiet_bind _ _ _ _ _ _ _ _ _ _ _ HC F4 HP), Hr by done.
  destruct (filled_reg s1 s4 W r us' _ _ 6 (field s1 f (4 * 6) + u32 (us' + 4096 - (us + 4096))) HC F4 ltac:(lia))
    as (s5 & R5 & F5).
  run_with R5.
  rewrite (quiet_bind _ _ _ _ _ _ _ _ _ _ _ HC F5 HP), Hr by done.
  run_with (get_reg_ok s1 s5 W r us' _ _ 6 HC F5 ltac:(lia)). simpl Z.eqb. cbv iota.
  replace (us + 4096 - (us + 4096 - esp)) with esp in * by lia.
  assert (u32 (us' + 4096 - (us + 4096)) = u32 delta) as Ed by (f_equal; unfold delta; lia).
  rewrite Ed in *. rewrite u32_add_r in *.
  replace (us' + 4096) with (top + delta) in * by (unfold top, delta; lia).
  fold top in HV |- *. change (field s1 f (4 * 6)) with (field s1 f r_ebp) in *.
  change (6 =? 6) with true. cbv iota. pose proof (filled_window _ _ _ _ _ _ _ HC F5) as HW5.
  assert (forall b, esp <= b < top -> rd8 s5 (b + delta) = rd8 s1 b) as Hcopy.
  { intros b Hb. rewrite (fi_stack _ _ _ _ _ _ F5) by (unfold top, delta, span in *; lia).
    rewrite (proj2 (Z.leb_le _ _)) by lia. f_equal. lia. }
  assert (subset (span (esp + delta) (top - esp)) (span us' 4096)) as HU
    by (intros x; unfold top, delta, span; lia).
  destruct (fix_frames_ok fuel s5 s1 W esp top delta (field s1 f r_ebp) frames HW5)
    as (s6 & R6 & S6 & V6 & K6); try done; try (unfold top in *; lia).
  { intros x Hx. by apply (cm_stack _ _ _ _ HC), HU. }
  { apply rd32_range. }
  { intros b Hb _. by apply Hcopy. }
  exists s6, (rd8 s6). split; [exact R6|]. split; [|split; [exact V6|]].
  - eapply filled_ext; [by apply (filled_stores s1 s5 s6 W r us' _ _ (rd8 s6) _ HC F5 S6 HU)| |done].
    intros k Hk. unfold child_registers. change r_user_esp with (4 * 15) in *.
    change r_ebp with (4 * 6). change r_eax with (4 * 11) in *.
    destruct (Z.eqb_spec k 6) as [->|H6]; [done|]. rewrite (proj2 (Z.eqb_neq (4 * k) (4 * 6))) by lia.
    destruct (Z.eqb_spec k 15) as [->|H15].
    + change (4 * 15 =? 4 * 11) with false. rewrite Z.eqb_refl. fold esp.
      rewrite u32_small by (unfold top, delta in *; width_lia). lia.
    + rewrite Hg, (proj2 (Z.eqb_neq (4 * k) (4 * 15))) by lia. done.
  - intros x Hx Hy. rewrite K6 by done. by apply Hcopy.
Qed.

End copying.

(** * The system call *)

Section forking.
Import Process Syscall.
Context `{Layout} `{Fuel}.

Lemma in_started s W l ps p : kernel_data s W l ps -> p ∈ ps -> proc_ok W p.
Proof. intros HK. apply (in_proc_ok s W ps), HK. Qed.

(** Setting a field of a process of the list. *)
Lemma kernel_data_set s W l ps p k off v :
  kernel_data s W l ps -> p ∈ ps -> off = 4 * k -> 0 <= k < 12 -> off <> next ->
  exists s', set p off v s = Ok tt s' /\ kernel_data s' W l ps /\ pmm s' = pmm s /\ procs s' = procs s /\
    stores (span p sizeof_process) s s' /\
    forall q j, q ∈ ps -> 0 <= j < 12 -> field s' q (4 * j) = over s p off (u32 v) q (4 * j).
Proof.
  intros HK Hp Hoff Hk Hne. pose proof HK as [HL HP HH]. pose proof HP as [HW _ Hok Hsep].
  destruct (set_updated s W ps p k off v HP Hp Hoff Hk Hne) as (s' & R & [HP' _ HF _]).
  destruct (set_field_ok s W ps p off v HW Hok Hsep Hp) as (s'' & R' & S & _);
    [lia|unfold sizeof_process; lia|].
  rewrite R in R'. injection R' as <-. destruct (st_machine _ _ _ S) as [m Hm].
  pose proof (in_started s W l ps p HK Hp) as Hpo. rewrite Forall_forall in HH.
  exists s'. split; [done|]. split; [|by rewrite Hm in *].
  split; [|done|by apply Forall_forall].
  apply (heap_list_touches (span p sizeof_process) s); try (by rewrite Hm); [done| |apply Hpo|].
  - by apply (stores_touches _ _ _ _ S); [intros x|exact (st_u32 _ _ _ S)].
  - apply Forall_forall. intros b Hb.
    by apply (housed_headers W l); [apply (hl_blocks _ _ _ HL)|apply (hl_separate _ _ _ HL)|apply HH|].
Qed.

(** The memory of a caller is in use and not in the heap. *)
Definition own_memory (W : Z -> Prop) (l : list block) (A : Z -> Prop) : Prop :=
  subset A W /\ disjoint_from A (heap_bytes l).

Lemma own_kept s s' W W' l ps b entry mode us A n a :
  created s s' W W' l ps b entry mode us -> own_memory W l A -> subset (span a (Z.of_nat n)) A ->
  rd n s' a = rd n s a.
Proof.
  intros HC [HA Hd] Ha. apply rd_ext. intros x Hx. apply (cr_kept _ _ _ _ _ _ _ _ _ _ HC).
  - by apply HA, Ha.
  - intros Hh. by apply (Hd x); [apply Ha|].
Qed.

Lemma chain_same s s' esp top a l :
  (forall x, esp <= x -> x + 4 <= top -> rd32 s' x = rd32 s x) ->
  frame_chain s esp top a l -> frame_chain s' esp top a l.
Proof.
  intros Hs. revert a. induction l as [|y l IH]; intros a; simpl.
  - intros Hn Ha. rewrite Hs by lia. by apply Hn.
  - intros (-> & Ha & Hv & Hup & Hl). rewrite Hs by lia. split_and!; try done; try lia. by apply IH.
Qed.

(** Old memory is away from the new stacks. *)
Lemma old_quiet s s' W W' l ps b entry us A :
  created s s' W W' l ps b entry PROCESS_USER us -> subset A W ->
  quiet W' (next_virtual (pmm s) + KERNEL_STACK_SIZE - sizeof_registers) us A.
Proof.
  intros HC HA. destruct (cr_user _ _ _ _ _ _ _ _ _ _ HC eq_refl) as (_ & _ & _ & _ & _ & Hf).
  split; [|split].
  - intros x Hx. by apply (cr_more _ _ _ _ _ _ _ _ _ _ HC), HA.
  - intros x Hx Hr. apply (cr_stack_fresh _ _ _ _ _ _ _ _ _ _ HC x); [|by apply HA].
    unfold span, KERNEL_STACK_SIZE, sizeof_registers in *. lia.
  - intros x Hx Hu. by apply (proj1 (Hf x Hu)), HA.
Qed.

(** The record of the child lies in memory that was in use. *)
Lemma created_record s s' W W' l ps b entry mode us :
  created s s' W W' l ps b entry mode us -> subset (span (b_addr b + 9) sizeof_process) W.
Proof.
  intros HC. pose proof (kd_housed _ _ _ _ (cr_data _ _ _ _ _ _ _ _ _ _ HC)) as HH.
  apply Forall_app in HH as [_ (d & Hd & _ & Hlo & Hhi)%Forall_singleton].
  pose proof (cr_blocks _ _ _ _ _ _ _ _ _ _ HC) as Hok. rewrite Forall_forall in Hok.
  destruct (Hok d Hd) as [_ _ _ Hin]. intros x Hx. apply Hin. unfold span in *. lia.
Qed.

(** A call of [sys_fork] by the process [c] with the interrupt frame [f]: its
    stack is the page [us], of which it uses the part above its stack pointer. *)
Record forkable (s : kst) (W : Z -> Prop) (l : list block) (ps : list Z) (c f us : Z) : Prop := {
  fa_data : kernel_data s W l ps;
  fa_current : current_process (procs s) = c;
  fa_in : c ∈ ps;
  fa_frame : own_memory W l (span f sizeof_registers);
  fa_stack : field s c user_stack = us /\ us + 4096 < 2 ^ 32 /\ own_memory W l (span us 4096);
  fa_esp : us <= field s f r_user_esp <= us + 4096;
  fa_apart : disjoint_from (span f sizeof_registers) (span us 4096)
}.

Lemma fork_site_ok s s1 W W' l ps b us' c f us :
  forkable s W l ps c f us -> created s s1 W W' l ps b 0 PROCESS_USER us' ->
  fork_site s1 W' (b_addr b + 9) c f
    (next_virtual (pmm s) + KERNEL_STACK_SIZE - sizeof_registers) us us'.
Proof.
  intros [HK Hcur Hin HF (Hus & Hue & HV) He Hap] HC.
  destruct (cr_user _ _ _ _ _ _ _ _ _ _ HC eq_refl) as (Hcu & Hu0 & _ & Hu1 & Hu2 & Hu3).
  assert (subset (span (next_virtual (pmm s) + KERNEL_STACK_SIZE - sizeof_registers) sizeof_registers)
    (span (next_virtual (pmm s)) KERNEL_STACK_SIZE)) as Hrs.
  { intros x. unfold span, KERNEL_STACK_SIZE, sizeof_registers. lia. }
  assert (0 <= us) as Hus0.
  { assert (in_u32 us) as Hu; [|unfold in_u32 in Hu; lia].
    apply (win_u32 _ _ (pl_window _ _ _ (kd_procs _ _ _ _ HK))), HV. unfold span. lia. }
  split.
  - split; [apply (pl_window _ _ _ (kd_procs _ _ _ _ (cr_data _ _ _ _ _ _ _ _ _ _ HC)))| |done|].
    + intros x Hx. by apply (cr_stack _ _ _ _ _ _ _ _ _ _ HC), Hrs.
    + intros x Hx Hr. by apply (proj2 (Hu3 x Hx)), Hrs.
  - by apply (old_quiet s s1 W W' l ps b 0), (created_record s s1 W W' l ps b 0 PROCESS_USER us').
  - by apply (old_quiet s s1 W W' l ps b 0), (pr_in W c), (in_started s W l ps c HK Hin).
  - by apply (old_quiet s s1 W W' l ps b 0), HF.
  - by apply (old_quiet s s1 W W' l ps b 0), HV.
  - apply (sd_regs _ _ _ _ _ _ _ (cr_started _ _ _ _ _ _ _ _ _ _ HC)).
  - split; [done|lia].
  - split; [|lia]. rewrite <- Hus. apply (cr_others _ _ _ _ _ _ _ _ _ _ HC); (done || (right; done)).
  - replace (field s1 f r_user_esp) with (field s f r_user_esp); [done|]. symmetry.
    apply (own_kept s s1 W W' l ps b 0 PROCESS_USER us' _ 4 _ HC HF).
    intros x. unfold span, r_user_esp, sizeof_registers. lia.
Qed.

(** The end of the call: the identifier for the caller, the links and the
    state of the child. *)
Definition publish (c p f : Z) : K Z :=
  id ← get p pid;
  set f r_eax id;;
  set p parent c;;
  set p state PROCESS_READY;;
  get p pid.

(** Writes that spare the heap and the records of the processes. *)
Lemma kernel_data_stores A s s' W l ps :
  kernel_data s W l ps -> stores A s s' -> subset A W -> disjoint_from A (heap_bytes l) ->
  kernel_data s' W l ps /\
  forall q j, q ∈ ps -> 0 <= j < 12 -> field s' q (4 * j) = field s q (4 * j).
Proof.
  intros HK S HA Hd. destruct (st_machine _ _ _ S) as [m Hm].
  destruct (kernel_data_touches A s s' W l ps HK) as [HK' HF]; try (by rewrite Hm); [|done| | |].
  - by apply (stores_touches _ _ _ _ S); [intros x|exact (st_u32 _ _ _ S)].
  - pose proof (hl_blocks _ _ _ (kd_heap _ _ _ _ HK)) as Hok. rewrite Forall_forall in Hok.
    apply Forall_forall. intros b Hb x Hx HAx. apply (Hd x HAx), Exists_exists. exists b.
    split; [done|]. destruct (Hok b Hb). unfold span in *. lia.
  - pose proof (kd_housed _ _ _ _ HK) as HH. rewrite Forall_forall in HH.
    apply Forall_forall. intros q Hq x Hx HAx. by apply (Hd x HAx), (housed_bytes l q); [apply HH|].
  - split; [done|]. intros q j Hq Hj. apply HF; unfold sizeof_process; (done || lia).
Qed.

Lemma publish_ok s W l ps c p f :
  kernel_data s W l ps -> p ∈ ps -> own_memory W l (span f sizeof_registers) ->
  exists s', publish c p f s = Ok (field s p pid) s' /\ kernel_data s' W l ps /\
    procs s' = procs s /\ stores (fun x => span f sizeof_registers x \/ span p sizeof_process x) s s' /\
    (forall k, 0 <= k < 17 -> field s' f (4 * k) = if 4 * k =? r_eax then field s p pid else field s f (4 * k)) /\
    forall q j, q ∈ ps -> 0 <= j < 12 -> field s' q (4 * j) =
      if (q =? p) && (4 * j =? state) then PROCESS_READY
      else if (q =? p) && (4 * j =? parent) then u32 c else field s q (4 * j).
Proof.
  intros HK Hp [Hf Hfh]. pose proof (pl_window _ _ _ (kd_procs _ _ _ _ HK)) as HW.
  pose proof (in_started s W l ps p HK Hp) as Hpo.
  unfold publish. run_with (get_proc_ok s W p pid HW Hpo ltac:(done) ltac:(done)).
  destruct (put_ok s s W _ 4 (f + r_eax) (field s p pid) HW Hf (stores_none _ _ _ HW Hf))
    as (s1 & R1 & S1 & V1 & F1).
  { intros x. unfold span, r_eax, sizeof_registers. lia. }
  destruct (kernel_data_stores _ s s1 W l ps HK S1 Hf Hfh) as [HK1 G1].
  unfold set at 1. unfold store32. run_with R1.
  destruct (kernel_data_set s1 W l ps p 10 parent c HK1 Hp eq_refl ltac:(lia) ltac:(done))
    as (s2 & R2 & HK2 & _ & P2 & S2 & G2). run_with R2.
  destruct (kernel_data_set s2 W l ps p 5 state PROCESS_READY HK2 Hp eq_refl ltac:(lia) ltac:(done))
    as (s3 & R3 & HK3 & _ & P3 & S3 & G3). run_with R3.
  rewrite (get_proc_ok s3 W p pid (pl_window _ _ _ (kd_procs _ _ _ _ HK3)) Hpo) by done.
  assert (forall q j, q ∈ ps -> 0 <= j < 12 -> field s3 q (4 * j) =
      if (q =? p) && (4 * j =? state) then PROCESS_READY
      else if (q =? p) && (4 * j =? parent) then u32 c else field s q (4 * j)) as G.
  { intros q j Hq Hj. rewrite G3 by done. unfold over. case_match; [done|].
    rewrite G2 by done. unfold over. case_match; [done|by apply G1]. }
  assert (field s3 p pid = field s p pid) as Hpid.
  { change pid with (4 * 0). rewrite G by (done || lia). rewrite Z.eqb_refl. done. }
  exists s3. split; [by rewrite Hpid|]. split; [done|]. split.
  { rewrite P3, P2. by destruct (st_machine _ _ _ S1) as [m ->]. }
  pose proof (stores_again _ _ _ _ S2 S3) as S23. split.
  { apply (stores_trans _ _ _ _ _ S1 S23). }
  split; [|done]. intros k Hk.
  assert (subset (span (f + 4 * k) 4) (span f sizeof_registers)) as Hfk
    by (intros x; unfold span, sizeof_registers; lia).
  assert (field s3 f (4 * k) = field s1 f (4 * k)) as ->.
  { apply (stores_rd 4 _ _ _ W _ S23 (pl_window _ _ _ (kd_procs _ _ _ _ HK1)) (pr_in _ _ Hpo)).
    - intros x Hx. by apply Hf, Hfk.
    - intros x Hx Hxp. pose proof (kd_housed _ _ _ _ HK) as HH. rewrite Forall_forall in HH.
      apply (Hfh x); [by apply Hfk|]. by apply (housed_bytes l p); [apply HH|]. }
  destruct (Z.eqb_spec (4 * k) r_eax) as [Hk'|Hk'].
  - rewrite Hk'. etransitivity; [exact V1|]. apply u32_small, rd32_range.
  - apply (F1 4%nat); [intros x Hx; by apply Hf, Hfk|]. unfold r_eax in *. lia.
Qed.

(** [s'] is [s] after [c] has got the child [p], with the stack [us']. *)
Record forked (s s' : kst) (W W' : Z -> Prop) (l l' : list block) (ps frames : list Z)
    (c p f us us' : Z) : Prop := {
  fk_data : kernel_data s' W' l' (ps ++ [p]);
  fk_more : subset W W' /\ subset (heap_bytes l') (heap_bytes l);
  fk_current : current_process (procs s') = c;
  fk_pid : field s' p pid = process_number (procs s);
  fk_ready : field s' p state = PROCESS_READY;
  fk_parent : field s' p parent = c;
  fk_user_stack : field s' p user_stack = us';
  fk_registers : forall k, 0 <= k < 17 ->
    field s' (field s' p regs) (4 * k) = child_registers s f (us' - us) k;
  fk_regs_fresh : subset (span (field s' p regs) sizeof_registers) W' /\
    disjoint_from (span (field s' p regs) sizeof_registers) W;
  fk_frame : forall k, 0 <= k < 17 ->
    field s' f (4 * k) = if 4 * k =? r_eax then process_number (procs s) else field s f (4 * k);
  fk_fresh : forall x, span us' 4096 x -> W' x /\ ~ W x;
  fk_stack : forall x, field s f r_user_esp <= x < us + 4096 ->
    (forall y, y ∈ frames -> ~ span y 4 x) -> rd8 s' (x + (us' - us)) = rd8 s x;
  fk_pointers : forall y, y ∈ frames -> rd32 s' (y + (us' - us)) = rd32 s y + (us' - us);
  fk_others : same_fields_but next s s' ps;
  fk_kept : forall x, W x -> ~ heap_bytes l x -> ~ span f sizeof_registers x -> rd8 s' x = rd8 s x
}.

(** Up to the copy. *)
Lemma fork_copies s W l ps b c f us frames :
  let p := b_addr b + 9 in
  let r := next_virtual (pmm s) + KERNEL_STACK_SIZE - sizeof_registers in
  let l' := Spec.take_at sizeof_process (b_addr b) l in
  forkable s W l ps c f us -> Spec.best_fit sizeof_process l = Some b ->
  (length l < fuel)%nat -> (length ps < fuel)%nat -> in_u16 (process_number (procs s)) ->
  next_virtual (pmm s) + KERNEL_STACK_SIZE + 4096 <= page_limit -> stocked 5 s ->
  frame_chain s (field s f r_user_esp) (us + 4096) (field s f r_ebp) frames ->
  (length frames < fuel)%nat ->
  exists us' s1 s2 W' m, sys_fork f s = publish c p f s2 /\
    created s s1 W W' l ps b 0 PROCESS_USER us' /\ fork_site s1 W' p c f r us us' /\
    filled s1 s2 r us' (child_registers s1 f (us' - us)) m /\
    (forall x, x ∈ frames -> rd32 s2 (x + (us' - us)) = rd32 s x + (us' - us)) /\
    (forall x, field s f r_user_esp <= x < us + 4096 ->
       (forall y, y ∈ frames -> ~ span y 4 x) -> m (x + (us' - us)) = rd8 s x).
Proof.
  intros p r l' HA Hbest Hlen Hlenp Hn Hend Hst Hl Hfl.
  destruct (create_process_ok 0 PROCESS_USER s W l ps b (fa_data _ _ _ _ _ _ _ HA) Hbest Hlen Hlenp Hn Hend Hst)
    as (us' & s1 & W' & R1 & HC).
  pose proof (fork_site_ok _ _ _ _ _ _ _ _ _ _ _ HA HC) as HS. fold p r in HS, R1.
  destruct HA as [HK Hcur Hin HF (Hus & Hue & HV) He Hap].
  assert (forall k, 0 <= k < 17 -> field s1 f (4 * k) = field s f (4 * k)) as Ef.
  { intros k Hk. apply (own_kept _ _ _ _ _ _ _ _ _ _ _ 4 _ HC HF). exact (reg_in f k Hk). }
  assert (field s1 f r_user_esp = field s f r_user_esp) as Ee by exact (Ef 15 ltac:(lia)).
  assert (field s1 f r_ebp = field s f r_ebp) as Eb by exact (Ef 6 ltac:(lia)).
  assert (forall n x, us <= x -> x + Z.of_nat n <= us + 4096 -> rd n s1 x = rd n s x) as Ev.
  { intros n x Hx Hxe. apply (own_kept _ _ _ _ _ _ _ _ _ _ _ n _ HC HV). intros y. unfold span. lia. }
  destruct (copy_frame_ok s1 W' p c f r us us' HS) as (s2 & g & R2 & F2 & Hg).
  destruct (copy_stack_ok s1 s2 W' p c f r us us' g frames HS F2 Hg) as (s3 & m & R3 & F3 & V3 & K3).
  { rewrite Ee, Eb. apply (chain_same s); [|done]. intros x Hx Hxe. apply (Ev 4%nat); lia. }
  { done. }
  rewrite Ee in K3. exists us', s1, s3, W', m. split.
  { unfold sys_fork, get_current. rewrite gets_bind, Hcur. run_with R1.
    assert (p <> 0) as Hp0.
    { destruct (in_started _ _ _ _ p (cr_data _ _ _ _ _ _ _ _ _ _ HC)); [|lia].
      apply elem_of_app. right. by left. }
    rewrite (proj2 (Z.eqb_neq p 0)) by done. run_with R2. by run_with R3. }
  do 3 (split; [done|]). split.
  - intros x Hx. rewrite V3 by done. f_equal. apply (Ev 4%nat); [|];
      destruct (chain_above _ _ _ _ _ _ Hl Hx); lia.
  - intros x Hx Hy. rewrite K3 by done. rewrite <- !rd_1. apply Ev; lia.
Qed.

(** The state in between. *)
Lemma copied_data s s1 s2 W W' l ps b c f us us' g m :
  let p := b_addr b + 9 in
  let r := next_virtual (pmm s) + KERNEL_STACK_SIZE - sizeof_registers in
  let l' := Spec.take_at sizeof_process (b_addr b) l in
  created s s1 W W' l ps b 0 PROCESS_USER us' -> fork_site s1 W' p c f r us us' ->
  filled s1 s2 r us' g m ->
  kernel_data s2 W' l' (ps ++ [p]) /\
  (forall q j, q ∈ ps ++ [p] -> 0 <= j < 12 -> field s2 q (4 * j) = field s1 q (4 * j)) /\
  procs s2 = procs s1 /\
  disjoint_from (fun x => span r sizeof_registers x \/ span us' 4096 x) W.
Proof.
  intros p r l' HC HS HF. pose proof (fi_stores _ _ _ _ _ _ HF) as S.
  assert (disjoint_from (fun x => span r sizeof_registers x \/ span us' 4096 x) W) as Hnew.
  { intros x [Hx|Hx] HWx.
    - by apply (proj1 (proj2 (old_quiet s s1 W W' l ps b 0 us' W HC (fun x H => H))) x).
    - by apply (proj2 (proj2 (old_quiet s s1 W W' l ps b 0 us' W HC (fun x H => H))) x). }
  destruct (kernel_data_stores _ s1 s2 W' l' (ps ++ [p]) (cr_data _ _ _ _ _ _ _ _ _ _ HC) S) as [HK2 G2].
  - apply (filled_in s1), (fs_memory _ _ _ _ _ _ _ _ HS).
  - intros x Hx Hh. apply (Hnew x Hx). apply Exists_exists in Hh as (d & Hd & Hh).
    pose proof (cr_blocks _ _ _ _ _ _ _ _ _ _ HC) as Hok. rewrite Forall_forall in Hok.
    by apply (bo_in _ _ (Hok d Hd)).
  - split; [done|]. split; [done|]. split; [|done]. by destruct (st_machine _ _ _ S) as [mm ->].
Qed.

(** The state in the end, seen from the state before the copy and from the
    state after it. *)
Lemma published_ok s s1 s2 W W' l ps b c f us us' g m :
  let p := b_addr b + 9 in
  let r := next_virtual (pmm s) + KERNEL_STACK_SIZE - sizeof_registers in
  let l' := Spec.take_at sizeof_process (b_addr b) l in
  forkable s W l ps c f us -> created s s1 W W' l ps b 0 PROCESS_USER us' ->
  fork_site s1 W' p c f r us us' -> filled s1 s2 r us' g m ->
  exists s', publish c p f s2 = Ok (process_number (procs s)) s' /\ kernel_data s' W' l' (ps ++ [p]) /\
    procs s' = procs s1 /\
    (forall k, 0 <= k < 17 -> field s' f (4 * k) =
       if 4 * k =? r_eax then process_number (procs s) else field s f (4 * k)) /\
    (forall k, 0 <= k < 12 -> field s' p (4 * k) =
       if 4 * k =? state then PROCESS_READY else if 4 * k =? parent then c else field s1 p (4 * k)) /\
    (forall n a, subset (span a (Z.of_nat n)) (span r sizeof_registers) \/
                 subset (span a (Z.of_nat n)) (span us' 4096) -> rd n s' a = rd n s2 a) /\
    (forall n a A, subset A W -> subset (span a (Z.of_nat n)) A ->
       disjoint_from A (span f sizeof_registers) -> disjoint_from A (span p sizeof_process) ->
       rd n s' a = rd n s1 a).
Proof.
  intros p r l' HA HC HS HF.
  destruct (copied_data _ _ _ _ _ _ _ _ _ _ _ _ _ _ HC HS HF) as (HK2 & G2 & P2 & Hnew).
  destruct HA as [HK _ Hin Hf _ _ _]. pose proof (fs_memory _ _ _ _ _ _ _ _ HS) as HM.
  assert (own_memory W' l' (span f sizeof_registers)) as Hf2.
  { split; [apply (fs_frame _ _ _ _ _ _ _ _ HS)|]. intros x Hx Hh.
    by apply (proj2 Hf x Hx), (cr_bytes _ _ _ _ _ _ _ _ _ _ HC). }
  assert (p ∈ ps ++ [p]) as Hp by (apply elem_of_app; right; by left).
  destruct (publish_ok s2 W' l' (ps ++ [p]) c p f HK2 Hp Hf2) as (s' & R' & HK' & P' & S' & Vf & G).
  pose proof (pl_window _ _ _ (kd_procs _ _ _ _ HK2)) as HW2.
  assert (subset (span p sizeof_process) W) as HpW
    by exact (created_record s s1 W W' l ps b 0 PROCESS_USER us' HC).
  assert (forall n a, subset (span a (Z.of_nat n)) W' ->
    (forall x, span a (Z.of_nat n) x -> ~ span f sizeof_registers x /\ ~ span p sizeof_process x) ->
    rd n s' a = rd n s2 a) as Hlast.
  { intros n a Ha Hd. apply (stores_rd n _ _ _ W' _ S' HW2); [|done|].
    - intros x [Hx|Hx]; [by apply (proj1 Hf2)|by apply (cr_more _ _ _ _ _ _ _ _ _ _ HC), HpW].
    - intros x Hx. destruct (Hd x Hx). tauto. }
  assert (field s2 p pid = process_number (procs s)) as Hpid.
  { change pid with (4 * 0). rewrite G2 by (done || lia). apply (cr_started _ _ _ _ _ _ _ _ _ _ HC). }
  rewrite Hpid in *. exists s'. split; [done|]. split; [done|]. split; [congruence|]. split; [|split; [|split]].
  - intros k Hk. rewrite Vf by done. case_match; [done|].
    transitivity (field s1 f (4 * k)); [|exact (own_kept _ _ _ _ _ _ _ _ _ _ _ 4 _ HC Hf (reg_in f k Hk))].
    apply (quiet_read s1 s2 W' r us' _ _ _ 4 _ HM HF (fs_frame _ _ _ _ _ _ _ _ HS)). exact (reg_in f k Hk).
  - intros k Hk. rewrite G, Z.eqb_refl by done. simpl. case_match; [done|]. case_match; [|by apply G2].
    destruct (in_started s W l ps c HK Hin). apply u32_small. unfold sizeof_process in *. width_lia.
  - intros n a Ha. assert (forall x, span a (Z.of_nat n) x ->
      span r sizeof_registers x \/ span us' 4096 x) as Ha' by (intros x Hx; destruct Ha; [left|right]; auto).
    apply Hlast.
    + intros x Hx. by apply (filled_in s1 W' r us' HM), Ha'.
    + intros x Hx%Ha'. split; intros Hy; apply (Hnew x Hx); [by apply (proj1 Hf)|by apply HpW].
  - intros n a A HA Ha Hdf Hdp. pose proof (old_quiet s s1 W W' l ps b 0 us' A HC HA) as HQ.
    rewrite Hlast; [by apply (quiet_read s1 s2 W' r us' _ _ _ _ A HM HF HQ)| |].
    + intros x Hx. by apply HQ, Ha.
    + intros x Hx. split; intros Hy; [by apply (Hdf x); [apply Ha|]|by apply (Hdp x); [apply Ha|]].
Qed.

Lemma sys_fork_ok s W l ps b c f us frames :
  let p := b_addr b + 9 in
  let l' := Spec.take_at sizeof_process (b_addr b) l in
  forkable s W l ps c f us -> Spec.best_fit sizeof_process l = Some b ->
  (length l < fuel)%nat -> (length ps < fuel)%nat -> in_u16 (process_number (procs s)) ->
  next_virtual (pmm s) + KERNEL_STACK_SIZE + 4096 <= page_limit -> stocked 5 s ->
  frame_chain s (field s f r_user_esp) (us + 4096) (field s f r_ebp) frames ->
  (length frames < fuel)%nat ->
  exists us' s' W', sys_fork f s = Ok (process_number (procs s)) s' /\
    forked s s' W W' l l' ps frames c p f us us'.
Proof.
  intros p l' HA Hbest Hlen Hlenp Hn Hend Hst Hl Hfl.
  destruct (fork_copies s W l ps b c f us frames HA Hbest Hlen Hlenp Hn Hend Hst Hl Hfl)
    as (us' & s1 & s2 & W' & m & R & HC & HS & HF & V & K). fold p l' in R, HC, HS.
  set (r := next_virtual (pmm s) + KERNEL_STACK_SIZE - sizeof_registers) in *.
  destruct (published_ok s s1 s2 W W' l ps b c f us us' _ m HA HC HS HF)
    as (s' & R' & HK' & P' & Vf & G & Hnew & Hold). fold p l' in R', HK', G, Hold. fold r in Hnew.
  destruct HA as [HK Hcur Hin Hf _ He _]. pose proof (fs_memory _ _ _ _ _ _ _ _ HS) as HM.
  pose proof (kd_housed _ _ _ _ HK') as HH. rewrite Forall_forall in HH.
  assert (forall q x, q ∈ ps ++ [p] -> span q sizeof_process x -> heap_bytes l x) as Hheap.
  { intros q x Hq Hx. apply (cr_bytes _ _ _ _ _ _ _ _ _ _ HC), (housed_bytes l' q); [by apply HH|done]. }
  assert (p ∈ ps ++ [p]) as Hp by (apply elem_of_app; right; by left).
  assert (field s' p regs = r) as Hreg by (etransitivity; [exact (G 4 ltac:(lia))|apply HS]).
  exists us', s', W'. split; [by rewrite R, R'|]. split; try done.
  - split; [apply (cr_more _ _ _ _ _ _ _ _ _ _ HC)|apply (cr_bytes _ _ _ _ _ _ _ _ _ _ HC)].
  - rewrite P', (cr_current _ _ _ _ _ _ _ _ _ _ HC). destruct ps; [by apply elem_of_nil in Hin|done].
  - etransitivity; [exact (G 0 ltac:(lia))|]. apply (cr_started _ _ _ _ _ _ _ _ _ _ HC).
  - exact (G 5 ltac:(lia)).
  - exact (G 10 ltac:(lia)).
  - etransitivity; [exact (G 11 ltac:(lia))|]. apply (fs_child_stack _ _ _ _ _ _ _ _ HS).
  - intros k Hk. rewrite Hreg. transitivity (field s2 r (4 * k)).
    { apply (Hnew 4%nat). left. exact (reg_in r k Hk). }
    rewrite (fi_regs _ _ _ _ _ _ HF) by done. unfold child_registers, field.
    assert (forall j, 0 <= j < 17 -> rd32 s1 (f + 4 * j) = rd32 s (f + 4 * j)) as Ef.
    { intros j Hj. apply (own_kept _ _ _ _ _ _ _ _ _ _ _ 4 _ HC Hf). exact (reg_in f j Hj). }
    change r_user_esp with (4 * 15). change r_ebp with (4 * 6). by rewrite !Ef by lia.
  - rewrite Hreg. split; [apply HM|]. intros x Hx HWx.
    by apply (proj1 (proj2 (old_quiet s s1 W W' l ps b 0 us' W HC (fun y H => H))) x).
  - intros x Hx. split; [by apply (cm_stack _ _ _ _ HM)|].
    by apply (cr_user _ _ _ _ _ _ _ _ _ _ HC eq_refl).
  - intros x Hx Hy. rewrite <- (K x Hx Hy). rewrite <- (fi_stack _ _ _ _ _ _ HF) by (unfold span; lia).
    rewrite <- !rd_1. apply Hnew. right. intros y. unfold span. lia.
  - intros y Hy. rewrite <- V by done. destruct (chain_above _ _ _ _ _ _ Hl Hy) as [Hb _].
    apply (Hnew 4%nat). right. intros x. unfold span. lia.
  - intros q o Hq Ho Hoe Hx. rewrite <- (cr_others _ _ _ _ _ _ _ _ _ _ HC q o) by done.
    apply (Hold 4%nat _ (span q sizeof_process)).
    + apply (in_started s W l ps q HK Hq).
    + intros x. unfold span. lia.
    + intros x Hxq Hxf. apply (proj2 Hf x Hxf), (Hheap q); [apply elem_of_app; by left|done].
    + destruct (kd_procs _ _ _ _ HK') as [_ _ _ Hsep]. apply separate_procs_app in Hsep as (_ & _ & Hsep).
      rewrite Forall_forall in Hsep. specialize (Hsep q Hq). apply Forall_cons in Hsep as [Hsep _].
      intros x Hx1 Hx2. unfold apart_procs, span in *. lia.
  - intros x HWx Hh Hxf. rewrite <- (cr_kept _ _ _ _ _ _ _ _ _ _ HC x HWx Hh), <- !rd_1.
    assert (forall y, span x 1 y -> y = x) as Hone by (intros y; unfold span; lia).
    apply (Hold 1%nat x (span x 1)); [|by intros y| |].
    + intros y ->%Hone. done.
    + intros y ->%Hone. exact Hxf.
    + intros y ->%Hone Hy. by apply Hh, (Hheap p).
Qed.

(** C6: [sys_fork] makes a copy of a caller that has the stack [create_process]
    gave it: its stack pointer is in the one page [user_stack], and its saved
    frame pointers, if any, go up in that page.  When a free block holds a
    record and there are address space and five frames for the stacks, the
    child is at the end of the list, ready, with the next identifier and the
    caller as its parent; its
    registers are those of the call with 0 in eax and esp, ebp moved to its own
    stack, a fresh page; the used part of the caller's stack is there byte for
    byte, but for the saved frame pointers, which point into the copy.  The
    caller gets the identifier of the child in eax and keeps its other
    registers, its stack and all memory outside the heap. *)
Theorem sys_fork_copies_caller s W l ps b c f us frames :
  let p := b_addr b + 9 in
  let l' := Spec.take_at sizeof_process (b_addr b) l in
  forkable s W l ps c f us -> Spec.best_fit sizeof_process l = Some b ->
  (length l < fuel)%nat -> (length ps < fuel)%nat -> in_u16 (process_number (procs s)) ->
  next_virtual (pmm s) + KERNEL_STACK_SIZE + 4096 <= page_limit -> stocked 5 s ->
  frame_chain s (field s f r_user_esp) (us + 4096) (field s f r_ebp) frames ->
  (length frames < fuel)%nat ->
  exists us' s' W', sys_fork f s = Ok (process_number (procs s)) s' /\
    forked s s' W W' l l' ps frames c p f us us'.
Proof. apply sys_fork_ok. Qed.

End forking.

(** * A process of the first machine forks *)

Section examples.
Import Process Syscall.
#[local] Existing Instance example_layout.
#[local] Existing Instance example_layout_ok.
#[local] Instance hundred : Fuel := 100%nat.

(** The first process, its record used as the frame of the call. *)
Record first_process (s : kst) (W : Z -> Prop) (l : list block) (b : block) (c r us : Z) : Prop := {
  fp_data : kernel_data s W l [c];
  fp_current : current_process (procs s) = c;
  fp_block : Spec.best_fit sizeof_process l = Some b /\ (length l < fuel)%nat;
  fp_number : process_number (procs s) = 2;
  fp_space : next_virtual (pmm s) + KERNEL_STACK_SIZE + 4096 <= page_limit /\ stocked 5 s;
  fp_frame : own_memory W l (span r sizeof_registers) /\ r < page_limit;
  fp_stack : field s c user_stack = us /\ 0 < us /\ us + 4096 <= page_limit /\ own_memory W l (span us 4096);
  fp_apart : us + 4096 <= r \/ r + sizeof_registers <= us
}.

Lemma first_process_exists : exists s W l b c r us, first_process s W l b c r us.
Proof.
  destruct first_heap as (s & W & p & HK & Hn & Hnv & Hst).
  destruct (create_process_ok 0x1234 PROCESS_USER s W [Spec.fresh p] [] (Spec.fresh p) HK eq_refl)
    as (us & s1 & W1 & R & HC);
    [by apply Nat.ltb_lt|by apply Nat.ltb_lt|rewrite Hn; by split|unfold KERNEL_STACK_SIZE; lia|
     by apply (stocked_le 10)|].
  set (l := Spec.take_at sizeof_process (b_addr (Spec.fresh p)) [Spec.fresh p]) in *.
  set (c := b_addr (Spec.fresh p) + 9). set (r := next_virtual (pmm s) + KERNEL_STACK_SIZE - sizeof_registers).
  destruct (cr_user _ _ _ _ _ _ _ _ _ _ HC eq_refl) as (Hcu & Hu0 & _ & Hu1 & Hu2 & Hu3).
  assert (subset (span r sizeof_registers) (span (next_virtual (pmm s)) KERNEL_STACK_SIZE)) as Hrs.
  { intros x. unfold r, span, KERNEL_STACK_SIZE, sizeof_registers. lia. }
  assert (forall x, heap_bytes l x -> W x) as Hheap.
  { intros x (d & Hd & Hx)%Exists_exists. pose proof (cr_blocks _ _ _ _ _ _ _ _ _ _ HC) as Hok.
    rewrite Forall_forall in Hok. by apply (bo_in _ _ (Hok d Hd)). }
  pose proof (cr_next _ _ _ _ _ _ _ _ _ _ HC) as Hnx.
  exists s1, W1, l, (MkBlock (b_addr (Spec.fresh p) + 9 + 48) (4087 - 48 - 9) false), c, r, us. split.
  - exact (cr_data _ _ _ _ _ _ _ _ _ _ HC).
  - apply (cr_current _ _ _ _ _ _ _ _ _ _ HC).
  - unfold l. simpl. rewrite Z.eqb_refl. split; [done|by apply Nat.ltb_lt].
  - rewrite (cr_number _ _ _ _ _ _ _ _ _ _ HC), Hn. done.
  - split; [unfold KERNEL_STACK_SIZE in *; lia|]. by apply (proj1 (cr_left _ _ _ _ _ _ _ _ _ _ HC) 5).
  - split; [|unfold r, KERNEL_STACK_SIZE, sizeof_registers; lia].
    split; intros x Hx; [by apply (cr_stack _ _ _ _ _ _ _ _ _ _ HC), Hrs|]. intros Hh%Hheap.
    by apply (cr_stack_fresh _ _ _ _ _ _ _ _ _ _ HC x); [apply Hrs|].
  - split; [done|]. split; [done|]. split; [done|].
    split; intros x Hx; [by apply Hu2|]. intros Hh%Hheap. by apply (proj1 (Hu3 x Hx)).
  - destruct (decide (us + 4096 <= r)); [by left|]. destruct (decide (r + sizeof_registers <= us)); [by right|].
    exfalso. apply (proj2 (Hu3 (Z.max us r) ltac:(unfold span, sizeof_registers in *; lia))), Hrs.
    unfold span, sizeof_registers in *. lia.
Qed.

(** It has put one saved frame pointer on its stack. *)
Lemma caller_exists :
  exists s W l ps b c f us, forkable s W l ps c f us /\ Spec.best_fit sizeof_process l = Some b /\
    (length l < fuel)%nat /\ (length ps < fuel)%nat /\ process_number (procs s) = 2 /\
    next_virtual (pmm s) + KERNEL_STACK_SIZE + 4096 <= page_limit /\ stocked 5 s /\
    frame_chain s (field s f r_user_esp) (us + 4096) (field s f r_ebp) [us + 4084] /\
    rd32 s (us + 4084) = us + 4092 /\ field s f r_user_esp = us + 4080 /\ field s f r_ebp = us + 4084 /\
    0 <= f < page_limit.
Proof.
  destruct first_process_exists as (s1 & W1 & l & b & c & r & us &
    [HK1 Hcur [Hb Hl] Hn [Hnv Hst] [Hr Hrl] (Hcu & Hu0 & Hu1 & Hu) Hap]).
  pose proof (pl_window _ _ _ (kd_procs _ _ _ _ HK1)) as HW1.
  set (A := fun x => span r sizeof_registers x \/ span us 4096 x).
  assert (subset A W1) as HA by (intros x [Hx|Hx]; [by apply Hr|by apply Hu]).
  destruct (writes_ok s1 s1 W1 A [(r + r_user_esp, us + 4080); (r + r_ebp, us + 4084); (us + 4084, us + 4092)]
    HW1 HA (stores_none _ _ _ HW1 HA)) as (s2 & _ & S2 & V2 & _).
  { rewrite !Forall_cons, Forall_nil. unfold A, span, r_user_esp, r_ebp, sizeof_registers. simpl.
    split_and!; [intros x Hx..|done]; simpl in *; lia. }
  { unfold sizeof_registers in Hap. simpl. unfold away. rewrite !Forall_cons, !Forall_nil.
    unfold r_user_esp, r_ebp. simpl. lia. }
  rewrite !Forall_cons in V2. destruct V2 as (Ve & Vb & Vv & _). simpl in Ve, Vb, Vv.
  rewrite !u32_small in Ve, Vb, Vv by width_lia.
  destruct (kernel_data_stores A s1 s2 W1 l [c] HK1 S2 HA) as [HK2 G2].
  { intros x [Hx|Hx]; [by apply (proj2 Hr)|by apply (proj2 Hu)]. }
  destruct (st_machine _ _ _ S2) as [mm Hmm].
  assert (pmm s2 = pmm s1 /\ procs s2 = procs s1) as [Em Ep] by (by rewrite Hmm).
  exists s2, W1, l, [c], b, c, r, us. assert (c ∈ [c]) as Hc by by left.
  split; [split; try done|].
  - by rewrite Ep.
  - split; [|split; [lia|done]]. rewrite <- Hcu. exact (G2 c 11 Hc ltac:(lia)).
  - unfold field. rewrite Ve. lia.
  - intros x. unfold span. lia.
  - rewrite Ep, Em. do 2 (split; [done|]). split; [by apply Nat.ltb_lt|]. do 2 (split; [done|]).
    split; [by apply (stocked_pmm _ s1)|]. unfold field. rewrite Ve, Vb.
    split; [simpl; rewrite Vv; split_and!; lia|]. do 3 (split; [done|]). split; [|done].
    destruct (win_u32 _ _ HW1 r); [|done]. apply Hr. unfold span, sizeof_registers. lia.
Qed.

(** The child's copy of the saved pointer points into the child's stack. *)
Lemma sys_fork_copies_caller_witness :
  exists s s' f p us us', sys_fork f s = Ok 2 s' /\ field s' p parent = current_process (procs s) /\
    field s' (field s' p regs) r_eax = 0 /\ field s' f r_eax = 2 /\
    rd32 s (us + 4084) = us + 4092 /\ rd32 s' (us' + 4084) = us' + 4092.
Proof.
  destruct caller_exists as (s & W & l & ps & b & c & f & us & HA & Hb & Hl & Hp & Hn & Hnv & Hst & Hch & Hv & _).
  destruct (sys_fork_copies_caller s W l ps b c f us [us + 4084] HA Hb Hl Hp)
    as (us' & s' & W' & R & HF); [rewrite Hn; by split|done|done|done|by apply Nat.ltb_lt|].
  exists s, s', f, (b_addr b + 9), us, us'. rewrite Hn in R. split; [exact R|].
  destruct HF as [_ _ HC _ _ Hpa _ Hreg _ Hfr _ _ Hpt _ _]. split.
  - rewrite Hpa. symmetry. apply (fa_current _ _ _ _ _ _ _ HA).
  - split; [exact (Hreg 11 ltac:(lia))|]. split; [rewrite <- Hn; exact (Hfr 11 ltac:(lia))|].
    split; [exact Hv|]. specialize (Hpt (us + 4084) ltac:(by left)).
    replace (us' + 4084) with (us + 4084 + (us' - us)) by lia. rewrite Hpt, Hv. lia.
Defined.

End examples.
