(* ===== verification/Exec.v ===== *)
(** [sys_exec] of kernel/syscall.c: the caller goes on in another program. *)

From S2P Require Import Prelude Machine State Mmu Window PageSource Vga MemMap Paging MemLib Heap UserMap Descriptors Devices Process Switch Spawn Elf Syscall.

Section exec.
Import Process Syscall Elf.
Context `{Layout} `{Fuel}.

(** The page of the new stack. *)
Definition stack_page : Z -> Prop := span (USER_STACK_TOP - 4096) 4096.

(** The registers of the frame after the call: only where to go on, the frame
    pointer and the stack pointer differ. *)
Definition entry_registers (s : kst) (f entry k : Z) : Z :=
  if 4 * k =? r_eip then entry
  else if 4 * k =? r_ebp then 0
  else if 4 * k =? r_user_esp then USER_STACK_TOP
  else field s f (4 * k).

(** A store to a register of the frame. *)
Lemma set_register_ok s s0 W f g k v :
  window s0 W -> subset (span f sizeof_registers) W -> stores (span f sizeof_registers) s0 s ->
  (forall j, 0 <= j < 17 -> field s f (4 * j) = g j) -> 0 <= k < 17 ->
  exists s', set f (4 * k) v s = Ok tt s' /\ stores (span f sizeof_registers) s0 s' /\
    forall j, 0 <= j < 17 -> field s' f (4 * j) = if j =? k then u32 v else g j.
Proof.
  intros HW Hf HS HG Hk. assert (forall j, 0 <= j < 17 -> subset (span (f + 4 * j) 4) (span f sizeof_registers))
    as Hin by (intros j Hj x; unfold span, sizeof_registers; lia).
  destruct (put_ok s s0 W _ 4 (f + 4 * k) v HW Hf HS (Hin k Hk)) as (s' & R & S & V & F).
  exists s'. split; [exact R|]. split; [done|]. intros j Hj. destruct (Z.eqb_spec j k) as [->|Hne]; [exact V|].
  rewrite <- HG by done. apply (F 4%nat); [|lia]. intros x Hx. by apply Hf, (Hin j Hj).
Qed.

(** A stack page for the program: a fresh frame behind [USER_STACK_TOP]. *)
Lemma map_stack_ok limit s W n :
  0 < limit < 2 ^ 22 -> userland limit s W -> disjoint_from stack_page W ->
  frames_below (2 + n) (live s) = true ->
  exists phy s1 s', MemMap.allocate 4096 s = Ok phy s1 /\ phy <> 0 /\
    Paging.map_page phy (USER_STACK_TOP - 4096) 7 s1 = Ok tt s' /\ same_but_frames s s' /\
    userland limit s' (fun a => W a \/ stack_page a) /\ frames_below n (live s') = true /\
    forall a, W a -> rd8 s' a = rd8 s a.
Proof.
  intros Hlim HU Hd Hn.
  destruct (take_low_frame limit s W (S n) HU Hn) as (phy & s1 & R1 & M & HU1 & Hn1 & Hl & Ha & He & _ & Hun).
  destruct (map_user_ok limit Hlim s1 W (USER_STACK_TOP - 4096) phy 7 n HU1)
    as (s2 & R2 & G2 & HU2 & Hn2 & V2); try done; try (unfold USER_STACK_TOP; lia).
  { intros pa Hpa. by apply Hun. }
  assert (same_but_frames s s1 /\ mach s1 = mach s) as [G1 Hm] by (by destruct M as [(k & L & ->) _]).
  exists phy, s1, s2. split; [done|]. split; [lia|]. split; [done|]. split; [by transitivity s1|].
  split; [done|]. split; [done|]. intros a Hwa. rewrite V2 by done. unfold rd8. by rewrite Hm.
Qed.

(** The bytes of a segment are on its pages, which were not in use. *)
Lemma segment_sizes s W file seg ph :
  headers_ok s W file seg -> ph ∈ seg -> is_load s ph = true ->
  0 <= filesz_of s ph <= memsz_of s ph.
Proof.
  intros Hok Hph Hld. unfold headers_ok in Hok. rewrite Forall_forall in Hok.
  destruct (Hok ph Hph) as [_ Hl]. destruct (Hl Hld). pose proof (rd32_range s (ph + 16)).
  unfold filesz_of, memsz_of in *. unfold in_u32 in *. lia.
Qed.
Lemma segment_byte s W file seg ph k :
  headers_ok s W file seg -> ph ∈ seg -> is_load s ph = true -> 0 <= k < memsz_of s ph ->
  loaded_pages s seg (vaddr_of s ph + k) /\ ~ W (vaddr_of s ph + k).
Proof.
  intros Hok Hph Hld Hk. unfold headers_ok in Hok. rewrite Forall_forall in Hok.
  destruct (Hok ph Hph) as [_ Hl]. destruct (Hl Hld) as [_ _ He _ _ _ Hfr].
  destruct (pages_of_eq s ph He) as (_ & Hfv & _ & Hend & _).
  assert (pages_span s ph (vaddr_of s ph + k)) as Hin by (unfold pages_span, span; lia).
  split; [apply Exists_exists; by exists ph|]. intros Hw. by apply (Hfr (vaddr_of s ph + k)).
Qed.

(** The end of [sys_exec], once the program is loaded. *)
Definition enter_program (f entry : Z) : K Z :=
  set f r_eip entry;;
  set f r_ebp 0;;
  phy ← MemMap.allocate 4096;
  if phy =? 0 then mret minus_one else
  Paging.map_page phy (USER_STACK_TOP - 4096)
    (Z.lor (Z.lor Paging.PAGE_PRESENT Paging.PAGE_WRITE) Paging.PAGE_USER);;
  set f r_user_esp USER_STACK_TOP;;
  mret 0.

Lemma entry_registers_at s f entry g k :
  0 <= k < 17 -> in_u32 entry -> g k = field s f (4 * k) ->
  (if k =? 15 then u32 USER_STACK_TOP else if k =? 6 then u32 0 else if k =? 12 then u32 entry else g k) =
  entry_registers s f entry k.
Proof.
  intros Hk He ->. unfold entry_registers.
  change r_eip with (4 * 12). change r_ebp with (4 * 6). change r_user_esp with (4 * 15).
  rewrite (u32_small entry) by done.
  destruct (Z.eqb_spec k 15) as [->|H15]; [done|]. rewrite (proj2 (Z.eqb_neq (4 * k) (4 * 15))) by lia.
  destruct (Z.eqb_spec k 6) as [->|H6]; [done|]. rewrite (proj2 (Z.eqb_neq (4 * k) (4 * 6))) by lia.
  destruct (Z.eqb_spec k 12) as [->|H12]; [done|]. by rewrite (proj2 (Z.eqb_neq (4 * k) (4 * 12))) by lia.
Qed.

Lemma enter_program_ok limit s W f entry n :
  0 < limit < 2 ^ 22 -> userland limit s W -> subset (span f sizeof_registers) W ->
  disjoint_from stack_page W -> frames_below (2 + n) (live s) = true -> in_u32 entry ->
  exists s', enter_program f entry s = Ok 0 s' /\ same_but_frames s s' /\
    userland limit s' (fun a => W a \/ stack_page a) /\ frames_below n (live s') = true /\
    (forall k, 0 <= k < 17 -> field s' f (4 * k) = entry_registers s f entry k) /\
    forall a, W a -> ~ span f sizeof_registers a -> rd8 s' a = rd8 s a.
Proof.
  intros Hlim HU Hf Hd Hn He. pose proof (pa_window _ _ _ (us_pages _ _ _ HU)) as HW.
  destruct (set_register_ok s s W f (fun k => field s f (4 * k)) 12 entry HW Hf (stores_none _ _ _ HW Hf))
    as (s2 & R2 & S2 & E2); [done|lia|].
  destruct (set_register_ok s2 s W f _ 6 0 HW Hf S2 E2 ltac:(lia)) as (s3 & R3 & S3 & E3).
  assert (userland limit s3 W) as HU3 by exact (stores_userland limit Hlim _ _ _ _ S3 Hf HU).
  destruct (st_machine _ _ _ S3) as [m3 Hm3].
  assert (same_but_frames s s3 /\ live s3 = live s) as [G3 L3] by (by rewrite Hm3).
  destruct (map_stack_ok limit s3 W n Hlim HU3 Hd) as (phy & s4 & s5 & R4 & Hphy & R5 & G5 & HU5 & Hn5 & V5);
    [by rewrite L3|].
  pose proof (pa_window _ _ _ (us_pages _ _ _ HU5)) as HW5.
  set (W2 := fun a => W a \/ stack_page a) in *.
  assert (subset (span f sizeof_registers) W2) as Hf2 by (intros x Hx; left; by apply Hf).
  assert (forall k, 0 <= k < 17 -> field s5 f (4 * k) = field s3 f (4 * k)) as E5.
  { intros k Hk. apply (rd_ext 4). intros a Ha. apply V5, Hf. unfold span, sizeof_registers in *. lia. }
  destruct (set_register_ok s5 s5 W2 f _ 15 USER_STACK_TOP HW5 Hf2 (stores_none _ _ _ HW5 Hf2) E5 ltac:(lia))
    as (s6 & R6 & S6 & E6). destruct (st_machine _ _ _ S6) as [m6 Hm6].
  exists s6. split.
  { unfold enter_program. change r_eip with (4 * 12). run_with R2. change r_ebp with (4 * 6). run_with R3.
    run_with R4. rewrite (proj2 (Z.eqb_neq phy 0)) by done. change r_user_esp with (4 * 15).
    change (Z.lor _ _) with 7. run_with R5. by run_with R6. }
  split; [transitivity s3; [done|]; transitivity s5; [done|]; by rewrite Hm6|].
  split; [by apply (stores_userland limit Hlim _ _ _ _ S6)|]. split; [by rewrite Hm6|]. split.
  - intros k Hk. rewrite E6, E3 by done. by apply (entry_registers_at s f entry (fun k => field s f (4 * k))).
  - intros a Ha Hna. rewrite (stores_rd8 _ _ _ W2 a S6 HW5 Hf2) by (done || by left).
    rewrite V5 by done. by apply (stores_rd8 _ _ _ W a S3 HW).
Qed.

(** C15: [sys_exec] of an executable file (under the conditions of the loader,
    and with a frame for the stack): the call succeeds, every segment of the
    program is in place, a fresh page ends at USER_STACK_TOP, and the frame
    returns to the entry point with that stack and ebp 0; its other registers
    and all memory in use are as they were. *)
Theorem sys_exec_enters_program limit s W file f n :
  let seg := headers_of file s in
  let entry := rd32 s (file + 24) in
  0 < limit < 2 ^ 22 -> userland limit s W -> readable_header s W file ->
  header_ok s file = true -> rd16 s (file + 16) = ET_EXEC -> entry <> 0 ->
  (Z.to_nat (phnum_of file s) < fuel)%nat ->
  headers_ok s W file seg -> separate_segments s seg ->
  frames_below (frames_for s seg + (2 + n)) (live s) = true ->
  subset (span f sizeof_registers) W ->
  disjoint_from stack_page W -> disjoint_from stack_page (loaded_pages s seg) ->
  exists s', sys_exec file f s = Ok 0 s' /\ same_but_frames s s' /\
    userland limit s' (fun a => W a \/ loaded_pages s seg a \/ stack_page a) /\
    frames_below n (live s') = true /\
    (forall k, 0 <= k < 17 -> field s' f (4 * k) = entry_registers s f entry k) /\
    (forall a, W a -> ~ span f sizeof_registers a -> rd8 s' a = rd8 s a) /\
    forall ph, ph ∈ seg -> is_load s ph = true -> placed s s' file ph.
Proof.
  intros seg entry Hlim HU HR Hhd Hty Hen Hfl Hok Hsep Hn Hf Hd1 Hd2.
  destruct (elf_load_file_ok limit s W file (2 + n) Hlim HU HR Hhd Hty Hfl Hok Hsep Hn)
    as (s1 & R1 & G1 & HU1 & V1 & P1 & Hn1). fold seg entry in R1, HU1, P1.
  destruct (enter_program_ok limit s1 _ f entry n Hlim HU1) as (s6 & R6 & G6 & HU6 & Hn6 & E6 & V6).
  { intros x Hx. left. by apply Hf. }
  { intros a Ha [?|?]; [by apply (Hd1 a)|by apply (Hd2 a)]. }
  { done. }
  { apply rd32_range. }
  exists s6. split.
  { unfold sys_exec. run_with R1. rewrite (proj2 (Z.eqb_neq entry 0)) by done. exact R6. }
  split; [by transitivity s1|]. split.
  { apply (userland_subset limit s6 _ _ HU6). intros a [?|[?|?]]; [left; by left|left; by right|by right]. }
  split; [done|]. split; [|split].
  - intros k Hk. rewrite E6 by done. unfold entry_registers. do 3 (case_match; [done|]).
    apply (rd_ext 4). intros a Ha. apply V1, Hf. unfold span, sizeof_registers in *. lia.
  - intros a Ha Hna. rewrite V6 by (done || by left). by apply V1.
  - intros ph Hph Hld. destruct (P1 ph Hph Hld) as [C1 Z1].
    assert (forall k, 0 <= k < memsz_of s ph -> rd8 s6 (vaddr_of s ph + k) = rd8 s1 (vaddr_of s ph + k)) as V.
    { intros k Hk. destruct (segment_byte s W file seg ph k Hok Hph Hld Hk) as [Hin Hnw].
      apply V6; [by right|]. intros Hfk. by apply Hnw, Hf. }
    pose proof (segment_sizes s W file seg ph Hok Hph Hld).
    split; intros k Hk; rewrite V by lia; [by apply C1|by apply Z1].
Qed.

End exec.

(** * The program of Elf.v is executed

    The frame of the call is in the page of the file, behind the program. *)

Section examples.
Import Process Syscall Elf.
#[local] Existing Instance example_layout.
#[local] Existing Instance example_layout_ok.
#[local] Instance hundred : Fuel := 100%nat.

Lemma sys_exec_enters_program_witness :
  exists s s' f, sys_exec program f s = Ok 0 s' /\ field s' f r_eip = 0x08048000 /\
    field s' f r_user_esp = USER_STACK_TOP /\ rd32 s' 0x08048000 = 0xCAFEBABE.
Proof.
  destruct program_exists as (s & [HU HR Hhd Hty Hen Hf Hh Hok Hld Hn (Ev & Ep & Efp) (Ef & Em) (Eo & Ec)]).
  set (f := program + 2048).
  destruct (sys_exec_enters_program screen_base s _ program f 2 ltac:(unfold screen_base; lia) HU HR Hhd Hty)
    as (s' & R & _ & _ & _ & HR' & _ & HP); [by rewrite Hen|done|by rewrite Hh..| | | |].
  - intros x Hx. right. unfold f, span, sizeof_registers in *. lia.
  - intros x Hx [Hy|Hy]; unfold stack_page, video, span, USER_STACK_TOP, program, Vga.Vga.VGA in *; lia.
  - intros x Hx Hy. rewrite Hh in Hy. apply Exists_cons in Hy as [[_ Hy]|[]%Exists_nil].
    unfold pages_span in Hy. rewrite Efp, Ep in Hy. unfold stack_page, span, USER_STACK_TOP in *. lia.
  - exists s, s', f. split; [exact R|]. split; [rewrite <- Hen; exact (HR' 12 ltac:(lia))|].
    split; [exact (HR' 15 ltac:(lia))|].
    destruct (HP (program + 52)) as [HC _]; [rewrite Hh; by apply list_elem_of_singleton|done|].
    rewrite Ev, Ef, Eo in HC. rewrite <- Ec. apply (rd_copied 4). intros k Hk. by apply HC.
Defined.

End examples.
