(* ===== verification/Launch.v ===== *)
(** [create_elf_process] of kernel/elf.c: a new process and its program.

    It composes [create_process], the loader and the mapping of a stack;
    [kernel_up] is what the three need of each other. *)

From S2P Require Import Prelude Machine State Mmu Window PageSource Vga MemMap Paging MemLib Heap UserMap Descriptors Process Switch Spawn Elf Syscall Fork Exec.

(** * The kernel between two calls *)

Section kernel_up.
Import Process.
Context `{Layout} `{Fuel}.

(** The data of the kernel, the mappings of programs, and a screen that is
    apart from the heap. *)
Record kernel_up (s : kst) (W : Z -> Prop) (l : list block) (ps : list Z) : Prop := {
  ku_data : kernel_data s W l ps;
  ku_programs : userland page_limit s W;
  ku_screen : subset video W;
  ku_screen_apart : disjoint_from video (heap_bytes l);
  ku_cursor : 0 <= cur_i (console s) < 2000
}.

Lemma ku_window s W l ps : kernel_up s W l ps -> window s W.
Proof. intros HU. apply (pl_window _ _ _ (kd_procs _ _ _ _ (ku_data _ _ _ _ HU))). Qed.
Lemma ku_video s W l ps : kernel_up s W l ps -> window s video.
Proof. intros HU. apply (window_subset s W); [by apply (ku_window s W l ps)|apply HU]. Qed.

Lemma headers_in_heap W l b : Forall (block_ok W) l -> b ∈ l -> subset (span (b_addr b) 9) (heap_bytes l).
Proof.
  intros Hok Hb x Hx. rewrite Forall_forall in Hok. destruct (Hok b Hb).
  apply Exists_exists. exists b. split; [done|]. unfold span in *. lia.
Qed.

(** Writes to plain memory. *)
Lemma up_touches A s s' W l ps :
  kernel_up s W l ps -> touches A s s' -> heap s' = heap s -> pmm s' = pmm s -> procs s' = procs s ->
  0 <= cur_i (console s') < 2000 -> subset A W -> disjoint_from A (heap_bytes l) ->
  kernel_up s' W l ps /\
  (forall q o, q ∈ ps -> 0 <= o -> o + 4 <= sizeof_process -> field s' q o = field s q o) /\
  forall x, W x -> ~ A x -> rd8 s' x = rd8 s x.
Proof.
  intros HU HT Hh Hm Hp Hc HA Hd. pose proof HU as [HK HUs HV HVd _].
  pose proof (hl_blocks _ _ _ (kd_heap _ _ _ _ HK)) as Hok.
  pose proof (kd_housed _ _ _ _ HK) as HH. rewrite Forall_forall in HH.
  destruct (kernel_data_touches A s s' W l ps HK HT Hh Hm Hp HA) as [HK' HF].
  { apply Forall_forall. intros b Hb x Hx Ha. apply (Hd x Ha). by apply (headers_in_heap W l b). }
  { apply Forall_forall. intros q Hq x Hx Ha. apply (Hd x Ha), (housed_bytes l q); [by apply HH|done]. }
  split; [|split; [done|]].
  - split; try done. apply (userland_undisturbed page_limit ltac:(lia) s s' W W HUs).
    + apply (hl_inv _ _ _ (kd_heap _ _ _ _ HK')).
    + by apply (touches_undisturbed _ A).
  - intros x Hx Hax. rewrite <- !rd_1.
    apply (touches_kept _ _ _ _ (ku_window s W l ps HU) HT HA 1%nat);
      intros y Hy; (replace y with x by (unfold span in Hy; lia)); done.
Qed.

Lemma up_drawn s s' W l ps :
  kernel_up s W l ps -> drawn s s' ->
  kernel_up s' W l ps /\ live s' = live s /\
  (forall q o, q ∈ ps -> 0 <= o -> o + 4 <= sizeof_process -> field s' q o = field s q o) /\
  forall x, W x -> ~ video x -> rd8 s' x = rd8 s x.
Proof.
  intros HU [(m & c & E) HT Hc]. destruct (up_touches video s s' W l ps HU HT) as (HU' & HF & HR);
    try done; try (by rewrite E); [apply HU|apply HU|]. split; [done|]. split; [by rewrite E|done].
Qed.

Lemma up_stores A s s' W l ps :
  kernel_up s W l ps -> stores A s s' -> subset A W -> disjoint_from A (heap_bytes l) ->
  kernel_up s' W l ps /\ live s' = live s /\
  (forall q o, q ∈ ps -> 0 <= o -> o + 4 <= sizeof_process -> field s' q o = field s q o) /\
  forall x, W x -> ~ A x -> rd8 s' x = rd8 s x.
Proof.
  intros HU HS HA Hd. destruct (st_machine _ _ _ HS) as [m E].
  destruct (up_touches A s s' W l ps HU) as (HU' & HF & HR); try done; try (by rewrite E).
  - by apply (stores_touches _ _ _ _ HS); [intros x|exact (st_u32 _ _ _ HS)].
  - rewrite E. apply HU.
  - split; [done|]. split; [by rewrite E|done].
Qed.

Lemma up_ext s W W' l ps : (forall x, W x <-> W' x) -> kernel_up s W l ps -> kernel_up s W' l ps.
Proof.
  intros E [HK HUs HV HVd Hc].
  assert (userland page_limit s W') as HU' by (apply (userland_subset _ s W); [done|intros x Hx; by apply E]).
  destruct (kernel_data_grow s s W W' l ps HK (us_pages _ _ _ HU')) as [HK' _]; try done;
    [intros x Hx; by apply E|]. split; try done. intros x Hx. by apply E, HV.
Qed.

(** More memory in use, nothing written to what was. *)
Lemma up_grow s s' W W' l ps :
  kernel_up s W l ps -> userland page_limit s' W' -> same_globals s s' -> subset W W' ->
  (forall a, W a -> rd8 s' a = rd8 s a) ->
  kernel_up s' W' l ps /\
  forall q o, q ∈ ps -> 0 <= o -> o + 4 <= sizeof_process -> field s' q o = field s q o.
Proof.
  intros [HK HUs HV HVd Hc] HU' (Hh & Hp & Hcs & _) HWW Hrd.
  destruct (kernel_data_grow s s' W W' l ps HK (us_pages _ _ _ HU') HWW Hh Hp Hrd) as [HK' HF].
  split; [|done]. split; try done; [intros x Hx; by apply HWW, HV|by rewrite Hcs].
Qed.

Lemma up_created s s' W W' l ps b entry mode us :
  kernel_up s W l ps -> created s s' W W' l ps b entry mode us ->
  kernel_up s' W' (Spec.take_at sizeof_process (b_addr b) l) (ps ++ [b_addr b + 9]).
Proof.
  intros [HK HUs HV HVd Hc] HC. pose proof (cr_data _ _ _ _ _ _ _ _ _ _ HC) as HK'.
  destruct (cr_spared _ _ _ _ _ _ _ _ _ _ HC) as (Hun & Ecs & _). split; [done| | | |by rewrite Ecs].
  - apply (userland_undisturbed page_limit ltac:(lia) s s' W W' HUs); [|done].
    apply (hl_inv _ _ _ (kd_heap _ _ _ _ HK')).
  - intros x Hx. by apply (cr_more _ _ _ _ _ _ _ _ _ _ HC), HV.
  - intros x Hx Hb. apply (HVd x Hx). by apply (cr_bytes _ _ _ _ _ _ _ _ _ _ HC).
Qed.

End kernel_up.

(** * The first allocation *)

Section first.
Import Process.
Context `{Layout} `{Fuel}.

(** The first allocation opens the heap; from there on it is the same whether
    the heap was empty. *)
Record opened (s s1 : kst) (W : Z -> Prop) (p : Z) : Prop := {
  op_up : kernel_up s1 (with_page W p) [Spec.fresh p] [];
  op_same : forall size, 0 < size <= 4096 -> Heap.kmalloc size 3 s = Heap.kmalloc size 3 s1;
  op_spared : spared s s1;
  op_procs : procs s1 = procs s;
  op_left : frames_left 1 s s1;
  op_next : next_virtual (pmm s1) <= next_virtual (pmm s) + 4096;
  op_fresh : disjoint_from (span p 4096) W;
  op_low : p + 4096 <= page_limit;
  op_kept : forall x, W x -> rd8 s1 x = rd8 s x
}.

Lemma first_block s W :
  kernel_up s W [] [] -> next_virtual (pmm s) + 4096 <= page_limit -> stocked 1 s ->
  exists p s1, opened s s1 W p.
Proof.
  intros HU Hnv Hst. pose proof HU as [[HL HP _] HUs HV _ Hc].
  pose proof (hl_inv _ _ _ HL) as Hi.
  destruct (allocate_page_ok page_limit ltac:(lia) 3 s W Hi)
    as [(Hno & _)|(p & s1 & R & HP1 & HT & Hp & Hpa & Hpl & _ & Hd & Hrd & Hnv1 & f & s2 & R2 & Hl & _)];
    [by right|right; by split|done|].
  assert (frames_left 1 s s1) as Hleft.
  { destruct (take_frame_ok _ s W Hi) as [[R0 Hno]|(f' & s'' & Rf & _ & _ & _ & _ & _ & _ & _ & HF)];
      [by destruct Hno|]. rewrite R2 in Rf. injection Rf as <- <-.
    apply (frames_left_add 1 0 _ s s2); try done. by apply frames_left_live. }
  pose proof HT as [(_ & Ep & Ecs & _) _].
  destruct (first_page_ok s W 3 p s1 HL R) as (s3 & R3 & HL3 & (m & E3) & K3 & T3).
  { apply (got_page_ok s W 3); [exact Hi|by right|right; by split|done|lia]. }
  assert (spared s s3) as HS.
  { transitivity s1; [by apply page_taken_spared|]. split; [|by rewrite E3].
    apply (touches_undisturbed _ _ _ _ T3). by rewrite E3. }
  destruct (procs_list_grow s s3 W (with_page W p) [] HP) as [HP3 _];
    [apply (heap_window _ _ _ HL3)|by intros x; left|by rewrite E3|by intros q x ?%elem_of_nil|].
  exists p, s3. split; try done.
  - split.
    + split; [exact HL3|exact HP3|constructor].
    + apply (userland_undisturbed page_limit ltac:(lia) s s3 W _ HUs); [exact (hl_inv _ _ _ HL3)|apply HS].
    + intros x Hx. left. by apply HV.
    + intros x Hx (b & ->%list_elem_of_singleton & Hb)%Exists_exists. apply (Hd x); [exact Hb|by apply HV].
    + rewrite E3. simpl. by rewrite Ecs.
  - intros size Hsize. unfold Heap.kmalloc.
    rewrite (proj2 (orb_false_iff (4096 <? size) (size =? 0))) by lia.
    change (Heap.default_flag 3) with 3. run_with R3.
    assert (Heap.first_page 3 s3 = Ok tt s3) as R4; [|by run_with R4].
    unfold Heap.first_page, Heap.get_heap_head. rewrite gets_bind, E3. simpl.
    by rewrite (proj2 (Z.eqb_neq p 0)) by lia.
  - by rewrite E3.
  - apply (frames_left_add 1 0 _ s s1); try done. apply frames_left_pmm; [done|]. by rewrite E3.
  - by rewrite E3.
Qed.

Lemma create_process_opened s s1 W p entry mode :
  opened s s1 W p -> create_process entry mode s = create_process entry mode s1.
Proof.
  intros HO. unfold create_process. unfold mbind, K_bind at 1 3.
  by rewrite (op_same _ _ _ _ HO) by (by split).
Qed.

End first.

(** * A file that can be loaded *)

Section program.
Import Elf.
Context `{Layout} `{Fuel}.

(** An executable in the memory [P]. *)
Record program_at (s : kst) (P : Z -> Prop) (file : Z) : Prop := {
  pt_header : subset (span file 52) P;
  pt_address : 0 < file;
  pt_accepted : header_ok s file = true;
  pt_type : rd16 s (file + 16) = ET_EXEC;
  pt_count : (Z.to_nat (phnum_of file s) < fuel)%nat;
  pt_segments : headers_ok s P file (headers_of file s);
  pt_separate : separate_segments s (headers_of file s)
}.

(** What is where the program says. *)
Definition in_place (s s' : kst) (file : Z) : Prop :=
  forall ph, ph ∈ headers_of file s -> is_load s ph = true -> placed s s' file ph.

Section kept.
Context (s s' : kst) (P : Z -> Prop) (file : Z).
Context (HP : program_at s P file) (V : forall a, P a -> rd8 s' a = rd8 s a).

Lemma header_byte k : 0 <= k < 52 -> rd8 s' (file + k) = rd8 s (file + k).
Proof using HP V. intros Hk. apply V, (pt_header _ _ _ HP). unfold span. lia. Qed.
Lemma header_word n k : 0 <= k -> k + Z.of_nat n <= 52 -> rd n s' (file + k) = rd n s (file + k).
Proof using HP V.
  intros Hk Hn. apply rd_ext. intros a Ha. apply V, (pt_header _ _ _ HP). unfold span in *. lia.
Qed.
Lemma headers_kept : headers_of file s' = headers_of file s.
Proof using HP V.
  unfold headers_of, phdr_of, phsize_of, phnum_of, rd32, rd16.
  by rewrite !header_word by (done || lia).
Qed.
Lemma entry_kept : rd32 s' (file + 24) = rd32 s (file + 24).
Proof using HP V. by apply (header_word 4). Qed.

Lemma segment_kept ph : ph ∈ headers_of file s ->
  is_load s' ph = is_load s ph /\ pages_of s' ph = pages_of s ph /\ pages_span s' ph = pages_span s ph.
Proof using HP V.
  intros Hph. pose proof (pt_segments _ _ _ HP) as Hok. unfold headers_ok in Hok.
  rewrite Forall_forall in Hok. apply (pages_kept s s' P ph); [exact (proj1 (Hok ph Hph))|exact V].
Qed.

Lemma loaded_pages_kept x : loaded_pages s' (headers_of file s) x <-> loaded_pages s (headers_of file s) x.
Proof using HP V.
  unfold loaded_pages. rewrite !Exists_exists.
  split; intros (ph & Hph & Hx); exists ph; (split; [done|]);
    destruct (segment_kept ph Hph) as (E1 & _ & E2); by rewrite ?E1, ?E2 in *.
Qed.

Lemma frames_for_kept : frames_for s' (headers_of file s) = frames_for s (headers_of file s).
Proof using HP V.
  assert (forall l, (forall ph, ph ∈ l -> ph ∈ headers_of file s) -> frames_for s' l = frames_for s l) as Hl.
  { intros l. induction l as [|ph l IH]; intros Hin; simpl; [done|].
    destruct (segment_kept ph ltac:(apply Hin; by left)) as (-> & -> & _).
    rewrite IH; [done|]. intros q Hq. apply Hin. by right. }
  by apply Hl.
Qed.

Lemma separate_kept : separate_segments s' (headers_of file s).
Proof using HP V.
  assert (forall l, (forall ph, ph ∈ l -> ph ∈ headers_of file s) ->
    separate_segments s l -> separate_segments s' l) as Hl.
  { intros l. induction l as [|ph l IH]; intros Hin; simpl; [done|]. intros [Hs1 Hs2].
    destruct (segment_kept ph ltac:(apply Hin; by left)) as (E1 & _ & E2).
    split; [|apply IH; [intros q Hq; apply Hin; by right|done]]. rewrite E1, E2. intros Hld.
    specialize (Hs1 Hld). rewrite Forall_forall in Hs1 |- *. intros q Hq.
    destruct (segment_kept q ltac:(apply Hin; by right)) as (-> & _ & ->). by apply Hs1. }
  apply Hl; [done|apply HP].
Qed.

(** The file seen from a later state, in more memory. *)
Lemma program_kept W :
  subset P W -> disjoint_from (loaded_pages s (headers_of file s)) W -> program_at s' W file.
Proof using HP V.
  intros HPW Hd. pose proof HP as [Hh Ha Hac Ht Hc Hseg Hsep].
  split; rewrite ?headers_kept; try done.
  - intros x Hx. by apply HPW, Hh.
  - rewrite <- Hac. unfold header_ok, magic_ok, rd16. rewrite !header_word by (done || lia).
    rewrite !header_byte by lia. pose proof (header_byte 0 ltac:(lia)) as Eb.
    rewrite Z.add_0_r in Eb. by rewrite Eb.
  - rewrite <- Ht. by apply (header_word 2).
  - unfold phnum_of, rd16. by rewrite header_word.
  - unfold headers_ok in *. rewrite Forall_forall in Hseg |- *. intros ph Hph.
    destruct (Hseg ph Hph) as [H32 Hl]. split; [intros x Hx; by apply HPW, H32|].
    destruct (segment_kept ph Hph) as (E1 & _). rewrite E1. intros Hld.
    apply (loadable_kept s s' P); [by apply Hl|done|done|]. intros x Hx.
    apply Hd, Exists_exists. by exists ph.
  - apply separate_kept.
Qed.

Lemma in_place_kept t : in_place s' t file -> in_place s t file.
Proof using HP V.
  intros HI ph Hph Hld. pose proof (pt_segments _ _ _ HP) as Hok. unfold headers_ok in Hok.
  rewrite Forall_forall in Hok. destruct (Hok ph Hph) as [H32 Hl].
  destruct (header_kept s s' P ph H32 V) as (_ & E2 & E3 & E4 & E5).
  destruct (segment_kept ph Hph) as (E1 & _).
  destruct (HI ph) as [C Z0]; [by rewrite headers_kept|by rewrite E1|].
  rewrite E2, E4, E5 in *. rewrite E3 in C. split; [|done]. intros k Hk. rewrite C by done.
  apply V, (ld_contents _ _ _ _ (Hl Hld)). unfold span. lia.
Qed.

End kept.

Lemma program_readable s P W file :
  program_at s P file -> subset P W -> window s W -> window s video ->
  0 <= cur_i (console s) < 2000 -> readable_header s W file.
Proof. intros [Hh Ha _ _ _ _ _] HPW HW HV Hc. split; try done. intros x Hx. by apply HPW, Hh. Qed.

End program.

(** * The process *)

Section launching.
Import Process Elf.
Context `{Layout} `{Fuel}.

Lemma loaded_high s P file x :
  program_at s P file -> loaded_pages s (headers_of file s) x -> 2 ^ 22 <= x.
Proof.
  intros [_ _ _ _ _ Hok _] (ph & Hph & Hld & Hx)%Exists_exists. unfold headers_ok in Hok.
  rewrite Forall_forall in Hok. destruct (Hok ph Hph) as [_ Hl].
  destruct (Hl Hld) as [_ Hu He _ _ _ _]. unfold pages_span, first_page_of, span in Hx.
  pose proof (rd32_range s (ph + 8)) as Hv. fold (vaddr_of s ph) in Hv.
  rewrite page_base_eq in Hx by done. lia.
Qed.

(** The loader, in the kernel. *)
Lemma up_loads s W l ps file n :
  let seg := headers_of file s in
  kernel_up s W l ps -> program_at s W file ->
  frames_below (frames_for s seg + n) (live s) = true ->
  exists s', elf_load_file file s = Ok (rd32 s (file + 24)) s' /\
    kernel_up s' (fun a => W a \/ loaded_pages s seg a) l ps /\ same_but_frames s s' /\
    (forall q o, q ∈ ps -> 0 <= o -> o + 4 <= sizeof_process -> field s' q o = field s q o) /\
    (forall a, W a -> rd8 s' a = rd8 s a) /\ in_place s s' file /\
    frames_below n (live s') = true.
Proof.
  intros seg HU HP Hn. pose proof HP as [Hh Ha Hac Ht Hc Hok Hsep].
  assert (readable_header s W file) as HR.
  { apply (program_readable s W W); [done|by intros x|by apply (ku_window s W l ps)|
      by apply (ku_video s W l ps)|apply HU]. }
  destruct (elf_load_file_ok page_limit s W file n ltac:(lia) (ku_programs _ _ _ _ HU) HR Hac Ht Hc Hok Hsep Hn)
    as (s' & R & G & HU' & V & I & Hn'). fold seg in HU', I.
  destruct (up_grow s s' W (fun a => W a \/ loaded_pages s seg a) l ps HU HU' (proj1 G))
    as [HK HF]; [by intros x; left|done|]. by exists s'.
Qed.

(** The message of the loader. *)
Definition announce (entry : Z) : K unit :=
  if negb (entry =? 0) then
    Vga.print_string_at ("ELF loaded successfully" ++ NL)%string;;
    Vga.print_hex_at entry
  else Vga.print_string_at ("ELF loading FAILED" ++ NL)%string.

Lemma announce_ok entry s :
  0 <= entry -> window s video -> 0 <= cur_i (console s) < 2000 ->
  exists s', announce entry s = Ok tt s' /\ drawn s s'.
Proof.
  intros He HV Hc. unfold announce. destruct (negb (entry =? 0)).
  - destruct (print_string_at_ok ("ELF loaded successfully" ++ NL) s eq_refl HV Hc) as (s1 & R1 & D1).
    destruct (print_hex_at_ok entry s1 He (drawn_window _ _ _ D1 HV) (dr_cursor _ _ D1)) as (s2 & R2 & D2).
    exists s2. split; [by run_with R1|by apply (drawn_trans _ s1)].
  - by apply print_string_at_ok.
Qed.

(** One register of a process that does not run. *)
Lemma set_saved_ok s W l ps p rp g k v :
  kernel_up s W l ps -> p ∈ ps -> field s p regs = rp ->
  subset (span rp sizeof_registers) W -> disjoint_from (span rp sizeof_registers) (heap_bytes l) ->
  (forall j, 0 <= j < 17 -> field s rp (4 * j) = g j) -> 0 <= k < 17 ->
  exists s', (r ← Process.get p regs; Process.set r (4 * k) v) s = Ok tt s' /\
    kernel_up s' W l ps /\ (exists m, s' = set_mach (fun _ => m) s) /\
    (forall q o, q ∈ ps -> 0 <= o -> o + 4 <= sizeof_process -> field s' q o = field s q o) /\
    (forall j, 0 <= j < 17 -> field s' rp (4 * j) = if j =? k then u32 v else g j) /\
    forall x, W x -> ~ span rp sizeof_registers x -> rd8 s' x = rd8 s x.
Proof.
  intros HU Hp Hr Hin Hd Hg Hk. pose proof (ku_window s W l ps HU) as HW.
  pose proof (kd_procs _ _ _ _ (ku_data _ _ _ _ HU)) as HL.
  run_with (get_proc_ok s W p regs HW (in_proc_ok s W ps p HL Hp) ltac:(done) ltac:(done)). rewrite Hr.
  destruct (set_register_ok s s W rp g k v HW Hin (stores_none _ _ _ HW Hin) Hg Hk) as (s' & R & S & E).
  destruct (up_stores _ s s' W l ps HU S Hin Hd) as (HU' & _ & HF & HR).
  exists s'. split; [exact R|]. split; [done|]. split; [exact (st_machine _ _ _ S)|by split_and!].
Qed.

(** A stack for the program. *)
Lemma up_stack s W l ps n :
  kernel_up s W l ps -> disjoint_from stack_page W -> frames_below (2 + n) (live s) = true ->
  exists s', (phy ← MemMap.allocate 4096;
      Paging.map_page phy (USER_STACK_TOP - 4096)
        (Z.lor (Z.lor Paging.PAGE_PRESENT Paging.PAGE_WRITE) Paging.PAGE_USER)) s = Ok tt s' /\
    kernel_up s' (fun a => W a \/ stack_page a) l ps /\ same_but_frames s s' /\
    (forall q o, q ∈ ps -> 0 <= o -> o + 4 <= sizeof_process -> field s' q o = field s q o) /\
    (forall a, W a -> rd8 s' a = rd8 s a) /\ frames_below n (live s') = true.
Proof.
  intros HU Hd Hn.
  destruct (map_stack_ok page_limit s W n ltac:(lia) (ku_programs _ _ _ _ HU) Hd Hn)
    as (phy & s1 & s' & R1 & _ & R2 & G & HU' & Hn' & V).
  destruct (up_grow s s' W (fun a => W a \/ stack_page a) l ps HU HU' (proj1 G)) as [HK HF];
    [by intros x; left|done|].
  exists s'. split; [by run_with R1|by split_and!].
Qed.


(** The screen and the frames in use may differ. *)
Definition same_but_screen (s s' : kst) : Prop :=
  heap s' = heap s /\ procs s' = procs s /\ keys s' = keys s /\ descs s' = descs s /\
  ticks s' = ticks s /\ next_virtual (pmm s') = next_virtual (pmm s).
#[global] Instance same_but_screen_preorder : PreOrder same_but_screen.
Proof.
  split; [by intros s|]. unfold same_but_screen. intros s s1 s2 E1 E2. intuition congruence.
Qed.

Lemma drawn_same s s' : drawn s s' -> same_but_screen s s'.
Proof. by intros [(m & c & ->) _ _]. Qed.
Lemma frames_same_screen s s' : same_but_frames s s' -> same_but_screen s s'.
Proof. intros ((? & ? & _ & ? & ? & ?) & ? & _). by split_and!. Qed.
Lemma machine_same s s' : (exists m, s' = set_mach (fun _ => m) s) -> same_but_screen s s'.
Proof. by intros [m ->]. Qed.

(** The program stays in place while its pages are not written. *)
Lemma in_place_later s P t t' file :
  program_at s P file -> in_place s t file ->
  (forall x, loaded_pages s (headers_of file s) x -> rd8 t' x = rd8 t x) -> in_place s t' file.
Proof.
  intros HP HI V ph Hph Hld. destruct (HI ph Hph Hld) as [C Z0]. pose proof (pt_segments _ _ _ HP) as Hok.
  pose proof (segment_sizes s P file _ ph Hok Hph Hld).
  assert (forall k, 0 <= k < memsz_of s ph -> rd8 t' (vaddr_of s ph + k) = rd8 t (vaddr_of s ph + k)) as E.
  { intros k Hk. apply V. by apply (segment_byte s P file _ ph k Hok Hph Hld). }
  split; intros k Hk; rewrite E by lia; [by apply C|by apply Z0].
Qed.

(** Where the code fills in the program: all that matters of the new process. *)
Record fillable (s : kst) (W : Z -> Prop) (l : list block) (ps : list Z) (p rp file : Z) : Prop := {
  fi_up : kernel_up s W l ps;
  fi_in : p ∈ ps;
  fi_regs : field s p regs = rp;
  fi_frame : subset (span rp sizeof_registers) W;
  fi_heap : disjoint_from (span rp sizeof_registers) (heap_bytes l);
  fi_screen : disjoint_from (span rp sizeof_registers) video;
  fi_program : program_at s W file;
  fi_stack : disjoint_from stack_page W;
  fi_apart : disjoint_from stack_page (loaded_pages s (headers_of file s))
}.

(** What the end of [create_elf_process] leaves. *)
Record filled (s s' : kst) (W : Z -> Prop) (l : list block) (ps : list Z) (rp file : Z) (n : nat) : Prop := {
  fd_up : kernel_up s' (fun a => (W a \/ loaded_pages s (headers_of file s) a) \/ stack_page a) l ps;
  fd_same : same_but_screen s s';
  fd_fields : forall q o, q ∈ ps -> 0 <= o -> o + 4 <= sizeof_process -> field s' q o = field s q o;
  fd_registers : forall k, 0 <= k < 17 -> field s' rp (4 * k) =
    if k =? 15 then USER_STACK_TOP else if k =? 12 then rd32 s (file + 24) else field s rp (4 * k);
  fd_program : in_place s s' file;
  fd_frames : frames_below n (live s') = true;
  fd_kept : forall x, W x -> ~ span rp sizeof_registers x -> ~ video x -> rd8 s' x = rd8 s x
}.

Definition fill_in (p file : Z) : K Z :=
  entry ← elf_load_file file;
  announce entry;;
  (r ← Process.get p regs; Process.set r (4 * 12) entry);;
  (phy ← MemMap.allocate 4096;
   Paging.map_page phy (USER_STACK_TOP - 4096)
     (Z.lor (Z.lor Paging.PAGE_PRESENT Paging.PAGE_WRITE) Paging.PAGE_USER));;
  (r ← Process.get p regs; Process.set r (4 * 15) USER_STACK_TOP);;
  mret p.

Lemma create_elf_process_fill file s :
  create_elf_process file s =
  (p ← create_process 0 PROCESS_USER;
   if p =? 0 then Vga.print_string_at "process creation faild"%string;; mret 0
   else fill_in p file) s.
Proof.
  unfold create_elf_process, fill_in. apply bind_ext; intros p s1. destruct (p =? 0); [done|].
  apply bind_ext; intros entry s2. apply bind_ext; intros _ s3.
  rewrite bind_assoc. apply bind_ext; intros r s4. apply bind_ext; intros _ s5.
  rewrite bind_assoc. apply bind_ext; intros phy s6. apply bind_ext; intros _ s7.
  by rewrite bind_assoc.
Qed.


(** After the program is loaded and announced: the registers and the stack. *)
Lemma fill_registers s W l ps p rp entry n g :
  kernel_up s W l ps -> p ∈ ps -> field s p regs = rp ->
  subset (span rp sizeof_registers) W -> disjoint_from (span rp sizeof_registers) (heap_bytes l) ->
  disjoint_from stack_page W -> frames_below (2 + n) (live s) = true ->
  (forall k, 0 <= k < 17 -> field s rp (4 * k) = g k) -> in_u32 entry ->
  exists s', ((r ← Process.get p regs; Process.set r (4 * 12) entry);;
      (phy ← MemMap.allocate 4096;
       Paging.map_page phy (USER_STACK_TOP - 4096)
         (Z.lor (Z.lor Paging.PAGE_PRESENT Paging.PAGE_WRITE) Paging.PAGE_USER));;
      (r ← Process.get p regs; Process.set r (4 * 15) USER_STACK_TOP);;
      mret p) s = Ok p s' /\
    kernel_up s' (fun a => W a \/ stack_page a) l ps /\ same_but_screen s s' /\
    (forall q o, q ∈ ps -> 0 <= o -> o + 4 <= sizeof_process -> field s' q o = field s q o) /\
    (forall k, 0 <= k < 17 -> field s' rp (4 * k) =
       if k =? 15 then USER_STACK_TOP else if k =? 12 then entry else g k) /\
    (forall x, W x -> ~ span rp sizeof_registers x -> rd8 s' x = rd8 s x) /\
    frames_below n (live s') = true.
Proof.
  intros HU Hp Hr Hin Hd Hst Hn Hg Hen.
  destruct (set_saved_ok s W l ps p rp g 12 entry HU Hp Hr Hin Hd Hg ltac:(lia))
    as (s1 & R1 & HU1 & M1 & F1 & G1 & V1).
  destruct (up_stack s1 W l ps n HU1 Hst) as (s2 & R2 & HU2 & M2 & F2 & V2 & Hn2).
  { destruct M1 as [m ->]. exact Hn. }
  assert (field s2 p regs = rp) as Hr2 by (by rewrite F2, F1).
  assert (forall k, 0 <= k < 17 -> field s2 rp (4 * k) = if k =? 12 then u32 entry else g k) as G2.
  { intros k Hk. rewrite <- G1 by done. apply (rd_ext 4). intros a Ha. apply V2, Hin.
    unfold span, sizeof_registers in *. lia. }
  assert (subset (span rp sizeof_registers) (fun a => W a \/ stack_page a)) as Hin2
    by (intros x Hx; left; by apply Hin).
  destruct (set_saved_ok s2 _ l ps p rp _ 15 USER_STACK_TOP HU2 Hp Hr2 Hin2 Hd G2 ltac:(lia))
    as (s3 & R3 & HU3 & M3 & F3 & G3 & V3).
  exists s3. split; [run_with R1; run_with R2; by run_with R3|]. split; [done|]. split.
  { transitivity s1; [by apply machine_same|]. transitivity s2; [by apply frames_same_screen|].
    by apply machine_same. }
  split; [intros q o Hq Ho He; by rewrite F3, F2, F1|]. split; [|split].
  - intros k Hk. rewrite G3 by done. by rewrite (u32_small entry).
  - intros x Hx Hnx. rewrite V3, V2, V1; (done || by left).
  - destruct M3 as [m ->]. exact Hn2.
Qed.

Lemma fill_in_ok s W l ps p rp file n :
  fillable s W l ps p rp file ->
  frames_below (frames_for s (headers_of file s) + (2 + n)) (live s) = true ->
  exists s', fill_in p file s = Ok p s' /\ filled s s' W l ps rp file n.
Proof.
  intros [HU Hp Hr Hin Hd Hv HP Hst Hap] Hn. set (seg := headers_of file s) in *.
  set (entry := rd32 s (file + 24)). assert (in_u32 entry) as Hen by apply rd32_range.
  destruct (up_loads s W l ps file (2 + n) HU HP Hn) as (s1 & R1 & HU1 & M1 & F1 & V1 & I1 & Hn1).
  fold seg entry in R1, HU1. set (W1 := fun a => W a \/ loaded_pages s seg a) in *.
  destruct (announce_ok entry s1) as (s2 & R2 & D2);
    [unfold in_u32 in Hen; lia|by apply (ku_video s1 W1 l ps)|apply HU1|].
  destruct (up_drawn s1 s2 W1 l ps HU1 D2) as (HU2 & L2 & F2 & V2).
  assert (forall k, 0 <= k < 17 -> field s2 rp (4 * k) = field s rp (4 * k)) as G2.
  { intros k Hk. apply (rd_ext 4). intros a Ha.
    assert (span rp sizeof_registers a) as Har by (unfold span, sizeof_registers in *; lia).
    rewrite V2; [apply V1| |]; [by apply Hin|left; by apply Hin|]. intros Hva. by apply (Hv a). }
  destruct (fill_registers s2 W1 l ps p rp entry n (fun k => field s rp (4 * k)) HU2 Hp)
    as (s3 & R3 & HU3 & M3 & F3 & G3 & V3 & Hn3); try done.
  { by rewrite F2, F1. }
  { intros x Hx. left. by apply Hin. }
  { intros x Hx [?|?]; [by apply (Hst x)|by apply (Hap x)]. }
  { by rewrite L2. }
  exists s3. split.
  { unfold fill_in. run_with R1. by run_with R2. }
  split; try done.
  - transitivity s1; [by apply frames_same_screen|]. transitivity s2; [by apply drawn_same|done].
  - intros q o Hq Ho He. by rewrite F3, F2, F1.
  - apply (in_place_later s W s1 s3 file HP I1). intros x Hx. pose proof (loaded_high s W file x HP Hx).
    assert (~ video x) as Hvx by (unfold video, span, Vga.Vga.VGA; lia).
    rewrite V3; [apply V2; [by right|done]|by right|]. intros Hrx.
    apply Hin in Hrx.
    apply Exists_exists in Hx as (ph & Hph & Hld & Hx). pose proof (pt_segments _ _ _ HP) as Hok.
    unfold headers_ok in Hok. rewrite Forall_forall in Hok.
    by apply (ld_fresh _ _ _ _ (proj2 (Hok ph Hph) Hld) x).
  - intros x Hx Hnx Hnv. rewrite V3, V2; [by apply V1|by left|done|by left|done].
Qed.


(** A kernel that can make a process of the file: a free block for the record,
    address space for the stacks, frames, and addresses of the program that
    are not in use. *)
Record launchable (s : kst) (W P : Z -> Prop) (l : list block) (ps : list Z) (b : block)
    (file : Z) (m : nat) : Prop := {
  lb_up : kernel_up s W l ps;
  lb_block : Spec.best_fit sizeof_process l = Some b;
  lb_fuel : (length l < fuel)%nat /\ (length ps < fuel)%nat;
  lb_number : in_u16 (process_number (procs s));
  lb_space : next_virtual (pmm s) + KERNEL_STACK_SIZE + 4096 <= page_limit;
  lb_program : program_at s P file;
  lb_memory : own_memory W l P;
  lb_fresh : disjoint_from (loaded_pages s (headers_of file s)) W;
  lb_stack : disjoint_from stack_page W;
  lb_apart : disjoint_from stack_page (loaded_pages s (headers_of file s));
  lb_frames : frames_below (5 + (frames_for s (headers_of file s) + (2 + m))) (live s) = true
}.

Definition with_program_pages (s : kst) (W : Z -> Prop) (file : Z) : Z -> Prop :=
  fun a => (W a \/ loaded_pages s (headers_of file s) a) \/ stack_page a.

(** The process that runs the file. *)
Record launched (s s' : kst) (W W' : Z -> Prop) (l : list block) (ps : list Z) (b : block)
    (file : Z) (m : nat) : Prop := {
  la_up : kernel_up s' (with_program_pages s W' file)
            (Spec.take_at sizeof_process (b_addr b) l) (ps ++ [b_addr b + 9]);
  la_pid : field s' (b_addr b + 9) pid = process_number (procs s);
  la_state : field s' (b_addr b + 9) state = PROCESS_READY;
  la_stack_to : field s' (b_addr b + 9) kernel_stack_to = next_virtual (pmm s) + KERNEL_STACK_SIZE;
  la_regs : field s' (b_addr b + 9) regs =
    next_virtual (pmm s) + KERNEL_STACK_SIZE - sizeof_registers;
  la_registers : forall k, 0 <= k < 17 -> field s' (field s' (b_addr b + 9) regs) (4 * k) =
    value_after (first_registers (rd32 s (file + 24)) PROCESS_USER (next_virtual (pmm s))
                   (USER_STACK_TOP - 4096)) (4 * k) 0;
  la_frame : own_memory (with_program_pages s W' file) (Spec.take_at sizeof_process (b_addr b) l)
      (span (field s' (b_addr b + 9) regs) sizeof_registers) /\
    disjoint_from (span (field s' (b_addr b + 9) regs) sizeof_registers) video;
  la_program : in_place s s' file;
  la_number : process_number (procs s') = u16 (process_number (procs s) + 1);
  la_current : current_process (procs s') =
    (if ps is [] then b_addr b + 9 else current_process (procs s));
  la_others : same_fields_but next s s' ps;
  la_kept : forall x, W x -> ~ heap_bytes l x -> ~ video x -> rd8 s' x = rd8 s x;
  la_more : subset W W' /\ (forall x, W' x -> W x \/ x < page_limit) /\
    subset (span (next_virtual (pmm s)) KERNEL_STACK_SIZE) W';
  la_next : next_virtual (pmm s') <= next_virtual (pmm s) + KERNEL_STACK_SIZE + 4096;
  la_frames : frames_below m (live s') = true;
  la_globals : keys s' = keys s /\ descs s' = descs s /\ ticks s' = ticks s
}.

(** After [create_process] the program can be filled in. *)
Lemma created_fillable s s1 W W1 P l ps b file m us :
  let rp := next_virtual (pmm s) + KERNEL_STACK_SIZE - sizeof_registers in
  launchable s W P l ps b file m -> created s s1 W W1 l ps b 0 PROCESS_USER us ->
  fillable s1 W1 (Spec.take_at sizeof_process (b_addr b) l) (ps ++ [b_addr b + 9])
    (b_addr b + 9) rp file /\
  (forall a, P a -> rd8 s1 a = rd8 s a).
Proof.
  intros rp HLb HC. pose proof HLb as [HU _ _ _ _ HP [HPW HPh] Hfr Hst Hap _].
  assert (forall a, P a -> rd8 s1 a = rd8 s a) as V.
  { intros a Ha. apply (cr_kept _ _ _ _ _ _ _ _ _ _ HC); [by apply HPW|]. intros Hh. by apply (HPh a). }
  pose proof (cr_low _ _ _ _ _ _ _ _ _ _ HC) as Hlow. pose proof (cr_more _ _ _ _ _ _ _ _ _ _ HC) as Hmore.
  assert (subset (span rp sizeof_registers) (span (next_virtual (pmm s)) KERNEL_STACK_SIZE)) as Hrs.
  { intros x. unfold rp, span, KERNEL_STACK_SIZE, sizeof_registers. lia. }
  assert (disjoint_from (span rp sizeof_registers) W) as HrW.
  { intros x Hx. apply (cr_stack_fresh _ _ _ _ _ _ _ _ _ _ HC x). by apply Hrs. }
  split; [|done]. split.
  - by apply (up_created s s1 W W1 l ps b 0 PROCESS_USER us).
  - apply elem_of_app. right. by left.
  - apply (cr_started _ _ _ _ _ _ _ _ _ _ HC).
  - intros x Hx. by apply (cr_stack _ _ _ _ _ _ _ _ _ _ HC), Hrs.
  - intros x Hx (d & Hd & Hb)%Exists_exists. pose proof (cr_blocks _ _ _ _ _ _ _ _ _ _ HC) as Hok.
    rewrite Forall_forall in Hok. by apply (HrW x Hx), (bo_in _ _ (Hok d Hd)).
  - intros x Hx Hv. by apply (HrW x Hx), (ku_screen _ _ _ _ HU).
  - apply (program_kept s s1 P file HP V); [intros x Hx; by apply Hmore, HPW|].
    intros x Hx Hx1. destruct (Hlow x Hx1) as [Hw|Hl]; [by apply (Hfr x)|].
    pose proof (loaded_high s P file x HP Hx). lia.
  - intros x Hx Hx1. destruct (Hlow x Hx1) as [Hw|Hl]; [by apply (Hst x)|].
    unfold stack_page, span, USER_STACK_TOP in Hx. lia.
  - intros x Hx Hx1. rewrite (headers_kept s s1 P file HP V) in Hx1.
    rewrite (loaded_pages_kept s s1 P file HP V) in Hx1. by apply (Hap x).
Qed.

(** The registers of a user process, with another entry point and stack. *)
Lemma first_registers_at entry ks us e top k :
  0 <= k < 17 -> in_u32 e -> in_u32 top ->
  (if k =? 15 then top else if k =? 12 then e
   else value_after (first_registers entry PROCESS_USER ks us) (4 * k) 0) =
  value_after (first_registers e PROCESS_USER ks (top - 4096)) (4 * k) 0.
Proof.
  intros Hk He Ht. unfold first_registers, value_after. change (PROCESS_USER =? PROCESS_KERNEL) with false.
  cbv iota. simpl List.find. unfold r_gs, r_fs, r_es, r_ds, r_eip, r_cs, r_eflags, r_esp, r_user_esp, r_user_ss.
  destruct (Z.eqb_spec k 15) as [->|H15]; [simpl; symmetry; replace (top - 4096 + 4096) with top by lia; by apply u32_small|].
  destruct (Z.eqb_spec k 12) as [->|H12]; [simpl; symmetry; by apply u32_small|].
  rewrite (proj2 (Z.eqb_neq 60 (4 * k))), (proj2 (Z.eqb_neq 48 (4 * k))) by lia. by repeat case_match.
Qed.


Lemma create_elf_process_ok s W P l ps b file m :
  launchable s W P l ps b file m ->
  exists s' W', create_elf_process file s = Ok (b_addr b + 9) s' /\ launched s s' W W' l ps b file m.
Proof.
  intros HLb. pose proof HLb as [HU Hbest [Hl Hps] Hn Hsp HP _ _ _ _ Hfr].
  assert (stocked 5 s) as Hst by (apply frames_below_stocked; revert Hfr; apply frames_below_le; lia).
  destruct (create_process_ok 0 PROCESS_USER s W l ps b (ku_data _ _ _ _ HU) Hbest Hl Hps Hn Hsp Hst)
    as (us & s1 & W1 & R1 & HC).
  destruct (created_fillable s s1 W W1 P l ps b file m us HLb HC) as [HF V].
  apply (proj2 (cr_left _ _ _ _ _ _ _ _ _ _ HC)) in Hfr.
  destruct (fill_in_ok s1 W1 _ _ _ _ file m HF) as (s2 & R2 & HD).
  { by rewrite (headers_kept s s1 P file HP V), (frames_for_kept s s1 P file HP V). }
  pose proof (fd_same _ _ _ _ _ _ _ _ HD) as (_ & Ep & Ek & Ed & Et & Env).
  destruct (cr_spared _ _ _ _ _ _ _ _ _ _ HC) as (_ & _ & Ek1 & Ed1 & Et1).
  pose proof (cr_started _ _ _ _ _ _ _ _ _ _ HC) as HS.
  assert (b_addr b + 9 ∈ ps ++ [b_addr b + 9]) as Hin by (apply elem_of_app; right; by left).
  assert (forall o, 0 <= o -> o + 4 <= sizeof_process ->
    field s2 (b_addr b + 9) o = field s1 (b_addr b + 9) o) as Fp.
  { intros o Ho He. by apply (fd_fields _ _ _ _ _ _ _ _ HD). }
  exists s2, W1. split.
  { rewrite create_elf_process_fill. run_with R1.
    rewrite (proj2 (Z.eqb_neq (b_addr b + 9) 0)); [exact R2|].
    pose proof (fd_up _ _ _ _ _ _ _ _ HD) as HU2. pose proof (kd_procs _ _ _ _ (ku_data _ _ _ _ HU2)) as HL2.
    destruct (in_proc_ok _ _ _ _ HL2 Hin). lia. }
  split; rewrite ?Fp by done; try apply HS.
  - refine (up_ext _ _ _ _ _ _ (fd_up _ _ _ _ _ _ _ _ HD)). intros x. unfold with_program_pages.
    by rewrite (headers_kept s s1 P file HP V), (loaded_pages_kept s s1 P file HP V).
  - intros k Hk. rewrite (sd_regs _ _ _ _ _ _ _ HS), (fd_registers _ _ _ _ _ _ _ _ HD k Hk),
      (sd_registers _ _ _ _ _ _ _ HS k Hk), (entry_kept s s1 P file HP V).
    apply first_registers_at; [done|apply rd32_range|by vm_compute].
  - rewrite (sd_regs _ _ _ _ _ _ _ HS). pose proof HF as [_ _ _ Hin' Hheap Hscr _ _ _].
    split; [split; [intros x Hx; left; left; by apply Hin'|done]|done].
  - exact (in_place_kept s s1 P file HP V s2 (fd_program _ _ _ _ _ _ _ _ HD)).
  - rewrite Ep. apply (cr_number _ _ _ _ _ _ _ _ _ _ HC).
  - rewrite Ep. apply (cr_current _ _ _ _ _ _ _ _ _ _ HC).
  - intros q o Hq Ho He Hne. rewrite (fd_fields _ _ _ _ _ _ _ _ HD); [|apply elem_of_app; by left|done..].
    by apply (cr_others _ _ _ _ _ _ _ _ _ _ HC).
  - intros x Hx Hh Hv. rewrite (fd_kept _ _ _ _ _ _ _ _ HD); [by apply (cr_kept _ _ _ _ _ _ _ _ _ _ HC)| | |done].
    + by apply (cr_more _ _ _ _ _ _ _ _ _ _ HC).
    + intros Hr. apply (cr_stack_fresh _ _ _ _ _ _ _ _ _ _ HC x); [|done].
      unfold span, KERNEL_STACK_SIZE, sizeof_registers in *. lia.
  - split; [apply (cr_more _ _ _ _ _ _ _ _ _ _ HC)|].
    split; [apply (cr_low _ _ _ _ _ _ _ _ _ _ HC)|apply (cr_stack _ _ _ _ _ _ _ _ _ _ HC)].
  - rewrite Env. apply (cr_next _ _ _ _ _ _ _ _ _ _ HC).
  - apply (fd_frames _ _ _ _ _ _ _ _ HD).
  - rewrite Ek, Ed, Et. by rewrite Ek1, Ed1, Et1.
Qed.


(** C12: [create_elf_process] turns an executable file in memory into a process,
    when the file is accepted, its segments and the stack below
    [USER_STACK_TOP] are on pages nobody uses, a free block holds a record, and
    there are address space and frames below 4 MiB for all of it: it makes a
    record and a kernel stack, loads every segment where its header says, fills
    the rest of it with zeros, maps the stack and leaves the saved registers
    ready for user mode at the entry point.  The heap and the process list stay
    well formed, the other processes keep their fields but for the link of the
    last one, and memory in use outside the heap and the screen, which shows
    the messages, keeps its contents. *)
Theorem create_elf_process_launches s W P l ps b file m :
  launchable s W P l ps b file m ->
  exists s' W', create_elf_process file s = Ok (b_addr b + 9) s' /\ launched s s' W W' l ps b file m.
Proof. apply create_elf_process_ok. Qed.

(** The first process of all: the heap is opened on the way. *)
Lemma opened_launchable s s1 W P pg file m :
  kernel_up s W [] [] -> opened s s1 W pg -> subset P W -> (forall x, W x -> x < 2 ^ 22) ->
  procs s = ProcState 0 0 1 -> next_virtual (pmm s) + 6 * 4096 <= page_limit -> (1 < fuel)%nat ->
  program_at s P file -> disjoint_from stack_page (loaded_pages s (headers_of file s)) ->
  frames_below (1 + (5 + (frames_for s (headers_of file s) + (2 + m)))) (live s) = true ->
  launchable s1 (with_page W pg) P [Spec.fresh pg] [] (Spec.fresh pg) file m.
Proof.
  intros HU HO HPW HWl Hpr Hnv Hf HP Hap Hfr.
  assert (forall x, P x -> rd8 s1 x = rd8 s x) as V by (intros x Hx; by apply (op_kept _ _ _ _ HO), HPW).
  assert (forall x, loaded_pages s (headers_of file s) x -> 2 ^ 22 <= x) as Hhigh
    by (intros x; by apply (loaded_high s P file)).
  assert (program_at s1 P file) as HP1.
  { apply (program_kept s s1 P file HP V); [by intros x|]. intros x Hx HPx.
    pose proof (Hhigh x Hx). pose proof (HWl x (HPW x HPx)). lia. }
  pose proof (headers_kept s s1 P file HP V) as Eh.
  pose proof (op_low _ _ _ _ HO) as Hpg. pose proof (op_next _ _ _ _ HO) as Hn1.
  assert (forall x, with_page W pg x -> x < 2 ^ 22) as HW1.
  { intros x [Hx|Hx]; [by apply HWl|unfold span in Hx; lia]. }
  split; try done; [apply HO|simpl length; lia|rewrite (op_procs _ _ _ _ HO), Hpr; by split| | | | | |].
  - unfold KERNEL_STACK_SIZE. lia.
  - split; [intros x Hx; left; by apply HPW|]. intros x Hx (b & ->%list_elem_of_singleton & Hb)%Exists_exists.
    apply (op_fresh _ _ _ _ HO x); [exact Hb|by apply HPW].
  - intros x Hx Hw. rewrite Eh, (loaded_pages_kept s s1 P file HP V) in Hx.
    pose proof (Hhigh x Hx). pose proof (HW1 x Hw). lia.
  - intros x Hx Hw. pose proof (HW1 x Hw). unfold stack_page, span, USER_STACK_TOP in Hx. lia.
  - intros x Hx Hl. rewrite Eh, (loaded_pages_kept s s1 P file HP V) in Hl. by apply (Hap x).
  - rewrite Eh, (frames_for_kept s s1 P file HP V). by apply (proj2 (op_left _ _ _ _ HO)).
Qed.

Lemma launch_first s W P file m :
  kernel_up s W [] [] -> subset P W -> (forall x, W x -> x < 2 ^ 22) ->
  procs s = ProcState 0 0 1 -> next_virtual (pmm s) + 6 * 4096 <= page_limit -> (1 < fuel)%nat ->
  program_at s P file -> disjoint_from stack_page (loaded_pages s (headers_of file s)) ->
  frames_below (1 + (5 + (frames_for s (headers_of file s) + (2 + m)))) (live s) = true ->
  exists pg s1 s' W', opened s s1 W pg /\ create_elf_process file s = Ok (pg + 9) s' /\
    launched s1 s' (with_page W pg) W' [Spec.fresh pg] [] (Spec.fresh pg) file m /\
    (forall x, P x -> rd8 s1 x = rd8 s x).
Proof.
  intros HU HPW HWl Hpr Hnv Hf HP Hap Hfr.
  assert (stocked 1 s) as Hst by (apply frames_below_stocked; revert Hfr; apply frames_below_le; lia).
  destruct (first_block s W HU ltac:(lia) Hst) as (pg & s1 & HO).
  destruct (create_elf_process_ok s1 (with_page W pg) P [Spec.fresh pg] [] (Spec.fresh pg) file m)
    as (s' & W' & R & HL); [by apply (opened_launchable s s1 W P pg)|].
  exists pg, s1, s', W'. split; [done|]. split.
  - change (pg + 9) with (b_addr (Spec.fresh pg) + 9).
    transitivity (create_elf_process file s1); [|done].
    unfold create_elf_process, mbind, K_bind. by rewrite (create_process_opened s s1 W pg 0 PROCESS_USER HO).
  - split; [done|]. intros x Hx. by apply (op_kept _ _ _ _ HO), HPW.
Qed.

End launching.
