(* ===== verification/Kernel.v ===== *)
(** The interrupt handlers and the main function: kernel/kernel.c.

    Code that waits for an interrupt is given what the interrupts do while it
    waits, the action [interrupt]. *)

From S2P Require Import Prelude Machine State Mmu Window PageSource Vga MemMap Paging MemLib Heap Descriptors Devices Process Switch Spawn Elf Syscall.

(** More addresses of the image: the assembly entry points, the embedded
    program and the functions whose address the code takes. *)
Class Image := {
  irq0_addr : Z;
  isr8_addr : Z;
  isr13_addr : Z;
  isr14_addr : Z;
  syscall_handler_addr : Z;
  keyboard_isr_addr : Z;
  elf_test_start : Z;
  user_main_addr : Z;
  uptime_task_addr : Z
}.

Module Kernel.

Definition TIME_POS : Z := 160.
Definition up_pos : Z := 0.
Definition start_pos : Z := 240.
Definition COMMAND_SIZE : Z := 128.
Definition space : Z := 80.

Definition remap_pic : K unit :=
  outb 0x20 0x11;;
  outb 0xA0 0x11;;
  outb 0x21 0x20;;
  outb 0xA1 0x28;;
  outb 0x21 0x04;;
  outb 0xA1 0x02;;
  outb 0x21 0x01;;
  outb 0xA1 0x01;;
  outb 0x21 0x00;;
  outb 0xA1 0x00.

Definition get_i : K Z := gets (fun s => cur_i (console s)).
Definition get_j : K Z := gets (fun s => cur_j (console s)).
Definition set_last_key (c : Z) : K unit :=
  modify (set_keys (fun k => KeyState c (command k) (command_index k) (command_ready k))).
Definition set_command_ready (r : Z) : K unit :=
  modify (set_keys (fun k => KeyState (last_key k) (command k) (command_index k) r)).
Definition set_command_index (n : Z) : K unit :=
  modify (set_keys (fun k => KeyState (last_key k) (command k) n (command_ready k))).
(** [command[k] = c]: the array ends at [COMMAND_SIZE]. *)
Definition command_put (k c : Z) : K unit :=
  if (0 <=? k) && (k <? COMMAND_SIZE) then
    modify (set_keys (fun r => KeyState (last_key r) (<[Z.to_nat k := u8 c]> (command r))
                                        (command_index r) (command_ready r)))
  else undefined.
(** [command[command_index++] = c] *)
Definition command_push (c : Z) : K unit :=
  n ← gets (fun s => command_index (keys s));
  set_command_index (n + 1);;
  command_put n c.

(** [move(i)] *)
Definition move_i : K unit := i ← get_i; Vga.move i.
(** [add_line()]: the call passes no cursor where the function reads one. *)
Definition add_line_no_argument : K unit := undefined.

Definition keyboard_handler : K unit :=
  c ← Keyboard.read;
  set_last_key c;;
  i ← get_i;
  (if 2000 <=? i then add_line_no_argument else mret tt);;
  if c =? 0 then mret tt else
  (if c =? 10 then
     i ← get_i; Vga.set_i (i + space);;
     i ← get_i; j ← get_j; Vga.set_i (i - j);;
     move_i;;
     Vga.set_j 0;;
     n ← gets (fun s => command_index (keys s)); command_put n 0;;
     set_command_ready 1
   else if c =? 32 then
     i ← get_i; Vga.set_i (i + 1);;
     j ← get_j; Vga.set_j (j + 1);;
     move_i;;
     command_push c
   else if c =? 8 then
     i ← get_i; Vga.set_i (i - 1);;
     j ← get_j; Vga.set_j (j - 1);;
     i ← get_i; Vga.clear i;;
     move_i;;
     n ← gets (fun s => command_index (keys s)); command_put n 0
   else if c =? Keyboard.KEY_UP then
     i ← get_i; Vga.set_i (i - 80);;
     move_i
   else if c =? Keyboard.KEY_DOWN then
     i ← get_i; Vga.set_i (i + 80);;
     i ← get_i; (if 2000 <=? i then add_line_no_argument else mret tt);;
     move_i
   else if c =? Keyboard.KEY_LEFT then
     i ← get_i; Vga.set_i (i - 1);;
     move_i
   else if c =? Keyboard.KEY_RIGHT then
     i ← get_i; Vga.set_i (i + 1);;
     i ← get_i; (if 2000 <=? i then add_line_no_argument else mret tt);;
     move_i
   else
     i ← get_i; Vga.print c i;;
     i ← get_i; Vga.set_i (i + 1);;
     j ← get_j; Vga.set_j (j + 1);;
     move_i;;
     command_push c);;
  outb 0x20 0x20.

(** [cr2] is the content of the register. *)
Definition fault_handler (vector error_code eip cr2 : Z) : K unit :=
  Vga.print_string_at "FAULT: vector "%string;;
  Vga.print_hex_at vector;;
  Vga.print_string_at NL;;
  Vga.print_string_at "error_code = "%string;;
  Vga.print_hex_at error_code;;
  Vga.print_string_at NL;;
  Vga.print_string_at "eip = "%string;;
  Vga.print_hex_at eip;;
  Vga.print_string_at NL;;
  (if vector =? 14 then
     Vga.print_string_at "CR2 = "%string;;
     Vga.print_hex_at cr2;;
     Vga.print_string_at NL
   else mret tt);;
  Process.halt.

Definition show_seconds : K unit :=
  second ← Pit.get_seconds;
  let pos := TIME_POS in
  Vga.print_number second pos;;
  mret tt.

Definition sleep_process (time : Z) : K unit :=
  c ← Process.get_current;
  Process.set c Process.state Process.PROCESS_BLOCKED;;
  c ← Process.get_current;
  t ← gets ticks;
  Process.set c Process.wake (t + time).

Section handlers.
Context `{Fuel}.

Definition irq0_handler (regs : Z) : K unit :=
  modify (set_ticks (fun t => u32 (t + 1)));;
  outb 0x20 0x20;;
  c ← Process.get_current;
  l ← Process.get_list;
  if (c =? 0) || (l =? 0) then mret tt else
  Process.wake_processes;;
  Syscall.sys_yield regs.

End handlers.

Section waiting.
Context (interrupt : K unit).

(** [while (ticks < time + start);]: the sum of two [int]s compared with an
    [unsigned long]. *)
Fixpoint sleep_loop (n : nat) (until : Z) : K unit :=
  match n with
  | O => no_fuel
  | S n' =>
      t ← gets ticks;
      if t <? until then interrupt;; sleep_loop n' until else mret tt
  end.
Definition sleep `{Fuel} (time : Z) : K unit :=
  start ← gets ticks;
  sleep_loop fuel (u32 (time + start)).

(** One turn of the endless loop of [uptime_task]; the result is [last]. *)
Definition uptime_turn (last : Z) : K Z :=
  t ← gets ticks;
  let sec := t / 100 in
  if negb (sec =? last) then
    Vga.print_time_message "Up Time"%string up_pos;;
    show_seconds;;
    mret sec
  else mret last.

Fixpoint sleeping (n : nat) : K unit :=
  match n with
  | O => no_fuel
  | S n' =>
      c ← Process.get_current;
      st ← Process.get c Process.state;
      if negb (st =? Process.PROCESS_READY) then hlt;; interrupt;; sleeping n' else mret tt
  end.
Definition test_sleep `{Fuel} : K unit :=
  Vga.print_string_at ("sleepy: about to sleep" ++ NL)%string;;
  start ← gets ticks;
  sleep_process 2000;;
  sleeping fuel;;
  Vga.print_string_at "sleepy: woke up! ticks elapsed = "%string;;
  t ← gets ticks;
  Vga.print_number_at (u32 (t - start));;
  Vga.print_string_at NL.

(** The loop of [switch_mode]: [true] when F10 was pressed in time. *)
Fixpoint choosing (n : nat) (until : Z) : K bool :=
  match n with
  | O => no_fuel
  | S n' =>
      t ← gets ticks;
      if t <? until then
        k ← gets (fun s => last_key (keys s));
        if k =? Keyboard.KEY_F10 then mret true
        else hlt;; interrupt;; choosing n' until
      else mret false
  end.
Definition switch_mode `{Fuel} : K Z :=
  set_last_key Keyboard.KEY_NONE;;
  t ← gets ticks;
  Vga.print_string_at "click f10 if you want to stay in the bios"%string;;
  f10 ← choosing fuel (u32 (t + 300));
  Vga.set_i 400;;
  Vga.set_j 0;;
  mret (if f10 : bool then 0 else 1).

Section main.
Context `{Layout} `{Image} `{Fuel}.

(** The part of [kernel] before the choice of mode. *)
Definition start_devices : K unit :=
  Vga.clear_screen;;
  Vga.print_time_message "start os"%string start_pos;;
  Vga.print_string_at ("Before paging " ++ NL)%string;;
  Descriptors.init_gdt;;
  Descriptors.set_idt_ptr (TablePtr (8 * 256 - 1) idt_addr);;
  remap_pic;;
  outb 0x21 0xFC;;
  Descriptors.add 32 irq0_addr 0x8E;;
  Descriptors.add 8 isr8_addr 0x8E;;
  Descriptors.add 13 isr13_addr 0x8E;;
  Descriptors.add 14 isr14_addr 0x8E;;
  Descriptors.add 0x80 syscall_handler_addr 0xEE;;
  Descriptors.add 33 keyboard_isr_addr 0x8E;;
  Descriptors.load_idt idt_ptr_addr;;
  sti;;
  Pit.pit_init 11931.

(** [restore_esp(current_process)] does not return. *)
Definition stay_in_bios : K unit :=
  Vga.clear_screen;;
  Vga.print_string_at ("Staying in BIOS mode. Halting..." ++ NL)%string;;
  Vga.print_string_at "from the bios"%string;;
  Process.create_process uptime_task_addr Process.PROCESS_KERNEL;;
  c ← Process.get_current;
  Process.restore_esp c.

Definition kernel : K unit :=
  start_devices;;
  choice ← switch_mode;
  (if choice =? 0 then stay_in_bios else mret tt);;
  Paging.init_virtual_allocator;;
  Paging.build_first_page;;
  Vga.print_string_at NL;;
  Paging.load_page_directory page_directory_addr;;
  Paging.enable_paging;;
  let file := elf_test_start in
  Vga.print_hex_at file;;
  p ← Elf.create_elf_process file;
  (if negb (p =? 0) then
     Vga.print_string_at ("ELF process loaded successfully" ++ NL)%string;;
     Vga.print_hex_at p
   else mret tt);;
  choice ← switch_mode;
  Vga.clear_screen;;
  if choice =? 1 then
    Process.create_process user_main_addr Process.PROCESS_USER;;
    c ← Process.get_current;
    Process.restore_esp c
  else mret tt.

End main.
End waiting.
End Kernel.
