(* ===== verification/Timer.v ===== *)
(** The timer interrupt: what one tick does to the processes, and that the
    ticks of the timer let every ready process run. *)

From S2P Require Import Prelude Machine State Mmu Window PageSource Vga MemMap Paging MemLib Heap Descriptors Devices Process Switch Spawn Elf Syscall Kernel.

(** * One tick *)

Section tick.
Import Process Kernel.
Context `{Fuel}.

(** The state in which the interrupt handler looks at the processes: the time
    has passed and the interrupt controller has been told. *)
Definition ticked (s : kst) : kst :=
  set_mach (emit (Outb 0x20 0x20)) (set_ticks (fun t => u32 (t + 1)) s).

Lemma ticked_same s : same_memory s (ticked s).
Proof. done. Qed.
Lemma field_ticked s p off : field (ticked s) p off = field s p off.
Proof. unfold field, rd32. by apply rd_proper. Qed.
Lemma window_ticked s W : window s W -> window (ticked s) W.
Proof. by apply window_proper. Qed.

Lemma preemptible_ticked s W l c f : preemptible s W l c f -> preemptible (ticked s) W l c f.
Proof.
  intros [[HW Hpath Hok Hsep] Hc Hin Hr Hrec Hf Hs Hra Hfa].
  split; rewrite ?field_ticked; try assumption. split; try assumption; [by apply window_ticked|].
  apply (path_same s); [|exact Hpath]. intros p Hp. apply field_ticked.
Qed.

(** Waking up twice is waking up once. *)
Lemma woken_twice s s' W l p :
  updated s s' W l (woken_fields s) -> p ∈ l -> woken s' p = woken s p.
Proof.
  intros U Hp. pose proof (up_fields _ _ _ _ _ U p 5 Hp ltac:(done)) as Hst.
  pose proof (up_fields _ _ _ _ _ U p 8 Hp ltac:(done)) as Hwk.
  change (4 * 5) with state in Hst. change (4 * 8) with wake in Hwk.
  unfold woken_fields in Hst, Hwk. simpl in Hst, Hwk.
  assert (ticks s' = ticks s) as Ht by (by destruct (up_machine _ _ _ _ _ U) as [m ->]).
  unfold woken in *. unfold due in *. rewrite Hst, Hwk, Ht.
  destruct (field s p state =? PROCESS_BLOCKED) eqn:E; simpl; [|by rewrite E].
  destruct (s32 (field s p wake) <=? s32 (ticks s)) eqn:E2; simpl; [done|].
  by rewrite andb_false_r.
Qed.

Lemma list_not_empty s W l c : procs_list s W l -> c ∈ l -> (process_list (procs s) =? 0) = false.
Proof.
  intros [_ Hpath Hok _] Hc. apply Z.eqb_neq. destruct l as [|a l]; [by apply elem_of_nil in Hc|].
  destruct Hpath as [-> _]. apply Forall_cons in Hok as [[Ha _ _] _]. lia.
Qed.

Lemma irq0_handler_ok s W l1 c l2 f :
  let l := l1 ++ c :: l2 in let s0 := ticked s in let nxt := next_woken s0 l1 l2 in
  preemptible s W l c f -> (length l < fuel)%nat ->
  exists s',
    if nxt =? 0 then irq0_handler f s = Ok tt s' /\ updated s0 s' W l (woken_fields s0)
    else irq0_handler f s = Switched nxt s' /\ given_way s0 s' W l c f nxt (woken_fields s0).
Proof.
  intros l s0 nxt HP Hlen. pose proof (preemptible_ticked _ _ _ _ _ HP) as HP0. fold s0 in HP0.
  pose proof (pe_list _ _ _ _ _ HP0) as HL0.
  destruct (wake_ok s0 W l HL0 Hlen) as (s1 & R1 & U1).
  pose proof (preemptible_updated _ _ _ _ _ _ _ U1 eq_refl HP0) as HP1.
  assert (forall p, p ∈ l -> woken s1 p = woken s0 p) as Htw
    by (intros p Hp; by apply (woken_twice s0 s1 W l)).
  assert (next_woken s1 l1 l2 = nxt) as Hn.
  { unfold nxt, next_woken. f_equal. apply find_ext. intros p Hp. rewrite Htw; [done|].
    unfold l. rewrite elem_of_app, elem_of_cons in *. tauto. }
  assert (forall p k, p ∈ l -> 0 <= k < 12 ->
    woken_fields s1 p (4 * k) = woken_fields s0 p (4 * k)) as Hwf.
  { intros p k Hp Hk. unfold woken_fields at 1. rewrite Htw, (up_fields _ _ _ _ _ U1) by done.
    unfold woken_fields. by destruct (4 * k =? state). }
  assert ((process_list (procs s0) =? 0) = false) as Hl0 by 
    (exact (list_not_empty s0 W l c HL0 (pe_in _ _ _ _ _ HP0))).
  assert (irq0_handler f s = Syscall.sys_yield f s1) as ->.
  { unfold irq0_handler. rewrite modify_bind. unfold outb, privileged. rewrite modify_bind.
    change (set_mach _ _) with s0. unfold get_current, get_list. rewrite !gets_bind.
    rewrite (pe_current _ _ _ _ _ HP0), Hl0, (proj2 (Z.eqb_neq c 0)).
    { simpl. by run_with R1. }
    destruct (in_proc_ok _ _ _ c HL0 (pe_in _ _ _ _ _ HP0)). lia. }
  destruct (sys_yield_ok s1 W l1 c l2 f HP1 Hlen) as (s' & HY). rewrite Hn in HY. exists s'.
  destruct (Z.eqb_spec nxt 0) as [Hz|Hnz]; destruct HY as [R Hy]; (split; [exact R|]).
  - apply (updated_trans _ _ _ _ _ _ _ U1). by apply (updated_ext _ _ _ _ _ _ Hy).
  - destruct Hy as [G1 G2 G3 G4 G5 G6 G7].
    assert (forall k, 0 <= k < 17 -> field s1 f (4 * k) = field s0 f (4 * k)) as Hf
      by (intros k Hk; by apply (frame_updated _ _ _ _ _ _ _ _ U1 HP0)).
    assert (field s1 c regs = field s0 c regs) as Hr
      by (by apply (up_fields _ _ _ _ _ U1 c 4 (pe_in _ _ _ _ _ HP0))).
    assert (frame_registers s1 f = frame_registers s0 f) as Hfr.
    { unfold frame_registers. change r_cs with (4 * 13). by rewrite Hf. }
    split; [exact G1|exact G2| | | | |].
    + rewrite G3. destruct (next_of_list s0 W l1 c l2 _ HL0 Hnz) as [Hin _].
      apply (up_fields _ _ _ _ _ U1 nxt 3 Hin). done.
    + intros k Hk. rewrite <- Hr, G4 by (by rewrite Hfr). apply Hf.
      unfold frame_registers in Hk. case_match; lia.
    + intros p k Hp Hk. rewrite G5 by done. by apply Hwf.
    + rewrite G6. by destruct (up_machine _ _ _ _ _ U1) as [m ->].
    + intros m b Hb Hd Hrp. rewrite G7 by (rewrite ?Hr, ?Hfr; done).
      by apply (up_kept _ _ _ _ _ U1).
Qed.

End tick.

(** * Every ready process gets its turn *)

Section fairness.
Import Process Kernel.
Context `{Fuel} (W : Z -> Prop) (l : list Z) (Hlen : (length l < fuel)%nat).

(** The processes [l], one of which runs; the register record of each is in
    the window and apart from the records of the processes. *)
Record running (s : kst) : Prop := {
  ru_list : procs_list s W l;
  ru_current : current_process (procs s) ∈ l;
  ru_regs : forall p, p ∈ l -> field s p regs <> 0 /\
    subset (span (field s p regs) sizeof_registers) W /\
    forall q, q ∈ l -> apart_span (field s p regs) sizeof_registers q
}.

(** An interrupt frame of the current process. *)
Definition good_frame (s : kst) (f : Z) : Prop :=
  let rp := field s (current_process (procs s)) regs in
  subset (span f sizeof_registers) W /\ (forall q, q ∈ l -> apart_span f sizeof_registers q) /\
  (f = rp \/ f + sizeof_registers <= rp \/ rp + sizeof_registers <= f).

(** What runs between two ticks leaves the process records alone. *)
Definition quiet (s s' : kst) : Prop :=
  procs s' = procs s /\ procs_list s' W l /\
  forall p k, p ∈ l -> 0 <= k < 12 -> field s' p (4 * k) = field s p (4 * k).

(** From one interrupt of the timer to the next. *)
Definition tick (s s' : kst) : Prop :=
  exists s1 f, quiet s s1 /\ good_frame s1 f /\
    (irq0_handler f s1 = Ok tt s' \/ exists q, irq0_handler f s1 = Switched q s').

Lemma running_fields s s' :
  running s -> procs_list s' W l -> current_process (procs s') ∈ l ->
  (forall p, p ∈ l -> field s' p regs = field s p regs) -> running s'.
Proof. intros [_ _ Hr] HL Hc HF. split; [done|done|]. intros p Hp. rewrite HF by done. by apply Hr. Qed.

Lemma running_preemptible s f :
  running s -> good_frame s f -> preemptible s W l (current_process (procs s)) f.
Proof.
  intros [HL Hc Hr] (Hf & Hfa & Hs). destruct (Hr _ Hc) as (Hr0 & Hrec & Hra).
  by split.
Qed.

(** The processes after position [i] of the round, once the one there runs. *)
Lemma rotate (l1 l2 : list Z) c q i :
  (l2 ++ l1) !! i = Some q ->
  exists l1' l2', l1 ++ c :: l2 = l1' ++ q :: l2' /\
    l2' ++ l1' = drop (S i) (l2 ++ l1) ++ c :: take i (l2 ++ l1).
Proof.
  intros Hi. destruct (decide (i < length l2)%nat) as [Hlt|Hge].
  - rewrite lookup_app_l in Hi by done. exists (l1 ++ c :: take i l2), (drop (S i) l2). split.
    + rewrite <- app_assoc. simpl. by rewrite (take_drop_middle _ _ _ Hi).
    + rewrite drop_app_le, take_app_le by lia. by rewrite <- app_assoc.
  - rewrite lookup_app_r in Hi by lia. set (k := (i - length l2)%nat) in *.
    exists (take k l1), (drop (S k) l1 ++ c :: l2). split.
    + rewrite <- (take_drop_middle _ _ _ Hi) at 1. by rewrite <- app_assoc.
    + rewrite drop_app_ge, take_app_ge by lia.
      replace (S i - length l2)%nat with (S k) by lia. fold k. by rewrite <- app_assoc.
Qed.

(** The choice is never behind a ready process. *)
Lemma find_position (g : Z -> bool) (r : list Z) j p :
  r !! j = Some p -> g p = true ->
  exists i q, (i <= j)%nat /\ r !! i = Some q /\ List.find g r = Some q.
Proof.
  revert j. induction r as [|x r IH]; intros j Hj Hg; [done|]. simpl.
  destruct (g x) eqn:Hx; [exists 0%nat, x; split_and!; [lia|done|done]|].
  destruct j as [|j]; [injection Hj as ->; congruence|].
  destruct (IH j Hj Hg) as (i & q & Hi & Hq & Hf). exists (S i), q. split_and!; [lia|done|done].
Qed.

(** One tick: a ready process stays ready, and the turn passes to a process
    that is at most as far in the round. *)
Lemma tick_turn s s' l1 l2 j p :
  l = l1 ++ current_process (procs s) :: l2 -> running s -> tick s s' ->
  (l2 ++ l1) !! j = Some p -> field s p state = PROCESS_READY ->
  running s' /\ field s' p state = PROCESS_READY /\
  exists i, (i <= j)%nat /\ (l2 ++ l1) !! i = Some (current_process (procs s')).
Proof.
  intros Hl HR (s1 & f & (Hp1 & HL1 & F1) & Hf & Ht) Hj Hst.
  set (c := current_process (procs s)) in *.
  assert (forall q, q ∈ l2 ++ l1 -> q ∈ l) as Hsub.
  { intros q. rewrite Hl, !elem_of_app, elem_of_cons. tauto. }
  assert (p ∈ l) as Hp by (by apply Hsub, (list_elem_of_lookup_2 _ j)).
  assert (running s1) as HR1.
  { apply (running_fields s); [done|done|rewrite Hp1; apply HR|]. intros q Hq. by apply (F1 q 4). }
  pose proof (running_preemptible s1 f HR1 Hf) as HP1. rewrite Hp1 in HP1. fold c in HP1.
  pose proof (irq0_handler_ok s1 W l1 c l2 f) as HI. cbv zeta in HI. rewrite <- Hl in HI.
  destruct (HI HP1 Hlen) as (s2 & Hirq). set (s0 := ticked s1) in *.
  assert (woken s0 p = PROCESS_READY) as Hwp.
  { unfold woken, due, s0. rewrite field_ticked. change state with (4 * 5). rewrite F1 by done.
    change (4 * 5) with state. by rewrite Hst. }
  destruct (find_position (fun q => woken s0 q =? PROCESS_READY) (l2 ++ l1) j p Hj) as
    (i & q & Hij & Hiq & Hfind); [by rewrite Hwp|].
  assert (next_woken s0 l1 l2 = q) as Hn by (unfold next_woken; by rewrite Hfind).
  assert (q ∈ l) as Hql by (by apply Hsub, (list_elem_of_lookup_2 _ i)).
  assert (0 < q) as Hq0 by (by destruct (in_proc_ok _ _ _ q HL1 Hql)).
  rewrite Hn, (proj2 (Z.eqb_neq q 0)) in Hirq by lia. destruct Hirq as [R [G1 G2 _ _ G5 _ _]].
  assert (s' = s2) as -> by (destruct Ht as [Ht|[q' Ht]]; rewrite R in Ht; by inversion Ht).
  split; [|split].
  - apply (running_fields s1); [done|done|by rewrite G1|].
    intros r Hr. change regs with (4 * 4). rewrite G5 by done. apply field_ticked.
  - change state with (4 * 5). rewrite G5 by done. exact Hwp.
  - exists i. split; [done|]. by rewrite G1.
Qed.

Lemma turn_comes (tr : nat -> kst) j l1 l2 p :
  l = l1 ++ current_process (procs (tr 0%nat)) :: l2 -> running (tr 0%nat) ->
  (forall k, (k <= j)%nat -> tick (tr k) (tr (S k))) ->
  (l2 ++ l1) !! j = Some p -> field (tr 0%nat) p state = PROCESS_READY ->
  exists k, (k <= S j)%nat /\ current_process (procs (tr k)) = p.
Proof.
  revert tr l1 l2. induction j as [j IH] using lt_wf_ind. intros tr l1 l2 Hl HR Ht Hj Hst.
  destruct (tick_turn _ _ l1 l2 j p Hl HR (Ht 0%nat ltac:(lia)) Hj Hst) as (HR1 & Hst1 & i & Hij & Hi).
  destruct (decide (i = j)) as [->|Hne]; [exists 1%nat; split; [lia|]; congruence|].
  destruct (rotate l1 l2 (current_process (procs (tr 0%nat))) _ i Hi) as (l1' & l2' & E1 & E2).
  destruct (IH (j - i - 1)%nat ltac:(lia) (fun k => tr (S k)) l1' l2') as (k & Hk & Hc).
  - by rewrite <- E1.
  - done.
  - intros k Hk. apply Ht. lia.
  - rewrite E2. pose proof (lookup_lt_Some _ _ _ Hj).
    rewrite lookup_app_l by (rewrite length_drop; lia). rewrite lookup_drop.
    by replace (S i + (j - i - 1))%nat with j by lia.
  - done.
  - exists (S k). split; [lia|done].
Qed.

End fairness.

(** * What the timer guarantees *)

Section guarantees.
Import Process Kernel.
Context `{Fuel}.

(** C9: one interrupt of the timer: the time goes on by one, every blocked
    process whose deadline has come becomes ready, and the processor goes to
    the first ready process after the current one, going round the list, with
    the interrupt frame saved in the record of the process it leaves; if no
    other process is ready the handler returns to the same process. *)
Theorem timer_preempts s W l1 c l2 f :
  let l := l1 ++ c :: l2 in let s0 := ticked s in let nxt := next_woken s0 l1 l2 in
  preemptible s W l c f -> (length l < fuel)%nat ->
  exists s', ticks s' = u32 (ticks s + 1) /\ procs_list s' W l /\
    (forall p, p ∈ l -> field s' p state =
       if (field s p state =? PROCESS_BLOCKED) && (s32 (field s p wake) <=? s32 (u32 (ticks s + 1)))
       then PROCESS_READY else field s p state) /\
    if nxt =? 0 then irq0_handler f s = Ok tt s' /\ current_process (procs s') = c
    else irq0_handler f s = Switched nxt s' /\ current_process (procs s') = nxt /\
      esp0 (tss (descs s')) = field s nxt kernel_stack_to /\
      forall k, 0 <= k < frame_registers s f ->
        field s' (field s c regs) (4 * k) = field s f (4 * k).
Proof.
  intros l s0 nxt HP Hlen. pose proof (preemptible_ticked _ _ _ _ _ HP) as HP0.
  assert (forall p, woken s0 p =
    if (field s p state =? PROCESS_BLOCKED) && (s32 (field s p wake) <=? s32 (u32 (ticks s + 1)))
    then PROCESS_READY else field s p state) as Hw.
  { intros p. unfold woken, due, s0. rewrite !field_ticked. done. }
  destruct (irq0_handler_ok s W l1 c l2 f HP Hlen) as (s' & HY). fold l s0 nxt in HY. exists s'.
  destruct (nxt =? 0).
  - destruct HY as [R U]. split; [by destruct (up_machine _ _ _ _ _ U) as [m ->]|].
    split; [apply U|]. split; [|split; [exact R|]].
    + intros p Hp. rewrite <- Hw. by apply (up_fields _ _ _ _ _ U p 5).
    + destruct (up_machine _ _ _ _ _ U) as [m ->]. apply (pe_current _ _ _ _ _ HP).
  - destruct HY as [R [G1 G2 G3 G4 G5 G6 _]]. split; [done|]. split; [done|]. split; [|split; [exact R|]].
    + intros p Hp. rewrite <- Hw. by apply (G5 p 5).
    + split; [done|]. split; [rewrite G3; apply field_ticked|]. intros k Hk.
      unfold s0 in G4. rewrite field_ticked in G4. rewrite G4; [apply field_ticked|].
      unfold frame_registers. by rewrite field_ticked.
Qed.

(** C8: no ready process starves: whatever runs between the ticks, as long as
    it leaves the process records alone, a process that is ready runs after
    fewer interrupts of the timer than there are processes. *)
Theorem ready_process_runs W l p (tr : nat -> kst) :
  (length l < fuel)%nat -> running W l (tr 0%nat) ->
  (forall k, (k < length l)%nat -> tick W l (tr k) (tr (S k))) ->
  p ∈ l -> field (tr 0%nat) p state = PROCESS_READY ->
  exists k, (k < length l)%nat /\ current_process (procs (tr k)) = p.
Proof.
  intros Hlen HR Ht Hp Hst.
  destruct (list_elem_of_split _ _ (ru_current _ _ _ HR)) as (l1 & l2 & Hl).
  destruct (decide (p = current_process (procs (tr 0%nat)))) as [->|Hne].
  { exists 0%nat. split; [|done]. rewrite Hl, length_app. simpl. lia. }
  assert (p ∈ l2 ++ l1) as Hin by (rewrite Hl, elem_of_app, elem_of_cons in Hp; rewrite elem_of_app; tauto).
  apply list_elem_of_lookup in Hin as [j Hj]. pose proof (lookup_lt_Some _ _ _ Hj) as Hlt.
  assert (length l = S (length (l2 ++ l1))) as Hll by (rewrite Hl, !length_app; simpl; lia).
  destruct (turn_comes W l Hlen tr j l1 l2 p Hl HR) as (k & Hk & Hc); [|done|done|].
  - intros k Hk. apply Ht. lia.
  - exists k. split; [lia|done].
Qed.

End guarantees.

(** * Concrete runs *)

Section examples.
Import Process Kernel.
#[local] Instance hundred : Fuel := 100%nat.

(** The timer interrupts A; B has slept long enough. *)
Lemma timer_preempts_witness :
  exists s', irq0_handler frame three = Switched proc_b s' /\ ticks s' = 8 /\
    field s' 0x43FBC r_eip = 0x1234.
Proof.
  assert (field three proc_a regs = 0x43FBC) as Hr by (by vm_compute).
  destruct (timer_preempts three in_u32 [] proc_a [proc_b; proc_c] frame) as (s' & T & _ & _ & R).
  - split; rewrite ?Hr; try (apply low_span; unfold frame, sizeof_registers; lia).
    + apply (three_list proc_a).
    + done.
    + by left.
    + done.
    + right. right. by vm_compute.
    + intros p [-> |[-> | ->]]%in_abc; right; by vm_compute.
    + intros p [-> |[-> | ->]]%in_abc; right; by vm_compute.
  - vm_compute. lia.
  - assert (next_woken (ticked three) [] [proc_b; proc_c] = proc_b) as Hn by (by vm_compute).
    rewrite Hn in R. destruct R as (R & _ & _ & V). exists s'. split; [exact R|].
    split; [rewrite T; by vm_compute|]. rewrite Hr in V. change r_eip with (4 * 12).
    rewrite (V 12); [by vm_compute|]. split; [lia|by vm_compute].
Defined.

(** Three ready processes, interrupted again and again in kernel code. *)
Definition trio_memory : list (Z * Z) :=
  [(proc_a + next, proc_b); (proc_b + next, proc_c);
   (proc_a + regs, 0x43FBC); (proc_b + regs, 0x47FBC); (proc_c + regs, 0x4BFBC)].
Definition trio : kst :=
  set_procs (fun _ => ProcState proc_a proc_a 4)
    (match writes trio_memory (boot_state [] no_device) with
     | Ok _ s => s
     | _ => boot_state [] no_device
     end).
Fixpoint after_ticks (k : nat) : kst :=
  match k with
  | O => trio
  | S k' =>
      match irq0_handler frame (after_ticks k') with
      | Ok _ s | Switched _ s => s
      | _ => after_ticks k'
      end
  end.

Lemma trio_list k : (k < 3)%nat -> procs_list (after_ticks k) in_u32 abc.
Proof.
  intros Hk. destruct abc_ok as [Hok Hsep]. destruct k as [|[|[|k]]]; [| | |lia];
    (apply flat_list; [|by vm_compute|done|done]);
    (apply flat_window; [by vm_compute|by intros a]).
Qed.

Lemma trio_frame k : (k < 3)%nat -> good_frame in_u32 abc (after_ticks k) frame.
Proof.
  intros Hk. split; [apply low_span; unfold frame, sizeof_registers; lia|].
  split; [intros p [-> |[-> | ->]]%in_abc; right; by vm_compute|].
  destruct k as [|[|[|k]]]; [| | |lia]; right; right; by vm_compute.
Qed.

(** C comes third. *)
Lemma ready_process_runs_witness :
  exists k, (k < 3)%nat /\ current_process (procs (after_ticks k)) = proc_c.
Proof.
  apply (ready_process_runs in_u32 abc proc_c after_ticks).
  - vm_compute. lia.
  - split; [by apply trio_list; lia|by left|].
    intros p [-> |[-> | ->]]%in_abc.
    all: split; [by vm_compute|split].
    all: try (intros q [-> |[-> | ->]]%in_abc; right; by vm_compute).
    all: assert (field (after_ticks 0) proc_a regs = 0x43FBC /\ field (after_ticks 0) proc_b regs = 0x47FBC
      /\ field (after_ticks 0) proc_c regs = 0x4BFBC) as (E1 & E2 & E3) by (by vm_compute);
      rewrite ?E1, ?E2, ?E3; apply low_span; unfold sizeof_registers; lia.
  - intros k Hk. change (length abc) with 3%nat in Hk. exists (after_ticks k), frame.
    split; [split; [done|split; [by apply trio_list|done]]|]. split; [by apply trio_frame|].
    right. destruct k as [|[|[|k]]]; [| | |lia]; eexists; vm_compute; reflexivity.
  - right. right. by left.
  - by vm_compute.
Defined.

End examples.
