(* ===== verification/Keys.v ===== *)
(** The keyboard interrupt: how the keys typed become a command line.

    [keyboard_handler] reads one scan code, moves the cursor, draws the
    character and appends it to [command]; Enter ends the line.  The array
    has 128 bytes and the handler does not count them. *)

From S2P Require Import Prelude Machine State Mmu Window PageSource Vga MemMap Paging MemLib Heap Descriptors Devices Process Switch Spawn Elf Syscall Kernel.

(** * What the handler touches besides the screen *)

Section input.
Import Kernel.

Definition same_input (s s' : kst) : Prop :=
  device (mach s') = device (mach s) /\ reads (mach s') = reads (mach s).

Lemma store8_input a v s s' : store8 a v s = Ok tt s' -> same_input s s'.
Proof.
  unfold store8, xlate, mbind, K_bind. destruct (translate _ _); [|done].
  by intros [= <-].
Qed.
Lemma print_input c i s s' : Vga.print c i s = Ok tt s' -> same_input s s'.
Proof.
  unfold Vga.print. intros ([] & s1 & H1 & H2)%bind_ok_inv.
  apply store8_input in H1 as [D1 R1]. apply store8_input in H2 as [D2 R2].
  split; congruence.
Qed.

(** The state after a scan code has been read. *)
Definition popped (s : kst) : kst :=
  set_mach (fun m => Machine (ram m) (paging m) (cr3 m) (device m) (S (reads m))
                             (Inb 0x60 :: trace m)) s.

Lemma press_bit code : 0 <= code < 128 -> Z.land code 0x80 = 0.
Proof.
  intros Hc. assert (forallb (fun c => Z.land c 0x80 =? 0) (seqZ 0 128) = true) as Hb by (by vm_compute).
  rewrite forallb_forall in Hb. apply Z.eqb_eq, Hb, list_elem_of_In, elem_of_seqZ. lia.
Qed.

Lemma read_key s code :
  next_byte s 0x60 = code -> 0 <= code < 128 -> Keyboard.read s = Ok (Keyboard.key_of code) (popped s).
Proof.
  intros Hn Hc. unfold Keyboard.read, inb, mbind, K_bind.
  change (u8 (device (mach s) (u16 0x60) (reads (mach s)))) with (next_byte s 0x60).
  by rewrite Hn, press_bit.
Qed.

Lemma window_same s s' W : same_memory s s' -> window s W -> window s' W.
Proof. intros HM. apply (window_proper s' s); [by symmetry|done]. Qed.

(** Where the next key can go. *)
Record typing (s : kst) : Prop := {
  ty_screen : window s video;
  ty_cursor : 0 <= cur_i (console s) < 2000;
  ty_buffer : length (command (keys s)) = 128%nat
}.

Lemma popped_typing s : typing s -> typing (popped s).
Proof. intros [HW Hc Hb]. split; [by apply (window_same s)|done|done]. Qed.

Definition printable (c : Z) : Prop := 32 <= c < 127.

(** One more character: on the screen, behind the cursor, and in the command. *)
Record typed (s s' : kst) (c : Z) : Prop := {
  td_console : console s' = ConsoleState (cur_i (console s) + 1) (cur_j (console s) + 1);
  td_keys : keys s' = KeyState c (<[Z.to_nat (command_index (keys s)) := c]> (command (keys s)))
                               (command_index (keys s) + 1) (command_ready (keys s));
  td_reads : reads (mach s') = S (reads (mach s));
  td_device : device (mach s') = device (mach s);
  td_screen : window s' video;
  td_cells : screen s' = if c =? 32 then screen s
                         else <[Z.to_nat (cur_i (console s)) := Screen.glyph c]> (screen s);
  td_memory : touches video s s'
}.

Lemma command_put_ok n c s :
  0 <= n < 128 ->
  command_put n c s =
    Ok tt (set_keys (fun r => KeyState (last_key r) (<[Z.to_nat n := u8 c]> (command r))
                                       (command_index r) (command_ready r)) s).
Proof.
  intros Hn. unfold command_put, COMMAND_SIZE.
  by rewrite (proj2 (Z.leb_le 0 n)), (proj2 (Z.ltb_lt n 128)) by lia.
Qed.
Lemma command_put_outside n c s : 128 <= n -> command_put n c s = Undefined s.
Proof.
  intros Hn. unfold command_put, COMMAND_SIZE. rewrite (proj2 (Z.ltb_ge n 128)) by lia.
  by rewrite andb_false_r.
Qed.

Lemma move_noted pos s :
  exists es, Vga.move pos s =
    Ok tt (set_mach (fun m => Machine (ram m) (paging m) (cr3 m) (device m) (reads m)
                                      (es ++ trace m)) s).
Proof. by exists [Outb (u16 0x3D5) (u8 (Z.land (Z.shiftr (u16 pos) 8) 0xFF)); Outb (u16 0x3D4) (u8 0x0E);
  Outb (u16 0x3D5) (u8 (Z.land (u16 pos) 0xFF)); Outb (u16 0x3D4) (u8 0x0F)]. Qed.

Lemma screen_same_memory s s' : same_memory s s' -> screen s' = screen s.
Proof.
  intros HM. apply list_eq. intros k. rewrite !lookup_screen. case_decide; [|done].
  unfold cell, rd16. by rewrite HM.
Qed.

(** A printable key up to the store in [command]. *)
Lemma handler_types s code c :
  typing s -> next_byte s 0x60 = code -> 0 <= code < 128 -> Keyboard.key_of code = c ->
  printable c ->
  exists s1, keyboard_handler s = (command_put (command_index (keys s)) c;; outb 0x20 0x20) s1 /\
    console s1 = ConsoleState (cur_i (console s) + 1) (cur_j (console s) + 1) /\
    keys s1 = KeyState c (command (keys s)) (command_index (keys s) + 1) (command_ready (keys s)) /\
    reads (mach s1) = S (reads (mach s)) /\ device (mach s1) = device (mach s) /\
    window s1 video /\
    screen s1 = (if c =? 32 then screen s
                 else <[Z.to_nat (cur_i (console s)) := Screen.glyph c]> (screen s)) /\
    touches video s s1.
Proof.
  intros HT Hn Hc Hk Hp. pose proof (popped_typing s HT) as [HW Hi Hb].
  unfold keyboard_handler. run_with (read_key s code Hn Hc). rewrite Hk.
  unfold printable in Hp. unfold set_last_key. rewrite modify_bind.
  set (s0 := set_keys _ (popped s)). assert (window s0 video) as HW0 by exact (window_mach (popped s) s0 video eq_refl HW).
  change (cur_i (console (popped s))) with (cur_i (console s0)) in Hi.
  unfold get_i, get_j, Vga.set_i, Vga.set_j, move_i, command_push, set_command_index, get_i.
  rewrite gets_bind, (proj2 (Z.leb_gt 2000 _)), ret_bind, (proj2 (Z.eqb_neq c 0)),
    (proj2 (Z.eqb_neq c 10)) by lia.
  destruct (Z.eqb_spec c 32) as [->|H32].
  - run. set (s1 := set_console _ (set_console _ s0)).
    destruct (move_noted (cur_i (console s1)) s1) as (es & R). run_with R. run.
    eexists. split; [reflexivity|]. do 4 (split; [reflexivity|]). split.
    + by apply (window_same s0).
    + split; [by apply (screen_same_memory s)|]. apply touches_same_memory; [done|exact video_u32].
  - unfold Keyboard.KEY_UP, Keyboard.KEY_DOWN, Keyboard.KEY_LEFT, Keyboard.KEY_RIGHT.
    rewrite (proj2 (Z.eqb_neq c 8)), (proj2 (Z.eqb_neq c 256)), (proj2 (Z.eqb_neq c 257)),
      (proj2 (Z.eqb_neq c 258)), (proj2 (Z.eqb_neq c 259)) by lia.
    destruct (print_ok c (cur_i (console s0)) s0 HW0 Hi) as (s1 & R1 & H1).
    pose proof (shown_window _ _ _ H1 HW0) as HW1. destruct H1 as [S1 Hs1].
    pose proof (print_input _ _ _ _ R1) as [D1 E1]. destruct (st_machine _ _ _ S1) as [m Hm].
    rewrite bind_assoc, gets_bind, bind_assoc. run_with R1.
    run. set (s2 := set_console _ (set_console _ s1)).
    destruct (move_noted (cur_i (console s2)) s2) as (es & R). run_with R. run.
    assert (console s1 = console s /\ keys s1 = keys s0) as [Ec Ek] by (by rewrite Hm).
    set (s3 := set_mach _ s2).
    assert (command_index (keys s3) = command_index (keys s)) as ->
      by (change (keys s3) with (keys s1); by rewrite Ek).
    eexists. split; [reflexivity|].
    assert (screen s0 = screen s) as Es by (by apply (screen_same_memory s)).
    split_and!.
    + simpl. by rewrite Ec.
    + simpl. by rewrite Ek.
    + simpl. by rewrite E1.
    + simpl. by rewrite D1.
    + apply (window_same s1); [|exact HW1]. split_and!; reflexivity.
    + refine (eq_trans (screen_same_memory s1 _ _) _); [by split_and!|].
      rewrite Hs1, Es. reflexivity.
    + apply (touches_trans _ _ s1); [|apply touches_same_memory; [split_and!; reflexivity|exact video_u32]].
      apply (touches_trans _ _ s0); [apply touches_same_memory; [split_and!; reflexivity|exact video_u32]|].
      exact (stores_touches video video s0 s1 S1 (fun _ Hv => Hv) video_u32).
Qed.

(** The key that produces a character, and room for it. *)
Lemma handler_typed s code c :
  typing s -> next_byte s 0x60 = code -> 0 <= code < 128 -> Keyboard.key_of code = c ->
  printable c -> 0 <= command_index (keys s) < 128 ->
  exists s', keyboard_handler s = Ok tt s' /\ typed s s' c.
Proof.
  intros HT Hn Hc Hk Hp Hi.
  destruct (handler_types s code c HT Hn Hc Hk Hp) as (s1 & R & E1 & E2 & E3 & E4 & HW & Hs & HM).
  rewrite R. run_with (command_put_ok (command_index (keys s)) c s1 Hi).
  eexists. split; [reflexivity|]. unfold printable in Hp. split.
  - exact E1.
  - simpl. rewrite E2. simpl. by rewrite u8_small by (unfold in_u8; lia).
  - exact E3.
  - exact E4.
  - apply (window_same s1); [|exact HW]. split_and!; reflexivity.
  - refine (eq_trans (screen_same_memory s1 _ _) Hs). by split_and!.
  - apply (touches_trans _ _ s1); [exact HM|].
    apply touches_same_memory; [by split_and!|exact video_u32].
Qed.

(** Enter, from any place in the line. *)
Lemma handler_enter s :
  typing s -> next_byte s 0x60 = 0x1C -> 0 <= command_index (keys s) < 128 ->
  exists s', keyboard_handler s = Ok tt s' /\
    console s' = ConsoleState (cur_i (console s) + 80 - cur_j (console s)) 0 /\
    keys s' = KeyState 10 (<[Z.to_nat (command_index (keys s)) := 0]> (command (keys s)))
                       (command_index (keys s)) 1.
Proof.
  intros HT Hn Hi. pose proof (popped_typing s HT) as [HW Hc Hb].
  unfold keyboard_handler. run_with (read_key s 0x1C Hn ltac:(lia)).
  change (Keyboard.key_of 0x1C) with 10. unfold set_last_key. rewrite modify_bind.
  set (s0 := set_keys _ (popped s)). change (cur_i (console (popped s))) with (cur_i (console s0)) in Hc.
  unfold get_i, get_j, Vga.set_i, Vga.set_j, move_i, set_command_ready, get_i.
  rewrite gets_bind, (proj2 (Z.leb_gt 2000 _)), ret_bind by lia.
  change (10 =? 0) with false. change (10 =? 10) with true. cbv iota.
  run. set (s1 := set_console _ (set_console _ s0)).
  destruct (move_noted (cur_i (console s1)) s1) as (es & R). run_with R. run.
  rewrite (bind_ok _ _ _ _ _ (command_put_ok (command_index (keys s)) 0 _ Hi)).
  eexists. split; [reflexivity|]. by split.
Qed.

(** ** A line *)

Definition pressed (codes : list Z) : K unit := for_each codes (fun _ => keyboard_handler).
(** The controller will deliver the scan codes. *)
Definition delivers (s : kst) (codes : list Z) : Prop :=
  forall k code, codes !! k = Some code ->
    u8 (device (mach s) 0x60 (reads (mach s) + k)) = code.
Definition char_key (code : Z) : Prop := 0 <= code < 128 /\ printable (Keyboard.key_of code).

Lemma delivers_next s code codes : delivers s (code :: codes) -> next_byte s 0x60 = code.
Proof. intros HD. specialize (HD 0%nat code eq_refl). by rewrite Nat.add_0_r in HD. Qed.
Lemma delivers_rest s s' code codes :
  delivers s (code :: codes) -> device (mach s') = device (mach s) ->
  reads (mach s') = S (reads (mach s)) -> delivers s' codes.
Proof.
  intros HD Ed Er k c Hk. rewrite Ed, Er. specialize (HD (S k) c Hk).
  by replace (reads (mach s) + S k)%nat with (S (reads (mach s)) + k)%nat in HD by lia.
Qed.

(** The characters of a line follow each other in [command]. *)
Lemma pressed_chars codes s :
  typing s -> Forall char_key codes -> delivers s (codes ++ [0x1C]) ->
  0 <= command_index (keys s) -> command_index (keys s) + Z.of_nat (length codes) < 128 ->
  cur_i (console s) + Z.of_nat (length codes) < 2000 ->
  exists s', pressed codes s = Ok tt s' /\ typing s' /\ delivers s' [0x1C] /\
    console s' = ConsoleState (cur_i (console s) + Z.of_nat (length codes))
                              (cur_j (console s) + Z.of_nat (length codes)) /\
    command_index (keys s') = command_index (keys s) + Z.of_nat (length codes) /\
    take (Z.to_nat (command_index (keys s) + Z.of_nat (length codes))) (command (keys s')) =
      take (Z.to_nat (command_index (keys s))) (command (keys s)) ++ (Keyboard.key_of <$> codes).
Proof.
  revert s. induction codes as [|code codes IH]; intros s HT HF HD H0 Hn Hcur.
  { exists s. simpl. rewrite !Z.add_0_r, app_nil_r. split; [done|]. split; [done|].
    split; [exact HD|]. by destruct (console s). }
  apply Forall_cons in HF as [[Hc Hp] HF]. simpl length in *.
  destruct (handler_typed s code _ HT (delivers_next _ _ _ HD) Hc eq_refl Hp ltac:(lia))
    as (s1 & R1 & [E1 E2 E3 E4 HW Hs _]).
  pose proof (ty_cursor _ HT) as Hi. pose proof (ty_buffer _ HT) as Hb.
  destruct (IH s1) as (s2 & R2 & HT2 & HD2 & C2 & I2 & T2); rewrite ?E1, ?E2 in *; simpl in *; try lia.
  - split; [done|rewrite E1; simpl; lia|rewrite E2; simpl; by rewrite length_insert].
  - done.
  - by apply (delivers_rest s s1 code).
  - exists s2. split; [unfold pressed; simpl; by run_with R1|]. split; [done|]. split; [done|].
    split; [rewrite C2; f_equal; lia|]. split; [lia|].
    set (n := command_index (keys s)) in *.
    replace (n + Z.of_nat (S (length codes))) with (n + 1 + Z.of_nat (length codes)) by lia.
    rewrite T2. replace (Z.to_nat (n + 1)) with (S (Z.to_nat n)) by lia.
    rewrite (take_S_r _ _ (Keyboard.key_of code)) by (apply list_lookup_insert_eq; lia).
    rewrite take_insert_ge by lia. by rewrite <- app_assoc.
Qed.

End input.

(** * What is typed is what the shell reads *)

Section guarantees.
Import Kernel.

Lemma typed_line_ok codes s :
  typing s -> Forall char_key codes -> delivers s (codes ++ [0x1C]) ->
  command_index (keys s) = 0 -> Z.of_nat (length codes) < 128 ->
  cur_i (console s) + Z.of_nat (length codes) < 2000 ->
  exists s', pressed (codes ++ [0x1C]) s = Ok tt s' /\
    take (S (length codes)) (command (keys s')) = (Keyboard.key_of <$> codes) ++ [0] /\
    command_index (keys s') = Z.of_nat (length codes) /\ command_ready (keys s') = 1 /\
    console s' = ConsoleState (cur_i (console s) - cur_j (console s) + 80) 0 /\
    length (command (keys s')) = 128%nat.
Proof.
  intros HT HF HD H0 Hn Hcur.
  destruct (pressed_chars codes s HT HF HD) as (s1 & R1 & HT1 & HD1 & C1 & I1 & T1); [lia..|].
  rewrite H0, Z.add_0_l in I1. rewrite H0, Z.add_0_l, Nat2Z.id in T1. simpl in T1.
  destruct (handler_enter s1 HT1 (delivers_next _ _ _ HD1) ltac:(lia)) as (s2 & R2 & C2 & K2).
  pose proof (ty_buffer _ HT1) as Hb. exists s2. split.
  { unfold pressed. rewrite for_each_app. fold (pressed codes). run_with R1. simpl. by run_with R2. }
  rewrite K2, C2, C1, I1. simpl. rewrite Nat2Z.id. rewrite length_insert.
  split; [|split; [done|split; [done|split; [f_equal; lia|done]]]].
  rewrite (take_S_r _ _ 0) by (apply list_lookup_insert_eq; lia).
  by rewrite take_insert_ge, T1 by lia.
Qed.

(** C24: a line: with an empty [command] and room for the characters before the
    end of the screen, the interrupts of up to 127 character keys and of Enter
    leave the characters in [command], a zero behind them and [command_ready]
    set.  The new cursor is the cell [cur_i - cur_j + 80] of the old one, with
    column 0: when [cur_i - cur_j] is the start of a row and the line ends in
    that row, this is the start of the row below the line.  A line that runs on
    into the next row gets no row more: the cursor is then at the start of the
    row it is in, or above. *)
Theorem typed_line_is_command codes s :
  typing s -> Forall char_key codes -> delivers s (codes ++ [0x1C]) ->
  command_index (keys s) = 0 -> Z.of_nat (length codes) < 128 ->
  cur_i (console s) + Z.of_nat (length codes) < 2000 ->
  exists s', pressed (codes ++ [0x1C]) s = Ok tt s' /\
    take (S (length codes)) (command (keys s')) = (Keyboard.key_of <$> codes) ++ [0] /\
    command_index (keys s') = Z.of_nat (length codes) /\ command_ready (keys s') = 1 /\
    console s' = ConsoleState (cur_i (console s) - cur_j (console s) + 80) 0 /\
    ((cur_i (console s) - cur_j (console s)) mod 80 = 0 ->
     0 <= cur_j (console s) -> cur_j (console s) + Z.of_nat (length codes) < 80 ->
     cur_i (console s') = 80 * ((cur_i (console s) + Z.of_nat (length codes)) / 80 + 1)).
Proof.
  intros HT HF HD H0 Hn Hcur.
  destruct (typed_line_ok codes s HT HF HD H0 Hn Hcur) as (s' & R & T & I & Rd & C & _). exists s'.
  split; [done|]. split; [done|]. split; [done|]. split; [done|]. split; [done|].
  rewrite C. simpl. lia.
Qed.

(** C40: nothing bounds the line: with 128 characters in [command] the next
    character key stores behind the array. *)
Theorem typed_line_overflows s code :
  typing s -> next_byte s 0x60 = code -> char_key code -> command_index (keys s) = 128 ->
  exists s', keyboard_handler s = Undefined s' /\ command_index (keys s') = 129.
Proof.
  intros HT Hn [Hc Hp] Hi.
  destruct (handler_types s code _ HT Hn Hc eq_refl Hp) as (s1 & R & _ & E2 & _).
  exists s1. rewrite R, E2, Hi. split; [|done].
  unfold mbind, K_bind. by rewrite command_put_outside.
Qed.

(** Scan codes the controller delivers from the start on. *)
Definition keyboard_device (codes : list Z) : Z -> nat -> Z :=
  fun port n => if port =? 0x60 then default 0 (codes !! n) else 0.

(** Backspace takes the character off the screen and not out of
    [command]: A, Backspace, B, Enter leave the line AB. *)
Theorem backspace_keeps_command :
  exists s', pressed [0x1E; 0x0E; 0x30; 0x1C]
      (boot_state [] (keyboard_device [0x1E; 0x0E; 0x30; 0x1C])) = Ok tt s' /\
    take 3 (command (keys s')) = codes "ab" ++ [0] /\ command_ready (keys s') = 1 /\
    cell s' 400 = Screen.glyph (Z.of_nat 98).
Proof. eexists. split; [vm_compute; reflexivity|]. split; [vm_compute; reflexivity|]. split; vm_compute; reflexivity. Qed.

End guarantees.

Section examples.
Import Kernel.

Definition hi_enter : list Z := [0x23; 0x17; 0x1C].
Definition at_keyboard (index : Z) : kst :=
  set_keys (fun k => KeyState (last_key k) (command k) index (command_ready k))
    (boot_state [] (keyboard_device hi_enter)).
Lemma at_keyboard_typing index : typing (at_keyboard index).
Proof.
  split; [|by vm_compute|by vm_compute].
  apply flat_window; [by vm_compute|exact video_u32].
Qed.

Lemma typed_line_is_command_witness :
  exists s', pressed hi_enter (at_keyboard 0) = Ok tt s' /\
    take 3 (command (keys s')) = codes "hi" ++ [0].
Proof.
  destruct (typed_line_is_command [0x23; 0x17] (at_keyboard 0)) as (s' & R & T & _).
  - apply at_keyboard_typing.
  - rewrite !Forall_cons, Forall_nil. unfold char_key, printable. split_and!; (done || by vm_compute).
  - intros k code Hk. destruct k as [|[|[|k]]]; [..|done]; injection Hk as <-; by vm_compute.
  - done.
  - done.
  - by vm_compute.
  - exists s'. split; [exact R|exact T].
Defined.

Lemma typed_line_overflows_witness :
  exists s', keyboard_handler (at_keyboard 128) = Undefined s'.
Proof.
  destruct (typed_line_overflows (at_keyboard 128) 0x23) as (s' & R & _).
  - apply at_keyboard_typing.
  - by vm_compute.
  - unfold char_key, printable. split; [lia|]. by vm_compute.
  - done.
  - by exists s'.
Defined.

End examples.
