(* ===== verification/Stubs.v ===== *)
(** The assembly between the processor and the handlers: kernel/irqo.asm,
    kernel/keyboard_isr.asm, kernel/exception.asm, kernel/sycall_handeler.asm
    and kernel/restore_esp.asm.

    A [context] is what the processor holds while a process runs.  An interrupt
    pushes it on a stack, a handler of Kernel or Syscall runs, and the stub pops
    it again; [restore_esp] pops the context of another process.  Pushes and
    pops are loads and stores, so what comes back is what memory holds. *)

From S2P Require Import Prelude Machine State Mmu Window PageSource Vga MemMap Paging MemLib Heap Descriptors Devices Process Switch Spawn Elf Syscall Kernel Timer Keys.

(** * The processor *)

Record context := Context {
  c_gs : Z; c_fs : Z; c_es : Z; c_ds : Z;
  c_edi : Z; c_esi : Z; c_ebp : Z; c_ebx : Z; c_edx : Z; c_ecx : Z; c_eax : Z;
  c_eip : Z; c_cs : Z; c_eflags : Z;
  c_esp : Z; c_ss : Z
}.

(** The privilege level is in the low bits of [cs]. *)
Definition user_mode (cs : Z) : bool := Z.land cs 3 =? 3.

(** [push] and [pop]: the stack pointer is an argument and a result. *)
Definition push (v sp : Z) : K Z := store32 (u32 (sp - 4)) v;; mret (u32 (sp - 4)).
Definition pop (sp : Z) : K (Z * Z) := v ← load32 sp; mret (v, u32 (sp + 4)).
Definition pushes (l : list Z) (sp : Z) : K Z := for_fold l sp push.

Module Stubs.

(** An interrupt: from user code the processor takes the stack of the task
    state segment and pushes the old one first. *)
Definition interrupted (x : context) : K Z :=
  if user_mode (c_cs x) then
    sp ← gets (fun s => esp0 (tss (descs s)));
    pushes [c_ss x; c_esp x; c_eflags x; c_cs x; c_eip x] sp
  else pushes [c_eflags x; c_cs x; c_eip x] (c_esp x).
Definition pusha (x : context) (sp : Z) : K Z :=
  pushes [c_eax x; c_ecx x; c_edx x; c_ebx x; sp; c_ebp x; c_esi x; c_edi x] sp.
Definition push_segments (x : context) (sp : Z) : K Z :=
  pushes [c_ds x; c_es x; c_fs x; c_gs x] sp.

(** [popa; iretd], after the four segment registers are back.  [popa] skips
    the stack pointer; [iretd] pops one when it returns to user code, and else
    leaves it behind what it has popped. *)
Definition popa_iretd (gs fs es ds sp : Z) : K context :=
  '(edi, sp) ← pop sp; '(esi, sp) ← pop sp; '(ebp, sp) ← pop sp; '(_, sp) ← pop sp;
  '(ebx, sp) ← pop sp; '(edx, sp) ← pop sp; '(ecx, sp) ← pop sp; '(eax, sp) ← pop sp;
  '(eip, sp) ← pop sp; '(cs, sp) ← pop sp; '(eflags, sp) ← pop sp;
  if user_mode cs then
    '(esp, sp) ← pop sp; '(ss, _) ← pop sp;
    mret (Context gs fs es ds edi esi ebp ebx edx ecx eax eip cs eflags esp ss)
  else
    mret (Context gs fs es ds edi esi ebp ebx edx ecx eax eip cs eflags sp Descriptors.KERNEL_DS).

(** [enter] leaves a [registers_t] in memory and gives its address, [leave] is
    the way back. *)
Definition enter (x : context) : K Z :=
  sp ← interrupted x; sp ← pusha x sp; push_segments x sp.
Definition leave (sp : Z) : K context :=
  '(gs, sp) ← pop sp; '(fs, sp) ← pop sp; '(es, sp) ← pop sp; '(ds, sp) ← pop sp;
  popa_iretd gs fs es ds sp.

Definition irq0 `{Fuel} (x : context) : K context :=
  f ← enter x; Kernel.irq0_handler f;; leave f.
Definition syscall_handler `{Layout} `{Fuel} (x : context) : K context :=
  f ← enter x; Syscall.syscall_dispatch f;; leave f.

(** The segment registers stay as they are.  Between [popa] and [iret] the stub
    writes to the interrupt controller through [al]. *)
Definition with_al (v : Z) (x : context) : context :=
  Context (c_gs x) (c_fs x) (c_es x) (c_ds x) (c_edi x) (c_esi x) (c_ebp x) (c_ebx x) (c_edx x)
    (c_ecx x) (Z.lor (Z.land (c_eax x) 0xFFFFFF00) v) (c_eip x) (c_cs x) (c_eflags x)
    (c_esp x) (c_ss x).
Definition keyboard_isr (x : context) : K context :=
  sp ← interrupted x; sp ← pusha x sp;
  Kernel.keyboard_handler;;
  y ← popa_iretd (c_gs x) (c_fs x) (c_es x) (c_ds x) sp;
  outb 0x20 0x20;;
  mret (with_al 0x20 y).

(** [isr8], [isr13] and [isr14]: the processor has pushed an error code, the
    stub pushes the vector. *)
Definition isr_common (vector error_code cr2 : Z) (x : context) : K unit :=
  sp ← interrupted x; sp ← pushes [error_code; vector] sp; sp ← pusha x sp;
  vector ← load32 (sp + 32); error_code ← load32 (sp + 36); eip ← load32 (sp + 40);
  Kernel.fault_handler vector error_code eip cr2.

(** [restore_esp(p)] goes on in the context at [p->regs]. *)
Definition restore_esp (p : Z) : K context := sp ← Process.get p Process.regs; leave sp.

End Stubs.

(** * Pushing and popping *)

Import Process Stubs.

(** The words below [top], the last one pushed first. *)
Lemma pushes_ok s W l top :
  window s W -> top < 2 ^ 32 -> 4 * Z.of_nat (length l) <= top ->
  subset (span (top - 4 * Z.of_nat (length l)) (4 * Z.of_nat (length l))) W ->
  exists s', pushes l top s = Ok (top - 4 * Z.of_nat (length l)) s' /\
    stores (span (top - 4 * Z.of_nat (length l)) (4 * Z.of_nat (length l))) s s' /\
    forall k v, l !! k = Some v -> rd32 s' (top - 4 * (Z.of_nat k + 1)) = u32 v.
Proof.
  revert s top. induction l as [|v l IH]; intros s top HW Ht Hl Hin.
  { exists s. split; [|split; [exact (stores_none _ s W HW Hin)|done]]. simpl. by rewrite Z.sub_0_r. }
  simpl length in *. set (n := 4 * Z.of_nat (length l)) in *.
  replace (4 * Z.of_nat (S (length l))) with (n + 4) in * by lia.
  assert (u32 (top - 4) = top - 4) as Hu by (apply u32_small; unfold in_u32; lia).
  assert (subset (span (top - 4) 4) W) as Hv by (intros a Ha; apply Hin; unfold span in *; lia).
  destruct (store_frame s W 4 (top - 4) v HW Hv) as (s1 & R1 & S1 & V1 & F1).
  pose proof (stores_window _ _ _ _ S1 HW) as HW1.
  destruct (IH s1 (top - 4) HW1 ltac:(lia) ltac:(lia)) as (s' & R & S & V).
  { intros a Ha. apply Hin. unfold span in *. lia. }
  fold n in R, S. exists s'. split; [|split].
  - change (pushes (v :: l) top s) with ((sp ← push v top; pushes l sp) s).
    unfold push. rewrite Hu, bind_assoc. unfold store32. run_with R1. rewrite ret_bind, R.
    f_equal. lia.
  - assert (subset (span (top - (n + 4)) (n + 4)) in_u32) as H32
      by (intros a Ha; apply (win_u32 _ _ HW), Hin, Ha).
    apply (stores_again _ _ s1); (eapply stores_weaken; [eassumption| |exact H32]);
      intros a Ha; unfold span in *; lia.
  - intros [|k] w Hk; simpl in Hk.
    + injection Hk as <-. replace (top - 4 * (Z.of_nat 0 + 1)) with (top - 4) by lia.
      transitivity (rd32 s1 (top - 4)); [|exact V1]. apply (stores_rd 4 _ _ _ W _ S HW1).
      * intros a Ha. apply Hin. unfold span in *. lia.
      * exact Hv.
      * intros a. unfold span. lia.
    + rewrite <- (V k w Hk). f_equal. lia.
Qed.

Lemma pushes_app l1 l2 sp s : pushes (l1 ++ l2) sp s = (sp ← pushes l1 sp; pushes l2 sp) s.
Proof.
  unfold pushes. revert sp s. induction l1 as [|v l1 IH]; intros sp s; [done|]. simpl.
  rewrite bind_assoc. unfold mbind, K_bind. destruct (push v sp s); [|done..].
  specialize (IH a s0). unfold mbind, K_bind in IH. by rewrite IH.
Qed.

Lemma pop_ok s W f k k' sp :
  window s W -> subset (span (f + 4 * k) 4) W -> 0 <= f -> 0 <= k -> f + 4 * k' < 2 ^ 32 ->
  k' = k + 1 -> sp = f + 4 * k ->
  pop sp s = Ok (field s f (4 * k), f + 4 * k') s.
Proof.
  intros HW Hin Hf Hk Hb -> ->. unfold pop, load32.
  run_with (load_ok s W HW 4 _ Hin). rewrite u32_small by (unfold in_u32; lia).
  unfold mret, K_ret, field, rd32. do 2 f_equal. lia.
Qed.

(** ** What a frame holds *)

(** The words of [registers_t] that make a context; the stack pointer of user
    code is one of them. *)
Definition segment_words (x : context) : list (Z * Z) :=
  [(r_gs, c_gs x); (r_fs, c_fs x); (r_es, c_es x); (r_ds, c_ds x)].
Definition general_words (x : context) : list (Z * Z) :=
  [(r_edi, c_edi x); (r_esi, c_esi x); (r_ebp, c_ebp x); (r_ebx, c_ebx x); (r_edx, c_edx x);
   (r_ecx, c_ecx x); (r_eax, c_eax x); (r_eip, c_eip x); (r_cs, c_cs x); (r_eflags, c_eflags x)].
Definition stack_words (x : context) : list (Z * Z) :=
  [(r_user_esp, c_esp x); (r_user_ss, c_ss x)].
Definition common_words (x : context) : list (Z * Z) := segment_words x ++ general_words x.
Definition user_words (x : context) : list (Z * Z) := common_words x ++ stack_words x.

Definition holds (s : kst) (f : Z) (l : list (Z * Z)) : Prop :=
  Forall (fun ov => field s f ov.1 = ov.2) l.

Lemma holds_app s f l1 l2 : holds s f (l1 ++ l2) <-> holds s f l1 /\ holds s f l2.
Proof. apply Forall_app. Qed.
Lemma holds_ext s s' f l :
  (forall off v, (off, v) ∈ l -> field s' f off = field s f off) -> holds s f l -> holds s' f l.
Proof.
  unfold holds. rewrite !Forall_forall. intros H0 H1 [off v] Hin. rewrite H0 with (v := v) by done.
  by apply (H1 (off, v)).
Qed.
(** The sixteen places are words of the frame. *)
Lemma user_words_at x off v : (off, v) ∈ user_words x -> exists k, 0 <= k < 17 /\ off = 4 * k.
Proof.
  intros Hin. exists (off / 4). unfold user_words, common_words, segment_words, general_words, stack_words in Hin. simpl app in Hin.
  rewrite !elem_of_cons, elem_of_nil in Hin.
  unfold r_gs, r_fs, r_es, r_ds, r_edi, r_esi, r_ebp, r_ebx, r_edx, r_ecx, r_eax, r_eip, r_cs,
    r_eflags, r_user_esp, r_user_ss in Hin.
  repeat destruct Hin as [[= -> _]|Hin]; try done.
Qed.

Lemma common_words_at x off v : (off, v) ∈ common_words x -> exists k, 0 <= k < 15 /\ off = 4 * k.
Proof.
  intros Hin. exists (off / 4). unfold common_words, segment_words, general_words in Hin.
  simpl app in Hin. rewrite !elem_of_cons, elem_of_nil in Hin.
  unfold r_gs, r_fs, r_es, r_ds, r_edi, r_esi, r_ebp, r_ebx, r_edx, r_ecx, r_eax, r_eip, r_cs,
    r_eflags in Hin.
  repeat destruct Hin as [[= -> _]|Hin]; try done.
Qed.

Lemma general_words_at x off v :
  (off, v) ∈ general_words x ++ stack_words x -> exists k, 4 <= k < 17 /\ off = 4 * k.
Proof.
  intros Hin. exists (off / 4). unfold general_words, stack_words in Hin.
  simpl app in Hin. rewrite !elem_of_cons, elem_of_nil in Hin.
  unfold r_edi, r_esi, r_ebp, r_ebx, r_edx, r_ecx, r_eax, r_eip, r_cs, r_eflags, r_user_esp,
    r_user_ss in Hin.
  repeat destruct Hin as [[= -> _]|Hin]; try done.
Qed.

(** All registers are 32-bit values. *)
Definition context_ok (x : context) : Prop := Forall (fun ov => in_u32 ov.2) (user_words x).

(** The rest of [enter] continues the pushes of the processor. *)
Lemma frame_pushed s s1 x l top sp :
  pushes l top s = Ok sp s1 ->
  (sp ← pusha x sp; push_segments x sp) s1 =
  pushes (l ++ [c_eax x; c_ecx x; c_edx x; c_ebx x; sp; c_ebp x; c_esi x; c_edi x] ++
               [c_ds x; c_es x; c_fs x; c_gs x]) top s.
Proof. intros R. rewrite pushes_app. run_with R. by rewrite pushes_app. Qed.

(** The place of a register among the words pushed. *)
Lemma word_at s' top n (l : list Z) off v :
  (forall k w, l !! k = Some w -> rd32 s' (top - 4 * (Z.of_nat k + 1)) = u32 w) ->
  l !! Z.to_nat (n / 4 - off / 4 - 1) = Some v -> n mod 4 = 0 -> off mod 4 = 0 -> 0 <= off < n ->
  in_u32 v -> field s' (top - n) off = v.
Proof.
  intros V Hk Hn Ho Hr Hv. rewrite <- (u32_small v Hv), <- (V _ _ Hk). unfold field. f_equal. lia.
Qed.

(** From user code the frame is at the top of the kernel stack, from the kernel
    it is below the stack pointer, and two words shorter. *)
Definition user_frame (x : context) (top : Z) : list Z :=
  [c_ss x; c_esp x; c_eflags x; c_cs x; c_eip x] ++
  [c_eax x; c_ecx x; c_edx x; c_ebx x; top - 20; c_ebp x; c_esi x; c_edi x] ++
  [c_ds x; c_es x; c_fs x; c_gs x].
Definition kernel_frame (x : context) (top : Z) : list Z :=
  [c_eflags x; c_cs x; c_eip x] ++
  [c_eax x; c_ecx x; c_edx x; c_ebx x; top - 12; c_ebp x; c_esi x; c_edi x] ++
  [c_ds x; c_es x; c_fs x; c_gs x].

(** The words one by one. *)
Ltac open_words :=
  unfold holds, context_ok, user_words, common_words, segment_words, general_words, stack_words;
  simpl app.
Ltac words_of H :=
  unfold holds, context_ok, user_words, common_words, segment_words, general_words, stack_words in H;
  simpl app in H; rewrite !Forall_cons in H; destruct_and! H; simpl fst in *; simpl snd in *.
Ltac solve_words_at V :=
  repeat (apply Forall_cons; split;
    [eapply word_at; [exact V|reflexivity|reflexivity|reflexivity|by vm_compute|assumption]|]);
  constructor.

Lemma user_frame_words s' x top :
  context_ok x ->
  (forall k w, user_frame x top !! k = Some w -> rd32 s' (top - 4 * (Z.of_nat k + 1)) = u32 w) ->
  holds s' (top - sizeof_registers) (user_words x).
Proof.
  intros Hx V. words_of Hx. open_words. solve_words_at V.
Qed.
Lemma kernel_frame_words s' x top :
  context_ok x ->
  (forall k w, kernel_frame x top !! k = Some w -> rd32 s' (top - 4 * (Z.of_nat k + 1)) = u32 w) ->
  holds s' (top - 60) (common_words x).
Proof.
  intros Hx V. words_of Hx. open_words. solve_words_at V.
Qed.

Lemma enter_user_ok s W x :
  let top := esp0 (tss (descs s)) in let f := top - sizeof_registers in
  user_mode (c_cs x) = true -> context_ok x -> window s W -> sizeof_registers <= top < 2 ^ 32 ->
  subset (span f sizeof_registers) W ->
  exists s', enter x s = Ok f s' /\ stores (span f sizeof_registers) s s' /\
    holds s' f (user_words x).
Proof.
  intros top f Hu Hx HW Ht Hin. unfold sizeof_registers in *.
  destruct (pushes_ok s W [c_ss x; c_esp x; c_eflags x; c_cs x; c_eip x] top HW)
    as (s1 & R1 & _); [lia|simpl; lia| |].
  { intros a Ha. apply Hin. unfold span, f in *. simpl in Ha. lia. }
  unfold enter, interrupted. rewrite Hu, bind_assoc, gets_bind. fold top. run_with R1.
  rewrite (frame_pushed _ _ x _ _ _ R1). clear s1 R1.
  destruct (pushes_ok s W (user_frame x top) top HW) as (s' & R & S & V); [lia|simpl; lia|exact Hin|].
  exists s'. split; [exact R|]. split; [exact S|]. by apply user_frame_words.
Qed.
Lemma enter_kernel_ok s W x :
  let top := c_esp x in let f := top - 60 in
  user_mode (c_cs x) = false -> context_ok x -> window s W -> 60 <= top ->
  subset (span f 60) W ->
  exists s', enter x s = Ok f s' /\ stores (span f 60) s s' /\ holds s' f (common_words x).
Proof.
  intros top f Hu Hx HW Ht Hin.
  assert (top < 2 ^ 32).
  { words_of Hx. unfold top, in_u32 in *. lia. }
  destruct (pushes_ok s W [c_eflags x; c_cs x; c_eip x] top HW)
    as (s1 & R1 & _); [lia|simpl; lia| |].
  { intros a Ha. apply Hin. unfold span, f in *. simpl in Ha. lia. }
  unfold enter, interrupted. rewrite Hu. run_with R1.
  rewrite (frame_pushed _ _ x _ _ _ R1). clear s1 R1.
  destruct (pushes_ok s W (kernel_frame x top) top HW) as (s' & R & S & V); [lia|simpl; lia|exact Hin|].
  exists s'. split; [exact R|]. split; [exact S|]. by apply kernel_frame_words.
Qed.

(** ** The way back *)

(** The context a frame stands for, with given segment registers. *)
Definition context_with (s : kst) (f gs fs es ds : Z) : context :=
  let user := user_mode (field s f r_cs) in
  Context gs fs es ds
    (field s f r_edi) (field s f r_esi) (field s f r_ebp) (field s f r_ebx) (field s f r_edx)
    (field s f r_ecx) (field s f r_eax) (field s f r_eip) (field s f r_cs) (field s f r_eflags)
    (if user then field s f r_user_esp else f + 60)
    (if user then field s f r_user_ss else Descriptors.KERNEL_DS).
Definition context_at (s : kst) (f : Z) : context :=
  context_with s f (field s f r_gs) (field s f r_fs) (field s f r_es) (field s f r_ds).

Section leaving.
Context (s : kst) (W : Z -> Prop) (f lo n : Z).
Context (HW : window s W) (Hf : 0 <= f) (Hn : f + n < 2 ^ 32) (Hlo : 0 <= lo).
Context (Hin : subset (span (f + lo) (n - lo)) W).
Context (Hl : (if user_mode (field s f r_cs) then 68 else 60) <= n).

Lemma pop_word k k' : lo <= 4 * k -> k' = k + 1 -> 4 * k' <= n ->
  pop (f + 4 * k) s = Ok (field s f (4 * k), f + 4 * k') s.
Proof using HW Hin Hf Hn Hlo.
  intros Hk -> Hb. apply (pop_ok s W f k (k + 1)); try done; [|lia|lia].
  intros a Ha. apply Hin. unfold span in *. lia.
Qed.
Ltac pop_at k k' := run_with (pop_word k k' ltac:(lia) eq_refl ltac:(lia)); cbv beta iota.

Lemma popa_iretd_ok gs fs es ds :
  lo <= 16 -> popa_iretd gs fs es ds (f + 4 * 4) s = Ok (context_with s f gs fs es ds) s.
Proof using HW Hin Hf Hn Hlo Hl.
  intros Hlo'. assert (60 <= n) by (case_match; lia). unfold popa_iretd.
  pop_at 4 5. pop_at 5 6. pop_at 6 7. pop_at 7 8. pop_at 8 9. pop_at 9 10. pop_at 10 11.
  pop_at 11 12. pop_at 12 13. pop_at 13 14. pop_at 14 15.
  unfold context_with. change (4 * 13) with r_cs. destruct (user_mode (field s f r_cs)); [|done].
  pop_at 15 16. pop_at 16 17. done.
Qed.

Lemma leave_ok : lo = 0 -> leave f s = Ok (context_at s f) s.
Proof using HW Hin Hf Hn Hlo Hl.
  intros H0. assert (60 <= n) by (case_match; lia). transitivity (leave (f + 4 * 0) s); [f_equal; lia|].
  unfold leave. pop_at 0 1. pop_at 1 2. pop_at 2 3. pop_at 3 4. apply popa_iretd_ok. lia.
Qed.

End leaving.

(** The context that has been pushed. *)
Ltac context_words H := words_of H;
  repeat match goal with E : field _ _ _ = _ |- _ => rewrite E; clear E end.

Lemma context_with_user s f x gs fs es ds :
  user_mode (c_cs x) = true -> holds s f (general_words x ++ stack_words x) ->
  context_with s f gs fs es ds =
    Context gs fs es ds (c_edi x) (c_esi x) (c_ebp x) (c_ebx x) (c_edx x) (c_ecx x) (c_eax x)
      (c_eip x) (c_cs x) (c_eflags x) (c_esp x) (c_ss x).
Proof. intros Hu H. unfold context_with. context_words H. by rewrite Hu. Qed.
Lemma context_at_user s f x :
  user_mode (c_cs x) = true -> holds s f (user_words x) -> context_at s f = x.
Proof.
  intros Hu H. unfold context_at. unfold user_words, common_words in H. rewrite <- app_assoc in H.
  apply holds_app in H as [Hs H]. rewrite (context_with_user s f x) by done.
  context_words Hs. by destruct x.
Qed.
(** A return to the kernel leaves the stack pointer behind the frame. *)
Definition behind (f : Z) (x : context) : context :=
  Context (c_gs x) (c_fs x) (c_es x) (c_ds x) (c_edi x) (c_esi x) (c_ebp x)
    (c_ebx x) (c_edx x) (c_ecx x) (c_eax x) (c_eip x) (c_cs x) (c_eflags x) (f + 60)
    Descriptors.KERNEL_DS.
Lemma context_at_kernel s f x :
  user_mode (c_cs x) = false -> holds s f (common_words x) -> context_at s f = behind f x.
Proof. intros Hu H. unfold context_at, context_with. context_words H. by rewrite Hu. Qed.


(** * Sharing the processor

    A process that user code runs in has its registers to itself, whatever the
    timer does.  The specification is a machine with one context per process. *)

Section sharing.
Import Kernel.
Context `{Fuel} (W : Z -> Prop) (l : list Z) (Hlen : (length l < fuel)%nat).

(** The process [on] runs, the others hold their contexts.  User code changes
    the context of the one that runs, an interrupt changes which one it is. *)
Record shared := Shared { on : Z; held : gmap Z context }.
Inductive action := Work (x : context) | Interrupt (q : Z).
Definition act (a : shared) (e : action) : shared :=
  match e with
  | Work x => Shared (on a) (<[on a := x]> (held a))
  | Interrupt q => Shared q (held a)
  end.

(** The frame of every process is at the top of its kernel stack, apart from
    those of the others, and the task state segment has the stack of the
    current one. *)
Definition frame (s : kst) (p : Z) : Z := field s p regs.
Record shares (s : kst) : Prop := {
  sh_running : running W l s;
  sh_esp0 : esp0 (tss (descs s)) = field s (current_process (procs s)) kernel_stack_to;
  sh_top : forall p, p ∈ l -> field s p kernel_stack_to = frame s p + sizeof_registers;
  sh_apart : forall p q, p ∈ l -> q ∈ l -> p <> q ->
    frame s p + sizeof_registers <= frame s q \/ frame s q + sizeof_registers <= frame s p
}.

Definition user_context (x : context) : Prop := user_mode (c_cs x) = true /\ context_ok x.

(** The processor runs [on] with the registers [x]; the others are in memory. *)
Record represents (s : kst) (x : context) (a : shared) : Prop := {
  re_shares : shares s;
  re_on : current_process (procs s) = on a;
  re_live : held a !! on a = Some x;
  re_context : user_context x;
  re_saved : forall p, p ∈ l -> p <> on a -> exists y,
    held a !! p = Some y /\ user_context y /\ holds s (frame s p) (user_words y)
}.

(** What user code, and a handler that returns to it, may do: not touch the
    records of the processes, and not the frames of the others. *)
Definition works (s s' : kst) : Prop :=
  quiet W l s s' /\ descs s' = descs s /\
  forall p k, p ∈ l -> p <> current_process (procs s) -> 0 <= k < 17 ->
    field s' (frame s p) (4 * k) = field s (frame s p) (4 * k).

Inductive slice : kst * context -> action -> kst * context -> Prop :=
  | slice_work s x s' x' : works s s' -> user_context x' -> slice (s, x) (Work x') (s', x')
  | slice_return s x s' x' :
      irq0 x s = Ok x' s' -> slice (s, x) (Interrupt (current_process (procs s))) (s', x')
  | slice_switch s x q s' x' s'' :
      irq0 x s = Switched q s' -> restore_esp q s' = Ok x' s'' ->
      slice (s, x) (Interrupt q) (s'', x').
Inductive slices : kst * context -> list action -> kst * context -> Prop :=
  | slices_nil e : slices e [] e
  | slices_cons e1 e2 e3 b tr : slice e1 b e2 -> slices e2 tr e3 -> slices e1 (b :: tr) e3.

(** ** The frames *)

Lemma frame_in s p : shares s -> p ∈ l -> subset (span (frame s p) sizeof_registers) W.
Proof. intros HS Hp. by apply (ru_regs _ _ _ (sh_running s HS) p). Qed.
Lemma frame_bounds s p : shares s -> p ∈ l ->
  0 <= frame s p /\ frame s p + sizeof_registers < 2 ^ 32.
Proof.
  intros HS Hp. pose proof (rd32_range s (p + regs)). pose proof (rd32_range s (p + kernel_stack_to)).
  pose proof (sh_top s HS p Hp) as Ht. unfold frame, field in *. unfold in_u32 in *. lia.
Qed.

(** What [shares] depends on. *)
Lemma shares_same s s' :
  shares s -> procs_list s' W l -> current_process (procs s') ∈ l ->
  esp0 (tss (descs s')) = field s' (current_process (procs s')) kernel_stack_to ->
  (forall p k, p ∈ l -> 0 <= k < 12 -> 4 * k <> state -> field s' p (4 * k) = field s p (4 * k)) ->
  shares s'.
Proof.
  intros [HR _ Ht Ha] HL Hc He HF.
  assert (forall p, p ∈ l -> frame s' p = frame s p) as Hfr by (intros p Hp; by apply (HF p 4)).
  split; [|done| |].
  - apply (running_fields W l s); done.
  - intros p Hp. rewrite Hfr, <- Ht by done. by apply (HF p 3).
  - intros p q Hp Hq Hpq. rewrite !Hfr by done. by apply Ha.
Qed.

(** A frame that is not written still holds its context. *)
Lemma holds_frame s s' f x :
  (forall k, 0 <= k < 17 -> field s' f (4 * k) = field s f (4 * k)) ->
  holds s f (user_words x) -> holds s' f (user_words x).
Proof.
  intros HF. apply holds_ext. intros off v Hin. destruct (user_words_at x off v Hin) as (k & Hk & ->).
  by apply HF.
Qed.

Lemma leave_user s p x :
  shares s -> p ∈ l -> user_context x -> holds s (frame s p) (user_words x) ->
  leave (frame s p) s = Ok x s.
Proof.
  intros HS Hp [Hu Hx] Hh. destruct (frame_bounds s p HS Hp) as [H0 H1].
  pose proof (pl_window _ _ _ (ru_list _ _ _ (sh_running s HS))) as HW.
  pose proof (frame_in s p HS Hp) as Hin.
  rewrite (leave_ok s W (frame s p) 0 sizeof_registers); try done.
  - by rewrite (context_at_user s _ x).
  - by rewrite Z.add_0_r, Z.sub_0_r.
  - unfold sizeof_registers. by case_match.
Qed.
Lemma restore_user s p x :
  shares s -> p ∈ l -> user_context x -> holds s (frame s p) (user_words x) ->
  restore_esp p s = Ok x s.
Proof.
  intros HS Hp Hx Hh. unfold restore_esp. pose proof (ru_list _ _ _ (sh_running s HS)) as HL.
  run_with (get_proc_ok s W p regs (pl_window _ _ _ HL) (in_proc_ok s W l p HL Hp) ltac:(done) ltac:(done)).
  by apply (leave_user s p x).
Qed.

(** The interrupt leaves the registers in the frame of the current process and
    changes nothing else. *)
Lemma enter_frame s x :
  let c := current_process (procs s) in
  shares s -> user_context x ->
  exists s1, enter x s = Ok (frame s c) s1 /\ shares s1 /\ (exists m, s1 = set_mach (fun _ => m) s) /\
    frame s1 c = frame s c /\ holds s1 (frame s c) (user_words x) /\
    (forall p k, p ∈ l -> 0 <= k < 12 -> field s1 p (4 * k) = field s p (4 * k)) /\
    forall p k, p ∈ l -> p <> c -> 0 <= k < 17 ->
      field s1 (frame s p) (4 * k) = field s (frame s p) (4 * k).
Proof.
  intros c HS [Hu Hx]. pose proof (sh_running s HS) as [HL Hc Hr]. fold c in Hc.
  pose proof HL as [HW Hpath Hok Hsep]. destruct (frame_bounds s c HS Hc) as [H0 H1].
  pose proof (frame_in s c HS Hc) as Hin. destruct (Hr c Hc) as (_ & _ & Hra).
  assert (esp0 (tss (descs s)) - sizeof_registers = frame s c) as Ef.
  { rewrite (sh_esp0 s HS). fold c. rewrite (sh_top s HS c Hc). lia. }
  destruct (enter_user_ok s W x Hu Hx HW) as (s1 & R & S & V); rewrite ?Ef in *; [lia|done|].
  assert (forall p k, p ∈ l -> 0 <= k < 12 -> field s1 p (4 * k) = field s p (4 * k)) as HF.
  { intros p k Hp Hk. apply (stores_rd 4 _ _ _ W _ S HW Hin).
    - apply record_in; [by apply (in_proc_ok s W l)|lia|unfold sizeof_process; lia].
    - specialize (Hra p Hp). unfold apart_span, frame in *. intros a. unfold span, sizeof_process in *. lia. }
  assert (procs s1 = procs s /\ descs s1 = descs s) as [Ep Ed]
    by (by destruct (st_machine _ _ _ S) as [m ->]).
  assert (procs_list s1 W l) as HL1.
  { split; [by apply (stores_window _ _ _ _ S)| |done|done]. rewrite Ep. apply (path_same s); [|done].
    intros p Hp. by apply (HF p 9). }
  exists s1. split; [exact R|]. split; [|split; [apply (st_machine _ _ _ S)|]].
  - apply (shares_same s); try done; [by rewrite Ep| |by intros; apply HF].
    rewrite Ep, Ed, (sh_esp0 s HS). symmetry. by apply (HF c 3).
  - split; [by apply (HF c 4)|]. split; [done|]. split; [done|]. intros p k Hp Hne Hk.
    apply (stores_rd 4 _ _ _ W _ S HW Hin).
    + intros a Ha. apply (frame_in s p HS Hp). unfold span, sizeof_registers in *. lia.
    + pose proof (sh_apart s HS p c Hp Hc Hne). intros a. unfold span, sizeof_registers in *. lia.
Qed.

(** ** One interrupt of the timer *)

(** The process that is resumed: the choice of the scheduler once the sleepers
    are awake, or the same one. *)
Definition turn (s : kst) (before : list Z) (c : Z) (after : list Z) : Z :=
  let nxt := next_woken (ticked s) before after in if nxt =? 0 then c else nxt.

(** The interrupt as the timer's theorems want it. *)
Record interrupted_at (s s1 : kst) (c : Z) (x : context) : Prop := {
  ia_enter : enter x s = Ok (frame s c) s1;
  ia_shares : shares s1;
  ia_preemptible : preemptible s1 W l c (frame s c);
  ia_machine : exists m, s1 = set_mach (fun _ => m) s;
  ia_frame : holds s1 (frame s c) (user_words x);
  ia_registers : frame_registers s1 (frame s c) = 17;
  ia_fields : forall p k, p ∈ l -> 0 <= k < 12 -> field s1 p (4 * k) = field s p (4 * k);
  ia_others : forall p k, p ∈ l -> p <> c -> 0 <= k < 17 ->
    field s1 (frame s p) (4 * k) = field s (frame s p) (4 * k)
}.

Lemma interrupted_ok s c x :
  shares s -> current_process (procs s) = c -> user_context x ->
  exists s1, interrupted_at s s1 c x.
Proof.
  intros HS Hc Hx. destruct (enter_frame s x HS Hx) as (s1 & R & HS1 & Hm & Ef & Hh & HF & HK).
  rewrite Hc in *. pose proof (sh_running _ HS1) as HR1. exists s1.
  assert (procs s1 = procs s) as Ep by (by destruct Hm as [m ->]).
  split; try done.
  - rewrite <- Hc, <- Ep. apply running_preemptible; [done|].
    destruct (ru_regs _ _ _ HR1 c) as (_ & Hr & Hra); [rewrite <- Hc, <- Ep; apply HR1|].
    unfold good_frame. rewrite Ep, Hc. fold (frame s1 c) in *. rewrite Ef in *. by split_and!; [| |left].
  - unfold frame_registers. apply holds_app in Hh as [Hh _].
    words_of Hh. destruct Hx as [Hu _]. unfold user_mode in Hu.
    match goal with E : field s1 _ r_cs = _ |- _ => rewrite E end. by rewrite Hu.
Qed.

Lemma interrupted_next s s1 c x l1 l2 :
  l = l1 ++ c :: l2 -> interrupted_at s s1 c x ->
  next_woken (ticked s1) l1 l2 = next_woken (ticked s) l1 l2.
Proof.
  intros Hl HI. unfold next_woken. f_equal. apply find_ext. intros p Hp.
  assert (p ∈ l) as Hin by (rewrite Hl, elem_of_app, elem_of_cons; rewrite elem_of_app in Hp; tauto).
  unfold woken, due. rewrite !field_ticked.
  pose proof (ia_fields _ _ _ _ HI p 5 Hin ltac:(done)) as E5. change (4 * 5) with state in E5.
  pose proof (ia_fields _ _ _ _ HI p 8 Hin ltac:(done)) as E8. change (4 * 8) with wake in E8.
  rewrite E5, E8. by destruct (ia_machine _ _ _ _ HI) as [m ->].
Qed.

(** What one tick leaves: the registers of every process are where they were,
    those of the interrupted one are in its frame. *)
Record ticked_to (s s' : kst) (c q : Z) (x : context) : Prop := {
  tt_shares : shares s';
  tt_current : current_process (procs s') = q;
  tt_saved : holds s' (frame s' c) (user_words x);
  tt_others : forall p y, p ∈ l -> p <> c -> holds s (frame s p) (user_words y) ->
    holds s' (frame s' p) (user_words y)
}.

(** The frames between the interrupt and the end of the handler. *)
Lemma ticked_to_ok s s1 s' c q x :
  shares s -> c ∈ l -> interrupted_at s s1 c x -> procs_list s' W l ->
  current_process (procs s') = q -> q ∈ l -> esp0 (tss (descs s')) = field s' q kernel_stack_to ->
  (forall p k, p ∈ l -> 0 <= k < 12 -> 4 * k <> state -> field s' p (4 * k) = field s1 p (4 * k)) ->
  (forall p k, p ∈ l -> 0 <= k < 17 -> field s' (frame s p) (4 * k) = field s1 (frame s p) (4 * k)) ->
  ticked_to s s' c q x.
Proof.
  intros HS Hc HI HL Hcur Hq He HF HK.
  assert (forall p, p ∈ l -> frame s' p = frame s p) as Hfr.
  { intros p Hp. unfold frame. change regs with (4 * 4). rewrite HF by done.
    by apply (ia_fields _ _ _ _ HI p 4). }
  split.
  - apply (shares_same s1); try done; [apply (ia_shares _ _ _ _ HI)|by rewrite Hcur|by rewrite Hcur].
  - done.
  - rewrite Hfr by done. apply (holds_frame s1); [|apply (ia_frame _ _ _ _ HI)].
    intros k Hk. by apply HK.
  - intros p y Hp Hne Hh. rewrite Hfr by done. apply (holds_frame s); [|done].
    intros k Hk. rewrite HK by done. by apply (ia_others _ _ _ _ HI).
Qed.

(** The words of the frames are in the window, apart from the records. *)
Lemma frame_word_in s p k : shares s -> p ∈ l -> 0 <= k < 17 ->
  subset (span (frame s p + 4 * k) (Z.of_nat 4)) W.
Proof.
  intros HS Hp Hk a Ha. apply (frame_in s p HS Hp). unfold span, sizeof_registers in *. lia.
Qed.
Lemma frame_word_apart s p k q : shares s -> p ∈ l -> 0 <= k < 17 -> q ∈ l ->
  frame s p + 4 * k + Z.of_nat 4 <= q \/ q + sizeof_process <= frame s p + 4 * k.
Proof.
  intros HS Hp Hk Hq. destruct (ru_regs _ _ _ (sh_running s HS) p Hp) as (_ & _ & Ha).
  specialize (Ha q Hq). unfold apart_span, frame, sizeof_registers in *. lia.
Qed.

(** Nobody else is ready. *)
Lemma tick_returns s s1 s' c x :
  shares s -> c ∈ l -> user_context x -> current_process (procs s) = c ->
  interrupted_at s s1 c x -> irq0_handler (frame s c) s1 = Ok tt s' ->
  updated (ticked s1) s' W l (woken_fields (ticked s1)) ->
  ticked_to s s' c c x /\ irq0 x s = Ok x s'.
Proof.
  intros HS Hin Hx Hc HI Rh HU. pose proof (ia_shares _ _ _ _ HI) as HS1.
  destruct (ia_machine _ _ _ _ HI) as [m Hm]. destruct (up_machine _ _ _ _ _ HU) as [m' Hm'].
  assert (forall p k, p ∈ l -> 0 <= k < 12 -> 4 * k <> state -> field s' p (4 * k) = field s1 p (4 * k)) as HF.
  { intros p k Hp Hk Hne. rewrite (up_fields _ _ _ _ _ HU) by done. unfold woken_fields.
    rewrite (proj2 (Z.eqb_neq _ _) Hne). apply field_ticked. }
  assert (ticked_to s s' c c x) as HT.
  { apply (ticked_to_ok s s1); try done; [apply HU|by rewrite Hm', Hm| |].
    - change kernel_stack_to with (4 * 3). rewrite (HF c 3) by done. rewrite Hm'. simpl.
      rewrite (sh_esp0 s1 HS1), Hm. simpl. by rewrite Hc.
    - intros p k Hp Hk. rewrite <- (field_ticked s1).
      apply (up_kept _ _ _ _ _ HU); [by apply frame_word_in|intros q Hq; by apply frame_word_apart]. }
  split; [done|]. unfold irq0. run_with (ia_enter _ _ _ _ HI). run_with Rh.
  assert (frame s' c = frame s c) as <-.
  { unfold frame. change regs with (4 * 4). rewrite HF by done. by apply (ia_fields _ _ _ _ HI c 4). }
  apply (leave_user s' c x); [by apply (tt_shares _ _ _ _ _ HT)|done|done|by apply (tt_saved _ _ _ _ _ HT)].
Qed.

(** [q] is ready. *)
Lemma tick_switches s s1 s' c q x :
  shares s -> c ∈ l -> q ∈ l -> interrupted_at s s1 c x ->
  irq0_handler (frame s c) s1 = Switched q s' ->
  given_way (ticked s1) s' W l c (frame s c) q (woken_fields (ticked s1)) ->
  ticked_to s s' c q x /\ irq0 x s = Switched q s'.
Proof.
  intros HS Hin Hq HI Rh HU. pose proof (ia_fields _ _ _ _ HI c 4 Hin ltac:(done)) as Er.
  change (4 * 4) with regs in Er. fold (frame s1 c) (frame s c) in Er.
  assert (frame_registers (ticked s1) (frame s c) = 17) as H17.
  { unfold frame_registers. rewrite field_ticked. apply (ia_registers _ _ _ _ HI). }
  split; [|unfold irq0; run_with (ia_enter _ _ _ _ HI); unfold mbind, K_bind; by rewrite Rh].
  apply (ticked_to_ok s s1); try done; [apply HU|apply HU| | |].
  - rewrite (gw_stack _ _ _ _ _ _ _ _ HU). symmetry.
    exact (gw_fields _ _ _ _ _ _ _ _ HU q 3 Hq ltac:(done)).
  - intros p k Hp Hk Hst. rewrite (gw_fields _ _ _ _ _ _ _ _ HU) by done. unfold woken_fields.
    rewrite (proj2 (Z.eqb_neq _ _) Hst). apply field_ticked.
  - intros p k Hp Hk. rewrite <- (field_ticked s1). destruct (decide (p = c)) as [->|Hpc].
    + pose proof (gw_saved _ _ _ _ _ _ _ _ HU k) as Hs. rewrite (field_ticked s1 c) in Hs.
      fold (frame s1 c) in Hs. rewrite Er, H17 in Hs. by apply Hs.
    + apply (gw_kept _ _ _ _ _ _ _ _ HU);
        [by apply frame_word_in|intros r Hr; by apply frame_word_apart|].
      rewrite field_ticked. fold (frame s1 c). rewrite Er, H17.
      pose proof (sh_apart s HS p c Hp Hin Hpc). unfold sizeof_registers in *. lia.
Qed.

Lemma tick_ok s l1 c l2 x :
  let q := turn s l1 c l2 in
  l = l1 ++ c :: l2 -> shares s -> current_process (procs s) = c -> user_context x ->
  exists s', ticked_to s s' c q x /\ q ∈ l /\
    if next_woken (ticked s) l1 l2 =? 0 then irq0 x s = Ok x s' else irq0 x s = Switched q s'.
Proof.
  intros q Hl HS Hc Hx. destruct (interrupted_ok s c x HS Hc Hx) as (s1 & HI).
  assert (c ∈ l) as Hin by (rewrite Hl, elem_of_app, elem_of_cons; tauto).
  pose proof (irq0_handler_ok s1 W l1 c l2 (frame s c)) as HH. cbv zeta in HH.
  rewrite <- Hl, (interrupted_next s s1 c x l1 l2 Hl HI) in HH.
  destruct (HH (ia_preemptible _ _ _ _ HI) Hlen) as (s' & HY). exists s'. unfold q, turn.
  destruct (next_woken (ticked s) l1 l2 =? 0) eqn:E; destruct HY as [Rh HU].
  - by destruct (tick_returns s s1 s' c x).
  - apply Z.eqb_neq in E.
    destruct (next_of_list s W l1 c l2 (fun p => woken (ticked s) p =? PROCESS_READY)) as [Hq _];
      [rewrite <- Hl; apply HS|exact E|]. rewrite <- Hl in Hq.
    by destruct (tick_switches s s1 s' c (next_woken (ticked s) l1 l2) x).
Qed.

(** ** The refinement *)

Lemma works_represents s s' x x' a :
  works s s' -> user_context x' -> represents s x a ->
  represents s' x' (act a (Work x')).
Proof.
  intros ((Ep & HL & HF) & Ed & HK) Hx' [HS Hon Hl _ Hsv].
  assert (current_process (procs s) ∈ l) as Hc by apply HS.
  assert (shares s') as HS'.
  { apply (shares_same s); try done; [by rewrite Ep| |by intros; apply HF].
    rewrite Ep, Ed, (sh_esp0 s HS). symmetry. by apply (HF _ 3). }
  split; simpl; [done|by rewrite Ep|by rewrite lookup_insert_eq|done|].
  intros p Hp Hne. destruct (Hsv p Hp Hne) as (y & Hy & Hu & Hh). exists y.
  rewrite lookup_insert_ne by done. split; [done|]. split; [done|].
  assert (frame s' p = frame s p) as -> by (by apply (HF p 4)).
  apply (holds_frame s); [|done]. intros k Hk. by apply HK; [|rewrite Hon|].
Qed.

(** The timer, from any state a process runs in: it returns to the process, or
    another one goes on, with its own registers. *)
Definition resumed (x y : context) (s s' : kst) (q : Z) : Prop :=
  q = current_process (procs s) /\ irq0 x s = Ok y s' \/
  irq0 x s = Switched q s' /\ restore_esp q s' = Ok y s'.

Lemma tick_represents s x a :
  represents s x a ->
  exists s' y q, resumed x y s s' q /\ q ∈ l /\ represents s' y (act a (Interrupt q)).
Proof.
  intros [HS Hon Hlv Hx Hsv]. assert (on a ∈ l) as Hin by (rewrite <- Hon; apply HS).
  destruct (list_elem_of_split _ _ Hin) as (l1 & l2 & Hl).
  destruct (tick_ok s l1 (on a) l2 x Hl HS Hon Hx) as (s' & [HS' Hc' Hsc Hso] & Hq & R).
  set (q := turn s l1 (on a) l2) in *.
  assert (forall p, p ∈ l -> exists y, held a !! p = Some y /\ user_context y /\
    holds s' (frame s' p) (user_words y)) as Hall.
  { intros p Hp. destruct (decide (p = on a)) as [->|Hne]; [by exists x|].
    destruct (Hsv p Hp Hne) as (y & Hy & Hu & Hh). exists y. split; [done|]. split; [done|]. by apply Hso. }
  destruct (Hall q Hq) as (y & Hy & Hu & Hh). exists s', y, q. split; [|split; [done|]].
  - unfold turn in q. destruct (next_woken (ticked s) l1 l2 =? 0) eqn:E.
    + left. split; [done|]. unfold q in Hy. rewrite Hlv in Hy. by injection Hy as <-.
    + right. split; [done|]. by apply restore_user.
  - split; simpl; try done. intros p Hp _. by apply Hall.
Qed.

Lemma slice_refines s x b s' x' a :
  slice (s, x) b (s', x') -> represents s x a -> represents s' x' (act a b).
Proof.
  intros Hs HR. destruct (tick_represents s x _ HR) as (s2 & y & q2 & Ho & Hq & HR2). unfold resumed in Ho.
  inversion Hs as [? ? ? ? Hw Hx|? ? ? ? R|? ? q ? ? ? R R']; subst.
  - by apply (works_represents s s' x).
  - rewrite R in Ho. by destruct Ho as [[-> [= -> ->]]|[? _]].
  - rewrite R in Ho. destruct Ho as [[_ ?]|[[= -> ->] R2]]; [done|]. rewrite R2 in R'.
    by injection R' as -> ->.
Qed.

Lemma slices_refine e tr e' a :
  slices e tr e' -> represents e.1 e.2 a -> represents e'.1 e'.2 (foldl act a tr).
Proof.
  intros Hr. revert a. induction Hr as [e|[s x] [s1 x1] e' b tr Hs _ IH]; intros a HR; [done|].
  apply IH. by apply (slice_refines s x).
Qed.

(** C10: every process that runs user code has the registers of the processor to
    itself.  Take any run [tr] made of user code, which may change its own
    registers and any memory but the records of the processes and the saved
    registers of the others, and of timer interrupts through the stub: it does
    what a machine does that has a context for each process, where an interrupt
    changes only which one runs; so each process goes on with exactly the
    registers it was interrupted with.  From every state of such a run the next
    interrupt of the timer comes through: it returns to the process, or
    restores another one. *)
Theorem timer_shares_processor s x a tr s' x' :
  represents s x a -> slices (s, x) tr (s', x') ->
  represents s' x' (foldl act a tr) /\
  exists s2 y q, resumed x' y s' s2 q /\ q ∈ l /\ held (foldl act a tr) !! q = Some y.
Proof.
  intros HR Hr. assert (represents s' x' (foldl act a tr)) as HR' by exact (slices_refine _ _ _ _ Hr HR).
  split; [done|]. destruct (tick_represents s' x' _ HR') as (s2 & y & q & Ho & Hq & HR2).
  exists s2, y, q. split; [done|]. split; [done|]. apply HR2.
Qed.

End sharing.

(** * What the stubs lose *)

Section losses.
Import Kernel.
Context `{Fuel}.

(** A process that is interrupted in the kernel: the frame is below its stack
    pointer, apart from the records and from the place the registers go to. *)
Record in_kernel (s : kst) (W : Z -> Prop) (l : list Z) (c : Z) (x : context) : Prop := {
  ik_running : running W l s;
  ik_current : current_process (procs s) = c;
  ik_mode : user_mode (c_cs x) = false /\ context_ok x;
  ik_stack : subset (span (c_esp x - 60) sizeof_registers) W /\ 60 <= c_esp x;
  ik_apart : forall p, p ∈ l -> apart_span (c_esp x - 60) sizeof_registers p;
  ik_below : c_esp x + 8 <= field s c regs;
  ik_top : field s c regs + 60 < 2 ^ 32
}.

Lemma enter_in_kernel s W l c x :
  in_kernel s W l c x ->
  exists s1, enter x s = Ok (c_esp x - 60) s1 /\ preemptible s1 W l c (c_esp x - 60) /\
    holds s1 (c_esp x - 60) (common_words x) /\ frame_registers s1 (c_esp x - 60) = 15 /\
    (exists m, s1 = set_mach (fun _ => m) s) /\
    forall p k, p ∈ l -> 0 <= k < 12 -> field s1 p (4 * k) = field s p (4 * k).
Proof.
  intros [HR Hc [Hu Hx] [Hst H60] Hap Hbl Htp]. pose proof HR as [HL Hcl Hr].
  pose proof HL as [HW Hpath Hok Hsep]. rewrite Hc in Hcl.
  assert (subset (span (c_esp x - 60) 60) W) as Hin.
  { intros a Ha. apply Hst. unfold span, sizeof_registers in *. lia. }
  destruct (enter_kernel_ok s W x Hu Hx HW H60 Hin) as (s1 & R & S & V).
  assert (forall p k, p ∈ l -> 0 <= k < 12 -> field s1 p (4 * k) = field s p (4 * k)) as HF.
  { intros p k Hp Hk. apply (stores_rd 4 _ _ _ W _ S HW Hin).
    - apply record_in; [by apply (in_proc_ok s W l)|lia|unfold sizeof_process; lia].
    - specialize (Hap p Hp). unfold apart_span, sizeof_registers in *.
      intros a. unfold span, sizeof_process in *. lia. }
  assert (procs s1 = procs s) as Ep by (by destruct (st_machine _ _ _ S) as [m ->]).
  assert (field s1 c regs = field s c regs) as Er by (by apply (HF c 4)).
  destruct (Hr c Hcl) as (Hr0 & Hrin & Hra).
  exists s1. split; [exact R|]. split; [|split; [exact V|split; [|split; [apply (st_machine _ _ _ S)|exact HF]]]].
  - split; rewrite ?Er; try done; [|by rewrite Ep|].
    + split; [by apply (stores_window _ _ _ _ S)| |done|done]. rewrite Ep.
      apply (path_same s); [|done]. intros p Hp. by apply (HF p 9).
    + right. left. unfold sizeof_registers. lia.
  - unfold frame_registers. words_of V. unfold user_mode in Hu.
    match goal with E : field s1 _ r_cs = _ |- _ => rewrite E end. by rewrite Hu.
Qed.

Lemma preempted_in_kernel s W l1 c l2 x :
  let l := l1 ++ c :: l2 in let nxt := next_woken (ticked s) l1 l2 in
  in_kernel s W l c x -> (length l < fuel)%nat -> nxt <> 0 ->
  exists s', irq0 x s = Switched nxt s' /\ procs_list s' W l /\
    field s' c regs = field s c regs /\ holds s' (field s c regs) (common_words x).
Proof.
  intros l nxt HK Hlen Hnz.
  destruct (enter_in_kernel s W l c x HK) as (s1 & R & HP & V & H15 & [m Hm] & HF).
  assert (c ∈ l) as Hin by (unfold l; rewrite elem_of_app, elem_of_cons; tauto).
  assert (next_woken (ticked s1) l1 l2 = nxt) as Hn.
  { unfold nxt, next_woken. f_equal. apply find_ext. intros p Hp.
    assert (p ∈ l) as Hpl by (unfold l; rewrite elem_of_app, elem_of_cons; rewrite elem_of_app in Hp; tauto).
    unfold woken, due. rewrite !field_ticked. change state with (4 * 5). change wake with (4 * 8).
    rewrite !HF by done. by rewrite Hm. }
  destruct (irq0_handler_ok s1 W l1 c l2 (c_esp x - 60) HP Hlen) as (s' & HY). fold l in HY.
  rewrite Hn, (proj2 (Z.eqb_neq nxt 0) Hnz) in HY. destruct HY as [Rh HU].
  exists s'. split; [unfold irq0; run_with R; unfold mbind, K_bind; by rewrite Rh|].
  split; [apply (gw_list _ _ _ _ _ _ _ _ HU)|]. split.
  - change regs with (4 * 4). rewrite (gw_fields _ _ _ _ _ _ _ _ HU) by done. unfold woken_fields.
    simpl. rewrite field_ticked. by apply HF.
  - apply Forall_forall. intros [off v] Hov. simpl.
    pose proof (proj1 (Forall_forall _ _) V _ Hov) as Hv. simpl in Hv. rewrite <- Hv.
    pose proof (gw_saved _ _ _ _ _ _ _ _ HU) as Hs. rewrite field_ticked in Hs.
    change regs with (4 * 4) in Hs. rewrite (HF c 4) in Hs by done. change (4 * 4) with regs in Hs.
    assert (frame_registers (ticked s1) (c_esp x - 60) = 15) as E15
      by (unfold frame_registers in *; by rewrite field_ticked).
    rewrite E15 in Hs. destruct (common_words_at x off v Hov) as (k & Hk & ->).
    rewrite (Hs k) by done. apply field_ticked.
Qed.

(** C38: a process that is interrupted inside the kernel and preempted does not
    get its stack pointer back: popa skips it and iretd pops none on a return to
    the same privilege level, so the process goes on with all other registers as
    they were and the stack pointer 60 bytes above its saved registers, which
    are themselves written over the top of the stack the process uses. *)
Theorem kernel_process_loses_stack s W l1 c l2 x :
  let l := l1 ++ c :: l2 in let nxt := next_woken (ticked s) l1 l2 in
  in_kernel s W l c x -> (length l < fuel)%nat -> nxt <> 0 ->
  exists s', irq0 x s = Switched nxt s' /\
    restore_esp c s' = Ok (behind (field s c regs) x) s' /\
    c_esp (behind (field s c regs) x) <> c_esp x.
Proof.
  intros l nxt HK Hlen Hnz. pose proof HK as [HR Hc [Hu Hx] _ _ Hbl Htp].
  destruct (preempted_in_kernel s W l1 c l2 x HK Hlen Hnz) as (s' & R & HL' & Er & V).
  assert (c ∈ l) as Hin by (unfold l; rewrite elem_of_app, elem_of_cons; tauto).
  pose proof (pl_window _ _ _ HL') as HW'. set (rp := field s c regs) in *.
  exists s'. split; [exact R|]. split; [|simpl; lia]. unfold restore_esp.
  run_with (get_proc_ok s' W c regs HW' (in_proc_ok s' W l c HL' Hin) ltac:(done) ltac:(done)).
  rewrite Er. pose proof (rd32_range s (c + regs)) as H32. fold (field s c regs) rp in H32.
  assert (user_mode (field s' rp r_cs) = false) as Hu'.
  { clear - V Hu. words_of V. match goal with E : field s' _ r_cs = _ |- _ => rewrite E end. done. }
  rewrite (leave_ok s' W rp 0 60 HW'); try done.
  - by rewrite (context_at_kernel s' rp x).
  - unfold in_u32 in H32. lia.
  - rewrite Z.add_0_r, Z.sub_0_r. intros a Ha. apply (ru_regs _ _ _ HR c Hin).
    fold rp. unfold span, sizeof_registers in *. lia.
  - by rewrite Hu'.
Qed.

(** ** The keyboard *)

(** The pushes read no port. *)
Lemma xlate_all_state n va s ps s' : xlate_all n va s = Ok ps s' -> s' = s.
Proof.
  revert va ps s'. induction n as [|n IH]; intros va ps s'; simpl; [by intros [= _ <-]|].
  intros (p & s1 & R & R1)%bind_ok_inv. unfold xlate in R. destruct (translate _ _); [|done].
  injection R as <- <-. apply bind_ok_inv in R1 as (qs & s2 & R & R2). injection R2 as _ <-.
  by apply (IH _ _ _ R).
Qed.
Lemma set_bytes_input ps v m : device (set_bytes ps v m) = device m /\ reads (set_bytes ps v m) = reads m.
Proof.
  revert v m. induction ps as [|p ps IH]; intros v m; simpl; [done|].
  by destruct (IH (Z.shiftr v 8) (set_phys8 p v m)) as [-> ->].
Qed.
Lemma pushes_input l sp s top s' : pushes l sp s = Ok top s' -> same_input s s'.
Proof.
  unfold pushes. revert sp s. induction l as [|v l IH]; intros sp s; simpl; [by intros [= _ <-]|].
  intros (sp1 & s1 & R & R1)%bind_ok_inv. apply IH in R1 as [D1 E1].
  apply bind_ok_inv in R as ([] & s2 & R & R2). injection R2 as _ <-.
  apply bind_ok_inv in R as (ps & s3 & Rx & R). apply xlate_all_state in Rx as ->.
  injection R as <-. simpl in *. destruct (set_bytes_input ps v (mach s)) as [Ed Er]. split; congruence.
Qed.

(** The stub of the keyboard pushes no segment registers. *)
Lemma enter_keyboard_ok s W x :
  let top := esp0 (tss (descs s)) in
  user_mode (c_cs x) = true -> context_ok x -> window s W -> 52 <= top < 2 ^ 32 ->
  subset (span (top - 52) 52) W ->
  exists s', (sp ← interrupted x; pusha x sp) s = Ok (top - 52) s' /\
    stores (span (top - 52) 52) s s' /\ same_input s s' /\
    holds s' (top - sizeof_registers) (general_words x ++ stack_words x).
Proof.
  intros top Hu Hx HW Ht Hin.
  destruct (pushes_ok s W [c_ss x; c_esp x; c_eflags x; c_cs x; c_eip x] top HW)
    as (s1 & R1 & _); [lia|simpl; lia| |].
  { intros a Ha. apply Hin. unfold span in *. simpl in Ha. lia. }
  set (frame := [c_ss x; c_esp x; c_eflags x; c_cs x; c_eip x] ++
    [c_eax x; c_ecx x; c_edx x; c_ebx x; top - 20; c_ebp x; c_esi x; c_edi x]).
  destruct (pushes_ok s W frame top HW) as (s' & R & S & V); [lia|simpl; lia|exact Hin|].
  exists s'. split; [|split; [exact S|split; [exact (pushes_input _ _ _ _ _ R)|
    words_of Hx; open_words; solve_words_at V]]].
  unfold interrupted. rewrite Hu, bind_assoc, gets_bind. fold top. run_with R1.
  unfold frame in R. rewrite pushes_app in R. by rewrite (bind_ok _ _ _ _ _ R1) in R.
Qed.

(** A key released, or a character key that fits in the line. *)
Definition key_comes (s : kst) : Prop :=
  let code := next_byte s 0x60 in
  128 <= code \/ char_key code /\ 0 <= command_index (keys s) < 128.

Lemma release_bit code : 128 <= code < 256 -> (Z.land code 0x80 =? 0) = false.
Proof.
  intros Hc. assert (forallb (fun c => negb (Z.land c 0x80 =? 0)) (seqZ 128 128) = true) as Hb by (by vm_compute).
  rewrite forallb_forall in Hb. apply negb_true_iff, Hb, list_elem_of_In, elem_of_seqZ. lia.
Qed.

Lemma key_handled s : typing s -> key_comes s ->
  exists s', keyboard_handler s = Ok tt s' /\ touches video s s'.
Proof.
  intros HT [Hrel|[[Hc Hp] Hi]].
  - exists (set_keys (fun k => KeyState 0 (command k) (command_index k) (command_ready k)) (popped s)).
    split; [|apply touches_same_memory; [split_and!; reflexivity|exact video_u32]].
    unfold keyboard_handler. rewrite (bind_ok _ _ _ 0 (popped s)).
    + unfold set_last_key, get_i. rewrite modify_bind, gets_bind.
      rewrite (proj2 (Z.leb_gt 2000 _)); [done|apply (ty_cursor s HT)].
    + unfold Keyboard.read, inb, mbind, K_bind.
      change (u8 (device (mach s) (u16 0x60) (reads (mach s)))) with (next_byte s 0x60).
      assert (in_u8 (next_byte s 0x60)) as Hb by apply u8_range.
      by rewrite release_bit by (unfold in_u8 in Hb; lia).
  - destruct (handler_typed s _ _ HT eq_refl Hc eq_refl Hp Hi) as (s' & R & HD).
    exists s'. split; [done|]. apply (td_memory _ _ _ HD).
Qed.

(** C39: the keyboard interrupt does not give the registers back: the stub tells
    the interrupt controller that it is done through al, after popa has restored
    it.  Every press of a character key and every release leaves 0x20 in the low
    byte of the eax of the program it interrupts; the other registers are
    restored. *)
Theorem keyboard_isr_clobbers_al s W x :
  let top := esp0 (tss (descs s)) in
  user_mode (c_cs x) = true -> context_ok x -> window s W -> typing s -> key_comes s ->
  sizeof_registers <= top < 2 ^ 32 -> subset (span (top - 52) 52) W -> subset video W ->
  disjoint_from (span (top - 52) 52) video ->
  exists s', keyboard_isr x s = Ok (with_al 0x20 x) s' /\ c_eax (with_al 0x20 x) mod 256 = 0x20.
Proof.
  intros top Hu Hx HW HT Hkey Ht Hin Hv Hd. unfold sizeof_registers in Ht.
  destruct (enter_keyboard_ok s W x Hu Hx HW ltac:(fold top; lia) Hin) as (s1 & R1 & S1 & [Ed Er] & V1).
  fold top in R1, S1, V1. destruct (st_machine _ _ _ S1) as [m Hm].
  assert (typing s1 /\ key_comes s1) as [HT1 Hkey1].
  { split.
    - destruct HT as [Hw Hc Hb]. split; rewrite ?Hm; try done. rewrite <- Hm. by apply (stores_window _ _ _ _ S1).
    - unfold key_comes, next_byte in *. rewrite Ed, Er. by rewrite Hm. }
  destruct (key_handled s1 HT1 Hkey1) as (s2 & R2 & T2).
  pose proof (stores_window _ _ _ _ S1 HW) as HW1.
  pose proof (touches_window _ _ _ _ T2 HW1) as HW2.
  assert (holds s2 (top - 68) (general_words x ++ stack_words x)) as V2.
  { change sizeof_registers with 68 in V1. refine (holds_ext _ _ _ _ _ V1). intros off v Hov.
    destruct (general_words_at x off v Hov) as (k & Hk & ->).
    unfold field, rd32. apply (touches_kept _ _ _ _ HW1 T2 Hv).
    - intros a Ha. apply Hin. unfold span in *. lia.
    - intros a Ha. apply Hd. unfold span in *. lia. }
  eexists. split.
  - unfold keyboard_isr. rewrite <- bind_assoc. run_with R1. run_with R2.
    replace (top - 52) with (top - 68 + 4 * 4) by lia.
    rewrite (bind_ok _ _ _ _ _ (popa_iretd_ok s2 W (top - 68) 16 68 HW2 ltac:(lia) ltac:(lia) ltac:(lia)
      ltac:(intros a Ha; apply Hin; unfold span in *; lia) ltac:(by case_match) _ _ _ _ ltac:(lia))).
    rewrite (context_with_user s2 _ x) by done. reflexivity.
  - simpl. rewrite <- (land_0xFF (Z.lor _ _)), Z.land_lor_distr_l, <- Z.land_assoc.
    change (Z.land 0xFFFFFF00 0xFF) with 0. by rewrite Z.land_0_r.
Qed.

End losses.

(** * Concrete runs *)

Section examples.
#[local] Instance hundred : Fuel := 100%nat.

#[local] Ltac solve_context_ok :=
  open_words; repeat (apply Forall_cons; split; [by vm_compute|]); constructor.

(** A runs in user mode, B is ready: it was interrupted at 0x5678. *)
Definition at_user (eip : Z) : context :=
  Context 0x23 0x23 0x23 0x23 0 0 0 0 0 0 0 eip 0x1B 0x202 0x9000 0x23.
Definition pair : list Z := [proc_a; proc_b].
Definition pair_memory : list (Z * Z) :=
  [(proc_a + next, proc_b); (proc_a + regs, 0x43FBC); (proc_b + regs, 0x47FBC);
   (proc_a + kernel_stack_to, 0x44000); (proc_b + kernel_stack_to, 0x48000)] ++
  ((fun ov => (0x47FBC + ov.1, ov.2)) <$> user_words (at_user 0x5678)).
Definition pair_state : kst :=
  set_descs (fun d => DescState (gdt d) (gp d) (Tss 0x44000 0x10 104) (idt d) (idt_ptr d))
   (set_procs (fun _ => ProcState proc_a proc_a 3)
    (match writes pair_memory (boot_state [] no_device) with
     | Ok _ s => s
     | _ => boot_state [] no_device
     end)).

Lemma in_pair p : p ∈ pair -> p = proc_a \/ p = proc_b.
Proof. unfold pair. rewrite !elem_of_cons, elem_of_nil. tauto. Qed.
Lemma pair_regs : field pair_state proc_a regs = 0x43FBC /\ field pair_state proc_b regs = 0x47FBC.
Proof. by vm_compute. Qed.

Lemma pair_list : procs_list pair_state in_u32 pair.
Proof.
  apply flat_list.
  - apply flat_window; [by vm_compute|by intros a].
  - by vm_compute.
  - unfold pair. rewrite !Forall_cons, Forall_nil. split_and!; try done; by apply low_proc.
  - unfold pair. simpl. rewrite !Forall_cons, Forall_nil. unfold apart_procs.
    split_and!; (done || (vm_compute; left; discriminate)).
Qed.

Lemma pair_running : running in_u32 pair pair_state.
Proof.
  split; [exact pair_list|by left|]. destruct pair_regs as [E1 E2].
  intros p [-> | ->]%in_pair; rewrite ?E1, ?E2.
  all: split; [done|split; [apply low_span; unfold sizeof_registers; lia|]].
  all: intros q [-> | ->]%in_pair; right; by vm_compute.
Qed.

Lemma pair_shares : shares in_u32 pair pair_state.
Proof.
  destruct pair_regs as [E1 E2]. split; [exact pair_running|by vm_compute| |].
  - intros p [-> | ->]%in_pair; by vm_compute.
  - unfold frame. intros p q Hp Hq Hne. apply in_pair in Hp. apply in_pair in Hq.
    destruct Hp, Hq; subst; try congruence; rewrite E1, E2; unfold sizeof_registers; lia.
Qed.

Lemma at_user_ok eip : in_u32 eip -> user_context (at_user eip).
Proof. intros He. split; [done|]. open_words. by repeat (apply Forall_cons; split). Qed.

Lemma pair_represents :
  represents in_u32 pair pair_state (at_user 0x1234)
    (Shared proc_a {[ proc_a := at_user 0x1234; proc_b := at_user 0x5678 ]}).
Proof.
  split; simpl; [exact pair_shares|done|done|by apply at_user_ok|].
  intros p [-> | ->]%in_pair Hne; [done|]. exists (at_user 0x5678).
  split; [done|]. split; [by apply at_user_ok|].
  unfold frame. rewrite (proj2 pair_regs). open_words. by repeat (apply Forall_cons; split; [by vm_compute|]).
Qed.

(** A goes on to 0x1300, then the timer comes. *)
Lemma timer_shares_processor_witness : exists s2 y q,
  resumed (at_user 0x1300) y pair_state s2 q /\
  (q = proc_a -> y = at_user 0x1300) /\ (q = proc_b -> y = at_user 0x5678).
Proof.
  assert (length pair < fuel)%nat as Hlen by (vm_compute; lia).
  destruct (timer_shares_processor in_u32 pair Hlen pair_state (at_user 0x1234)
    (Shared proc_a {[ proc_a := at_user 0x1234; proc_b := at_user 0x5678 ]})
    [Work (at_user 0x1300)] pair_state (at_user 0x1300) pair_represents)
    as (_ & s2 & y & q & R & _ & Hy).
  - eapply slices_cons; [apply slice_work|apply slices_nil]; [|by apply at_user_ok].
    split; [|done]. split; [done|]. split; [exact pair_list|done].
  - exists s2, y, q. split; [exact R|]. split; intros ->; by injection Hy as <-.
Defined.

(** A process of the kernel, 256 bytes deep in its stack. *)
Definition in_task : context :=
  Context 0x10 0x10 0x10 0x10 0 0 0 0 0 0 0 0x1234 0x08 0x202 0x43F00 0x10.

Lemma pair_next : next_woken (ticked pair_state) [] [proc_b] = proc_b.
Proof. by vm_compute. Qed.

Lemma kernel_process_loses_stack_witness : exists s' y,
  irq0 in_task pair_state = Switched proc_b s' /\ restore_esp proc_a s' = Ok y s' /\
  c_esp in_task = 0x43F00 /\ c_esp y = 0x43FF8.
Proof.
  destruct (kernel_process_loses_stack pair_state in_u32 [] proc_a [proc_b] in_task) as (s' & R & R2 & _).
  - split; [exact pair_running|exact eq_refl|split; [exact eq_refl|]|split; [|done]| |
      rewrite (proj1 pair_regs); simpl c_esp; lia|rewrite (proj1 pair_regs); lia].
    + solve_context_ok.
    + change (c_esp in_task) with 0x43F00. apply low_span; unfold sizeof_registers; lia.
    + intros p [-> | ->]%in_pair; right; by vm_compute.
  - vm_compute. lia.
  - by vm_compute.
  - rewrite pair_next in R. eexists s', _. split; [|split; [exact R2|split; [done|rewrite (proj1 pair_regs); by vm_compute]]].
    exact R.
Defined.

(** The A key is pressed while the program has 0x41424344 in eax. *)
Definition pressing : kst :=
  set_descs (fun d => DescState (gdt d) (gp d) (Tss 0x44000 0x10 104) (idt d) (idt_ptr d))
    (boot_state [] (keyboard_device [0x1E])).
Definition in_program : context :=
  Context 0x23 0x23 0x23 0x23 0 0 0 0 0 0 0x41424344 0x1234 0x1B 0x202 0x9000 0x23.

Lemma keyboard_isr_clobbers_al_witness : exists s' y,
  keyboard_isr in_program pressing = Ok y s' /\ c_eax y = 0x41424320.
Proof.
  assert (window pressing in_u32) as HW by (apply flat_window; [by vm_compute|by intros a]).
  destruct (keyboard_isr_clobbers_al pressing in_u32 in_program) as (s' & R & _).
  - done.
  - solve_context_ok.
  - exact HW.
  - split; [apply (window_subset _ _ _ HW video_u32)|by vm_compute|by vm_compute].
  - right. unfold char_key, printable. split; [split; [by vm_compute|by vm_compute]|by vm_compute].
  - by vm_compute.
  - change (esp0 _) with 0x44000. apply low_span; lia.
  - exact video_u32.
  - change (esp0 _) with 0x44000. intros a. unfold video, Vga.VGA, span. lia.
  - exists s', (with_al 0x20 in_program). split; [exact R|]. by vm_compute.
Defined.

End examples.
