(* ===== verification/Fault.v ===== *)
(** Exceptions: the stubs isr8, isr13 and isr14 of kernel/exception.asm with
    [fault_handler] of kernel/kernel.c.

    The processor and the stub leave the vector, the error code and the place
    of the fault on the stack, the handler shows them and stops the machine. *)

From S2P Require Import Prelude Machine State Mmu Window PageSource Vga MemMap Paging MemLib Heap UserMap Descriptors Devices Process Switch Spawn Elf Syscall Fork Exec Kernel Timer Keys Stubs.

(** * Messages *)

Section messages.
Import Vga Screen.

(** A message of several parts, and how it appears. *)
Inductive piece := Str (str : string) | Hex (v : Z).

Definition print_piece (p : piece) : K unit :=
  match p with Str str => print_string_at str | Hex v => print_hex_at v end.
Definition print_pieces (l : list piece) : K unit :=
  foldr (fun p m => print_piece p;; m) (mret tt) l.

Definition draw_piece (t : term) (p : piece) : term :=
  match p with
  | Str str => line_text t (codes str)
  | Hex v => fit (text t (hexadecimal v))
  end.
Definition piece_ok (p : piece) : Prop :=
  match p with
  | Str str => forallb (fun c => negb (c =? 0)) (codes str) = true
  | Hex v => 0 <= v
  end.

Lemma print_piece_shows p s :
  piece_ok p -> window s video -> 0 <= cur_i (console s) < 2000 ->
  exists s', print_piece p s = Ok tt s' /\ showing s s' (draw_piece (terminal s) p).
Proof. destruct p; [apply print_string_at_shows|apply print_hex_at_shows]. Qed.

Lemma showing_refl s : 0 <= cur_i (console s) < 2000 -> window s video -> showing s s (terminal s).
Proof.
  intros Hc HV. split; [|done|done]. split; [|apply touches_same_memory|done].
  - exists (mach s), (console s). by destruct s.
  - by split_and!.
  - exact video_u32.
Qed.
Lemma showing_trans s s1 s2 t1 t2 : showing s s1 t1 -> showing s1 s2 t2 -> showing s s2 t2.
Proof. intros [D1 _ _] [D2 S2 C2]. split; [by apply (drawn_trans _ s1)|done|done]. Qed.

Lemma print_pieces_cons p l (m : K unit) s :
  (print_pieces (p :: l);; m) s = (print_piece p;; print_pieces l;; m) s.
Proof. exact (bind_assoc _ _ _ s). Qed.

(** The parts appear one after the other. *)
Lemma print_pieces_shows l s :
  Forall piece_ok l -> window s video -> 0 <= cur_i (console s) < 2000 ->
  exists s', print_pieces l s = Ok tt s' /\ showing s s' (foldl draw_piece (terminal s) l).
Proof.
  intros Hl. revert s. induction Hl as [|p l Hp Hl IH]; intros s HV Hc; simpl.
  { exists s. split; [done|by apply showing_refl]. }
  destruct (print_piece_shows p s Hp HV Hc) as (s1 & R1 & D1). pose proof (sw_drawn _ _ _ D1) as D.
  destruct (IH s1 (drawn_window _ _ _ D HV) (dr_cursor _ _ D)) as (s2 & R2 & D2).
  rewrite (showing_terminal _ _ _ D1) in D2. exists s2.
  split; [by run_with R1|by apply (showing_trans _ s1 _ _ _ D1)].
Qed.

End messages.

(** * The handler *)

Section handler.
Import Vga Screen Stubs.

(** What [fault_handler] says. *)
Definition report (vector error_code eip cr2 : Z) : list piece :=
  [Str "FAULT: vector "; Hex vector; Str NL; Str "error_code = "; Hex error_code; Str NL;
   Str "eip = "; Hex eip; Str NL] ++
  (if vector =? 14 then [Str "CR2 = "; Hex cr2; Str NL] else []).

Ltac next_piece :=
  etransitivity; [|symmetry; apply print_pieces_cons]; apply bind_ext; intros [] ?.

Lemma fault_handler_pieces vector error_code eip cr2 s :
  Kernel.fault_handler vector error_code eip cr2 s =
  (print_pieces (report vector error_code eip cr2);; Process.halt) s.
Proof.
  unfold Kernel.fault_handler, report, app. do 9 next_piece. destruct (vector =? 14).
  - rewrite bind_assoc. next_piece. rewrite bind_assoc. next_piece. by next_piece.
  - by rewrite ret_bind.
Qed.

Lemma fault_handler_ok vector error_code eip cr2 s :
  0 <= vector -> 0 <= error_code -> 0 <= eip -> 0 <= cr2 ->
  window s video -> 0 <= cur_i (console s) < 2000 ->
  exists s', Kernel.fault_handler vector error_code eip cr2 s = Halted s' /\
    screen s' = cells (foldl draw_piece (terminal s) (report vector error_code eip cr2)).
Proof.
  intros Hv He Hi H2 HV Hc.
  destruct (print_pieces_shows (report vector error_code eip cr2) s) as (s1 & R & D); try done.
  { unfold report. apply Forall_app. split; [|destruct (vector =? 14); [|constructor]];
      rewrite !Forall_cons, Forall_nil; unfold piece_ok; by intuition. }
  rewrite fault_handler_pieces. run_with R. eexists. split; [reflexivity|].
  rewrite <- (sw_screen _ _ _ D). eapply shown_same_memory; [by split_and!|by eexists].
Qed.

(** ** The way there *)

(** The words on the stack of an exception, the last one pushed first. *)
Definition saved_words (x : context) : list Z :=
  if user_mode (c_cs x) then [c_ss x; c_esp x; c_eflags x; c_cs x; c_eip x]
  else [c_eflags x; c_cs x; c_eip x].
Definition stack_of (s : kst) (x : context) : Z :=
  if user_mode (c_cs x) then esp0 (tss (descs s)) else c_esp x.
Definition exception_size (x : context) : Z := if user_mode (c_cs x) then 60 else 52.

Lemma interrupted_pushes x s : interrupted x s = pushes (saved_words x) (stack_of s x) s.
Proof. unfold interrupted, saved_words, stack_of. by case_match. Qed.

(** ... the registers by [pusha], which also pushes the pointer it starts at. *)
Definition general (x : context) (sp : Z) : list Z :=
  [c_eax x; c_ecx x; c_edx x; c_ebx x; sp; c_ebp x; c_esi x; c_edi x].

Lemma isr_common_pushes vector error_code cr2 x s sp s0 :
  let l1 := saved_words x ++ [error_code; vector] in
  pushes l1 (stack_of s x) s = Ok sp s0 ->
  isr_common vector error_code cr2 x s =
  (sp ← pushes (l1 ++ general x sp) (stack_of s x);
   vector ← load32 (sp + 32); error_code ← load32 (sp + 36); eip ← load32 (sp + 40);
   Kernel.fault_handler vector error_code eip cr2) s.
Proof.
  intros l1 R. unfold isr_common. rewrite <- (bind_assoc (interrupted x)).
  assert ((sp ← interrupted x; pushes [error_code; vector] sp) s = Ok sp s0) as R'.
  { rewrite <- R. unfold l1. rewrite pushes_app. unfold mbind, K_bind. by rewrite interrupted_pushes. }
  run_with R'. unfold pusha. symmetry. unfold mbind at 1, K_bind at 1. rewrite pushes_app.
  by run_with R.
Qed.

Lemma isr_common_ok vector error_code cr2 x s W :
  let top := stack_of s x in let n := exception_size x in
  window s W -> n <= top < 2 ^ 32 -> subset (span (top - n) n) W -> context_ok x ->
  in_u32 vector -> in_u32 error_code ->
  exists s1, isr_common vector error_code cr2 x s =
      Kernel.fault_handler vector error_code (c_eip x) cr2 s1 /\
    stores (span (top - n) n) s s1.
Proof.
  intros top n HW Ht Hin Hx Hv He.
  assert (in_u32 (c_eip x)) as Hi by (words_of Hx; done).
  set (sp := top - n + 32). set (l1 := saved_words x ++ [error_code; vector]).
  set (l := l1 ++ general x sp).
  assert (4 * Z.of_nat (length l1) = n - 32 /\ 4 * Z.of_nat (length l) = n) as [Hlen1 Hlen].
  { unfold l, l1, saved_words, n, exception_size. by destruct (user_mode (c_cs x)). }
  assert (32 < n) as Hn by (unfold n, exception_size; by case_match).
  destruct (pushes_ok s W l top HW) as (s1 & R & HS & V); [lia|lia|by rewrite Hlen|].
  destruct (pushes_ok s W l1 top HW) as (s0 & R0 & _); [lia|lia|..].
  { intros a Ha. apply Hin. unfold span in *. lia. }
  rewrite Hlen1 in R0. replace (top - (n - 32)) with sp in R0 by lia.
  rewrite Hlen in R, HS. exists s1. split; [|exact HS].
  pose proof (stores_window _ _ _ _ HS HW) as HW1.
  assert (forall k v, in_u32 v -> l !! k = Some v -> (k < length l)%nat ->
    load32 (top - 4 * (Z.of_nat k + 1)) s1 = Ok v s1) as Hload.
  { intros k v Hb Hk Hkl. unfold load32.
    rewrite (load_ok s1 W HW1 4) by (intros a Ha; apply Hin; unfold span in *; lia).
    f_equal. rewrite <- (u32_small v Hb). exact (V k v Hk). }
  assert (exists k, l !! S (S k) = Some vector /\ l !! S k = Some error_code /\ l !! k = Some (c_eip x) /\
    n = 4 * Z.of_nat k + 44) as (k & L1 & L2 & L3 & Hk).
  { unfold l, l1, saved_words, n, exception_size. destruct (user_mode (c_cs x)); [by exists 4%nat|by exists 2%nat]. }
  rewrite (isr_common_pushes _ _ _ _ _ _ _ R0). fold l1 l top. run_with R.
  replace (top - n + 32) with (top - 4 * (Z.of_nat (S (S k)) + 1)) by lia.
  run_with (Hload _ _ Hv L1 ltac:(lia)).
  replace (top - n + 36) with (top - 4 * (Z.of_nat (S k) + 1)) by lia.
  run_with (Hload _ _ He L2 ltac:(lia)).
  replace (top - n + 40) with (top - 4 * (Z.of_nat k + 1)) by lia.
  by run_with (Hload _ _ Hi L3 ltac:(lia)).
Qed.

Lemma stores_terminal A s s' W :
  stores A s s' -> window s W -> subset A W -> subset video W -> disjoint_from A video ->
  terminal s' = terminal s.
Proof.
  intros HS HW HA HV Hd. destruct (st_machine _ _ _ HS) as [m ->]. unfold terminal. f_equal.
  apply screen_ext; [apply length_screen|]. intros k Hk.
  rewrite lookup_screen, decide_True by done. f_equal. unfold cell, rd16. symmetry.
  assert (subset (span (VGA + 2 * Z.of_nat k) 2) video) as Hin by (intros a; unfold video, span; lia).
  apply (stores_rd 2 A _ _ W); try done; [intros a Ha; by apply HV, Hin|].
  intros a Ha Hb. by apply (Hd a Hb), Hin.
Qed.

(** C25: an exception, in user code or in the kernel, stops the machine with a
    report: the stub hands the vector, the error code and the instruction
    pointer the processor has pushed to [fault_handler], which prints them at
    the cursor, with the address for a page fault, and halts. *)
Theorem exception_reports_and_halts vector error_code cr2 x s W :
  let top := stack_of s x in let n := exception_size x in
  window s W -> subset video W -> 0 <= cur_i (console s) < 2000 ->
  n <= top < 2 ^ 32 -> subset (span (top - n) n) W -> disjoint_from (span (top - n) n) video ->
  context_ok x -> in_u32 vector -> in_u32 error_code -> in_u32 cr2 ->
  exists s', isr_common vector error_code cr2 x s = Halted s' /\
    screen s' = cells (foldl draw_piece (terminal s) (report vector error_code (c_eip x) cr2)).
Proof.
  intros top n HW HV Hc Ht Hin Hd Hx Hv He H2.
  destruct (isr_common_ok vector error_code cr2 x s W HW Ht Hin Hx Hv He) as (s1 & R & HS).
  rewrite R, <- (stores_terminal _ _ _ W HS HW Hin HV Hd).
  assert (in_u32 (c_eip x)) as Hi by (words_of Hx; done). unfold in_u32 in *.
  apply fault_handler_ok; try lia.
  - apply (window_subset s1 W); [exact (stores_window _ _ _ _ HS HW)|done].
  - by destruct (st_machine _ _ _ HS) as [m ->].
Qed.

End handler.

(** * A page fault of the kernel before paging *)

Section examples.
Import Screen.

(** The kernel has called through address 16. *)
Definition lost : context :=
  Context 16 16 16 16 0 0 0 0 0 0 0 16 Descriptors.KERNEL_CS 0x202 0x90000 Descriptors.KERNEL_DS.

Lemma exception_reports_and_halts_witness :
  exists s', Stubs.isr_common 14 2 0xFEEDF00D lost boot = Halted s' /\
    take 24 (drop 400 (screen s')) = glyph <$> codes "FAULT: vector 0x0000000E" /\
    take 16 (drop 640 (screen s')) = glyph <$> codes "CR2 = 0xFEEDF00D".
Proof.
  set (W := fun a => video a \/ span (0x90000 - 52) 52 a).
  assert (window boot W) as HW.
  { apply flat_window; [done|]. intros a [Ha|Ha]; [by apply video_u32|]. unfold span in Ha.
    unfold in_u32. lia. }
  destruct (exception_reports_and_halts 14 2 0xFEEDF00D lost boot W HW) as (s' & R & E).
  - intros a. by left.
  - by vm_compute.
  - by vm_compute.
  - intros a. by right.
  - intros a Ha Hb. unfold video, span, Vga.VGA in *. change (stack_of boot lost) with 0x90000 in Ha.
    change (exception_size lost) with 52 in Ha. lia.
  - unfold context_ok, user_words, common_words, segment_words, general_words, stack_words. simpl app.
    rewrite !Forall_cons, Forall_nil. unfold in_u32. split_and!; by vm_compute.
  - by vm_compute.
  - by vm_compute.
  - by vm_compute.
  - exists s'. split; [exact R|]. rewrite E. split; vm_compute; reflexivity.
Defined.

End examples.
