(* ===== verification/Handover.v ===== *)
(** The first interrupt of user code: from a stack of the kernel to the frames
    of the processes.

    The first process is entered before its stack is in the task state segment;
    the first interrupt is pushed elsewhere, copied to the frame of the process,
    and from there on the state is the one Stubs is about. *)

From S2P Require Import Prelude Machine State Mmu Window PageSource Vga MemMap Paging MemLib Heap UserMap Descriptors Devices Process Switch Spawn Elf Syscall Fork Exec Kernel Timer Keys Stubs.
Import Process Kernel Stubs.

Section handover.
Context `{Fuel} (W : Z -> Prop) (l : list Z) (Hlen : (length l < fuel)%nat).

(** Every process has its frame, wherever interrupts go. *)
Record seated (s : kst) : Prop := {
  se_running : running W l s;
  se_top : forall p, p ∈ l -> field s p kernel_stack_to = frame s p + sizeof_registers;
  se_apart : forall p q, p ∈ l -> q ∈ l -> p <> q ->
    frame s p + sizeof_registers <= frame s q \/ frame s q + sizeof_registers <= frame s p
}.

Lemma seated_shares s :
  seated s -> esp0 (tss (descs s)) = field s (current_process (procs s)) kernel_stack_to ->
  shares W l s.
Proof. by intros [HR Ht Ha] He. Qed.
Lemma seated_same s s' :
  seated s -> procs_list s' W l -> current_process (procs s') ∈ l ->
  (forall p k, p ∈ l -> 0 <= k < 12 -> 4 * k <> state -> field s' p (4 * k) = field s p (4 * k)) ->
  seated s'.
Proof.
  intros [HR Ht Ha] HL Hc HF.
  assert (forall p, p ∈ l -> frame s' p = frame s p) as Hfr by (intros p Hp; by apply (HF p 4)).
  split; [by apply (running_fields W l s)| |].
  - intros p Hp. rewrite Hfr, <- Ht by done. by apply (HF p 3).
  - intros p q Hp Hq Hpq. rewrite !Hfr by done. by apply Ha.
Qed.

(** The frame [f] of an interrupt is apart from the records and the frames. *)
Record clear_of (s : kst) (f : Z) : Prop := {
  co_in : subset (span f sizeof_registers) W;
  co_low : 0 <= f /\ f + sizeof_registers < 2 ^ 32;
  co_records : forall p, p ∈ l -> apart_span f sizeof_registers p;
  co_frames : forall p, p ∈ l ->
    f + sizeof_registers <= frame s p \/ frame s p + sizeof_registers <= f
}.

(** The others hold the contexts [m]. *)
Definition holding (m : gmap Z context) (s : kst) (c : Z) : Prop :=
  forall p, p ∈ l -> p <> c -> exists y,
    m !! p = Some y /\ user_context y /\ holds s (frame s p) (user_words y).

(** The interrupt is pushed at [f]: the records and the frames are as before. *)
Record pushed_at (s s1 : kst) (f : Z) (x : context) : Prop := {
  pa_seated : seated s1;
  pa_same : exists m, s1 = set_mach (fun _ => m) s;
  pa_held : holds s1 f (user_words x);
  pa_fields : forall p k, p ∈ l -> 0 <= k < 12 -> field s1 p (4 * k) = field s p (4 * k);
  pa_frames : forall p k, p ∈ l -> 0 <= k < 17 ->
    field s1 (frame s p) (4 * k) = field s (frame s p) (4 * k)
}.

Lemma enter_at s f x :
  seated s -> user_context x -> esp0 (tss (descs s)) = f + sizeof_registers -> clear_of s f ->
  exists s1, enter x s = Ok f s1 /\ pushed_at s s1 f x.
Proof.
  intros HS [Hu Hx] He [Hin [H0 H1] Hrec Hfr]. pose proof (se_running s HS) as [HL Hc Hr].
  pose proof HL as [HW Hpath Hok Hsep].
  destruct (enter_user_ok s W x Hu Hx HW) as (s1 & R & S & V); rewrite He in *; [lia| |].
  { by replace (f + sizeof_registers - sizeof_registers) with f by lia. }
  replace (f + sizeof_registers - sizeof_registers) with f in * by lia. destruct (st_machine _ _ _ S) as [m Em].
  assert (forall p k, p ∈ l -> 0 <= k < 12 -> field s1 p (4 * k) = field s p (4 * k)) as HF.
  { intros p k Hp Hk. apply (stores_rd 4 _ _ _ W _ S HW Hin).
    - apply record_in; [by apply (in_proc_ok s W l)|lia|unfold sizeof_process; lia].
    - specialize (Hrec p Hp). unfold apart_span in Hrec. intros a. unfold span, sizeof_process in *. lia. }
  exists s1. split; [exact R|]. split; try done; [|by exists m|].
  - apply (seated_same s); try done; [|by rewrite Em|by intros; apply HF].
    split; [by apply (stores_window _ _ _ _ S)| |done|done]. rewrite Em. apply (path_same s); [|done].
    intros p Hp. rewrite <- Em. by apply (HF p 9).
  - intros p k Hp Hk. specialize (Hfr p Hp). destruct (Hr p Hp) as (_ & Hpin & _).
    apply (stores_rd 4 _ _ _ W _ S HW Hin); intros a Ha; unfold span, sizeof_registers, frame in *; [|lia].
    apply Hpin. lia.
Qed.

(** The choice of the scheduler is the one of the state before. *)
Lemma pushed_next s s1 f x l1 c l2 :
  l = l1 ++ c :: l2 -> pushed_at s s1 f x ->
  next_woken (ticked s1) l1 l2 = next_woken (ticked s) l1 l2.
Proof.
  intros Hl [_ [m Em] _ HF _]. unfold next_woken. f_equal. apply find_ext. intros p Hp.
  assert (p ∈ l) as Hin by (rewrite Hl, elem_of_app, elem_of_cons; rewrite elem_of_app in Hp; tauto).
  unfold woken, due. rewrite !field_ticked.
  pose proof (HF p 5 Hin ltac:(done)) as E5. change (4 * 5) with state in E5.
  pose proof (HF p 8 Hin ltac:(done)) as E8. change (4 * 8) with wake in E8.
  rewrite E5, E8. by rewrite Em.
Qed.

(** The handler has copied [f] to the frame of [c] and chosen [q]. *)
Section copied.
Context (s s1 s' : kst) (f c q : Z) (x : context) (m : gmap Z context).
Context (HS : seated s) (Hc : c ∈ l) (Hq : q ∈ l) (Hx : user_context x) (Hm : holding m s c).
Context (HP : pushed_at s s1 f x).
Context (HG : given_way (ticked s1) s' W l c f q (woken_fields (ticked s1))).

Lemma copied_fields p k :
  p ∈ l -> 0 <= k < 12 -> 4 * k <> state -> field s' p (4 * k) = field s1 p (4 * k).
Proof using Hlen HG.
  intros Hp Hk Hst. rewrite (gw_fields _ _ _ _ _ _ _ _ HG) by done. unfold woken_fields.
  rewrite (proj2 (Z.eqb_neq _ _) Hst). apply field_ticked.
Qed.
Lemma copied_frame p : p ∈ l -> frame s' p = frame s p /\ frame s1 p = frame s p.
Proof using Hlen HG HP.
  intros Hp. assert (frame s1 p = frame s p) as E by (by apply (pa_fields _ _ _ _ HP p 4)).
  split; [rewrite <- E; by apply (copied_fields p 4)|done].
Qed.
Lemma copied_size : frame_registers (ticked s1) f = 17.
Proof using Hlen HP Hx.
  unfold frame_registers. rewrite field_ticked.
  pose proof (pa_held _ _ _ _ HP) as Hh. apply holds_app in Hh as [Hh _]. words_of Hh.
  destruct Hx as [Hu _]. unfold user_mode in Hu.
  match goal with E : field s1 _ r_cs = _ |- _ => rewrite E end. by rewrite Hu.
Qed.

Lemma copied_shares : shares W l s'.
Proof using Hlen HG HP Hq.
  apply seated_shares.
  - apply (seated_same s1); [by apply (pa_seated _ _ _ _ HP)|apply HG| |by apply copied_fields].
    by rewrite (gw_current _ _ _ _ _ _ _ _ HG).
  - rewrite (gw_current _ _ _ _ _ _ _ _ HG), (gw_stack _ _ _ _ _ _ _ _ HG).
    symmetry. exact (gw_fields _ _ _ _ _ _ _ _ HG q 3 Hq ltac:(done)).
Qed.

Lemma copied_own : holds s' (frame s' c) (user_words x).
Proof using Hlen HG HP Hc Hx.
  destruct (copied_frame c Hc) as [-> E1]. pose proof (pa_held _ _ _ _ HP) as Hh. revert Hh.
  unfold holds. rewrite !Forall_forall. intros Hh [off v] Hin. rewrite <- (Hh (off, v) Hin). simpl.
  destruct (user_words_at x off v Hin) as (k & Hk & ->). rewrite <- (field_ticked s1).
  rewrite <- (gw_saved _ _ _ _ _ _ _ _ HG k) by (by rewrite copied_size).
  rewrite field_ticked. fold (frame s1 c). by rewrite E1.
Qed.

Lemma copied_other p k : p ∈ l -> p <> c -> 0 <= k < 17 ->
  field s' (frame s p) (4 * k) = field s (frame s p) (4 * k).
Proof using Hlen HG HP HS Hc Hx.
  intros Hp Hne Hk. rewrite <- (pa_frames _ _ _ _ HP p k Hp Hk), <- (field_ticked s1).
  destruct (ru_regs _ _ _ (se_running s HS) p Hp) as (_ & Hin & Hap).
  unfold field. apply (gw_kept _ _ _ _ _ _ _ _ HG 4%nat).
  - intros a Ha. apply Hin. unfold span, frame, sizeof_registers in *. lia.
  - intros r Hr. specialize (Hap r Hr). unfold apart_span, frame, sizeof_registers in *. lia.
  - rewrite field_ticked. fold (frame s1 c). rewrite (proj2 (copied_frame c Hc)), copied_size.
    pose proof (se_apart s HS p c Hp Hc Hne). unfold sizeof_registers in *. lia.
Qed.

Lemma copied_represents :
  exists y, <[c := x]> m !! q = Some y /\ user_context y /\ holds s' (frame s' q) (user_words y) /\
    represents W l s' y (Shared q (<[c := x]> m)).
Proof using Hlen HG HP HS Hc Hq Hx Hm.
  assert (forall p, p ∈ l -> exists y, <[c := x]> m !! p = Some y /\ user_context y /\
    holds s' (frame s' p) (user_words y)) as Hall.
  { intros p Hp. destruct (decide (p = c)) as [->|Hne].
    - exists x. rewrite lookup_insert_eq. split; [done|]. split; [done|exact copied_own].
    - destruct (Hm p Hp Hne) as (y & Hy & Hu & Hh). exists y. rewrite lookup_insert_ne by done.
      split; [done|]. split; [done|]. rewrite (proj1 (copied_frame p Hp)).
      apply (holds_frame s); [|done]. intros k Hk. by apply copied_other. }
  destruct (Hall q Hq) as (y & Hy & Hu & Hh). exists y. do 3 (split; [done|]).
  split; try done; [exact copied_shares|apply HG|]. intros p Hp _. by apply Hall.
Qed.

End copied.

(** The first interrupt, with another process ready. *)
Lemma first_interrupt s l1 c l2 f x m :
  let q := next_woken (ticked s) l1 l2 in
  l = l1 ++ c :: l2 -> seated s -> current_process (procs s) = c -> user_context x ->
  esp0 (tss (descs s)) = f + sizeof_registers -> clear_of s f -> holding m s c -> q <> 0 ->
  exists s' y, irq0 x s = Switched q s' /\ restore_esp q s' = Ok y s' /\ <[c := x]> m !! q = Some y /\
    represents W l s' y (Shared q (<[c := x]> m)).
Proof.
  intros q Hl HS Hc Hx He HC Hm Hq. destruct (enter_at s f x HS Hx He HC) as (s1 & R1 & HP).
  pose proof (pa_seated _ _ _ _ HP) as HS1. pose proof (pa_same _ _ _ _ HP) as [m1 E1].
  assert (c ∈ l) as Hcl by (rewrite Hl, elem_of_app, elem_of_cons; tauto).
  assert (preemptible s1 W l c f) as Hpre.
  { replace c with (current_process (procs s1)) by (by rewrite E1).
    apply running_preemptible; [by apply (se_running s1)|]. unfold good_frame.
    replace (current_process (procs s1)) with c by (by rewrite E1).
    destruct HC as [Hin _ Hrec Hfr]. split; [done|]. split; [done|]. right.
    assert (field s1 c regs = frame s c) as -> by (by apply (pa_fields _ _ _ _ HP c 4)). by apply Hfr. }
  pose proof (irq0_handler_ok s1 W l1 c l2 f) as HH. cbv zeta in HH.
  rewrite <- Hl, (pushed_next s s1 f x l1 c l2 Hl HP) in HH. fold q in HH.
  destruct (HH Hpre Hlen) as (s' & HY). rewrite (proj2 (Z.eqb_neq q 0) Hq) in HY. destruct HY as [Rh HG].
  destruct (next_of_list s W l1 c l2 (fun p => woken (ticked s) p =? PROCESS_READY)) as [Hql _];
    [rewrite <- Hl; apply (se_running s HS)|exact Hq|]. rewrite <- Hl in Hql.
  change (q ∈ l) in Hql.
  destruct (copied_represents s s1 s' f c q x m HS Hcl Hql Hx Hm HP HG) as (y & Hy & Hu & Hh & HR).
  exists s', y. split; [unfold irq0; run_with R1; unfold mbind, K_bind; by rewrite Rh|].
  split; [|done]. by apply (restore_user W l Hlen s' q y); [apply HR|..].
Qed.

(** User code that runs before it leaves all this as it is. *)
Lemma seated_works s s' : works W l s s' -> seated s -> seated s'.
Proof.
  intros ((Ep & HL & HF) & _) HS. apply (seated_same s); try done; [|by intros; apply HF].
  rewrite Ep. apply (se_running s HS).
Qed.
Lemma clear_works s s' f : works W l s s' -> clear_of s f -> clear_of s' f.
Proof.
  intros ((_ & _ & HF) & _) [H1 H2 H3 H4]. split; try done. intros p Hp.
  assert (frame s' p = frame s p) as -> by (by apply (HF p 4)). by apply H4.
Qed.
Lemma holding_works m s s' :
  works W l s s' -> holding m s (current_process (procs s)) -> holding m s' (current_process (procs s)).
Proof using Hlen H.
  intros ((_ & _ & HF) & _ & HK) Hm p Hp Hne. destruct (Hm p Hp Hne) as (y & Hy & Hu & Hh).
  exists y. split; [done|]. split; [done|]. assert (frame s' p = frame s p) as -> by (by apply (HF p 4)).
  apply (holds_frame s); [|done]. intros k Hk. by apply HK.
Qed.

End handover.
