(* ===== verification/Boot.v ===== *)
(** Starting up: the choice of mode ends.

    [switch_mode] waits for F10 or for 300 ticks; the interrupts that come
    while it waits are a parameter. *)

From S2P Require Import Prelude Machine State Mmu Window PageSource Vga MemMap Paging MemLib Heap Descriptors Devices Process Switch Spawn Elf Syscall Kernel Timer Keys.

(** * Waiting for F10 *)

Section choice.
Import Kernel.
Context (interrupt : K unit) (I : kst -> Prop).
Context (HI : forall s, I s ->
  exists s', interrupt (set_mach (emit Hlt) s) = Ok tt s' /\ I s' /\ ticks s' = u32 (ticks s + 1)).

(** The loop of [switch_mode] ends after as many interrupts as there are ticks
    left, or at the first F10. *)
Lemma choosing_ok (n : nat) s until :
  I s -> 0 <= ticks s -> until < 2 ^ 32 -> Z.max 0 (until - ticks s) < Z.of_nat n ->
  exists b s', choosing interrupt n until s = Ok b s' /\ I s' /\
    if b : bool then last_key (keys s') = Keyboard.KEY_F10 else until <= ticks s'.
Proof using HI.
  revert s. induction n as [|n IH]; intros s Hs H0 Hu Hn; simpl; rewrite ?gets_bind.
  { lia. }
  destruct (Z.ltb_spec (ticks s) until) as [Hlt|Hge]; [|by exists false, s].
  rewrite gets_bind.
  destruct (Z.eqb_spec (last_key (keys s)) Keyboard.KEY_F10) as [HF|_]; [by exists true, s|].
  destruct (HI s Hs) as (s1 & R & Hs1 & Ht).
  unfold hlt, privileged. rewrite modify_bind. run_with R.
  rewrite u32_small in Ht by (unfold in_u32; lia). apply IH; [done|lia|done|lia].
Qed.
End choice.

(** * What the start guarantees *)

Section guarantees.
Import Kernel.
Context `{Fuel}.

(** The state in which the question is asked. *)
Definition asked (s : kst) : kst :=
  set_keys (fun k => KeyState Keyboard.KEY_NONE (command k) (command_index k) (command_ready k)) s.

(** C26: the choice of mode ends: if every interrupt that wakes the processor
    keeps [I] and lets one tick pass, [switch_mode] returns after at most 300
    of them, with 1 when the time is over and with 0 when F10 was pressed, and
    the cursor is back at the start. *)
Theorem switch_mode_ends (interrupt : K unit) (I : kst -> Prop) s :
  (forall s, I s ->
     exists s', interrupt (set_mach (emit Hlt) s) = Ok tt s' /\ I s' /\ ticks s' = u32 (ticks s + 1)) ->
  (forall s', drawn (asked s) s' -> I s') ->
  window s video -> 0 <= cur_i (console s) < 2000 ->
  0 <= ticks s -> ticks s + 300 < 2 ^ 32 -> (300 < fuel)%nat ->
  exists r s', switch_mode interrupt s = Ok r s' /\ console s' = ConsoleState 400 0 /\
    (r = 1 /\ ticks s + 300 <= ticks s' \/ r = 0 /\ last_key (keys s') = Keyboard.KEY_F10).
Proof.
  intros HI H0 HW Hc Ht Hend Hf.
  assert (window (asked s) video) as HW' by exact (window_mach s (asked s) video eq_refl HW).
  destruct (print_string_at_ok "click f10 if you want to stay in the bios" (asked s) eq_refl HW' Hc)
    as (s1 & R1 & D1).
  assert (ticks s1 = ticks s) as Ht1 by (by destruct (dr_state _ _ D1) as (m & c & ->)).
  destruct (choosing_ok interrupt I HI fuel s1 (ticks s + 300)) as (b & s2 & R2 & _ & Hb);
    [by apply H0|lia|lia|lia|].
  unfold switch_mode, set_last_key. rewrite modify_bind. fold (asked s). rewrite gets_bind.
  run_with R1. change (ticks (asked s)) with (ticks s). rewrite u32_small by (unfold in_u32; lia).
  run_with R2. unfold Vga.set_i, Vga.set_j. rewrite !modify_bind.
  eexists _, _. split; [reflexivity|]. split; [done|]. destruct b; [by right|left; by split].
Qed.

End guarantees.

(** * A timer and nothing else *)

Section examples.
Import Kernel Process.
#[local] Instance many : Fuel := 500%nat.

(** Only the timer interrupts; no process runs yet, so its frame is not read. *)
Definition timer_only : K unit := irq0_handler 0.

Lemma switch_mode_ends_witness :
  exists r s', switch_mode timer_only (boot_state [] no_device) = Ok r s' /\ (r = 1 \/ r = 0).
Proof.
  set (s := boot_state [] no_device).
  destruct (switch_mode_ends timer_only
    (fun s => current_process (procs s) = 0) s) as (r & s' & R & _ & Hr).
  - intros t Ht. unfold timer_only, irq0_handler. rewrite modify_bind. unfold outb, privileged.
    rewrite modify_bind. unfold get_current, get_list. rewrite !gets_bind. simpl. rewrite Ht.
    eexists. split; [reflexivity|]. by split.
  - intros t D. by destruct (dr_state _ _ D) as (m & c & ->).
  - apply flat_window; [done|exact video_u32].
  - by vm_compute.
  - by vm_compute.
  - by vm_compute.
  - vm_compute. lia.
  - exists r, s'. split; [exact R|]. destruct Hr as [[-> _]|[-> _]]; [by left|by right].
Defined.

End examples.
