(* ===== verification/Start.v ===== *)
(** The whole start: [kernel] of kernel/kernel.c, from the first line to the
    first process.

    The devices, the choice of mode, paging, the embedded program, the second
    choice and the process of [user_main], each by the theorem of its part.
    Interrupts come where the code waits; [restful] is what they have to leave
    alone, and the timer does. *)

From S2P Require Import Prelude Machine State Mmu Window PageSource Vga MemMap Paging MemLib Heap UserMap Descriptors Devices Process Switch Spawn Elf Syscall Fork Exec Launch Kernel Timer Keys Stubs Handover Boot.

(** * Waiting *)

Section waiting.
Import Kernel Process.
Context `{Fuel}.

(** Output, ticks and keys: what may change while the kernel waits. *)
Record waited (s s' : kst) : Prop := {
  wt_touches : touches video s s';
  wt_globals : pmm s' = pmm s /\ heap s' = heap s /\ procs s' = procs s /\ descs s' = descs s;
  wt_cursor : 0 <= cur_i (console s') < 2000
}.

Lemma waited_trans s s1 s2 : waited s s1 -> waited s1 s2 -> waited s s2.
Proof.
  intros [T1 E1 _] [T2 E2 C2]. split; [by apply (touches_trans _ _ s1)|intuition congruence|done].
Qed.
Lemma drawn_waited s s' : drawn s s' -> waited s s'.
Proof. by intros [(m & c & ->) T C]. Qed.
Lemma waited_window s s' W : waited s s' -> window s W -> window s' W.
Proof. intros HT. apply (touches_window _ _ _ _ (wt_touches _ _ HT)). Qed.

(** The kernel at rest: a screen, and no process or a single one that is ready. *)
Record at_rest (s : kst) : Prop := {
  ar_screen : window s video;
  ar_cursor : 0 <= cur_i (console s) < 2000;
  ar_processes : process_list (procs s) = 0 /\ current_process (procs s) = 0 \/
    exists W p, procs_list s W [p] /\ current_process (procs s) = p /\
      field s p state = PROCESS_READY /\ subset video W /\
      disjoint_from (span p sizeof_process) video
}.

Lemma rest_waited s s' : at_rest s -> waited s s' -> at_rest s'.
Proof.
  intros [HV Hc Hp] HT. pose proof HT as [T (Em & Eh & Ep & _) C].
  split; [by apply (waited_window s)|done|]. rewrite Ep.
  destruct Hp as [Hp|(W & p & [HW Hpath Hok Hsep] & Hcur & Hst & HVW & Hd)]; [by left|right].
  pose proof Hok as Hok1. rewrite Forall_singleton in Hok1.
  assert (forall o, 0 <= o -> o + 4 <= sizeof_process -> field s' p o = field s p o) as HF.
  { intros o Ho He. unfold field, rd32. apply (touches_kept _ _ _ _ HW T HVW 4%nat).
    - intros x Hx. apply (pr_in _ _ Hok1). unfold span in *. lia.
    - intros x Hx. apply Hd. unfold span in *. lia. }
  exists W, p. split.
  { split; [by apply (waited_window s)| |done|done]. rewrite Ep. apply (path_same s); [|done].
    intros q ->%list_elem_of_singleton. by apply HF. }
  split; [done|]. split; [by rewrite HF|done].
Qed.

(** An interrupt at rest: one tick passes and nobody presses F10. *)
Definition restful (interrupt : K unit) : Prop :=
  forall s, at_rest s -> last_key (keys s) <> Keyboard.KEY_F10 ->
    exists s', interrupt (set_mach (emit Hlt) s) = Ok tt s' /\ waited s s' /\
      ticks s' = u32 (ticks s + 1) /\ last_key (keys s') <> Keyboard.KEY_F10.

Section restful.
Context (interrupt : K unit) (HI : restful interrupt).

Lemma choosing_waits (n : nat) s until :
  at_rest s -> last_key (keys s) <> Keyboard.KEY_F10 -> 0 <= ticks s <= until -> until < 2 ^ 32 ->
  until - ticks s < Z.of_nat n ->
  exists s', choosing interrupt n until s = Ok false s' /\ (s' = s \/ waited s s') /\
    ticks s' = until /\ last_key (keys s') <> Keyboard.KEY_F10.
Proof using HI.
  revert s. induction n as [|n IH]; intros s Hs Hk Ht Hu Hn; simpl; rewrite ?gets_bind; [lia|].
  destruct (Z.ltb_spec (ticks s) until) as [Hlt|Hge].
  2:{ exists s. split; [done|]. split; [by left|]. split; [lia|done]. }
  rewrite gets_bind, (proj2 (Z.eqb_neq _ _)) by done.
  destruct (HI s Hs Hk) as (s1 & R & HT & Ht1 & Hk1).
  unfold hlt, privileged. rewrite modify_bind. run_with R.
  rewrite u32_small in Ht1 by (unfold in_u32; lia).
  destruct (IH s1) as (s2 & R2 & HT2 & Ht2 & Hk2); try done; try lia; [by apply (rest_waited s)|].
  exists s2. split; [done|]. split; [|done]. right.
  destruct HT2 as [->|HT2]; [done|by apply (waited_trans _ s1)].
Qed.

(** Without F10 the choice takes three seconds and goes on. *)
Lemma switch_mode_waits s :
  at_rest s -> 0 <= ticks s -> ticks s + 300 < 2 ^ 32 -> (300 < fuel)%nat ->
  exists s', switch_mode interrupt s = Ok 1 s' /\ waited s s' /\ ticks s' = ticks s + 300.
Proof using HI.
  intros Hs Ht Hend Hf. assert (at_rest (asked s)) as Ha.
  { destruct Hs as [HV Hc Hp]. split; [exact (window_mach s (asked s) video eq_refl HV)|done|].
    destruct Hp as [Hp|(W & p & [HW Hpath Hok Hsep] & Hp)]; [by left|right]. exists W, p.
    split; [|done]. split; [exact (window_mach s (asked s) W eq_refl HW)|by apply (path_same s)|done|done]. }
  destruct (print_string_at_ok "click f10 if you want to stay in the bios" (asked s) eq_refl
    (ar_screen _ Ha) (ar_cursor _ Ha)) as (s1 & R1 & D1).
  assert (ticks s1 = ticks s /\ last_key (keys s1) = Keyboard.KEY_NONE) as [Et1 Ek1]
    by (by destruct (dr_state _ _ D1) as (m & c & ->)).
  apply drawn_waited in D1.
  destruct (choosing_waits fuel s1 (ticks s + 300)) as (s2 & R2 & HT2 & Ht2 & _);
    [by apply (rest_waited (asked s))|by rewrite Ek1|lia|lia|lia|].
  assert (waited s s2) as HT.
  { assert (waited s s1) as HT1 by (destruct D1 as [T E C]; split; [by apply (touches_mach _ _ (asked s))|done|done]).
    destruct HT2 as [->|HT2]; [done|by apply (waited_trans _ s1)]. }
  unfold switch_mode, set_last_key. rewrite modify_bind. fold (asked s). rewrite gets_bind.
  run_with R1. change (ticks (asked s)) with (ticks s). rewrite u32_small by (unfold in_u32; lia).
  run_with R2. unfold Vga.set_i, Vga.set_j. rewrite !modify_bind.
  eexists. split; [reflexivity|]. split; [|done].
  destruct HT as [T E _]. split; [by apply (touches_mach_r _ _ s2)|done|by split].
Qed.
End restful.

(** A process alone in the list: nobody to wake, nobody to give way to. *)
Lemma alone_quiet s W p regs :
  procs_list s W [p] -> current_process (procs s) = p -> field s p state = PROCESS_READY ->
  (1 < fuel)%nat ->
  wake_processes s = Ok tt s /\ Syscall.sys_yield regs s = Ok tt s.
Proof.
  intros [HW [El Hnext] Hok Hsep] Hcur Hst Hf. rewrite Forall_singleton in Hok.
  pose proof Hok as [Hp0 _ _]. simpl in Hnext.
  pose proof (get_proc_ok s W p state HW Hok ltac:(done) ltac:(done)) as Gs. rewrite Hst in Gs.
  pose proof (get_proc_ok s W p next HW Hok ltac:(done) ltac:(done)) as Gn. rewrite Hnext in Gn.
  assert (wake_processes s = Ok tt s) as Rw.
  { unfold wake_processes, get_list. rewrite gets_bind, El. destruct fuel as [|[|n]]; [lia|lia|].
    simpl. rewrite (proj2 (Z.eqb_neq p 0)) by lia. run_with Gs. simpl. rewrite ret_bind. by run_with Gn. }
  split; [done|]. unfold Syscall.sys_yield, get_current. rewrite gets_bind. run_with Rw.
  assert (schedule s = Ok 0 s) as Rs; [|by run_with Rs].
  assert (forall q, first_ready fuel q q s = Ok 0 s) as Rf.
  { intros q. destruct fuel as [|n]; [lia|]. simpl. by rewrite Z.eqb_refl. }
  unfold schedule, get_current, get_list. rewrite gets_bind, Hcur. run_with Gn. run_with (Rf 0).
  rewrite Z.eqb_refl. unfold negb. by rewrite !gets_bind, El, Hcur.
Qed.

(** The timer interrupt is restful. *)
Lemma timer_restful regs : (1 < fuel)%nat -> restful (irq0_handler regs).
Proof.
  intros Hf s HR Hk. set (s0 := set_mach (emit Hlt) s).
  set (s1 := set_mach (emit (Outb 0x20 0x20)) (set_ticks (fun t => u32 (t + 1)) s0)).
  assert (waited s s1) as HT.
  { split; [|done|apply HR]. apply touches_same_memory; [by split_and!|exact video_u32]. }
  exists s1. split; [|split; [done|by split]].
  unfold irq0_handler. rewrite modify_bind. unfold outb, privileged. rewrite modify_bind.
  unfold get_current, get_list. rewrite !gets_bind.
  change (set_mach _ (set_ticks _ s0)) with s1. 
  pose proof (ar_processes s1 (rest_waited s s1 HR HT)) as [[Hl Hc]|(W & p & HL & Hcur & Hst & _)].
  { by rewrite Hc. }
  destruct (alone_quiet s1 W p regs HL Hcur Hst Hf) as [Rw Ry].
  case_match; [done|]. by run_with Rw.
Qed.

End waiting.

(** * The parts of the start *)

Section parts.
Import Kernel Process.
Context `{HL : Layout} `{HOk : !LayoutOk} `{Image} `{Fuel}.

(** The vectors of the kernel. *)
Definition vectors : list (Z * (Z * Z)) :=
  [(8, (isr8_addr, 0x8E)); (13, (isr13_addr, 0x8E)); (14, (isr14_addr, 0x8E));
   (32, (irq0_addr, 0x8E)); (33, (keyboard_isr_addr, 0x8E)); (0x80, (syscall_handler_addr, 0xEE))].

(** The tables of the processor after the start: every vector goes to its stub,
    and interrupts of user code use the stack below 0x90000. *)
Record tables_loaded (s : kst) : Prop := {
  tl_vectors : Forall (fun v => idt (descs s) !! Z.to_nat v.1 =
                        Some (Descriptors.idt_gate v.2.1 v.2.2)) vectors;
  tl_stack : esp0 (tss (descs s)) = 0x90000 /\ ss0 (tss (descs s)) = Descriptors.KERNEL_DS
}.

Definition load_tables : K unit :=
  Descriptors.init_gdt;;
  Descriptors.set_idt_ptr (TablePtr (8 * 256 - 1) idt_addr);;
  remap_pic;;
  outb 0x21 0xFC;;
  Descriptors.add 32 irq0_addr 0x8E;;
  Descriptors.add 8 isr8_addr 0x8E;;
  Descriptors.add 13 isr13_addr 0x8E;;
  Descriptors.add 14 isr14_addr 0x8E;;
  Descriptors.add 0x80 syscall_handler_addr 0xEE;;
  Descriptors.add 33 keyboard_isr_addr 0x8E;;
  Descriptors.load_idt idt_ptr_addr;;
  sti;;
  Pit.pit_init 11931.

Lemma load_tables_ok s :
  length (idt (descs s)) = 256%nat ->
  exists s', load_tables s = Ok tt s' /\ same_memory s s' /\ tables_loaded s' /\
    pmm s' = pmm s /\ heap s' = heap s /\ procs s' = procs s /\ console s' = console s /\
    ticks s' = ticks s.
Proof.
  intros Hlen. eexists. split; [reflexivity|]. split; [by split_and!|].
  split; [|by split_and!]. split; [|by split].
  unfold vectors. rewrite !Forall_cons, Forall_nil. simpl fst. simpl snd.
  set (t := idt (descs s)) in *. simpl descs. simpl idt. fold t.
  split_and!; try done;
    repeat (rewrite list_lookup_insert_ne by (vm_compute; lia));
    apply list_lookup_insert_eq; rewrite ?length_insert, Hlen; vm_compute; lia.
Qed.


Lemma start_devices_ok s :
  window s video -> 0 <= cur_i (console s) < 2000 -> length (idt (descs s)) = 256%nat ->
  exists s', start_devices s = Ok tt s' /\ touches video s s' /\ tables_loaded s' /\
    0 <= cur_i (console s') < 2000 /\
    pmm s' = pmm s /\ heap s' = heap s /\ procs s' = procs s /\ ticks s' = ticks s.
Proof.
  intros HV Hc Hlen. destruct (clear_screen_ok s HV) as (s1 & R1 & H1).
  destruct (print_time_message_ok "start os" start_pos s1 eq_refl (shown_window _ _ _ H1 HV) ltac:(done))
    as (s2 & R2 & H2). pose proof (shown_trans _ _ _ _ _ H1 H2) as H12.
  destruct (st_machine _ _ _ (proj1 H12)) as [m Hm].
  destruct (print_string_at_ok ("Before paging " ++ NL) s2 eq_refl (shown_window _ _ _ H12 HV))
    as (s3 & R3 & [(m3 & c3 & E3) T3 C3]); [by rewrite Hm|].
  destruct (load_tables_ok s3) as (s4 & R4 & M4 & L4 & E4 & E5 & E6 & E7 & E8); [by rewrite E3, Hm|].
  exists s4. split.
  { unfold start_devices. run_with R1. run_with R2. run_with R3. exact R4. }
  split.
  { apply (touches_trans _ _ s2);
      [by apply (stores_touches _ _ _ _ (proj1 H12)); [intros x|exact video_u32]|].
    apply (touches_trans _ _ s3); [done|]. by apply touches_same_memory; [|exact video_u32]. }
  split; [done|]. split; [by rewrite E7|]. rewrite E4, E5, E6, E8, E3, Hm. by split_and!.
Qed.

(** The calls around [enable_paging], with the line they print. *)
Definition open_paging : K unit :=
  Paging.init_virtual_allocator;;
  Paging.build_first_page;;
  Vga.print_string_at NL;;
  Paging.load_page_directory page_directory_addr;;
  Paging.enable_paging.

(** Physical memory while paging is off. *)
Lemma flat_kept A s s' :
  paging (mach s) = false -> touches A s s' ->
  paging (mach s') = false /\ forall pa, ~ A pa -> phys8 (mach s') pa = phys8 (mach s) pa.
Proof.
  intros Hp HT. destruct (st_control _ _ _ HT) as [Hp' _]. simpl in Hp'. split; [congruence|].
  intros pa Hpa. apply (st_frame _ _ _ HT). intros a Ha. unfold translate. rewrite Hp.
  by intros [= ->].
Qed.

Lemma tables_kept m m' :
  tables_built m -> (forall pa, tables pa -> phys8 m' pa = phys8 m pa) -> tables_built m'.
Proof using HOk.
  intros [T1 D0 D1] V. destruct page_table_in_image, page_directory_in_image.
  split; [intros k Hk; rewrite <- (T1 k Hk)|rewrite <- D0|intros k Hk; rewrite <- (D1 k Hk)];
    apply phys32_ext; intros j Hj; apply V; unfold tables, span; lia.
Qed.

(** The image of the kernel without the two tables. *)
Definition image_memory (P : Z -> Prop) : Prop :=
  subset P (fun a => 0 <= a < kernel_end_addr) /\ disjoint_from P tables.

Lemma open_paging_maps s :
  paging (mach s) = false -> 0 <= cur_i (console s) < 2000 ->
  exists s', open_paging s = Ok tt s' /\ paging_on s' /\
    (forall pa, ~ tables pa -> ~ video pa -> phys8 (mach s') pa = phys8 (mach s) pa) /\
    0 <= cur_i (console s') < 2000 /\
    pmm s' = PmmState (State.entry (pmm s)) (mmap (pmm s)) kernel_end_addr (free_virtual (pmm s)) (free_count (pmm s)) /\
    heap s' = heap s /\ procs s' = procs s /\ descs s' = descs s /\ ticks s' = ticks s.
Proof using HOk.
  intros Hp Hc. unfold open_paging. run_with (init_virtual_ok s). set (s1 := set_pmm _ s).
  destruct (build_first_page_ok s1 Hp) as (s2 & R2 & S2 & T1 & D0 & D1). run_with R2.
  destruct (st_machine _ _ _ S2) as [m2 E2].
  destruct (flat_kept tables s1 s2 Hp) as [Hp2 V2];
    [by apply (stores_touches _ _ _ _ S2); [intros x|exact tables_u32]|].
  destruct (print_string_at_ok NL s2 eq_refl (flat_window s2 video Hp2 video_u32))
    as (s3 & R3 & [(m3 & c3 & E3) T3 C3]); [by rewrite E2|]. run_with R3.
  destruct (flat_kept video s2 s3 Hp2 T3) as [Hp3 V3].
  destruct (enable_paging_ok s3) as (s4 & R4 & (m4 & E4) & HO & V4).
  { apply (tables_kept (mach s2)); [by split|]. intros pa Hpa. apply V3.
    destruct page_table_in_image, page_directory_in_image. pose proof kernel_end_low.
    unfold tables, video, span, Vga.VGA in *. lia. }
  exists s4. split; [exact R4|]. split; [done|]. split.
  { intros pa Ht Hv. by rewrite V4, V3, V2. }
  split; [by rewrite E4|]. rewrite E4, E3, E2. by split_and!.
Qed.


(** The kernel starts on a stack below 0x90000; its last words are where the
    first interrupt of user code goes, before a process has set the stack. *)
Definition first_frame : Z := 0x90000 - sizeof_registers.
Definition boot_stack : Z -> Prop := span first_frame sizeof_registers.
Definition used (P : Z -> Prop) (a : Z) : Prop := video a \/ (boot_stack a \/ P a).

(** The allocators before their first call. *)
Record untouched (s : kst) : Prop := {
  ut_frames : frames s;
  ut_high : forall pa, free_byte s pa -> 0x100000 <= pa;
  ut_recycled : free_count (pmm s) = 0 /\ length (free_virtual (pmm s)) = 1024%nat;
  ut_heap : heap_head (heap s) = 0;
  ut_processes : procs s = ProcState 0 0 1
}.

Lemma untouched_same s s' :
  State.entry (pmm s') = State.entry (pmm s) -> mmap (pmm s') = mmap (pmm s) ->
  free_count (pmm s') = free_count (pmm s) -> free_virtual (pmm s') = free_virtual (pmm s) ->
  heap s' = heap s -> procs s' = procs s -> untouched s -> untouched s'.
Proof.
  intros E1 E2 E3 E4 E5 E6 [HF Hh Hr He Hp]. destruct (frames_same s s' E1 E2) as [HF' HB].
  split; rewrite ?E3, ?E4, ?E5, ?E6; auto. intros pa. rewrite HB. apply Hh.
Qed.

(** Paging is on: the kernel is up, with the screen, its stack and the memory [P]
    of the image in use. *)
Lemma comes_up s P :
  paging_on s -> untouched s -> next_virtual (pmm s) = kernel_end_addr ->
  0 <= cur_i (console s) < 2000 -> image_memory P -> kernel_end_addr <= page_limit ->
  kernel_up s (used P) [] [] /\ forall a, P a -> rd8 s a = phys8 (mach s) a.
Proof using HOk.
  intros HO [HF Hhigh [Hfc Hfv] Hh Hp] Hnv Hc [HPi HPt] Hsp.
  pose proof (pages_lower screen_base page_limit s _ ltac:(by vm_compute) Hfc
    (start_pages s HO HF Hhigh Hnv Hfc Hfv)) as HPg. pose proof HO as [Hpg Htr Hw Hpd].
  pose proof kernel_end_low as Hlow. destruct page_table_in_image, page_directory_in_image.
  assert (forall a, 0 <= a < 2 ^ 22 -> translate (mach s) a = Some a) as Hid.
  { intros a Ha. rewrite Htr by width_lia. by rewrite (proj2 (Z.ltb_lt _ _)) by lia. }
  assert (forall a, boot_stack a -> 0x8F000 <= a < 0x90000) as Hbs.
  { intros a. unfold boot_stack, first_frame, span, sizeof_registers. lia. }
  assert (forall a, P a -> 0 <= a < 0x90000) as HPa by (intros a Ha; specialize (HPi a Ha); simpl in HPi; lia).
  assert (forall a, boot_stack a \/ P a -> 0 <= a < 0x90000 /\ ~ tables a) as HQ.
  { intros a [Ha|Ha]; [|split; [by apply HPa|intros Ht; by apply (HPt a)]]. specialize (Hbs a Ha).
    split; [lia|]. unfold tables, span. lia. }
  assert (pages page_limit s (used P)) as HP1.
  { apply pages_add_identity; [done|intros a [Ha _]%HQ; width_lia| | |].
    - intros a [Ha Ht]%HQ. split; [apply Hid; lia|]. split; [by rewrite Hw|].
      intros Hf. specialize (Hhigh a Hf). lia.
    - intros a b [Ha _]%HQ Hb. unfold video, span, Vga.VGA in Hb.
      rewrite Hid by lia. by intros [= ->].
    - intros p a [Hq|(Hq & Hql & _)] Ha Hpa.
      + unfold recycled in Hq. rewrite Hfc in Hq. by apply elem_of_nil in Hq.
      + unfold span in Ha. destruct Hpa as [Hpa%Hbs|Hpa%HPi]; simpl in Hpa; lia. }
  split.
  2:{ intros a Ha. unfold rd8. rewrite Hid; [done|]. specialize (HPa a Ha). lia. }
  split; [split; [|split|constructor]| | | |done].
  - by split; [exact HP1|rewrite Hh|constructor|..].
  - apply (pa_window _ _ _ HP1).
  - by rewrite Hp.
  - constructor.
  - done.
  - split; [exact HP1| | |].
    + intros x Hx. apply Hid. lia.
    + intros pa Hpa%Hw. unfold tables, span in Hpa. lia.
    + intros pa Hpa. specialize (Hhigh pa Hpa). lia.
  - intros x. by left.
  - by intros x _ ?%Exists_nil.
Qed.

End parts.

(** * The start *)

Section start.
Import Kernel Process.
Context `{HL : Layout} `{HOk : !LayoutOk} `{Image} `{Fuel}.
Context (interrupt : K unit) (HI : restful interrupt).

(** The machine as the boot sector leaves it, with the embedded program in the
    memory [P] of the image, and memory enough for the start and [n] pages. *)
Record switched_on (s : kst) (P : Z -> Prop) (n : nat) : Prop := {
  so_paging : paging (mach s) = false;
  so_cursor : 0 <= cur_i (console s) < 2000;
  so_ticks : 0 <= ticks s /\ ticks s + 600 < 2 ^ 32;
  so_idt : length (idt (descs s)) = 256%nat;
  so_untouched : untouched s;
  so_image : image_memory P;
  so_space : kernel_end_addr + 11 * 4096 <= page_limit;
  so_program : program_at s P elf_test_start;
  so_apart : disjoint_from stack_page (loaded_pages s (headers_of elf_test_start s));
  so_frames : frames_below (1 + (5 + (frames_for s (headers_of elf_test_start s) + (2 + (5 + n)))))
                (live s) = true
}.

(** [kernel] up to [enable_paging]. *)
Definition until_paging : K unit :=
  start_devices;;
  choice ← switch_mode interrupt;
  (if choice =? 0 then stay_in_bios else mret tt);;
  open_paging.

(** ... and from there on. *)
Definition after_paging : K unit :=
  Vga.print_hex_at elf_test_start;;
  p ← Elf.create_elf_process elf_test_start;
  (if negb (p =? 0) then
     Vga.print_string_at ("ELF process loaded successfully" ++ NL)%string;;
     Vga.print_hex_at p
   else mret tt);;
  choice ← switch_mode interrupt;
  Vga.clear_screen;;
  if choice =? 1 then
    create_process user_main_addr PROCESS_USER;;
    c ← get_current;
    restore_esp c
  else mret tt.

Lemma kernel_stages s : kernel interrupt s = (until_paging;; after_paging) s.
Proof.
  unfold kernel, until_paging. rewrite bind_assoc. apply bind_ext; intros _ s1.
  rewrite bind_assoc. apply bind_ext; intros choice s2. rewrite bind_assoc. apply bind_ext; intros _ s3.
  unfold open_paging. rewrite bind_assoc. apply bind_ext; intros _ s4.
  rewrite bind_assoc. apply bind_ext; intros _ s5. rewrite bind_assoc. apply bind_ext; intros _ s6.
  rewrite bind_assoc. by apply bind_ext.
Qed.


(** What the first stage leaves for the program. *)
Record paged_kernel (s s' : kst) (P : Z -> Prop) : Prop := {
  pk_up : kernel_up s' (used P) [] [];
  pk_image : forall a, P a -> rd8 s' a = rd8 s a;
  pk_live : live s' = live s;
  pk_procs : procs s' = ProcState 0 0 1;
  pk_next : next_virtual (pmm s') = kernel_end_addr;
  pk_tables : tables_loaded s';
  pk_ticks : ticks s' = ticks s + 300
}.

Lemma image_low P a : image_memory P -> P a -> 0 <= a < 0x90000 /\ ~ video a.
Proof using HOk.
  intros [HP _] Ha. specialize (HP a Ha). simpl in HP. pose proof kernel_end_low.
  unfold video, span, Vga.VGA. lia.
Qed.

Lemma until_paging_ok s P n :
  switched_on s P n -> (300 < fuel)%nat ->
  exists s', until_paging s = Ok tt s' /\ paged_kernel s s' P.
Proof using HI HOk.
  intros [Hp Hc [Ht Hte] Hidt Hut Him Hsp _ _ _] Hf. pose proof (flat_window s video Hp video_u32) as HV.
  destruct (start_devices_ok s HV Hc Hidt) as (s1 & R1 & T1 & L1 & C1 & Em1 & Eh1 & Ep1 & Et1).
  destruct (flat_kept video s s1 Hp T1) as [Hp1 V1].
  assert (at_rest s1) as HR1.
  { split; [exact (flat_window s1 video Hp1 video_u32)|done|left]. by rewrite Ep1, (ut_processes _ Hut). }
  destruct (switch_mode_waits interrupt HI s1 HR1) as (s2 & R2 & [T2 (Em2 & Eh2 & Ep2 & Ed2) C2] & Et2);
    [lia|lia|done|].
  destruct (flat_kept video s1 s2 Hp1 T2) as [Hp2 V2].
  destruct (open_paging_maps s2 Hp2 C2) as (s3 & R3 & HO & V3 & C3 & Em3 & Eh3 & Ep3 & Ed3 & Et3).
  assert (untouched s3) as Hut3.
  { apply (untouched_same s); try done; rewrite ?Em3, ?Eh3, ?Ep3; simpl; congruence. }
  destruct (comes_up s3 P HO Hut3) as [HU V4]; [by rewrite Em3|done|done|lia|].
  exists s3. split.
  { unfold until_paging. run_with R1. run_with R2. change (1 =? 0) with false. cbv iota.
    rewrite ret_bind. exact R3. }
  split; try done.
  - intros a Ha. destruct (image_low P a Him Ha) as [Hal Hav]. destruct Him as [_ Hnt].
    rewrite V4, V3, V2, V1; try done; [|intros Hta; by apply (Hnt a)].
    unfold rd8, translate. by rewrite Hp.
  - unfold live. rewrite Em3. simpl. by rewrite Em2, Em1.
  - rewrite Ep3, Ep2, Ep1. apply Hut.
  - by rewrite Em3.
  - destruct L1 as [Lv Ls]. by split; rewrite Ed3, Ed2.
  - lia.
Qed.


Lemma up_at_rest s W l p :
  kernel_up s W l [p] -> current_process (procs s) = p -> field s p state = PROCESS_READY -> at_rest s.
Proof.
  intros HU Hc Hst. pose proof HU as [[_ HP HH] _ HV HVd Hcur].
  split; [by apply (ku_video s W l [p])|done|right]. exists W, p. do 3 (split; [done|]). split; [done|].
  rewrite Forall_singleton in HH. intros x Hx Hvx. apply (HVd x Hvx). by apply (housed_bytes l p).
Qed.

Lemma up_waited s s' W l ps :
  kernel_up s W l ps -> waited s s' ->
  kernel_up s' W l ps /\
  (forall q o, q ∈ ps -> 0 <= o -> o + 4 <= sizeof_process -> field s' q o = field s q o) /\
  forall x, W x -> ~ video x -> rd8 s' x = rd8 s x.
Proof. intros HU [HT (Em & Eh & Ep & _) Hc]. by apply (up_touches video); try apply HU. Qed.

(** The messages, the second choice and the cleared screen. *)
Lemma second_choice s W l p :
  kernel_up s W l [p] -> current_process (procs s) = p -> field s p state = PROCESS_READY ->
  0 <= ticks s -> ticks s + 300 < 2 ^ 32 -> (300 < fuel)%nat ->
  exists s1 s2 s3,
    (if negb (p =? 0) then
       Vga.print_string_at ("ELF process loaded successfully" ++ NL)%string;; Vga.print_hex_at p
     else mret tt) s = Ok tt s1 /\
    switch_mode interrupt s1 = Ok 1 s2 /\ Vga.clear_screen s2 = Ok tt s3 /\
    waited s s3 /\ ticks s3 = ticks s + 300.
Proof using HI.
  intros HU Hcur Hst Ht Hte Hf. pose proof (up_at_rest s W l p HU Hcur Hst) as HR.
  assert (0 < p) as Hp.
  { pose proof (pl_procs _ _ _ (kd_procs _ _ _ _ (ku_data _ _ _ _ HU))) as Hok.
    rewrite Forall_singleton in Hok. by destruct Hok. }
  destruct (print_string_at_ok ("ELF process loaded successfully" ++ NL) s eq_refl (ar_screen _ HR) (ar_cursor _ HR))
    as (t & R1 & D1).
  destruct (print_hex_at_ok p t ltac:(lia) (drawn_window _ _ _ D1 (ar_screen _ HR)) (dr_cursor _ _ D1))
    as (s1 & R2 & D2). pose proof (drawn_trans _ _ _ D1 D2) as D.
  assert (ticks s1 = ticks s) as Et1 by (by destruct (dr_state _ _ D) as (m & c & ->)).
  apply drawn_waited in D.
  destruct (switch_mode_waits interrupt HI s1 (rest_waited _ _ HR D)) as (s2 & R3 & T2 & Et2); [lia|lia|done|].
  pose proof (waited_trans _ _ _ D T2) as D2'.
  destruct (clear_screen_ok s2 (waited_window _ _ _ D2' (ar_screen _ HR))) as (s3 & R4 & [S3 _]).
  exists s1, s2, s3. assert (negb (p =? 0) = true) as -> by lia.
  split; [by run_with R1|]. split; [done|]. split; [done|].
  destruct (st_machine _ _ _ S3) as [m E3]. split; [|rewrite E3; simpl; lia].
  apply (waited_trans _ s2); [done|]. split; [|by rewrite E3|rewrite E3; apply D2'].
  by apply (stores_touches _ _ _ _ S3); [intros x|exact video_u32].
Qed.

(** The page of the heap after the first record. *)
Definition second_block (pg : Z) : block := MkBlock (pg + 9 + 48) (4087 - 48 - 9) false.
Lemma one_record pg :
  Spec.take_at sizeof_process pg [Spec.fresh pg] = [MkBlock pg 48 true; second_block pg].
Proof. unfold Spec.take_at. simpl. by rewrite Z.eqb_refl. Qed.

(** What the first stage and the embedded program leave for the rest. *)
Record program_loaded (s s' : kst) (W : Z -> Prop) (pg : Z) (n : nat) : Prop := {
  pn_up : kernel_up s' W [MkBlock pg 48 true; second_block pg] [pg + 9];
  pn_current : current_process (procs s') = pg + 9;
  pn_first : field s' (pg + 9) pid = 1 /\ field s' (pg + 9) state = PROCESS_READY;
  pn_frame : own_memory W [MkBlock pg 48 true; second_block pg]
      (span (field s' (pg + 9) regs) sizeof_registers) /\
    disjoint_from (span (field s' (pg + 9) regs) sizeof_registers) video /\
    0 < field s' (pg + 9) regs /\ field s' (pg + 9) regs + sizeof_registers <= page_limit;
  pn_registers : exists ks, forall k, 0 <= k < 17 ->
    field s' (field s' (pg + 9) regs) (4 * k) =
    value_after (first_registers (rd32 s (elf_test_start + 24)) PROCESS_USER ks
                   (Elf.USER_STACK_TOP - 4096)) (4 * k) 0;
  pn_program : in_place s s' elf_test_start;
  pn_stack : own_memory W [MkBlock pg 48 true; second_block pg] boot_stack;
  pn_stack_to : field s' (pg + 9) kernel_stack_to = field s' (pg + 9) regs + sizeof_registers;
  pn_pages : subset (loaded_pages s (headers_of elf_test_start s)) W;
  pn_low : pg + 4096 <= page_limit;
  pn_number : process_number (procs s') = 2;
  pn_next : next_virtual (pmm s') <= kernel_end_addr + 6 * 4096;
  pn_tables : tables_loaded s';
  pn_frames : frames_below n (live s') = true;
  pn_ticks : ticks s' = ticks s + 300
}.

(** The state [u] in which the program is launched, the heap opened. *)
Record launch_state (s u : kst) (W P : Z -> Prop) (pg : Z) : Prop := {
  ls_opened : exists s2, opened s2 u W pg;
  ls_image : forall a, P a -> rd8 u a = rd8 s a;
  ls_procs : procs u = ProcState 0 0 1;
  ls_next : next_virtual (pmm u) <= kernel_end_addr + 4096;
  ls_tables : tables_loaded u;
  ls_ticks : ticks u = ticks s + 300
}.

Lemma program_launched s s1 P n :
  switched_on s P n -> paged_kernel s s1 P -> (300 < fuel)%nat ->
  exists s2 u s3 W pg, Vga.print_hex_at elf_test_start s1 = Ok tt s2 /\
    Elf.create_elf_process elf_test_start s2 = Ok (pg + 9) s3 /\ launch_state s u (used P) P pg /\
    launched u s3 (with_page (used P) pg) W [Spec.fresh pg] [] (Spec.fresh pg) elf_test_start (5 + n).
Proof using HOk.
  intros [_ _ _ _ _ Him Hsp HP Hap Hfr] [HU V1 El Epr Env [Tv Ts] Et] Hf.
  destruct (print_hex_at_ok elf_test_start s1) as (s2 & R2 & D2);
    [pose proof (pt_address _ _ _ HP); lia|exact (ku_video _ _ _ _ HU)|apply HU|].
  destruct (up_drawn s1 s2 _ [] [] HU D2) as (HU2 & El2 & _ & V2).
  assert (forall a, P a -> rd8 s2 a = rd8 s a) as V.
  { intros a Ha. rewrite V2; [by apply V1|by right; right|by apply (image_low P a Him)]. }
  destruct (dr_state _ _ D2) as (m2 & c2 & E2). pose proof kernel_end_low as Hlow.
  destruct (launch_first s2 _ P elf_test_start (5 + n) HU2) as (pg & u & s3 & W & HO & R3 & HLa & Vu).
  - intros x Hx. by right; right.
  - intros x [Hx|[Hx|Hx]]; [unfold video, span, Vga.VGA in Hx; lia| |destruct (image_low P x Him Hx); lia].
    unfold boot_stack, first_frame, span, sizeof_registers in Hx. lia.
  - by rewrite E2.
  - rewrite E2. simpl. rewrite Env. lia.
  - lia.
  - apply (program_kept s s2 P elf_test_start HP V P); [by intros x|]. intros x Hx HPx.
    pose proof (loaded_high s P _ x HP Hx). destruct (image_low P x Him HPx). lia.
  - intros x Hx Hl. rewrite (headers_kept s s2 P _ HP V) in Hl.
    rewrite (loaded_pages_kept s s2 P _ HP V) in Hl. by apply (Hap x).
  - by rewrite (headers_kept s s2 P _ HP V), (frames_for_kept s s2 P _ HP V), El2, El.
  - pose proof (op_spared _ _ _ _ HO) as (_ & _ & _ & Edu & Etu).
    exists s2, u, s3, W, pg. do 2 (split; [done|]). split; [|done]. split.
    + by exists s2.
    + intros a Ha. rewrite Vu; [by apply V|done].
    + by rewrite (op_procs _ _ _ _ HO), E2.
    + pose proof (op_next _ _ _ _ HO) as Hnu. rewrite E2 in Hnu. simpl in Hnu. lia.
    + split; by rewrite Edu, E2.
    + by rewrite Etu, E2.
Qed.

(** The embedded program becomes the first process. *)
Lemma program_stage s s1 P n :
  switched_on s P n -> paged_kernel s s1 P -> (300 < fuel)%nat ->
  exists s2 s3 W pg, Vga.print_hex_at elf_test_start s1 = Ok tt s2 /\
    Elf.create_elf_process elf_test_start s2 = Ok (pg + 9) s3 /\
    program_loaded s s3 W pg (5 + n).
Proof using HOk.
  intros HS HK Hf. destruct (program_launched s s1 P n HS HK Hf)
    as (s2 & u & s3 & W & pg & R2 & R3 & [(s2' & HO) VV Epu Hnu [Tv Ts] Etu] & HLa).
  pose proof (so_program _ _ _ HS) as HP. pose proof (so_space _ _ _ HS) as Hsp.
  exists s2, s3, (with_program_pages u W elf_test_start), pg. do 2 (split; [done|]).
  destruct HLa as [HU Hpid Hst Hto Hr Hregs [[Hfi Hfh] Hov] Hprog Hnum Hcur _ _ [Hmore _] Hnv Hfr (_ & Ed & Et)].
  change (b_addr (Spec.fresh pg)) with pg in *. rewrite one_record in *.
  split; try done.
  - by rewrite Hpid, Epu.
  - split; [done|]. split; [done|]. rewrite Hr.
    destruct HO as [HUo _ _ _ _ _ _ _ _].
    pose proof (pa_next _ _ _ (hl_inv _ _ _ (kd_heap _ _ _ _ (ku_data _ _ _ _ HUo)))) as [Hn0 _].
    unfold KERNEL_STACK_SIZE, sizeof_registers. lia.
  - exists (next_virtual (pmm u)). intros k Hk. by rewrite <- (entry_kept s u P elf_test_start HP VV), Hregs.
  - exact (in_place_kept s u P elf_test_start HP VV s3 Hprog).
  - split; [intros x Hx; left; left; apply Hmore; left; by right; left|].
    intros x Hx Hb. rewrite <- one_record in Hb. apply take_at_bytes in Hb; [|done|by repeat constructor].
    apply Exists_exists in Hb as (b & ->%list_elem_of_singleton & Hb).
    apply (op_fresh _ _ _ _ HO x); [exact Hb|by right; left].
  - rewrite Hto, Hr. lia.
  - intros x Hx. left. right.
    by rewrite (headers_kept s u P _ HP VV), (loaded_pages_kept s u P _ HP VV).
  - apply (op_low _ _ _ _ HO).
  - by rewrite Hnum, Epu.
  - unfold KERNEL_STACK_SIZE in *. lia.
  - split; by rewrite Ed.
  - lia.
Qed.

(** The first context of a program: in user code at its entry point, with empty
    registers and a stack of its own. *)
Definition first_context (entry top : Z) : context :=
  Context Descriptors.USER_DS Descriptors.USER_DS Descriptors.USER_DS Descriptors.USER_DS
    0 0 0 0 0 0 0 entry Descriptors.USER_CS 0x202 top Descriptors.USER_DS.

Lemma first_context_user entry top :
  in_u32 entry -> in_u32 top -> user_context (first_context entry top).
Proof.
  intros He Ht. split; [done|]. unfold context_ok, user_words, common_words, segment_words, general_words, stack_words.
  simpl app. by repeat (apply Forall_cons; split).
Qed.

(** [init_process] leaves that context in the frame. *)
Lemma first_words s f ks entry us :
  in_u32 (us + 4096) ->
  (forall k, 0 <= k < 17 -> field s f (4 * k) =
     value_after (first_registers entry PROCESS_USER ks us) (4 * k) 0) ->
  holds s f (user_words (first_context (u32 entry) (us + 4096))).
Proof.
  intros Ht Hr. unfold holds. rewrite Forall_forall. intros [off v] Hin.
  destruct (user_words_at _ off v Hin) as (k & Hk & ->). simpl. rewrite (Hr k Hk). clear Hr Hk.
  unfold user_words, common_words, segment_words, general_words, stack_words in Hin. simpl app in Hin.
  rewrite !elem_of_cons, elem_of_nil in Hin.
  repeat (destruct Hin as [[= -> ->]|Hin]; [try done; by apply u32_small|]). done.
Qed.

Lemma enters_user s W p x :
  window s W -> proc_ok W p -> subset (span (field s p regs) sizeof_registers) W ->
  field s p regs + sizeof_registers < 2 ^ 32 -> user_context x ->
  holds s (field s p regs) (user_words x) -> Stubs.restore_esp p s = Ok x s.
Proof.
  intros HW Hp Hin Hf [Hu Hx] Hh. unfold Stubs.restore_esp.
  run_with (get_proc_ok s W p regs HW Hp ltac:(done) ltac:(done)).
  rewrite (leave_ok s W (field s p regs) 0 sizeof_registers); try done.
  - by rewrite (context_at_user s _ x).
  - apply rd32_range.
  - by rewrite Z.add_0_r, Z.sub_0_r.
  - unfold sizeof_registers. by case_match.
Qed.

(** What the kernel leaves when it enters the first process [p]; the second one
    is [q].  Their contexts are in their frames, and interrupts go to the stack
    of the kernel, apart from both. *)
Record booted (s s' : kst) (W : Z -> Prop) (l : list block) (p q ks us : Z) (n : nat) : Prop := {
  bt_up : kernel_up s' W l [p; q];
  bt_current : current_process (procs s') = p;
  bt_first : field s' p pid = 1 /\ field s' p state = PROCESS_READY;
  bt_seated : seated W [p; q] s';
  bt_stack : clear_of W [p; q] s' first_frame;
  bt_contexts :
    holds s' (frame s' p) (user_words (first_context (rd32 s (elf_test_start + 24)) Elf.USER_STACK_TOP)) /\
    holds s' (frame s' q) (user_words (first_context (u32 user_main_addr) (us + 4096))) /\
    in_u32 (us + 4096);
  bt_program : in_place s s' elf_test_start;
  bt_second : started s' q 2 user_main_addr PROCESS_USER ks us /\ field s' q parent = p;
  bt_number : process_number (procs s') = 3;
  bt_tables : tables_loaded s';
  bt_frames : frames_below n (live s') = true;
  bt_ticks : ticks s' = ticks s + 600
}.

Lemma disjoint_apart f n p : 0 < n -> disjoint_from (span f n) (span p sizeof_process) -> apart_span f n p.
Proof.
  intros Hn Hd. unfold apart_span. destruct (Z.leb_spec (f + n) p); [by left|].
  destruct (Z.leb_spec (p + sizeof_process) f); [by right|]. exfalso.
  apply (Hd (Z.max f p)); unfold span, sizeof_process in *; lia.
Qed.

(** ** The second process *)

Section second.
Context (s s3 s4 s5 : kst) (P W W' : Z -> Prop) (pg us : Z) (n : nat).
Let p := pg + 9.
Let l := [MkBlock pg 48 true; second_block pg].
Let q := b_addr (second_block pg) + 9.
Context (HS : switched_on s P n) (HL1 : program_loaded s s3 W pg (5 + n)) (Hw : waited s3 s4).
Context (HC : created s4 s5 W W' l [p] (second_block pg) user_main_addr PROCESS_USER us).

Lemma second_up : kernel_up s5 W' (Spec.take_at sizeof_process (b_addr (second_block pg)) l) [p; q].
Proof using HL1 Hw HC.
  destruct (up_waited s3 s4 W l [p] (pn_up _ _ _ _ _ HL1) Hw) as (HU4 & _).
  exact (up_created _ _ _ _ _ _ _ _ _ _ HU4 HC).
Qed.
Lemma second_field o : 0 <= o -> o + 4 <= sizeof_process -> o + 4 <= next \/ next + 4 <= o ->
  field s5 p o = field s3 p o.
Proof using HL1 Hw HC.
  intros Ho He Hne. destruct (up_waited s3 s4 W l [p] (pn_up _ _ _ _ _ HL1) Hw) as (_ & F4 & _).
  rewrite (cr_others _ _ _ _ _ _ _ _ _ _ HC) by (done || by left). apply F4; [by left|done..].
Qed.
Lemma second_kept x : W x -> ~ heap_bytes l x -> ~ video x -> rd8 s5 x = rd8 s3 x.
Proof using HL1 Hw HC.
  intros Hx Hh Hv. destruct (up_waited s3 s4 W l [p] (pn_up _ _ _ _ _ HL1) Hw) as (_ & _ & V4).
  rewrite (cr_kept _ _ _ _ _ _ _ _ _ _ HC) by done. by apply V4.
Qed.
Lemma second_globals :
  next_virtual (pmm s4) = next_virtual (pmm s3) /\ procs s4 = procs s3 /\ descs s5 = descs s3 /\
  ticks s5 = ticks s4.
Proof using Hw HC.
  destruct Hw as [_ (Em & _ & Ep & Ed) _]. destruct (cr_spared _ _ _ _ _ _ _ _ _ _ HC) as (_ & _ & _ & Ed5 & Et5).
  split_and!; congruence.
Qed.

Lemma second_regs : field s5 p regs = field s3 p regs /\ field s5 p kernel_stack_to = field s3 p kernel_stack_to.
Proof using HL1 Hw HC. split; apply second_field; (done || vm_compute; intuition congruence). Qed.

(** The records are in the first page of the heap, the frames are not. *)
Lemma second_records r : r ∈ [p; q] -> subset (span r sizeof_process) (heap_bytes l).
Proof using HL1 Hw HC.
  intros Hr x Hx. pose proof (kd_housed _ _ _ _ (ku_data _ _ _ _ second_up)) as HH.
  rewrite Forall_forall in HH. apply (cr_bytes _ _ _ _ _ _ _ _ _ _ HC).
  by apply (housed_bytes _ r); [apply HH|].
Qed.
Lemma heap_in : subset (heap_bytes l) W.
Proof using HL1.
  intros x (b & Hb & Hx)%Exists_exists.
  pose proof (hl_blocks _ _ _ (kd_heap _ _ _ _ (ku_data _ _ _ _ (pn_up _ _ _ _ _ HL1)))) as Hok.
  fold l in Hok. rewrite Forall_forall in Hok. by apply (bo_in _ _ (Hok b Hb)).
Qed.

Lemma second_frame : field s5 q regs = next_virtual (pmm s4) + KERNEL_STACK_SIZE - sizeof_registers.
Proof using HC. apply (cr_started _ _ _ _ _ _ _ _ _ _ HC). Qed.
Lemma second_frame_fresh : disjoint_from (span (field s5 q regs) sizeof_registers) W.
Proof using HC.
  rewrite second_frame. intros x Hx. apply (cr_stack_fresh _ _ _ _ _ _ _ _ _ _ HC x).
  unfold span, KERNEL_STACK_SIZE, sizeof_registers in *. lia.
Qed.

Lemma second_frames r : r ∈ [p; q] ->
  0 < field s5 r regs /\ field s5 r regs + sizeof_registers <= page_limit /\
  subset (span (field s5 r regs) sizeof_registers) W' /\
  disjoint_from (span (field s5 r regs) sizeof_registers) (heap_bytes l) /\
  field s5 r kernel_stack_to = field s5 r regs + sizeof_registers.
Proof using HS HL1 Hw HC.
  destruct HL1 as [HU _ _ [[Hfi Hfh] [_ [Hf0 Hfl]]] _ _ _ Hto _ _ _ Hnv _ _ _].
  fold p in Hfi, Hfh, Hf0, Hfl, Hto. fold l in Hfh, HU.
  destruct second_regs as [E1 E2]. destruct second_globals as (En & _). pose proof (so_space _ _ _ HS).
  pose proof (pa_next _ _ _ (hl_inv _ _ _ (kd_heap _ _ _ _ (ku_data _ _ _ _ HU)))) as [Hn0 _].
  intros [-> | ->%list_elem_of_singleton]%elem_of_cons.
  - rewrite E1, E2. split_and!; try done. intros x Hx. by apply (cr_more _ _ _ _ _ _ _ _ _ _ HC), Hfi.
  - pose proof second_frame_fresh as Hd. pose proof (cr_stack _ _ _ _ _ _ _ _ _ _ HC) as Hst.
    pose proof (sd_stack_to _ _ _ _ _ _ _ (cr_started _ _ _ _ _ _ _ _ _ _ HC)) as Ht. fold q in Ht.
    split_and!.
    + rewrite second_frame. unfold KERNEL_STACK_SIZE, sizeof_registers. lia.
    + rewrite second_frame. unfold KERNEL_STACK_SIZE, sizeof_registers. lia.
    + rewrite second_frame. intros x Hx. apply Hst. unfold span, KERNEL_STACK_SIZE, sizeof_registers in *. lia.
    + intros x Hx Hb. by apply (Hd x Hx), heap_in.
    + rewrite Ht, second_frame. lia.
Qed.

Lemma second_seated : seated W' [p; q] s5.
Proof using HS HL1 Hw HC.
  assert (forall r, r ∈ [p; q] -> forall t, t ∈ [p; q] -> apart_span (field s5 r regs) sizeof_registers t) as Hap.
  { intros r Hr t Ht. destruct (second_frames r Hr) as (_ & _ & _ & Hd & _). apply disjoint_apart; [done|].
    intros x Hx Hxt. by apply (Hd x Hx), (second_records t Ht). }
  assert (frame s5 p + sizeof_registers <= frame s5 q \/ frame s5 q + sizeof_registers <= frame s5 p) as Hpq.
  { pose proof second_frame_fresh as Hd. destruct (pn_frame _ _ _ _ _ HL1) as [[Hfi _] _]. fold p in Hfi.
    rewrite <- (proj1 second_regs) in Hfi. unfold frame.
    destruct (Z.leb_spec (field s5 p regs + sizeof_registers) (field s5 q regs)); [by left|].
    destruct (Z.leb_spec (field s5 q regs + sizeof_registers) (field s5 p regs)); [by right|]. exfalso.
    apply (Hd (Z.max (field s5 p regs) (field s5 q regs))); [|apply Hfi];
      unfold span, sizeof_registers in *; lia. }
  split; [split|..].
  - apply (ku_data _ _ _ _ second_up).
  - rewrite (cr_current _ _ _ _ _ _ _ _ _ _ HC). destruct second_globals as (_ & -> & _).
    rewrite (pn_current _ _ _ _ _ HL1). by left.
  - intros r Hr. destruct (second_frames r Hr) as (H0' & _ & Hin & _). split; [lia|]. split; [done|by apply Hap].
  - intros r Hr. by destruct (second_frames r Hr) as (_ & _ & _ & _ & ?).
  - intros r t [-> | ->%list_elem_of_singleton]%elem_of_cons [-> | ->%list_elem_of_singleton]%elem_of_cons Hne;
      try done; tauto.
Qed.

Lemma second_stack : clear_of W' [p; q] s5 first_frame.
Proof using HS HL1 Hw HC.
  destruct (pn_stack _ _ _ _ _ HL1) as [Hin Hd]. fold l in Hd. split.
  - intros x Hx. by apply (cr_more _ _ _ _ _ _ _ _ _ _ HC), Hin.
  - by vm_compute.
  - intros r Hr. apply disjoint_apart; [done|]. intros x Hx Hxr. by apply (Hd x Hx), (second_records r Hr).
  - intros r Hr. destruct (second_frames r Hr) as (_ & Hl & _). right. unfold frame, first_frame, sizeof_registers in *. lia.
Qed.

Lemma second_contexts :
  holds s5 (frame s5 p) (user_words (first_context (rd32 s (elf_test_start + 24)) Elf.USER_STACK_TOP)) /\
  holds s5 (frame s5 q) (user_words (first_context (u32 user_main_addr) (us + 4096))) /\
  in_u32 (us + 4096).
Proof using HL1 Hw HC.
  destruct (cr_user _ _ _ _ _ _ _ _ _ _ HC eq_refl) as (_ & Hu0 & _ & Hu & _).
  assert (in_u32 (us + 4096)) as Hus by (unfold in_u32; lia).
  destruct (pn_registers _ _ _ _ _ HL1) as (ks1 & Hregs). fold p in Hregs.
  destruct (pn_frame _ _ _ _ _ HL1) as [[Hfi Hfh] [Hfv _]].
  fold p in Hfi, Hfh, Hfv. fold l in Hfh.
  split; [|split; [|done]].
  - unfold frame. rewrite (proj1 second_regs).
    rewrite <- (u32_small (rd32 s (elf_test_start + 24)) (rd32_range _ _)).
    change Elf.USER_STACK_TOP with (Elf.USER_STACK_TOP - 4096 + 4096).
    apply (first_words s5 _ ks1); [by vm_compute|]. intros k Hk. rewrite <- (Hregs k Hk).
    apply (rd_ext 4). intros a Ha.
    assert (span (field s3 p regs) sizeof_registers a) as Har by (unfold span, sizeof_registers in *; lia).
    apply second_kept; [by apply Hfi|intros Hx; by apply (Hfh a)|intros Hx; by apply (Hfv a)].
  - unfold frame. rewrite second_frame. apply (first_words s5 _ (next_virtual (pmm s4))); [done|].
    intros k Hk. exact (sd_registers _ _ _ _ _ _ _ (cr_started _ _ _ _ _ _ _ _ _ _ HC) k Hk).
Qed.

Lemma second_program : in_place s s5 elf_test_start.
Proof using HS HL1 Hw HC.
  pose proof (so_program _ _ _ HS) as HP.
  apply (in_place_later s P s3 s5 _ HP (pn_program _ _ _ _ _ HL1)). intros x Hx.
  pose proof (loaded_high s P _ x HP Hx). pose proof (pn_low _ _ _ _ _ HL1).
  apply second_kept; [by apply (pn_pages _ _ _ _ _ HL1)| |].
  - intros (b & Hb & Hxb)%Exists_exists. unfold l, second_block in Hb.
    apply elem_of_cons in Hb as [-> | ->%list_elem_of_singleton]; unfold span in Hxb; simpl in Hxb; lia.
  - unfold video, span, Vga.VGA. lia.
Qed.

Lemma second_booted :
  ticks s4 = ticks s3 + 300 ->
  booted s s5 W' (Spec.take_at sizeof_process (b_addr (second_block pg)) l) p q (next_virtual (pmm s4)) us n.
Proof using HS HL1 Hw HC.
  intros Hw4. destruct HL1 as [_ Hcur Hfirst _ _ _ _ _ _ _ Hnum _ [Tv Ts] Hfr Ht].
  fold p in Hcur, Hfirst.
  destruct second_globals as (_ & Ep & Ed & Et). pose proof (cr_started _ _ _ _ _ _ _ _ _ _ HC) as HSt.
  fold q in HSt. rewrite Ep, Hnum in HSt.
  split; try done.
  - exact second_up.
  - rewrite (cr_current _ _ _ _ _ _ _ _ _ _ HC), Ep. exact Hcur.
  - rewrite !second_field by (vm_compute; intuition congruence). done.
  - exact second_seated.
  - exact second_stack.
  - exact second_contexts.
  - exact second_program.
  - split; [done|]. unfold q. rewrite (cr_parent _ _ _ _ _ _ _ _ _ _ HC), Ep, Hcur. apply u32_small. unfold in_u32.
    pose proof (in_proc_ok _ _ _ p (kd_procs _ _ _ _ (ku_data _ _ _ _ second_up)) ltac:(by left)) as [? ? ?]. unfold p, sizeof_process in *. lia.
  - by rewrite (cr_number _ _ _ _ _ _ _ _ _ _ HC), Ep, Hnum.
  - split; by rewrite Ed.
  - apply (proj2 (cr_left _ _ _ _ _ _ _ _ _ _ HC)). destruct Hw as [_ (Em & _) _]. unfold live. by rewrite Em.
  - lia.
Qed.

End second.

(** The process of [user_main], after the second choice. *)
Lemma second_process s P s3 s4 W pg n :
  switched_on s P n -> program_loaded s s3 W pg (5 + n) -> waited s3 s4 -> ticks s4 = ticks s3 + 300 ->
  (300 < fuel)%nat ->
  exists q ks us s5 W' l, create_process user_main_addr PROCESS_USER s4 = Ok q s5 /\
    booted s s5 W' l (pg + 9) q ks us n.
Proof using HOk.
  intros HS HL1 Hw Hw4 Hf. set (l := [MkBlock pg 48 true; second_block pg]).
  destruct (up_waited s3 s4 W l [pg + 9] (pn_up _ _ _ _ _ HL1) Hw) as (HU4 & _).
  pose proof Hw as [_ (Em & _ & Ep & _) _]. pose proof (so_space _ _ _ HS). pose proof (pn_next _ _ _ _ _ HL1).
  destruct (create_process_ok user_main_addr PROCESS_USER s4 W l [pg + 9] (second_block pg)
    (ku_data _ _ _ _ HU4) eq_refl) as (us & s5 & W' & R & HC).
  { simpl length. lia. }
  { simpl length. lia. }
  { by rewrite Ep, (pn_number _ _ _ _ _ HL1). }
  { rewrite Em. unfold KERNEL_STACK_SIZE. lia. }
  { apply frames_below_stocked. pose proof (pn_frames _ _ _ _ _ HL1) as Hfr. unfold live in *.
    rewrite Em. revert Hfr. apply frames_below_le. lia. }
  eexists _, _, us, s5, W', _. split; [exact R|]. by apply (second_booted s s3 s4 s5 P W W' pg us n).
Qed.

Lemma kernel_boots_ok s P n :
  switched_on s P n -> (300 < fuel)%nat ->
  exists p q ks us s' W l, kernel interrupt s = Switched p s' /\ booted s s' W l p q ks us n.
Proof using HI HOk.
  intros HS Hf. destruct (until_paging_ok s P n HS Hf) as (s1 & R1 & H1).
  destruct (program_stage s s1 P n HS H1 Hf) as (s2 & s3 & W & pg & R2 & R3 & H3).
  pose proof (so_ticks _ _ _ HS). pose proof (pn_ticks _ _ _ _ _ H3).
  destruct (second_choice s3 W _ (pg + 9) (pn_up _ _ _ _ _ H3) (pn_current _ _ _ _ _ H3)
    (proj2 (pn_first _ _ _ _ _ H3))) as (s4 & s5 & s6 & R4 & R5 & R6 & Hw & Ht); [lia|lia|done|].
  destruct (second_process s P s3 s6 W pg n HS H3 Hw Ht Hf) as (q & ks & us & s7 & W' & l & R7 & HB).
  exists (pg + 9), q, ks, us, s7, W', l. split; [|done].
  rewrite kernel_stages. run_with R1. unfold after_paging. run_with R2. run_with R3. run_with R4.
  run_with R5. run_with R6. change (1 =? 1) with true. cbv iota. run_with R7.
  unfold get_current. by rewrite gets_bind, (bt_current _ _ _ _ _ _ _ _ _ HB).
Qed.

(** [restore_esp] enters the first process. *)
Lemma booted_enters s s' W l p q ks us n :
  booted s s' W l p q ks us n ->
  Stubs.restore_esp p s' = Ok (first_context (rd32 s (elf_test_start + 24)) Elf.USER_STACK_TOP) s'.
Proof using HOk.
  intros [HU _ _ HSe _ (Hh & _) _ _ _ _ _ _]. pose proof (kd_procs _ _ _ _ (ku_data _ _ _ _ HU)) as HL5.
  assert (p ∈ [p; q]) as Hin by by left.
  destruct (ru_regs _ _ _ (se_running _ _ _ HSe) p Hin) as (_ & Hf & _).
  pose proof (se_top _ _ _ HSe p Hin) as Ht. pose proof (rd32_range s' (p + kernel_stack_to)) as Hr.
  apply (enters_user s' W); try done; [apply HL5|by apply (in_proc_ok s' W _ p HL5)| |].
  - unfold frame, field, in_u32 in *. lia.
  - apply first_context_user; [apply rd32_range|by vm_compute].
Qed.

(** C13: the start, from the boot sector to the first process.  With a screen, memory
    and a well-formed program in the image, and only the timer going, the
    kernel comes up: it ends in [restore_esp], which enters the embedded
    program, loaded where its headers say, in user mode at its entry point with
    a stack of its own; [user_main] is ready as the second process, paging is
    on, every vector goes to its stub, the heap and the process list are well
    formed and [n] page frames are left. *)
Theorem kernel_boots s P n :
  switched_on s P n -> (300 < fuel)%nat ->
  exists p q ks us s' W l, kernel interrupt s = Switched p s' /\
    Stubs.restore_esp p s' = Ok (first_context (rd32 s (elf_test_start + 24)) Elf.USER_STACK_TOP) s' /\
    booted s s' W l p q ks us n.
Proof using HI HOk.
  intros HS Hf. destruct (kernel_boots_ok s P n HS Hf) as (p & q & ks & us & s' & W & l & R & HB).
  exists p, q, ks, us, s', W, l. split; [done|]. split; [by apply (booted_enters s s' W l p q ks us n)|done].
Qed.

Lemma two_processes s W p q : procs_list s W [p; q] -> p <> q.
Proof.
  intros [_ _ _ [Hap _]] ->. rewrite Forall_singleton in Hap. unfold apart_procs, sizeof_process in Hap. lia.
Qed.

(** User code of the first process has run; then the timer interrupts it. *)
Lemma booted_shares s s' s2 x W l p q ks us n :
  (2 < fuel)%nat -> booted s s' W l p q ks us n -> works W [p; q] s' s2 -> user_context x ->
  let y := first_context (u32 user_main_addr) (us + 4096) in
  exists s3, Stubs.irq0 x s2 = Switched q s3 /\ Stubs.restore_esp q s3 = Ok y s3 /\
    represents W [p; q] s3 y (Shared q {[ p := x; q := y ]}).
Proof.
  intros Hf [HU Hcur _ HSe HCl (_ & Hq & Hus) _ [HSt _] _ [_ [Hesp _]] _ _] HWk Hx y.
  pose proof (kd_procs _ _ _ _ (ku_data _ _ _ _ HU)) as HPL.
  assert (p <> q) as Hpq.
  { by apply (two_processes s' W). }
  pose proof HWk as ((Ep & _ & HF) & Ed & _).
  assert (holding [p; q] {[ q := y ]} s' p) as Hm.
  { intros r [-> | ->%list_elem_of_singleton]%elem_of_cons Hne; [done|]. exists y.
    rewrite lookup_singleton_eq. split; [done|]. split; [|done]. apply first_context_user; [apply u32_range|done]. }
  pose proof (holding_works W [p; q] Hf {[ q := y ]} s' s2 HWk) as Hm2. rewrite Hcur in Hm2.
  specialize (Hm2 Hm).
  assert (next_woken (ticked s2) [] [q] = q) as Hn.
  { unfold next_woken. simpl. unfold woken, due. rewrite !field_ticked.
    change state with (4 * 5). rewrite (HF q 5) by (done || by right; left).
    change (4 * 5) with state. by rewrite (sd_state _ _ _ _ _ _ _ HSt). }
  assert (q ∈ [p; q]) as Hin by by right; left.
  destruct (first_interrupt W [p; q] Hf s2 [] p [q] first_frame x {[ q := y ]}) as (s3 & y' & R & R' & Hy & HR);
    try done.
  - by apply (seated_works W [p; q] s').
  - by rewrite Ep.
  - rewrite Ed, Hesp. by vm_compute.
  - by apply (clear_works W [p; q] s').
  - rewrite Hn. destruct (in_proc_ok _ _ _ q HPL Hin). lia.
  - rewrite Hn in *. rewrite lookup_insert_ne, lookup_singleton_eq in Hy by done. injection Hy as <-.
    exists s3. by split_and!.
Qed.

(** C14: from power on to time sharing.  The first interrupt of the timer finds
    the stack of the starting kernel in the task state segment, since [kernel]
    enters the first process without setting it; it is pushed there, copied to
    the frame of the process, and the second process starts at [user_main] with
    empty registers.  From there on any run of user code and timer interrupts
    is one of a machine with a context for each process, the first one going on
    with the registers it was interrupted with. *)
Theorem boot_reaches_sharing s P n :
  switched_on s P n -> (300 < fuel)%nat ->
  exists p q s1 W top, p <> q /\ kernel interrupt s = Switched p s1 /\ procs_list s1 W [p; q] /\
    forall s2 x, works W [p; q] s1 s2 -> user_context x ->
      let y := first_context (u32 user_main_addr) top in
      exists s3, Stubs.irq0 x s2 = Switched q s3 /\ Stubs.restore_esp q s3 = Ok y s3 /\
        forall tr s4 z, slices W [p; q] (s3, y) tr (s4, z) ->
          represents W [p; q] s4 z (foldl act (Shared q {[ p := x; q := y ]}) tr).
Proof using HI HOk.
  intros HS Hf. destruct (kernel_boots_ok s P n HS Hf) as (p & q & ks & us & s1 & W & l & R & HB).
  assert (2 < fuel)%nat as Hlen by lia.
  pose proof (kd_procs _ _ _ _ (ku_data _ _ _ _ (bt_up _ _ _ _ _ _ _ _ _ HB))) as HPL.
  exists p, q, s1, W, (us + 4096). split; [|split; [done|split; [done|]]].
  - exact (two_processes s1 W p q HPL).
  - intros s2 x HWk Hx y. destruct (booted_shares s s1 s2 x W l p q ks us n Hlen HB HWk Hx) as (s3 & R1 & R2 & HR).
    exists s3. split; [done|]. split; [done|]. intros tr s4 z Hr.
    exact (slices_refine W [p; q] Hlen (s3, y) tr (s4, z) _ Hr HR).
Qed.

End start.

(** * A machine with the program of Elf in its image *)

Section examples.
#[local] Existing Instance example_layout.
#[local] Existing Instance example_layout_ok.
#[local] Instance booting : Fuel := 500%nat.
#[local] Instance program_image : Image := {|
  irq0_addr := 0x12000; isr8_addr := 0x12040; isr13_addr := 0x12080; isr14_addr := 0x120C0;
  syscall_handler_addr := 0x12100; keyboard_isr_addr := 0x12140;
  elf_test_start := program; user_main_addr := 0x13000; uptime_task_addr := 0x13100
|}.

(** What the two proofs below need of the memory. *)
Definition has_program (s : kst) : Prop :=
  Elf.header_ok s program = true /\ rd16 s (program + 16) = Elf.ET_EXEC /\
  rd32 s (program + 24) = 0x08048000 /\ headers_of program s = [program + 52] /\
  Z.to_nat (phnum_of program s) = 1%nat /\
  is_load s (program + 52) = true /\ vaddr_of s (program + 52) = 0x08048000 /\
  offset_of s (program + 52) = 84 /\ filesz_of s (program + 52) = 4 /\ memsz_of s (program + 52) = 8 /\
  rd32 s (program + 84) = 0xCAFEBABE.
Lemma program_words : has_program with_program.
Proof. vm_compute. intuition reflexivity. Qed.

Lemma program_pages s x :
  has_program s -> loaded_pages s [program + 52] x -> 0x08048000 <= x < 0x08049000.
Proof.
  intros (_ & _ & _ & _ & _ & _ & Ev & _ & _ & Em & _) [[_ Hx]|?%Exists_nil]%Exists_cons; [|done].
  assert (first_page_of s (program + 52) = 0x08048000 /\ pages_of s (program + 52) = 1%nat) as [Ep En].
  { unfold pages_of, first_page_of. rewrite Ev, Em. by vm_compute. }
  unfold pages_span, span in Hx. rewrite Ep, En in Hx. lia.
Qed.

Lemma program_in_image s : has_program s -> program_at s (span program 4096) program.
Proof.
  intros Hs. pose proof Hs as (Hok & Hty & He & Hh & Hn & Hld & Ev & Eo & Ef & Em & _).
  split; rewrite ?Hh, ?Hn; try done.
  - intros x. unfold span. lia.
  - unfold fuel, booting. lia.
  - apply Forall_singleton. split; [intros x; unfold span; lia|]. intros _.
    split; rewrite ?Ev, ?Em, ?Ef, ?Eo; unfold program; try lia; [intros x; unfold span; lia..|].
    intros x Hx. assert (loaded_pages s [program + 52] x) as Hx' by (left; by split).
    apply (program_pages s x Hs) in Hx'. unfold span. lia.
Qed.

Lemma program_frames s :
  has_program s -> frames_below (1 + (5 + (frames_for s [program + 52] + (2 + (5 + 4))))) qemu_map = true.
Proof.
  intros (_ & _ & _ & _ & _ & Hld & Ev & _ & _ & Em & _). simpl frames_for.
  unfold pages_of, first_page_of. by rewrite Hld, Ev, Em.
Qed.

(** The allocators and the devices are as after power on. *)
Lemma program_state :
  let s := with_program in
  (State.entry (pmm s), live s, free_count (pmm s), length (free_virtual (pmm s))) = (6, qemu_map, 0, 1024%nat) /\
  mmap (pmm s) = mmap (pmm qemu_boot) /\ heap_head (heap s) = 0 /\ procs s = ProcState 0 0 1 /\
  (paging (mach s), cur_i (console s), ticks s, length (idt (descs s))) = (false, 400, 0, 256%nat).
Proof. vm_compute. intuition reflexivity. Qed.

Lemma program_switched_on : switched_on with_program (span program 4096) 4.
Proof.
  pose proof program_words as Hs. destruct program_state as (E & Em & Eh & Ep & E').
  revert Hs E Em Eh Ep E'. generalize with_program. intros s Hs E Em Eh Ep E'.
  injection E as Een El Ec Ef. injection E' as Epg Ecur Et Ei.
  destruct (frames_same qemu_boot s Een Em) as [HF HB].
  pose proof Hs as (_ & _ & _ & Hh & _).
  split; change elf_test_start with program; rewrite ?Hh, ?Et, ?Ecur, ?El; try done.
  - split; try done; [by apply HF, qemu_frames|]. intros pa Hpa. by apply qemu_available, HB.
  - split; intros x; unfold span, tables, program; simpl; [lia|]. unfold span. simpl. lia.
  - by apply program_in_image.
  - intros x Hx Hx'%(program_pages s x Hs). unfold stack_page, span, Elf.USER_STACK_TOP in Hx. lia.
  - by apply program_frames.
Qed.

Lemma kernel_boots_witness :
  exists p s', Kernel.kernel (Kernel.irq0_handler 0) with_program = Switched p s' /\
    Stubs.restore_esp p s' = Ok (first_context 0x08048000 Elf.USER_STACK_TOP) s' /\ rd32 s' 0x08048000 = 0xCAFEBABE /\
    current_process (procs s') = p /\ ticks s' = 600.
Proof.
  destruct program_words as (_ & _ & He & Hh & _ & Hld & Ev & Eo & Ef & _ & Ec).
  assert (ticks with_program = 0) as Et by (vm_compute; reflexivity).
  destruct (kernel_boots (Kernel.irq0_handler 0) (timer_restful 0 (proj1 (Nat.ltb_lt 1 500) eq_refl))
    with_program (span program 4096) 4 program_switched_on (proj1 (Nat.ltb_lt 300 500) eq_refl))
    as (p & q & ks & us & s' & W & l & R & Hent & [_ Hcur _ _ _ _ Hpl _ _ _ _ Ht]).
  change elf_test_start with program in *. exists p, s'. split; [exact R|].
  rewrite He in Hent. split; [exact Hent|]. split.
  - destruct (Hpl (program + 52)) as [HC _]; [rewrite Hh; by left|exact Hld|]. rewrite Ev, Ef, Eo in HC.
    rewrite <- Ec. apply (rd_copied 4). intros k Hk. by apply HC.
  - split; [exact Hcur|]. rewrite Ht, Et. reflexivity.
Defined.

(** The state in which the kernel loads the program, the heap opened. *)
Lemma create_elf_process_launches_witness :
  exists s p s', Elf.create_elf_process program s = Ok p s' /\ process_list (procs s) = 0 /\
    field s' p Process.pid = 1 /\ field s' p Process.state = Process.PROCESS_READY /\
    field s' (field s' p Process.regs) Process.r_eip = 0x08048000 /\
    field s' (field s' p Process.regs) Process.r_user_esp = Elf.USER_STACK_TOP.
Proof.
  pose proof program_switched_on as HS.
  assert (restful (Kernel.irq0_handler 0)) as HI by (apply timer_restful, Nat.ltb_lt; reflexivity).
  destruct (until_paging_ok (Kernel.irq0_handler 0) HI with_program (span program 4096) 4 HS)
    as (s1 & _ & [HU V El Epr Env _ _]); [apply Nat.ltb_lt; reflexivity|].
  pose proof (so_program _ _ _ HS) as HP. pose proof (so_image _ _ _ HS) as Him.
  change elf_test_start with program in HP.
  assert (frames_below (1 + (5 + (frames_for s1 (headers_of program s1) + (2 + (5 + 4))))) (live s1) = true) as Hfr.
  { rewrite (headers_kept _ s1 _ _ HP V), (frames_for_kept _ s1 _ _ HP V), El. apply HS. }
  assert (stocked 1 s1) as Hst by (apply frames_below_stocked; revert Hfr; apply frames_below_le; lia).
  destruct (first_block s1 _ HU) as (pg & s2 & HO); [rewrite Env; by vm_compute|exact Hst|].
  destruct (create_elf_process_launches s2 (with_page (used (span program 4096)) pg)
    (span program 4096) [Spec.fresh pg] [] (Spec.fresh pg) program 9) as (s3 & W3 & R3 & HLa).
  { apply (opened_launchable s1 s2 _ _ pg program 9 HU HO); try done.
    - intros x Hx. by right; right.
    - intros x [Hx|[Hx|Hx]]; [unfold video, span, Vga.VGA in Hx; lia| |].
      + unfold boot_stack, first_frame, span, Process.sizeof_registers in Hx. lia.
      + destruct (image_low _ x Him Hx). lia.
    - rewrite Env. by vm_compute.
    - unfold fuel, booting. lia.
    - apply (program_kept _ s1 _ _ HP V); [by intros x|]. intros x Hx HPx.
      pose proof (loaded_high _ _ _ x HP Hx). destruct (image_low _ x Him HPx). lia.
    - intros x Hx Hl. rewrite (headers_kept _ s1 _ _ HP V), (loaded_pages_kept _ s1 _ _ HP V) in Hl.
      by apply (so_apart _ _ _ HS x). }
  exists s2, (pg + 9), s3. split; [exact R3|]. split; [by rewrite (op_procs _ _ _ _ HO), Epr|].
  pose proof (la_registers _ _ _ _ _ _ _ _ _ HLa) as Hr.
  change (b_addr (Spec.fresh pg) + 9) with (pg + 9) in Hr.
  split; [etransitivity; [exact (la_pid _ _ _ _ _ _ _ _ _ HLa)|]; by rewrite (op_procs _ _ _ _ HO), Epr|].
  split; [exact (la_state _ _ _ _ _ _ _ _ _ HLa)|].
  assert (rd32 s2 (program + 24) = 0x08048000) as He.
  { transitivity (rd32 s1 (program + 24)); [|transitivity (rd32 with_program (program + 24))].
    - apply (rd_ext 4). intros a Ha. apply (op_kept _ _ _ _ HO). right. right. unfold program, span in *. lia.
    - exact (entry_kept _ s1 _ _ HP V).
    - apply program_words. }
  pose proof (Hr 12 ltac:(lia)) as H12. pose proof (Hr 15 ltac:(lia)) as H15. rewrite He in H12.
  split; [exact H12|exact H15].
Defined.

(** The first process is interrupted where it was entered. *)
Lemma boot_reaches_sharing_witness :
  exists p q s1 s3 top W, p <> q /\
    Kernel.kernel (Kernel.irq0_handler 0) with_program = Switched p s1 /\
    Stubs.irq0 (first_context 0x08048000 Elf.USER_STACK_TOP) s1 = Switched q s3 /\
    Stubs.restore_esp q s3 = Ok (first_context 0x13000 top) s3 /\
    represents W [p; q] s3 (first_context 0x13000 top)
      (Shared q {[ p := first_context 0x08048000 Elf.USER_STACK_TOP; q := first_context 0x13000 top ]}).
Proof.
  assert (user_context (first_context 0x08048000 Elf.USER_STACK_TOP)) as Hx
    by (apply first_context_user; by vm_compute).
  destruct (boot_reaches_sharing (Kernel.irq0_handler 0) (timer_restful 0 (proj1 (Nat.ltb_lt 1 500) eq_refl))
    with_program (span program 4096) 4 program_switched_on (proj1 (Nat.ltb_lt 300 500) eq_refl))
    as (p & q & s1 & W & top & Hpq & R & HPL & HS).
  change (u32 user_main_addr) with 0x13000 in HS. cbv zeta in HS.
  destruct (HS s1 (first_context 0x08048000 Elf.USER_STACK_TOP)) as (s3 & R1 & R2 & Hr).
  - split; [split; [reflexivity|split; [exact HPL|reflexivity]]|split; reflexivity].
  - exact Hx.
  - exists p, q, s1, s3, top, W. split; [exact Hpq|]. split; [exact R|]. split; [exact R1|].
    split; [exact R2|]. exact (Hr [] s3 _ (slices_nil _ _ _)).
Defined.

End examples.
