(* ===== verification/UserSpace.v ===== *)
(** User programs: user/user_space.c, user/shell.c and the programs that are
    executed (user/hello.c, program1.c, program2.c, elf_test.c).

    A program talks to the kernel with int 0x80.  What the instruction does is
    the interface [Trap]; [kernel_trap] is the one the kernel implements.  An
    endless loop is given by its turn and the number of turns taken. *)

From S2P Require Import Prelude Machine State Mmu Window PageSource Vga MemMap Paging MemLib Heap Descriptors Devices Process Switch Spawn Elf Syscall Kernel.

(** [int80 regs]: the registers a program sets, by their place in
    [registers_t]; the result is [eax] when the program goes on. *)
Class Trap := int80 : list (Z * Z) -> K Z.

(** Addresses of functions, embedded files and string literals. *)
Class UserImage := {
  user_up_time_addr : Z;
  shell_addr : Z;
  hello_elf_start : Z;
  program2_elf_start : Z;
  literal_addr : string -> Z
}.

(** The conversion of a [char] to [int], as a 32-bit pattern. *)
Definition int_of_char (c : Z) : Z := if u8 c <? 128 then u8 c else 0xFFFFFF00 + u8 c.

(** The first turns of an endless loop. *)
Fixpoint turns {A} (n : nat) (body : A -> K A) (a : A) : K A :=
  match n with
  | O => mret a
  | S n' => a' ← body a; turns n' body a'
  end.

Module User.
Import Process Syscall.

Section calls.
Context `{Trap}.

Definition write_string (str : Z) : K unit := int80 [(r_eax, SYS_PRINTS); (r_ebx, str)];; mret tt.
Definition write_char (c : Z) : K unit :=
  int80 [(r_eax, SYS_PRINTC); (r_ebx, int_of_char c)];; mret tt.
Definition write_number (n : Z) : K unit := int80 [(r_eax, SYS_PRINTN); (r_ebx, n)];; mret tt.
Definition write_hex (n : Z) : K unit := int80 [(r_eax, SYS_PRINTHEX); (r_ebx, n)];; mret tt.
Definition write_second (n : Z) : K unit :=
  int80 [(r_eax, SYS_PRINT_SECONDS); (r_ebx, n)];; mret tt.
Definition user_get_second : K Z := int80 [(r_eax, SYS_SECONDS)].
Definition user_yield : K unit := int80 [(r_eax, SYS_YIELD)];; mret tt.
Definition user_exit (status : Z) : K unit := int80 [(r_eax, SYS_EXIT); (r_ebx, status)];; mret tt.
Definition user_create_process (entry mode : Z) : K Z :=
  int80 [(r_eax, SYS_CREATE_PROCESS); (r_ebx, entry); (r_ecx, mode)].
Definition user_sleep (time : Z) : K unit := int80 [(r_eax, SYS_SLEEP); (r_ebx, time)];; mret tt.
Definition user_get_pid : K Z := int80 [(r_eax, SYS_GET_PID)].
Definition user_get_parent_pid (pro : Z) : K Z := int80 [(r_eax, SYS_GET_PARENT_PID); (r_ebx, pro)].
Definition user_kmalloc (size : Z) : K Z := int80 [(r_eax, SYS_MALLOC); (r_ebx, size)].
Definition user_free (address : Z) : K unit := int80 [(r_eax, SYS_FREE); (r_ebx, address)];; mret tt.
Definition user_fork : K Z := int80 [(r_eax, SYS_FORK)].
Definition user_exec (file : Z) : K Z := int80 [(r_eax, SYS_EXEC); (r_ebx, file)].

Fixpoint wait_again (n : nat) (status : Z) : K Z :=
  match n with
  | O => no_fuel
  | S n' =>
      pid ← int80 [(r_eax, SYS_WAIT); (r_ebx, status)];
      if pid =? minus_one then wait_again n' status else mret pid
  end.
Definition user_wait `{Fuel} (status : Z) : K Z := wait_again fuel status.

(** The loop of [user_up_time]; the state is [last]. *)
Definition up_time_turn (last : Z) : K Z :=
  sec ← user_get_second;
  if negb (last =? sec) then write_second sec;; mret sec else mret last.

Section programs.
Context `{UserImage}.

Definition user_up_time (n : nat) : K unit :=
  write_string (literal_addr "Up Time");;
  turns n up_time_turn minus_one;;
  mret tt.

Definition user_main (n : nat) : K unit :=
  write_string (literal_addr "hello to your space");;
  user_create_process user_up_time_addr PROCESS_USER;;
  user_create_process shell_addr PROCESS_USER;;
  turns n (fun _ => user_yield) tt.

(** The entry points [_start] of the programs that are executed. *)
Definition hello_start : K unit :=
  write_string (literal_addr ("Hello from user space!" ++ NL));;
  user_exit 0.
Definition program1_start : K unit :=
  write_string (literal_addr ("I am program 1" ++ NL));;
  user_exec program2_elf_start;;
  write_string (literal_addr ("EXEC FAILED" ++ NL));;
  spin.
Definition program2_start : K unit :=
  write_string (literal_addr ("I am program 2" ++ NL));;
  spin.
Definition elf_test_main : K unit := spin.

End programs.
End calls.
End User.

(** * The shell *)

(** The array [command] of kernel/kernel.c as a string. *)
Inductive command_array := Command.
#[export] Instance command_chars : CharSource command_array := {
  char_at _ k :=
    if (0 <=? k) && (k <? Kernel.COMMAND_SIZE) then
      gets (fun s => default 0 (State.command (keys s) !! Z.to_nat k))
    else undefined;
  char_bound _ := Z.to_nat Kernel.COMMAND_SIZE
}.

Module Shell.
Import User.

Section strings.
Context {A B : Type} `{CharSource A} `{CharSource B}.

(** The loop counts the characters passed; the result is the place where the
    strings differ or end. *)
Fixpoint strcmp_loop (n : nat) (str1 : A) (str2 : B) (k : Z) : K Z :=
  match n with
  | O => no_fuel
  | S n' =>
      a ← char_at str1 k;
      if a =? 0 then mret k else
      a ← char_at str1 k;
      b ← char_at str2 k;
      if a =? b then strcmp_loop n' str1 str2 (k + 1) else mret k
  end.
Definition strcmp (str1 : A) (str2 : B) : K Z :=
  k ← strcmp_loop (char_bound str1) str1 str2 0;
  a ← char_at str1 k;
  b ← char_at str2 k;
  mret (u8 a - u8 b).

End strings.

Section shell.
Context `{Trap} `{UserImage} `{Fuel}.

Definition empty_string : K unit :=
  for_range 0 Kernel.COMMAND_SIZE (fun k => Kernel.command_put k 0).

(** What a program prints between the commands. *)
Definition prompt : K unit := write_string (literal_addr "my>>os: ").

(** [status_addr] is the address of the local variable [status]. *)
Definition run_hello (status_addr : Z) : K unit :=
  pid ← user_fork;
  if pid =? 0 then
    user_exec hello_elf_start;;
    user_exit 1
  else
    user_wait status_addr;;
    mret tt.

Definition command_exec {A} `{CharSource A} (command : A) (status_addr : Z) : K unit :=
  r ← strcmp command "hello"%string;
  if r =? 0 then run_hello status_addr else mret tt.

Definition shell_turn (status_addr : Z) : K unit :=
  ready ← gets (fun s => command_ready (keys s));
  (if ready =? 1 then
     command_exec Command status_addr;;
     Kernel.set_command_ready 0;;
     Kernel.set_command_index 0;;
     empty_string;;
     prompt
   else mret tt);;
  user_yield.

Definition shell (status_addr : Z) (n : nat) : K unit :=
  prompt;;
  turns n (fun _ => shell_turn status_addr) tt.

End shell.
End Shell.

(** * The trap of the kernel

    User code runs with the privilege level 3: the processor takes the stack of
    the kernel from the task state segment and pushes five words, and
    kernel/sycall_handeler.asm the others. *)

Section kernel.
Import Process Syscall.
Context `{Layout} `{Fuel}.

(** [cpu off]: the registers the program does not set. *)
Definition register (cpu : Z -> Z) (l : list (Z * Z)) (off : Z) : Z :=
  match List.find (fun rv => rv.1 =? off) l with Some rv => rv.2 | None => cpu off end.

Definition trap_frame : K Z := gets (fun s => u32 (esp0 (tss (descs s)) - sizeof_registers)).

(** The program goes on behind the instruction, unless the kernel has changed
    where: then the same process goes on somewhere else. *)
Definition kernel_trap (cpu : Z -> Z) (l : list (Z * Z)) : K Z :=
  f ← trap_frame;
  for_range 0 17 (fun k => set f (4 * k) (register cpu l (4 * k)));;
  syscall_dispatch f;;
  eip ← get f r_eip;
  if eip =? u32 (cpu r_eip) then get f r_eax
  else c ← get_current; restore_esp c.

End kernel.
