(* ===== verification/CommandLine.v ===== *)
(** The command line: what [strcmp] decides, and what the shell does with a
    line that was typed.

    The shell is verified for every [Trap]: the theorems say which calls it
    makes, not what the kernel does in them. *)

From S2P Require Import Prelude Machine State Mmu Window PageSource Vga MemMap Paging MemLib Heap Descriptors Devices Process Switch Spawn Elf Syscall Kernel Keys UserSpace.

(** * Comparing strings *)

Section comparing.
Import Shell.

(** [str] is the string [cs] in the state [s]. *)
Record string_at {A} `{CharSource A} (str : A) (s : kst) (cs : list Z) : Prop := {
  sa_codes : Forall (fun c => 0 < c < 256) cs;
  sa_bound : (length cs < char_bound str)%nat;
  sa_chars : forall (k : nat) c, (cs ++ [0]) !! k = Some c -> char_at str (Z.of_nat k) s = Ok c s
}.

(** The difference of the first characters that differ; the end of a string
    counts as 0. *)
Fixpoint compare_chars (l1 l2 : list Z) : Z :=
  match l1, l2 with
  | [], [] => 0
  | [], b :: _ => - b
  | a :: _, [] => a
  | a :: l1', b :: l2' => if a =? b then compare_chars l1' l2' else a - b
  end.
(** The order of a dictionary. *)
Fixpoint before (l1 l2 : list Z) : Prop :=
  match l1, l2 with
  | _, [] => False
  | [], _ :: _ => True
  | a :: l1', b :: l2' => a < b \/ a = b /\ before l1' l2'
  end.

Lemma compare_equal l1 l2 :
  Forall (fun c => 0 < c < 256) l1 -> Forall (fun c => 0 < c < 256) l2 ->
  compare_chars l1 l2 = 0 <-> l1 = l2.
Proof.
  revert l2. induction l1 as [|a l1 IH]; intros [|b l2]; simpl; try done.
  - intros _ [Hb _]%Forall_cons. split; [lia|done].
  - intros [Ha _]%Forall_cons _. split; [lia|done].
  - intros [Ha H1]%Forall_cons [Hb H2]%Forall_cons. destruct (Z.eqb_spec a b) as [->|Hne].
    + rewrite IH by done. split; congruence.
    + split; [lia|congruence].
Qed.
Lemma compare_before l1 l2 :
  Forall (fun c => 0 < c < 256) l1 -> Forall (fun c => 0 < c < 256) l2 ->
  compare_chars l1 l2 < 0 <-> before l1 l2.
Proof.
  revert l2. induction l1 as [|a l1 IH]; intros [|b l2]; simpl; try done.
  - intros _ [Hb _]%Forall_cons. split; [done|lia].
  - intros [Ha _]%Forall_cons _. lia.
  - intros [Ha H1]%Forall_cons [Hb H2]%Forall_cons. destruct (Z.eqb_spec a b) as [->|Hne].
    + rewrite IH by done. split; [intros ?; by right|]. intros [?|[_ ?]]; [lia|done].
    + split; [intros ?; left; lia|]. intros [?|[? _]]; [lia|done].
Qed.

Context {A B : Type} `{CharSource A} `{CharSource B} (str1 : A) (str2 : B) (s : kst).

(** After the common characters [p]. *)
Lemma strcmp_loop_ok n (p l1 l2 : list Z) :
  string_at str1 s (p ++ l1) -> string_at str2 s (p ++ l2) -> (length l1 < n)%nat ->
  exists (k : nat) a b, strcmp_loop n str1 str2 (Z.of_nat (length p)) s = Ok (Z.of_nat k) s /\
    ((p ++ l1) ++ [0]) !! k = Some a /\ ((p ++ l2) ++ [0]) !! k = Some b /\ a - b = compare_chars l1 l2.
Proof.
  intros H1 H2. revert p l2 H1 H2. induction n as [|n IH] in l1 |- *; intros p l2 H1 H2 Hn; [lia|].
  assert (forall l : list Z, ((p ++ l) ++ [0]) !! length p = Some (hd 0 l)) as Hat.
  { intros l. rewrite <- app_assoc, lookup_app_r, Nat.sub_diag by lia. by destruct l. }
  pose proof (sa_chars _ _ _ H1 (length p) _ (Hat l1)) as R1.
  pose proof (sa_chars _ _ _ H2 (length p) _ (Hat l2)) as R2.
  pose proof (sa_codes _ _ _ H1) as [_ F1]%Forall_app. pose proof (sa_codes _ _ _ H2) as [_ F2]%Forall_app.
  simpl. run_with R1. destruct l1 as [|a l1]; cbn [hd] in *.
  { exists (length p), 0, (hd 0 l2). split; [done|]. split; [exact (Hat [])|]. split; [exact (Hat l2)|].
    by destruct l2. }
  apply Forall_cons in F1 as [Ha _]. rewrite (proj2 (Z.eqb_neq a 0)) by lia. run_with R1. run_with R2.
  destruct l2 as [|b l2]; cbn [hd] in *.
  { rewrite (proj2 (Z.eqb_neq a 0)) by lia. exists (length p), a, 0. split; [done|].
    split; [exact (Hat (a :: l1))|]. split; [exact (Hat [])|]. simpl. lia. }
  destruct (Z.eqb_spec a b) as [->|Hne].
  - destruct (IH l1 (p ++ [b]) l2) as (k & c & d & R & Hc & Hd & E).
    + by rewrite <- app_assoc.
    + by rewrite <- app_assoc.
    + simpl in Hn. lia.
    + rewrite <- !(app_assoc p [b]) in Hc, Hd. simpl in Hc, Hd. exists k, c, d.
      rewrite length_app, Nat2Z.inj_add in R. simpl in *. rewrite Z.eqb_refl. by split_and!.
  - exists (length p), a, b. split; [done|]. split; [exact (Hat (a :: l1))|]. split; [exact (Hat (b :: l2))|].
    simpl. by rewrite (proj2 (Z.eqb_neq a b)).
Qed.

Lemma strcmp_ok cs1 cs2 :
  string_at str1 s cs1 -> string_at str2 s cs2 ->
  strcmp str1 str2 s = Ok (compare_chars cs1 cs2) s.
Proof.
  intros H1 H2. pose proof (sa_bound _ _ _ H1) as Hb.
  destruct (strcmp_loop_ok (char_bound str1) [] cs1 cs2 H1 H2 Hb) as (k & a & b & R & Ha & Hbk & E).
  simpl in *. assert (forall cs c, Forall (fun c => 0 < c < 256) cs -> (cs ++ [0]) !! k = Some c -> u8 c = c) as Hu.
  { intros cs c HF Hc. apply u8_small. assert (Forall in_u8 (cs ++ [0])) as HF'.
    { apply Forall_app. split; [|by apply Forall_singleton]. eapply Forall_impl; [exact HF|].
      intros x. unfold in_u8. lia. }
    rewrite Forall_lookup in HF'. by apply (HF' k). }
  unfold strcmp. run_with R. run_with (sa_chars _ _ _ H1 k a Ha). run_with (sa_chars _ _ _ H2 k b Hbk).
  rewrite (Hu cs1 a), (Hu cs2 b) by (done || apply H1 || apply H2). by rewrite E.
Qed.

(** [strcmp] returns the difference of the first characters that differ:
    it is 0 exactly for equal strings, and negative exactly when the first
    comes before the second in a dictionary. *)
Theorem strcmp_compares cs1 cs2 :
  string_at str1 s cs1 -> string_at str2 s cs2 ->
  exists r, strcmp str1 str2 s = Ok r s /\ (r = 0 <-> cs1 = cs2) /\ (r < 0 <-> before cs1 cs2).
Proof.
  intros H1 H2. exists (compare_chars cs1 cs2). split; [by apply strcmp_ok|].
  split; [by apply compare_equal; [apply H1|apply H2]|by apply compare_before; [apply H1|apply H2]].
Qed.

End comparing.

(** * The shell *)

Section shell.
Import Shell User.
Context `{Trap} `{UserImage} `{Fuel}.

Lemma literal_string (str : string) s :
  forallb (fun c => (0 <? c) && (c <? 256)) (codes str) = true -> string_at str s (codes str).
Proof.
  intros Hb. assert (length (codes str) = String.length str) as Hl.
  { clear. induction str; simpl; congruence. }
  split.
  - apply Forall_forall. intros c Hc%list_elem_of_In. rewrite forallb_forall in Hb. specialize (Hb c Hc). lia.
  - simpl. lia.
  - intros k c Hk. simpl. rewrite Nat2Z.id.
    destruct (decide (k < length (codes str))%nat).
    + rewrite lookup_app_l in Hk by done. by rewrite Hk.
    + rewrite lookup_app_r in Hk by lia. rewrite lookup_ge_None_2 by lia.
      by apply list_lookup_singleton_Some in Hk as [_ <-].
Qed.

(** The line in [command]. *)
Lemma command_string s cs :
  Forall (fun c => 0 < c < 256) cs -> (length cs < 128)%nat ->
  take (S (length cs)) (command (keys s)) = cs ++ [0] -> string_at Command s cs.
Proof.
  intros Hc Hl Ht. split; [done|exact Hl|]. intros k c Hk.
  pose proof (lookup_lt_Some _ _ _ Hk) as Hlt. rewrite length_app in Hlt. simpl in Hlt.
  simpl. unfold Kernel.COMMAND_SIZE. rewrite (proj2 (andb_true_iff _ _)), Nat2Z.id by lia.
  unfold gets. rewrite <- Ht, lookup_take_lt in Hk by lia. by rewrite Hk.
Qed.

Lemma command_exec_ok s cs st :
  string_at Command s cs ->
  command_exec Command st s = (if decide (cs = codes "hello") then run_hello st else mret tt) s.
Proof.
  intros HS. assert (string_at "hello"%string s (codes "hello")) as HH by (by apply literal_string).
  unfold command_exec. run_with (strcmp_ok Command "hello"%string s cs (codes "hello") HS HH).
  pose proof (compare_equal cs (codes "hello") (sa_codes _ _ _ HS) (sa_codes _ _ _ HH)) as HE.
  destruct (decide (cs = codes "hello")) as [E|E].
  - by rewrite (proj2 HE E).
  - rewrite (proj2 (Z.eqb_neq _ 0)); [done|]. intros Hz. by apply E, HE.
Qed.

(** The keyboard's globals after a command. *)
Definition cleared (s : kst) : kst :=
  set_keys (fun k => KeyState (last_key k) (replicate 128 0) 0 0) s.

Lemma empty_string_ok s :
  length (command (keys s)) = 128%nat ->
  empty_string s =
    Ok tt (set_keys (fun k => KeyState (last_key k) (replicate 128 0) (command_index k) (command_ready k)) s).
Proof.
  intros Hl. set (K := keys s) in *.
  set (st n := set_keys (fun k => KeyState (last_key k) (replicate (Z.to_nat n) 0 ++ drop (Z.to_nat n) (command K))
                                  (command_index k) (command_ready k)) s).
  destruct (for_range_inv (fun n s' => s' = st n) 0 128 (fun k => Kernel.command_put k 0) s) as (s' & R & ->).
  - lia.
  - unfold st. destruct s as [m p h r c k d t]. simpl in *. unfold set_keys. simpl. by destruct k.
  - intros n s1 Hn ->. exists (st (n + 1)). split; [|done].
    rewrite Keys.command_put_ok by lia. f_equal. unfold st, set_keys. simpl. f_equal. f_equal.
    replace (Z.to_nat (n + 1)) with (S (Z.to_nat n)) by lia.
    rewrite replicate_S_end, <- app_assoc.
    rewrite insert_app_r_alt by (rewrite length_replicate; lia). rewrite length_replicate, Nat.sub_diag.
    destruct (lookup_lt_is_Some_2 (command K) (Z.to_nat n)) as [x Hx]; [lia|].
    by rewrite (drop_S _ x) by done.
  - unfold empty_string, Kernel.COMMAND_SIZE. rewrite R. unfold st. change (Z.to_nat 128) with 128%nat.
    by rewrite drop_ge, app_nil_r by lia.
Qed.

(** A turn of the shell with a command. *)
Lemma shell_turn_ok s s1 st :
  command_ready (keys s) = 1 -> command_exec Command st s = Ok tt s1 ->
  length (command (keys s1)) = 128%nat ->
  shell_turn st s = (prompt;; user_yield) (cleared s1).
Proof.
  intros Hr R Hl. unfold shell_turn. rewrite gets_bind, Hr, Z.eqb_refl.
  rewrite bind_assoc. run_with R. unfold Kernel.set_command_ready, Kernel.set_command_index. run.
  by run_with (empty_string_ok (set_keys (fun k => KeyState (last_key k) (command k) 0 (command_ready k))
    (set_keys (fun k => KeyState (last_key k) (command k) (command_index k) 0) s1)) Hl).
Qed.

Lemma shell_turn_idle s st : command_ready (keys s) <> 1 -> shell_turn st s = user_yield s.
Proof. intros Hr. unfold shell_turn. rewrite gets_bind. by rewrite (proj2 (Z.eqb_neq _ 1)). Qed.

(** C16: what is typed is what the shell does: after a line of characters and
    Enter, the next turn of the shell runs the program hello exactly when the
    line is hello, then empties the line, prints the prompt and gives way; with
    no line it only gives way. *)
Theorem shell_answers_line codes_typed st s :
  typing s -> Forall char_key codes_typed -> delivers s (codes_typed ++ [0x1C]) ->
  command_index (keys s) = 0 -> Z.of_nat (length codes_typed) < 128 ->
  cur_i (console s) + Z.of_nat (length codes_typed) < 2000 ->
  (forall s0, command_ready (keys s0) <> 1 -> shell_turn st s0 = user_yield s0) /\
  exists s1, pressed (codes_typed ++ [0x1C]) s = Ok tt s1 /\
    length (command (keys s1)) = 128%nat /\
    if decide (Keyboard.key_of <$> codes_typed = codes "hello") then
      forall s2, run_hello st s1 = Ok tt s2 -> length (command (keys s2)) = 128%nat ->
        shell_turn st s1 = (prompt;; user_yield) (cleared s2)
    else shell_turn st s1 = (prompt;; user_yield) (cleared s1).
Proof.
  intros HT HF HD Hi Hn Hcur.
  destruct (typed_line_ok codes_typed s HT HF HD Hi Hn Hcur) as (s1 & R & T & _ & Hr & _ & Hl).
  assert (string_at Command s1 (Keyboard.key_of <$> codes_typed)) as HS.
  { apply command_string; [|rewrite length_fmap; lia|by rewrite length_fmap].
    apply Forall_fmap. eapply Forall_impl; [exact HF|]. intros c [_ Hc]. unfold printable in Hc. simpl. lia. }
  split; [intros s0; apply shell_turn_idle|].
  exists s1. split; [done|]. split; [done|]. pose proof (command_exec_ok s1 _ st HS) as HE.
  destruct (decide (Keyboard.key_of <$> codes_typed = codes "hello")).
  - intros s2 R2 Hl2. by apply shell_turn_ok; [|rewrite HE|].
  - by apply shell_turn_ok; [|rewrite HE|].
Qed.

End shell.

Section examples.
Import Shell User.

(** A kernel that answers 0 to every call. *)
#[local] Instance silent : Trap := fun _ => mret 0.
#[local] Instance addresses : UserImage := {|
  user_up_time_addr := 0; shell_addr := 0; hello_elf_start := 0; program2_elf_start := 0;
  literal_addr _ := 0
|}.
#[local] Instance ten : Fuel := 10%nat.

Definition hello_keys : list Z := [0x23; 0x12; 0x26; 0x26; 0x18].
Definition at_shell (line : list Z) : kst := boot_state [] (keyboard_device (line ++ [0x1C])).

Lemma at_shell_typing line : typing (at_shell line).
Proof.
  split; [|by vm_compute|by vm_compute].
  apply flat_window; [done|exact video_u32].
Qed.

(** [hello] is a command, [he] is none: there the shell makes no other calls. *)
Lemma shell_answers_line_witness :
  (exists s s1, pressed (hello_keys ++ [0x1C]) s = Ok tt s1 /\ shell_turn 0 s1 = Ok tt (cleared s1)) /\
  exists s s1, pressed (take 2 hello_keys ++ [0x1C]) s = Ok tt s1 /\ shell_turn 0 s1 = Ok tt (cleared s1).
Proof.
  assert (forall n line s, line = take n hello_keys -> s = at_shell line ->
    typing s /\ Forall char_key line /\ delivers s (line ++ [0x1C])) as Hstart.
  { intros n line s -> ->. split; [apply at_shell_typing|]. split.
    - apply Forall_take. unfold hello_keys. rewrite !Forall_cons, Forall_nil. unfold char_key, printable.
      split_and!; (done || by vm_compute).
    - intros k code Hk. unfold at_shell, keyboard_device. simpl.
      change (u8 (default 0 ((take n hello_keys ++ [0x1C]) !! k)) = code). rewrite Hk. simpl.
      apply u8_small. assert (Forall in_u8 (take n hello_keys ++ [0x1C])) as HF.
      { apply Forall_app. split; [apply Forall_take|]; rewrite ?Forall_singleton; [|done].
        unfold hello_keys. by rewrite !Forall_cons, Forall_nil. }
      rewrite Forall_lookup in HF. by apply (HF k). }
  split.
  - destruct (Hstart 5%nat _ _ eq_refl eq_refl) as (HT & HF & HD).
    destruct (shell_answers_line hello_keys 0 (at_shell hello_keys) HT HF HD eq_refl eq_refl ltac:(done))
      as (_ & s1 & R & Hl & HS).
    rewrite decide_True in HS by (by vm_compute). exists (at_shell hello_keys), s1.
    split; [exact R|]. exact (HS s1 eq_refl Hl).
  - destruct (Hstart 2%nat _ _ eq_refl eq_refl) as (HT & HF & HD).
    destruct (shell_answers_line (take 2 hello_keys) 0 (at_shell (take 2 hello_keys)) HT HF HD
      eq_refl eq_refl ltac:(done)) as (_ & s1 & R & Hl & HS).
    rewrite decide_False in HS by (by vm_compute). exists (at_shell (take 2 hello_keys)), s1.
    split; [exact R|]. exact HS.
Defined.

Lemma strcmp_compares_witness :
  exists r s, Shell.strcmp "help"%string "hello"%string s = Ok r s /\ 0 < r.
Proof.
  set (s := boot_state [] no_device).
  destruct (strcmp_compares "help"%string "hello"%string s (codes "help") (codes "hello"))
    as (r & R & He & Hb); [by apply literal_string..|].
  exists r, s. split; [exact R|]. assert (r <> 0) by (intros Hr; by apply He in Hr).
  assert (~ r < 0) by (intros Hr; apply Hb in Hr; vm_compute in Hr; intuition discriminate). lia.
Defined.

End examples.
