(* ===== verification/Calls.v ===== *)
(** System calls from the side of a user program: what int 0x80 does in the
    kernel of this development, and what a program sees of [user_fork]. *)

From S2P Require Import Prelude Machine State Mmu Window PageSource Vga MemMap Paging MemLib Heap Descriptors Devices Process Switch Spawn Elf Syscall Fork Exec Kernel UserSpace.

Section entering.
Import Process Syscall.
Context `{Layout} `{Fuel}.

(** The frame the processor and the stub push. *)
Definition frame_of (s : kst) : Z := u32 (esp0 (tss (descs s)) - sizeof_registers).

Definition push_frame (cpu : Z -> Z) (l : list (Z * Z)) (f : Z) : K unit :=
  for_range 0 17 (fun k => set f (4 * k) (register cpu l (4 * k))).

Lemma push_frame_ok s W cpu l f :
  window s W -> subset (span f sizeof_registers) W ->
  exists s', push_frame cpu l f s = Ok tt s' /\ stores (span f sizeof_registers) s s' /\
    forall k, 0 <= k < 17 -> field s' f (4 * k) = u32 (register cpu l (4 * k)).
Proof.
  intros HW Hf. assert (span (f + 4 * 0) (4 * (17 - 0)) = span f sizeof_registers) as E.
  { unfold sizeof_registers. f_equal; lia. }
  destruct (fill_ok s f 0 17 (fun k => register cpu l (4 * k)) ltac:(lia)) as (s' & R & S & V).
  - rewrite E. by apply (window_subset s W).
  - rewrite E in S. by exists s'.
Qed.

(** The call [n] with the result [r]: the program goes on behind int 0x80. *)
Lemma trap_returns cpu l s s1 s2 s3 r :
  let f := frame_of s in
  push_frame cpu l f s = Ok tt s1 -> syscall_dispatch f s1 = Ok tt s2 ->
  get f r_eip s2 = Ok (u32 (cpu r_eip)) s2 -> get f r_eax s2 = Ok r s3 ->
  kernel_trap cpu l s = Ok r s3.
Proof.
  intros f R1 R2 Re Ra. unfold kernel_trap, trap_frame. rewrite gets_bind. fold (frame_of s) f.
  fold (push_frame cpu l f). run_with R1. run_with R2. run_with Re. by rewrite Z.eqb_refl.
Qed.

Lemma dispatch_fork f s : get f r_eax s = Ok SYS_FORK s ->
  syscall_dispatch f s = return_to f (sys_fork f) s.
Proof. intros R. unfold syscall_dispatch. by run_with R. Qed.

End entering.

(** * [user_fork] *)

Section forking.
Import Process Syscall.
Context `{Layout} `{Fuel} (cpu : Z -> Z).

(** The process [c] runs user code with the registers [cpu]; its stack is the
    page [us], and its saved frame pointers are at the addresses [frames]. *)
Record user_runs (s : kst) (W : Z -> Prop) (l : list block) (ps frames : list Z) (c us : Z) : Prop := {
  ur_data : kernel_data s W l ps;
  ur_current : current_process (procs s) = c;
  ur_in : c ∈ ps;
  ur_frame : own_memory W l (span (frame_of s) sizeof_registers);
  ur_stack : field s c user_stack = us /\ us + 4096 < 2 ^ 32 /\ own_memory W l (span us 4096);
  ur_apart : disjoint_from (span (frame_of s) sizeof_registers) (span us 4096);
  ur_esp : us <= cpu r_user_esp <= us + 4096;
  ur_registers : in_u32 (cpu r_ebp) /\ in_u32 (cpu r_eip);
  ur_frames : frame_chain s (cpu r_user_esp) (us + 4096) (cpu r_ebp) frames
}.

(** The registers in the frame are those of the processor. *)
Lemma pushed_registers s s1 W l ps frames c us :
  user_runs s W l ps frames c us ->
  (forall k, 0 <= k < 17 -> field s1 (frame_of s) (4 * k) = u32 (register cpu [(r_eax, SYS_FORK)] (4 * k))) ->
  (forall k, 0 <= k < 17 -> 4 * k <> r_eax -> field s1 (frame_of s) (4 * k) = u32 (cpu (4 * k))) /\
  field s1 (frame_of s) r_user_esp = cpu r_user_esp /\ field s1 (frame_of s) r_ebp = cpu r_ebp.
Proof.
  intros [HK _ _ _ (_ & Hue & HV) _ He [Hb _] _] V.
  assert (in_u32 us) as Hu.
  { apply (win_u32 _ _ (pl_window _ _ _ (kd_procs _ _ _ _ HK))), (proj1 HV). unfold span. lia. }
  assert (forall k, 0 <= k < 17 -> 4 * k <> r_eax -> field s1 (frame_of s) (4 * k) = u32 (cpu (4 * k))) as Vc.
  { intros k Hk Hne. rewrite V by done. unfold register. simpl. by rewrite (proj2 (Z.eqb_neq _ _)). }
  split; [done|]. unfold in_u32 in *. split.
  - etransitivity; [exact (Vc 15 ltac:(lia) ltac:(done))|]. apply u32_small.
    change (4 * 15) with r_user_esp. unfold in_u32. lia.
  - etransitivity; [exact (Vc 6 ltac:(lia) ltac:(done))|]. by apply u32_small.
Qed.

Lemma pushed_forkable s s1 W l ps frames c us :
  user_runs s W l ps frames c us -> stores (span (frame_of s) sizeof_registers) s s1 ->
  (forall k, 0 <= k < 17 -> field s1 (frame_of s) (4 * k) = u32 (register cpu [(r_eax, SYS_FORK)] (4 * k))) ->
  forkable s1 W l ps c (frame_of s) us /\
  frame_chain s1 (field s1 (frame_of s) r_user_esp) (us + 4096) (field s1 (frame_of s) r_ebp) frames /\
  forall x, W x -> ~ span (frame_of s) sizeof_registers x -> rd8 s1 x = rd8 s x.
Proof.
  intros HU S V. pose proof HU as [HK Hc Hin Hf (Hus & Hue & HV) Hap He _ Hch]. set (f := frame_of s) in *.
  pose proof (pl_window _ _ _ (kd_procs _ _ _ _ HK)) as HW.
  destruct (kernel_data_stores _ s s1 W l ps HK S (proj1 Hf) (proj2 Hf)) as [HK1 G1].
  destruct (pushed_registers s s1 W l ps frames c us HU V) as (_ & Ee & Eb). fold f in Ee, Eb.
  split; [|split].
  - split; try done; [|split; [|done]|by rewrite Ee].
    + by destruct (st_machine _ _ _ S) as [m ->].
    + rewrite <- Hus. exact (G1 c 11 Hin ltac:(lia)).
  - rewrite Ee, Eb. apply (chain_same s); [|done]. intros x Hx Hxe.
    apply (stores_rd 4 _ _ _ W _ S HW (proj1 Hf)).
    + intros y Hy. apply (proj1 HV). unfold span in *. lia.
    + intros y Hy Hyf. apply (Hap y Hyf). unfold span in *. lia.
  - intros x Hx Hn. by apply (stores_rd8 _ _ _ W x S HW (proj1 Hf)).
Qed.

(** The dispatcher stores the result of [sys_fork] in the frame. *)
Lemma fork_reply_ok s1 s2 W W' l l' ps frames c p f us us' :
  let n := process_number (procs s1) in
  forked s1 s2 W W' l l' ps frames c p f us us' -> own_memory W l (span f sizeof_registers) ->
  in_u16 n ->
  exists s3, set f r_eax n s2 = Ok tt s3 /\ kernel_data s3 W' l' (ps ++ [p]) /\ procs s3 = procs s2 /\
    (forall q j, q ∈ ps ++ [p] -> 0 <= j < 12 -> field s3 q (4 * j) = field s2 q (4 * j)) /\
    (forall k, 0 <= k < 17 -> get f (4 * k) s3 = Ok (if 4 * k =? r_eax then n else field s1 f (4 * k)) s3) /\
    forall m a A, subset A W' -> disjoint_from A (span f sizeof_registers) ->
      subset (span a (Z.of_nat m)) A -> rd m s3 a = rd m s2 a.
Proof.
  intros n HD Hf Hn. pose proof (fk_data _ _ _ _ _ _ _ _ _ _ _ _ _ HD) as HK2.
  destruct (fk_more _ _ _ _ _ _ _ _ _ _ _ _ _ HD) as [HW2 Hh2].
  pose proof (fk_frame _ _ _ _ _ _ _ _ _ _ _ _ _ HD) as Hf2. fold n in Hf2.
  pose proof (pl_window _ _ _ (kd_procs _ _ _ _ HK2)) as HWin2.
  assert (own_memory W' l' (span f sizeof_registers)) as [Hf3 Hf4].
  { split; intros x Hx; [by apply HW2, Hf|]. intros Hy. by apply (proj2 Hf x Hx), Hh2. }
  destruct (set_register_ok s2 s2 W' f _ 11 n HWin2 Hf3 (stores_none _ _ _ HWin2 Hf3) Hf2 ltac:(lia))
    as (s3 & R3 & S3 & V3).
  destruct (kernel_data_stores _ s2 s3 W' l' (ps ++ [p]) HK2 S3 Hf3 Hf4) as [HK3 G3].
  exists s3. split; [exact R3|]. split; [done|]. split; [by destruct (st_machine _ _ _ S3) as [m ->]|].
  split; [done|]. split.
  - intros k Hk. rewrite (get_ok s3 W'); [|by apply (stores_window _ _ _ _ S3)|].
    + rewrite V3 by done. do 2 f_equal. change r_eax with (4 * 11).
      destruct (Z.eqb_spec k 11) as [->|Hne]; [|done]. rewrite Z.eqb_refl. apply u32_small.
      unfold in_u16 in Hn. width_lia.
    + intros x Hx. by apply Hf3, (reg_in f k Hk).
  - intros m a A HA Hd Ha. apply (stores_rd m _ _ _ W' _ S3 HWin2 Hf3).
    + intros x Hx. by apply HA, Ha.
    + intros x Hx. by apply Hd, Ha.
Qed.

(** The states on the way: [s1] when the dispatcher is entered, [s2] when
    [sys_fork] is done. *)
Record fork_steps (s s1 s2 s3 : kst) (W W' : Z -> Prop) (l : list block) (ps frames : list Z)
    (c p us us' : Z) : Prop := {
  fs_trap : User.user_fork (H := kernel_trap cpu) s = Ok (process_number (procs s)) s3;
  fs_number : process_number (procs s1) = process_number (procs s);
  fs_forked : forked s1 s2 W W' l (Spec.take_at sizeof_process (p - 9) l) ps frames c p (frame_of s) us us';
  fs_data : kernel_data s3 W' (Spec.take_at sizeof_process (p - 9) l) (ps ++ [p]);
  fs_procs : procs s3 = procs s2;
  fs_pushed : forall k, 0 <= k < 17 -> 4 * k <> r_eax -> field s1 (frame_of s) (4 * k) = u32 (cpu (4 * k));
  fs_stack : field s1 (frame_of s) r_user_esp = cpu r_user_esp /\ field s1 (frame_of s) r_ebp = cpu r_ebp;
  fs_before : forall x, W x -> ~ span (frame_of s) sizeof_registers x -> rd8 s1 x = rd8 s x;
  fs_records : forall q j, q ∈ ps ++ [p] -> 0 <= j < 12 -> field s3 q (4 * j) = field s2 q (4 * j);
  fs_after : forall m a A, subset A W' -> disjoint_from A (span (frame_of s) sizeof_registers) ->
    subset (span a (Z.of_nat m)) A -> rd m s3 a = rd m s2 a
}.

Lemma user_fork_steps s W l ps frames c us b :
  user_runs s W l ps frames c us -> Spec.best_fit sizeof_process l = Some b ->
  (length l < fuel)%nat -> (length ps < fuel)%nat -> in_u16 (process_number (procs s)) ->
  next_virtual (pmm s) + KERNEL_STACK_SIZE + 4096 <= page_limit -> stocked 5 s ->
  (length frames < fuel)%nat ->
  exists us' s1 s2 s3 W', fork_steps s s1 s2 s3 W W' l ps frames c (b_addr b + 9) us us'.
Proof.
  intros HU Hbest Hlen Hlenp Hn Hend Hst Hfl. set (n := process_number (procs s)) in *.
  pose proof HU as [HK Hc Hin Hf _ Hap He _ _]. set (f := frame_of s) in *.
  pose proof (pl_window _ _ _ (kd_procs _ _ _ _ HK)) as HW.
  destruct (push_frame_ok s W cpu [(r_eax, SYS_FORK)] f HW (proj1 Hf)) as (s1 & R1 & S1 & V1).
  destruct (pushed_forkable s s1 W l ps frames c us HU S1 V1) as (HF & Hch1 & K1). fold f in HF, Hch1, K1.
  destruct (st_machine _ _ _ S1) as [m1 Hm1].
  assert (pmm s1 = pmm s /\ procs s1 = procs s) as [Em Ep] by (by rewrite Hm1).
  destruct (sys_fork_ok s1 W l ps b c f us frames HF Hbest Hlen Hlenp)
    as (us' & s2 & W' & R2 & HD); [by rewrite Ep|by rewrite Em|by apply (stocked_pmm _ s)|done|done|].
  set (p := b_addr b + 9) in *. assert (b_addr b = p - 9) as Eb' by (unfold p; lia). rewrite Eb' in HD.
  assert (process_number (procs s1) = n) as En by (by rewrite Ep).
  destruct (fork_reply_ok s1 s2 W W' l _ ps frames c p f us us' HD Hf) as (s3 & R3 & HK3 & P3 & G3 & V3 & K3);
    [by rewrite En|]. rewrite En in R2, R3, V3.
  destruct (pushed_registers s s1 W l ps frames c us HU V1) as (Vc & Ee & Eb). fold f in Vc, Ee, Eb.
  exists us', s1, s2, s3, W'. split; try done.
  unfold User.user_fork, int80. apply (trap_returns cpu [(r_eax, SYS_FORK)] s s1 s3 s3 n R1).
  - rewrite dispatch_fork; [unfold return_to; by run_with R2|].
    rewrite (get_ok s1 W); [f_equal; exact (V1 11 ltac:(lia))|by apply (stores_window _ _ _ _ S1)|].
    intros x Hx. apply Hf. unfold span, r_eax, sizeof_registers in *. lia.
  - etransitivity; [exact (V3 12 ltac:(lia))|]. f_equal. exact (Vc 12 ltac:(lia) ltac:(done)).
  - exact (V3 11 ltac:(lia)).
Qed.

(** C7: [user_fork] returns twice, for a process that runs on the stack page
    [create_process] gave it (not for one of [create_elf_process], whose stack
    is elsewhere), with saved frame pointers that go up in that page, when a
    free block holds a record and there are address space and five frames for
    the stacks.  The caller goes on behind int 0x80 with the identifier of a
    new process, and that process, ready and a child of the caller, will go on
    at the same instruction with 0 in eax, the same registers and a copy of the
    caller's stack, with esp, ebp and the saved frame pointers moved to the
    copy. *)
Theorem user_fork_returns_twice s W l ps frames c us b :
  let n := process_number (procs s) in
  let p := b_addr b + 9 in
  user_runs s W l ps frames c us -> Spec.best_fit sizeof_process l = Some b ->
  (length l < fuel)%nat -> (length ps < fuel)%nat -> in_u16 n ->
  next_virtual (pmm s) + KERNEL_STACK_SIZE + 4096 <= page_limit -> stocked 5 s ->
  (length frames < fuel)%nat ->
  exists us' s' W', User.user_fork (H := kernel_trap cpu) s = Ok n s' /\
    kernel_data s' W' (Spec.take_at sizeof_process (b_addr b) l) (ps ++ [p]) /\
    current_process (procs s') = c /\
    field s' p pid = n /\ field s' p parent = c /\ field s' p state = PROCESS_READY /\
    field s' p user_stack = us' /\
    (forall k, 0 <= k < 17 -> field s' (field s' p regs) (4 * k) =
       if 4 * k =? r_eax then 0
       else if 4 * k =? r_user_esp then cpu r_user_esp + (us' - us)
       else if 4 * k =? r_ebp then u32 (cpu r_ebp + (us' - us))
       else u32 (cpu (4 * k))) /\
    (forall x, cpu r_user_esp <= x < us + 4096 -> (forall y, y ∈ frames -> ~ span y 4 x) ->
       rd8 s' (x + (us' - us)) = rd8 s x) /\
    (forall y, y ∈ frames -> rd32 s' (y + (us' - us)) = rd32 s y + (us' - us)) /\
    (forall x, W x -> ~ heap_bytes l x -> ~ span (frame_of s) sizeof_registers x -> rd8 s' x = rd8 s x).
Proof.
  intros n p HU Hbest Hlen Hlenp Hn Hend Hst Hfl.
  destruct (user_fork_steps s W l ps frames c us b HU Hbest Hlen Hlenp Hn Hend Hst Hfl)
    as (us' & s1 & s2 & s3 & W' & [R En HD HK3 P3 Vc [Ee Eb] K1 G3 K3]).
  fold p in HD, HK3, G3. replace (p - 9) with (b_addr b) in HD, HK3 by (unfold p; lia). fold n in R, En.
  pose proof HU as [_ _ _ Hf (_ & Hue & HV) Hap He _ Hch]. set (f := frame_of s) in *.
  destruct HD as [_ [HW2 Hh2] Hc2 Hp2 Hst2 Hpa2 Hus2 Hreg2 [HrW Hr2] _ Hfresh2 Hstk2 Hptr2 _ Hk2].
  rewrite En in Hp2. assert (p ∈ ps ++ [p]) as Hp by (apply elem_of_app; right; by left).
  assert (subset (span us' 4096) W' /\ disjoint_from (span us' 4096) (span f sizeof_registers)) as [Hu1 Hu2].
  { split; intros x Hx; [by apply Hfresh2|]. intros Hxf. by apply (Hfresh2 x Hx), Hf. }
  exists us', s3, W'. split; [done|].
  split; [done|]. split; [by rewrite P3|].
  split; [rewrite <- Hp2; exact (G3 p 0 Hp ltac:(lia))|].
  split; [rewrite <- Hpa2; exact (G3 p 10 Hp ltac:(lia))|].
  split; [rewrite <- Hst2; exact (G3 p 5 Hp ltac:(lia))|].
  split; [rewrite <- Hus2; exact (G3 p 11 Hp ltac:(lia))|].
  split; [|split; [|split]].
  - intros k Hk. assert (field s3 p regs = field s2 p regs) as -> by exact (G3 p 4 Hp ltac:(lia)).
    transitivity (field s2 (field s2 p regs) (4 * k)).
    + apply (K3 4%nat _ _ HrW); [|exact (reg_in _ k Hk)]. intros x Hx Hxf. by apply (Hr2 x Hx), Hf.
    + rewrite Hreg2 by done. unfold child_registers. rewrite Ee, Eb.
      destruct (Z.eqb_spec (4 * k) r_eax); [done|]. by rewrite Vc.
  - intros x Hx Hy. rewrite <- !rd_1. rewrite (K3 1%nat _ _ Hu1 Hu2), !rd_1 by (intros y; unfold span; lia).
    rewrite Hstk2 by (try rewrite Ee; done). apply K1; [apply HV; unfold span; lia|].
    intros Hxf. apply (Hap x Hxf). unfold span. lia.
  - intros y Hy. destruct (chain_above _ _ _ _ _ _ Hch Hy) as [Hyb _].
    rewrite (K3 4%nat _ _ Hu1 Hu2) by (intros z; unfold span; lia). rewrite Hptr2 by done. f_equal.
    apply rd_ext. intros x Hx. apply K1; [apply HV; unfold span in *; lia|].
    intros Hxf. apply (Hap x Hxf). unfold span in *. lia.
  - intros x Hx Hh Hxf. rewrite <- (K1 x Hx Hxf), <- (Hk2 x Hx Hh Hxf), <- !rd_1.
    assert (forall y, span x 1 y -> y = x) as Hone by (intros y; unfold span; lia).
    apply (K3 1%nat _ (span x 1)); [intros y ->%Hone; by apply HW2|intros y ->%Hone; exact Hxf|by intros y].
Qed.

End forking.

Section examples.
Import Process Syscall.
#[local] Existing Instance example_layout.
#[local] Existing Instance example_layout_ok.
#[local] Instance hundred : Fuel := 100%nat.

(** The processor in user code with the stack pointer [sp]. *)
Definition user_cpu (sp : Z) (off : Z) : Z :=
  if off =? r_user_esp then sp else if off =? r_ebp then sp + 4
  else if off =? r_eip then 0x1234 else if off =? r_cs then 0x1B else 0.

(** The process of Fork.v runs; the task state segment points at its kernel
    stack. *)
Lemma user_exists :
  exists s W l ps b c us, user_runs (user_cpu (us + 4080)) s W l ps [us + 4084] c us /\
    Spec.best_fit sizeof_process l = Some b /\ (length l < fuel)%nat /\ (length ps < fuel)%nat /\
    process_number (procs s) = 2 /\ next_virtual (pmm s) + KERNEL_STACK_SIZE + 4096 <= page_limit /\
    stocked 5 s.
Proof.
  destruct caller_exists
    as (s & W & l & ps & b & c & f & us & HA & Hb & Hl & Hp & Hn & Hnv & Hst & Hch & Hv & Ee & Eb & Hf0).
  destruct HA as [HK Hcur Hin Hf (Hus & Hue & HV) He Hap].
  pose proof (kd_heap _ _ _ _ HK) as HL. pose proof (pl_window _ _ _ (kd_procs _ _ _ _ HK)) as HW.
  set (s1 := set_descs (fun d => DescState (gdt d) (gp d) (Tss (f + sizeof_registers) (ss0 (tss d)) (iomap_base (tss d)))
                                           (idt d) (idt_ptr d)) s).
  assert (frame_of s1 = f) as Ef.
  { unfold frame_of. simpl. rewrite u32_small; [lia|]. unfold in_u32. lia. }
  destruct (kernel_data_grow s s1 W W l ps HK) as [HK1 F1];
    [apply (page_inv_globals s); [done|done|apply HL]|by intros x|done|done|done|].
  exists s1, W, l, ps, b, c, us. rewrite Ee, Eb in Hch. split; [|by split_and!].
  assert (in_u32 us) as Hu by (apply (win_u32 _ _ HW), (proj1 HV); unfold span; lia).
  unfold in_u32 in Hu. split; rewrite ?Ef; try done.
  - change (user_cpu (us + 4080) r_user_esp) with (us + 4080). lia.
  - change (user_cpu (us + 4080) r_ebp) with (us + 4080 + 4). split; [|done]. unfold in_u32. lia.
  - change (user_cpu (us + 4080) r_user_esp) with (us + 4080).
    change (user_cpu (us + 4080) r_ebp) with (us + 4080 + 4).
    replace (us + 4080 + 4) with (us + 4084) by lia. apply (chain_same s); [|done]. done.
Qed.

Lemma user_fork_returns_twice_witness :
  exists cpu s s' p, User.user_fork (H := kernel_trap cpu) s = Ok 2 s' /\ field s' p pid = 2 /\
    field s' (field s' p regs) r_eax = 0 /\ field s' (field s' p regs) r_eip = 0x1234.
Proof.
  destruct user_exists as (s & W & l & ps & b & c & us & HU & Hb & Hl & Hp & Hn & Hnv & Hst).
  destruct (user_fork_returns_twice (user_cpu (us + 4080)) s W l ps [us + 4084] c us b HU Hb Hl Hp)
    as (us' & s' & W' & R & _ & _ & Hid & _ & _ & _ & Hreg & _);
    [rewrite Hn; by split|done|done|by apply Nat.ltb_lt|].
  rewrite Hn in R, Hid. exists (user_cpu (us + 4080)), s, s', (b_addr b + 9).
  split; [exact R|]. split; [exact Hid|]. split; [exact (Hreg 11 ltac:(lia))|].
  exact (Hreg 12 ltac:(lia)).
Defined.

End examples.
