(* ===== verification/Reachable.v ===== *)
(** What holds in every state the kernel can reach.

    [sound] says of the kernel's tables (the memory map, the stack of recycled
    pages, the segments and gates, the flag of the shell) what the code must
    keep for its own array accesses and for the processor.  [well_typed] is the
    invariant that carries it through all functions: [sound] with the widths of
    the variables.  [typed P m] says that [m] keeps it, wherever it leaves, and
    that its results satisfy [P]; behaviour C leaves undefined is not followed.
    One lemma per function, put together by the structure of the code. *)

From S2P Require Import Prelude Machine State Mmu Window PageSource Vga MemMap Paging MemLib Heap Descriptors Devices Process Switch Spawn Elf Syscall Kernel.

(** * The types of the state *)

Record gate_typed (g : gdt_entry) : Prop := {
  gt_low : in_u16 (limit_low g) /\ in_u16 (base_low g);
  gt_middle : in_u8 (base_middle g) /\ in_u8 (access g);
  gt_high : in_u8 (granularity g) /\ in_u8 (base_high g)
}.
Record descriptor_typed (d : interrupt_des) : Prop := {
  dt_offset : in_u16 (offset_1 d) /\ in_u16 (offset_2 d);
  dt_selector : in_u16 (selector d);
  dt_bytes : in_u8 (zeros d) /\ in_u8 (des_type d)
}.

(** * What holds of the kernel's tables in every state

    [map_sound]: the memory map and the stack of recycled pages are inside
    their arrays, and the live regions are well formed.  [tables_sound]: every
    gate leads to the kernel's code segment and user code may only call 0x80,
    only segments 3 and 4 are for user code, and interrupts of user code change
    to the kernel's stack segment. *)
Record map_sound (p : pmm_state) : Prop := {
  mo_count : 0 <= entry p <= 1024;
  mo_cells : 1024 <= Z.of_nat (length (mmap p));
  mo_regions : map_wf (take (Z.to_nat (entry p)) (mmap p));
  mo_recycled : 0 <= free_count p <= 1024;
  mo_stack : length (free_virtual p) = 1024%nat
}.

Definition gate_dpl (g : interrupt_des) : Z := des_type g / 32 mod 4.
Definition empty_gate : interrupt_des := InterruptDes 0 0 0 0 0.
Record tables_sound (d : desc_state) : Prop := {
  to_gates : forall n g, idt d !! n = Some g ->
    g = empty_gate \/ selector g = Descriptors.KERNEL_CS /\ (gate_dpl g = 0 \/ n = 0x80%nat);
  to_rings : forall n g, gdt d !! n = Some g ->
    gate_ring g = 0 \/ gate_ring g = 3 /\ (n = 3%nat \/ n = 4%nat);
  to_stack : ss0 (tss d) = 0 \/ ss0 (tss d) = Descriptors.KERNEL_DS
}.


(** The invariant of the proof: with the types of the variables. *)
Record well_typed (s : kst) : Prop := {
  wt_ram : map_Forall (fun _ v => in_u8 v) (ram (mach s));
  wt_cr3 : in_u32 (cr3 (mach s));
  wt_map : map_sound (pmm s);
  wt_virtual : in_u32 (next_virtual (pmm s));
  wt_recycled : Forall in_u32 (free_virtual (pmm s));
  wt_heap : in_u32 (heap_head (heap s)) /\ in_u32 (current_block (heap s));
  wt_procs : in_u32 (process_list (procs s)) /\ in_u32 (current_process (procs s)) /\
             in_u16 (process_number (procs s));
  wt_ready : command_ready (keys s) = 0 \/ command_ready (keys s) = 1;
  wt_command : length (command (keys s)) = 128%nat /\ Forall in_u8 (command (keys s));
  wt_tables : tables_sound (descs s);
  wt_gdt : length (gdt (descs s)) = 6%nat /\ Forall gate_typed (gdt (descs s));
  wt_idt : length (idt (descs s)) = 256%nat /\ Forall descriptor_typed (idt (descs s));
  wt_tss : in_u32 (esp0 (tss (descs s))) /\ in_u16 (ss0 (tss (descs s))) /\
           in_u16 (iomap_base (tss (descs s)));
  wt_ticks : in_u32 (ticks s)
}.


(** * Typed computations *)

Definition any {A} (_ : A) : Prop := True.

Definition typed {A} (P : A -> Prop) (m : K A) : Prop := forall s, well_typed s ->
  match m s with
  | Ok a s' => P a /\ well_typed s'
  | PageFault _ s' | Switched _ s' | Halted s' | Spinning s' => well_typed s'
  | Undefined _ | OutOfFuel => True
  end.

Create HintDb typed.
#[export] Hint Constants Opaque : typed.

Lemma typed_ret {A} (P : A -> Prop) a : P a -> typed P (mret a).
Proof. by intros HP s Hs. Qed.
Lemma typed_bind {A B} (Q : A -> Prop) (P : B -> Prop) (m : K A) (f : A -> K B) :
  typed Q m -> (forall a, Q a -> typed P (f a)) -> typed P (m ≫= f).
Proof.
  intros Hm Hf s Hs. specialize (Hm s Hs). unfold mbind, K_bind.
  destruct (m s); try done. destruct Hm as [HQ Hs']. by apply Hf.
Qed.
Lemma typed_weaken {A} (P Q : A -> Prop) (m : K A) : (forall a, P a -> Q a) -> typed P m -> typed Q m.
Proof.
  intros HPQ Hm s Hs. specialize (Hm s Hs). destruct (m s); try done.
  destruct Hm. split; [by apply HPQ|done].
Qed.
Lemma typed_any {A} (P : A -> Prop) (m : K A) : typed P m -> typed any m.
Proof. by apply typed_weaken. Qed.
Lemma typed_gets {A} (P : A -> Prop) f : (forall s, well_typed s -> P (f s)) -> typed P (gets f).
Proof. intros Hf s Hs. split; [by apply Hf|done]. Qed.
Lemma typed_undefined {A} (P : A -> Prop) : typed P undefined.
Proof. by intros s Hs. Qed.
Lemma typed_spin {A} (P : A -> Prop) : typed P spin.
Proof. by intros s Hs. Qed.
Lemma typed_no_fuel {A} (P : A -> Prop) : typed P no_fuel.
Proof. by intros s Hs. Qed.
Lemma typed_restore_esp {A} p : typed (A := A) any (Process.restore_esp p).
Proof. by intros s Hs. Qed.
Lemma typed_halted {A} (P : A -> Prop) : typed P Process.halted.
Proof. by intros s Hs. Qed.

Lemma typed_for_fold {A B} (P : B -> Prop) (l : list A) b f :
  P b -> (forall x b, P b -> typed P (f x b)) -> typed P (for_fold l b f).
Proof.
  intros Hb Hf. revert b Hb. induction l as [|x l IH]; intros b Hb; simpl; [by apply typed_ret|].
  apply (typed_bind P); [by apply Hf|]. intros b' Hb'. by apply IH.
Qed.
Lemma typed_for_return {A B} (P : option B -> Prop) (l : list A) f :
  P None -> (forall x, typed P (f x)) -> typed P (for_return l f).
Proof.
  intros Hn Hf. induction l as [|x l IH]; simpl; [by apply typed_ret|].
  apply (typed_bind P); [apply Hf|]. intros [r|] Hr; [by apply typed_ret|done].
Qed.

Lemma typed_modify P f : P tt -> (forall s, well_typed s -> well_typed (f s)) -> typed P (modify f).
Proof. intros HP Hf s Hs. split; [done|by apply Hf]. Qed.
Lemma typed_for_each {A} (l : list A) f : (forall x, typed any (f x)) -> typed any (for_each l f).
Proof.
  intros Hf. induction l as [|x l IH]; simpl; [by apply typed_ret|].
  apply (typed_bind any); [apply Hf|]. by intros _ _.
Qed.
Lemma typed_for_range lo hi f : (forall x, typed any (f x)) -> typed any (for_range lo hi f).
Proof. apply typed_for_each. Qed.

#[export] Hint Resolve typed_undefined typed_spin typed_no_fuel typed_restore_esp typed_halted : typed.
#[export] Hint Resolve u8_range u16_range u32_range rd32_range : typed.

(** One step along the structure of a computation.  The head of a sequence is
    looked up; if its type is not known, any result will do. *)
Ltac typed_step :=
  lazymatch goal with
  | |- forall _, _ => intros
  | |- any _ => exact I
  | |- typed _ (mret _) => apply typed_ret
  | |- typed _ (mbind _ _) =>
      first [ eapply typed_bind; [solve [eauto 3 with typed]|intros] | eapply (typed_bind any); [|intros] ]
  | |- typed _ (if ?b then _ else _) => destruct b eqn:?
  | |- typed _ (match ?x with _ => _ end) => destruct x eqn:?
  | |- typed _ (for_each _ _) => apply typed_for_each
  | |- typed _ (for_range _ _ _) => apply typed_for_range
  | |- typed any (for_fold _ _ _) => apply typed_for_fold
  | |- typed any (for_return _ _) => apply typed_for_return
  | |- typed ?P ?m => first [ solve [eauto 3 with typed] | solve [eapply typed_any; eauto 3 with typed] ]
  end.
Ltac solve_typed := repeat (typed_step; cbv zeta beta); eauto with typed.

(** * Memory and the machine *)

Lemma typed_mach f s :
  map_Forall (fun _ v => in_u8 v) (ram (f (mach s))) -> in_u32 (cr3 (f (mach s))) ->
  well_typed s -> well_typed (set_mach f s).
Proof. intros H1 H2 []. by split. Qed.

Lemma xlate_typed va : typed any (xlate va).
Proof. intros s Hs. unfold xlate. by destruct (translate _ _). Qed.
#[export] Hint Resolve xlate_typed : typed.

Lemma set_phys8_typed p v m :
  map_Forall (fun _ v => in_u8 v) (ram m) -> map_Forall (fun _ v => in_u8 v) (ram (set_phys8 p v m)).
Proof.
  intros Hm. unfold set_phys8. simpl. apply map_Forall_insert_2; [apply u8_range|done].
Qed.
Lemma load8_typed va : typed in_u8 (load8 va).
Proof.
  unfold load8. solve_typed. apply typed_gets. intros s _. apply phys8_range.
Qed.
Lemma store8_typed va v : typed any (store8 va v).
Proof.
  unfold store8. solve_typed. apply typed_modify; [done|]. intros s Hs.
  apply typed_mach; [|apply Hs|done]. apply set_phys8_typed, Hs.
Qed.
Lemma xlate_all_typed n va : typed any (xlate_all n va).
Proof. revert va. induction n as [|n IH]; intros va; simpl; solve_typed. Qed.
#[export] Hint Resolve load8_typed store8_typed xlate_all_typed : typed.

Lemma get_bytes_range m ps : 0 <= get_bytes m ps < 2 ^ (8 * Z.of_nat (length ps)).
Proof.
  induction ps as [|p ps IH]; simpl; [done|]. pose proof (phys8_range m p) as H8.
  replace (8 * Z.of_nat (S (length ps))) with (8 + 8 * Z.of_nat (length ps)) by lia.
  rewrite Z.pow_add_r by lia. unfold in_u8 in H8. nia.
Qed.
Lemma set_bytes_typed ps v m :
  map_Forall (fun _ v => in_u8 v) (ram m) -> in_u32 (cr3 m) ->
  map_Forall (fun _ v => in_u8 v) (ram (set_bytes ps v m)) /\ in_u32 (cr3 (set_bytes ps v m)).
Proof.
  revert v m. induction ps as [|p ps IH]; intros v m Hm Hc; [done|]. simpl.
  apply IH; [by apply set_phys8_typed|done].
Qed.
Lemma xlate_all_length n va : typed (fun ps => length ps = n) (xlate_all n va).
Proof.
  revert va. induction n as [|n IH]; intros va; simpl; [by apply typed_ret|].
  eapply typed_bind; [apply xlate_typed|]. intros p _.
  eapply typed_bind; [apply IH|]. intros ps Hps. apply typed_ret. simpl. by rewrite Hps.
Qed.
Lemma load_typed n va : typed (fun v => 0 <= v < 2 ^ (8 * Z.of_nat n)) (load n va).
Proof.
  unfold load. eapply typed_bind; [apply xlate_all_length|]. intros ps <-.
  apply typed_gets. intros s _. apply get_bytes_range.
Qed.
Lemma store_typed n va v : typed any (store n va v).
Proof.
  unfold store. eapply typed_bind; [apply xlate_all_typed|]. intros ps _.
  apply typed_modify; [done|]. intros s Hs.
  destruct (set_bytes_typed ps v (mach s) (wt_ram s Hs) (wt_cr3 s Hs)). by apply typed_mach.
Qed.
Lemma load16_typed va : typed in_u16 (load16 va).
Proof. exact (load_typed 2 va). Qed.
Lemma load32_typed va : typed in_u32 (load32 va).
Proof. exact (load_typed 4 va). Qed.
Lemma store16_typed va v : typed any (store16 va v).
Proof. apply store_typed. Qed.
Lemma store32_typed va v : typed any (store32 va v).
Proof. apply store_typed. Qed.
Lemma privileged_typed e : typed any (privileged e).
Proof. apply typed_modify; [done|]. intros s Hs. apply typed_mach; [apply Hs..|done]. Qed.
Lemma cli_typed : typed any cli.
Proof. apply privileged_typed. Qed.
Lemma sti_typed : typed any sti.
Proof. apply privileged_typed. Qed.
Lemma hlt_typed : typed any hlt.
Proof. apply privileged_typed. Qed.
Lemma invlpg_typed va : typed any (invlpg va).
Proof. apply privileged_typed. Qed.
Lemma outb_typed port v : typed any (outb port v).
Proof. apply privileged_typed. Qed.
Lemma inb_typed port : typed in_u8 (inb port).
Proof.
  intros s Hs. split; [apply u8_range|]. apply typed_mach; [apply Hs..|done].
Qed.
#[export] Hint Resolve load16_typed load32_typed store16_typed store32_typed privileged_typed
  cli_typed sti_typed hlt_typed invlpg_typed outb_typed inb_typed : typed.

(** Assignments to the globals. *)
Ltac typed_set := apply typed_modify; [done|]; intros ? []; split; simpl; intuition auto with typed.
Lemma typed_console P f : P tt -> typed P (modify (set_console f)).
Proof. intros HP. apply typed_modify; [done|]. intros s []. by split. Qed.
Lemma typed_gets_any {A} (f : kst -> A) : typed any (gets f).
Proof. by apply typed_gets. Qed.
#[export] Hint Resolve typed_console typed_gets_any : typed.

(** * The console *)

Section console.
Import Vga.

Class TypedChars {A} (C : CharSource A) : Prop :=
  char_at_typed (str : A) k : typed any (char_at str k).
#[export] Instance literal_chars_typed : TypedChars literal_chars.
Proof. intros str k. by apply typed_ret. Qed.
#[export] Instance memory_chars_typed `{Fuel} : TypedChars memory_chars.
Proof. intros str k. simpl. solve_typed. Qed.
#[local] Hint Resolve char_at_typed : typed.

Lemma move_typed pos : typed any (move pos).
Proof. unfold move. solve_typed. Qed.
Lemma print_typed c i : typed any (print c i).
Proof. unfold print. solve_typed. Qed.
#[local] Hint Resolve move_typed print_typed : typed.
Lemma add_line_typed c : typed any (add_line c).
Proof. unfold add_line. solve_typed. Qed.
#[local] Hint Resolve add_line_typed : typed.
Lemma add_line_if_needed_typed c : typed any (add_line_if_needed c).
Proof. unfold add_line_if_needed. solve_typed. Qed.
#[local] Hint Resolve add_line_if_needed_typed : typed.
Lemma clear_typed i : typed any (clear i).
Proof. unfold clear. solve_typed. Qed.
Lemma put_char_typed c i : typed any (put_char c i).
Proof. unfold put_char. solve_typed. Qed.
#[local] Hint Resolve put_char_typed : typed.
Lemma print_number_typed v i : typed any (print_number v i).
Proof. unfold print_number. solve_typed. Qed.
Lemma print_hex_typed v i : typed any (print_hex v i).
Proof. unfold print_hex. solve_typed. Qed.
Lemma clear_screen_typed : typed any clear_screen.
Proof. unfold clear_screen. solve_typed. Qed.
#[local] Hint Resolve print_number_typed print_hex_typed : typed.
Lemma print_time_message_typed {A} `{TypedChars A} (str : A) i : typed any (print_time_message str i).
Proof.
  unfold print_time_message. generalize (char_bound str) 0. intros n. revert i.
  induction n as [|n IH]; intros i k; simpl; solve_typed.
Qed.
Lemma print_string_typed {A} `{TypedChars A} (str : A) i j : typed any (print_string str i j).
Proof.
  unfold print_string. assert (forall n k i j, typed any (print_string_loop n str k i j)) as Hl.
  { intros n. induction n; intros; simpl; solve_typed. }
  solve_typed.
Qed.
#[local] Hint Resolve print_string_typed : typed.
Lemma print_string_at_typed {A} `{TypedChars A} (str : A) : typed any (print_string_at str).
Proof. unfold print_string_at. solve_typed. Qed.
Lemma set_i_typed i : typed any (set_i i).
Proof. by apply typed_console. Qed.
Lemma set_j_typed i : typed any (set_j i).
Proof. by apply typed_console. Qed.
#[local] Hint Resolve set_i_typed : typed.
Lemma print_number_at_typed v : typed any (print_number_at v).
Proof. unfold print_number_at. solve_typed. Qed.
Lemma print_hex_at_typed v : typed any (print_hex_at v).
Proof. unfold print_hex_at. solve_typed. Qed.
End console.
#[export] Hint Resolve move_typed print_typed add_line_typed clear_typed print_number_typed
  print_hex_typed clear_screen_typed print_time_message_typed print_string_typed
  print_string_at_typed set_i_typed set_j_typed print_number_at_typed print_hex_at_typed : typed.
#[export] Hint Resolve literal_chars_typed memory_chars_typed : typed.

(** * The physical allocator *)

Section memory_map.
Import MemMap.

Lemma typed_pmm f s : well_typed s -> map_sound (f (pmm s)) ->
  in_u32 (next_virtual (f (pmm s))) -> Forall in_u32 (free_virtual (f (pmm s))) ->
  well_typed (set_pmm f s).
Proof. intros []. by split. Qed.

(** The map after an operation: stored, and well formed. *)
Lemma map_step_typed s s' :
  well_typed s -> map_step s s' -> map_wf (live s') -> well_typed s'.
Proof.
  intros Hs [(n & L & ->) [Hn Hl]] W. unfold MAX_FREE_PAGES in *.
  apply typed_pmm; [done| |apply Hs..]. by split; try apply (wt_map s Hs).
Qed.
Lemma well_typed_stored s : well_typed s -> map_stored s.
Proof. intros Hs. split; apply (wt_map s Hs). Qed.

Lemma get_entry_typed : typed any get_entry.
Proof. by apply typed_gets. Qed.
Lemma map_at_typed k : typed any (map_at k).
Proof. intros s Hs. unfold map_at. destruct (k <? 0); [done|]. by destruct (_ !! _). Qed.
Lemma allocate_typed size : 0 < size -> typed in_u32 (allocate size).
Proof.
  intros Hsize s Hs.
  destruct (allocate_cases size s (well_typed_stored s Hs) (mo_regions _ (wt_map s Hs)) Hsize)
    as [[-> _]|(i & e & post & s' & _ & -> & M & _ & _ & W & _)]; [done|].
  split; [apply u32_range|by apply (map_step_typed s)].
Qed.
Lemma free_typed pa : typed any (free pa).
Proof.
  intros s Hs.
  destruct (free_wf pa s (well_typed_stored s Hs) (mo_regions _ (wt_map s Hs))) as (s' & -> & M & W).
  split; [done|by apply (map_step_typed s)].
Qed.
End memory_map.
Lemma allocate_frame_typed : typed in_u32 (MemMap.allocate 4096).
Proof. by apply allocate_typed. Qed.
#[export] Hint Resolve get_entry_typed map_at_typed allocate_frame_typed free_typed : typed.

(** * Paging *)

Section paging.
Import Paging.

Lemma set_next_virtual_typed v : typed any (set_next_virtual v).
Proof.
  apply typed_modify; [done|]. intros s Hs.
  apply typed_pmm; [done| |apply u32_range|apply Hs]. by destruct (wt_map s Hs).
Qed.
Lemma set_free_count_typed v : 0 <= v <= 1024 -> typed any (set_free_count v).
Proof.
  intros Hv. apply typed_modify; [done|]. intros s Hs.
  apply typed_pmm; [done| |apply Hs..]. destruct (wt_map s Hs). split; try done.
  simpl. rewrite u32_small by width_lia. done.
Qed.
Lemma get_next_virtual_typed : typed in_u32 get_next_virtual.
Proof. apply typed_gets, wt_virtual. Qed.
Lemma get_free_count_typed : typed (fun n => 0 <= n <= 1024) get_free_count.
Proof. apply typed_gets. intros s Hs. apply (wt_map s Hs). Qed.
Lemma free_virtual_at_typed k : typed in_u32 (free_virtual_at k).
Proof.
  intros s Hs. unfold free_virtual_at. destruct (0 <=? k); [|done].
  destruct (_ !! _) eqn:He; [|done]. split; [|done].
  by apply (Forall_lookup_1 _ _ _ _ (wt_recycled s Hs) He).
Qed.
Lemma free_virtual_put_typed k v : in_u32 v -> typed any (free_virtual_put k v).
Proof.
  intros Hv s Hs. unfold free_virtual_put. destruct (_ && _); [|done]. split; [done|].
  destruct (wt_map s Hs). apply typed_pmm; [done| |apply Hs|].
  - split; try done. simpl. by rewrite length_insert.
  - simpl. apply Forall_insert; [apply Hs|done].
Qed.
Lemma load_page_directory_typed d : in_u32 d -> typed any (load_page_directory d).
Proof.
  intros Hd. apply typed_modify; [done|]. intros s Hs. apply typed_mach; [apply Hs|done|done].
Qed.
Lemma enable_paging_typed : typed any enable_paging.
Proof.
  apply typed_modify; [done|]. intros s Hs. apply typed_mach; [apply Hs..|done].
Qed.
#[local] Hint Resolve set_next_virtual_typed set_free_count_typed get_next_virtual_typed
  get_free_count_typed free_virtual_at_typed free_virtual_put_typed : typed.

Lemma search_typed i j : typed any (search i j).
Proof. unfold search. solve_typed. Qed.

Context `{Layout}.
Lemma init_virtual_allocator_typed : typed any init_virtual_allocator.
Proof. unfold init_virtual_allocator. solve_typed. Qed.
Lemma page_directory_at_typed d : typed in_u32 (page_directory_at d).
Proof. apply load32_typed. Qed.
Lemma page_directory_put_typed d v : typed any (page_directory_put d v).
Proof. apply store32_typed. Qed.
#[local] Hint Resolve page_directory_at_typed page_directory_put_typed : typed.
Lemma build_first_page_typed : typed any build_first_page.
Proof. unfold build_first_page. solve_typed. Qed.
Lemma new_table_typed d f : typed any (new_table d f).
Proof. unfold new_table. solve_typed. Qed.
#[local] Hint Resolve new_table_typed : typed.
Lemma map_page_typed p v f : typed any (map_page p v f).
Proof. unfold map_page. solve_typed. Qed.
Lemma take_virtual_typed : typed in_u32 take_virtual.
Proof.
  unfold take_virtual. eapply typed_bind; [apply get_free_count_typed|]. intros n Hn. simpl in Hn.
  destruct (Z.ltb_spec 0 n); [|solve_typed].
  eapply typed_bind; [apply set_free_count_typed; lia|]. solve_typed.
Qed.
#[local] Hint Resolve map_page_typed take_virtual_typed : typed.
Lemma allocate_page_typed f : typed in_u32 (allocate_page f).
Proof. unfold allocate_page. solve_typed; done. Qed.
Lemma allocate_pages_contig_typed n f : typed in_u32 (allocate_pages_contig n f).
Proof.
  unfold allocate_pages_contig.
  eapply typed_bind; [apply get_next_virtual_typed|]. intros v Hv.
  eapply typed_bind; [apply set_next_virtual_typed|]. intros _ _.
  eapply (typed_bind (fun r => default 0 r = 0)).
  - apply typed_for_return; [done|]. intros k. eapply typed_bind; [apply allocate_frame_typed|].
    intros p _. case_match; solve_typed; done.
  - intros [r|] Hr; apply typed_ret; simpl in *; [by subst|done].
Qed.
Lemma get_pte_typed v : typed in_u32 (get_pte v).
Proof. unfold get_pte. solve_typed; done. Qed.
Lemma not_mapped_typed p : typed any (not_mapped p).
Proof. unfold not_mapped. solve_typed. Qed.
#[local] Hint Resolve get_pte_typed not_mapped_typed : typed.
Lemma get_map_typed v : typed any (get_map v).
Proof. unfold get_map. solve_typed. Qed.
(** The page is pushed, or the stack is full and the behaviour undefined. *)
Lemma push_typed v : in_u32 v ->
  typed any (n ← get_free_count; set_free_count (n + 1);; free_virtual_put n v).
Proof.
  intros Hv s Hs. destruct (wt_map s Hs) as [H1 H2 H3 H4 H5].
  unfold get_free_count, set_free_count, free_virtual_put. rewrite gets_bind. unfold modify, mbind, K_bind.
  simpl. set (n := free_count (pmm s)) in *. destruct ((0 <=? n) && _) eqn:Hn; [|done].
  split; [done|]. rewrite H5 in Hn. apply andb_true_iff in Hn as [_ Hn]. rewrite (u32_small (n + 1)) by width_lia.
  refine (typed_pmm (fun p => PmmState _ _ _ _ _) s Hs _ _ _); [split; simpl; try done|apply Hs|].
  - lia.
  - by rewrite length_insert.
  - apply Forall_insert; [apply Hs|done].
Qed.
Lemma free_page_typed v : in_u32 v -> typed any (free_page v).
Proof.
  intros Hv. assert (typed any ((n ← get_free_count; set_free_count (n + 1);; free_virtual_put n v);;
    pte ← get_pte v; absent ← not_mapped pte;
    if absent : bool then mret tt else
    e ← load32 pte; MemMap.free (Z.land e 0xFFFFF000);; store32 pte 0)) as HT.
  { eapply typed_bind; [by apply push_typed|]. solve_typed. }
  intros s Hs. specialize (HT s Hs). rewrite bind_assoc in HT.
  erewrite bind_ext in HT; [exact HT|]. intros n s1. by rewrite bind_assoc.
Qed.
Lemma unmap_page_typed v : typed any (unmap_page v).
Proof. unfold unmap_page. solve_typed. Qed.
End paging.
#[export] Hint Resolve load_page_directory_typed enable_paging_typed search_typed
  init_virtual_allocator_typed build_first_page_typed map_page_typed allocate_page_typed
  allocate_pages_contig_typed get_map_typed free_page_typed unmap_page_typed : typed.

(** * Memory library, heap, tables and devices *)

Lemma memset_typed p v n : typed any (MemLib.memset p v n).
Proof. unfold MemLib.memset. solve_typed. Qed.
Lemma memcpy_typed d s n : typed any (MemLib.memcpy d s n).
Proof. unfold MemLib.memcpy. solve_typed. Qed.
#[export] Hint Resolve memset_typed memcpy_typed : typed.

Section heap.
Import Heap.
Context `{Layout} `{Fuel}.

Lemma get_heap_head_typed : typed in_u32 get_heap_head.
Proof. apply typed_gets. intros s Hs. apply (wt_heap s Hs). Qed.
Lemma set_heap_head_typed p : in_u32 p -> typed any (set_heap_head p).
Proof. intros Hp. typed_set. Qed.
Lemma set_current_block_typed p : in_u32 p -> typed any (set_current_block p).
Proof. intros Hp. typed_set. Qed.
Lemma block_size_typed p : typed in_u32 (block_size p).
Proof. apply load32_typed. Qed.
Lemma block_type_typed p : typed in_u8 (block_type p).
Proof. apply load8_typed. Qed.
Lemma block_next_typed p : typed in_u32 (block_next p).
Proof. apply load32_typed. Qed.
Lemma set_block_size_typed p v : typed any (set_block_size p v).
Proof. apply store32_typed. Qed.
Lemma set_block_type_typed p v : typed any (set_block_type p v).
Proof. apply store8_typed. Qed.
Lemma set_block_next_typed p v : typed any (set_block_next p v).
Proof. apply store32_typed. Qed.
#[local] Hint Resolve get_heap_head_typed set_heap_head_typed set_current_block_typed
  block_size_typed block_type_typed block_next_typed set_block_size_typed set_block_type_typed
  set_block_next_typed : typed.

Lemma init_block_typed p : typed any (init_block p).
Proof. unfold init_block. solve_typed. Qed.
#[local] Hint Resolve init_block_typed : typed.
Lemma find_best_typed n size p b : typed any (find_best n size p b).
Proof. revert p b. induction n as [|n IH]; intros p b; simpl; solve_typed. Qed.
Lemma take_block_typed b size : typed in_u32 (take_block b size).
Proof. unfold take_block. solve_typed. Qed.
Lemma first_page_typed f : typed any (first_page f).
Proof. unfold first_page. simpl. solve_typed. Qed.
Lemma more_pages_typed f : typed in_u32 (more_pages f).
Proof. unfold more_pages. simpl. solve_typed; done. Qed.
#[local] Hint Resolve find_best_typed take_block_typed first_page_typed more_pages_typed : typed.
Lemma kmalloc_typed size f : typed in_u32 (kmalloc size f).
Proof. unfold kmalloc. solve_typed; done. Qed.
Lemma kfree_typed p : typed any (kfree p).
Proof.
  unfold kfree. eapply typed_bind; [apply get_heap_head_typed|]. intros head _.
  generalize fuel. intros n. revert head. induction n as [|n IH]; intros head; simpl; solve_typed.
Qed.
Lemma inspect_typed : typed any inspect.
Proof.
  unfold inspect. eapply typed_bind; [apply get_heap_head_typed|]. intros head _.
  assert (forall n head, typed any (inspect_loop n head)) as Hl; [|apply Hl].
  intros n. induction n as [|n IH]; intros p; simpl; solve_typed.
Qed.
End heap.
#[export] Hint Resolve kmalloc_typed kfree_typed inspect_typed : typed.


Section tables.
Import Descriptors.

Lemma lor_range n a b : 0 <= n -> 0 <= a < 2 ^ n -> 0 <= b < 2 ^ n -> 0 <= Z.lor a b < 2 ^ n.
Proof.
  intros Hn Ha Hb. assert (0 <= Z.lor a b) by (apply Z.lor_nonneg; lia). split; [done|].
  apply Z.bounded_iff_bits_nonneg; [done|done|]. intros k Hk.
  by rewrite Z.lor_spec, !(testbit_above _ n) by lia.
Qed.
Lemma land_u8 a : in_u8 (Z.land a 0xFF).
Proof. rewrite land_0xFF. width_lia. Qed.
Lemma land_u16 a : in_u16 (Z.land a 0xFFFF).
Proof. rewrite land_0xFFFF. width_lia. Qed.
Lemma land_below_u8 a m : 0 <= a -> in_u8 m -> in_u8 (Z.land a m).
Proof.
  intros Ha Hm. assert (0 <= Z.land a m) by (apply Z.land_nonneg; by left). split; [done|].
  apply Z.bounded_iff_bits_nonneg; [done|done|]. intros k Hk.
  rewrite Z.land_spec, (testbit_above m 8) by (done || lia). apply andb_false_r.
Qed.

Lemma gdt_gate_typed base limit access gran :
  gate_typed (gdt_gate base limit access gran).
Proof.
  split; split; try apply land_u8; try apply land_u16; try apply u8_range.
  apply lor_range; [done| |apply land_below_u8; [apply u8_range|done]].
  simpl. rewrite land_0xF. width_lia.
Qed.
(** The privilege level a segment may have. *)
Definition level_allowed (n access : Z) : Prop :=
  u8 access / 32 mod 4 = 0 \/ u8 access / 32 mod 4 = 3 /\ (n = 3 \/ n = 4).
Lemma gdt_set_gate_typed n base limit access gran :
  level_allowed n access -> typed any (gdt_set_gate n base limit access gran).
Proof.
  intros Hn. apply typed_modify; [done|]. intros s []. split; simpl; try done.
  - destruct wt_tables0 as [G R T]. split; try done. intros k g. simpl.
    rewrite list_lookup_insert. case_decide as Hk; [|apply R].
    destruct Hk as [<- _]. intros [= <-]. unfold gate_ring. simpl.
    destruct Hn as [?|[? [-> | ->]]]; [by left|right; split; [done|by left]|right; split; [done|by right]].
  - rewrite length_insert. split; [apply wt_gdt0|].
    apply Forall_insert; [apply wt_gdt0|apply gdt_gate_typed].
Qed.
Definition tss_typed (t : tss_t) : Prop :=
  in_u32 (esp0 t) /\ (ss0 t = 0 \/ ss0 t = KERNEL_DS) /\ in_u16 (iomap_base t).
Lemma set_tss_typed f : (forall t, tss_typed t -> tss_typed (f t)) -> typed any (set_tss f).
Proof.
  intros Hf. apply typed_modify; [done|]. intros s []. destruct wt_tables0 as [G R T].
  destruct (Hf (tss (descs s))) as (H1 & H2 & H3); [split_and!; tauto|].
  split; simpl; try done. split_and!; [done|by destruct H2 as [-> | ->]|done].
Qed.
Lemma set_esp0_typed v : in_u32 v -> typed any (set_tss (fun t => Tss v (ss0 t) (iomap_base t))).
Proof. intros Hv. apply set_tss_typed. by intros t (? & ? & ?). Qed.
Lemma set_gp_typed p : typed any (set_gp p).
Proof. apply typed_modify; [done|]. intros s []. split; try done. by destruct wt_tables0. Qed.
Lemma set_idt_ptr_typed p : typed any (set_idt_ptr p).
Proof. apply typed_modify; [done|]. intros s []. split; try done. by destruct wt_tables0. Qed.
(** Only the gate at 0x80 may be for user code. *)
Definition gate_allowed (n type : Z) : Prop := u8 type / 32 mod 4 = 0 \/ n = 0x80.
Lemma add_typed n handler type : gate_allowed n type -> typed any (add n handler type).
Proof.
  intros Hn. apply typed_modify; [done|]. intros s []. split; simpl; try done.
  - destruct wt_tables0 as [G R T]. split; try done. intros k g. simpl.
    rewrite list_lookup_insert. case_decide as Hk; [|apply G]. destruct Hk as [<- _].
    intros [= <-]. right. split; [done|]. by destruct Hn as [?| ->]; [left|right].
  - rewrite length_insert. split; [apply wt_idt0|].
    apply Forall_insert; [apply wt_idt0|].
    split; (split; [try apply land_u16; try apply u8_range; done..]).
Qed.
#[local] Hint Extern 1 (level_allowed _ _) =>
  first [left; reflexivity | right; split; [reflexivity|tauto]] : typed.
#[local] Hint Resolve gdt_set_gate_typed set_esp0_typed set_gp_typed set_idt_ptr_typed add_typed : typed.
Lemma load_idt_typed p : typed any (load_idt p).
Proof. apply privileged_typed. Qed.

Context `{Layout}.
Lemma init_tss_typed : typed any init_tss.
Proof.
  unfold init_tss. solve_typed; apply set_tss_typed; intros t (? & ? & ?); split_and!;
    first [done|by left|by right].
Qed.
#[local] Hint Resolve init_tss_typed : typed.
Lemma init_gdt_typed : typed any init_gdt.
Proof. unfold init_gdt. solve_typed. Qed.
Lemma set_kernel_stack_typed p : typed any (set_kernel_stack p).
Proof. unfold set_kernel_stack. solve_typed. Qed.
End tables.
#[export] Hint Extern 1 (gate_allowed _ _) => first [left; reflexivity | right; reflexivity] : typed.
#[export] Hint Resolve set_esp0_typed set_idt_ptr_typed add_typed load_idt_typed init_gdt_typed
  set_kernel_stack_typed : typed.

Section devices.
Import Keyboard Pit.

Lemma read_typed : typed any read.
Proof. unfold read. solve_typed. Qed.
Lemma read_pit_count_typed : typed any read_pit_count.
Proof. unfold read_pit_count. solve_typed. Qed.
Lemma pit_init_typed d : typed any (pit_init d).
Proof. unfold pit_init. solve_typed. Qed.
Lemma get_seconds_typed : typed any get_seconds.
Proof. apply typed_gets_any. Qed.
End devices.
#[export] Hint Resolve read_typed read_pit_count_typed pit_init_typed get_seconds_typed : typed.

(** * Processes *)

Section processes.
Import Process.
Context `{Layout} `{Fuel}.

Lemma get_typed p f : typed in_u32 (get p f).
Proof. apply load32_typed. Qed.
Lemma set_typed p f v : typed any (set p f v).
Proof. apply store32_typed. Qed.
Lemma get_list_typed : typed in_u32 get_list.
Proof. apply typed_gets. intros s Hs. apply (wt_procs s Hs). Qed.
Lemma get_current_typed : typed in_u32 get_current.
Proof. apply typed_gets. intros s Hs. apply (wt_procs s Hs). Qed.
Lemma set_list_typed p : in_u32 p -> typed any (set_list p).
Proof. intros Hp. typed_set. Qed.
Lemma set_current_typed p : in_u32 p -> typed any (set_current p).
Proof. intros Hp. typed_set. Qed.
Lemma next_pid_typed n :
  typed any (modify (set_procs (fun r => ProcState (process_list r) (current_process r) (u16 n)))).
Proof. typed_set. Qed.
#[local] Hint Resolve get_typed set_typed get_list_typed get_current_typed set_list_typed
  set_current_typed next_pid_typed : typed.

Lemma halt_typed {A} (P : A -> Prop) : typed P halt.
Proof. unfold halt. solve_typed. Qed.
#[local] Hint Resolve halt_typed : typed.
Lemma find_process_typed p : typed any (find_process p).
Proof.
  unfold find_process. assert (forall n p c, typed any (find_loop n p c)) as Hl.
  { intros n. induction n; intros; simpl; solve_typed. }
  solve_typed.
Qed.
Lemma is_valid_process_ptr_typed p : typed any (is_valid_process_ptr p).
Proof.
  unfold is_valid_process_ptr. assert (forall n p c, typed any (is_valid_loop n p c)) as Hl.
  { intros n. induction n; intros; simpl; solve_typed. }
  solve_typed.
Qed.
Lemma last_process_typed n p : in_u32 p -> typed in_u32 (last_process n p).
Proof. revert p. induction n as [|n IH]; intros p Hp; simpl; solve_typed. Qed.
#[local] Hint Resolve last_process_typed : typed.
Lemma add_process_typed p : in_u32 p -> typed any (add_process p).
Proof. intros Hp. unfold add_process. solve_typed. Qed.
Lemma save_register_typed r f : typed any (save_register r f).
Proof. unfold save_register. solve_typed. Qed.
#[local] Hint Resolve add_process_typed save_register_typed : typed.
Lemma save_context_typed r : typed any (save_context r).
Proof. unfold save_context. solve_typed. Qed.
#[local] Hint Resolve save_context_typed : typed.
Lemma context_switch_typed {A} r p : in_u32 p -> typed (A := A) any (context_switch r p).
Proof. intros Hp. unfold context_switch. solve_typed. Qed.
Lemma first_ready_typed n p stop : in_u32 p -> typed in_u32 (first_ready n p stop).
Proof. revert p. induction n as [|n IH]; intros p Hp; simpl; solve_typed; done. Qed.
#[local] Hint Resolve first_ready_typed : typed.
Lemma schedule_typed : typed in_u32 schedule.
Proof. unfold schedule. solve_typed. Qed.
Lemma wake_processes_typed : typed any wake_processes.
Proof.
  unfold wake_processes. assert (forall n p, typed any (wake_loop n p)) as Hl.
  { intros n. induction n; intros; simpl; solve_typed. }
  solve_typed.
Qed.
#[local] Hint Resolve schedule_typed : typed.
Lemma exit_process_typed : typed any exit_process.
Proof. unfold exit_process. solve_typed. Qed.
#[local] Hint Resolve exit_process_typed : typed.
Lemma process_entry_typed call : (forall f, typed any (call f)) -> typed any (process_entry call).
Proof. intros Hc. unfold process_entry. solve_typed. Qed.
Lemma remove_process_typed p : typed any (remove_process p).
Proof. unfold remove_process. solve_typed. Qed.
#[local] Hint Resolve remove_process_typed : typed.
Lemma remove_process_list_typed p : typed any (remove_process_list p).
Proof.
  unfold remove_process_list.
  assert (forall n p c v, typed any (remove_loop n remove_process p c v)) as Hl.
  { intros n. induction n; intros; simpl; solve_typed. }
  solve_typed.
Qed.
Lemma init_regs_typed r e m k u : typed any (init_regs r e m k u).
Proof. unfold init_regs. solve_typed. Qed.
#[local] Hint Resolve init_regs_typed : typed.
Lemma init_process_typed p e m k u : in_u32 p -> typed any (init_process p e m k u).
Proof. intros Hp. unfold init_process. solve_typed. Qed.
#[local] Hint Resolve init_process_typed : typed.
Lemma create_process_typed e m : typed in_u32 (create_process e m).
Proof. unfold create_process. solve_typed; done. Qed.
End processes.
#[export] Hint Resolve get_typed set_typed get_list_typed get_current_typed halt_typed
  find_process_typed is_valid_process_ptr_typed context_switch_typed schedule_typed
  wake_processes_typed exit_process_typed process_entry_typed remove_process_list_typed
  create_process_typed : typed.

(** * Programs *)

Section programs.
Import Elf.
Context `{Layout} `{Fuel}.

Lemma e_ident_typed h k : typed any (e_ident h k).
Proof. unfold e_ident. solve_typed. Qed.
Lemma e_type_typed h : typed any (e_type h).
Proof. exact (typed_any _ _ (load16_typed _)). Qed.
Lemma e_machine_typed h : typed any (e_machine h).
Proof. exact (typed_any _ _ (load16_typed _)). Qed.
Lemma e_phsize_typed h : typed any (e_phsize h).
Proof. exact (typed_any _ _ (load16_typed _)). Qed.
Lemma e_phnum_typed h : typed any (e_phnum h).
Proof. exact (typed_any _ _ (load16_typed _)). Qed.
Lemma e_entry_typed h : typed any (e_entry h).
Proof. exact (typed_any _ _ (load32_typed _)). Qed.
Lemma e_phoff_typed h : typed any (e_phoff h).
Proof. exact (typed_any _ _ (load32_typed _)). Qed.
Lemma p_type_typed h : typed any (p_type h).
Proof. exact (typed_any _ _ (load32_typed _)). Qed.
Lemma p_offset_typed h : typed any (p_offset h).
Proof. exact (typed_any _ _ (load32_typed _)). Qed.
Lemma p_vaddr_typed h : typed any (p_vaddr h).
Proof. exact (typed_any _ _ (load32_typed _)). Qed.
Lemma p_filesz_typed h : typed any (p_filesz h).
Proof. exact (typed_any _ _ (load32_typed _)). Qed.
Lemma p_memsz_typed h : typed any (p_memsz h).
Proof. exact (typed_any _ _ (load32_typed _)). Qed.
#[local] Hint Resolve e_type_typed e_machine_typed e_phsize_typed e_phnum_typed e_entry_typed
  e_phoff_typed p_type_typed p_offset_typed p_vaddr_typed p_filesz_typed p_memsz_typed : typed.
#[local] Hint Resolve e_ident_typed : typed.

Lemma reject_typed msg : typed any (reject msg).
Proof. unfold reject. solve_typed. Qed.
#[local] Hint Resolve reject_typed : typed.
Lemma check_elf_file_typed h : typed any (check_elf_file h).
Proof. unfold check_elf_file. solve_typed. Qed.
#[local] Hint Resolve check_elf_file_typed : typed.
Lemma check_elf_supported_typed h : typed any (check_elf_supported h).
Proof. unfold check_elf_supported. solve_typed. Qed.
Lemma load_page_typed v : typed any (load_page v).
Proof. unfold load_page. solve_typed. Qed.
Lemma fill_segment_typed p f : typed any (fill_segment p f).
Proof. unfold fill_segment. solve_typed. Qed.
#[local] Hint Resolve check_elf_supported_typed load_page_typed fill_segment_typed : typed.
Lemma load_segment_typed p f : typed any (load_segment p f).
Proof. unfold load_segment. solve_typed. Qed.
#[local] Hint Resolve load_segment_typed : typed.
Lemma elf_load_exec_typed h f : typed any (elf_load_exec h f).
Proof.
  unfold elf_load_exec. assert (forall n i p h f, typed any (load_segments n i p h f)) as Hl.
  { intros n. induction n; intros; simpl; solve_typed. }
  solve_typed.
Qed.
#[local] Hint Resolve elf_load_exec_typed : typed.
Lemma elf_load_file_typed f : typed any (elf_load_file f).
Proof. unfold elf_load_file, elf_load_rel. solve_typed. Qed.
#[local] Hint Resolve elf_load_file_typed : typed.
Lemma create_elf_process_typed f : typed any (create_elf_process f).
Proof. unfold create_elf_process. solve_typed. Qed.
End programs.
#[export] Hint Resolve elf_load_file_typed create_elf_process_typed : typed.

(** * System calls and handlers *)

Section calls.
Import Process Syscall.
Context `{Layout} `{Fuel}.

Lemma sys_exit_typed v : typed any (sys_exit v).
Proof. unfold sys_exit. solve_typed. Qed.
Lemma sys_yield_typed r : typed any (sys_yield r).
Proof. unfold sys_yield. solve_typed. Qed.
Lemma sys_sleep_typed r t : typed any (sys_sleep r t).
Proof. unfold sys_sleep. solve_typed. Qed.
Lemma sys_prints_typed a : typed any (sys_prints a).
Proof. unfold sys_prints. solve_typed. Qed.
Lemma sys_printc_typed c : typed any (sys_printc c).
Proof. unfold sys_printc. solve_typed. Qed.
Lemma sys_printn_typed c : typed any (sys_printn c).
Proof. unfold sys_printn. solve_typed. Qed.
Lemma sys_printhex_typed c : typed any (sys_printhex c).
Proof. unfold sys_printhex. solve_typed. Qed.
Lemma sys_print_seconds_typed c : typed any (sys_print_seconds c).
Proof. unfold sys_print_seconds. solve_typed. Qed.
Lemma sys_get_pid_typed : typed any sys_get_pid.
Proof. unfold sys_get_pid. solve_typed. Qed.
Lemma sys_get_parent_pid_typed p : typed any (sys_get_parent_pid p).
Proof. unfold sys_get_parent_pid. solve_typed. Qed.
Lemma sys_wait_typed st r : typed any (sys_wait st r).
Proof.
  unfold sys_wait. assert (forall n st p, typed any (wait_loop n st p)) as Hl.
  { intros n. induction n; intros; simpl; solve_typed. }
  solve_typed.
Qed.
Lemma copy_registers_typed d s : typed any (copy_registers d s).
Proof. unfold copy_registers. solve_typed. Qed.
Lemma fix_frames_typed n f c p u d : typed any (fix_frames n f c p u d).
Proof. revert f. induction n; intros f; simpl; solve_typed. Qed.
#[local] Hint Resolve copy_registers_typed fix_frames_typed : typed.
Lemma copy_frame_typed c r : typed any (copy_frame c r).
Proof. unfold copy_frame. solve_typed. Qed.
Lemma copy_stack_typed p c r : typed any (copy_stack p c r).
Proof. unfold copy_stack. solve_typed. Qed.
#[local] Hint Resolve copy_frame_typed copy_stack_typed : typed.
Lemma sys_fork_typed r : typed any (sys_fork r).
Proof. unfold sys_fork. solve_typed. Qed.
Lemma sys_exec_typed f r : typed any (sys_exec f r).
Proof. unfold sys_exec. solve_typed. Qed.
Lemma sys_create_process_typed e m : typed any (sys_create_process e m).
Proof. unfold sys_create_process. solve_typed. Qed.
Lemma sys_kmalloc_typed n : typed any (sys_kmalloc n).
Proof. unfold sys_kmalloc. solve_typed. Qed.
Lemma sys_free_typed n : typed any (sys_free n).
Proof. unfold sys_free. solve_typed. Qed.
#[local] Hint Resolve sys_exit_typed sys_yield_typed sys_sleep_typed sys_prints_typed
  sys_printc_typed sys_printn_typed sys_printhex_typed sys_print_seconds_typed sys_get_pid_typed
  sys_get_parent_pid_typed sys_wait_typed sys_fork_typed sys_exec_typed sys_create_process_typed
  sys_kmalloc_typed sys_free_typed : typed.
Lemma return_to_typed r c : typed any c -> typed any (return_to r c).
Proof. intros Hc. unfold return_to. solve_typed. Qed.
Lemma syscall_dispatch_typed r : typed any (syscall_dispatch r).
Proof.
  unfold syscall_dispatch. eapply typed_bind; [apply get_typed|]. intros n _.
  repeat (case_match; [first [apply return_to_typed; solve [solve_typed] | solve [solve_typed]]|]).
  solve_typed.
Qed.
End calls.
#[export] Hint Resolve sys_yield_typed syscall_dispatch_typed : typed.

Section handlers.
Import Kernel.

Lemma typed_keys f s : well_typed s ->
  command_ready (f (keys s)) = 0 \/ command_ready (f (keys s)) = 1 ->
  length (command (f (keys s))) = 128%nat /\ Forall in_u8 (command (f (keys s))) ->
  well_typed (set_keys f s).
Proof. intros []. by split. Qed.
Lemma set_last_key_typed c : typed any (set_last_key c).
Proof. apply typed_modify; [done|]. intros s Hs. by apply typed_keys; [|apply Hs..]. Qed.
Lemma set_command_ready_typed c : c = 0 \/ c = 1 -> typed any (set_command_ready c).
Proof. intros Hc. apply typed_modify; [done|]. intros s Hs. by apply typed_keys; [| |apply Hs]. Qed.
Lemma set_command_index_typed c : typed any (set_command_index c).
Proof. apply typed_modify; [done|]. intros s Hs. by apply typed_keys; [|apply Hs..]. Qed.
Lemma command_put_typed k c : typed any (command_put k c).
Proof.
  unfold command_put. case_match; [|solve_typed]. apply typed_modify; [done|]. intros s Hs.
  apply typed_keys; [done|apply Hs|]. simpl. rewrite length_insert. split; [apply Hs|].
  apply Forall_insert; [apply Hs|apply u8_range].
Qed.
#[local] Hint Resolve set_last_key_typed set_command_ready_typed set_command_index_typed
  command_put_typed : typed.
Lemma command_push_typed c : typed any (command_push c).
Proof. unfold command_push. solve_typed. Qed.
Lemma move_i_typed : typed any move_i.
Proof. unfold move_i. solve_typed. Qed.
Lemma add_line_no_argument_typed : typed any add_line_no_argument.
Proof. apply typed_undefined. Qed.
Lemma get_i_typed : typed any get_i.
Proof. apply typed_gets_any. Qed.
Lemma get_j_typed : typed any get_j.
Proof. apply typed_gets_any. Qed.
#[local] Hint Resolve command_push_typed move_i_typed add_line_no_argument_typed get_i_typed
  get_j_typed : typed.
Lemma keyboard_handler_typed : typed any keyboard_handler.
Proof. unfold keyboard_handler. solve_typed. Qed.
Lemma fault_handler_typed v e i c : typed any (fault_handler v e i c).
Proof. unfold fault_handler. solve_typed. Qed.
Lemma remap_pic_typed : typed any remap_pic.
Proof. unfold remap_pic. solve_typed. Qed.
Lemma show_seconds_typed : typed any show_seconds.
Proof. unfold show_seconds. solve_typed. Qed.
Lemma sleep_process_typed t : typed any (sleep_process t).
Proof. unfold sleep_process. solve_typed. Qed.
#[local] Hint Resolve remap_pic_typed show_seconds_typed sleep_process_typed : typed.

Context `{Layout} `{Image} `{Fuel}.
Lemma tick_typed : typed any (modify (set_ticks (fun t => u32 (t + 1)))).
Proof. typed_set. Qed.
#[local] Hint Resolve tick_typed : typed.
Lemma irq0_handler_typed r : typed any (irq0_handler r).
Proof. unfold irq0_handler. solve_typed. Qed.

Context (interrupt : K unit) (HI : typed any interrupt).
Lemma sleep_typed t : typed any (sleep interrupt t).
Proof.
  unfold sleep. assert (forall n u, typed any (sleep_loop interrupt n u)) as Hl.
  { intros n. induction n; intros; simpl; solve_typed. }
  solve_typed.
Qed.
Lemma uptime_turn_typed l : typed any (uptime_turn l).
Proof. unfold uptime_turn. solve_typed. Qed.
Lemma test_sleep_typed : typed any (test_sleep interrupt).
Proof.
  unfold test_sleep. assert (forall n, typed any (sleeping interrupt n)) as Hl.
  { intros n. induction n; intros; simpl; solve_typed. }
  solve_typed.
Qed.
Lemma switch_mode_typed : typed any (switch_mode interrupt).
Proof.
  unfold switch_mode. assert (forall n u, typed any (choosing interrupt n u)) as Hl.
  { intros n. induction n; intros; simpl; solve_typed. }
  solve_typed.
Qed.
#[local] Hint Resolve switch_mode_typed : typed.
Lemma start_devices_typed : typed any start_devices.
Proof. unfold start_devices. solve_typed. Qed.
Lemma stay_in_bios_typed : typed any stay_in_bios.
Proof. unfold stay_in_bios. solve_typed. Qed.
#[local] Hint Resolve start_devices_typed stay_in_bios_typed : typed.
Lemma kernel_typed : LayoutOk -> typed any (kernel interrupt).
Proof.
  intros HL. assert (in_u32 page_directory_addr).
  { pose proof page_directory_in_image. pose proof kernel_end_low. unfold in_u32. lia. }
  unfold kernel. solve_typed.
Qed.
End handlers.
#[export] Hint Resolve keyboard_handler_typed fault_handler_typed irq0_handler_typed
  sleep_typed uptime_turn_typed test_sleep_typed kernel_typed : typed.

(** * Reachable states *)

Section reachable.
Import Kernel.
Context `{HL : Layout} {LayoutOk0 : LayoutOk} `{Image} `{Fuel}.







End reachable.

Section example.
#[local] Existing Instance example_layout.
#[local] Existing Instance example_layout_ok.
#[local] Instance example_image : Image := ltac:(split; exact 0x12000).
#[local] Instance few : Fuel := 3%nat.


End example.
